(* ===== verification/_CoqProject ===== *)
-Q . S2P
Prelude.v
PyFloat.v
PyStr.v
PyDateTime.v
PyMonad.v
PyDict.v
PyVal.v
Tasks.v
Workers.v
Supervision.v
Local.v
Orders.v
Risk.v
Execution.v
Concurrency.v
Collisions.v
Races.v
Mt5.v
Lifecycle.v
Storage.v
Trading.v
Registry.v
Calendar.v
Backtest.v
Redis.v
Security.v
Sessions.v
Gateway.v
Connections.v
Logout.v
Notifier.v
Scheduler.v
Config.v
Vault.v
MarketData.v
Streams.v
Sql.v
Migrations.v
Columns.v
Schema.v
Statements.v
Accounts.v
BacktestReport.v
Mt5Codes.v
Scripts.v
Drift.v
ForexFactory.v
Requests.v
Routes.v
Assets.v
Imports.v
Modules.v
Revisions.v
