(* ===== verification/Prelude.v ===== *)
(** * MTrader: a verification development

    MTrader is a set of Python services around one trading loop.  This library
    models the services' own logic as Rocq functions that follow the Python code
    line by line, and proves what makes each part correct, or, where the code
    does not do what it means to, exactly what it does instead.  Source files are
    named relative to the repository's src/ directory.

    ** The program and its parts

    The trading service (trading_service/src) takes orders over HTTP (app.py),
    asks the risk engine (risk/engine.py), stores them (storage/ and
    repositories/), sends them to MetaTrader 5 (connectors/mt5.py) and moves
    them through a status machine (execution/engine.py).  The API gateway (app/,
    api_gateway/src) holds accounts, tokens, an encrypted key vault, the settings
    and the WebSocket gateway over Redis.  Around them: the model registry
    (ml_service), the economic calendar (news_service), the backtest engine
    (backtest_service), market data (market_data_service), scheduled jobs
    (scheduler_service) and notifications (notifier_service); and, below all of
    them, the database that the revisions of migrations/ build, with the scripts
    (scripts/) that check it.

    ** How Python is modelled

    - PyFloat.v: a float is an IEEE 754 binary64 value (the Standard Library's
      executable SpecFloat), with rounding, NaN and infinities; Python's
      comparisons, [int()], [round()] and division errors.
    - PyStr.v, PyDateTime.v: strings of bytes with the methods used, numerals,
      the grammar of [float(s)] and [int(s)]; datetimes with the calendar,
      [isoformat], [fromisoformat] and [utcfromtimestamp].
    - PyDict.v: dictionaries as lists of items in insertion order; PyVal.v:
      dynamic values, truthiness, conversions and the exceptions they raise.
    - PyMonad.v: a call is a function from a state to a result or exception and
      the state after it, so effects made before a raise stay; [try_except],
      [on_exit] (context managers, [finally]), loops; pointwise equality as a
      setoid; the invariant rules ([preserves], [yields]) and the tactics that
      walk an operation's code ([solve_pres], [peel]).
    - Redis.v: tasks as trees of the calls they await, run alone or interleaved in
      pairs (the token code).
    - Tasks.v: asyncio's event loop.  A coroutine is a tree of awaited calls, each
      one step, and of acquisitions and releases of a lock; a pool is any number of
      them with the lock's queue and the shared state; a schedule says whose step is
      next, and a theorem holds for all schedules, or for all fair ones.  Its rules:
      invariants of every step, what a lock protects, sections served one by one in
      order of arrival, fair termination.  Local.v: reasoning about one task by the
      part of the state that the others leave alone; [finally]; tasks on a component
      of a larger state.  A task run alone is the operation it stands for, which the
      [_alone] lemmas of Concurrency.v and Connections.v show.
    - Workers.v: an event loop whose state starts background tasks, each repeating its
      turn, and whose coroutines take a lock, cancel such tasks and wait for their end; a
      [CancelledError] is raised at what the cancelled task awaits.  Supervision.v: rules
      under which a background task is alive whenever a flag of the state is up, and
      under which nobody waits for ever.
    - Imports.v: what importing a module executes, binds and raises; a successful import
      has found every name, and more installed packages do no harm.

    A component that owns state is a Record; each operation is one Definition
    over [M (State * W) A], where [W] is the world of its collaborators.  A
    collaborator that is code of another module is that module's definition
    (Trading.v composes them); one that is a library or a service (MetaTrader5,
    asyncpg, redis, jose, argon2, AES-GCM, SQLAlchemy, APScheduler, httpx, SMTP,
    pandas, numpy, BeautifulSoup, Alembic, the clock, uuid4) is a Record of calls, and what the code
    relies on of it is a typeclass of laws next to the theorems that use it,
    with an instance in memory on which the theorems are tried out.

    ** The components, in order of the files

    - Orders.v: [Order], its enums and transition table, [to_dict] and [hydrate]
      (execution/engine.py 14-82, 185-209).  Orders' JSON form reads back as the
      order; the life of an order is finite; an order is filled only after it was
      validated.
    - Risk.v: rules, [pre_trade_check], [monitor_positions], kill switch
      (risk/engine.py).  The check is the first violated rule's verdict; a clean
      approval means no enabled rule was violated, and clean approvals are spaced;
      the kill switch blocks until released and survives failing brokers; the
      exposure limit and soft rules do less than they say.
    - Execution.v: [submit_order], [cancel_order], [update_order_status], events
      (execution/engine.py).  Every stored row follows the transition table; the
      outcome of each operation on each branch; no order reaches the broker
      without approval.
    - Concurrency.v: submissions, which hold the engine's lock, and cancellations,
      updates and reads, which do not, as tasks (execution/engine.py).  Under every
      schedule each row follows the transition table; submissions have the results
      and the effect of running them one after the other in order of arrival; under
      every fair schedule every request ends.
    - Collisions.v: with a log of the checks and sends beside the collaborators, every
      order sent was checked immediately before; a cancellation in the middle of a
      submission leaves an order live that is stored as CANCELED; a callback that
      submits an order stops the engine.
    - Races.v: status updates as tasks of two steps, a read and a write, under any
      schedule (execution/engine.py; the updates hold no lock).  Rows stay within
      the reach of the transition table; of two interleaved updates the later one
      wins, even over a final status.
    - Mt5.v: the broker connector with its heartbeat, reconnection, validation and
      idempotency memory (connectors/mt5.py).  A request that is sent has passed
      every check; one broker order per client id; a refused order's retry is
      answered as accepted; reconnecting gives up; a repaired outage leaves one
      more heartbeat.
    - Lifecycle.v: [connect], [disconnect], [reconnect] and the heartbeats as coroutines
      of Workers.v (the same file).  Under every schedule a connected connector's
      heartbeat is alive, nobody waits for ever although [disconnect] holds the lock
      while it waits for a heartbeat, and the memory of sent orders stays; a
      disconnection lasts where there are no outages, and may not last after one.
    - Storage.v: every SQL method with text and parameters (storage/ and
      repositories/postgres_repository.py).  Saving is idempotent per client id,
      retries are bounded, UPDATE statements bind every placeholder.
    - Trading.v: the handlers of app.py and the composition of all the above.  The
      kill switch stops submissions; the composed service answers every order with
      400; orders with a price are sent as market deals; cancelling never works.
    - Registry.v: model versions and promotion gates (ml_service/src/registry/
      manager.py, src/app.py).  Approved versions have passed the gates; promotion
      archives the version before; rollback may leave two in production.
    - Calendar.v: merging providers, live updates, bias (news_service/src/calendar/
      engine.py).  The merge keeps one event per id, from a provider of highest
      priority, in order of time; live updates stop at the first news.
    - Backtest.v: the bar loop, costs and walk-forward windows (backtest_service/
      src/engine/backtester.py).  The books balance; the walk-forward loop ends.
    - BacktestReport.v: the report, the parameter search, [monte_carlo] and
      [stress_test] (backtester.py) and the service's routes (backtest_service/src/
      app.py).  The search returns the first best choice; the counts of a report
      add up; trades that all came out at zero break it; POST /walk-forward never
      runs a strategy.
    - Security.v: tokens over Redis (app/core/security.py).  A rotated token and a
      logged-out user's tokens are refused; two interleaved rotations both succeed.
    - Sessions.v: issuing and verifying together.  A token of a pair verifies for
      its user and device during its lifetime and no longer.
    - Gateway.v: connection registry, rate limiter, topic check and session loop
      (api_gateway/src/ws, middleware, routes).  The limiter is a sliding window;
      sessions add only permitted topics; disconnecting undoes connecting, unless
      the entry expired; the monitor closes after ninety silent seconds.
    - Connections.v: sessions, heartbeat monitors, revalidations and listeners as
      tasks over one Redis (the same files).  Under every schedule subscription sets
      gain only permitted topics, and a connection is listed only while its session
      has not ended.
    - Logout.v: the gateway's sessions over the tokens of Security.v.  Logging a user
      out keeps new sessions from opening and ends the live ones at their next
      revalidation.
    - Notifier.v (notifier_service/src/app.py): sixty notifications per recipient
      and process; three attempts.
    - Scheduler.v (scheduler_service/src/app.py): the outcome of a job's attempts;
      the table of schedules agrees with APScheduler's, unless a job is refused.
    - Config.v (app/core/config.py): the settings accepted, with b64decode.
    - Vault.v (app/core/crypto.py, app/services/vault_service.py, audit_service.py,
      app/api/routes/vault.py): a stored key comes back; users cannot touch each
      other's keys; a quarter of the master key is ignored.
    - MarketData.v (market_data_service/src): every running stream is listed; later
      subscribers get nothing; the service delivers no price.
    - Streams.v: its streams as tasks of Workers.v beside subscriptions and
      unsubscriptions (providers/base.py).  Under every schedule no stream gets away from
      its table and every unsubscription can end; a subscription made during another's
      end is deselected.
    - Sql.v: a reference catalog of PostgreSQL with TimescaleDB: a schema of tables,
      a reader of the statements the sources send, what each does to the schema and
      when it is refused.  It is the specification the migrations are measured by,
      not code of the program.
    - Migrations.v: 0001_init.sql, the revisions 002, 003 and 004 in both
      directions (migrations/versions/), scripts/migration_test.py and
      verify_migration.py.  On every database that follows the catalog the upgrades
      lead to one schema; revision 003 can be run again; its downgrade loses the
      unique key on the client order id, which the migration test does not notice;
      a server with TimescaleDB's rule on keys refuses revision 002.
    - Columns.v: columns that are in a table at no moment of an upgrade, wherever it
      stops.
    - Schema.v: the tables of app/models.py, which agree with 0001_init.sql, and
      the INSERT statements of Storage.v against the migrated schema: two fit, two
      do not, and no order is ever stored.
    - Statements.v: the UPDATE statements of Storage.v read back with the words of
      Sql.v and held against the migrated schema: an update fits exactly when its
      keywords are columns, and no position is ever closed.
    - Accounts.v: registration, login, refresh, the authenticated user
      (app/services/auth_service.py, app/api/deps.py, app/api/routes/auth.py).  A
      refresh token works once; an address has one account; where the database
      answers moments with an offset no session can be refreshed.
    - Mt5Codes.v: the connector's result codes against the protocol's, and its
      price queries, which raise as soon as there are two rows.
    - Scripts.v: the start-up of the gateway (app/main.py), the demo validation, the
      burn-in's turn and the load report (scripts/).  The gateway starts only with
      its settings and Redis; the demo validation passes against a server that
      refuses everything; the burn-in ends; the report's text holds no markup.
    - Drift.v: [detect_drift] (ml_service/src/registry/manager.py).  What a report
      covers and what it compares.
    - ForexFactory.v: the scraper and the silent providers (news_service/src/
      calendar/engine.py).  Every complete row becomes one event, dated now.
    - Requests.v: the constraints on request bodies (app/schemas.py), the session of
      a request (app/db.py), the trading service's start-up and the news service's
      routes.  A provider key that was accepted passes the key test; GET /events
      answers an empty list or fails.
    - Routes.v: the route tables of the eight applications, the notices of the
      deprecated endpoints, constant answers, the options of the server process and
      the set-up of tracing (app/main.py, app/api/routes/, api_gateway/src/routes/ws.py,
      app/core/telemetry.py, the services' app.py).  No route shadows another; the
      notice of the deprecated endpoint leads nowhere.
    - Assets.v: scripts/verify_assets.py.  Every mount of a compose file is found; the
      script succeeds exactly when what it looks for is there.
    - Modules.v: every module by what its top level imports and binds.  Six services can be
      imported exactly where the packages they need are installed, the gateway and
      the news service nowhere.
    - Revisions.v: the revisions' names and predecessors, which lead to no base, and
      alembic/env.py over Alembic's context.

    ** Bounds and fuel

    Loops over lists, [range(n)] and retry counters are structural.  Loops
    without a bound of their own are given as their turns ([monitor_once],
    [heartbeat_once], [turn_co], [live_once], [listen_once], [stream_once]) and, where a
    theorem needs several, as their first [n] turns.  [message_loop n] is the
    session of a client that leaves after [n] messages, for every [n].  The
    walk-forward loop has fuel: the months between its ends in units of 28 days,
    plus two, which [walk_forward_ends] proves to be enough when adding a month
    moves a date by at least 28 days.  A strategy's draws are the list of what
    [np.random.choice] answered, so the search is structural.  Statements are read
    word by word and parentheses by their depth, structurally on the text.
    The burn-in's loop has fuel, a turn for every second up to its end and one more,
    which [burnin_ends] proves to be enough; [interleave] follows its schedule.
    A schedule of Tasks.v is a list of task numbers, of any length; fairness is a
    property of infinite sequences of them, and [every_request_ends] gives the length
    after which all have ended.  Background tasks are taken for their first [n] turns,
    for every [n]; the heartbeats of Lifecycle.v and the streams of Streams.v repeat their turns
    without end.  The
    search for mounts has the length of the text as fuel, each turn leaving less
    ([findall_more]).  Imports within imports have fuel, as they have the interpreter's
    stack: twelve is enough for every service, and no amount is for the gateway
    ([what_starts_where]).

    ** Not modelled

    Logging and metrics.  What pandas, numpy and BeautifulSoup compute is an argument
    of the definitions that use it; the pandas expressions of the backtest service's demo
    strategy are not translated.  Argument parsing, what pydantic's EmailStr accepts,
    deployment files and the TypeScript front end.  app/services/auth_service.py and
    news_service/src/app.py cannot be imported as they are: Accounts.v and Requests.v take
    the names they lack as an argument.  Concurrency is modelled where claims depend on
    it: the execution engine, the connector's life cycle, the streams, the WebSocket gateway, token
    rotation;
    elsewhere requests of a service are taken one after the other.  Of cancellation,
    the one [disconnect] asks for is modelled; the gateway's listener, which [stop]
    cancels, may only run longer here than it does, and clients that hang up cancel
    nothing.  The lock of Workers.v goes to whoever asks next, in every possible
    order, where asyncio's goes to the first in its queue.

    ** Plan

    Every component is modelled.  What could follow: the types of the parameters that the repository
    binds against the schema's columns; the provider's [disconnect] among its streams;
    the execution engine and its connector under one event loop. *)

From Stdlib Require Import ZArith Lia List Bool Ascii String Sorted Permutation.
From stdpp Require Import base decidable list option strings.

(** ** Scopes

    The development's own notations live in [py_scope]. *)
Declare Scope py_scope.
Delimit Scope py_scope with py.

(** ** Hint databases

    [py_rw]: rewriting equations;
    [py_run]: lemmas that execute monadic code;
    [py_pres]: compositional rules for "this operation preserves an invariant";
    [py_list]: list and dictionary facts. *)
Create HintDb py_run.
Create HintDb py_pres.
Create HintDb py_list.
Create Rewrite HintDb py_rw.

(** ** Tactics *)

(** Split every conjunction of the context, substitute, and close easy goals. *)
Ltac inv_eq H := inversion H; clear H; simplify_eq/=.

(** Case analysis on the innermost scrutinee of a [match] in the goal. *)
Ltac case_goal :=
  match goal with
  | |- context [match ?x with _ => _ end] =>
      lazymatch x with
      | context [match _ with _ => _ end] => fail
      | _ => let E := fresh "E" in destruct x eqn:E
      end
  end.

(** The same for a hypothesis. *)
Ltac case_hyp H :=
  match type of H with
  | context [match ?x with _ => _ end] =>
      lazymatch x with
      | context [match _ with _ => _ end] => fail
      | _ => let E := fresh "E" in destruct x eqn:E
      end
  end.

(** Run a computation in the goal to the end: every match is split and the
    impossible branches are closed. *)
Ltac run_all := repeat (case_goal; simplify_eq/=); try done.

(** ** Generic lemmas *)

Section Lists.
Context {A B : Type}.

(** The elements a boolean test keeps, as Python's comprehension
    [[x for x in l if p(x)]]. *)
Lemma filter_In_iff (p : A → bool) (l : list A) (x : A) :
  In x (List.filter p l) ↔ In x l ∧ p x = true.
Proof. apply filter_In. Qed.

Lemma filter_all (p : A → bool) (l : list A) :
  Forall (λ x, p x = true) l → List.filter p l = l.
Proof. induction 1 as [|x l Hx _ IH]; simpl; [done|by rewrite Hx, IH]. Qed.

Lemma filter_none (p : A → bool) (l : list A) :
  Forall (λ x, p x = false) l → List.filter p l = [].
Proof. induction 1 as [|x l Hx _ IH]; simpl; [done|by rewrite Hx]. Qed.

Lemma filter_idemp (p : A → bool) (l : list A) :
  List.filter p (List.filter p l) = List.filter p l.
Proof.
  apply filter_all, List.Forall_forall. intros x Hx.
  by apply filter_In_iff in Hx as [_ ?].
Qed.

Lemma fold_left_snoc (f : B → A → B) (l : list A) (x : A) (b : B) :
  fold_left f (l ++ [x]) b = f (fold_left f l b) x.
Proof. by rewrite fold_left_app. Qed.

(** An invariant of an accumulator holds after the whole loop. *)
Lemma fold_left_inv (I : B → Prop) (f : B → A → B) (l : list A) (b : B) :
  (∀ acc x, In x l → I acc → I (f acc x)) → I b → I (fold_left f l b).
Proof.
  revert b. induction l as [|x l IH]; intros b Hf Hb; simpl; [done|].
  apply IH; [|by apply Hf; [left|]]. intros acc y Hy. apply Hf. by right.
Qed.
End Lists.

(** ** Sorting

    [sorted(l, key=key)]: insertion keeps equal keys in their order. *)

Section Sort.
Context {A : Type} (key : A → Z).

Fixpoint insert_by (m : A) (l : list A) : list A :=
  match l with
  | [] => [m]
  | x :: r => if (key m <? key x)%Z then m :: l else x :: insert_by m r
  end.

Definition sort_by (l : list A) : list A := fold_left (λ acc m, insert_by m acc) l [].

Definition key_le (a b : A) : Prop := (key a <= key b)%Z.

Lemma insert_by_Permutation m l : Permutation (m :: l) (insert_by m l).
Proof.
  induction l as [|x l IH]; simpl; [done|]. destruct (key m <? key x)%Z; [done|].
  etransitivity; [apply perm_swap|]. by constructor.
Qed.

Lemma insert_by_sorted m l : StronglySorted key_le l → StronglySorted key_le (insert_by m l).
Proof.
  induction 1 as [|x l Hl IH Hx]; simpl; [by repeat constructor|].
  destruct (Z.ltb_spec (key m) (key x)).
  - constructor; [by constructor|]. constructor; [unfold key_le; lia|].
    eapply Forall_impl; [exact Hx|]. unfold key_le. intros y Hy. lia.
  - constructor; [done|]. apply List.Forall_forall. intros y Hy.
    apply (Permutation_in y (Permutation_sym (insert_by_Permutation m l))) in Hy as [<-|Hy]; [unfold key_le; lia|].
    rewrite List.Forall_forall in Hx. by apply Hx.
Qed.

Lemma sort_by_gen l acc :
  StronglySorted key_le acc →
  StronglySorted key_le (fold_left (λ acc m, insert_by m acc) l acc) ∧
  Permutation (l ++ acc) (fold_left (λ acc m, insert_by m acc) l acc).
Proof.
  revert acc. induction l as [|x l IH]; intros acc Hacc; simpl; [done|].
  destruct (IH (insert_by x acc) (insert_by_sorted x acc Hacc)) as [Hs Hp]. split; [done|].
  etransitivity; [|exact Hp]. etransitivity; [apply Permutation_middle|].
  apply Permutation_app_head, insert_by_Permutation.
Qed.

Lemma sort_by_sorted l : StronglySorted key_le (sort_by l).
Proof. apply (sort_by_gen l []). constructor. Qed.

Lemma sort_by_Permutation l : Permutation l (sort_by l).
Proof. rewrite <- (app_nil_r l) at 1. apply (sort_by_gen l []). constructor. Qed.

Lemma In_sort_by x l : In x (sort_by l) ↔ In x l.
Proof. split; apply Permutation_in; [symmetry|]; apply sort_by_Permutation. Qed.
End Sort.

#[export] Hint Resolve filter_all filter_none : py_list.
#[export] Hint Rewrite @filter_idemp @fold_left_snoc : py_rw.
