(* ===== verification/PyFloat.v ===== *)
(** * Python's [float]: IEEE 754 binary64

    A Python [float] is a C double.  [float] is the kernel-computable
    specification of IEEE 754 arithmetic of the standard library, fixed at
    53 bits of precision and exponent bound 1024, with the rounding, the signed
    zeros, the infinities and the NaN of the hardware.  Nothing is assumed:
    every operation below evaluates by [vm_compute].

    [f_of_ratio] is the correctly rounded quotient of two integers, which is
    both Python's [int / int] and the value of a decimal literal (the literal
    [0.05] is the double nearest 5/100). *)

From Stdlib Require Import ZArith Lia Bool List Ascii String.
From Stdlib Require Export SpecFloat.
From stdpp Require Import base decidable option list strings.
From S2P Require Import Prelude.
Open Scope Z_scope.

Definition float : Type := spec_float.

(** ** Arithmetic *)

Definition fadd : float → float → float := SFadd 53 1024.
Definition fsub : float → float → float := SFsub 53 1024.
Definition fmul : float → float → float := SFmul 53 1024.
Definition fdiv : float → float → float := SFdiv 53 1024.
Definition fabs : float → float := SFabs.
Definition fneg : float → float := SFopp.

(** ** Comparison.  [x > y] is [flt y x]; a comparison with NaN is [False]. *)

Definition flt : float → float → bool := SFltb.
Definition fle : float → float → bool := SFleb.
Definition feq : float → float → bool := SFeqb.

Definition is_nan (x : float) : bool :=
  match x with S754_nan => true | _ => false end.
Definition is_zero (x : float) : bool :=
  match x with S754_zero _ => true | _ => false end.
Definition is_finite (x : float) : bool :=
  match x with S754_zero _ | S754_finite _ _ _ => true | _ => false end.

(** ** Conversions *)

(** [float(z)] for an integer, before the overflow test. *)
Definition f_of_Z (z : Z) : float := binary_normalize 53 1024 z 0 false.

(** The double nearest [n / d]. *)
Definition f_of_ratio (neg : bool) (n d : positive) : float :=
  let '(m, e, l) := SFdiv_core_binary 53 1024 (Zpos n) 0 (Zpos d) 0 in
  binary_round_aux 53 1024 neg m e l.

(** A decimal literal of the source, written as a ratio of integers. *)
Definition flit (n : Z) (d : positive) : float :=
  match n with
  | Z0 => S754_zero false
  | Zpos p => f_of_ratio false p d
  | Zneg p => f_of_ratio true p d
  end.

Definition f0 : float := S754_zero false.
Definition f1 : float := flit 1 1.

(** [int(x)] truncates towards zero; [None] for NaN and the infinities, where
    Python raises. *)
Definition f_trunc (x : float) : option Z :=
  match x with
  | S754_zero _ => Some 0
  | S754_finite s m e =>
      let a := match e with
               | Zneg p => Zpos m / Z.pow_pos 2 p
               | Z0 => Zpos m
               | Zpos p => Zpos m * Z.pow_pos 2 p
               end in
      Some (if s then - a else a)
  | _ => None
  end.

(** [round(x)] of a float: the nearest integer, ties to even. *)
Definition f_round (x : float) : option Z :=
  match x with
  | S754_zero _ => Some 0
  | S754_finite s m e =>
      let a := match e with
               | Zneg p =>
                   let d := Z.pow_pos 2 p in
                   let q := Zpos m / d in
                   let r := Zpos m mod d in
                   match 2 * r ?= d with
                   | Lt => q
                   | Gt => q + 1
                   | Eq => if Z.even q then q else q + 1
                   end
               | Z0 => Zpos m
               | Zpos p => Zpos m * Z.pow_pos 2 p
               end in
      Some (if s then - a else a)
  | _ => None
  end.

(** Python's two-argument [min] and [max] on floats return the first argument
    unless the second is strictly smaller (greater). *)
Definition fmin (x y : float) : float := if flt y x then y else x.
Definition fmax (x y : float) : float := if flt x y then y else x.

(** [sum(l)] of floats: the left fold from the integer 0, which adds exactly. *)
Definition fsum (l : list float) : float := fold_left fadd l f0.

Create HintDb py_float.

(** ** The order of the doubles

    Every double that is not NaN has a rank, a triple of integers whose
    lexicographic order is the order of the doubles. *)

Definition rank (x : float) : Z * Z * Z :=
  match x with
  | S754_infinity true => (-2, 0, 0)
  | S754_finite true m e => (-1, - e, Zneg m)
  | S754_zero _ | S754_nan => (0, 0, 0)
  | S754_finite false m e => (1, e, Zpos m)
  | S754_infinity false => (2, 0, 0)
  end.

Definition lex3 (a b : Z * Z * Z) : comparison :=
  let '(a1, a2, a3) := a in
  let '(b1, b2, b3) := b in
  match a1 ?= b1 with
  | Eq => match a2 ?= b2 with Eq => a3 ?= b3 | c => c end
  | c => c
  end.

Lemma fcompare_rank (x y : float) :
  is_nan x = false → is_nan y = false →
  SFcompare x y = Some (lex3 (rank x) (rank y)).
Proof.
  intros Hx Hy.
  destruct x as [sx|sx| |sx mx ex]; try discriminate Hx;
    destruct y as [sy|sy| |sy my ey]; try discriminate Hy;
    try destruct sx; try destruct sy; simpl; try reflexivity.
  - rewrite Z.compare_opp, (Z.compare_antisym ex ey).
    by destruct (ex ?= ey).
Qed.

Lemma lex3_antisym a b : lex3 b a = CompOpp (lex3 a b).
Proof.
  destruct a as [[a1 a2] a3], b as [[b1 b2] b3]; simpl.
  rewrite (Z.compare_antisym a1 b1), (Z.compare_antisym a2 b2), (Z.compare_antisym a3 b3).
  by destruct (a1 ?= b1), (a2 ?= b2), (a3 ?= b3).
Qed.

Lemma lex3_lt a b :
  lex3 a b = Lt ↔
  let '(a1, a2, a3) := a in let '(b1, b2, b3) := b in
  a1 < b1 ∨ (a1 = b1 ∧ (a2 < b2 ∨ (a2 = b2 ∧ a3 < b3))).
Proof.
  destruct a as [[a1 a2] a3], b as [[b1 b2] b3]; simpl.
  destruct (Z.compare_spec a1 b1), (Z.compare_spec a2 b2), (Z.compare_spec a3 b3);
    split; intros; try discriminate; try reflexivity; lia.
Qed.

Lemma flt_rank (x y : float) :
  flt x y = true ↔ is_nan x = false ∧ is_nan y = false ∧ lex3 (rank x) (rank y) = Lt.
Proof.
  destruct (is_nan x) eqn:Hx; [by destruct x; split; intros; destruct_and?|].
  destruct (is_nan y) eqn:Hy; [by destruct y; destruct x; split; intros; destruct_and?|].
  unfold flt, SFltb. rewrite (fcompare_rank x y Hx Hy).
  destruct (lex3 _ _); intuition congruence.
Qed.

Lemma flt_irrefl (x : float) : flt x x = false.
Proof.
  destruct (flt x x) eqn:E; [|done].
  apply flt_rank in E as (_ & _ & E). apply lex3_lt in E.
  destruct (rank x) as [[? ?] ?]. lia.
Qed.

Lemma flt_asym (x y : float) : flt x y = true → flt y x = false.
Proof.
  intros H. destruct (flt y x) eqn:E; [|done].
  apply flt_rank in H as (_ & _ & H), E as (_ & _ & E).
  rewrite lex3_antisym, H in E. discriminate.
Qed.

Lemma flt_trans (x y z : float) : flt x y = true → flt y z = true → flt x z = true.
Proof.
  rewrite !flt_rank, !lex3_lt. intros (? & ? & H1) (? & ? & H2).
  destruct (rank x) as [[? ?] ?], (rank y) as [[? ?] ?], (rank z) as [[? ?] ?].
  repeat split; [done..|]. lia.
Qed.

(** [x <= y] is the negation of [y < x] on numbers; both are false on NaN. *)
Lemma fle_flt (x y : float) :
  fle x y = negb (is_nan x) && negb (is_nan y) && negb (flt y x).
Proof.
  unfold fle, flt, SFleb, SFltb.
  destruct (is_nan x) eqn:Hx; [by destruct x|].
  destruct (is_nan y) eqn:Hy; [by destruct x as [| | |], y|]. simpl.
  rewrite (fcompare_rank x y Hx Hy), (fcompare_rank y x Hy Hx), lex3_antisym.
  by destruct (lex3 (rank y) (rank x)).
Qed.

Lemma flt_nan_l (x y : float) : flt x y = true → is_nan x = false.
Proof. by intros (? & _)%flt_rank. Qed.

Lemma flt_nan_r (x y : float) : flt x y = true → is_nan y = false.
Proof. by intros (_ & ? & _)%flt_rank. Qed.

Lemma fle_rank (x y : float) :
  fle x y = true ↔ is_nan x = false ∧ is_nan y = false ∧ lex3 (rank y) (rank x) ≠ Lt.
Proof.
  rewrite fle_flt, !andb_true_iff, !negb_true_iff, <- (not_true_iff_false (flt y x)).
  rewrite flt_rank. tauto.
Qed.

Lemma fle_trans (x y z : float) : fle x y = true → fle y z = true → fle x z = true.
Proof.
  rewrite !fle_rank, !lex3_lt. intros (? & ? & H1) (? & ? & H2).
  destruct (rank x) as [[? ?] ?], (rank y) as [[? ?] ?], (rank z) as [[? ?] ?].
  repeat split; [done..|]. lia.
Qed.

#[export] Hint Resolve fle_trans flt_irrefl flt_asym flt_trans flt_nan_l flt_nan_r : py_float.

(** Literals evaluate to the doubles Python reads. *)
Example flit_twentieth : flit 5 100 = S754_finite false 7205759403792794 (-57).
Proof. reflexivity. Qed.

Example flit_sum : feq (fadd (flit 1 10) (flit 2 10)) (flit 3 10) = false.
Proof. reflexivity. Qed.

Example f_round_half_even : (f_round (flit 5 2), f_round (flit 7 2), f_round (flit (-5) 2)) = (Some 2, Some 4, Some (-2)).
Proof. reflexivity. Qed.

(** ** Magnitude of a rounded result

    Rounding a product to 53 bits raises the exponent of the exact result's
    53-bit window by at most one. *)

Lemma digits2_log2 (p : positive) : Zpos (digits2_pos p) = Z.log2 (Zpos p) + 1.
Proof.
  induction p as [p IH|p IH|]; cbn [digits2_pos]; [| |done];
    rewrite Pos2Z.inj_succ, IH.
  - rewrite (Pos2Z.inj_xI p), Z.log2_succ_double by lia. lia.
  - rewrite (Pos2Z.inj_xO p), Z.log2_double by lia. lia.
Qed.

Lemma Zdigits2_log2 (m : Z) : 0 < m → Zdigits2 m = Z.log2 m + 1.
Proof. destruct m as [|p|p]; try lia. intros _. apply digits2_log2. Qed.

Lemma iter_pos_iter {A} (f : A → A) (n : positive) (x : A) :
  SpecFloat.iter_pos f n x = Nat.iter (Pos.to_nat n) f x.
Proof.
  revert x. induction n as [n IH|n IH|]; intros x; cbn [SpecFloat.iter_pos]; [| |done].
  - rewrite !IH, Pos2Nat.inj_xI, <- Nat.iter_add, <- Nat.iter_succ_r.
    f_equal. lia.
  - rewrite !IH, Pos2Nat.inj_xO, <- Nat.iter_add. f_equal. lia.
Qed.

Lemma shr_1_m mrs : 0 <= shr_m mrs → shr_m (shr_1 mrs) = shr_m mrs / 2.
Proof.
  destruct mrs as [m r s]; cbn [shr_m]; intros Hm.
  rewrite <- Z.div2_div. destruct m as [|[p|p|]|p]; try reflexivity. lia.
Qed.

Lemma shr_iter_m (n : nat) mrs :
  0 <= shr_m mrs → shr_m (Nat.iter n shr_1 mrs) = shr_m mrs / 2 ^ Z.of_nat n.
Proof.
  induction n as [|n IH]; intros Hm; [by rewrite Z.div_1_r|].
  cbn [Nat.iter nat_rect]. change (nat_rect _ mrs _ n) with (Nat.iter n shr_1 mrs).
  rewrite shr_1_m, IH by (try rewrite IH by done; try done; apply Z.div_pos; lia).
  rewrite Nat2Z.inj_succ, Z.pow_succ_r, (Z.mul_comm 2), Z.div_div by lia. done.
Qed.

(** The mantissa and exponent after aligning to the 53-bit window. *)
Lemma shr_fexp_spec (m e : Z) (l : location) :
  0 < m →
  let '(mrs, e') := shr_fexp 53 1024 m e l in
  e' = Z.max e (Z.max (Z.log2 m + 1 + e - 53) (-1074)) ∧
  shr_m mrs = m / 2 ^ (e' - e).
Proof.
  intros Hm. unfold shr_fexp. rewrite Zdigits2_log2 by done.
  unfold fexp, emin. change (3 - 1024 - 53) with (-1074).
  set (n := Z.max (Z.log2 m + 1 + e - 53) (-1074) - e).
  assert (Hl : shr_m (shr_record_of_loc m l) = m) by (destruct l as [|[]]; done).
  destruct n as [|p|p] eqn:En; simpl.
  - split; [lia|]. rewrite Z.sub_diag, Z.div_1_r. done.
  - split; [lia|]. rewrite iter_pos_iter, shr_iter_m, Hl by lia.
    do 2 f_equal. lia.
  - split; [lia|]. rewrite Z.sub_diag, Z.div_1_r. done.
Qed.

Lemma round_nearest_even_bound m l : m <= round_nearest_even m l <= m + 1.
Proof. destruct l as [|[]]; simpl; try lia. destruct (Z.even m); lia. Qed.

Lemma log2_div_pow2 (m k : Z) :
  0 <= k → 0 < m / 2 ^ k → Z.log2 (m / 2 ^ k) = Z.log2 m - k.
Proof.
  intros Hk Hm.
  assert (H2 : 0 < 2 ^ k) by (apply Z.pow_pos_nonneg; lia).
  assert (0 < m) as Hpos.
  { destruct (Z.le_gt_cases m 0) as [Hle|]; [|done].
    pose proof (Z.div_le_mono m 0 (2 ^ k) H2 Hle). rewrite Z.div_0_l in *; lia. }
  assert (k <= Z.log2 m).
  { destruct (Z.le_gt_cases k (Z.log2 m)) as [|Hgt]; [done|].
    rewrite Z.div_small in Hm; [lia|]. split; [lia|]. apply Z.log2_lt_pow2; lia. }
  rewrite <- Z.shiftr_div_pow2, Z.log2_shiftr by done. lia.
Qed.

Lemma window_mantissa_bound (m e e' : Z) :
  0 < m → e' = Z.max e (Z.max (Z.log2 m + 1 + e - 53) (-1074)) →
  m / 2 ^ (e' - e) < 2 ^ 53.
Proof.
  intros Hm ->. apply Z.div_lt_upper_bound; [apply Z.pow_pos_nonneg; lia|].
  rewrite <- Z.pow_add_r by lia.
  apply Z.lt_le_trans with (2 ^ (Z.log2 m + 1)); [by apply Z.log2_spec|].
  apply Z.pow_le_mono_r; lia.
Qed.

(** A rounded positive result keeps its sign, is never NaN, and its exponent is
    at most one above the window of the exact result. *)
Lemma round_aux_magnitude (s : bool) (m e : Z) (l : location) :
  0 < m →
  match binary_round_aux 53 1024 s m e l with
  | S754_finite s' _ e' =>
      s' = s ∧ e' <= Z.max e (Z.max (Z.log2 m + 1 + e - 53) (-1074)) + 1 ∧ e' <= 971
  | S754_zero s' => s' = s
  | S754_infinity s' =>
      s' = s ∧ 971 < Z.max e (Z.max (Z.log2 m + 1 + e - 53) (-1074)) + 1
  | S754_nan => False
  end.
Proof.
  intros Hm. unfold binary_round_aux.
  pose proof (shr_fexp_spec m e l Hm) as H1.
  destruct (shr_fexp 53 1024 m e l) as [mrs' e']. destruct H1 as [He' Hm'].
  pose proof (window_mantissa_bound m e e' Hm He') as Hb.
  assert (0 <= shr_m mrs') by (rewrite Hm'; apply Z.div_pos; [lia|apply Z.pow_pos_nonneg; lia]).
  pose proof (round_nearest_even_bound (shr_m mrs') (loc_of_shr_record mrs')) as Hr.
  set (m1 := round_nearest_even _ _) in *.
  destruct (Z.eq_dec m1 0) as [E0|Hne].
  - rewrite E0. unfold shr_fexp, fexp, emin. cbn [Zdigits2].
    change (3 - 1024 - 53) with (-1074).
    destruct (Z.max (0 + e' - 53) (-1074) - e') eqn:En; simpl; try done. lia.
  - assert (0 < m1) as Hm1 by lia.
    pose proof (shr_fexp_spec m1 e' loc_Exact Hm1) as H2.
    destruct (shr_fexp 53 1024 m1 e' loc_Exact) as [mrs'' e'']. destruct H2 as [He'' Hm''].
    assert (Z.log2 m1 <= 53) by (rewrite <- (Z.log2_pow2 53) by lia; apply Z.log2_le_mono; lia).
    assert (0 <= shr_m mrs'') by (rewrite Hm''; apply Z.div_pos; [lia|apply Z.pow_pos_nonneg; lia]).
    destruct (shr_m mrs'') as [|p|p]; [done| |lia].
    destruct (Z.leb_spec e'' (1024 - 53)); repeat split; lia.
Qed.

(** A constant whose exponent is far enough below zero shrinks every number. *)
Lemma fmul_shrinks (mc mx : positive) (ec ex : Z) :
  Z.log2 (Zpos mc) + Z.log2 (Zpos mx) + ec < 50 → ec <= -2 → -1073 < ex → ex <= 971 →
  flt (fmul (S754_finite false mc ec) (S754_finite false mx ex)) (S754_finite false mx ex) = true.
Proof.
  intros Hlog Hec Hex Hex2. unfold fmul, SFmul. cbn [xorb].
  pose proof (round_aux_magnitude false (Zpos (mc * mx)) (ec + ex) loc_Exact eq_refl) as H.
  assert (Z.log2 (Zpos (mc * mx)) <= Z.log2 (Zpos mc) + Z.log2 (Zpos mx) + 1)
    by (rewrite Pos2Z.inj_mul; apply Z.log2_mul_above; lia).
  destruct (binary_round_aux 53 1024 false (Zpos (mc * mx)) (ec + ex) loc_Exact)
    as [s|s| |s m e]; [by subst| |done|].
  - destruct H as [_ H]. lia.
  - destruct H as (-> & He & _). unfold flt, SFltb, SFcompare.
    assert ((e ?= ex) = Lt) as -> by (apply Z.compare_lt_iff; lia). done.
Qed.

(** The doubles proper: 53-bit mantissas at their canonical exponents. *)
Definition valid_float (x : float) : bool := valid_binary 53 1024 x.

Lemma valid_finite (s : bool) (m : positive) (e : Z) :
  valid_float (S754_finite s m e) = true → Z.log2 (Zpos m) <= 52 ∧ -1074 <= e <= 971.
Proof.
  unfold valid_float, valid_binary, bounded, canonical_mantissa, fexp, emin.
  rewrite andb_true_iff, Z.eqb_eq, Z.leb_le, digits2_log2. lia.
Qed.

(** A twentieth of a number above one is below that number. *)
Lemma fmul_twentieth (x : float) :
  valid_float x = true → is_finite x = true → flt f1 x = true →
  flt (fmul (flit 5 100) x) x = true.
Proof.
  intros Hv Hfin H1. apply flt_rank in H1 as (_ & _ & H1). apply lex3_lt in H1.
  change (rank f1) with (1, -52, 4503599627370496) in H1.
  destruct x as [s|s| |[] m e]; simpl in H1; try done; try lia.
  apply valid_finite in Hv. rewrite flit_twentieth.
  apply fmul_shrinks; [|lia..]. change (Z.log2 7205759403792794) with 52. lia.
Qed.
