(* ===== verification/PyStr.v ===== *)
(** * Python strings and numerals

    The string operations of the standard library the sources use, on strings
    of bytes: ASCII case mapping, whitespace stripping, fixed-width decimal
    numerals, integer text and the grammar of [float(s)]. *)

From Stdlib Require Import ZArith Lia Bool List Ascii String DecimalString DecimalPos DecimalZ.
From stdpp Require Import base decidable list option strings.
From S2P Require Import Prelude PyFloat.
Open Scope Z_scope.

Create HintDb py_str.

(** ** Characters *)

Definition chr (n : Z) : ascii := ascii_of_nat (Z.to_nat n).
Definition ord (c : ascii) : Z := Z.of_nat (nat_of_ascii c).

Definition lower_char (c : ascii) : ascii :=
  if (65 <=? ord c) && (ord c <=? 90) then chr (ord c + 32) else c.
Definition upper_char (c : ascii) : ascii :=
  if (97 <=? ord c) && (ord c <=? 122) then chr (ord c - 32) else c.
Definition is_space (c : ascii) : bool :=
  ((9 <=? ord c) && (ord c <=? 13)) || ((28 <=? ord c) && (ord c <=? 32)).

Definition map_chars (f : ascii → ascii) (s : string) : string :=
  string_of_list_ascii (List.map f (list_ascii_of_string s)).

(** [s.lower()] and [s.upper()]. *)
Definition str_lower : string → string := map_chars lower_char.
Definition str_upper : string → string := map_chars upper_char.

(** [sub in s]. *)
Fixpoint str_contains (sub s : string) : bool :=
  String.prefix sub s ||
  match s with
  | EmptyString => false
  | String _ s' => str_contains sub s'
  end.

(** [s.startswith(p)]. *)
Definition starts_with (p s : string) : bool := String.prefix p s.

Lemma str_app_assoc (a b c : string) : ((a ++ b) ++ c = a ++ (b ++ c))%string.
Proof. induction a as [|x a IH]; [done|]. change (String x ((a ++ b) ++ c) = String x (a ++ (b ++ c)))%string. by rewrite IH. Qed.

Lemma starts_with_app (p s : string) : starts_with p s = true ↔ ∃ r, s = String.append p r.
Proof.
  unfold starts_with. revert s. induction p as [|x p IH]; intros s; simpl.
  - split; [by exists s|by destruct s].
  - destruct s as [|y s]; [by split; [|intros [r Hr]; discriminate Hr]|].
    change (String.prefix (String x p) (String y s)) with (if ascii_dec x y then String.prefix p s else false).
    destruct (ascii_dec x y) as [->|Hne].
    + rewrite IH. split; intros [r Hr]; exists r; [by rewrite Hr|]. by injection Hr.
    + split; [done|]. intros [r Hr]. injection Hr as Hx _. congruence.
Qed.

Lemma str_app_inj (p a b : string) : String.append p a = String.append p b → a = b.
Proof. induction p as [|x p IH]; [done|]. intros Hr. injection Hr as Hr. by apply IH. Qed.

Lemma str_length_app (a b : string) : String.length (a ++ b)%string = (String.length a + String.length b)%nat.
Proof. induction a as [|x a IH]; [done|]. exact (f_equal S IH). Qed.

Lemma str_app_nil (a : string) : String.append a "" = a.
Proof. induction a as [|x a IH]; [done|]. exact (f_equal (String x) IH). Qed.

Lemma length_list_ascii (s : string) : length (list_ascii_of_string s) = String.length s.
Proof. induction s as [|x s IH]; simpl; [done|]. by rewrite IH. Qed.

Lemma list_ascii_app (a b : string) :
  list_ascii_of_string (a ++ b) = (list_ascii_of_string a ++ list_ascii_of_string b)%list.
Proof. induction a as [|c a IH]; [done|]. simpl. by rewrite IH. Qed.

Lemma str_app_inj_l (a b s : string) : (a ++ s = b ++ s)%string → a = b.
Proof.
  intros E. apply (f_equal list_ascii_of_string) in E. rewrite !list_ascii_app in E. apply app_inv_tail in E.
  apply (f_equal string_of_list_ascii) in E. by rewrite !string_of_list_ascii_of_string in E.
Qed.

Lemma substring_whole (b : string) : String.substring 0 (String.length b) b = b.
Proof. induction b as [|x b IH]; [done|]. simpl. by rewrite IH. Qed.

Lemma substring_app_l (a b : string) : String.substring 0 (String.length a) (a ++ b)%string = a.
Proof. induction a as [|x a IH]; [by destruct b|]. exact (f_equal (String x) IH). Qed.

Lemma substring_app_r (a b : string) : String.substring (String.length a) (String.length b) (a ++ b)%string = b.
Proof. induction a as [|x a IH]; [apply substring_whole|exact IH]. Qed.

(** [s.replace(c, "")] for a one-character [c]. *)
Definition str_remove (c : ascii) (s : string) : string :=
  string_of_list_ascii
    (List.filter (λ d, negb (Ascii.eqb d c)) (list_ascii_of_string s)).

Fixpoint drop_spaces (l : list ascii) : list ascii :=
  match l with
  | c :: r => if is_space c then drop_spaces r else l
  | [] => []
  end.

(** [s.strip()], on the list of its characters. *)
Definition strip_chars (l : list ascii) : list ascii :=
  rev (drop_spaces (rev (drop_spaces l))).

Definition str_strip (s : string) : string :=
  string_of_list_ascii (strip_chars (list_ascii_of_string s)).

(** ** Characters

    A text is its UTF-8 bytes; a character is a byte that does not continue one.
    [len(s)] and [s[-n:]] count characters. *)
Definition is_continuation (c : ascii) : bool := match c with Ascii _ _ _ _ _ _ false true => true | _ => false end.

Fixpoint py_len (s : string) : nat :=
  match s with EmptyString => 0 | String c r => (if is_continuation c then 0 else 1) + py_len r end.

Fixpoint last_chars (n : nat) (s : string) : string :=
  match s with
  | EmptyString => EmptyString
  | String c r => if (py_len s <=? n)%nat && negb (is_continuation c) then s else last_chars n r
  end.

Lemma py_len_last_chars n s : (n <= py_len s)%nat → py_len (last_chars n s) = n.
Proof.
  induction s as [|c s IH]; intros Hn; [simpl in *; lia|]. cbn [last_chars].
  destruct (py_len (String c s) <=? n)%nat eqn:El; [apply Nat.leb_le in El|apply Nat.leb_gt in El]; cbn [andb].
  - destruct (is_continuation c) eqn:Ec; cbn [negb]; [|lia]. apply IH. cbn [py_len] in Hn. by rewrite Ec in Hn.
  - apply IH. cbn [py_len] in El. destruct (is_continuation c); lia.
Qed.

(** [str(z)] of an integer. *)
Definition str_Z (z : Z) : string := NilZero.string_of_int (Z.to_int z).

Lemma str_Z_inj (a b : Z) : str_Z a = str_Z b → a = b.
Proof.
  unfold str_Z. intros H.
  assert (Hn : ∀ z, Z.to_int z ≠ Decimal.Pos Decimal.Nil ∧ Z.to_int z ≠ Decimal.Neg Decimal.Nil).
  { intros [|p|p]; split; simpl; try discriminate;
      intros [= E]; by apply (DecimalPos.Unsigned.to_uint_nonnil p). }
  assert (Some (Z.to_int a) = Some (Z.to_int b)) as [= Heq].
  { rewrite <- (NilZero.isi (Z.to_int a)) by apply Hn.
    rewrite <- (NilZero.isi (Z.to_int b)) by apply Hn. by rewrite H. }
  by apply DecimalZ.to_int_inj.
Qed.

(** ** Fixed-width decimal numerals ([f"{z:02d}"] and its inverse) *)

Definition digit_of (c : ascii) : option Z :=
  let n := ord c - 48 in
  if (0 <=? n) && (n <=? 9) then Some n else None.

Fixpoint digits (w : nat) (z : Z) : list ascii :=
  match w with
  | O => []
  | S w' => digits w' (z / 10) ++ [chr (48 + z mod 10)]
  end.

(** Reads exactly [w] digits, most significant first. *)
Fixpoint take_num (w : nat) (acc : Z) (l : list ascii) : option (Z * list ascii) :=
  match w with
  | O => Some (acc, l)
  | S w' =>
      match l with
      | c :: r =>
          match digit_of c with
          | Some d => take_num w' (acc * 10 + d) r
          | None => None
          end
      | [] => None
      end
  end.

Lemma digit_of_chr (d : Z) : 0 <= d <= 9 → digit_of (chr (48 + d)) = Some d.
Proof.
  intros [H1 H2]. unfold digit_of, ord, chr.
  rewrite nat_ascii_embedding by lia.
  rewrite Z2Nat.id by lia. replace (48 + d - 48) with d by lia.
  destruct (Z.leb_spec 0 d), (Z.leb_spec d 9); simpl; try lia. done.
Qed.

Lemma take_num_snoc (w : nat) (acc z : Z) (l r : list ascii) :
  take_num w acc (l ++ r) = Some (z, r) → length l = w →
  ∀ d, 0 <= d <= 9 →
  take_num (S w) acc (l ++ chr (48 + d) :: r) = Some (z * 10 + d, r).
Proof.
  revert acc l. induction w as [|w IH]; intros acc l H Hl d Hd.
  - destruct l; [|done]. simpl in *. injection H as <-.
    by rewrite digit_of_chr.
  - destruct l as [|c l]; [done|]. injection Hl as Hl.
    cbn [take_num app] in H |- *.
    destruct (digit_of c); [|done]. by apply IH.
Qed.

Lemma length_digits (w : nat) (z : Z) : length (digits w z) = w.
Proof.
  revert z. induction w as [|w IH]; intros z; simpl; [done|].
  rewrite length_app, IH. simpl. lia.
Qed.

(** Reading back a numeral printed at a width that holds it. *)
Lemma take_num_digits (w : nat) (z : Z) (r : list ascii) :
  0 <= z < 10 ^ Z.of_nat w → take_num w 0 (digits w z ++ r) = Some (z, r).
Proof.
  revert z r. induction w as [|w IH]; intros z r Hz.
  - simpl in *. assert (z = 0) as -> by lia. done.
  - cbn [digits]. rewrite <- app_assoc. cbn [app].
    replace z with (z / 10 * 10 + z mod 10) at 3 by (pose proof (Z.div_mod z 10); lia).
    apply (take_num_snoc w 0 (z / 10) (digits w (z / 10)) r).
    + apply IH. rewrite Nat2Z.inj_succ, Z.pow_succ_r in Hz by lia.
      split; [apply Z.div_pos; lia|apply Z.div_lt_upper_bound; lia].
    + apply length_digits.
    + pose proof (Z.mod_pos_bound z 10). lia.
Qed.

#[export] Hint Resolve take_num_digits length_digits : py_str.

(** ** The grammar of [float(s)] and [int(s)] *)

Definition is_digit (c : ascii) : bool := match digit_of c with Some _ => true | None => false end.

(** A run of digits with single underscores between them: its value continuing
    [acc], the number of digits, and the rest. *)
Fixpoint scan_digits (l : list ascii) (acc : Z) (n : nat) : Z * nat * list ascii :=
  match l with
  | c :: r =>
      match digit_of c with
      | Some d => scan_digits r (acc * 10 + d) (S n)
      | None =>
          match n, r with
          | S _, c' :: _ =>
              if Ascii.eqb c "_" && is_digit c' then scan_digits r acc n else (acc, n, l)
          | _, _ => (acc, n, l)
          end
      end
  | [] => (acc, n, [])
  end.

Definition scan_sign (l : list ascii) : bool * list ascii :=
  match l with
  | c :: r => if Ascii.eqb c "-" then (true, r) else if Ascii.eqb c "+" then (false, r) else (false, l)
  | [] => (false, [])
  end.

(** The exponent part, up to the end of the text. *)
Definition scan_exponent (l : list ascii) : option Z :=
  match l with
  | [] => Some 0
  | c :: r =>
      if Ascii.eqb (lower_char c) "e" then
        let '(s, r) := scan_sign r in
        match scan_digits r 0 0 with
        | (e, S _, []) => Some (if s : bool then - e else e)
        | _ => None
        end
      else None
  end.

(** [m * 10^e] with a sign, correctly rounded. *)
Definition f_of_decimal (s : bool) (m e : Z) : float :=
  match m with
  | Zpos p =>
      if 0 <=? e then f_of_ratio s (Z.to_pos (Zpos p * 10 ^ e)) 1
      else f_of_ratio s p (Z.to_pos (10 ^ (- e)))
  | _ => S754_zero s
  end.

(** [float(s)]; [None] where Python raises [ValueError]. *)
Definition parse_float (s : string) : option float :=
  let '(sgn, l) := scan_sign (strip_chars (list_ascii_of_string s)) in
  let word := str_lower (string_of_list_ascii l) in
  if String.eqb word "inf" || String.eqb word "infinity" then Some (S754_infinity sgn)
  else if String.eqb word "nan" then Some S754_nan
  else
    let '(ip, n1, r) := scan_digits l 0 0 in
    let '(mant, n2, r) :=
      match r with
      | c :: r' => if Ascii.eqb c "." then scan_digits r' ip 0 else (ip, 0%nat, r)
      | [] => (ip, 0%nat, r)
      end in
    if Nat.eqb (n1 + n2) 0 then None
    else
      match scan_exponent r with
      | Some e => Some (f_of_decimal sgn mant (e - Z.of_nat n2))
      | None => None
      end.

(** [int(s)] in base 10. *)
Definition parse_int (s : string) : option Z :=
  let '(sgn, l) := scan_sign (strip_chars (list_ascii_of_string s)) in
  match scan_digits l 0 0 with
  | (z, S _, []) => Some (if sgn : bool then - z else z)
  | _ => None
  end.

(** *** What [int] refuses *)

Lemma scan_digits_all l acc n z k :
  scan_digits l acc n = (z, k, []) → Forall (λ c, is_digit c = true ∨ c = "_"%char) l.
Proof.
  revert acc n. induction l as [|c r IH]; intros acc n; simpl; [constructor|].
  destruct (digit_of c) as [d|] eqn:Ed.
  { intros Hs. constructor; [left; unfold is_digit; by rewrite Ed|]. by apply IH in Hs. }
  destruct n as [|n]; [intros [=]|]. destruct r as [|c' r']; [intros [=]|].
  destruct (Ascii.eqb_spec c "_"%char) as [->|]; simpl; [|intros [=]].
  destruct (is_digit c'); [|intros [=]]. intros Hs. constructor; [by right|]. by apply (IH acc (S n)).
Qed.

Lemma drop_spaces_keeps c l : is_space c = false → In c l → In c (drop_spaces l).
Proof.
  intros Hc. induction l as [|x l IH]; simpl; [done|]. destruct (is_space x) eqn:Ex; [|done].
  intros [->|Hin]; [congruence|by apply IH].
Qed.

Lemma drop_spaces_snoc l c : is_space c = false → drop_spaces (l ++ [c]) = drop_spaces l ++ [c].
Proof. intros Hc. induction l as [|x l IH]; simpl; [by rewrite Hc|]. by destruct (is_space x). Qed.

Lemma strip_chars_cons c l :
  is_space c = false → strip_chars (c :: l) = c :: rev (drop_spaces (rev l)).
Proof.
  intros Hc. unfold strip_chars. simpl. rewrite Hc. simpl. by rewrite drop_spaces_snoc, rev_app_distr.
Qed.

(** A hyphen after the first character is never part of an integer. *)
Lemma parse_int_inner_hyphen s c r :
  list_ascii_of_string s = c :: r → is_space c = false → In "-"%char r → parse_int s = None.
Proof.
  intros Hs Hc Hin. unfold parse_int. rewrite Hs, strip_chars_cons by done.
  assert (Hin' : In "-"%char (rev (drop_spaces (rev r)))).
  { apply -> in_rev. apply drop_spaces_keeps; [done|]. by apply -> in_rev. }
  assert (Hno : ∀ l, In "-"%char l → ∀ z k, scan_digits l 0 0 ≠ (z, k, [])).
  { intros l Hl z k Hd. apply scan_digits_all in Hd. rewrite List.Forall_forall in Hd.
    by destruct (Hd _ Hl). }
  set (l := rev (drop_spaces (rev r))) in *. unfold scan_sign.
  assert (Hcase : ∀ sg l', In "-"%char l' →
    match scan_digits l' 0 0 with
    | (z, S _, []) => Some (if sg : bool then - z else z)
    | _ => None
    end = None).
  { intros sg l' Hl. specialize (Hno l' Hl). destruct (scan_digits l' 0 0) as [[z [|k]] [|x l2]]; try done.
    by destruct (Hno z (S k)). }
  destruct (Ascii.eqb c "-"); [exact (Hcase true l Hin')|].
  destruct (Ascii.eqb c "+"); [exact (Hcase false l Hin')|].
  exact (Hcase false (c :: l) (or_intror Hin')).
Qed.

(** *** [int(str(z)) = z]

    The value of a decimal numeral, read after [acc]. *)
Fixpoint uint_val (acc : Z) (d : Decimal.uint) : Z :=
  match d with
  | Decimal.Nil => acc
  | Decimal.D0 d => uint_val (acc * 10 + 0) d | Decimal.D1 d => uint_val (acc * 10 + 1) d | Decimal.D2 d => uint_val (acc * 10 + 2) d
  | Decimal.D3 d => uint_val (acc * 10 + 3) d | Decimal.D4 d => uint_val (acc * 10 + 4) d | Decimal.D5 d => uint_val (acc * 10 + 5) d
  | Decimal.D6 d => uint_val (acc * 10 + 6) d | Decimal.D7 d => uint_val (acc * 10 + 7) d | Decimal.D8 d => uint_val (acc * 10 + 8) d
  | Decimal.D9 d => uint_val (acc * 10 + 9) d
  end.
Lemma scan_uint d acc n :
  scan_digits (list_ascii_of_string (NilEmpty.string_of_uint d)) acc n = (uint_val acc d, (n + Decimal.nb_digits d)%nat, []).
Proof.
  revert acc n. induction d as [|d IH|d IH|d IH|d IH|d IH|d IH|d IH|d IH|d IH|d IH]; intros acc n; simpl;
    [by rewrite Nat.add_0_r|..]; rewrite IH, Nat.add_succ_r; done.
Qed.
Lemma uint_val_acc d p : uint_val (Zpos p) d = Zpos (Pos.of_uint_acc d p).
Proof.
  revert p. induction d; intros p; cbn [uint_val Pos.of_uint_acc]; [done|..];
  rewrite <- IHd; f_equal; lia.
Qed.
Lemma uint_val_of_uint d : uint_val 0 d = Z.of_uint d.
Proof.
  unfold Z.of_uint. induction d; cbn [uint_val Pos.of_uint]; try done.
  all: match goal with |- uint_val ?x _ = _ => let y := eval vm_compute in x in change x with y end;
    rewrite uint_val_acc; done.
Qed.

Lemma uint_head d : d ≠ Decimal.Nil → ∃ c r, list_ascii_of_string (NilEmpty.string_of_uint d) = c :: r ∧
  is_space c = false ∧ Ascii.eqb c "-" = false ∧ Ascii.eqb c "+" = false.
Proof. destruct d; intros Hd; [done|..]; eexists _, _; (split; [reflexivity|]); by repeat split. Qed.
Lemma uint_no_space d : Forall (λ c, is_space c = false) (list_ascii_of_string (NilEmpty.string_of_uint d)).
Proof. induction d; simpl; constructor; done. Qed.
Lemma drop_spaces_none l : Forall (λ c, is_space c = false) l → drop_spaces l = l.
Proof. intros [|c r Hc Hr]; simpl; [done|by rewrite Hc]. Qed.
Lemma strip_chars_none l : Forall (λ c, is_space c = false) l → strip_chars l = l.
Proof.
  intros Hl. unfold strip_chars. rewrite (drop_spaces_none l Hl), drop_spaces_none; [apply rev_involutive|].
  by apply Forall_rev.
Qed.
Lemma parse_int_str_Z z : 0 <= z → parse_int (str_Z z) = Some z.
Proof.
  intros Hz. unfold str_Z.
  assert (Hd : ∃ d, d ≠ Decimal.Nil ∧ Z.to_int z = Decimal.Pos d ∧ Z.of_uint d = z).
  { destruct z as [|p|p]; [by exists (Decimal.D0 Decimal.Nil)| |lia]. exists (Pos.to_uint p). split; [apply DecimalPos.Unsigned.to_uint_nonnil|].
    split; [done|]. pose proof (DecimalZ.of_to (Zpos p)) as H. exact H. }
  destruct Hd as (d & Hnil & -> & Hval).
  replace (NilZero.string_of_int (Decimal.Pos d)) with (NilEmpty.string_of_uint d) by (by destruct d).
  unfold parse_int. rewrite (strip_chars_none _ (uint_no_space d)).
  destruct (uint_head d Hnil) as (c & r & E & _ & Hm & Hp). unfold scan_sign. rewrite E, Hm, Hp, <- E.
  rewrite scan_uint, uint_val_of_uint, Hval. by destruct d.
Qed.

Example parse_float_percent : parse_float " 1_234.5e-1 " = Some (flit 12345 100).
Proof. reflexivity. Qed.

Example parse_float_rejects : parse_float "2.5%" = None ∧ parse_float "_1" = None ∧ parse_float "" = None.
Proof. repeat split. Qed.

(** ** Fixed-point text, [f"{x:.2f}"]

    The exact value of the double is rounded to hundredths, ties to even. *)

Definition hundredths (m : positive) (e : Z) : Z :=
  match e with
  | Zneg p =>
      let d := Z.pow_pos 2 p in
      let q := 100 * Zpos m / d in
      let r := (100 * Zpos m) mod d in
      match 2 * r ?= d with
      | Lt => q
      | Gt => q + 1
      | Eq => if Z.even q then q else q + 1
      end
  | _ => 100 * Zpos m * 2 ^ e
  end.

Definition format_2f (x : float) : string :=
  let text s h :=
    String.append (if s : bool then "-" else "")
      (String.append (str_Z (h / 100))
         (String "."%char (string_of_list_ascii (digits 2 (h mod 100))))) in
  match x with
  | S754_nan => "nan"
  | S754_infinity s => if s then "-inf" else "inf"
  | S754_zero s => text s 0
  | S754_finite s m e => text s (hundredths m e)
  end.

Example format_2f_ex : format_2f (flit 3005 1000) = "3.00"%string ∧ format_2f (flit (-12345) 10) = "-1234.50"%string.
Proof. split; reflexivity. Qed.
