(* ===== verification/PyDateTime.v ===== *)
(** * Python's naive [datetime]

    [datetime] values as the module represents them (seven fields), their
    position on the microsecond line, [isoformat] and [fromisoformat] on the
    texts [isoformat] prints, and the subtraction the sources use. *)

From Stdlib Require Import ZArith Lia Bool List Ascii String.
From stdpp Require Import base decidable list option strings.
From S2P Require Import Prelude PyFloat PyStr.
Open Scope Z_scope.

Record datetime := DT {
  dt_year : Z; dt_month : Z; dt_day : Z;
  dt_hour : Z; dt_minute : Z; dt_second : Z; dt_micro : Z
}.

#[export] Instance datetime_eq_dec : EqDecision datetime.
Proof. solve_decision. Defined.

(** ** The calendar *)

Definition is_leap (y : Z) : bool :=
  (y mod 4 =? 0) && (negb (y mod 100 =? 0) || (y mod 400 =? 0)).

Definition days_in_month (y m : Z) : Z :=
  if m =? 2 then (if is_leap y then 29 else 28)
  else if existsb (Z.eqb m) [4; 6; 9; 11] then 30 else 31.

Definition days_before_year (y : Z) : Z :=
  let y := y - 1 in y * 365 + y / 4 - y / 100 + y / 400.

Fixpoint days_before_month (y : Z) (m : nat) : Z :=
  match m with
  | O => 0
  | S m' => days_before_month y m' + days_in_month y (Z.of_nat m)
  end.

(** [d.toordinal()]: day 1 is 0001-01-01. *)
Definition toordinal (d : datetime) : Z :=
  days_before_year (dt_year d)
  + days_before_month (dt_year d) (Z.to_nat (dt_month d - 1)) + dt_day d.

(** Microseconds since 0001-01-01T00:00:00 plus one day. *)
Definition to_us (d : datetime) : Z :=
  ((toordinal d * 86400 + dt_hour d * 3600 + dt_minute d * 60 + dt_second d)
   * 1000000) + dt_micro d.

(** What the constructor accepts. *)
Definition dt_valid (d : datetime) : bool :=
  (1 <=? dt_year d) && (dt_year d <=? 9999) &&
  ((1 <=? dt_month d) && (dt_month d <=? 12)) &&
  ((1 <=? dt_day d) && (dt_day d <=? days_in_month (dt_year d) (dt_month d))) &&
  ((0 <=? dt_hour d) && (dt_hour d <=? 23)) &&
  ((0 <=? dt_minute d) && (dt_minute d <=? 59)) &&
  ((0 <=? dt_second d) && (dt_second d <=? 59)) &&
  ((0 <=? dt_micro d) && (dt_micro d <=? 999999)).

(** [(a - b).total_seconds()]: a timedelta is an exact number of microseconds,
    divided by 10^6 with one rounding. *)
Definition total_seconds_between (a b : datetime) : float :=
  flit (to_us a - to_us b) 1000000.

(** ** [isoformat] and [fromisoformat] *)

Definition isoformat (d : datetime) : string :=
  string_of_list_ascii
    (digits 4 (dt_year d) ++ "-"%char :: digits 2 (dt_month d) ++ "-"%char ::
     digits 2 (dt_day d) ++ "T"%char :: digits 2 (dt_hour d) ++ ":"%char ::
     digits 2 (dt_minute d) ++ ":"%char :: digits 2 (dt_second d) ++
     (if dt_micro d =? 0 then [] else "."%char :: digits 6 (dt_micro d))).

(** One literal character. *)
Definition expect (c : ascii) (l : list ascii) : option (list ascii) :=
  match l with
  | d :: r => if Ascii.eqb d c then Some r else None
  | [] => None
  end.

(** The texts [isoformat] prints; [None] where [fromisoformat] raises
    [ValueError].  (It also reads other ISO 8601 forms, which the sources never
    store.) *)
Definition fromisoformat (s : string) : option datetime :=
  '(y, l) ← take_num 4 0 (list_ascii_of_string s);
  l ← expect "-" l; '(m, l) ← take_num 2 0 l;
  l ← expect "-" l; '(d, l) ← take_num 2 0 l;
  l ← expect "T" l; '(h, l) ← take_num 2 0 l;
  l ← expect ":" l; '(mi, l) ← take_num 2 0 l;
  l ← expect ":" l; '(sec, l) ← take_num 2 0 l;
  us ← match l with
       | [] => Some 0
       | _ =>
           l ← expect "." l; '(us, l) ← take_num 6 0 l;
           match l with [] => Some us | _ => None end
       end;
  let dt := DT y m d h mi sec us in
  if dt_valid dt then Some dt else None.

(** [datetime.utcfromtimestamp(n)] of an integer: days to year, month and day over
    400-year eras that begin on the first of March, in exact integer arithmetic;
    [None] outside the years 1 to 9999, where Python raises ValueError. *)
Definition civil_from_days (z : Z) : Z * Z * Z :=
  let z := z + 719468 in
  let era := z / 146097 in
  let doe := z mod 146097 in
  let yoe := (doe - doe / 1460 + doe / 36524 - doe / 146096) / 365 in
  let doy := doe - (365 * yoe + yoe / 4 - yoe / 100) in
  let mp := (5 * doy + 2) / 153 in
  let d := doy - (153 * mp + 2) / 5 + 1 in
  let m := if mp <? 10 then mp + 3 else mp - 9 in
  (yoe + era * 400 + (if m <=? 2 then 1 else 0), m, d).

Definition utcfromtimestamp (n : Z) : option datetime :=
  let '(y, m, d) := civil_from_days (n / 86400) in
  let s := n mod 86400 in
  let dt := DT y m d (s / 3600) (s / 60 mod 60) (s mod 60) 0 in
  if dt_valid dt then Some dt else None.

Example utcfromtimestamp_ex1 : utcfromtimestamp 1770888300 = Some (DT 2026 2 12 9 25 0 0).
Proof. reflexivity. Qed.
Example utcfromtimestamp_ex2 : utcfromtimestamp 951782399 = Some (DT 2000 2 28 23 59 59 0).
Proof. reflexivity. Qed.
Example utcfromtimestamp_ex3 : utcfromtimestamp (-1) = Some (DT 1969 12 31 23 59 59 0).
Proof. reflexivity. Qed.

Lemma days_in_month_bound (y m : Z) : 28 <= days_in_month y m <= 31.
Proof. unfold days_in_month. repeat case_match; lia. Qed.

Lemma dt_valid_bounds (d : datetime) :
  dt_valid d = true →
  0 <= dt_year d < 10 ^ 4 ∧ 0 <= dt_month d < 10 ^ 2 ∧ 0 <= dt_day d < 10 ^ 2 ∧
  0 <= dt_hour d < 10 ^ 2 ∧ 0 <= dt_minute d < 10 ^ 2 ∧ 0 <= dt_second d < 10 ^ 2 ∧
  0 <= dt_micro d < 10 ^ 6.
Proof.
  unfold dt_valid. rewrite !andb_true_iff, !Z.leb_le.
  pose proof (days_in_month_bound (dt_year d) (dt_month d)). lia.
Qed.

Lemma expect_cons c l : expect c (c :: l) = Some l.
Proof. simpl. by rewrite Ascii.eqb_refl. Qed.

(** Printing and reading back is the identity on every valid datetime. *)
Lemma fromisoformat_isoformat (d : datetime) :
  dt_valid d = true → fromisoformat (isoformat d) = Some d.
Proof.
  intros Hv. destruct (dt_valid_bounds d Hv) as (? & ? & ? & ? & ? & ? & Hus).
  unfold fromisoformat, isoformat. rewrite list_ascii_of_string_of_list_ascii.
  do 5 (rewrite take_num_digits by done; cbn [mbind option_bind]; rewrite expect_cons;
        cbn [mbind option_bind]).
  rewrite take_num_digits by done. cbn [mbind option_bind].
  destruct (Z.eqb_spec (dt_micro d) 0) as [E|E].
  - destruct d; cbn in E; subst. cbn in *. by rewrite Hv.
  - rewrite expect_cons. cbn [mbind option_bind].
    rewrite <- (app_nil_r (digits 6 (dt_micro d))), take_num_digits by done.
    destruct d; cbn in *. by rewrite Hv.
Qed.

#[export] Hint Resolve fromisoformat_isoformat : py_str.

Example isoformat_ex :
  isoformat (DT 2026 2 12 9 5 0 42) = "2026-02-12T09:05:00.000042"%string.
Proof. reflexivity. Qed.

Example toordinal_ex : toordinal (DT 1970 1 1 0 0 0 0) = 719163.
Proof. reflexivity. Qed.
