(* ===== verification/PyMonad.v ===== *)
(** * Effects: exceptions and state

    A Python call either returns a value or raises; whatever it did to the
    state before raising stays done.  [M S A] is a call that works on a state
    of type [S].  An [await] is a call like any other: these computations are
    one task's view of the program, and the interleavings of several tasks are
    modelled separately where the code's correctness depends on them.

    An object handed to a component (a connector, a repository, a broadcaster)
    is a record of such calls over its own world [W].  The component works on
    the product of its private state and that world, so a collaborator cannot
    touch the component's private state. *)

From Stdlib Require Import ZArith Bool List String.
From Stdlib Require Import Morphisms Setoid.
From stdpp Require Import base decidable list option strings.
From S2P Require Import Prelude.

(** ** Exceptions *)

Inductive exn :=
| ValueError (msg : string)
| TypeError (msg : string)
| KeyError (key : string)
| IndexError (msg : string)
| AttributeError (name : string)
| AssertionError (msg : string)
| OverflowError (msg : string)
| ZeroDivisionError
| RuntimeError (msg : string)
| HTTPException (status : Z) (detail : string)
| ExternalError (cls : string) (msg : string)   (* raised by third-party code *)
| CancelledError.                               (* not a subclass of Exception *)

(** What [except Exception] catches. *)
Definition is_Exception (e : exn) : bool :=
  match e with CancelledError => false | _ => true end.

Inductive res (A : Type) := Ok (a : A) | Raise (e : exn).
Arguments Ok {A} a.
Arguments Raise {A} e.

#[export] Instance res_ret : MRet res := @Ok.
#[export] Instance res_bind : MBind res := λ A B f r,
  match r with Ok a => f a | Raise e => Raise e end.

Definition is_ok {A} (r : res A) : bool := match r with Ok _ => true | Raise _ => false end.

(** ** Calls on a state *)

Definition M (S A : Type) : Type := S → res A * S.

#[export] Instance M_ret {S} : MRet (M S) := λ A a s, (Ok a, s).
#[export] Instance M_bind {S} : MBind (M S) := λ A B f m s,
  match m s with
  | (Ok a, s') => f a s'
  | (Raise e, s') => (Raise e, s')
  end.

Section Calls.
Context {S : Type}.

Definition raise {A} (e : exn) : M S A := λ s, (Raise e, s).
Definition get : M S S := λ s, (Ok s, s).
Definition put (s : S) : M S unit := λ _, (Ok tt, s).
Definition gets {A} (f : S → A) : M S A := λ s, (Ok (f s), s).
Definition modify (f : S → S) : M S unit := λ s, (Ok tt, f s).

(** A pure computation that may raise. *)
Definition lift_res {A} (r : res A) : M S A := λ s, (r, s).

(** [try: m except Exception as e: h(e)]. *)
Definition try_except {A} (m : M S A) (h : exn → M S A) : M S A := λ s,
  match m s with
  | (Raise e, s') => if is_Exception e then h e s' else (Raise e, s')
  | r => r
  end.

(** [async with c: m], where leaving [c] does [ok] after a result and [err]
    after an exception, which it then re-raises. *)
Definition on_exit {A} (m : M S A) (ok err : M S unit) : M S A := λ s,
  match m s with
  | (Ok a, s') => (ok ;; mret a) s'
  | (Raise e, s') => (err ;; raise e) s'
  end.

(** [for x in l: f(x)]. *)
Fixpoint for_each {X} (f : X → M S unit) (l : list X) : M S unit :=
  match l with
  | [] => mret tt
  | x :: r => f x ;; for_each f r
  end.

(** [[f(x) for x in l]] with an effectful [f]. *)
Fixpoint map_each {X A} (f : X → M S A) (l : list X) : M S (list A) :=
  match l with
  | [] => mret []
  | x :: r => y ← f x; ys ← map_each f r; mret (y :: ys)
  end.

(** [if c: m]. *)
Definition when (c : bool) (m : M S unit) : M S unit := if c then m else mret tt.
End Calls.

(** ** Working on one half of a product state *)

Definition zoom_l {S W A} (m : M S A) : M (S * W) A := λ '(s, w),
  let '(r, s') := m s in (r, (s', w)).
Definition zoom_r {S W A} (m : M W A) : M (S * W) A := λ '(s, w),
  let '(r, w') := m w in (r, (s, w')).

(** ** Pointwise equality of calls *)

Definition meq {S A} (m1 m2 : M S A) : Prop := ∀ s, m1 s = m2 s.
Infix "≡ₘ" := meq (at level 70, no associativity) : py_scope.

#[export] Instance meq_equiv {S A} : Equivalence (@meq S A).
Proof.
  split.
  - intros m s. reflexivity.
  - intros m1 m2 H s. by rewrite H.
  - intros m1 m2 m3 H1 H2 s. by rewrite H1.
Qed.

#[export] Instance mbind_proper {S A B} :
  Proper (pointwise_relation A (@meq S B) ==> @meq S A ==> @meq S B) (@mbind (M S) M_bind A B).
Proof.
  intros f g Hfg m1 m2 Hm s. unfold mbind, M_bind. rewrite (Hm s).
  destruct (m2 s) as [[a|e] s']; [apply Hfg|done].
Qed.

#[export] Instance try_except_proper {S A} :
  Proper (@meq S A ==> pointwise_relation exn (@meq S A) ==> @meq S A) (@try_except S A).
Proof.
  intros m1 m2 Hm h1 h2 Hh s. unfold try_except. rewrite (Hm s).
  destruct (m2 s) as [[a|e] s']; [done|]. destruct (is_Exception e); [apply Hh|done].
Qed.

(** ** Monad laws *)

Lemma mret_bind {S A B} (a : A) (f : A → M S B) : (mret a ≫= f) = f a.
Proof. reflexivity. Qed.

Lemma bind_assoc {S A B C} (m : M S A) (f : A → M S B) (g : B → M S C) :
  meq ((m ≫= f) ≫= g) (m ≫= λ a, f a ≫= g).
Proof. intros s. unfold mbind, M_bind. by destruct (m s) as [[a|e] s']. Qed.

(** ** Running a call, one step at a time *)

Lemma bind_ok {S A B} (m : M S A) (f : A → M S B) s a s' :
  m s = (Ok a, s') → (m ≫= f) s = f a s'.
Proof. unfold mbind, M_bind. by intros ->. Qed.

Lemma bind_raise {S A B} (m : M S A) (f : A → M S B) s e s' :
  m s = (Raise e, s') → (m ≫= f) s = (Raise e, s').
Proof. unfold mbind, M_bind. by intros ->. Qed.

(** Replacing a first step that behaves alike from this state. *)
Lemma bind_congr {S A B} (m1 m2 : M S A) (f : A → M S B) s :
  m1 s = m2 s → (m1 ≫= f) s = (m2 ≫= f) s.
Proof. unfold mbind, M_bind. by intros ->. Qed.

Lemma bind_inv {S A B} (m : M S A) (f : A → M S B) s r s'' :
  (m ≫= f) s = (r, s'') →
  (∃ a s', m s = (Ok a, s') ∧ f a s' = (r, s'')) ∨
  (∃ e, m s = (Raise e, s'') ∧ r = Raise e).
Proof.
  unfold mbind, M_bind. destruct (m s) as [[a|e] s'] eqn:E; intros H.
  - left; eauto.
  - right. injection H as <- <-. eauto.
Qed.

Lemma zoom_r_inv {S W A} (m : M W A) (s : S) w r s' w' :
  zoom_r m (s, w) = (r, (s', w')) → s' = s ∧ m w = (r, w').
Proof. simpl. destruct (m w). intros [= <- <- <-]. done. Qed.

(** Peel one call off a run [H] that returned: its value and the state after it. *)
Tactic Notation "peel" hyp(H) "as" simple_intropattern(x) simple_intropattern(s) ident(Hx) :=
  apply bind_inv in H as [(x & s & Hx & H)|(? & _ & [=])].
(** Likewise for a call on the world, which leaves the connector's state. *)
Tactic Notation "peel_world" hyp(H) "as" simple_intropattern(x) simple_intropattern(w) ident(Hx) :=
  apply bind_inv in H as [(x & [? w] & Hx & H)|(? & _ & [=])]; apply zoom_r_inv in Hx as [-> Hx].
(** And for a pure computation, which leaves both. *)
Tactic Notation "peel_pure" hyp(H) "as" simple_intropattern(x) ident(Hx) :=
  apply bind_inv in H as [(x & [? ?] & Hx & H)|(? & _ & [=])]; injection Hx as Hx <- <-.

(** A call that always returns [v], and one that always returns something. *)
Definition answers {S A} (m : M S A) (v : A) : Prop := ∀ s, ∃ s', m s = (Ok v, s').
Definition returns {S A} (m : M S A) : Prop := ∀ s, ∃ v s', m s = (Ok v, s').

(** ** Invariants

    [preserves I m]: running [m], whatever it returns or raises, keeps [I].
    The rules are hints of [py_pres], so an operation's preservation is found
    by walking its code. *)

Definition preserves {S A} (I : S → Prop) (m : M S A) : Prop :=
  ∀ s, I s → I (m s).2.

Section Preserves.
Context {S : Type} (I : S → Prop).

Lemma preserves_ret {A} (a : A) : preserves I (mret a).
Proof. by intros s. Qed.

Lemma preserves_raise {A} e : preserves I (@raise S A e).
Proof. by intros s. Qed.

Lemma preserves_gets {A} (f : S → A) : preserves I (gets f).
Proof. by intros s. Qed.

Lemma preserves_get : preserves I get.
Proof. by intros s. Qed.

Lemma preserves_lift_res {A} (r : res A) : preserves I (lift_res r).
Proof. by intros s. Qed.

Lemma preserves_modify f : (∀ s, I s → I (f s)) → preserves I (modify f).
Proof. intros H s. apply H. Qed.

Lemma preserves_bind {A B} (m : M S A) (f : A → M S B) :
  preserves I m → (∀ a, preserves I (f a)) → preserves I (m ≫= f).
Proof.
  intros Hm Hf s Hs. specialize (Hm s Hs). unfold mbind, M_bind.
  destruct (m s) as [[a|e] s']; [by apply Hf|done].
Qed.

(** After a pure computation, its result is known. *)
Lemma preserves_lift_bind {A B} (r : res A) (f : A → M S B) :
  (∀ a, r = Ok a → preserves I (f a)) → preserves I (lift_res r ≫= f).
Proof. intros Hf s Hs. unfold mbind, M_bind, lift_res. destruct r as [a|e]; [by apply (Hf a)|done]. Qed.

Lemma preserves_try {A} (m : M S A) h :
  preserves I m → (∀ e, preserves I (h e)) → preserves I (try_except m h).
Proof.
  intros Hm Hh s Hs. specialize (Hm s Hs). unfold try_except.
  destruct (m s) as [[a|e] s']; [done|]. destruct (is_Exception e); [by apply Hh|done].
Qed.

Lemma preserves_on_exit {A} (m : M S A) ok err :
  preserves I m → preserves I ok → preserves I err → preserves I (on_exit m ok err).
Proof.
  intros Hm Ho He s Hs. specialize (Hm s Hs). unfold on_exit.
  destruct (m s) as [[a|e] s']; revert Hm; simpl.
  - intros Hs'. specialize (Ho s' Hs'). unfold mbind, M_bind. by destruct (ok s') as [[[]|x] s2].
  - intros Hs'. specialize (He s' Hs'). unfold mbind, M_bind. by destruct (err s') as [[[]|x] s2].
Qed.

(** A bind from one state, when its first step is known to keep the invariant there. *)
Lemma bind_then {A B} (m : M S A) (f : A → M S B) s :
  I (m s).2 → (∀ a, preserves I (f a)) → I ((m ≫= f) s).2.
Proof. intros Hm Hf. unfold mbind, M_bind. destruct (m s) as [[a|e] s']; [by apply Hf|done]. Qed.

Lemma preserves_when c (m : M S unit) : preserves I m → preserves I (when c m).
Proof. destruct c; [done|]. intros _. apply preserves_ret. Qed.

Lemma preserves_for_each {X} (f : X → M S unit) l :
  (∀ x, preserves I (f x)) → preserves I (for_each f l).
Proof.
  intros Hf. induction l as [|x l IH]; simpl; [apply preserves_ret|].
  by apply preserves_bind.
Qed.

Lemma preserves_map_each {X A} (f : X → M S A) l :
  (∀ x, preserves I (f x)) → preserves I (map_each f l).
Proof.
  intros Hf. induction l as [|x l IH]; simpl; [apply preserves_ret|].
  apply preserves_bind; [done|]. intros. apply preserves_bind; [done|]. intros. apply preserves_ret.
Qed.
End Preserves.

(** A predicate on the private half survives every call on the other half. *)
Lemma preserves_zoom_r {S W A} (I : S → Prop) (m : M W A) :
  preserves (λ sw : S * W, I sw.1) (zoom_r m).
Proof. intros [s w] Hs. simpl. by destruct (m w). Qed.

Lemma preserves_zoom_l {S W A} (I : S → Prop) (m : M S A) :
  preserves I m → preserves (λ sw : S * W, I sw.1) (zoom_l m).
Proof. intros Hm [s w] Hs. specialize (Hm s Hs). simpl in *. by destruct (m s). Qed.

(** Likewise for a predicate on the world, which only the world's calls can break. *)
Lemma preserves_world_r {S W A} (I : W → Prop) (m : M W A) :
  preserves I m → preserves (λ sw : S * W, I sw.2) (zoom_r m).
Proof. intros Hm [s w] Hw. specialize (Hm w Hw). simpl in *. by destruct (m w). Qed.

Lemma zoom_r_run {S W A} (m : M W A) (s : S) w r w' :
  m w = (r, w') → zoom_r m (s, w) = (r, (s, w')).
Proof. simpl. by intros ->. Qed.

#[export] Hint Resolve preserves_ret preserves_raise preserves_gets preserves_get
  preserves_lift_res preserves_modify preserves_bind preserves_try preserves_when
  preserves_for_each preserves_map_each preserves_zoom_r preserves_zoom_l : py_pres.

(** Walk the code of an operation: binds, handlers, loops and case splits. *)
Ltac solve_pres :=
  repeat first
    [ progress intros
    | match goal with H : context [preserves] |- _ => solve [apply H] end
    | apply preserves_bind
    | apply preserves_try
    | apply preserves_on_exit
    | apply preserves_for_each
    | apply preserves_map_each
    | apply preserves_when
    | match goal with
      | |- preserves _ (match ?x with _ => _ end) => destruct x
      | |- preserves _ (let '_ := ?x in _) => destruct x
      end
    | solve [eauto with py_pres] ].

(** ** Results

    [yields Q m]: whenever [m] returns, its value satisfies [Q]. *)

Definition yields {S A} (Q : A → Prop) (m : M S A) : Prop :=
  ∀ s a s', m s = (Ok a, s') → Q a.

Section Yields.
Context {S A : Type} (Q : A → Prop).

Lemma yields_ret (a : A) : Q a → yields (S:=S) Q (mret a).
Proof. intros Ha s b s' [= <- _]. done. Qed.

Lemma yields_raise e : yields Q (@raise S A e).
Proof. intros s b s' [=]. Qed.

Lemma yields_bind {B} (m : M S B) (f : B → M S A) : (∀ b, yields Q (f b)) → yields Q (m ≫= f).
Proof.
  intros Hf s a s' Hr. apply bind_inv in Hr as [(b & s1 & _ & Hr)|(e & _ & [=])]. by eapply Hf.
Qed.
End Yields.

Ltac solve_yields :=
  repeat first
    [ progress intros
    | apply yields_bind
    | apply yields_raise
    | match goal with
      | |- yields _ (match ?x with _ => _ end) => destruct x
      | |- yields _ (let '_ := ?x in _) => destruct x
      end
    | apply yields_ret; solve [eauto] ].
