(* ===== verification/PyDict.v ===== *)
(** * Python dictionaries

    A [dict] keeps its items in insertion order and assigning to a present key
    keeps the key's place.  [dict K V] is that list of items; the order matters
    to the sources where they iterate ([rules.values()], [_models.values()],
    [updates.items()]). *)

From Stdlib Require Import List Bool Lia.
From stdpp Require Import base decidable list option strings.
From S2P Require Import Prelude.

Definition dict (K V : Type) : Type := list (K * V).

Section Dict.
Context {K V : Type} `{EqDecision K}.

(** [d.get(k)]; also [d[k]], which raises [KeyError] on [None]. *)
Fixpoint dget (d : dict K V) (k : K) : option V :=
  match d with
  | [] => None
  | (k', v) :: r => if decide (k = k') then Some v else dget r k
  end.

(** [d[k] = v]. *)
Fixpoint dset (d : dict K V) (k : K) (v : V) : dict K V :=
  match d with
  | [] => [(k, v)]
  | (k', v') :: r => if decide (k = k') then (k', v) :: r else (k', v') :: dset r k v
  end.

(** [d.pop(k, None)], [del d[k]]. *)
Fixpoint dpop (d : dict K V) (k : K) : dict K V :=
  match d with
  | [] => []
  | (k', v') :: r => if decide (k = k') then r else (k', v') :: dpop r k
  end.

Definition dkeys (d : dict K V) : list K := List.map fst d.
Definition dvalues (d : dict K V) : list V := List.map snd d.

(** [k in d]. *)
Definition dmem (d : dict K V) (k : K) : bool :=
  match dget d k with Some _ => true | None => false end.

(** [d.update(e)], and the literal [{...}] when [d] is empty. *)
Definition dupdate (d e : dict K V) : dict K V :=
  fold_left (λ d kv, dset d kv.1 kv.2) e d.

(** Every key occurs once: what the operations maintain. *)
Definition dict_wf (d : dict K V) : Prop := List.NoDup (dkeys d).

Lemma dget_dset_eq d k v : dget (dset d k v) k = Some v.
Proof.
  induction d as [|[k' v'] d IH]; simpl; [by rewrite decide_True|].
  case_decide as E; simpl; [by rewrite decide_True|by rewrite decide_False].
Qed.

Lemma dget_dset_ne d k k' v : k ≠ k' → dget (dset d k v) k' = dget d k'.
Proof.
  intros Hne. induction d as [|[j w] d IH]; simpl; [by rewrite decide_False by done|].
  case_decide as E; simpl; subst; [by rewrite !decide_False by done|].
  by destruct (decide (k' = j)).
Qed.

Lemma dget_dset d k k' v :
  dget (dset d k v) k' = if decide (k = k') then Some v else dget d k'.
Proof. case_decide; subst; [apply dget_dset_eq|by apply dget_dset_ne]. Qed.

Lemma dget_None d k : dget d k = None ↔ ¬ In k (dkeys d).
Proof.
  induction d as [|[k' v] d IH]; simpl; [tauto|].
  case_decide as E; subst; [split; [done|tauto]|]. rewrite IH. split; [|tauto].
  intros Hni [Heq|Hin]; [by apply E|by apply Hni].
Qed.

Lemma dget_In d k v : dget d k = Some v → In (k, v) d.
Proof.
  induction d as [|[k' v'] d IH]; simpl; [done|].
  case_decide; naive_solver.
Qed.

Lemma In_dget d k v : dict_wf d → In (k, v) d → dget d k = Some v.
Proof.
  unfold dict_wf. induction d as [|[k' v'] d IH]; simpl; [done|].
  intros Hnd [Heq|Hin]; [simplify_eq; by rewrite decide_True|].
  apply List.NoDup_cons_iff in Hnd as [Hni Hnd].
  rewrite decide_False; [by apply IH|].
  intros ->. apply Hni. by apply (in_map fst) in Hin.
Qed.

Lemma dmem_true d k : dmem d k = true ↔ is_Some (dget d k).
Proof. unfold dmem. destruct (dget d k); split; (done || eauto || by intros []). Qed.

Lemma dkeys_dset d k v :
  dkeys (dset d k v) = if dmem d k then dkeys d else dkeys d ++ [k].
Proof.
  unfold dmem. induction d as [|[k' v'] d IH]; simpl; [done|].
  case_decide as E; simpl; [done|]. rewrite IH. by destruct (dget d k).
Qed.

Lemma NoDup_snoc {X} (l : list X) (x : X) :
  List.NoDup l → ¬ In x l → List.NoDup (l ++ [x]).
Proof.
  intros Hl Hx. induction Hl as [|y l Hy Hl IH]; simpl in *.
  - constructor; [by intros []|constructor].
  - constructor; [|apply IH; tauto].
    rewrite in_app_iff. simpl. intros [?|[?|[]]]; subst; tauto.
Qed.

Lemma dict_wf_dset d k v : dict_wf d → dict_wf (dset d k v).
Proof.
  unfold dict_wf. rewrite dkeys_dset. unfold dmem.
  destruct (dget d k) eqn:E; [done|]. intros Hnd.
  apply NoDup_snoc; [done|by apply dget_None].
Qed.

Lemma In_dkeys_dpop d k k' : In k' (dkeys (dpop d k)) → In k' (dkeys d).
Proof.
  induction d as [|[j w] d IH]; simpl; [done|].
  case_decide; simpl; tauto.
Qed.

Lemma dict_wf_dpop d k : dict_wf d → dict_wf (dpop d k).
Proof.
  unfold dict_wf. induction d as [|[k' v'] d IH]; simpl; [done|].
  intros Hnd. apply List.NoDup_cons_iff in Hnd as [Hni Hnd].
  case_decide; simpl; [done|]. constructor; [|by apply IH].
  intros Hin. by apply Hni, (In_dkeys_dpop d k).
Qed.

Lemma dget_dpop_eq d k : dict_wf d → dget (dpop d k) k = None.
Proof.
  unfold dict_wf. induction d as [|[k' v'] d IH]; simpl; [done|].
  intros Hnd. apply List.NoDup_cons_iff in Hnd as [Hni Hnd].
  case_decide as E; subst; simpl; [by apply dget_None|].
  rewrite decide_False by done. by apply IH.
Qed.

Lemma dget_dpop_ne d k k' : k ≠ k' → dget (dpop d k) k' = dget d k'.
Proof.
  intros Hne. induction d as [|[j w] d IH]; simpl; [done|].
  case_decide; simpl; subst; [by rewrite decide_False|]. by rewrite IH.
Qed.

Lemma dset_dset d k v v' : dset (dset d k v) k v' = dset d k v'.
Proof.
  induction d as [|[j w] d IH]; simpl; [by rewrite decide_True|].
  case_decide; simpl; [by rewrite decide_True|]. rewrite decide_False by done. by rewrite IH.
Qed.

(** Assigning to a present key changes one value in place. *)
Lemma map_dvalues_dset {X} (g : V → X) d k v v' :
  dget d k = Some v → g v' = g v → List.map g (dvalues (dset d k v')) = List.map g (dvalues d).
Proof.
  intros Hd Hg. induction d as [|[j w] d IH]; simpl in *; [done|].
  case_decide; simpl; simplify_eq; [by rewrite Hg|]. by rewrite IH.
Qed.

Lemma dvalues_dset_new d k v : dget d k = None → dvalues (dset d k v) = dvalues d ++ [v].
Proof.
  induction d as [|[j w] d IH]; simpl; [done|]. case_decide; [done|]. intros Hn. simpl. by rewrite IH.
Qed.

Lemma Forall_dset (P : V → Prop) d k v : Forall P (dvalues d) → P v → Forall P (dvalues (dset d k v)).
Proof.
  intros Hd Hv. induction d as [|[j w] d IH]; simpl in *; [by repeat constructor|].
  apply Forall_cons in Hd as [Hw Hd]. case_decide; simpl; constructor; auto.
Qed.

Lemma Forall_dget (P : V → Prop) d k v : Forall P (dvalues d) → dget d k = Some v → P v.
Proof.
  intros Hd Hg. rewrite List.Forall_forall in Hd. apply Hd.
  apply dget_In in Hg. by apply (in_map snd) in Hg.
Qed.

(** How many values pass a test, before and after an assignment. *)
Definition dcount (p : V → bool) (d : dict K V) : nat := length (List.filter p (dvalues d)).

Lemma dcount_dset_le p d k v : (dcount p (dset d k v) <= dcount p d + (if p v then 1 else 0))%nat.
Proof.
  unfold dcount. induction d as [|[j w] d IH]; simpl; [by destruct (p v)|].
  case_decide; simpl; [destruct (p v), (p w); simpl; lia|]. destruct (p w); simpl; lia.
Qed.

(** ... when the value replaced passed it already, it counts no more than before. *)
Lemma dcount_dset_same p d k v v' :
  dget d k = Some v → p v = true → (dcount p (dset d k v') <= dcount p d)%nat.
Proof.
  unfold dcount. intros Hg Hp. induction d as [|[j w] d IH]; simpl in *; [done|].
  case_decide; simpl; simplify_eq; [rewrite Hp; destruct (p v'); simpl; lia|].
  specialize (IH Hg). destruct (p w); simpl; lia.
Qed.

(** Two dictionaries that answer every lookup alike. *)
Definition dequiv (d e : dict K V) : Prop := ∀ k, dget d k = dget e k.

#[export] Instance dequiv_equiv : Equivalence dequiv.
Proof. split; [by intros d k|by intros d e H k|intros d e f H1 H2 k; by rewrite H1]. Qed.

#[export] Instance dset_proper k v : Proper (dequiv ==> dequiv) (λ d, dset d k v).
Proof. intros d e H j. by rewrite !dget_dset, H. Qed.

#[export] Instance dget_proper : Proper (dequiv ==> eq ==> eq) dget.
Proof. intros d e H k ? <-. apply H. Qed.

(** Assignments to different keys commute up to the order of the items. *)
Lemma dset_comm d k k' v v' :
  k ≠ k' → dequiv (dset (dset d k v) k' v') (dset (dset d k' v') k v).
Proof. intros Hne j. rewrite !dget_dset. repeat case_decide; naive_solver. Qed.
End Dict.

#[export] Hint Rewrite @dget_dset_eq @dset_dset : py_rw.
#[export] Hint Resolve dict_wf_dset dict_wf_dpop dget_dset_eq : py_list.
