(* ===== verification/PyVal.v ===== *)
(** * Dynamic values

    The values that travel through the program's payload dictionaries: the
    dictionaries of [to_dict], broker replies, database rows, JSON messages.
    [float(x)], [int(x)], [str(x)], truthiness and [x or y] are Python's,
    branch by branch, with the exceptions they raise. *)

From Stdlib Require Import ZArith Bool List Ascii String.
From stdpp Require Import base decidable list option strings.
From S2P Require Import Prelude PyFloat PyStr PyDateTime PyMonad PyDict.
Open Scope Z_scope.

#[warnings="-register-all"]
Inductive pyval :=
| VNone
| VBool (b : bool)
| VInt (z : Z)
| VFloat (f : float)
| VStr (s : string)
| VDate (d : datetime)
| VUuid (s : string)            (* a uuid.UUID, by its canonical text *)
| VList (l : list pyval)
| VDict (d : list (string * pyval)).

(** A payload: a dictionary with string keys. *)
Abbreviation vdict := (dict string pyval).

(** [str(x)] of a value that is neither a string, an integer, a bool, [None] nor
    a UUID goes through that type's own [__repr__], whose text no decision of the
    sources depends on. *)
Class PyRepr := { repr_other : pyval → string }.

(** ** Truth, [or], [is None] *)

Definition truthy (v : pyval) : bool :=
  match v with
  | VNone => false
  | VBool b => b
  | VInt z => negb (z =? 0)
  | VFloat f => negb (is_zero f)
  | VStr s => negb (String.eqb s "")
  | VDate _ | VUuid _ => true
  | VList l => match l with [] => false | _ => true end
  | VDict d => match d with [] => false | _ => true end
  end.

Definition py_or (a b : pyval) : pyval := if truthy a then a else b.

Definition is_none (v : pyval) : bool := match v with VNone => true | _ => false end.

(** [d.get(k, default)], [d.get(k)] and [d[k]]. *)
Definition vget_or (d : vdict) (k : string) (default : pyval) : pyval :=
  match dget d k with Some v => v | None => default end.
Definition vget (d : vdict) (k : string) : pyval := vget_or d k VNone.
Definition vindex (d : vdict) (k : string) : res pyval :=
  match dget d k with Some v => Ok v | None => Raise (KeyError k) end.

(** ** Conversions *)

(** [uuid.UUID.__int__]: the 128-bit value its hexadecimal text denotes. *)
Definition hex_value (s : string) : Z :=
  fold_left
    (λ acc c,
       let n := ord (lower_char c) in
       if (48 <=? n) && (n <=? 57) then acc * 16 + (n - 48)
       else if (97 <=? n) && (n <=? 102) then acc * 16 + (n - 87)
       else acc)
    (list_ascii_of_string s) 0.

Definition float_of_int (z : Z) : res float :=
  match f_of_Z z with
  | S754_infinity _ => Raise (OverflowError "int too large to convert to float")
  | f => Ok f
  end.

(** [float(v)]. *)
Definition py_float (v : pyval) : res float :=
  match v with
  | VFloat f => Ok f
  | VInt z => float_of_int z
  | VBool b => float_of_int (if b then 1 else 0)
  | VStr s =>
      match parse_float s with
      | Some f => Ok f
      | None => Raise (ValueError "could not convert string to float")
      end
  | _ => Raise (TypeError "float() argument must be a string or a real number")
  end.

(** [int(v)]. *)
Definition py_int (v : pyval) : res Z :=
  match v with
  | VInt z => Ok z
  | VBool b => Ok (if b then 1 else 0)
  | VFloat f =>
      match f_trunc f with
      | Some z => Ok z
      | None =>
          if is_nan f then Raise (ValueError "cannot convert float NaN to integer")
          else Raise (OverflowError "cannot convert float infinity to integer")
      end
  | VStr s =>
      match parse_int s with
      | Some z => Ok z
      | None => Raise (ValueError "invalid literal for int() with base 10")
      end
  | VUuid s => Ok (hex_value s)
  | _ => Raise (TypeError "int() argument must be a string or a real number")
  end.

(** [str(v)]. *)
Definition py_str `{PyRepr} (v : pyval) : string :=
  match v with
  | VStr s | VUuid s => s
  | VInt z => str_Z z
  | VBool b => if b then "True" else "False"
  | VNone => "None"
  | _ => repr_other v
  end.

(** [x / y] of floats. *)
Definition py_fdiv (x y : float) : res float :=
  if is_zero y then Raise ZeroDivisionError else Ok (fdiv x y).

(** An enum member's lookup by value, [E(v)]. *)
Definition enum_of {E} (table : list (E * string)) (name : string) (v : pyval) : res E :=
  match v with
  | VStr s =>
      match List.find (λ p, String.eqb p.2 s) table with
      | Some p => Ok p.1
      | None => Raise (ValueError (String.append name ": not a valid value"))
      end
  | _ => Raise (ValueError (String.append name ": not a valid value"))
  end.

(** ** Facts *)

Lemma str_or_not v s : v = VStr s ∨ v ≠ VStr s.
Proof.
  destruct v as [| | | |s'| | | |]; try by right.
  destruct (decide (s' = s)); [left|right]; congruence.
Qed.

Lemma py_or_falsy a b : truthy a = false → py_or a b = b.
Proof. unfold py_or. by intros ->. Qed.

Lemma py_or_truthy a b : truthy a = true → py_or a b = a.
Proof. unfold py_or. by intros ->. Qed.

Lemma vget_dset_eq d k v : vget (dset d k v) k = v.
Proof. unfold vget, vget_or. by rewrite dget_dset_eq. Qed.

Lemma vget_dset_ne d k k' v : k ≠ k' → vget (dset d k v) k' = vget d k'.
Proof. intros. unfold vget, vget_or. by rewrite dget_dset_ne. Qed.

#[export] Hint Rewrite @vget_dset_eq : py_rw.
#[export] Hint Rewrite @vget_dset_ne using discriminate : py_rw.
