(* ===== verification/Tasks.v ===== *)
(** * Tasks of an event loop and asyncio.Lock

    PyMonad.v's calls are one task's view of the program.  Here a coroutine is a
    [task]: the tree of what it awaits, with the entries and exits of an
    [asyncio.Lock] as nodes of their own.  A [pool] is the event loop: the tasks
    under way, the lock with its queue of waiters, and the state they share.  A
    schedule names the task that makes each next step, and every theorem is about
    all schedules.  Running a task alone ([run_alone]) is the call it stands for. *)

From Stdlib Require Import Bool List Arith Lia Relations Wellfounded.
From stdpp Require Import base decidable list option.
From S2P Require Import Prelude PyMonad PyDict.
Open Scope py_scope.

(** ** Coroutines *)

(** [Await m k]: the awaited call [m] works on the shared state in one step, and
    the task goes on with [k] on its result or exception.  A call that is not
    awaited in the source may be a step as well: that only adds interleavings. *)
Inductive task (S A : Type) : Type :=
| Finished (r : res A)
| Await {X : Type} (m : M S X) (k : res X → task S A)
| Acquire (k : task S A)
| Release (k : task S A).
Arguments Finished {S A} r.
Arguments Await {S A X} m k.
Arguments Acquire {S A} k.
Arguments Release {S A} k.

#[export] Instance task_ret {S} : MRet (task S) := λ A a, Finished (Ok a).

Fixpoint task_bind_fix {S A B} (f : A → task S B) (p : task S A) : task S B :=
  match p with
  | Finished (Ok a) => f a
  | Finished (Raise e) => Finished (Raise e)
  | Await m k => Await m (λ r, task_bind_fix f (k r))
  | Acquire k => Acquire (task_bind_fix f k)
  | Release k => Release (task_bind_fix f k)
  end.
#[export] Instance task_bind {S} : MBind (task S) := @task_bind_fix S.

Definition await_call {S A} (m : M S A) : task S A := Await m Finished.
Definition fail {S A} (e : exn) : task S A := Finished (Raise e).
Definition pure_res {S A} (r : res A) : task S A := Finished r.

(** [try: p except Exception as e: h(e)]. *)
Fixpoint try_task {S A} (p : task S A) (h : exn → task S A) : task S A :=
  match p with
  | Finished (Raise e) => if is_Exception e then h e else Finished (Raise e)
  | Finished (Ok a) => Finished (Ok a)
  | Await m k => Await m (λ r, try_task (k r) h)
  | Acquire k => Acquire (try_task k h)
  | Release k => Release (try_task k h)
  end.

Fixpoint for_task {S X} (f : X → task S unit) (l : list X) : task S unit :=
  match l with [] => mret tt | x :: r => f x ;; for_task f r end.

Definition when_task {S} (c : bool) (p : task S unit) : task S unit := if c then p else mret tt.

(** [async with lock: p]: the lock is released however [p] ends. *)
Fixpoint then_release {S A} (p : task S A) : task S A :=
  match p with
  | Finished r => Release (Finished r)
  | Await m k => Await m (λ r, then_release (k r))
  | Acquire k => Acquire (then_release k)
  | Release k => Release (then_release k)
  end.
Definition async_with {S A} (p : task S A) : task S A := Acquire (then_release p).

(** ** A task on its own *)

Fixpoint run_alone {S A} (p : task S A) : M S A := λ s,
  match p with
  | Finished r => (r, s)
  | Await m k => let '(r, s') := m s in run_alone (k r) s'
  | Acquire k | Release k => run_alone k s
  end.

Section Run.
Context {S : Type}.

Lemma alone_bind {A B} (p : task S A) (f : A → task S B) : run_alone (p ≫= f) ≡ₘ (run_alone p ≫= λ a, run_alone (f a)).
Proof.
  intros s. unfold mbind, task_bind, M_bind. revert s.
  induction p as [[a|e]|X m k IH|k IH|k IH]; intros s; simpl; [done|done| |done|done].
  destruct (m s) as [r s']. apply IH.
Qed.

Lemma alone_await {A} (m : M S A) : run_alone (await_call m) ≡ₘ m.
Proof. intros s. simpl. by destruct (m s). Qed.

Lemma alone_try {A} (p : task S A) h : run_alone (try_task p h) ≡ₘ try_except (run_alone p) (λ e, run_alone (h e)).
Proof.
  intros s. unfold try_except. revert s.
  induction p as [[a|e]|X m k IH|k IH|k IH]; intros s; simpl; [done|by destruct (is_Exception e)| |apply IH|apply IH].
  destruct (m s) as [r s']. apply IH.
Qed.

Lemma alone_for {X} (f : X → task S unit) l : run_alone (for_task f l) ≡ₘ for_each (λ x, run_alone (f x)) l.
Proof.
  induction l as [|x l IH]; [done|]. simpl. intros s. rewrite (alone_bind (f x)). apply mbind_proper; [|done].
  intros []. exact IH.
Qed.

Lemma alone_then_release {A} (p : task S A) : run_alone (then_release p) ≡ₘ run_alone p.
Proof.
  intros s. revert s. induction p as [r|X m k IH|k IH|k IH]; intros s; simpl; [done| |done|done].
  destruct (m s) as [r s']. apply IH.
Qed.

Lemma alone_async_with {A} (p : task S A) : run_alone (async_with p) ≡ₘ run_alone p.
Proof. apply alone_then_release. Qed.
End Run.

(** ** The event loop *)

(** A task that runs, and one parked in the lock's queue with what it does once
    the lock is its own. *)
Inductive task_state (S A : Type) := Running (p : task S A) | Parked (p : task S A).
Arguments Running {S A} p.
Arguments Parked {S A} p.

Record pool (S A : Type) := { tasks : list (task_state S A); locked : bool; waiters : list nat; shared : S }.
Arguments tasks {S A}. Arguments locked {S A}. Arguments waiters {S A}. Arguments shared {S A}.

Definition spawn {S A} (ps : list (task S A)) (s : S) : pool S A :=
  {| tasks := Running <$> ps; locked := false; waiters := []; shared := s |}.

Definition awake {S A} (t : task_state S A) : task_state S A := match t with Parked p => Running p | _ => t end.

(** The next step of task [i].  A free lock is taken; at a lock that is held the
    task queues up; a release hands the lock to the first of the queue, as
    [asyncio.Lock] does. *)
Definition step {S A} (i : nat) (c : pool S A) : pool S A :=
  match tasks c !! i with
  | Some (Running (Await m k)) =>
      let '(r, s') := m (shared c) in
      {| tasks := <[i := Running (k r)]> (tasks c); locked := locked c; waiters := waiters c; shared := s' |}
  | Some (Running (Acquire k)) =>
      if locked c
      then {| tasks := <[i := Parked k]> (tasks c); locked := true; waiters := waiters c ++ [i]; shared := shared c |}
      else {| tasks := <[i := Running k]> (tasks c); locked := true; waiters := waiters c; shared := shared c |}
  | Some (Running (Release k)) =>
      match waiters c with
      | [] => {| tasks := <[i := Running k]> (tasks c); locked := false; waiters := []; shared := shared c |}
      | j :: q => {| tasks := alter awake j (<[i := Running k]> (tasks c)); locked := true; waiters := q; shared := shared c |}
      end
  | _ => c
  end.

Definition run_schedule {S A} (schedule : list nat) (c : pool S A) : pool S A := fold_left (λ c i, step i c) schedule c.

Definition finished {S A} (t : task_state S A) : bool := match t with Running (Finished _) => true | _ => false end.
Definition all_finished {S A} (c : pool S A) : bool := forallb finished (tasks c).

(** Whether a step of task [i] would do anything. *)
Definition enabled {S A} (i : nat) (c : pool S A) : bool :=
  match tasks c !! i with Some (Running (Finished _)) | Some (Parked _) | None => false | _ => true end.

Lemma schedule_app {S A} l1 l2 (c : pool S A) : run_schedule (l1 ++ l2) c = run_schedule l2 (run_schedule l1 c).
Proof. apply fold_left_app. Qed.

Lemma step_disabled {S A} i (c : pool S A) : enabled i c = false → step i c = c.
Proof. unfold enabled, step. by destruct (tasks c !! i) as [[[]|]|]. Qed.

Lemma step_length {S A} i (c : pool S A) : length (tasks (step i c)) = length (tasks c).
Proof.
  unfold step. destruct (tasks c !! i) as [[[r|X m k|k|k]|p]|]; try done.
  - destruct (m (shared c)). simpl. apply length_insert.
  - destruct (locked c); simpl; apply length_insert.
  - destruct (waiters c); simpl; [apply length_insert|]. by rewrite length_alter, length_insert.
Qed.

Lemma schedule_length {S A} l (c : pool S A) : length (tasks (run_schedule l c)) = length (tasks c).
Proof. revert c. induction l as [|i l IH]; intros c; [done|]. simpl. rewrite IH. apply step_length. Qed.

(** ** Invariants of the shared state

    [steps_keep I Q p]: every step of [p] keeps [I], whatever the other tasks did
    before it as long as they kept [I] too, and [p] ends with a result in [Q].  The
    values a task carries from step to step are its own, so what is known of them
    ([Q] of an earlier part) stays known. *)

Section Invariant.
Context {S : Type} (I : S → Prop).

Fixpoint steps_keep {A} (Q : res A → Prop) (p : task S A) : Prop :=
  match p with
  | Finished r => Q r
  | Await m k => ∀ s, I s → I (m s).2 ∧ steps_keep Q (k (m s).1)
  | Acquire k | Release k => steps_keep Q k
  end.

Lemma steps_keep_mono {A} (Q Q' : res A → Prop) p : (∀ r, Q r → Q' r) → steps_keep Q p → steps_keep Q' p.
Proof.
  intros HQ. induction p as [r|X m k IH|k IH|k IH]; simpl; [apply HQ| |done|done].
  intros Hp s Hs. destruct (Hp s Hs). eauto.
Qed.

Lemma steps_keep_bind {A B} (Q : res A → Prop) (Q' : res B → Prop) (p : task S A) f :
  steps_keep Q p → (∀ a, Q (Ok a) → steps_keep Q' (f a)) → (∀ e, Q (Raise e) → Q' (Raise e)) →
  steps_keep Q' (p ≫= f).
Proof.
  intros Hp Hf He. unfold mbind, task_bind.
  induction p as [[a|e]|X m k IH|k IH|k IH]; simpl in *; [by apply Hf|by apply He| |by apply IH|by apply IH].
  intros s Hs. destruct (Hp s Hs). eauto.
Qed.

Lemma steps_keep_try {A} (Q Q' : res A → Prop) (p : task S A) h :
  steps_keep Q p → (∀ a, Q (Ok a) → Q' (Ok a)) → (∀ e, Q (Raise e) → steps_keep Q' (h e)) →
  (∀ e, is_Exception e = false → Q (Raise e) → Q' (Raise e)) → steps_keep Q' (try_task p h).
Proof.
  intros Hp Ha Hh He. induction p as [[a|e]|X m k IH|k IH|k IH]; simpl in *; [by apply Ha| | |by apply IH|by apply IH].
  - destruct (is_Exception e) eqn:E; [by apply Hh|by apply He].
  - intros s Hs. destruct (Hp s Hs). eauto.
Qed.

Lemma steps_keep_release {A} (Q : res A → Prop) (p : task S A) : steps_keep Q p → steps_keep Q (then_release p).
Proof.
  induction p as [r|X m k IH|k IH|k IH]; simpl; [done| |done|done].
  intros Hp s Hs. destruct (Hp s Hs). eauto.
Qed.

Lemma steps_keep_call {A} (m : M S A) : preserves I m → steps_keep (λ _, True) (await_call m).
Proof. intros Hm s Hs. split; [by apply Hm|done]. Qed.

(** The same for tasks of which nothing else is claimed. *)
Lemma steps_keep_seq {A B} (p : task S A) (f : A → task S B) :
  steps_keep (λ _, True) p → (∀ a, steps_keep (λ _, True) (f a)) → steps_keep (λ _, True) (p ≫= f).
Proof. intros Hp Hf. by eapply steps_keep_bind. Qed.

Lemma steps_keep_pure {A B} (r : res A) (f : A → task S B) :
  (∀ a, r = Ok a → steps_keep (λ _, True) (f a)) → steps_keep (λ _, True) (pure_res r ≫= f).
Proof. intros Hf. destruct r; [by apply Hf|done]. Qed.

Lemma steps_keep_when c (p : task S unit) : steps_keep (λ _, True) p → steps_keep (λ _, True) (when_task c p).
Proof. by destruct c. Qed.

Lemma steps_keep_for {X} (f : X → task S unit) l :
  (∀ x, steps_keep (λ _, True) (f x)) → steps_keep (λ _, True) (for_task f l).
Proof.
  intros Hf. induction l as [|x l IH]; simpl; [done|].
  by apply (steps_keep_bind (λ _, True)).
Qed.

Definition state_keeps {A} (t : task_state S A) : Prop :=
  match t with Running p | Parked p => steps_keep (λ _, True) p end.

Lemma step_keeps {A} i (c : pool S A) :
  I (shared c) → Forall state_keeps (tasks c) → I (shared (step i c)) ∧ Forall state_keeps (tasks (step i c)).
Proof.
  intros Hs Ht. unfold step. destruct (tasks c !! i) as [[[r|X m k|k|k]|p]|] eqn:Hi; try done;
    pose proof (proj1 (Forall_lookup _ _) Ht _ _ Hi) as Hk; simpl in Hk.
  - destruct (Hk _ Hs) as [Hs' Hk']. destruct (m (shared c)). simpl in *. split; [done|by apply Forall_insert].
  - destruct (locked c); simpl; (split; [done|by apply Forall_insert]).
  - assert (Hn : Forall state_keeps (<[i := Running k]> (tasks c))) by by apply Forall_insert.
    destruct (waiters c); simpl; (split; [done|]); [done|]. apply Forall_alter; [done|].
    intros [p|p] _ Hp; exact Hp.
Qed.

Lemma steps_keep_with {A} (p : task S A) : steps_keep (λ _, True) p → steps_keep (λ _, True) (async_with p).
Proof. apply steps_keep_release. Qed.

(** Whatever the schedule, the invariant holds at every moment. *)
Lemma schedule_keeps {A} l (ps : list (task S A)) s :
  I s → Forall (steps_keep (λ _, True)) ps → I (shared (run_schedule l (spawn ps s))).
Proof.
  intros Hs Hps.
  assert (Hinv : ∀ c : pool S A, I (shared c) → Forall state_keeps (tasks c) → I (shared (run_schedule l c))).
  { induction l as [|i l IH]; intros c Hc Ht; [done|]. simpl. by destruct (step_keeps i c Hc Ht); apply IH. }
  apply Hinv; [done|]. simpl. by apply Forall_fmap.
Qed.
End Invariant.

(** ** The lock's discipline

    [view] is what the lock protects.  [disciplined None p]: outside the lock [p]
    leaves it alone, and [p] takes the lock, if it does, for critical sections that
    find it [free] and leave it [free]; [disciplined (Some l) p]: [p] holds the
    lock, has it in the state [l], and keeps [always] at every step. *)

Section Lock.
Context {S L : Type} (view : S → L) (free always : L → Prop).

Fixpoint disciplined {A} (own : option L) (p : task S A) : Prop :=
  match p with
  | Finished _ => own = None
  | Await m k =>
      match own with
      | None => ∀ s, view (m s).2 = view s ∧ disciplined None (k (m s).1)
      | Some l => ∀ s, view s = l → always (view (m s).2) ∧ disciplined (Some (view (m s).2)) (k (m s).1)
      end
  | Acquire k => own = None ∧ ∀ l, free l → disciplined (Some l) k
  | Release k => match own with Some l => free l ∧ disciplined None k | None => False end
  end.

(** The state of a task under a given owner of the lock. *)
Definition fits {A} (owner : option nat) (s : S) (q : list nat) (i : nat) (t : task_state S A) : Prop :=
  match t with
  | Running p => disciplined (if decide (owner = Some i) then Some (view s) else None) p
  | Parked p => i ∈ q ∧ owner ≠ Some i ∧ ∀ l, free l → disciplined (Some l) p
  end.

Record lock_inv {A} (owner : option nat) (c : pool S A) : Prop := {
  inv_locked : locked c = bool_decide (is_Some owner);
  inv_always : always (view (shared c));
  inv_free : owner = None → free (view (shared c)) ∧ waiters c = [];
  inv_owner o : owner = Some o → ∃ p, tasks c !! o = Some (Running p);
  inv_queue : NoDup (waiters c) ∧ ∀ j, j ∈ waiters c → ∃ p, tasks c !! j = Some (Parked p);
  inv_fits i t : tasks c !! i = Some t → fits owner (shared c) (waiters c) i t
}.

Lemma lock_inv_spawn {A} (ps : list (task S A)) s :
  (∀ l, free l → always l) → free (view s) → Forall (disciplined None) ps → lock_inv None (spawn ps s).
Proof.
  intros Hfa Hs Hps. split; simpl; try done.
  - by apply Hfa.
  - split; [constructor|]. intros j []%not_elem_of_nil.
  - intros i t Ht. apply list_lookup_fmap_Some in Ht as (p & -> & Hp). simpl.
    by apply (proj1 (Forall_lookup _ _) Hps i).
Qed.

Lemma fits_other {A} o o' s s' q q' i (t : task_state S A) :
  o ≠ Some i → o' ≠ Some i → (i ∈ q → i ∈ q') → fits o s q i t → fits o' s' q' i t.
Proof. intros Hne Hne' Hq. destruct t as [p|p]; simpl; [by rewrite !decide_False|]. intuition. Qed.

(** A step of the loop: an awaited call. *)
Lemma await_inv {A} owner i (c : pool S A) X (m : M S X) k r s' :
  lock_inv owner c → tasks c !! i = Some (Running (Await m k)) → m (shared c) = (r, s') →
  lock_inv owner {| tasks := <[i := Running (k r)]> (tasks c); locked := locked c; waiters := waiters c; shared := s' |}.
Proof.
  intros [Hl Ha Hf Ho [Hnd Hq] Hfit] Hi Hm. pose proof (Hfit i _ Hi) as Hp. simpl in Hp.
  pose proof (lookup_lt_Some _ _ _ Hi) as Hlt.
  assert (Hni : i ∉ waiters c) by (intros Hin; destruct (Hq i Hin) as [p Hp']; congruence).
  assert (Hview : (owner ≠ Some i → view s' = view (shared c)) ∧ always (view s')).
  { case_decide as Eo; specialize (Hp (shared c)); rewrite Hm in Hp; simpl in Hp.
    - split; [done|]. by apply Hp.
    - destruct Hp as [-> _]. done. }
  destruct Hview as [Hview Halw]. split; simpl; try done.
  - intros En. rewrite Hview by congruence. by apply Hf.
  - intros o Eo. destruct (decide (o = i)) as [->|Hne]; [rewrite list_lookup_insert_eq by done; by eexists|].
    rewrite list_lookup_insert_ne by done. by apply Ho.
  - split; [done|]. intros j Hj. rewrite list_lookup_insert_ne by (by intros ->). by apply Hq.
  - intros j t Hj. destruct (decide (j = i)) as [->|Hne].
    + rewrite list_lookup_insert_eq in Hj by done. simplify_eq. simpl.
      case_decide; specialize (Hp (shared c)); rewrite Hm in Hp; by apply Hp.
    + rewrite list_lookup_insert_ne in Hj by done. specialize (Hfit j t Hj).
      destruct (decide (owner = Some j)) as [Eo|Eo]; [|by eapply fits_other].
      destruct t as [p|p]; simpl in *; [|tauto]. rewrite decide_True in * by done. rewrite Hview by congruence. done.
Qed.

(** ... taking the free lock, ... *)
Lemma take_inv {A} i (c : pool S A) k :
  lock_inv None c → tasks c !! i = Some (Running (Acquire k)) →
  lock_inv (Some i) {| tasks := <[i := Running k]> (tasks c); locked := true; waiters := waiters c; shared := shared c |}.
Proof.
  intros [Hl Ha Hf Ho [Hnd Hq] Hfit] Hi. destruct (Hf eq_refl) as [Hfree Hw]. rewrite Hw in *.
  pose proof (Hfit i _ Hi) as Hp. simpl in Hp. pose proof (lookup_lt_Some _ _ _ Hi) as Hlt. split; simpl; try done.
  - intros o [= <-]. rewrite list_lookup_insert_eq by done. by eexists.
  - split; [constructor|]. intros j []%not_elem_of_nil.
  - intros j t Hj. destruct (decide (j = i)) as [->|Hne].
    + rewrite list_lookup_insert_eq in Hj by done. simplify_eq. simpl. rewrite decide_True by done. by apply Hp.
    + rewrite list_lookup_insert_ne in Hj by done. apply (fits_other None _ (shared c) _ []); [done|congruence|done|].
      by apply Hfit.
Qed.

(** ... queueing up at the held lock, ... *)
Lemma park_inv {A} o i (c : pool S A) k :
  lock_inv (Some o) c → tasks c !! i = Some (Running (Acquire k)) →
  lock_inv (Some o)
    {| tasks := <[i := Parked k]> (tasks c); locked := true; waiters := waiters c ++ [i]; shared := shared c |}.
Proof.
  intros [Hl Ha Hf Ho [Hnd Hq] Hfit] Hi. pose proof (Hfit i _ Hi) as Hp. simpl in Hp.
  pose proof (lookup_lt_Some _ _ _ Hi) as Hlt.
  assert (Hne : o ≠ i) by (intros ->; rewrite decide_True in Hp by done; by destruct Hp).
  rewrite decide_False in Hp by congruence. destruct Hp as [_ Hp].
  assert (Hni : i ∉ waiters c) by (intros Hin; destruct (Hq i Hin) as [p Hp']; congruence).
  split; simpl; try done.
  - intros o' [= <-]. rewrite list_lookup_insert_ne by done. by apply Ho.
  - split; [apply list.NoDup_app; split; [done|]; split; [|apply NoDup_singleton]; intros x Hx Hxi; apply list_elem_of_singleton in Hxi; by subst|].
    intros j [Hj|Hj]%elem_of_app; [|apply list_elem_of_singleton in Hj; subst j].
    + rewrite list_lookup_insert_ne by (by intros ->). by apply Hq.
    + rewrite list_lookup_insert_eq by done. by eexists.
  - intros j t Hj. destruct (decide (j = i)) as [->|Hij].
    + rewrite list_lookup_insert_eq in Hj by done. simplify_eq. simpl. split; [|split; [congruence|done]].
      apply elem_of_app. right. by apply list_elem_of_singleton.
    + rewrite list_lookup_insert_ne in Hj by done. specialize (Hfit j t Hj).
      destruct t as [p|p]; simpl in *; [done|]. destruct Hfit as (? & ? & ?). split; [|done]. apply elem_of_app. by left.
Qed.

(** ... and letting it go, to nobody or to the first of the queue. *)
Lemma leave_inv {A} i (c : pool S A) k :
  lock_inv (Some i) c → tasks c !! i = Some (Running (Release k)) → waiters c = [] →
  lock_inv None {| tasks := <[i := Running k]> (tasks c); locked := false; waiters := []; shared := shared c |}.
Proof.
  intros [Hl Ha Hf Ho [Hnd Hq] Hfit] Hi Hw. rewrite Hw in *. pose proof (Hfit i _ Hi) as Hp. simpl in Hp.
  rewrite decide_True in Hp by done. destruct Hp as [Hfree Hp]. pose proof (lookup_lt_Some _ _ _ Hi) as Hlt.
  split; simpl; try done.
  - split; [constructor|]. intros j []%not_elem_of_nil.
  - intros j t Hj. destruct (decide (j = i)) as [->|Hne].
    + rewrite list_lookup_insert_eq in Hj by done. by simplify_eq.
    + rewrite list_lookup_insert_ne in Hj by done. specialize (Hfit j t Hj).
      destruct t as [p|p]; simpl in *; [by rewrite decide_False in * by congruence|].
      by destruct Hfit as (Hin & _); apply not_elem_of_nil in Hin.
Qed.

Lemma hand_over_inv {A} i j q (c : pool S A) k :
  lock_inv (Some i) c → tasks c !! i = Some (Running (Release k)) → waiters c = j :: q →
  lock_inv (Some j)
    {| tasks := alter awake j (<[i := Running k]> (tasks c)); locked := true; waiters := q; shared := shared c |}.
Proof.
  intros [Hl Ha Hf Ho [Hnd Hq] Hfit] Hi Hw. rewrite Hw in *. pose proof (Hfit i _ Hi) as Hp. simpl in Hp.
  rewrite decide_True in Hp by done. destruct Hp as [Hfree Hp]. pose proof (lookup_lt_Some _ _ _ Hi) as Hlt.
  apply list.NoDup_cons in Hnd as [Hjq Hnd].
  destruct (Hq j ltac:(left)) as [pj Hj]. assert (Hij : i ≠ j) by congruence.
  pose proof (Hfit j _ Hj) as (_ & _ & Hpj).
  assert (Hnew : alter awake j (<[i := Running k]> (tasks c)) !! j = Some (Running pj)).
  { rewrite list_lookup_alter_eq, list_lookup_insert_ne, Hj; done. }
  split; simpl; try done.
  - intros o [= <-]. by exists pj.
  - split; [done|]. intros x Hx. rewrite list_lookup_alter_ne by (by intros ->).
    destruct (Hq x ltac:(by right)) as [px Hpx]. rewrite list_lookup_insert_ne by congruence. by exists px.
  - intros x t Hx. destruct (decide (x = j)) as [->|Hxj].
    { rewrite Hnew in Hx. simplify_eq. simpl. rewrite decide_True by done. by apply Hpj. }
    rewrite list_lookup_alter_ne in Hx by done. destruct (decide (x = i)) as [->|Hxi].
    { rewrite list_lookup_insert_eq in Hx by done. simplify_eq. simpl. by rewrite decide_False by congruence. }
    rewrite list_lookup_insert_ne in Hx by done.
    apply (fits_other (Some i) _ (shared c) _ (j :: q)); [congruence|congruence| |]; [by intros [->|]%elem_of_cons|]. by apply Hfit.
Qed.

(** The discipline holds at every moment of every schedule. *)
Lemma pool_step_inv {A} owner i (c : pool S A) : lock_inv owner c → ∃ owner', lock_inv owner' (step i c).
Proof.
  intros Hc. unfold step. destruct (tasks c !! i) as [[[r|X m k|k|k]|p]|] eqn:Hi; try by exists owner.
  - destruct (m (shared c)) as [r s'] eqn:Hm. exists owner. by apply (await_inv owner i c X m k r s').
  - rewrite (inv_locked _ _ Hc). destruct owner as [o|]; simpl.
    + exists (Some o). by apply park_inv.
    + exists (Some i). by apply take_inv.
  - assert (owner = Some i) as ->.
    { pose proof (inv_fits _ _ Hc i _ Hi) as Hp. simpl in Hp. by case_decide. }
    destruct (waiters c) as [|j q] eqn:Hw; [exists None; by apply leave_inv|exists (Some j); by eapply hand_over_inv].
Qed.

Lemma schedule_inv {A} l owner (c : pool S A) : lock_inv owner c → ∃ owner', lock_inv owner' (run_schedule l c).
Proof.
  revert owner c. induction l as [|i l IH]; intros owner c Hc; [by exists owner|].
  simpl. destruct (pool_step_inv owner i c Hc) as [o Ho]. by apply (IH o).
Qed.

(** What the lock protects is well-formed throughout. *)
Lemma schedule_always {A} l (ps : list (task S A)) s :
  (∀ l, free l → always l) → free (view s) → Forall (disciplined None) ps →
  always (view (shared (run_schedule l (spawn ps s)))).
Proof.
  intros Hfa Hs Hps. destruct (schedule_inv l None (spawn ps s)) as [o Ho]; [by apply lock_inv_spawn|].
  by apply (inv_always _ _ Ho).
Qed.

(** No deadlock: as long as a task is not finished, some task can go on. *)
Lemma lock_progress {A} owner (c : pool S A) :
  lock_inv owner c → all_finished c = false → ∃ i, enabled i c = true.
Proof.
  intros Hc Hfin. destruct owner as [o|].
  - destruct (inv_owner _ _ Hc o eq_refl) as [p Hp]. exists o. unfold enabled. rewrite Hp.
    pose proof (inv_fits _ _ Hc o _ Hp) as Hd. simpl in Hd. rewrite decide_True in Hd by done. by destruct p.
  - destruct (inv_free _ _ Hc eq_refl) as [_ Hw]. unfold all_finished in Hfin.
    assert (∃ i t, tasks c !! i = Some t ∧ finished t = false) as (i & t & Hi & Ht).
    { clear Hc. induction (tasks c) as [|t l IH]; simpl in Hfin; [done|]. destruct (finished t) eqn:E.
      - destruct (IH Hfin) as (i & u & ? & ?). by exists (Datatypes.S i), u.
      - by exists 0, t. }
    exists i. unfold enabled. rewrite Hi. destruct t as [p|p]; [by destruct p|].
    pose proof (inv_fits _ _ Hc i _ Hi) as (Hin & _). rewrite Hw in Hin. by apply not_elem_of_nil in Hin.
Qed.
End Lock.

(** ** Critical sections run one after the other

    When every task is one critical section, the event loop does what running the
    sections one by one would do, in the order in which they first asked for the
    lock: the same results and the same state. *)

Section Serving.
Context {S A : Type}.

(** A task that does not touch the lock. *)
Fixpoint plain {B} (p : task S B) : Prop :=
  match p with Finished _ => True | Await m k => ∀ r, plain (k r) | Acquire _ | Release _ => False end.

Lemma plain_bind {B C} (p : task S B) (f : B → task S C) : plain p → (∀ a, plain (f a)) → plain (p ≫= f).
Proof.
  intros Hp Hf. unfold mbind, task_bind. induction p as [[a|e]|X m k IH|k IH|k IH]; simpl in *; [apply Hf|done| |done|done].
  intros r. by apply IH.
Qed.

Lemma plain_try {B} (p : task S B) h : plain p → (∀ e, plain (h e)) → plain (try_task p h).
Proof.
  intros Hp Hh. induction p as [[a|e]|X m k IH|k IH|k IH]; simpl in *; [done|by destruct (is_Exception e)| |done|done].
  intros r. by apply IH.
Qed.

Lemma plain_for {X} (f : X → task S unit) l : (∀ x, plain (f x)) → plain (for_task f l).
Proof. intros Hf. induction l as [|x l IH]; simpl; [done|]. by apply plain_bind. Qed.

Lemma plain_call {B} (m : M S B) : plain (await_call m).
Proof. done. Qed.

Context (sections : list (task S A)).

Fixpoint in_order (order : list nat) (s : S) : list (nat * res A) * S :=
  match order with
  | [] => ([], s)
  | i :: rest =>
      match sections !! i with
      | Some b =>
          let '(r, s1) := run_alone b s in
          let '(rs, s2) := in_order rest s1 in ((i, r) :: rs, s2)
      | None => in_order rest s
      end
  end.

(** The tasks of a schedule in the order of their first steps. *)
Definition arrive (l : list nat) (i : nat) : list nat :=
  if bool_decide (i ∈ l) || (length sections <=? i) then l else l ++ [i].
Definition arrivals (schedule : list nat) : list nat := fold_left arrive schedule [].

Lemma in_order_snoc order i b s :
  sections !! i = Some b →
  in_order (order ++ [i]) s =
  let '(rs, s1) := in_order order s in let '(r, s2) := run_alone b s1 in (rs ++ [(i, r)], s2).
Proof.
  intros Hb. revert s. induction order as [|j order IH]; intros s; simpl.
  - rewrite Hb. by destruct (run_alone b s).
  - destruct (sections !! j) as [bj|]; [|apply IH]. destruct (run_alone bj s) as [r s1]. rewrite IH.
    destruct (in_order order s1) as [rs s2]. by destruct (run_alone b s2).
Qed.

Lemma in_order_in order s i r : In (i, r) (in_order order s).1 → i ∈ order.
Proof.
  revert s. induction order as [|j order IH]; intros s; simpl; [done|].
  destruct (sections !! j) as [b|]; [|intros Hi; right; by apply (IH s)].
  destruct (run_alone b s) as [rj s1]. specialize (IH s1). destruct (in_order order s1) as [rs s2]. simpl in *.
  intros [[= <- <-]|Hi]; [left|right; by apply IH].
Qed.

(** What the loop looks like when [served] are done and [queue] have asked: the
    head of the queue is in its section, where what is left of it does from here
    what the whole section does after the served ones. *)
Record serving (s0 : S) (served queue : list nat) (c : pool S A) : Prop := {
  srv_nodup : NoDup (served ++ queue);
  srv_bound i : i ∈ served ++ queue → i < length sections;
  srv_done i r : In (i, r) (in_order served s0).1 → tasks c !! i = Some (Running (Finished r));
  srv_all i : i ∈ served → ∃ r, In (i, r) (in_order served s0).1;
  srv_new i b : i ∉ served ++ queue → sections !! i = Some b → tasks c !! i = Some (Running (async_with b));
  srv_lock : locked c = bool_decide (queue ≠ []) ∧ waiters c = tail queue;
  srv_state :
    match queue with
    | [] => shared c = (in_order served s0).2
    | o :: q =>
        (∃ p b, sections !! o = Some b ∧ plain p ∧ tasks c !! o = Some (Running (then_release p)) ∧
                run_alone p (shared c) = run_alone b (in_order served s0).2) ∧
        ∀ i b, i ∈ q → sections !! i = Some b → tasks c !! i = Some (Parked (then_release b))
    end
}.

Context (sections_plain : Forall plain sections).

Lemma serving_spawn s0 : serving s0 [] [] (spawn (async_with <$> sections) s0).
Proof.
  split; simpl; try done.
  - constructor.
  - by intros i []%not_elem_of_nil.
  - by intros i []%not_elem_of_nil.
  - intros i b _ Hb. by rewrite !list_lookup_fmap, Hb.
Qed.

Lemma serving_tasks s0 served queue c i :
  serving s0 served queue c → tasks c !! i = None → length sections ≤ i.
Proof.
  intros Hc Hi. destruct (decide (i < length sections)) as [Hlt|]; [|lia].
  destruct (lookup_lt_is_Some_2 _ _ Hlt) as [b Hb]. exfalso.
  destruct (decide (i ∈ served ++ queue)) as [Hin|Hni]; [|by rewrite (srv_new _ _ _ _ Hc i b Hni Hb) in Hi].
  apply elem_of_app in Hin as [Hin|Hin].
  - destruct (srv_all _ _ _ _ Hc i Hin) as [r Hr]. by rewrite (srv_done _ _ _ _ Hc i r Hr) in Hi.
  - pose proof (srv_state _ _ _ _ Hc) as Hs. destruct queue as [|o q]; [by apply not_elem_of_nil in Hin|].
    destruct Hs as [(p & bo & _ & _ & Hp & _) Hq]. apply elem_of_cons in Hin as [->|Hin]; [congruence|].
    by rewrite (Hq i b Hin Hb) in Hi.
Qed.

(** The four steps that change something. *)
Lemma serving_first s0 served c i b :
  serving s0 served [] c → i ∉ served → sections !! i = Some b →
  serving s0 served [i]
    {| tasks := <[i := Running (then_release b)]> (tasks c); locked := true; waiters := waiters c; shared := shared c |}.
Proof using sections_plain.
  intros [Hnd Hb Hd Ha Hn [Hl Hw] Hs] Hi Hbi. rewrite app_nil_r in *.
  assert (Hlt : i < length (tasks c)) by (eapply lookup_lt_Some; by apply Hn).
  split; simpl; try done.
  - apply list.NoDup_app. split; [done|]. split; [|apply NoDup_singleton].
    intros x Hx Hxi. apply list_elem_of_singleton in Hxi. by subst.
  - intros j [Hj|Hj]%elem_of_app; [by apply Hb|]. apply list_elem_of_singleton in Hj as ->. by eapply lookup_lt_Some.
  - intros j r Hj. rewrite list_lookup_insert_ne; [by apply Hd|]. intros ->. by apply Hi, (in_order_in _ s0 j r).
  - intros j bj Hj Hbj. rewrite elem_of_app, list_elem_of_singleton in Hj.
    rewrite list_lookup_insert_ne by (intros ->; tauto). apply Hn; [tauto|done].
  - split; [|by intros j bj []%not_elem_of_nil]. exists b, b. split; [done|].
    split; [by apply (proj1 (Forall_lookup _ _) sections_plain i)|]. rewrite list_lookup_insert_eq by done.
    by rewrite Hs.
Qed.

Lemma serving_later s0 served o q c i b :
  serving s0 served (o :: q) c → i ∉ served ++ o :: q → sections !! i = Some b →
  serving s0 served (o :: q ++ [i])
    {| tasks := <[i := Parked (then_release b)]> (tasks c); locked := true; waiters := waiters c ++ [i]; shared := shared c |}.
Proof.
  intros [Hnd Hb Hd Ha Hn [Hl Hw] [(p & bo & Hbo & Hp & Ho & Hrun) Hq]] Hi Hbi. simpl in Hw.
  assert (Hlt : i < length (tasks c)) by (eapply lookup_lt_Some; by apply Hn).
  assert (Hio : i ≠ o) by (intros ->; apply Hi; rewrite elem_of_app, elem_of_cons; tauto).
  assert (Hiq : i ∉ q) by (intros Hin; apply Hi; rewrite elem_of_app, elem_of_cons; tauto).
  split; rewrite ?app_comm_cons, ?app_assoc; simpl; try done.
  - apply list.NoDup_app. split; [done|]. split; [|apply NoDup_singleton].
    intros x Hx Hxi. apply list_elem_of_singleton in Hxi. by subst.
  - intros j [Hj|Hj]%elem_of_app; [by apply Hb|]. apply list_elem_of_singleton in Hj as ->. by eapply lookup_lt_Some.
  - intros j r Hj. rewrite list_lookup_insert_ne; [by apply Hd|]. intros ->.
    apply Hi, elem_of_app. left. by apply (in_order_in _ s0 j r).
  - intros j bj Hj Hbj. rewrite elem_of_app, list_elem_of_singleton in Hj.
    rewrite list_lookup_insert_ne by (intros ->; tauto). apply Hn; [tauto|done].
  - by rewrite Hw.
  - split.
    + exists p, bo. by rewrite list_lookup_insert_ne.
    + intros j bj Hj Hbj. apply elem_of_app in Hj as [Hj|Hj].
      * rewrite list_lookup_insert_ne by (by intros ->). by apply Hq.
      * apply list_elem_of_singleton in Hj as ->. rewrite list_lookup_insert_eq by done. by simplify_eq.
Qed.

Lemma serving_await s0 served o q c X (m : M S X) k b r s' :
  serving s0 served (o :: q) c → sections !! o = Some b → (∀ r, plain (k r)) →
  tasks c !! o = Some (Running (then_release (Await m k))) →
  run_alone (Await m k) (shared c) = run_alone b (in_order served s0).2 → m (shared c) = (r, s') →
  serving s0 served (o :: q)
    {| tasks := <[o := Running (then_release (k r))]> (tasks c); locked := locked c; waiters := waiters c; shared := s' |}.
Proof.
  intros [Hnd Hb Hd Ha Hn Hl [_ Hq]] Hbo Hk Ho Hrun Hm. pose proof (lookup_lt_Some _ _ _ Ho) as Hlt.
  assert (Hos : (o ∉ served) ∧ (o ∉ q)).
  { apply list.NoDup_app in Hnd as (_ & Hs & Hq'). apply list.NoDup_cons in Hq' as [? _].
    split; [|done]. intros Hin. apply (Hs o Hin). left. }
  split; simpl; try done.
  - intros j rj Hj. rewrite list_lookup_insert_ne; [by apply Hd|]. intros <-.
    apply Hd in Hj. rewrite Ho in Hj. done.
  - intros j bj Hj Hbj. rewrite list_lookup_insert_ne; [by apply Hn|]. intros <-.
    apply Hj. rewrite elem_of_app, elem_of_cons. tauto.
  - split.
    + exists (k r), b. split; [done|]. split; [done|]. rewrite list_lookup_insert_eq by done. split; [done|].
      rewrite <- Hrun. simpl. by rewrite Hm.
    + intros j bj Hj Hbj. rewrite list_lookup_insert_ne by (intros ->; tauto). by apply Hq.
Qed.

(** The section of [o] has ended with [r]: it counts as served. *)
Lemma served_snoc s0 served o q c b r T lk ws :
  serving s0 served (o :: q) c → sections !! o = Some b →
  (r, shared c) = run_alone b (in_order served s0).2 →
  T !! o = Some (Running (Finished r)) → (∀ i, i ≠ o → i ∉ q → T !! i = tasks c !! i) →
  (∀ i bi, i ∈ tail q → sections !! i = Some bi → T !! i = Some (Parked (then_release bi))) →
  (∀ i bi, head q = Some i → sections !! i = Some bi → T !! i = Some (Running (then_release bi))) →
  lk = bool_decide (q ≠ []) → ws = tail q →
  serving s0 (served ++ [o]) q {| tasks := T; locked := lk; waiters := ws; shared := shared c |}.
Proof using sections_plain.
  intros [Hnd Hb Hd Ha Hn _ _] Hbo Hrun HTo HT HTq HTh -> ->.
  pose proof (in_order_snoc served o b s0 Hbo) as Hsnoc. rewrite cons_middle, app_assoc in Hnd, Hb, Hn.
  destruct (in_order served s0) as [rs s1] eqn:Eio. simpl in *. rewrite <- Hrun in Hsnoc.
  assert (Hq : ∀ i, i ∈ q → i ∉ served ++ [o]).
  { intros i Hi Hin. apply list.NoDup_app in Hnd as (_ & Hdis & _). by apply (Hdis i). }
  split; rewrite ?Hsnoc; simpl; try done.
  - intros i ri [Hi|[[= <- <-]|[]]]%in_app_iff; [|done].
    pose proof (in_order_in served s0 i ri) as Hin. rewrite Eio in Hin. specialize (Hin Hi).
    apply list.NoDup_app in Hnd as ((_ & Hdis & _)%list.NoDup_app & _).
    rewrite HT; [by apply Hd| |].
    + intros ->. apply (Hdis o Hin), list_elem_of_singleton. done.
    + intros Hiq. apply (Hq i Hiq), elem_of_app. by left.
  - intros i [Hi|Hi]%elem_of_app.
    + destruct (Ha i Hi) as [ri Hri]. exists ri. apply in_app_iff. by left.
    + apply list_elem_of_singleton in Hi as ->. exists r. apply in_app_iff. right. by left.
  - intros i bi Hi Hbi. rewrite HT; [by apply Hn| |].
    + intros ->. apply Hi, elem_of_app. left. apply elem_of_app. right. by apply list_elem_of_singleton.
    + intros Hiq. apply Hi, elem_of_app. by right.
  - destruct q as [|j q]; [done|]. simpl in *.
    destruct (lookup_lt_is_Some_2 sections j) as [bj Hbj].
    { apply Hb, elem_of_app. right. left. }
    split; [|done]. exists bj, bj. split; [done|].
    split; [by apply (proj1 (Forall_lookup _ _) sections_plain j)|]. split; [by apply HTh|done].
Qed.

Lemma serving_step s0 served queue i (c : pool S A) :
  serving s0 served queue c → length (tasks c) = length sections →
  ∃ served' queue', serving s0 served' queue' (step i c) ∧ served' ++ queue' = arrive (served ++ queue) i.
Proof using sections_plain.
  intros Hc Hlen. pose proof Hc as [Hnd Hb Hd Ha Hn [Hl Hw] Hs]. unfold arrive.
  destruct (bool_decide_reflect (i ∈ served ++ queue)) as [Hin|Hni]; simpl.
  - assert (Hstay : step i c = c → ∃ served' queue', serving s0 served' queue' (step i c) ∧ served' ++ queue' = served ++ queue)
      by (intros ->; by exists served, queue).
    apply elem_of_app in Hin as [Hin|Hin].
    { destruct (Ha i Hin) as [r Hr]. apply Hstay, step_disabled. unfold enabled. by rewrite (Hd i r Hr). }
    destruct queue as [|o q]; [by apply not_elem_of_nil in Hin|]. simpl in Hw.
    destruct Hs as [(p & b & Hbo & Hp & Ho & Hrun) Hq]. apply elem_of_cons in Hin as [->|Hin].
    2:{ destruct (lookup_lt_is_Some_2 sections i) as [bi Hbi]; [by apply Hb, elem_of_app; right; right|].
        apply Hstay, step_disabled. unfold enabled. by rewrite (Hq i bi Hin Hbi). }
    pose proof (lookup_lt_Some _ _ _ Ho) as Hlt.
    unfold step. rewrite Ho. destruct p as [r|X m k|k|k]; try done; simpl.
    + exists (served ++ [o]), q. split; [|by rewrite <- app_assoc]. rewrite Hw. simpl in Hrun.
      assert (Hoq : o ∉ q) by (apply list.NoDup_app in Hnd as (_ & _ & [? _]%list.NoDup_cons); done).
      destruct q as [|j q].
      * refine (served_snoc s0 served o [] c b r _ false [] Hc Hbo Hrun _ _ _ _ eq_refl eq_refl).
        { by rewrite list_lookup_insert_eq. }
        { intros x Hx _. by rewrite list_lookup_insert_ne. }
        { by intros x bx []%not_elem_of_nil. }
        { done. }
      * apply list.NoDup_app in Hnd as (_ & _ & [_ Hnd]%list.NoDup_cons). apply list.NoDup_cons in Hnd as [Hjq _].
        rewrite elem_of_cons in Hoq.
        refine (served_snoc s0 served o (j :: q) c b r _ true q Hc Hbo Hrun _ _ _ _ eq_refl eq_refl).
        { rewrite list_lookup_alter_ne by (intros ->; tauto). by rewrite list_lookup_insert_eq. }
        { intros x Hx Hxq. rewrite elem_of_cons in Hxq. rewrite list_lookup_alter_ne by (intros ->; tauto).
          by rewrite list_lookup_insert_ne. }
        { intros x bx Hx Hbx. rewrite list_lookup_alter_ne by (by intros ->).
          rewrite list_lookup_insert_ne by (intros ->; tauto). apply Hq; [by right|done]. }
        { intros x bx [= <-] Hbx. rewrite list_lookup_alter_eq, list_lookup_insert_ne by (intros ->; tauto).
          rewrite (Hq j bx) by (done || left). done. }
    + exists served, (o :: q). split; [|done]. destruct (m (shared c)) as [r s'] eqn:Hm.
      by apply (serving_await s0 served o q c X m k b r s').
  - destruct (Nat.leb_spec (length sections) i) as [Hle|Hlt].
    + exists served, queue. split; [|done]. rewrite step_disabled; [done|]. unfold enabled.
      destruct (tasks c !! i) as [t|] eqn:Ht; [|done]. apply lookup_lt_Some in Ht. lia.
    + destruct (lookup_lt_is_Some_2 _ _ Hlt) as [b Hbi]. pose proof (Hn i b Hni Hbi) as Hi.
      unfold step. rewrite Hi, Hl. simpl. destruct queue as [|o q]; simpl.
      * exists served, [i]. rewrite app_nil_r in *. split; [|done]. by apply serving_first.
      * exists served, (o :: q ++ [i]). split; [by apply serving_later|]. by rewrite <- app_assoc.
Qed.

Lemma serving_schedule s0 l served queue (c : pool S A) :
  serving s0 served queue c → length (tasks c) = length sections →
  ∃ served' queue', serving s0 served' queue' (run_schedule l c) ∧ served' ++ queue' = fold_left arrive l (served ++ queue).
Proof using sections_plain.
  revert served queue c. induction l as [|i l IH]; intros served queue c Hc Hlen; [by exists served, queue|].
  destruct (serving_step s0 served queue i c Hc Hlen) as (s1 & q1 & H1 & E1).
  destruct (IH s1 q1 (step i c) H1) as (s2 & q2 & H2 & E2); [by rewrite step_length|].
  exists s2, q2. split; [done|]. by rewrite E2, E1.
Qed.

(** When all of them are done, it is as if they had run one by one. *)
Lemma sections_serialize l s0 :
  let c := run_schedule l (spawn (async_with <$> sections) s0) in
  all_finished c = true →
  Permutation (arrivals l) (seq 0 (length sections)) ∧
  shared c = (in_order (arrivals l) s0).2 ∧
  ∀ i r, In (i, r) (in_order (arrivals l) s0).1 ↔ tasks c !! i = Some (Running (Finished r)).
Proof using sections_plain.
  intros c Hfin.
  destruct (serving_schedule s0 l [] [] _ (serving_spawn s0)) as (served & queue & Hc & E); [by simpl; rewrite !length_fmap|].
  fold c in Hc. change (fold_left arrive l ([] ++ [])) with (arrivals l) in E.
  pose proof Hc as [Hnd Hb Hd Ha Hn _ Hs]. unfold all_finished in Hfin. rewrite forallb_forall in Hfin.
  assert (Hf : ∀ i t, tasks c !! i = Some t → finished t = true).
  { intros i t Ht. by eapply Hfin, list_elem_of_In, list_elem_of_lookup_2. }
  assert (Hq : queue = []).
  { destruct queue as [|o q]; [done|]. destruct Hs as [(p & b & _ & _ & Ho & _) _].
    apply Hf in Ho. by destruct p. }
  subst queue. rewrite app_nil_r in *. subst served. split; [|split; [done|]].
  - apply list.NoDup_Permutation; [done|apply NoDup_seq|]. intros i. rewrite elem_of_seq. split; [intros Hi%Hb; lia|]. intros Hi.
    destruct (decide (i ∈ arrivals l)) as [|Hni]; [done|]. exfalso.
    destruct (lookup_lt_is_Some_2 sections i) as [b Hbi]; [lia|]. by pose proof (Hf i _ (Hn i b Hni Hbi)).
  - intros i r. split; [apply Hd|]. intros Hi. destruct (decide (i ∈ arrivals l)) as [Hin|Hni].
    + destruct (Ha i Hin) as [r' Hr]. pose proof (Hd i r' Hr) as Hi'. by simplify_eq.
    + exfalso. destruct (lookup_lt_is_Some_2 sections i) as [b Hbi].
      { apply lookup_lt_Some in Hi. unfold c in Hi. by rewrite schedule_length in Hi; simpl in Hi; rewrite !length_fmap in Hi. }
      by rewrite (Hn i b Hni Hbi) in Hi.
Qed.
End Serving.

(** ** Fair schedules end

    Every step that does something leaves less to do: the order on pools is
    well-founded, although a task's tree may branch over infinitely many results. *)

Section Fair.
Context {S A : Type}.

Definition smaller (t' t : task_state S A) : Prop :=
  match t with
  | Running (Finished _) => False
  | Running (Await m k) => ∃ r, t' = Running (k r)
  | Running (Acquire k) => t' = Parked k ∨ t' = Running k
  | Running (Release k) | Parked k => t' = Running k
  end.

Lemma smaller_wf : well_founded smaller.
Proof.
  assert (Hpark : ∀ p, Acc smaller (Running p) → Acc smaller (Parked p)).
  { intros p Hp. constructor. intros t ->. exact Hp. }
  intros [p|p]; [|apply Hpark]; induction p as [r|X m k IH|k IH|k IH]; constructor; intros t; simpl.
  1,5: done.
  1,4: intros [r ->]; apply IH.
  1,3: intros [->| ->]; [by apply Hpark|done].
  all: by intros ->.
Qed.

(** One task of the list has less to do. *)
Inductive less : list (task_state S A) → list (task_state S A) → Prop :=
| less_here t' t l : smaller t' t → less (t' :: l) (t :: l)
| less_there t l' l : less l' l → less (t :: l') (t :: l).

Lemma less_wf : well_founded less.
Proof.
  intros l. induction l as [|t l IH]; [constructor; intros l Hl; inversion Hl|].
  revert l IH. induction (smaller_wf t) as [t _ IHt]. intros l Hl. induction Hl as [l Hl IHl].
  constructor. intros k Hk. inversion Hk as [t' u k' Ht|u l' k' Hl']; subst; [apply IHt; [done|by constructor]|by apply IHl].
Qed.

Lemma less_insert i t' t l : l !! i = Some t → smaller t' t → less (<[i := t']> l) l.
Proof.
  revert i. induction l as [|u l IH]; intros [|i] Hi Ht; simpl in *; simplify_eq; constructor; auto.
Qed.

Lemma alter_awake j l : alter awake j l = l ∨ less (alter awake j l) l.
Proof.
  revert j. induction l as [|[p|p] l IH]; intros [|j]; try by left.
  1,3: (destruct (IH j) as [E|Hl]; [left; exact (f_equal (cons _) E)|right; by constructor]).
  right. by constructor.
Qed.

Lemma step_less i c : enabled i c = true → clos_trans _ less (tasks (step i c)) (tasks c).
Proof.
  unfold enabled, step. intros He. destruct (tasks c !! i) as [[[r|X m k|k|k]|p]|] eqn:Hi; try done.
  - destruct (m (shared c)) as [r s']. apply t_step. eapply less_insert; [done|]. by exists r.
  - destruct (locked c); apply t_step; (eapply less_insert; [done|]); simpl; auto.
  - assert (Hk : less (<[i := Running k]> (tasks c)) (tasks c)) by by eapply less_insert.
    destruct (waiters c) as [|j q]; simpl; [by apply t_step|]. set (l := <[i := Running k]> (tasks c)) in *.
    destruct (alter_awake j l) as [->|Hj]; [by apply t_step|]. apply t_trans with l; by apply t_step.
Qed.

(** A schedule that goes on for ever, and its first [n] steps. *)
Definition run_first (f : nat → nat) (n : nat) (c : pool S A) : pool S A := run_schedule (List.map f (seq 0 n)) c.

(** Every task gets a turn again and again. *)
Definition fair (tasks : nat) (f : nat → nat) : Prop := ∀ i k, i < tasks → ∃ m, k ≤ m ∧ f m = i.

Lemma run_first_S f n c : run_first f (Datatypes.S n) c = run_first (λ k, f (Datatypes.S k)) n (step (f 0) c).
Proof. unfold run_first. simpl. by rewrite <- seq_shift, map_map. Qed.

Lemma fair_shift n f : fair n f → fair n (λ k, f (Datatypes.S k)).
Proof.
  intros Hf i k Hi. destruct (Hf i (Datatypes.S k) Hi) as (m & Hm & <-). exists (m - 1).
  split; [lia|]. f_equal. lia.
Qed.

Lemma round_robin_fair n : fair n (λ k, k mod n).
Proof.
  intros i k Hi. exists (k * n + i). split; [nia|]. rewrite Nat.add_comm, Nat.Div0.mod_add. by apply Nat.mod_small.
Qed.

(** Under a fair schedule a pool that cannot get stuck finishes. *)
Lemma fair_finish (P : pool S A → Prop) :
  (∀ c i, P c → P (step i c)) → (∀ c, P c → all_finished c = false → ∃ i, enabled i c = true) →
  ∀ c f, P c → fair (length (tasks c)) f → ∃ n, all_finished (run_first f n c) = true.
Proof.
  intros Hstep Hprog c. remember (tasks c) as l eqn:El. revert c El.
  induction (wf_clos_trans _ _ less_wf l) as [l _ IH]. intros c -> f Hc Hf.
  destruct (all_finished c) eqn:Hfin; [by exists 0|]. destruct (Hprog c Hc Hfin) as [i Hi].
  assert (Hlt : i < length (tasks c)).
  { unfold enabled in Hi. destruct (tasks c !! i) eqn:E; [|done]. by eapply lookup_lt_Some. }
  destruct (Hf i 0 Hlt) as (m & _ & Hm). clear Hlt Hfin. revert f Hf Hm.
  induction m as [|m IHm]; intros f Hf Hm; destruct (enabled (f 0) c) eqn:E0.
  1,3: (destruct (IH _ (step_less _ _ E0) (step (f 0) c) eq_refl (λ k, f (Datatypes.S k))) as [n Hn];
    [by apply Hstep|rewrite step_length; by apply fair_shift|]; exists (Datatypes.S n); by rewrite run_first_S).
  - congruence.
  - destruct (IHm (λ k, f (Datatypes.S k)) (fair_shift _ _ Hf) Hm) as [n Hn]. exists (Datatypes.S n).
    by rewrite run_first_S, step_disabled.
Qed.
End Fair.

(** ** Proving the discipline of a critical section

    A section is proved with what it leaves alone and the calls that matter: at
    every point where it may raise the protected state has to be [free]. *)

Section Sections.
Context {S L : Type} (view : S → L) (free : L → Prop).

(** Neither the lock nor what it protects. *)
Fixpoint keeps_off {A} (p : task S A) : Prop :=
  match p with
  | Finished _ => True
  | Await m k => ∀ s, view (m s).2 = view s ∧ keeps_off (k (m s).1)
  | Acquire _ | Release _ => False
  end.

Fixpoint section_ok {A} (l : L) (p : task S A) : Prop :=
  match p with
  | Finished _ => free l
  | Await m k => ∀ s, view s = l → free (view (m s).2) ∧ section_ok (view (m s).2) (k (m s).1)
  | Acquire _ | Release _ => False
  end.

Lemma keeps_off_bind {A B} (p : task S A) (f : A → task S B) : keeps_off p → (∀ a, keeps_off (f a)) → keeps_off (p ≫= f).
Proof.
  intros Hp Hf. unfold mbind, task_bind. induction p as [[a|e]|X m k IH|k IH|k IH]; simpl in *; [apply Hf|done| |done|done].
  intros s. destruct (Hp s). eauto.
Qed.

Lemma keeps_off_try {A} (p : task S A) h : keeps_off p → (∀ e, keeps_off (h e)) → keeps_off (try_task p h).
Proof.
  intros Hp Hh. induction p as [[a|e]|X m k IH|k IH|k IH]; simpl in *; [done|by destruct (is_Exception e)| |done|done].
  intros s. destruct (Hp s). eauto.
Qed.

Lemma keeps_off_for {X} (f : X → task S unit) l : (∀ x, keeps_off (f x)) → keeps_off (for_task f l).
Proof. intros Hf. induction l as [|x l IH]; simpl; [done|]. by apply keeps_off_bind. Qed.

Lemma keeps_off_call {A} (m : M S A) : (∀ s, view (m s).2 = view s) → keeps_off (await_call m).
Proof. intros Hm s. by split. Qed.

Lemma keeps_off_disciplined {A} (p : task S A) : keeps_off p → disciplined view free free None p.
Proof. induction p as [r|X m k IH|k IH|k IH]; simpl; [done| |done|done]. intros Hp s. destruct (Hp s). eauto. Qed.

Lemma keeps_off_run {A} (p : task S A) s r s' : keeps_off p → run_alone p s = (r, s') → view s' = view s.
Proof.
  revert s. induction p as [r0|X m k IH|k IH|k IH]; intros s Hp Hr; simpl in *; try done; [by injection Hr as <- <-|].
  destruct (Hp s) as [Hv Hk]. destruct (m s) as [r1 s1]. simpl in *. rewrite <- Hv. by apply (IH r1).
Qed.

Lemma section_off {A B} l (p : task S A) (f : A → task S B) :
  keeps_off p → free l → (∀ a, section_ok l (f a)) → section_ok l (p ≫= f).
Proof.
  intros Hp Hl Hf. unfold mbind, task_bind. induction p as [[a|e]|X m k IH|k IH|k IH]; simpl in *; [apply Hf|done| |done|done].
  intros s Hs. destruct (Hp s) as [-> Hk]. subst l. eauto.
Qed.

Lemma section_end {A} l (p : task S A) : keeps_off p → free l → section_ok l p.
Proof.
  intros Hp Hl. induction p as [r|X m k IH|k IH|k IH]; simpl in *; [done| |done|done].
  intros s Hs. destruct (Hp s) as [-> Hk]. subst l. eauto.
Qed.

Lemma section_pure {A B} l (r : res A) (f : A → task S B) :
  free l → (∀ a, r = Ok a → section_ok l (f a)) → section_ok l (pure_res r ≫= f).
Proof. intros Hl Hf. destruct r; [by apply Hf|done]. Qed.

Lemma section_call {A B} l (m : M S A) (f : A → task S B) :
  (∀ s, view s = l → free (view (m s).2) ∧ ∀ a, (m s).1 = Ok a → section_ok (view (m s).2) (f a)) →
  section_ok l (await_call m ≫= f).
Proof. intros Hm s Hs. destruct (Hm s Hs) as [Hf Hk]. split; [done|]. destruct (m s) as [[a|e] s']; [by apply Hk|done]. Qed.

(** The lock around a section, and what the task does with its result. *)
Lemma section_disciplined {A B} (p : task S A) (f : A → task S B) :
  (∀ l, free l → section_ok l p) → (∀ a, keeps_off (f a)) → disciplined view free free None (async_with p ≫= f).
Proof.
  intros Hp Hf. split; [done|]. intros l Hl. specialize (Hp l Hl). unfold mbind, task_bind. clear Hl. revert l Hp.
  induction p as [r|X m k IH|k IH|k IH]; intros l Hp; simpl in *; [|by firstorder|done|done].
  split; [done|]. destruct r; [by apply keeps_off_disciplined|done].
Qed.
End Sections.

(** ** Steering a schedule

    [advances p s p' s']: run for some steps with nobody in between, [p] gets from
    [s] to [p'] and [s'] without touching the lock. *)

Section Steering.
Context {S A : Type}.

Inductive advances {B} : task S B → S → task S B → S → Prop :=
| advances_refl p s : advances p s p s
| advances_step {X} (m : M S X) k s r s1 p' s' :
    m s = (r, s1) → advances (k r) s1 p' s' → advances (Await m k) s p' s'.

Lemma advances_trans {B} (p1 p2 p3 : task S B) s1 s2 s3 :
  advances p1 s1 p2 s2 → advances p2 s2 p3 s3 → advances p1 s1 p3 s3.
Proof. induction 1; [done|]. intros H3. eapply advances_step; eauto. Qed.

(** A part of the task that does not touch the lock, from its run as a call. *)
Lemma advances_bind {B C} (p : task S B) (f : B → task S C) s r s' :
  plain p → run_alone p s = (r, s') →
  advances (p ≫= f) s (match r with Ok a => f a | Raise e => Finished (Raise e) end) s'.
Proof.
  unfold mbind, task_bind. revert s. induction p as [r0|X m k IH|k IH|k IH]; intros s Hp Hr; simpl in *; try done.
  - injection Hr as <- <-. destruct r0; constructor.
  - destruct (m s) as [r1 s1] eqn:Hm. by eapply advances_step, IH.
Qed.

(** One after the other. *)
Lemma advances_call {B C} (m : M S B) (f : B → task S C) s a s1 q s2 :
  m s = (Ok a, s1) → advances (f a) s1 q s2 → advances (await_call m ≫= f) s q s2.
Proof. intros Hm Hf. by eapply advances_step. Qed.

Lemma advances_part {B C} (p : task S B) (f : B → task S C) s a s1 q s2 :
  plain p → run_alone p s = (Ok a, s1) → advances (f a) s1 q s2 → advances (p ≫= f) s q s2.
Proof. intros Hp Hr Hf. eapply advances_trans; [by apply (advances_bind p f s (Ok a) s1)|done]. Qed.

Lemma advances_pure {B C} (r : res B) (f : B → task S C) s a q s' :
  r = Ok a → advances (f a) s q s' → advances (pure_res r ≫= f) s q s'.
Proof. by intros ->. Qed.

Lemma advances_end {B} (p : task S B) s r s' :
  plain p → run_alone p s = (r, s') → advances p s (Finished r) s'.
Proof.
  revert s. induction p as [r0|X m k IH|k IH|k IH]; intros s Hp Hr; simpl in *; try done.
  - injection Hr as <- <-. constructor.
  - destruct (m s) as [r1 s1] eqn:Hm. by eapply advances_step, IH.
Qed.

(** Inside a larger task. *)
Lemma advances_within {B C} (g : task S B → task S C) (p p' : task S B) s s' :
  (∀ X (m : M S X) k, g (Await m k) = Await m (λ r, g (k r))) → advances p s p' s' → advances (g p) s (g p') s'.
Proof. intros Hg. induction 1; [constructor|]. rewrite Hg. by eapply advances_step. Qed.

(** The loop follows when that task alone is scheduled. *)
Lemma advances_schedule i (c : pool S A) p p' s' :
  tasks c !! i = Some (Running p) → advances p (shared c) p' s' →
  ∃ n, run_schedule (List.repeat i n) c =
       {| tasks := <[i := Running p']> (tasks c); locked := locked c; waiters := waiters c; shared := s' |}.
Proof.
  intros Hi Ha. remember (shared c) as s eqn:Es. revert c Hi Es.
  induction Ha as [p s|X m k s r s1 p' s' Hm _ IH]; intros c Hi ->.
  - exists 0. simpl. destruct c. simpl in *. by rewrite list_insert_id.
  - pose proof (lookup_lt_Some _ _ _ Hi) as Hlt.
    destruct (IH (step i c)) as [n Hn].
    { unfold step. rewrite Hi, Hm. simpl. by rewrite list_lookup_insert_eq. }
    { unfold step. by rewrite Hi, Hm. }
    exists (Datatypes.S n). simpl. rewrite Hn. unfold step. rewrite Hi, Hm. simpl. by rewrite list_insert_insert_eq.
Qed.
End Steering.

(** ** Tasks against the calls they stand for

    The rules of [solve_alone], which compares a task with a call of PyMonad.v
    construct by construct. *)

Section Alone.
Context {S : Type}.

Lemma alone_seq {A B} (p : task S A) (f : A → task S B) m g :
  run_alone p ≡ₘ m → (∀ a, run_alone (f a) ≡ₘ g a) → run_alone (p ≫= f) ≡ₘ (m ≫= g).
Proof. intros Hp Hf s. rewrite (alone_bind p f s). by apply mbind_proper. Qed.

Lemma alone_handler {A} (p : task S A) h m k :
  run_alone p ≡ₘ m → (∀ e, run_alone (h e) ≡ₘ k e) → run_alone (try_task p h) ≡ₘ try_except m k.
Proof. intros Hp Hh s. rewrite (alone_try p h s). by apply try_except_proper. Qed.

Lemma alone_each {X} (f : X → task S unit) g l :
  (∀ x, run_alone (f x) ≡ₘ g x) → run_alone (for_task f l) ≡ₘ for_each g l.
Proof. intros Hf. induction l as [|x l IH]; [done|]. by apply alone_seq. Qed.

Lemma alone_when c (p : task S unit) m : run_alone p ≡ₘ m → run_alone (when_task c p) ≡ₘ when c m.
Proof. by destruct c. Qed.

Lemma alone_pure {A} (r : res A) : run_alone (S:=S) (pure_res r) ≡ₘ lift_res r.
Proof. done. Qed.

Lemma alone_fail {A} e : run_alone (S:=S) (A:=A) (fail e) ≡ₘ raise e.
Proof. done. Qed.

Lemma alone_ret {A} (a : A) : run_alone (S:=S) (mret a) ≡ₘ mret a.
Proof. done. Qed.
End Alone.

Create HintDb py_alone.
#[export] Hint Resolve @alone_await @alone_pure @alone_fail @alone_ret : py_alone.

Ltac solve_alone :=
  repeat first
    [ progress intros
    | solve [eauto with py_alone]
    | apply alone_seq
    | apply alone_handler
    | apply alone_each
    | apply alone_when
    | match goal with
      | |- run_alone (match ?x with _ => _ end) ≡ₘ _ => destruct x
      end ].

(** Walk a task that keeps an invariant; what [py_tasks] or the context knows of its
    parts is used. *)
Create HintDb py_tasks.

Ltac solve_steps :=
  repeat first
    [ progress intros
    | done
    | match goal with H : context [steps_keep] |- _ => solve [apply H; eauto] end
    | solve [eauto with py_tasks]
    | apply steps_keep_with
    | apply steps_keep_pure
    | apply steps_keep_seq
    | apply steps_keep_when
    | match goal with
      | |- steps_keep _ _ (match ?x with _ => _ end) => destruct x
      end ].
