(* ===== verification/Workers.v ===== *)
(** * An event loop whose tasks start, cancel and join other tasks

    Tasks.v's coroutines know one lock and a fixed set of tasks.  Here the state
    tells how many background tasks have been created; each of them repeats its
    turn until it says it is done or an exception ends it.  A coroutine can cancel
    such a task and wait for its end, as [task.cancel()] and [asyncio.gather] do, and
    the [CancelledError] is raised at what the cancelled task awaits. *)

From Stdlib Require Import Bool List Arith Lia.
From stdpp Require Import base decidable list option.
From S2P Require Import Prelude PyMonad.
Open Scope py_scope.

(** ** Coroutines *)

(** [Calls m k]: one step on the state.  [Locks], [Unlocks]: the entry and the exit of
    [async with lock].  [Cancels i]: [task.cancel()] of the background task [i];
    [Joins i]: [await asyncio.gather(task, return_exceptions=True)].  What is awaited
    goes on with a result, or with the exception raised in it. *)
Inductive co (S A : Type) : Type :=
| Returned (r : res A)
| Calls {X : Type} (m : M S X) (k : res X → co S A)
| Locks (k : res unit → co S A)
| Unlocks (k : co S A)
| Cancels (i : nat) (k : co S A)
| Joins (i : nat) (k : res unit → co S A).
Arguments Returned {S A} r.
Arguments Calls {S A X} m k.
Arguments Locks {S A} k.
Arguments Unlocks {S A} k.
Arguments Cancels {S A} i k.
Arguments Joins {S A} i k.

#[export] Instance co_ret {S} : MRet (co S) := λ A a, Returned (Ok a).

Fixpoint co_bind_fix {S A B} (f : A → co S B) (p : co S A) : co S B :=
  match p with
  | Returned (Ok a) => f a
  | Returned (Raise e) => Returned (Raise e)
  | Calls m k => Calls m (λ r, co_bind_fix f (k r))
  | Locks k => Locks (λ r, co_bind_fix f (k r))
  | Unlocks k => Unlocks (co_bind_fix f k)
  | Cancels i k => Cancels i (co_bind_fix f k)
  | Joins i k => Joins i (λ r, co_bind_fix f (k r))
  end.
#[export] Instance co_bind {S} : MBind (co S) := @co_bind_fix S.

Definition calls {S A} (m : M S A) : co S A := Calls m Returned.
Definition cancels {S} (i : nat) : co S unit := Cancels i (Returned (Ok tt)).
Definition joins {S} (i : nat) : co S unit := Joins i Returned.

(** [try: p except Exception as e: h(e)]; a [CancelledError] passes. *)
Fixpoint try_co {S A} (p : co S A) (h : exn → co S A) : co S A :=
  match p with
  | Returned (Raise e) => if is_Exception e then h e else Returned (Raise e)
  | Returned (Ok a) => Returned (Ok a)
  | Calls m k => Calls m (λ r, try_co (k r) h)
  | Locks k => Locks (λ r, try_co (k r) h)
  | Unlocks k => Unlocks (try_co k h)
  | Cancels i k => Cancels i (try_co k h)
  | Joins i k => Joins i (λ r, try_co (k r) h)
  end.

(** [async with lock: p]: released however [p] ends; an exception raised while
    waiting for the lock leaves it alone. *)
Fixpoint then_unlock {S A} (p : co S A) : co S A :=
  match p with
  | Returned r => Unlocks (Returned r)
  | Calls m k => Calls m (λ r, then_unlock (k r))
  | Locks k => Locks (λ r, then_unlock (k r))
  | Unlocks k => Unlocks (then_unlock k)
  | Cancels i k => Cancels i (then_unlock k)
  | Joins i k => Joins i (λ r, then_unlock (k r))
  end.
Definition locking {S A} (p : co S A) : co S A :=
  Locks (λ r, match r with Ok _ => then_unlock p | Raise e => Returned (Raise e) end).

(** On its own, with nobody to wait for. *)
Fixpoint co_alone {S A} (p : co S A) : M S A := λ s,
  match p with
  | Returned r => (r, s)
  | Calls m k => let '(r, s') := m s in co_alone (k r) s'
  | Locks k | Joins _ k => co_alone (k (Ok tt)) s
  | Unlocks k | Cancels _ k => co_alone k s
  end.

Section Alone.
Context {S : Type}.

Lemma co_alone_bind {A B} (p : co S A) (f : A → co S B) :
  co_alone (p ≫= f) ≡ₘ (co_alone p ≫= λ a, co_alone (f a)).
Proof.
  intros s. unfold mbind, co_bind, M_bind. revert s.
  induction p as [[a|e]|X m k IH|k IH|k IH|i k IH|i k IH]; intros s; simpl; try done.
  destruct (m s) as [r s']. apply IH.
Qed.

Lemma co_alone_calls {A} (m : M S A) : co_alone (calls m) ≡ₘ m.
Proof. intros s. simpl. by destruct (m s). Qed.

Lemma co_alone_try {A} (p : co S A) h : co_alone (try_co p h) ≡ₘ try_except (co_alone p) (λ e, co_alone (h e)).
Proof.
  intros s. unfold try_except. revert s.
  induction p as [[a|e]|X m k IH|k IH|k IH|i k IH|i k IH]; intros s; simpl; try done.
  - by destruct (is_Exception e).
  - destruct (m s) as [r s']. apply IH.
Qed.

Lemma co_alone_locking {A} (p : co S A) : co_alone (locking p) ≡ₘ co_alone p.
Proof.
  intros s. unfold locking. simpl. revert s.
  induction p as [[a|e]|X m k IH|k IH|k IH|i k IH|i k IH]; intros s; simpl; try done.
  destruct (m s) as [r s']. apply IH.
Qed.

Lemma co_alone_seq {A B} (p : co S A) (f : A → co S B) m g :
  co_alone p ≡ₘ m → (∀ a, co_alone (f a) ≡ₘ g a) → co_alone (p ≫= f) ≡ₘ (m ≫= g).
Proof.
  intros Hp Hf s. rewrite (co_alone_bind p f s). apply mbind_proper; [|done]. intros a. apply Hf.
Qed.
End Alone.

(** ** The loop *)

(** A coroutine under way, and whether it has been cancelled since its last step. *)
Record worker (S : Type) := { rest : co S bool; doomed : bool }.
Arguments rest {S}. Arguments doomed {S}. Arguments Build_worker {S}.

(** A request, or a background task. *)
Inductive who := Client (i : nat) | Beat (i : nat).

#[export] Instance who_eq_dec : EqDecision who.
Proof. solve_decision. Defined.

Record loop (S : Type) := {
  clients : list (worker S); beats : list (worker S); holder : option who; state : S
}.
Arguments clients {S}. Arguments beats {S}. Arguments holder {S}. Arguments state {S}.

Section Loop.
Context {S : Type}.
(** How many background tasks the state has seen created, and a turn of each; a turn
    answers whether there is another. *)
Context (spawned : S → nat) (turn : nat → co S bool).

Definition worker_at (w : who) (l : loop S) : option (worker S) :=
  match w with Client i => clients l !! i | Beat i => beats l !! i end.

Definition put_worker (w : who) (b : worker S) (l : loop S) : loop S :=
  match w with
  | Client i => {| clients := <[i := b]> (clients l); beats := beats l; holder := holder l; state := state l |}
  | Beat i => {| clients := clients l; beats := <[i := b]> (beats l); holder := holder l; state := state l |}
  end.

Definition with_holder (h : option who) (l : loop S) : loop S :=
  {| clients := clients l; beats := beats l; holder := h; state := state l |}.

Definition fresh_beat (i : nat) : worker S := {| rest := turn i; doomed := false |}.

(** The new state, with the tasks it has created. *)
Definition with_state (s : S) (l : loop S) : loop S :=
  let n := length (beats l) in
  {| clients := clients l; beats := (beats l ++ (fresh_beat <$> seq n (spawned s - n)))%list;
     holder := holder l; state := s |}.

(** The end of a background task: not the end of a turn that has a next one. *)
Definition over (b : worker S) : bool :=
  match rest b with Returned (Ok true) => false | Returned _ => true | _ => false end.

Definition beat_over (i : nat) (l : loop S) : bool :=
  match beats l !! i with Some b => over b | None => false end.

(** [cancel()] of a task that is over does nothing. *)
Definition doom (i : nat) (l : loop S) : loop S :=
  match beats l !! i with
  | Some b => if over b then l else put_worker (Beat i) {| rest := rest b; doomed := true |} l
  | None => l
  end.

(** The next step of [b], which is [w]; [None] where it has to wait.  A free lock goes
    to whoever asks next: any order of the waiters is a schedule. *)
Definition move (w : who) (b : worker S) (l : loop S) : option (worker S * loop S) :=
  let go (p : co S bool) (l' : loop S) := Some ({| rest := p; doomed := false |}, l') in
  match rest b with
  | Returned _ => None
  | Calls m k =>
      if doomed b then go (k (Raise CancelledError)) l
      else let '(r, s') := m (state l) in go (k r) (with_state s' l)
  | Locks k =>
      if doomed b then go (k (Raise CancelledError)) l
      else match holder l with None => go (k (Ok tt)) (with_holder (Some w) l) | Some _ => None end
  | Unlocks k => Some ({| rest := k; doomed := doomed b |}, with_holder None l)
  | Cancels i k => Some ({| rest := k; doomed := doomed b |}, doom i l)
  | Joins i k =>
      if doomed b then go (k (Raise CancelledError)) l
      else if beat_over i l then go (k (Ok tt)) l else None
  end.

Definition step (w : who) (l : loop S) : loop S :=
  match worker_at w l with
  | None => l
  | Some b =>
      match w, rest b with
      | Beat i, Returned (Ok true) => put_worker w {| rest := turn i; doomed := doomed b |} l
      | _, _ => match move w b l with Some (b', l') => put_worker w b' l' | None => l end
      end
  end.

Definition run (schedule : list who) (l : loop S) : loop S := fold_left (λ l w, step w l) schedule l.

(** Requests at the start of the program, in a state that has created no task. *)
Definition start (ps : list (co S bool)) (s : S) : loop S :=
  {| clients := (λ p, {| rest := p; doomed := false |}) <$> ps; beats := []; holder := None; state := s |}.

Lemma run_app s1 s2 l : run (s1 ++ s2) l = run s2 (run s1 l).
Proof. apply List.fold_left_app. Qed.

Lemma every_run (I : loop S → Prop) schedule l : (∀ w l, I l → I (step w l)) → I l → I (run schedule l).
Proof. intros Hs Hl. unfold run. apply fold_left_inv; [|done]. intros acc w _. apply Hs. Qed.
End Loop.

(** ** What every step keeps, the loop keeps *)

Section Keeping.
Context {S : Type} (spawned : S → nat) (turn : nat → co S bool) (I : S → Prop).

Fixpoint calls_keep {A} (p : co S A) : Prop :=
  match p with
  | Returned _ => True
  | Calls m k => preserves I m ∧ ∀ r, calls_keep (k r)
  | Locks k | Joins _ k => ∀ r, calls_keep (k r)
  | Unlocks k | Cancels _ k => calls_keep k
  end.

(** Whatever is put for the ends of a coroutine. *)
Ltac keep_ends Hp :=
  let IH := fresh "IH" in
  match type of Hp with calls_keep ?p =>
    induction p as [[?|?]|? ? ? IH|? IH|? IH|? ? IH|? ? IH]; simpl in *; auto;
    try (destruct Hp; split; [done|]; auto)
  end.

Lemma calls_keep_bind {A B} (p : co S A) (f : A → co S B) :
  calls_keep p → (∀ a, calls_keep (f a)) → calls_keep (p ≫= f).
Proof. intros Hp Hf. unfold mbind, co_bind. keep_ends Hp. Qed.

Lemma calls_keep_try {A} (p : co S A) h : calls_keep p → (∀ e, calls_keep (h e)) → calls_keep (try_co p h).
Proof. intros Hp Hh. keep_ends Hp. by destruct (is_Exception _). Qed.

Lemma calls_keep_unlock {A} (p : co S A) : calls_keep p → calls_keep (then_unlock p).
Proof. intros Hp. keep_ends Hp. Qed.

Lemma calls_keep_locking {A} (p : co S A) : calls_keep p → calls_keep (locking p).
Proof. intros Hp [[]|e]; [|done]. by apply calls_keep_unlock. Qed.

Lemma calls_keep_calls {A} (m : M S A) : preserves I m → calls_keep (calls m).
Proof. by split. Qed.

Definition trees_keep (l : loop S) : Prop :=
  Forall (λ b, calls_keep (rest b)) (clients l) ∧ Forall (λ b, calls_keep (rest b)) (beats l).

Lemma put_keep w b l : trees_keep l → calls_keep (rest b) → trees_keep (put_worker w b l) ∧ state (put_worker w b l) = state l.
Proof. intros (Hc & Hb) Hr. destruct w; split; try done; split; try done; by apply Forall_insert. Qed.

Hypothesis turn_keeps : ∀ i, calls_keep (turn i).

Lemma with_state_keep s l : trees_keep l → trees_keep (with_state spawned turn s l).
Proof using turn_keeps.
  intros (Hc & Hb). split; [done|]. apply Forall_app. split; [done|].
  apply Forall_fmap, Forall_true. intros i. apply turn_keeps.
Qed.

Lemma doom_keep i l : trees_keep l → trees_keep (doom i l) ∧ state (doom i l) = state l.
Proof.
  intros Hl. unfold doom. destruct (beats l !! i) as [b|] eqn:E; [|done]. destruct (over b); [done|].
  apply put_keep; [done|]. destruct Hl as (_ & Hb). simpl. by apply (Forall_lookup_1 _ _ _ _ Hb E).
Qed.

Lemma move_keep w b l b' l' :
  trees_keep l → calls_keep (rest b) → move spawned turn w b l = Some (b', l') →
  trees_keep l' ∧ calls_keep (rest b') ∧ (I (state l) → I (state l')).
Proof using turn_keeps.
  intros Hl Hb. unfold move. destruct (rest b) as [r|X m k|k|k|i k|i k]; simpl in Hb; [done|..].
  - destruct Hb as [Hm Hk]. destruct (doomed b); [intros [= <- <-]; split; [done|]; split; [apply Hk|done]|].
    pose proof (Hm (state l)) as Hs. destruct (m (state l)) as [r s']. intros [= <- <-].
    split; [by apply with_state_keep|]. by split; [apply Hk|].
  - destruct (doomed b); [by intros [= <- <-]; split; [|split; [apply Hb|]]|].
    destruct (holder l); [done|]. intros [= <- <-]. split; [exact Hl|]. by split; [apply Hb|].
  - intros [= <- <-]. by split.
  - intros [= <- <-]. destruct (doom_keep i l Hl) as [? ->]. by split.
  - destruct (doomed b); [by intros [= <- <-]; split; [|split; [apply Hb|]]|].
    destruct (beat_over i l); [|done]. intros [= <- <-]. split; [exact Hl|]. by split; [apply Hb|].
Qed.

Lemma step_keep w l : trees_keep l → trees_keep (step spawned turn w l) ∧ (I (state l) → I (state (step spawned turn w l))).
Proof using turn_keeps.
  intros Hl. unfold step. destruct (worker_at w l) as [b|] eqn:Hw; [|done].
  assert (Hb : calls_keep (rest b)).
  { destruct Hl as (Hc & Hb). destruct w; simpl in Hw; [by apply (Forall_lookup_1 _ _ _ _ Hc Hw)|by apply (Forall_lookup_1 _ _ _ _ Hb Hw)]. }
  set (l1 := match move spawned turn w b l with Some (b', l') => put_worker w b' l' | None => l end).
  assert (Hmove : trees_keep l1 ∧ (I (state l) → I (state l1))).
  { subst l1. destruct (move spawned turn w b l) as [[b' l']|] eqn:Em; [|done].
    destruct (move_keep w b l b' l' Hl Hb Em) as (Hl' & Hb' & Hi). by destruct (put_keep w b' l' Hl' Hb') as [? ->]. }
  destruct w as [i|i]; [done|]. destruct (rest b) as [[[]|e]|X m k|k|k|j k|j k]; try done.
  by destruct (put_keep (Beat i) {| rest := turn i; doomed := doomed b |} l Hl (turn_keeps i)) as [? ->].
Qed.

Lemma run_keep schedule l :
  trees_keep l → trees_keep (run spawned turn schedule l) ∧ (I (state l) → I (state (run spawned turn schedule l))).
Proof using turn_keeps.
  intros Hl. apply (every_run spawned turn (λ l', trees_keep l' ∧ (I (state l) → I (state l')))); [|done].
  intros w l' [Hl' Hi]. destruct (step_keep w l' Hl'). auto.
Qed.
End Keeping.

(** ** What only some workers do *)

Section Never.
Context {S : Type} (spawned : S → nat) (turn : nat → co S bool) (I : S → Prop).

(** No step of [p] breaks [I], whatever the results it gets from states with [I] or without. *)
Fixpoint never_breaks {A} (p : co S A) : Prop :=
  match p with
  | Returned _ => True
  | Calls m k => preserves I m ∧ (∀ s, never_breaks (k (m s).1)) ∧ never_breaks (k (Raise CancelledError))
  | Locks k | Joins _ k => ∀ r, never_breaks (k r)
  | Unlocks k | Cancels _ k => never_breaks k
  end.

Lemma calls_never {A} (p : co S A) : calls_keep I p → never_breaks p.
Proof. induction p as [r|X m k IH|k IH|k IH|i k IH|i k IH]; simpl; auto. intros [Hm Hk]. auto. Qed.

Context (allowed : who → Prop).
Hypothesis beats_allowed : ∀ i, allowed (Beat i).
Hypothesis turn_never : ∀ i, never_breaks (turn i).

(** Every worker that may move keeps [I]. *)
Definition tame (l : loop S) : Prop := ∀ w b, allowed w → worker_at w l = Some b → never_breaks (rest b).

Lemma put_tame w b l : tame l → (allowed w → never_breaks (rest b)) → tame (put_worker w b l).
Proof.
  intros Hl Hb v b' Hv Hat. destruct w as [i|i], v as [j|j]; simpl in Hat; try (by apply (Hl _ _ Hv Hat)).
  - apply list_lookup_insert_Some in Hat as [(<- & <- & _)|[_ Hat]]; [by apply Hb|by apply (Hl (Client j))].
  - apply list_lookup_insert_Some in Hat as [(<- & <- & _)|[_ Hat]]; [by apply Hb|by apply (Hl (Beat j))].
Qed.

Lemma with_state_tame s l : tame l → tame (with_state spawned turn s l).
Proof using turn_never.
  intros Hl [j|j] b Hv Hat; simpl in Hat; [by apply (Hl (Client j))|].
  apply lookup_app_Some in Hat as [Hat|[_ Hat]]; [by apply (Hl (Beat j))|].
  apply list_lookup_fmap_Some in Hat as (k & -> & _). apply turn_never.
Qed.

Lemma doom_tame i l : tame l → tame (doom i l).
Proof using beats_allowed.
  intros Hl. unfold doom. destruct (beats l !! i) as [b|] eqn:E; [|done]. destruct (over b); [done|].
  apply put_tame; [done|]. intros _. simpl. by apply (Hl (Beat i) b).
Qed.
Lemma move_tame w b l b' l' :
  tame l → (allowed w → never_breaks (rest b)) → move spawned turn w b l = Some (b', l') →
  tame l' ∧ (allowed w → never_breaks (rest b') ∧ (I (state l) → I (state l'))).
Proof using beats_allowed turn_never.
  intros Hl Hb. unfold move. destruct (rest b) as [r|X m k|k|k|i k|i k]; simpl in Hb; [done|..].
  - destruct (doomed b); [intros [= <- <-]; split; [done|]; intros Hw; split; [apply (Hb Hw)|done]|].
    destruct (m (state l)) as [r s'] eqn:Em. intros [= <- <-]. split; [by apply with_state_tame|]. intros Hw.
    destruct (Hb Hw) as (Hm & Hk & _). specialize (Hm (state l)). specialize (Hk (state l)). by rewrite Em in Hm, Hk.
  - destruct (doomed b); [intros [= <- <-]; split; [done|]; intros Hw; split; [apply (Hb Hw)|done]|].
    destruct (holder l); [done|]. intros [= <- <-]. split; [exact Hl|]. intros Hw. split; [apply (Hb Hw)|done].
  - intros [= <- <-]. split; [exact Hl|]. intros Hw. split; [apply (Hb Hw)|done].
  - intros [= <- <-]. split; [by apply doom_tame|]. intros Hw. split; [apply (Hb Hw)|]. intros Hi. unfold doom.
    destruct (beats l !! i); [|done]. by destruct (over _).
  - destruct (doomed b); [intros [= <- <-]; split; [done|]; intros Hw; split; [apply (Hb Hw)|done]|].
    destruct (beat_over i l); [|done]. intros [= <- <-]. split; [exact Hl|]. intros Hw. split; [apply (Hb Hw)|done].
Qed.

Lemma put_world w b (l : loop S) : state (put_worker w b l) = state l.
Proof. by destruct w. Qed.

Lemma step_tame w l :
  tame l → tame (step spawned turn w l) ∧ (allowed w → I (state l) → I (state (step spawned turn w l))).
Proof using beats_allowed turn_never.
  intros Hl. unfold step. destruct (worker_at w l) as [b|] eqn:Hw; [|done].
  set (l1 := match move spawned turn w b l with Some (b', l') => put_worker w b' l' | None => l end).
  assert (Hmove : tame l1 ∧ (allowed w → I (state l) → I (state l1))).
  { subst l1. destruct (move spawned turn w b l) as [[b' l']|] eqn:Em; [|done].
    destruct (move_tame w b l b' l' Hl (λ Ha, Hl w b Ha Hw) Em) as [Hl' Hb']. split.
    - apply put_tame; [done|]. intros Ha. by destruct (Hb' Ha).
    - intros Ha. rewrite put_world. by destruct (Hb' Ha). }
  destruct w as [i|i]; [done|]. destruct (rest b) as [[[]|e]|X m k|k|k|j k|j k]; try done. split.
  - apply put_tame; [done|]. intros _. apply turn_never.
  - by rewrite put_world.
Qed.

Lemma run_tame schedule l : tame l → tame (run spawned turn schedule l).
Proof using beats_allowed turn_never. apply every_run. intros w l' Hl. by apply step_tame. Qed.

Lemma run_allowed schedule l :
  tame l → Forall allowed schedule → I (state l) → I (state (run spawned turn schedule l)).
Proof using beats_allowed turn_never.
  intros Hl Hs. revert l Hl. induction Hs as [|w schedule Hw _ IH]; intros l Hl Hi; [done|]. simpl.
  destruct (step_tame w l Hl) as [Hl' Hi']. apply IH; [done|by apply Hi'].
Qed.
End Never.
