(* ===== verification/Supervision.v ===== *)
(** * Programs that keep a background task alive

    Rules for the coroutines of Workers.v under which, as long as a flag of the state is
    up, the background task the state names is alive, whoever moves; and under which
    nobody waits for ever, although a coroutine that holds the lock may wait for the end
    of a task that wants it. *)

From Stdlib Require Import Bool List Arith Lia.
From stdpp Require Import base decidable list option.
From S2P Require Import Prelude PyMonad Workers.
Open Scope py_scope.

(** ** Well-behaved coroutines

    [live s] is the flag and [current s] the background task kept for it.  The flag goes
    up only under the lock and together with a new task, which becomes the
    current one; only a coroutine that may do so cancels, under the lock, and takes the
    flag down before it leaves. *)

Section Supervision.
Context {S : Type} (spawned : S → nat) (turn : nat → co S bool).
Context (live : S → bool) (current : S → option nat).

(** A step [m]: it leaves the flag down and the tasks alone, or, with the lock, starts a
    task. *)
Definition calm {X} (m : M S X) (s : S) : Prop :=
  spawned (m s).2 = spawned s ∧ current (m s).2 = current s ∧ (live (m s).2 = true → live s = true).
Definition steady {X} (own : bool) (m : M S X) : Prop := ∀ s,
  calm m s ∨ (own = true ∧ spawned (m s).2 = (spawned s + 1)%nat ∧ current (m s).2 = Some (spawned s)).

(** Without the lock a cancelled coroutine ends at once. *)
Definition fragile {X A} (own : bool) (k : res X → co S A) : Prop :=
  own = false → k (Raise CancelledError) = Returned (Raise CancelledError).

(** After a cancellation, until the flag is down; [after] is what holds from then on. *)
Fixpoint ending {A} (after : co S A → Prop) (p : co S A) : Prop :=
  match p with
  | Calls m k => ∀ s, calm m s ∧
      ((live (m s).2 = false ∧ after (k (m s).1)) ∨ ending after (k (m s).1))
  | Cancels _ k => ending after k
  | Joins _ k => ending after (k (Ok tt))
  | Returned _ | Locks _ | Unlocks _ => False
  end.

(** [good may own fin p]: [p], which holds the lock iff [own], keeps the rules and holds
    the lock at its end iff [fin]. *)
Fixpoint good {A} (may own fin : bool) (p : co S A) : Prop :=
  match p with
  | Returned _ => own = fin
  | Calls m k => steady own m ∧ fragile own k ∧ ∀ r, good may own fin (k r)
  | Locks k => own = false ∧ fragile false k ∧ good may true fin (k (Ok tt)) ∧ good may false fin (k (Raise CancelledError))
  | Unlocks k => own = true ∧ good may false fin k
  | Cancels _ k => may = true ∧ own = true ∧ ending (good may true fin) k
  | Joins _ _ => False
  end.

(** As long as the flag stays up for the same task, the turn ends with another turn. *)
Fixpoint lasting (p : co S bool) : Prop :=
  match p with
  | Returned r => r = Ok true
  | Calls m k => ∀ s, live s = true → live (m s).2 = true → current (m s).2 = current s → lasting (k (m s).1)
  | Locks k | Joins _ k => lasting (k (Ok tt))
  | Unlocks k | Cancels _ k => lasting k
  end.

(** *** Building them *)

(** What replaces the ends of a coroutine and keeps the rest: [bind], [try] and the exit
    of [async with]. *)
Record at_ends {A B} (F : co S A → co S B) : Prop := {
  ends_calls X (m : M S X) k : F (Calls m k) = Calls m (λ r, F (k r));
  ends_locks k : F (Locks k) = Locks (λ r, F (k r));
  ends_unlocks k : F (Unlocks k) = Unlocks (F k);
  ends_cancels i k : F (Cancels i k) = Cancels i (F k);
  ends_joins i k : F (Joins i k) = Joins i (λ r, F (k r))
}.

Lemma good_ends {A B} (F : co S A → co S B) may fin fin' :
  at_ends F → (∀ r, good may fin fin' (F (Returned r))) →
  (fin = false → F (Returned (Raise CancelledError)) = Returned (Raise CancelledError)) →
  ∀ p, (∀ own, good may own fin p → good may own fin' (F p)) ∧
       (ending (good may true fin) p → ending (good may true fin') (F p)).
Proof.
  intros [HC HL HU HX HJ] Hr Hc.
  assert (Hfrag : ∀ X (k : res X → co S A) own, fragile own k → good may own fin (k (Raise CancelledError)) →
                  fragile own (λ r, F (k r))).
  { intros X k own Hk Hg Ho. rewrite (Hk Ho) in Hg |- *. apply Hc. simpl in Hg. by subst. }
  induction p as [r|X m k IH|k IH|k IH|i k IH|i k IH].
  - split; [|done]. intros own H. simpl in H. subst own. apply Hr.
  - rewrite HC. split.
    + intros own (Hm & Hk & Hg). split; [done|]. split; [by apply Hfrag|]. intros r. apply IH, Hg.
    + intros Hp s. destruct (Hp s) as [Hn [[Hl Hk]|Hk]]; (split; [done|]); [left; split; [done|]|right]; by apply IH.
  - rewrite HL. split; [|done]. intros own (Ho & Hk & Hg & Hg'). split; [done|]. split; [by apply Hfrag|].
    split; by apply IH.
  - rewrite HU. split; [|done]. intros own (Ho & Hg). split; [done|]. by apply IH.
  - rewrite HX. split; [|apply IH]. intros own (Hm & Ho & Hk). split; [done|]. split; [done|]. by apply IH.
  - rewrite HJ. split; [done|]. apply IH.
Qed.

Lemma good_bind {A B} may own (p : co S A) (f : A → co S B) :
  good may own false p → (∀ a, good may false false (f a)) → good may own false (p ≫= f).
Proof. intros Hp Hf. apply (good_ends (co_bind_fix f) may false false); [by split| |done|done]. intros [a|e]; [apply Hf|done]. Qed.

Lemma good_try {A} may own (p : co S A) h :
  good may own false p → (∀ e, good may false false (h e)) → good may own false (try_co p h).
Proof.
  intros Hp Hh. apply (good_ends (λ p, try_co p h) may false false); [by split| |done|done].
  intros [a|e]; simpl; [done|]. by destruct (is_Exception e).
Qed.

Lemma good_locking {A} may (p : co S A) : good may true true p → good may false false (locking p).
Proof.
  intros Hp. simpl. do 2 (split; [done|]). split; [|done].
  by apply (good_ends then_unlock may true false).
Qed.

Lemma good_calls {A} may own (m : M S A) : steady own m → good may own own (calls m).
Proof. intros Hm. by split. Qed.

Lemma steady_calm {A} own (m : M S A) : (∀ s, calm m s) → steady own m.
Proof. intros H s. by left. Qed.

(** *** Under every schedule *)

Context (may : who → bool).
Hypothesis beats_may_not : ∀ i, may (Beat i) = false.
Hypothesis turn_good : ∀ i, good false false false (turn i).
Hypothesis turn_lasting : ∀ i, lasting (turn i).

(** A worker that keeps the rules where [h] holds the lock. *)
Definition fit (h : option who) (w : who) (b : worker S) : Prop :=
  (may w = true → doomed b = false) ∧
  (good (may w) (bool_decide (h = Some w)) false (rest b) ∨
   (h = Some w ∧ may w = true ∧ ending (good (may w) true false) (rest b))).

(** The current task is alive, or whoever holds the lock is about to take the flag down. *)
Definition supervised (l : loop S) : Prop :=
  (∃ i b, current (state l) = Some i ∧ beats l !! i = Some b ∧ doomed b = false ∧ lasting (rest b)) ∨
  (∃ w b, holder l = Some w ∧ worker_at w l = Some b ∧ may w = true ∧ ending (good (may w) true false) (rest b)).

Record orderly (l : loop S) : Prop := {
  holder_there w : holder l = Some w → ∃ b, worker_at w l = Some b;
  all_beats : length (beats l) = spawned (state l);
  current_there i : current (state l) = Some i → i < length (beats l);
  all_fit w b : worker_at w l = Some b → fit (holder l) w b;
  flag_supervised : live (state l) = true → supervised l
}.

Lemma lookup_put w w' b (l : loop S) :
  worker_at w' (put_worker w b l) =
    if decide (w = w') then (match worker_at w l with Some _ => Some b | None => None end) else worker_at w' l.
Proof.
  destruct w as [i|i], w' as [j|j]; simpl; try done.
  all: destruct (decide (i = j)) as [->|Hne]; [rewrite decide_True by done|rewrite decide_False by congruence].
  all: try (by rewrite list_lookup_insert_ne).
  - destruct (clients l !! j) eqn:E; [by rewrite list_lookup_insert_eq by (by eapply lookup_lt_Some)|].
    by apply list_lookup_insert_None.
  - destruct (beats l !! j) eqn:E; [by rewrite list_lookup_insert_eq by (by eapply lookup_lt_Some)|].
    by apply list_lookup_insert_None.
Qed.

Lemma put_same w b b0 (l : loop S) : worker_at w l = Some b0 → worker_at w (put_worker w b l) = Some b.
Proof. intros H. by rewrite lookup_put, decide_True, H. Qed.

Lemma put_other w w' b (l : loop S) : w ≠ w' → worker_at w' (put_worker w b l) = worker_at w' l.
Proof. intros H. by rewrite lookup_put, decide_False. Qed.

Lemma put_state w b (l : loop S) :
  state (put_worker w b l) = state l ∧ holder (put_worker w b l) = holder l ∧
  length (beats (put_worker w b l)) = length (beats l).
Proof. destruct w; simpl; by rewrite ?length_insert. Qed.

Lemma beats_at i (l : loop S) : beats l !! i = worker_at (Beat i) l.
Proof. done. Qed.

(** [l] with the next worker at [w]. *)
Lemma put_orderly w b b' l :
  worker_at w l = Some b → length (beats l) = spawned (state l) →
  (∀ i, current (state l) = Some i → i < length (beats l)) →
  (∀ w', holder l = Some w' → ∃ b, worker_at w' l = Some b) →
  (∀ w' b, w ≠ w' → worker_at w' l = Some b → fit (holder l) w' b) →
  fit (holder l) w b' → (live (state l) = true → supervised (put_worker w b' l)) →
  orderly (put_worker w b' l).
Proof.
  intros Hw Hlen Hcur Hthere Hothers Hb Hs. destruct (put_state w b' l) as (Est & Eh & El). split.
  - intros w'. rewrite Eh. intros Hh. destruct (decide (w = w')) as [->|Hne].
    + exists b'. by apply (put_same _ _ b).
    + rewrite (put_other _ _ _ _ Hne). by apply Hthere.
  - by rewrite El, Est.
  - rewrite El, Est. apply Hcur.
  - intros w' b1. rewrite Eh. destruct (decide (w = w')) as [->|Hne].
    + rewrite (put_same w' b' b l Hw). by intros [= <-].
    + rewrite (put_other _ _ _ _ Hne). by apply Hothers.
  - by rewrite Est.
Qed.

Lemma supervised_put w b b' l :
  worker_at w l = Some b → supervised l →
  (doomed b = false → lasting (rest b) → doomed b' = false ∧ lasting (rest b')) →
  (may w = true → ending (good (may w) true false) (rest b) → ending (good (may w) true false) (rest b')) →
  supervised (put_worker w b' l).
Proof.
  intros Hw Hs Hlast Hend. destruct (put_state w b' l) as (Est & Eh & _).
  destruct Hs as [(i & b1 & Hc & Hb & Hd & Hl)|(w1 & b1 & Hh & Hb & Hm & He)].
  - left. rewrite beats_at in Hb. destruct (decide (w = Beat i)) as [->|Hne].
    + rewrite Hw in Hb. injection Hb as <-. destruct (Hlast Hd Hl). exists i, b'. rewrite Est, beats_at.
      by rewrite (put_same _ _ b _ Hw).
    + exists i, b1. by rewrite Est, beats_at, put_other.
  - right. destruct (decide (w = w1)) as [<-|Hne].
    + rewrite Hw in Hb. injection Hb as <-. exists w, b'. rewrite Eh, (put_same _ _ b _ Hw). auto.
    + exists w1, b1. by rewrite Eh, put_other.
Qed.

(** *** The steps *)

(** Its worker's turn is over and another begins. *)
Lemma restart_orderly i b l :
  orderly l → beats l !! i = Some b → rest b = Returned (Ok true) →
  orderly (put_worker (Beat i) {| rest := turn i; doomed := doomed b |} l).
Proof using beats_may_not turn_good turn_lasting.
  intros [Hth Hlen Hcur Hfit Hflag] Hb Hr. destruct (Hfit (Beat i) b Hb) as [Hd Hg].
  apply (put_orderly (Beat i) b); try done; [by intros; apply Hfit| |].
  - split; [done|]. left. rewrite Hr in Hg. destruct Hg as [Hg|(_ & Hm & _)]; [|by rewrite beats_may_not in Hm].
    simpl in Hg. rewrite Hg, beats_may_not. apply turn_good.
  - intros Hl. apply (supervised_put (Beat i) b); [done|by apply Hflag| |].
    + intros Hdb _. split; [done|]. apply turn_lasting.
    + by rewrite beats_may_not.
Qed.

(** A cancellation arrives. *)
Lemma thrown_orderly {X} w (k : res X → co S bool) b l :
  orderly l → worker_at w l = Some b → doomed b = true →
  (∀ own, good (may w) own false (rest b) → good (may w) own false (k (Raise CancelledError))) →
  orderly (put_worker w {| rest := k (Raise CancelledError); doomed := false |} l).
Proof.
  intros [Hth Hlen Hcur Hfit Hflag] Hb Hd Hk. destruct (Hfit w b Hb) as [Hnd Hg]. rewrite Hd in Hnd.
  destruct (may w) eqn:Hm; [by specialize (Hnd eq_refl)|]. destruct Hg as [Hg|(_ & [=] & _)].
  apply (put_orderly w b); try done; [by intros; apply Hfit| |].
  - split; [done|]. left. rewrite Hm. by apply Hk.
  - intros Hl. apply (supervised_put w b); [done|by apply Hflag| |by rewrite Hm]. by rewrite Hd.
Qed.
Lemma with_state_at w s (l : loop S) b :
  worker_at w l = Some b → worker_at w (with_state spawned turn s l) = Some b.
Proof. destruct w as [i|i]; simpl; [done|]. apply lookup_app_l_Some. Qed.

(** A task that was not there before is at the start of its turn. *)
Lemma with_state_new w s (l : loop S) b :
  worker_at w (with_state spawned turn s l) = Some b → worker_at w l = Some b ∨
  (∃ i, w = Beat i ∧ b = fresh_beat turn i ∧ worker_at w l = None).
Proof.
  destruct w as [i|i]; simpl; [by left|]. intros [H|[Hge H]]%lookup_app_Some; [by left|right].
  apply list_lookup_fmap_Some in H as (j & -> & Hj). apply lookup_seq in Hj as [-> _]. exists i.
  split; [done|]. split; [f_equal; lia|]. by apply lookup_ge_None.
Qed.

Lemma with_state_length s (l : loop S) :
  length (beats l) ≤ spawned s → length (beats (with_state spawned turn s l)) = spawned s.
Proof. intros H. simpl. rewrite length_app, length_fmap, length_seq. lia. Qed.

Lemma supervised_with_state s l :
  supervised l → current s = current (state l) → supervised (with_state spawned turn s l).
Proof.
  intros [(i & b & Hc & Hb & Hd & Hl)|(w & b & Hh & Hb & Hm & He)] Hs.
  - left. exists i, b. split; [by rewrite <- Hc|]. split; [|done]. by apply (with_state_at (Beat i)).
  - right. exists w, b. split; [done|]. split; [|done]. by apply with_state_at.
Qed.

Lemma called_orderly {X} w (m : M S X) k b l :
  orderly l → worker_at w l = Some b → rest b = Calls m k → doomed b = false →
  let '(r, s') := m (state l) in
  orderly (put_worker w {| rest := k r; doomed := false |} (with_state spawned turn s' l)).
Proof using beats_may_not turn_good turn_lasting.
  intros [Hth Hlen Hcur Hfit Hflag] Hb Hr Hd. destruct (m (state l)) as [r s'] eqn:Em.
  assert (Hmr : (m (state l)).1 = r ∧ (m (state l)).2 = s') by (by rewrite Em). destruct Hmr as [Er Es].
  destruct (Hfit w b Hb) as [_ Hg]. rewrite Hr in Hg.
  assert (Hn : spawned (state l) ≤ spawned s' ∧ ∀ i, current s' = Some i → i < spawned s').
  { rewrite <- Es. destruct Hg as [(Hm & _)|(_ & _ & He)];
      [destruct (Hm (state l)) as [(-> & -> & _)|(_ & -> & ->)]|destruct (He (state l)) as [(-> & -> & _) _]];
      rewrite <- ?Hlen; (split; [lia|]); try done. intros i [= <-]. lia. }
  destruct Hn as [Hn Ht].
  set (b' := {| rest := k r; doomed := false |}).
  assert (Hfit' : live s' = true → ending (good (may w) true false) (Calls m k) → ending (good (may w) true false) (k r)).
  { intros Hl He. destruct (He (state l)) as [_ [[Hf _]|He']]; [by rewrite Es, Hl in Hf|by rewrite Er in He']. }
  apply (put_orderly w b).
  - by apply with_state_at.
  - apply with_state_length. by rewrite Hlen.
  - rewrite with_state_length by (by rewrite Hlen). apply Ht.
  - intros w' Hh. destruct (Hth w' Hh) as [b1 Hb1]. exists b1. by apply with_state_at.
  - intros w' b1 Hne [H|(i & -> & -> & Hnone)]%with_state_new; [by apply Hfit|]. split; [done|]. left.
    simpl. rewrite beats_may_not, bool_decide_eq_false_2; [apply turn_good|]. intros Hh.
    destruct (Hth _ Hh) as [? Hs]. by rewrite Hs in Hnone.
  - split; [done|]. simpl. destruct Hg as [(_ & _ & Hg)|(Hh & Hm & He)]; [left; apply Hg|].
    rewrite bool_decide_eq_true_2 by done. destruct (He (state l)) as [_ [[_ Ha]|Ha]]; rewrite Er in Ha; [by left|by right].
  - simpl. intros Hl. destruct Hg as [(Hm & _)|(Hh & Hmay & He)].
    + destruct (Hm (state l)) as [(Hsp & Hc & Hl0)|(Ho & Hsp & Hc)]; rewrite Es in Hc, Hsp.
      * apply (supervised_put w b); [by apply with_state_at|apply supervised_with_state; [|done]; apply Hflag, Hl0; by rewrite Es| |].
        -- intros _ Hlast. split; [done|]. rewrite Hr in Hlast. rewrite Es in Hl0. specialize (Hlast (state l) (Hl0 Hl)).
           rewrite Es, Er in Hlast. by apply Hlast.
        -- intros _. rewrite Hr. by apply Hfit'.
      * left. exists (spawned (state l)), (fresh_beat turn (spawned (state l))).
        apply bool_decide_eq_true in Ho. destruct (put_state w b' (with_state spawned turn s' l)) as (Est & _).
        split; [by rewrite Est|]. split; [|split; [done|apply turn_lasting]].
        rewrite beats_at, put_other.
        2:{ intros ->. apply lookup_lt_Some in Hb. lia. }
        simpl. rewrite lookup_app_r, list_lookup_fmap, lookup_seq_lt by lia. simpl. do 2 f_equal. lia.
    + right. exists w, b'. destruct (put_state w b' (with_state spawned turn s' l)) as (_ & Eh & _).
      rewrite Eh. split; [done|]. split; [by apply (put_same _ _ b), with_state_at|]. split; [done|]. by apply Hfit'.
Qed.
Lemma with_holder_at w h (l : loop S) : worker_at w (with_holder h l) = worker_at w l.
Proof. by destruct w. Qed.

(** Where the lock's holder is not about to take the flag down, the current task is
    alive, whoever gets the lock next. *)
Lemma supervised_holder w b b' h l :
  worker_at w l = Some b → supervised l → (∀ w', holder l = Some w' → w' = w) →
  ¬ ending (good (may w) true false) (rest b) → (lasting (rest b) → lasting (rest b')) → doomed b' = doomed b →
  supervised (put_worker w b' (with_holder h l)).
Proof.
  intros Hb Hs Hh Hne Hl Hd. destruct Hs as [(i & b1 & Hc & Hb1 & Hd1 & Hl1)|(w1 & b1 & Hh1 & Hb1 & _ & He)].
  - apply (supervised_put w b); [done| |by rewrite Hd; auto|done].
    left. by exists i, b1.
  - rewrite (Hh w1 Hh1) in Hb1, He. rewrite Hb in Hb1. by injection Hb1 as <-.
Qed.

(** The others do not hold the lock before, nor after. *)
Lemma fit_holder w w' h h' b :
  w ≠ w' → (∀ v, h = Some v → v = w) → (∀ v, h' = Some v → v = w) → fit h w' b → fit h' w' b.
Proof.
  intros Hne Hh Hh' [Hd Hg]. split; [done|].
  assert (Hno : ∀ h0, (∀ v, h0 = Some v → v = w) → h0 ≠ Some w').
  { intros h0 H0 E. by destruct (Hne (eq_sym (H0 w' E))). }
  destruct Hg as [Hg|(E & _)]; [|by destruct (Hno h Hh)]. left.
  rewrite (bool_decide_eq_false_2 (h' = Some w')) by (by apply Hno).
  by rewrite (bool_decide_eq_false_2 (h = Some w')) in Hg by (by apply Hno).
Qed.

Lemma locked_orderly w k b l :
  orderly l → worker_at w l = Some b → rest b = Locks k → doomed b = false → holder l = None →
  orderly (put_worker w {| rest := k (Ok tt); doomed := false |} (with_holder (Some w) l)).
Proof.
  intros [Hth Hlen Hcur Hfit Hflag] Hb Hr Hd Hh. destruct (Hfit w b Hb) as [_ Hg]. rewrite Hr, Hh in Hg.
  apply (put_orderly w b); try done.
  - intros w' [= <-]. exists b. by rewrite with_holder_at.
  - intros w' b1 Hne. rewrite with_holder_at. intros H1.
    apply (fit_holder w w' None); [done|done|by intros v [= <-]|]. rewrite <- Hh. by apply Hfit.
  - split; [done|]. left. rewrite bool_decide_eq_true_2 by done. destruct Hg as [(_ & _ & Hg & _)|([=] & _)]. apply Hg.
  - intros Hl. apply (supervised_holder w b); [done|by apply Hflag|by rewrite Hh|rewrite Hr; by intros []|by rewrite Hr|done].
Qed.

Lemma unlocked_orderly w k b l :
  orderly l → worker_at w l = Some b → rest b = Unlocks k →
  orderly (put_worker w {| rest := k; doomed := doomed b |} (with_holder None l)).
Proof.
  intros [Hth Hlen Hcur Hfit Hflag] Hb Hr. destruct (Hfit w b Hb) as [Hd Hg]. rewrite Hr in Hg.
  destruct Hg as [[Ho Hg]|(_ & _ & [])]. apply bool_decide_eq_true in Ho.
  apply (put_orderly w b); try done.
  - intros w' b1 Hne. rewrite with_holder_at. intros H1.
    apply (fit_holder w w' (Some w)); [done|by intros v [= <-]|done|]. rewrite <- Ho. by apply Hfit.
  - split; [done|]. by left.
  - intros Hl. apply (supervised_holder w b); [done|by apply Hflag| |rewrite Hr; by intros []|by rewrite Hr|done].
    rewrite Ho. by intros w' [= <-].
Qed.

(** Dooming a background task leaves the rest as it was. *)
Lemma doom_at i w b (l : loop S) :
  worker_at w (doom i l) = Some b → ∃ d, worker_at w l = Some {| rest := rest b; doomed := d |} ∧
    (w ≠ Beat i → d = doomed b).
Proof.
  assert (Hsame : worker_at w l = Some b → ∃ d, worker_at w l = Some {| rest := rest b; doomed := d |} ∧
                  (w ≠ Beat i → d = doomed b)) by (intros ->; destruct b; by eexists).
  unfold doom. destruct (beats l !! i) as [b0|] eqn:E; [|done]. destruct (over b0); [done|].
  rewrite lookup_put. destruct (decide (Beat i = w)) as [<-|]; [|done]. rewrite beats_at in E. rewrite E.
  intros [= <-]. simpl. exists (doomed b0). by destruct b0.
Qed.

Lemma doom_same i w b (l : loop S) : w ≠ Beat i → worker_at w l = Some b → worker_at w (doom i l) = Some b.
Proof.
  intros Hne Hw. unfold doom. destruct (beats l !! i) as [b0|]; [|done]. destruct (over b0); [done|]. by rewrite put_other.
Qed.

Lemma doom_state i (l : loop S) :
  state (doom i l) = state l ∧ holder (doom i l) = holder l ∧ length (beats (doom i l)) = length (beats l) ∧
  clients (doom i l) = clients l.
Proof.
  unfold doom. destruct (beats l !! i); [|done]. destruct (over _); [done|]. simpl. by rewrite length_insert.
Qed.

Lemma canceled_orderly w i k b l :
  orderly l → worker_at w l = Some b → rest b = Cancels i k →
  orderly (put_worker w {| rest := k; doomed := doomed b |} (doom i l)).
Proof using beats_may_not.
  intros [Hth Hlen Hcur Hfit Hflag] Hb Hr. destruct (Hfit w b Hb) as [Hd Hg]. rewrite Hr in Hg.
  assert (H : may w = true ∧ holder l = Some w ∧ ending (good (may w) true false) k).
  { destruct Hg as [(Hm & Ho & Hk)|(Ho & Hm & Hk)]; [apply bool_decide_eq_true in Ho|]; done. }
  destruct H as (Hm & Ho & Hk). destruct (doom_state i l) as (Est & Eh & El & _).
  assert (Hw : w ≠ Beat i) by (intros ->; by rewrite beats_may_not in Hm).
  apply (put_orderly w b); rewrite ?Est, ?Eh, ?El; try done.
  - by apply doom_same.
  - intros w' Hh. rewrite Ho in Hh. injection Hh as <-. exists b. by apply doom_same.
  - intros w' b1 Hne (d & H1 & Hdd)%doom_at. destruct (Hfit _ _ H1) as [Hd1 Hg1]. split; [|done].
    intros Hm1. rewrite <- Hdd; [by apply Hd1|]. intros ->. by rewrite beats_may_not in Hm1.
  - split; [done|]. right. by rewrite Hm in *.
  - intros _. right. exists w, {| rest := k; doomed := doomed b |}.
    destruct (put_state w {| rest := k; doomed := doomed b |} (doom i l)) as (_ & Eh' & _).
    rewrite Eh', Eh, (put_same _ _ b) by (by apply doom_same). done.
Qed.

Lemma joined_orderly w i k b l :
  orderly l → worker_at w l = Some b → rest b = Joins i k → doomed b = false →
  orderly (put_worker w {| rest := k (Ok tt); doomed := false |} l).
Proof.
  intros [Hth Hlen Hcur Hfit Hflag] Hb Hr Hd. destruct (Hfit w b Hb) as [_ Hg]. rewrite Hr in Hg.
  destruct Hg as [[]|(Ho & Hm & Hk)]. apply (put_orderly w b); try done; [by intros; apply Hfit| |].
  - split; [done|]. by right.
  - intros Hl. apply (supervised_put w b); [done|by apply Hflag| |]; rewrite Hr; [by split|done].
Qed.

(** The rules are kept whoever moves. *)
Lemma move_orderly w b l b' l' :
  orderly l → worker_at w l = Some b → move spawned turn w b l = Some (b', l') → orderly (put_worker w b' l').
Proof using beats_may_not turn_good turn_lasting.
  intros Hl Hb. unfold move. destruct (rest b) as [r|X m k|k|k|i k|i k] eqn:Hr; [done|..].
  - destruct (doomed b) eqn:Hd.
    + intros [= <- <-]. apply (thrown_orderly w k b); try done. rewrite Hr. intros own (_ & _ & Hg). apply Hg.
    + pose proof (called_orderly w m k b l Hl Hb Hr Hd) as Hc. destruct (m (state l)) as [r s']. by intros [= <- <-].
  - destruct (doomed b) eqn:Hd.
    + intros [= <- <-]. apply (thrown_orderly w k b); try done. rewrite Hr. by intros own (-> & _ & _ & Hg).
    + destruct (holder l) eqn:Hh; [done|]. intros [= <- <-]. by apply (locked_orderly w k b).
  - intros [= <- <-]. by apply unlocked_orderly.
  - intros [= <- <-]. by apply canceled_orderly.
  - destruct (doomed b) eqn:Hd.
    + intros [= <- <-]. apply (thrown_orderly w k b); try done. by rewrite Hr.
    + destruct (beat_over i l); [|done]. intros [= <- <-]. by apply (joined_orderly w i k b).
Qed.

Lemma step_orderly w l : orderly l → orderly (step spawned turn w l).
Proof using beats_may_not turn_good turn_lasting.
  intros Hl. unfold step. destruct (worker_at w l) as [b|] eqn:Hb; [|done].
  assert (Hmove : orderly (match move spawned turn w b l with Some (b', l') => put_worker w b' l' | None => l end)).
  { destruct (move spawned turn w b l) as [[b' l']|] eqn:Em; [|done]. by apply (move_orderly w b l). }
  destruct w as [i|i]; [done|]. destruct (rest b) as [[[]|e]|X m k|k|k|j k|j k] eqn:Hr; try done.
  by apply restart_orderly.
Qed.

Lemma run_orderly schedule l : orderly l → orderly (run spawned turn schedule l).
Proof using beats_may_not turn_good turn_lasting. apply every_run. apply step_orderly. Qed.

Lemma start_orderly ps s :
  spawned s = 0 → current s = None → live s = false → (∀ i p, ps !! i = Some p → good (may (Client i)) false false p) →
  orderly (start ps s).
Proof.
  intros Hs Hc Hl Hps. split; simpl; [done|done|by rewrite Hc| |by rewrite Hl].
  intros [i|i] b; simpl; [|done]. intros (p & -> & Hp)%list_lookup_fmap_Some. split; [done|]. left. by apply Hps.
Qed.
(** *** Progress *)

(** [ready n D p]: where [n] background tasks exist and those of [D] are done for, [p]
    cancels only existing tasks and waits only for cancelled ones. *)
Fixpoint ready {A} (n : nat) (D : list nat) (p : co S A) : Prop :=
  match p with
  | Returned _ => True
  | Calls m k => ∀ s, n ≤ spawned s → (∀ i, current s = Some i → i < spawned s) → ready (spawned (m s).2) D (k (m s).1)
  | Locks k => ready n D (k (Ok tt))
  | Unlocks k => ready n D k
  | Cancels i k => i < n ∧ ready n (i :: D) k
  | Joins i k => In i D ∧ ready n D (k (Ok tt))
  end.

Lemma ready_mono {A} (p : co S A) n n' D : n ≤ n' → ready n D p → ready n' D p.
Proof.
  revert n n' D. induction p as [r|X m k IH|k IH|k IH|i k IH|i k IH]; simpl; intros n n' D Hn; [done|..].
  - intros H s Hs. apply H. lia.
  - by apply IH.
  - by apply IH.
  - intros [Hi H]. split; [lia|]. by eapply IH.
  - intros [Hi H]. split; [done|]. by eapply IH.
Qed.

(** What may not cancel waits for nothing but the lock. *)
Lemma good_ready {A} (p : co S A) own fin n D : good false own fin p → ready n D p.
Proof.
  revert own n. induction p as [r|X m k IH|k IH|k IH|i k IH|i k IH]; intros own n; [done|..].
  - intros (_ & _ & Hk) s _ _. eapply IH, Hk.
  - intros (_ & _ & Hk & _). by eapply IH.
  - intros [_ Hk]. by eapply IH.
  - by intros [[=] _].
  - done.
Qed.

(** A task that is over, or that ends at its next step. *)
Definition felled (j : nat) (l : loop S) : Prop :=
  ∃ b, beats l !! j = Some b ∧ (over b = true ∨ (doomed b = true ∧ holder l ≠ Some (Beat j))).

(** What a step does to another's worker. *)
Lemma move_others w v b l b' l' b0 :
  move spawned turn w b l = Some (b', l') → w ≠ v → worker_at v l = Some b0 →
  ∃ d, worker_at v (put_worker w b' l') = Some {| rest := rest b0; doomed := d |} ∧
    (d = doomed b0 ∨ (d = true ∧ ∃ i, v = Beat i)) ∧
    (holder (put_worker w b' l') = Some v → holder l = Some v).
Proof.
  intros Hm Hne Hv. destruct (put_state w b' l') as (_ & -> & _). rewrite put_other by done.
  assert (Hsame : worker_at v l = Some {| rest := rest b0; doomed := doomed b0 |}) by (by destruct b0).
  revert Hm. unfold move. destruct (rest b) as [r|X m k|k|k|i k|i k]; [done|..].
  - destruct (doomed b); [by intros [= <- <-]; exists (doomed b0); auto|].
    destruct (m (state l)) as [r s']. intros [= <- <-]. exists (doomed b0). split; [by apply with_state_at|]. auto.
  - destruct (doomed b); [by intros [= <- <-]; exists (doomed b0); auto|].
    destruct (holder l); [done|]. intros [= <- <-]. exists (doomed b0). rewrite with_holder_at. split; [done|].
    split; [by left|]. simpl. by intros [= ->].
  - intros [= <- <-]. exists (doomed b0). rewrite with_holder_at. split; [done|]. by split; [left|].
  - intros [= <- <-]. destruct (doom_state i l) as (_ & -> & _). unfold doom.
    destruct (beats l !! i) as [b1|] eqn:E; [|by exists (doomed b0); auto].
    destruct (over b1); [by exists (doomed b0); auto|]. destruct (decide (Beat i = v)) as [<-|Hnv].
    + rewrite (put_same _ _ b1) by done. rewrite beats_at in E. rewrite E in Hv. injection Hv as ->.
      exists true. split; [done|]. split; [|done]. right. eauto.
    + rewrite put_other by done. by exists (doomed b0); auto.
  - destruct (doomed b); [by intros [= <- <-]; exists (doomed b0); auto|].
    destruct (beat_over i l); [|done]. by intros [= <- <-]; exists (doomed b0); auto.
Qed.

Lemma step_others w v l b0 :
  w ≠ v → worker_at v l = Some b0 →
  ∃ d, worker_at v (step spawned turn w l) = Some {| rest := rest b0; doomed := d |} ∧
    (d = doomed b0 ∨ (d = true ∧ ∃ i, v = Beat i)) ∧
    (holder (step spawned turn w l) = Some v → holder l = Some v).
Proof.
  intros Hne Hv. assert (Hsame : worker_at v l = Some {| rest := rest b0; doomed := doomed b0 |}) by (by destruct b0).
  unfold step. destruct (worker_at w l) as [b|] eqn:Hw; [|by exists (doomed b0); auto].
  set (l1 := match move _ _ _ _ _ with Some (b', l') => put_worker w b' l' | None => l end).
  assert (Hmove : ∃ d, worker_at v l1 = Some {| rest := rest b0; doomed := d |} ∧
    (d = doomed b0 ∨ (d = true ∧ ∃ i, v = Beat i)) ∧ (holder l1 = Some v → holder l = Some v)).
  { subst l1. destruct (move spawned turn w b l) as [[b' l']|] eqn:Em; [|by exists (doomed b0); auto]. by eapply move_others. }
  destruct w as [i|i]; [done|]. destruct (rest b) as [[[]|e]|X m k|k|k|j k|j k] eqn:Hr; try done.
  exists (doomed b0). by rewrite put_other; auto.
Qed.
Lemma step_is_move w b l :
  worker_at w l = Some b → (∀ r, rest b ≠ Returned r) →
  step spawned turn w l = match move spawned turn w b l with Some (b', l') => put_worker w b' l' | None => l end.
Proof. intros Hb Hr. unfold step. rewrite Hb. destruct w; [done|]. destruct (rest b) as [[[]|e]|X m k|k|k|j k|j k]; done || by edestruct Hr. Qed.

(** A task that is over stays over. *)
Lemma over_stays w j l b : beats l !! j = Some b → over b = true →
  ∃ b', beats (step spawned turn w l) !! j = Some b' ∧ over b' = true.
Proof.
  intros Hb Ho. destruct (decide (w = Beat j)) as [->|Hne].
  - exists b. unfold step. rewrite <- (beats_at j l) at 1. rewrite Hb. unfold over in Ho.
    destruct b as [[[[]|e]|X m k|k|k|i k|i k] d]; done.
  - destruct (step_others w (Beat j) l b Hne Hb) as (d & H & _). eauto.
Qed.

(** A cancelled task's own next step. *)
Lemma doomed_step j l b :
  orderly l → beats l !! j = Some b → doomed b = true → holder l ≠ Some (Beat j) → over b = false →
  let b' := match rest b with
    | Returned _ => {| rest := turn j; doomed := true |}
    | _ => {| rest := Returned (Raise CancelledError); doomed := false |} end in
  step spawned turn (Beat j) l = put_worker (Beat j) b' l.
Proof using beats_may_not.
  intros Hl Hb Hd Hh Hov. destruct (all_fit _ Hl (Beat j) b Hb) as [_ [Hg|(E & _)]]; [|done].
  rewrite bool_decide_eq_false_2, beats_may_not in Hg by done. unfold over in Hov.
  unfold step, move. rewrite <- (beats_at j l) at 1. rewrite Hb, Hd.
  destruct (rest b) as [[[]|e]|X m k|k|k|i k|i k]; try done.
  - destruct Hg as (_ & Hk & _). by rewrite (Hk eq_refl).
  - destruct Hg as (_ & Hk & _). by rewrite (Hk eq_refl).
  - by destruct Hg.
  - by destruct Hg.
Qed.

Lemma felled_step w j l : orderly l → felled j l → felled j (step spawned turn w l).
Proof using beats_may_not.
  intros Hl (b & Hb & Hf). destruct (over b) eqn:Ho.
  { destruct (over_stays w j l b Hb Ho) as (b' & H & ?). exists b'. auto. }
  destruct Hf as [|[Hd Hh]]; [done|]. destruct (decide (w = Beat j)) as [->|Hne].
  - rewrite (doomed_step j l b) by done. destruct (put_state (Beat j) {| rest := turn j; doomed := true |} l) as (_ & Eh & _).
    eexists. rewrite beats_at, (put_same _ _ b) by done. split; [done|].
    unfold over in Ho. destruct (rest b); [right|by left..]. by split; [|rewrite Eh].
  - destruct (step_others w (Beat j) l b Hne Hb) as (d & H & Hdd & Hhh).
    eexists. split; [exact H|]. right. simpl. split; [destruct Hdd as [->|[-> _]]; done|]. auto.
Qed.

Lemma put_lengths w b (l : loop S) :
  length (clients (put_worker w b l)) = length (clients l) ∧ length (beats (put_worker w b l)) = length (beats l).
Proof. destruct w; simpl; by rewrite ?length_insert. Qed.

Lemma step_lengths w l :
  length (clients (step spawned turn w l)) = length (clients l) ∧ length (beats l) ≤ length (beats (step spawned turn w l)).
Proof.
  assert (Hmove : ∀ b, let l' := match move spawned turn w b l with Some (b', l') => put_worker w b' l' | None => l end in
    length (clients l') = length (clients l) ∧ length (beats l) ≤ length (beats l')).
  { intros b. destruct (move spawned turn w b l) as [[b' l']|] eqn:Em; [|done]. simpl.
    destruct (put_lengths w b' l') as (-> & ->). revert Em. unfold move.
    destruct (rest b), (doomed b); try (by intros [= <- <-]); try done.
    - destruct (m (state l)) as [r s']. intros [= <- <-]. simpl. rewrite length_app. lia.
    - destruct (holder l); [done|]. by intros [= <- <-].
    - intros [= <- <-]. by destruct (doom_state i l) as (_ & _ & -> & ->).
    - intros [= <- <-]. by destruct (doom_state i l) as (_ & _ & -> & ->).
    - destruct (beat_over i l); [|done]. by intros [= <- <-]. }
  unfold step. destruct (worker_at w l) as [b|]; [|done]. destruct w as [i|i]; [apply Hmove|].
  destruct (rest b) as [[[]|e]|X m k|k|k|j k|j k]; try apply Hmove. simpl. by rewrite length_insert.
Qed.

Lemma run_clients schedule l : length (clients (run spawned turn schedule l)) = length (clients l).
Proof.
  apply (every_run spawned turn (λ l', length (clients l') = length (clients l))); [|done].
  intros w l' <-. by destruct (step_lengths w l').
Qed.

Lemma step_client_back w i l b' :
  clients (step spawned turn w l) !! i = Some b' → ∃ b, clients l !! i = Some b.
Proof. intros H%lookup_lt_Some. apply lookup_lt_is_Some_2. by destruct (step_lengths w l) as [<- _]. Qed.

(** A request that waits only for what is done for. *)
Definition client_ready (l : loop S) (b : worker S) : Prop :=
  doomed b = false ∧ ∃ D, ready (length (beats l)) D (rest b) ∧ ∀ j, In j D → felled j l.

Definition restful (l : loop S) : Prop :=
  orderly l ∧ ∀ i b, clients l !! i = Some b → client_ready l b.

Lemma client_at i (l : loop S) : clients l !! i = worker_at (Client i) l.
Proof. done. Qed.

Lemma client_ready_step w l b : orderly l → client_ready l b → client_ready (step spawned turn w l) b.
Proof using beats_may_not.
  intros Hl (Hd & D & Hr & HD). split; [done|]. exists D. split.
  - apply (ready_mono _ (length (beats l))); [apply step_lengths|done].
  - intros j Hj. by apply felled_step, HD.
Qed.

Lemma doom_felled j (l : loop S) : j < length (beats l) → holder l ≠ Some (Beat j) → felled j (doom j l).
Proof.
  intros [b Hb]%lookup_lt_is_Some_2 Hh. unfold doom. rewrite Hb. destruct (over b) eqn:Ho; [by exists b; auto|].
  eexists. rewrite beats_at, (put_same _ _ b) by done. split; [done|]. by right.
Qed.

(** A request's own step. *)
Lemma client_step i l b :
  restful l → clients l !! i = Some b →
  ∃ b', clients (step spawned turn (Client i) l) !! i = Some b' ∧ client_ready (step spawned turn (Client i) l) b'.
Proof using beats_may_not turn_good turn_lasting.
  intros [Hl Hready] Hb. destruct (Hready i b Hb) as (Hd & D & Hr & HD).
  pose proof (step_orderly (Client i) l Hl) as Hl'. pose proof (λ j Hj, felled_step (Client i) j l Hl (HD j Hj)) as HD'.
  destruct (step_lengths (Client i) l) as [_ Hlen]. pose proof (client_ready_step (Client i) l b Hl (Hready i b Hb)) as Hstay.
  rewrite client_at in Hb. destruct b as [p d]. simpl in Hd, Hr. subst d.
  unfold step in *. rewrite Hb in *. unfold move in *. simpl rest in *. simpl doomed in *. cbv iota in *.
  destruct p as [r|X m k|k|k|j k|j k].
  - eauto.
  - destruct (m (state l)) as [r s'] eqn:Em. pose proof (all_beats _ Hl') as Hn.
    set (b' := {| rest := k r; doomed := false |}) in *.
    eexists. rewrite client_at, (put_same _ _ {| rest := Calls m k; doomed := false |}) by (by apply with_state_at).
    split; [done|]. split; [done|]. exists D. split; [|done].
    destruct (put_state (Client i) b' (with_state spawned turn s' l)) as (Est & _ & _).
    rewrite Hn, Est. specialize (Hr (state l)). rewrite Em in Hr. apply Hr.
    + by rewrite (all_beats _ Hl).
    + rewrite <- (all_beats _ Hl). apply (current_there _ Hl).
  - destruct (holder l); [by eauto|]. eexists. rewrite client_at, (put_same _ _ {| rest := Locks k; doomed := false |}) by done.
    split; [done|]. split; [done|]. exists D. by split.
  - eexists. rewrite client_at, (put_same _ _ {| rest := Unlocks k; doomed := false |}) by done.
    split; [done|]. split; [done|]. exists D. by split.
  - eexists. rewrite client_at, (put_same _ _ {| rest := Cancels j k; doomed := false |}) by (by apply doom_same).
    split; [done|]. split; [done|]. exists (j :: D). destruct Hr as [Hj Hr]. split; [by eapply ready_mono, Hr|].
    intros j' [<-|Hj']; [|by apply HD']. apply doom_felled; [done|].
    destruct (all_fit _ Hl (Client i) _ Hb) as [_ [(_ & Ho & _)|(-> & _)]]; [|done].
    apply bool_decide_eq_true in Ho. by rewrite Ho.
  - destruct (beat_over j l); [|by eauto]. eexists. rewrite client_at, (put_same _ _ {| rest := Joins j k; doomed := false |}) by done.
    split; [done|]. split; [done|]. exists D. split; [|done]. by destruct Hr.
Qed.
Lemma step_restful w l : restful l → restful (step spawned turn w l).
Proof using beats_may_not turn_good turn_lasting.
  intros Hl. split; [apply step_orderly, Hl|]. intros i b Hb. destruct (step_client_back w i l b Hb) as [b0 E].
  destruct (decide (w = Client i)) as [->|Hne].
  - destruct (client_step i l b0 Hl E) as (b' & H & Hr). rewrite Hb in H. by injection H as ->.
  - destruct Hl as [Hl Hr]. apply client_ready_step; [done|].
    destruct (step_others w (Client i) l b0 Hne E) as (d & H & Hd & _). rewrite client_at, H in Hb. injection Hb as <-.
    destruct Hd as [->|[_ [? [=]]]]. apply (Hr i). rewrite E. by destruct b0.
Qed.

Lemma run_restful schedule l : restful l → restful (run spawned turn schedule l).
Proof using beats_may_not turn_good turn_lasting. apply every_run, step_restful. Qed.

(** *** Every request can end *)

Hypothesis turn_calls : ∀ i, ∃ X (m : M S X) k, turn i = Calls m k.

Definition finished (i : nat) (l : loop S) : Prop := ∀ b, clients l !! i = Some b → ∃ r, rest b = Returned r.

Lemma finished_run schedule i l : finished i l → finished i (run spawned turn schedule l).
Proof.
  apply every_run. clear l. intros w l Hl b' Hb'. destruct (step_client_back w i l b' Hb') as [b Hb].
  destruct (Hl b Hb) as [r Hr]. destruct (decide (w = Client i)) as [->|Hne].
  - revert Hb'. unfold step. rewrite <- client_at, Hb. unfold move. rewrite Hr, Hb. intros [= <-]. eauto.
  - destruct (step_others w (Client i) l b Hne Hb) as (d & H & _). rewrite client_at, H in Hb'. injection Hb' as <-. eauto.
Qed.

(** A felled task can be run to its end, and nobody else notices. *)
Lemma fell j l : restful l → felled j l → ∃ schedule, let l' := run spawned turn schedule l in
  beat_over j l' = true ∧ clients l' = clients l ∧ holder l' = holder l.
Proof using beats_may_not turn_good turn_lasting turn_calls.
  assert (Hend : ∀ l b, orderly l → beats l !! j = Some b → doomed b = true → holder l ≠ Some (Beat j) →
    over b = false → (∀ r, rest b ≠ Returned r) → let l' := step spawned turn (Beat j) l in
    beat_over j l' = true ∧ clients l' = clients l ∧ holder l' = holder l).
  { intros l0 b Hl Hb Hd Hh Ho Hr. rewrite (doomed_step j l0 b) by done. rewrite beats_at in Hb.
    unfold beat_over. rewrite beats_at, (put_same _ _ b) by done. destruct (rest b); try done. by edestruct Hr. }
  intros [Hl _] (b & Hb & Hf). destruct (over b) eqn:Ho.
  { exists []. simpl. unfold beat_over. by rewrite Hb. }
  destruct Hf as [|[Hd Hh]]; [done|].
  destruct (rest b) as [r|X m k|k|k|i k|i k] eqn:Hr.
  - destruct (turn_calls j) as (X & m & k & Ht). exists [Beat j; Beat j]. simpl.
    pose proof (step_orderly (Beat j) l Hl) as Hl1. revert Hl1.
    rewrite (doomed_step j l b) by done. rewrite Hr. intros Hl1.
    set (b1 := {| rest := turn j; doomed := true |}) in *.
    apply (Hend (put_worker (Beat j) b1 l) b1); try done.
    + rewrite beats_at. by apply (put_same _ _ b).
    + unfold over. subst b1. simpl. by rewrite Ht.
    + subst b1. simpl. by rewrite Ht.
  - exists [Beat j]. apply (Hend l b); try done. by rewrite Hr.
  - exists [Beat j]. apply (Hend l b); try done. by rewrite Hr.
  - exists [Beat j]. apply (Hend l b); try done. by rewrite Hr.
  - exists [Beat j]. apply (Hend l b); try done. by rewrite Hr.
  - exists [Beat j]. apply (Hend l b); try done. by rewrite Hr.
Qed.
(** One worker's steps, in its own words: what it goes on with and who has the lock. *)
Definition goes_on (w : who) (l : loop S) (p : co S bool) (h : option who) : Prop :=
  ∃ schedule b, let l' := run spawned turn schedule l in worker_at w l' = Some b ∧ rest b = p ∧ holder l' = h.

Lemma step_goes_on w l b :
  worker_at w l = Some b →
  match rest b with
  | Returned _ => True
  | Calls m k => ∃ r, goes_on w l (k r) (holder l)
  | Locks k => doomed b = false → holder l = None → goes_on w l (k (Ok tt)) (Some w)
  | Unlocks k => goes_on w l k None
  | Cancels i k => w ≠ Beat i → goes_on w l k (holder l)
  | Joins i k => doomed b = false → beat_over i l = true → goes_on w l (k (Ok tt)) (holder l)
  end.
Proof.
  intros Hb. assert (Hgo : ∀ b' l' p h, (∀ r, rest b ≠ Returned r) → move spawned turn w b l = Some (b', l') →
    worker_at w l' = Some b → rest b' = p → holder l' = h → goes_on w l p h).
  { intros b' l' p h Hr Hm Hw' Hp Hh. exists [w], b'. simpl. rewrite (step_is_move w b), Hm by done.
    destruct (put_state w b' l') as (_ & -> & _). by rewrite (put_same _ _ b). }
  destruct (rest b) as [r|X m k|k|k|i k|i k] eqn:Hr; [done|..]; unfold move in Hgo; rewrite Hr in Hgo.
  - destruct (doomed b); [exists (Raise CancelledError); by eapply Hgo|].
    destruct (m (state l)) as [r s']. exists r. by eapply Hgo; [| |by apply with_state_at|..].
  - intros Hd Hh. rewrite Hd, Hh in Hgo. by eapply Hgo; [| |rewrite with_holder_at|..].
  - by eapply Hgo; [| |rewrite with_holder_at|..].
  - intros Hw. eapply Hgo; [done|done|by apply doom_same|done|]. by destruct (doom_state i l) as (_ & -> & _).
  - intros Hd Ho. rewrite Hd, Ho in Hgo. by eapply Hgo.
Qed.

Lemma drive i p : ∀ l b, restful l → clients l !! i = Some b → rest b = p →
  holder l = None ∨ holder l = Some (Client i) →
  ∃ schedule, let l' := run spawned turn schedule l in finished i l' ∧ holder l' = None.
Proof using beats_may_not turn_good turn_lasting turn_calls.
  assert (Hgoes : ∀ l q h, restful l → goes_on (Client i) l q h → h = None ∨ h = Some (Client i) →
    (∀ l' b', restful l' → clients l' !! i = Some b' → rest b' = q → holder l' = None ∨ holder l' = Some (Client i) →
       ∃ schedule, let l' := run spawned turn schedule l' in finished i l' ∧ holder l' = None) →
    ∃ schedule, let l' := run spawned turn schedule l in finished i l' ∧ holder l' = None).
  { intros l q h Hl (s1 & b' & Hb' & Hq & Hh) Hor IH. rewrite <- Hh in Hor.
    destruct (IH _ b' (run_restful s1 l Hl) Hb' Hq Hor) as [s2 H2]. exists (s1 ++ s2)%list. by rewrite run_app. }
  induction p as [r|X m k IH|k IH|k IH|j k IH|j k IH]; intros l b Hl Hb Hp Hh;
    pose proof (step_goes_on (Client i) l b Hb) as Hgo; rewrite Hp in Hgo;
    destruct (all_fit _ (proj1 Hl) (Client i) b Hb) as [_ Hfit]; rewrite Hp in Hfit;
    destruct (proj2 Hl i b Hb) as (Hd & D & Hr & HD); rewrite Hp in Hr.
  - exists []. simpl. split; [intros b' Hb'; rewrite Hb in Hb'; injection Hb' as <-; eauto|].
    destruct Hh as [|Hh]; [done|]. destruct Hfit as [Hf|(_ & _ & [])]. simpl in Hf.
    apply bool_decide_eq_false in Hf. by destruct Hf.
  - destruct Hgo as [r Hgo]. by eapply Hgoes; [| | |apply IH].
  - assert (Hn : holder l = None).
    { destruct Hh as [|Hh]; [done|]. destruct Hfit as [[Hf _]|(_ & _ & [])]. by apply bool_decide_eq_false in Hf. }
    eapply Hgoes; [done|by apply Hgo|by right|apply IH].
  - eapply Hgoes; [done|exact Hgo|by left|apply IH].
  - eapply Hgoes; [done|by apply Hgo|done|apply IH].
  - destruct Hr as [Hj _]. destruct (fell j l Hl (HD j Hj)) as (s1 & Ho & Hc & Hh1).
    pose proof (run_restful s1 l Hl) as Hl1. rewrite <- Hc in Hb. rewrite <- Hh1 in Hh.
    pose proof (step_goes_on (Client i) _ b Hb) as Hgo1. rewrite Hp in Hgo1.
    destruct (Hgoes _ _ _ Hl1 (Hgo1 Hd Ho) Hh (IH (Ok tt))) as [s2 H2]. exists (s1 ++ s2)%list. by rewrite run_app.
Qed.

(** A background task that holds the lock lets it go. *)
Lemma let_go j p : ∀ l b, restful l → beats l !! j = Some b → rest b = p → holder l = Some (Beat j) →
  ∃ schedule, holder (run spawned turn schedule l) = None.
Proof using beats_may_not turn_good turn_lasting.
  induction p as [r|X m k IH|k IH|k IH|i k IH|i k IH]; intros l b Hl Hb Hp Hh;
    pose proof (step_goes_on (Beat j) l b Hb) as Hgo; rewrite Hp in Hgo;
    destruct (all_fit _ (proj1 Hl) (Beat j) b Hb) as [_ [Hf|(_ & Hm & _)]];
    try (by rewrite beats_may_not in Hm); rewrite Hp, bool_decide_eq_true_2, beats_may_not in Hf by done; try done.
  - destruct Hgo as (r & s1 & b' & Hb' & Hq & Hh'). rewrite Hh in Hh'.
    destruct (IH r _ b' (run_restful s1 l Hl) Hb' Hq Hh') as [s2 H2]. exists (s1 ++ s2)%list. by rewrite run_app.
  - by destruct Hf.
  - destruct Hgo as (s1 & b' & _ & _ & Hh'). by exists s1.
  - by destruct Hf.
Qed.

Lemma settle_one i l : restful l → holder l = None ∨ holder l = Some (Client i) →
  ∃ schedule, let l' := run spawned turn schedule l in finished i l' ∧ holder l' = None.
Proof using beats_may_not turn_good turn_lasting turn_calls.
  intros Hl Hh. destruct (clients l !! i) as [b|] eqn:Hb; [by eapply drive|].
  exists []. simpl. destruct Hh as [Hh|Hh].
  - split; [|done]. intros b Hb'. by rewrite Hb in Hb'.
  - destruct (holder_there _ (proj1 Hl) _ Hh) as [b Hb']. by rewrite <- client_at, Hb in Hb'.
Qed.

Lemma settle_all n l : restful l → ∃ schedule, let l' := run spawned turn schedule l in
  (∀ i, i < n → finished i l') ∧ holder l' = None.
Proof using beats_may_not turn_good turn_lasting turn_calls.
  intros Hl. induction n as [|n (s1 & H1 & Hh1)].
  - destruct (holder l) as [[i|j]|] eqn:Hh.
    + destruct (settle_one i l Hl (or_intror Hh)) as (s & _ & H). exists s. split; [lia|done].
    + destruct (holder_there _ (proj1 Hl) _ Hh) as [b Hb]. destruct (let_go j _ l b Hl Hb eq_refl Hh) as [s H].
      exists s. split; [lia|done].
    + exists []. split; [lia|done].
  - destruct (settle_one n _ (run_restful s1 l Hl) (or_introl Hh1)) as (s2 & H2 & Hh2). exists (s1 ++ s2)%list.
    rewrite run_app. split; [|done]. intros i Hi. destruct (decide (i = n)) as [->|]; [done|].
    apply finished_run, H1. lia.
Qed.

Lemma start_restful ps s :
  spawned s = 0 → current s = None → live s = false →
  (∀ i p, ps !! i = Some p → good (may (Client i)) false false p ∧ ready 0 [] p) → restful (start ps s).
Proof.
  intros Hs Hc Hl Hps. split; [apply start_orderly; try done; intros i p Hp; by apply Hps|].
  intros i b (p & -> & Hp)%list_lookup_fmap_Some. split; [done|]. exists []. split; [by apply (Hps i)|done].
Qed.
End Supervision.
