(* ===== verification/Local.v ===== *)
(** * One task among others

    Reasoning about a task by what is its own: a part of the shared state that the
    other tasks leave alone.  [wp Q p v]: started with its own part in the state
    [v], the task [p] ends, if it does, with a result and an own part in [Q],
    whatever the others do to the rest of the state between its steps.  Also
    [try ... finally], and tasks on one component of a larger state. *)

From Stdlib Require Import Bool List.
From stdpp Require Import base decidable list option.
From S2P Require Import Prelude PyMonad Tasks.
Open Scope py_scope.

(** ** [async with] and [finally] *)

(** As [on_exit]: what is done after a result, what after an exception. *)
Fixpoint exit_task {S A} (p : task S A) (ok err : task S unit) : task S A :=
  match p with
  | Finished (Ok a) => ok ;; mret a
  | Finished (Raise e) => err ;; fail e
  | Await m k => Await m (λ r, exit_task (k r) ok err)
  | Acquire k => Acquire (exit_task k ok err)
  | Release k => Release (exit_task k ok err)
  end.

Lemma alone_exit {S A} (p : task S A) ok err m o e :
  run_alone p ≡ₘ m → run_alone ok ≡ₘ o → run_alone err ≡ₘ e → run_alone (exit_task p ok err) ≡ₘ on_exit m o e.
Proof.
  intros Hp Ho He s. unfold on_exit. rewrite <- (Hp s). clear Hp m. revert s.
  induction p as [[a|x]|X m k IH|k IH|k IH]; intros s; simpl; [| | |apply IH|apply IH].
  - exact (alone_seq ok (λ _, mret a) _ _ Ho (λ _, alone_ret a) s).
  - exact (alone_seq err (λ _, fail x) _ _ He (λ _, alone_fail x) s).
  - destruct (m s) as [r s']. apply IH.
Qed.

Lemma steps_keep_exit {S A} (I : S → Prop) (p : task S A) ok err :
  steps_keep I (λ _, True) p → steps_keep I (λ _, True) ok → steps_keep I (λ _, True) err →
  steps_keep I (λ _, True) (exit_task p ok err).
Proof.
  intros Hp Ho He. induction p as [[a|e]|X m k IH|k IH|k IH]; simpl in *; [| | |by apply IH|by apply IH].
  - by apply steps_keep_seq.
  - by apply steps_keep_seq.
  - intros s Hs. destruct (Hp s Hs). eauto.
Qed.

(** ** A component of the state *)

Section Focus.
Context {S T : Type} (lens : ∀ X : Type, M S X → M T X).

Fixpoint focus {A} (p : task S A) : task T A :=
  match p with
  | Finished r => Finished r
  | Await m k => Await (lens _ m) (λ r, focus (k r))
  | Acquire k => Acquire (focus k)
  | Release k => Release (focus k)
  end.

(** The lens works on the component [get]. *)
Context (get : T → S) (lens_get : ∀ X (m : M S X) t, (lens X m t).1 = (m (get t)).1 ∧ get (lens X m t).2 = (m (get t)).2).

Lemma focus_alone {A} (p : task S A) t :
  (run_alone (focus p) t).1 = (run_alone p (get t)).1 ∧ get (run_alone (focus p) t).2 = (run_alone p (get t)).2.
Proof using lens_get.
  revert t. induction p as [r|X m k IH|k IH|k IH]; intros t; simpl; [done| |apply IH|apply IH].
  destruct (lens_get X m t) as [H1 H2]. destruct (lens X m t) as [r t'], (m (get t)) as [r' s'].
  simpl in *. subst. apply IH.
Qed.
End Focus.

(** ** What a task makes of its own part *)

Section Own.
Context {S V : Type} (own : S → V).

Fixpoint wp {A} (Q : res A → V → Prop) (p : task S A) (v : V) : Prop :=
  match p with
  | Finished r => Q r v
  | Await m k => ∀ s, own s = v → wp Q (k (m s).1) (own (m s).2)
  | Acquire k | Release k => wp Q k v
  end.

Lemma wp_mono {A} (Q Q' : res A → V → Prop) p v : (∀ r v', Q r v' → Q' r v') → wp Q p v → wp Q' p v.
Proof.
  intros HQ. revert v. induction p as [r|X m k IH|k IH|k IH]; intros v; simpl; [apply HQ| |apply IH|apply IH].
  intros Hp s Hs. by apply IH, Hp.
Qed.

Lemma wp_bind {A B} (Q : res B → V → Prop) (p : task S A) f v :
  wp (λ r v', match r with Ok a => wp Q (f a) v' | Raise e => Q (Raise e) v' end) p v → wp Q (p ≫= f) v.
Proof.
  unfold mbind, task_bind. revert v. induction p as [[a|e]|X m k IH|k IH|k IH]; intros v; simpl;
    [done|done| |apply IH|apply IH]. intros Hp s Hs. by apply IH, Hp.
Qed.

Lemma wp_try {A} (Q : res A → V → Prop) (p : task S A) h v :
  wp (λ r v', match r with
              | Raise e => if is_Exception e then wp Q (h e) v' else Q r v'
              | _ => Q r v' end) p v → wp Q (try_task p h) v.
Proof.
  revert v. induction p as [[a|e]|X m k IH|k IH|k IH]; intros v; simpl; [done| | |apply IH|apply IH].
  - by destruct (is_Exception e).
  - intros Hp s Hs. by apply IH, Hp.
Qed.

(** [finally], when both ways out establish the same. *)
Lemma wp_exit {A} (P : V → Prop) (p : task S A) ok err v :
  wp (λ r v', match r with Ok _ => wp (λ _, P) ok v' | Raise _ => wp (λ _, P) err v' end) p v →
  wp (λ _, P) (exit_task p ok err) v.
Proof.
  revert v. induction p as [[a|e]|X m k IH|k IH|k IH]; intros v; simpl; [| | |apply IH|apply IH].
  - intros Hp. apply wp_bind. eapply wp_mono, Hp. by intros [].
  - intros Hp. apply wp_bind. eapply wp_mono, Hp. by intros [].
  - intros Hp s Hs. by apply IH, Hp.
Qed.

Lemma wp_call {A} (Q : res A → V → Prop) (m : M S A) v :
  (∀ s, own s = v → Q (m s).1 (own (m s).2)) → wp Q (await_call m) v.
Proof. done. Qed.

(** Steps that leave the own part alone. *)
Lemma wp_off {A} (p : task S A) v : keeps_off own p → wp (λ _ v', v' = v) p v.
Proof.
  revert v. induction p as [r|X m k IH|k IH|k IH]; intros v; simpl; [done| |done|done].
  intros Hp s <-. destruct (Hp s) as [Hv Hk]. eapply wp_mono; [|by apply IH]. simpl. intros _ v' ->. done.
Qed.

Lemma wp_off_bind {A B} (Q : res B → V → Prop) (p : task S A) f v :
  keeps_off own p → (∀ a, wp Q (f a) v) → (∀ e, Q (Raise e) v) → wp Q (p ≫= f) v.
Proof. intros Hp Hf He. apply wp_bind. eapply wp_mono; [|by apply wp_off]. simpl. intros [a|e] v' ->; [apply Hf|apply He]. Qed.

Lemma keeps_off_exit {A} (p : task S A) ok err :
  keeps_off own p → keeps_off own ok → keeps_off own err → keeps_off own (exit_task p ok err).
Proof.
  intros Hp Ho He. induction p as [[a|e]|X m k IH|k IH|k IH]; simpl in *; [| | |done|done].
  - by apply keeps_off_bind.
  - by apply keeps_off_bind.
  - intros s. destruct (Hp s). eauto.
Qed.

(** ** Under every schedule *)

Definition body (t : task_state S ()) : task S () := match t with Running p | Parked p => p end.

(** A pool in which the task [i] is on its way to [Q] and the others keep off. *)
Definition on_course (i : nat) (Q : res () → V → Prop) (c : pool S ()) : Prop :=
  (∀ t, tasks c !! i = Some t → wp Q (body t) (own (shared c))) ∧
  ∀ j t, j ≠ i → tasks c !! j = Some t → keeps_off own (body t).

Lemma on_course_step i Q j (c : pool S ()) : on_course i Q c → on_course i Q (step j c).
Proof.
  intros [Hi Ho]. unfold step. destruct (tasks c !! j) as [[[r|X m k|k|k]|p]|] eqn:Hj; try done.
  - pose proof (lookup_lt_Some _ _ _ Hj) as Hlt. destruct (m (shared c)) as [r s'] eqn:Hm.
    destruct (decide (j = i)) as [->|Hne].
    + specialize (Hi _ Hj (shared c) eq_refl). rewrite Hm in Hi. split; simpl.
      * intros t. rewrite list_lookup_insert_eq by done. by intros [= <-].
      * intros j' t Hj'. rewrite list_lookup_insert_ne by done. by apply Ho.
    + destruct (Ho j _ Hne Hj (shared c)) as [Hv Hk]. rewrite Hm in Hv, Hk. split; simpl.
      * intros t. rewrite list_lookup_insert_ne by done. simpl in Hv. rewrite Hv. apply Hi.
      * intros j' t Hj'. destruct (decide (j = j')) as [<-|]; [|rewrite list_lookup_insert_ne by done; by apply Ho].
        rewrite list_lookup_insert_eq by done. by intros [= <-].
  - destruct (decide (j = i)) as [->|Hne]; [|by destruct (Ho j _ Hne Hj)]. specialize (Hi _ Hj).
    pose proof (lookup_lt_Some _ _ _ Hj). destruct (locked c); (split; simpl; [intros t|intros j' t Hj'];
      [rewrite list_lookup_insert_eq by done; by intros [= <-]|rewrite list_lookup_insert_ne by done; by apply Ho]).
  - destruct (decide (j = i)) as [->|Hne]; [|by destruct (Ho j _ Hne Hj)]. specialize (Hi _ Hj).
    pose proof (lookup_lt_Some _ _ _ Hj).
    assert (Hc : ∀ t, (<[i:=Running k]> (tasks c)) !! i = Some t → wp Q (body t) (own (shared c)))
      by (intros t; rewrite list_lookup_insert_eq by done; by intros [= <-]).
    assert (Hd : ∀ j' t, j' ≠ i → (<[i:=Running k]> (tasks c)) !! j' = Some t → keeps_off own (body t))
      by (intros j' t Hj'; rewrite list_lookup_insert_ne by done; by apply Ho).
    destruct (waiters c) as [|x q]; [done|]. split; simpl.
    + intros t. rewrite list_lookup_alter. destruct (decide _) as [<-|]; [|apply Hc].
      destruct (_ !! x) as [t0|] eqn:E; [|done]. intros [= <-]. specialize (Hc _ eq_refl). by destruct t0.
    + intros j' t Hj'. rewrite list_lookup_alter. destruct (decide _) as [<-|]; [|by apply Hd].
      destruct (_ !! x) as [t0|] eqn:E; [|done]. intros [= <-]. specialize (Hd _ _ Hj' E). by destruct t0.
Qed.

(** However the tasks are scheduled, a task that has ended has left its own part as
    it would have left it alone. *)
Lemma schedule_own l i (ps : list (task S ())) s Q p :
  ps !! i = Some p → wp Q p (own s) → (∀ j q, j ≠ i → ps !! j = Some q → keeps_off own q) →
  ∀ r, tasks (run_schedule l (spawn ps s)) !! i = Some (Running (Finished r)) →
  Q r (own (shared (run_schedule l (spawn ps s)))).
Proof.
  intros Hi Hp Ho r.
  assert (Hc : ∀ c, on_course i Q c → on_course i Q (run_schedule l c)).
  { induction l as [|j l IH]; intros c Hc; [done|]. simpl. by apply IH, on_course_step. }
  intros Hr. apply (λ H, proj1 (Hc (spawn ps s) H) _ Hr). split; simpl.
  - intros t. rewrite list_lookup_fmap, Hi. by intros [= <-].
  - intros j t Hj. rewrite list_lookup_fmap. destruct (ps !! j) as [q|] eqn:E; [|done]. intros [= <-]. by apply (Ho j).
Qed.

(** When all keep off, nothing happens to it. *)
Lemma off_steps {A} v (p : task S A) : keeps_off own p → steps_keep (λ s, own s = v) (λ _, True) p.
Proof.
  induction p as [r|X m k IH|k IH|k IH]; simpl; [done| |done|done].
  intros Hp s <-. destruct (Hp s) as [Hv Hk]. by split; [|apply IH].
Qed.

Lemma schedule_off l (ps : list (task S ())) s :
  Forall (keeps_off own) ps → own (shared (run_schedule l (spawn ps s))) = own s.
Proof.
  intros Hps. apply (schedule_keeps (λ s', own s' = own s)); [done|].
  eapply Forall_impl; [exact (λ p, off_steps (own s) p)|done].
Qed.
End Own.

(** ** A component's task in the larger state *)

Section FocusRules.
Context {S T V : Type} (lens : ∀ X : Type, M S X → M T X) (get : T → S) (own : S → V).
Context (lens_get : ∀ X (m : M S X) t, (lens X m t).1 = (m (get t)).1 ∧ get (lens X m t).2 = (m (get t)).2).

Lemma focus_wp {A} (Q : res A → V → Prop) (p : task S A) v : wp own Q p v → wp (λ t, own (get t)) Q (focus lens p) v.
Proof using lens_get.
  revert v. induction p as [r|X m k IH|k IH|k IH]; intros v; simpl; [done| |apply IH|apply IH].
  intros Hp t Ht. destruct (lens_get X m t) as [-> ->]. by apply IH, Hp.
Qed.

Lemma focus_off {A} (p : task S A) : keeps_off own p → keeps_off (λ t, own (get t)) (focus lens p).
Proof using lens_get.
  induction p as [r|X m k IH|k IH|k IH]; simpl; [done| |done|done].
  intros Hp t. destruct (lens_get X m t) as [-> ->]. destruct (Hp (get t)). eauto.
Qed.

Lemma focus_steps {A} (I : S → Prop) (Q : res A → Prop) (p : task S A) :
  steps_keep I Q p → steps_keep (λ t, I (get t)) Q (focus lens p).
Proof using lens_get.
  induction p as [r|X m k IH|k IH|k IH]; simpl; [done| |done|done].
  intros Hp t Ht. destruct (lens_get X m t) as [-> ->]. destruct (Hp (get t) Ht). eauto.
Qed.
End FocusRules.
