(* ===== verification/Orders.v ===== *)
(** * Orders (trading_service/src/execution/engine.py, data model)

    The order record, its status machine, and its two serialisations:
    [to_dict], which every payload and database row is made of, and [_hydrate],
    which rebuilds an order from a row.  Fields the code passes through without
    looking at them (identifiers, prices, reasons) are dynamic values. *)

From Stdlib Require Import ZArith Lia Bool List Ascii String Relations.
From stdpp Require Import base decidable list option strings.
From S2P Require Import Prelude PyFloat PyStr PyDateTime PyMonad PyDict PyVal.
Open Scope Z_scope.
Open Scope string_scope.

(** ** Enumerations *)

Inductive OrderStatus :=
| PENDING | VALIDATED | SUBMITTED | PARTIAL | FILLED | REJECTED | CANCELED | EXPIRED.

Inductive OrderSide := BUY | SELL.

Inductive OrderType := MARKET | LIMIT | STOP | STOP_LIMIT.

#[export] Instance OrderStatus_eq_dec : EqDecision OrderStatus.
Proof. solve_decision. Defined.

Definition status_value (s : OrderStatus) : string :=
  match s with
  | PENDING => "PENDING" | VALIDATED => "VALIDATED" | SUBMITTED => "SUBMITTED"
  | PARTIAL => "PARTIAL" | FILLED => "FILLED" | REJECTED => "REJECTED"
  | CANCELED => "CANCELED" | EXPIRED => "EXPIRED"
  end.

Definition side_value (s : OrderSide) : string :=
  match s with BUY => "BUY" | SELL => "SELL" end.

Definition type_value (t : OrderType) : string :=
  match t with
  | MARKET => "MARKET" | LIMIT => "LIMIT" | STOP => "STOP" | STOP_LIMIT => "STOP_LIMIT"
  end.

Definition all_statuses : list OrderStatus :=
  [PENDING; VALIDATED; SUBMITTED; PARTIAL; FILLED; REJECTED; CANCELED; EXPIRED].

(** [OrderStatus(v)], [OrderSide(v)], [OrderType(v)]. *)
Definition status_of : pyval → res OrderStatus :=
  enum_of (List.map (λ s, (s, status_value s)) all_statuses) "OrderStatus".
Definition side_of : pyval → res OrderSide :=
  enum_of (List.map (λ s, (s, side_value s)) [BUY; SELL]) "OrderSide".
Definition type_of : pyval → res OrderType :=
  enum_of (List.map (λ s, (s, type_value s)) [MARKET; LIMIT; STOP; STOP_LIMIT]) "OrderType".

(** ** The order *)

Record Order := {
  id : pyval; client_order_id : pyval; account_id : pyval;
  strategy_id : pyval; model_id : pyval; symbol : pyval;
  side : OrderSide; order_type : OrderType;
  quantity : float; filled_quantity : float;
  price : pyval; stop_price : pyval; limit_price : pyval;
  status : OrderStatus; rejection_reason : pyval;
  commission : float; swap : float; profit : float;
  opened_at : option datetime; closed_at : option datetime;
  created_at : pyval; updated_at : pyval
}.

(** The constructor call of the tests and the service: the other fields take the
    dataclass defaults, [now] being what the two [default_factory] calls read. *)
Definition new_order (id client_order_id account_id strategy_id model_id symbol : pyval)
    (side : OrderSide) (order_type : OrderType) (quantity : float) (now1 now2 : datetime) : Order := {|
  id := id; client_order_id := client_order_id; account_id := account_id;
  strategy_id := strategy_id; model_id := model_id; symbol := symbol;
  side := side; order_type := order_type; quantity := quantity; filled_quantity := f0;
  price := VNone; stop_price := VNone; limit_price := VNone; status := PENDING;
  rejection_reason := VNone; commission := f0; swap := f0; profit := f0;
  opened_at := None; closed_at := None; created_at := VDate now1; updated_at := VDate now2
|}.

(** ** [to_dict] *)

Definition opt_date (d : option datetime) : pyval :=
  match d with Some t => VDate t | None => VNone end.

(** [if data.get(k): data[k] = data[k].isoformat()]. *)
Definition iso_field (v : pyval) : res pyval :=
  if truthy v then
    match v with
    | VDate d => Ok (VStr (isoformat d))
    | _ => Raise (AttributeError "isoformat")
    end
  else Ok v.

Definition to_dict (o : Order) : res vdict :=
  opened ← iso_field (opt_date (opened_at o));
  closed ← iso_field (opt_date (closed_at o));
  created ← iso_field (created_at o);
  updated ← iso_field (updated_at o);
  mret [("id", id o); ("client_order_id", client_order_id o); ("account_id", account_id o);
        ("strategy_id", strategy_id o); ("model_id", model_id o); ("symbol", symbol o);
        ("side", VStr (side_value (side o))); ("order_type", VStr (type_value (order_type o)));
        ("quantity", VFloat (quantity o)); ("filled_quantity", VFloat (filled_quantity o));
        ("price", price o); ("stop_price", stop_price o); ("limit_price", limit_price o);
        ("status", VStr (status_value (status o))); ("rejection_reason", rejection_reason o);
        ("commission", VFloat (commission o)); ("swap", VFloat (swap o)); ("profit", VFloat (profit o));
        ("opened_at", opened); ("closed_at", closed); ("created_at", created); ("updated_at", updated)].

(** ** [_hydrate] *)

(** [datetime.fromisoformat(v)]. *)
Definition date_of (v : pyval) : res datetime :=
  match v with
  | VStr s =>
      match fromisoformat s with
      | Some d => Ok d
      | None => Raise (ValueError "Invalid isoformat string")
      end
  | _ => Raise (TypeError "fromisoformat: argument must be str")
  end.

(** [datetime.fromisoformat(data[k]) if data.get(k) else None]. *)
Definition opt_date_field (data : vdict) (k : string) : res (option datetime) :=
  let v := vget data k in
  if truthy v then d ← date_of v; mret (Some d) else mret None.

Section Hydrate.
Context {W : Type} (utcnow : M W datetime).

(** [datetime.fromisoformat(data[k]) if isinstance(data.get(k), str) else
    data.get(k, datetime.utcnow())]. *)
Definition stamp_field (data : vdict) (k : string) : M W pyval :=
  match vget data k with
  | VStr s => d ← lift_res (date_of (VStr s)); mret (VDate d)
  | _ => now ← utcnow; mret (vget_or data k (VDate now))
  end.

Definition hydrate (data : vdict) : M W Order :=
  id ← lift_res (vindex data "id");
  let client_order_id := vget_or data "client_order_id" id in
  account_id ← lift_res (vindex data "account_id");
  symbol ← lift_res (vindex data "symbol");
  side ← lift_res (v ← vindex data "side"; side_of v);
  order_type ← lift_res (v ← vindex data "order_type"; type_of v);
  quantity ← lift_res (v ← vindex data "quantity"; py_float v);
  filled_quantity ← lift_res (py_float (vget_or data "filled_quantity" (VInt 0)));
  status ← lift_res (v ← vindex data "status"; status_of v);
  commission ← lift_res (py_float (vget_or data "commission" (VInt 0)));
  swap ← lift_res (py_float (vget_or data "swap" (VInt 0)));
  profit ← lift_res (py_float (vget_or data "profit" (VInt 0)));
  opened_at ← lift_res (opt_date_field data "opened_at");
  closed_at ← lift_res (opt_date_field data "closed_at");
  created_at ← stamp_field data "created_at";
  updated_at ← stamp_field data "updated_at";
  mret {| id := id; client_order_id := client_order_id; account_id := account_id;
          strategy_id := vget data "strategy_id"; model_id := vget data "model_id";
          symbol := symbol; side := side; order_type := order_type;
          quantity := quantity; filled_quantity := filled_quantity;
          price := vget data "price"; stop_price := vget data "stop_price";
          limit_price := vget data "limit_price"; status := status;
          rejection_reason := vget data "rejection_reason";
          commission := commission; swap := swap; profit := profit;
          opened_at := opened_at; closed_at := closed_at;
          created_at := created_at; updated_at := updated_at |}.
End Hydrate.

(** ** The status machine *)

Definition VALID_TRANSITIONS (s : OrderStatus) : list OrderStatus :=
  match s with
  | PENDING => [VALIDATED; REJECTED; CANCELED]
  | VALIDATED => [SUBMITTED; REJECTED; CANCELED]
  | SUBMITTED => [PARTIAL; FILLED; REJECTED; CANCELED; EXPIRED]
  | PARTIAL => [FILLED; CANCELED; REJECTED; EXPIRED]
  | FILLED | REJECTED | CANCELED | EXPIRED => []
  end.

(** [status in allowed]. *)
Definition transition_allowed (s s' : OrderStatus) : bool :=
  existsb (λ t, bool_decide (t = s')) (VALID_TRANSITIONS s).

(** What [update_order_status] accepts: an allowed transition or the same status. *)
Definition transition_ok (s s' : OrderStatus) : bool :=
  transition_allowed s s' || bool_decide (s' = s).

Inductive status_step : OrderStatus → OrderStatus → Prop :=
| status_step_intro s s' : In s' (VALID_TRANSITIONS s) → status_step s s'.

(** Runs of the machine, with the statuses they visit. *)
Inductive status_run : OrderStatus → list OrderStatus → OrderStatus → Prop :=
| run_here s : status_run s [] s
| run_step s s' p t : status_step s s' → status_run s' p t → status_run s (s' :: p) t.

Definition is_terminal (s : OrderStatus) : bool :=
  match VALID_TRANSITIONS s with [] => true | _ => false end.

(** Distance to the end of the life of an order. *)
Definition status_rank (s : OrderStatus) : nat :=
  match s with
  | PENDING => 4 | VALIDATED => 3 | SUBMITTED => 2 | PARTIAL => 1
  | FILLED | REJECTED | CANCELED | EXPIRED => 0
  end.

(** ** Lemmas *)

Lemma transition_allowed_spec s s' : transition_allowed s s' = true ↔ status_step s s'.
Proof.
  unfold transition_allowed. rewrite existsb_exists. split.
  - intros (t & Hin & ->%bool_decide_eq_true). by constructor.
  - intros [u u' Hin]. exists u'. split; [done|]. by apply bool_decide_eq_true.
Qed.

Lemma status_step_rank s s' : status_step s s' → (status_rank s' < status_rank s)%nat.
Proof. intros [[] ? Hin]; cbn in Hin; intuition (subst; cbn; lia). Qed.

Lemma status_run_rank s p t :
  status_run s p t → (length p + status_rank t <= status_rank s)%nat.
Proof.
  induction 1 as [|s s' p t Hs _ IH]; [cbn; lia|].
  apply status_step_rank in Hs. cbn. lia.
Qed.

Lemma status_of_value s : status_of (VStr (status_value s)) = Ok s.
Proof. by destruct s. Qed.
Lemma side_of_value s : side_of (VStr (side_value s)) = Ok s.
Proof. by destruct s. Qed.
Lemma type_of_value t : type_of (VStr (type_value t)) = Ok t.
Proof. by destruct t. Qed.

#[export] Hint Rewrite status_of_value side_of_value type_of_value : py_rw.

(** An order whose time stamps are datetimes. *)
Definition opt_valid (d : option datetime) : bool :=
  match d with Some t => dt_valid t | None => true end.
Definition stamp_valid (v : pyval) : bool :=
  match v with VDate d => dt_valid d | _ => false end.
Definition order_wf (o : Order) : bool :=
  opt_valid (opened_at o) && opt_valid (closed_at o)
  && stamp_valid (created_at o) && stamp_valid (updated_at o).

Lemma isoformat_nonempty d : String.eqb (isoformat d) "" = false.
Proof. reflexivity. Qed.

Lemma date_of_iso d : dt_valid d = true → date_of (VStr (isoformat d)) = Ok d.
Proof. intros Hd. unfold date_of. by rewrite fromisoformat_isoformat. Qed.

Lemma to_dict_wf o :
  order_wf o = true →
  to_dict o = Ok
    [("id", id o); ("client_order_id", client_order_id o); ("account_id", account_id o);
     ("strategy_id", strategy_id o); ("model_id", model_id o); ("symbol", symbol o);
     ("side", VStr (side_value (side o))); ("order_type", VStr (type_value (order_type o)));
     ("quantity", VFloat (quantity o)); ("filled_quantity", VFloat (filled_quantity o));
     ("price", price o); ("stop_price", stop_price o); ("limit_price", limit_price o);
     ("status", VStr (status_value (status o))); ("rejection_reason", rejection_reason o);
     ("commission", VFloat (commission o)); ("swap", VFloat (swap o)); ("profit", VFloat (profit o));
     ("opened_at", match opened_at o with Some t => VStr (isoformat t) | None => VNone end);
     ("closed_at", match closed_at o with Some t => VStr (isoformat t) | None => VNone end);
     ("created_at", match created_at o with VDate t => VStr (isoformat t) | v => v end);
     ("updated_at", match updated_at o with VDate t => VStr (isoformat t) | v => v end)].
Proof.
  unfold order_wf. rewrite !andb_true_iff. intros [[_ Hc] Hu]. unfold to_dict.
  destruct (created_at o); try discriminate Hc. destruct (updated_at o); try discriminate Hu.
  by destruct (opened_at o), (closed_at o).
Qed.

Lemma stamp_field_iso {W} (utcnow : M W datetime) data k t w :
  dt_valid t = true → dget data k = Some (VStr (isoformat t)) →
  stamp_field utcnow data k w = (Ok (VDate t), w).
Proof.
  intros Ht Hk. unfold stamp_field, vget, vget_or. rewrite Hk.
  by rewrite (bind_ok _ _ w t w) by (unfold lift_res; by rewrite date_of_iso).
Qed.

Lemma opt_date_field_iso data k d :
  opt_valid d = true →
  dget data k = Some (match d with Some t => VStr (isoformat t) | None => VNone end) →
  opt_date_field data k = Ok d.
Proof.
  intros Hd Hk. unfold opt_date_field, vget, vget_or. rewrite Hk.
  destruct d as [t|]; [|done]. cbn [truthy]. rewrite isoformat_nonempty. cbn [negb].
  by rewrite date_of_iso.
Qed.

(** Rebuilding an order from what [to_dict] wrote, whatever the clock says. *)
Lemma hydrate_to_dict_run {W} (utcnow : M W datetime) o d w :
  order_wf o = true → to_dict o = Ok d → hydrate utcnow d w = (Ok o, w).
Proof.
  intros Hwf Hd. rewrite (to_dict_wf o Hwf) in Hd. injection Hd as <-.
  unfold order_wf in Hwf. rewrite !andb_true_iff in Hwf. destruct Hwf as [[[Ho Hc] Hcr] Hup].
  unfold hydrate, lift_res.
  do 3 (rewrite (bind_ok _ _ w _ w) by reflexivity).
  rewrite (bind_ok _ _ w (side o) w) by (by destruct (side o)).
  rewrite (bind_ok _ _ w (order_type o) w) by (by destruct (order_type o)).
  do 2 (rewrite (bind_ok _ _ w _ w) by reflexivity).
  rewrite (bind_ok _ _ w (status o) w) by (by destruct (status o)).
  do 3 (rewrite (bind_ok _ _ w _ w) by reflexivity).
  rewrite (bind_ok _ _ w (opened_at o) w) by (by rewrite (opt_date_field_iso _ _ (opened_at o))).
  rewrite (bind_ok _ _ w (closed_at o) w) by (by rewrite (opt_date_field_iso _ _ (closed_at o))).
  destruct (created_at o) as [| | | | |t| | |] eqn:Ecr; try discriminate Hcr.
  destruct (updated_at o) as [| | | | |u| | |] eqn:Eup; try discriminate Hup.
  rewrite (bind_ok _ _ w (VDate t) w) by (by apply stamp_field_iso).
  rewrite (bind_ok _ _ w (VDate u) w) by (by apply stamp_field_iso).
  destruct o; cbn in *. by subst.
Qed.

(** ** Runs of the status machine *)

Lemma step_inv s s' : status_step s s' → In s' (VALID_TRANSITIONS s).
Proof. by intros []. Qed.

Lemma terminal_run s p t : is_terminal s = true → status_run s p t → p = [] ∧ t = s.
Proof.
  intros Hs Hr. destruct Hr as [|s s' p t Hst]; [done|].
  apply step_inv in Hst. unfold is_terminal in Hs. by destruct (VALID_TRANSITIONS s).
Qed.

Lemma run_inv s p t :
  status_run s p t →
  (p = [] ∧ t = s) ∨ (∃ s' q, p = s' :: q ∧ In s' (VALID_TRANSITIONS s) ∧ status_run s' q t).
Proof. intros []; [by left|right]. eexists _, _. split; [done|]. by split; [apply step_inv|]. Qed.

Lemma status_run_snoc s p t u : status_run s p t → status_step t u → status_run s (p ++ [u]) u.
Proof.
  induction 1 as [|s s' p t Hs _ IH]; intros Hu; simpl.
  - econstructor; [exact Hu|constructor].
  - econstructor; [exact Hs|by apply IH].
Qed.

Lemma transition_ok_cases s s' : transition_ok s s' = true → status_step s s' ∨ s' = s.
Proof.
  unfold transition_ok. rewrite orb_true_iff, bool_decide_eq_true.
  intros [?%transition_allowed_spec|?]; auto.
Qed.

(** One case of [run_inv] per listed successor. *)
Ltac split_run H :=
  let Hin := fresh in let Hr := fresh "Hr" in
  apply run_inv in H as [[-> H]|(? & ? & -> & Hin & Hr)];
  [try discriminate H
  |cbn in Hin; repeat destruct Hin as [Hin|Hin]; try done; subst].

(** The life of an order is finite and its end is final: a run of
    VALID_TRANSITIONS from any status visits at most [status_rank] further
    statuses (four from PENDING), never the same one twice, and from FILLED,
    REJECTED, CANCELED or EXPIRED there is no transition at all. *)
Theorem order_life_is_finite s p t :
  status_run s p t →
  (length p + status_rank t <= status_rank s)%nat ∧
  List.NoDup (s :: p) ∧
  (is_terminal s = true → p = [] ∧ t = s).
Proof.
  intros Hr. split; [by apply status_run_rank|]. split; [|intros; by apply (terminal_run s p t)].
  assert (Hb : ∀ s p t, status_run s p t → Forall (λ u, (status_rank u < status_rank s)%nat) p).
  { clear. induction 1 as [|s s' p t Hs _ IH]; constructor; [by apply status_step_rank|].
    eapply Forall_impl; [exact IH|]. apply status_step_rank in Hs. cbn. lia. }
  induction Hr as [|s s' p t Hs Hr IH]; [constructor; [by intros []|constructor]|].
  constructor; [|done]. intros Hin.
  pose proof (Hb _ _ _ (run_step _ _ _ _ Hs Hr)) as Hall.
  rewrite List.Forall_forall in Hall. specialize (Hall _ Hin). lia.
Qed.

Definition demo_life : list OrderStatus := [VALIDATED; SUBMITTED; PARTIAL; FILLED].

Lemma demo_life_run : status_run PENDING demo_life FILLED.
Proof. repeat (econstructor; [by apply transition_allowed_spec|]). constructor. Qed.

Lemma order_life_witness : (length demo_life + 0 <= 4)%nat.
Proof. exact (proj1 (order_life_is_finite PENDING demo_life FILLED demo_life_run)). Defined.

(** No order is filled behind the risk check's back: every run of the
    status machine from PENDING to FILLED goes through VALIDATED and then
    SUBMITTED, with at most one PARTIAL before the fill. *)
Theorem filled_only_after_validation p :
  status_run PENDING p FILLED ↔
  p = [VALIDATED; SUBMITTED; FILLED] ∨ p = [VALIDATED; SUBMITTED; PARTIAL; FILLED].
Proof.
  split.
  - intros H. repeat match goal with
    | H : status_run ?s ?q _ |- _ => is_var q; split_run H
    end; auto.
  - intros [->| ->]; [|apply demo_life_run].
    repeat (econstructor; [by apply transition_allowed_spec|]). constructor.
Qed.

(** ** The round trip *)

Definition demo_date : datetime := DT 2026 2 12 9 30 0 0.

Definition demo_order : Order :=
  new_order (VStr "o-1") (VStr "c-1") (VStr "acc") VNone VNone (VStr "EURUSD")
    BUY MARKET (flit 1 10) demo_date demo_date.

(** C32. Nothing of an order is lost between [to_dict] and [_hydrate]: for every
    order whose four time stamps are datetimes (what [__init__] gives it),
    [to_dict] returns a dictionary, and [_hydrate] of that dictionary is the same
    order in every field, read without touching the world. *)
Theorem hydrate_to_dict {W} (utcnow : M W datetime) o w :
  order_wf o = true →
  ∃ d, to_dict o = Ok d ∧ hydrate utcnow d w = (Ok o, w).
Proof.
  intros Hwf. eexists. split; [by apply to_dict_wf|].
  apply hydrate_to_dict_run; [done|by apply to_dict_wf].
Qed.

Lemma hydrate_to_dict_witness :
  ∃ d, to_dict demo_order = Ok d ∧ hydrate (W:=unit) (mret demo_date) d tt = (Ok demo_order, tt).
Proof. exact (hydrate_to_dict (mret demo_date) demo_order tt eq_refl). Defined.
