(* ===== verification/Risk.v ===== *)
(** * The risk engine (trading_service/src/risk/engine.py)

    Pre-trade rules, the position monitor and the kill switch.  The engine's
    private state is the record [RiskEngine]; its collaborators (repository,
    connector, execution engine, notifier, broadcaster, scheduler, clock) are
    the record [Collaborators] of calls over their own world. *)

From Stdlib Require Import ZArith Lia Bool List Ascii String.
From stdpp Require Import base decidable list option strings.
From S2P Require Import Prelude PyFloat PyStr PyDateTime PyMonad PyDict PyVal.
Open Scope Z_scope.
Open Scope string_scope.

(** ** Data *)

Inductive RiskRuleType :=
| MAX_POSITION_SIZE | MAX_DRAWDOWN | MAX_DAILY_LOSS | MAX_LEVERAGE
| MIN_TIME_BETWEEN_TRADES | CORRELATION_LIMIT | MAX_SYMBOL_CONCENTRATION
| MAX_OPEN_POSITIONS | MAX_ORDER_COUNT | MAX_EXPOSURE | STOP_LOSS_REQUIRED
| TAKE_PROFIT_REQUIRED | MAX_SPREAD | MAX_SLIPPAGE | TRADING_HOURS_ONLY.

#[export] Instance RiskRuleType_eq_dec : EqDecision RiskRuleType.
Proof. solve_decision. Defined.

(** [rule_type.value] *)
Definition rule_value (t : RiskRuleType) : string :=
  match t with
  | MAX_POSITION_SIZE => "MAX_POSITION_SIZE"
  | MAX_DRAWDOWN => "MAX_DRAWDOWN"
  | MAX_DAILY_LOSS => "MAX_DAILY_LOSS"
  | MAX_LEVERAGE => "MAX_LEVERAGE"
  | MIN_TIME_BETWEEN_TRADES => "MIN_TIME_BETWEEN_TRADES"
  | CORRELATION_LIMIT => "CORRELATION_LIMIT"
  | MAX_SYMBOL_CONCENTRATION => "MAX_SYMBOL_CONCENTRATION"
  | MAX_OPEN_POSITIONS => "MAX_OPEN_POSITIONS"
  | MAX_ORDER_COUNT => "MAX_ORDER_COUNT"
  | MAX_EXPOSURE => "MAX_EXPOSURE"
  | STOP_LOSS_REQUIRED => "STOP_LOSS_REQUIRED"
  | TAKE_PROFIT_REQUIRED => "TAKE_PROFIT_REQUIRED"
  | MAX_SPREAD => "MAX_SPREAD"
  | MAX_SLIPPAGE => "MAX_SLIPPAGE"
  | TRADING_HOURS_ONLY => "TRADING_HOURS_ONLY"
  end.

Record RiskRule := {
  rule_type : RiskRuleType;
  parameters : vdict;
  severity : string;
  rule_enabled : bool;
  error_message : string
}.

Record TradeApproval := {
  approved : bool;
  reason : option string;
  rule_violated : option RiskRuleType;
  warning : option string
}.

(** The engine's private fields. *)
Record RiskEngine := {
  kill_switch_on : bool;                          (* _kill_switch *)
  daily_loss_by_account : dict string float;      (* _daily_loss_by_account *)
  rules : dict RiskRuleType RiskRule;
  last_trade_ts : option datetime                 (* _last_trade_ts *)
}.

(** A rule built with the dataclass defaults for severity and enabled. *)
Definition default_rule (t : RiskRuleType) (params : vdict) (msg : string) : RiskRule :=
  {| rule_type := t; parameters := params; severity := "hard";
     rule_enabled := true; error_message := msg |}.

(** [RiskEngine.__init__]. *)
Definition initial_engine : RiskEngine := {|
  kill_switch_on := false;
  daily_loss_by_account := [];
  rules := [
    (MAX_POSITION_SIZE, default_rule MAX_POSITION_SIZE [("max_percent", VFloat (flit 5 100))] "Max position size exceeded");
    (MAX_DRAWDOWN, default_rule MAX_DRAWDOWN [("max_drawdown", VFloat (flit 2 10))] "Max drawdown exceeded");
    (MAX_DAILY_LOSS, default_rule MAX_DAILY_LOSS [("max_daily_loss", VFloat (flit 1 10))] "Max daily loss exceeded");
    (MAX_LEVERAGE, default_rule MAX_LEVERAGE [("max_leverage", VInt 50)] "Max leverage exceeded");
    (MIN_TIME_BETWEEN_TRADES, default_rule MIN_TIME_BETWEEN_TRADES [("seconds", VInt 1)] "Too many trades")];
  last_trade_ts := None
|}.

Definition set_kill (b : bool) (e : RiskEngine) : RiskEngine :=
  {| kill_switch_on := b; daily_loss_by_account := daily_loss_by_account e;
     rules := rules e; last_trade_ts := last_trade_ts e |}.
Definition set_rules (r : dict RiskRuleType RiskRule) (e : RiskEngine) : RiskEngine :=
  {| kill_switch_on := kill_switch_on e; daily_loss_by_account := daily_loss_by_account e;
     rules := r; last_trade_ts := last_trade_ts e |}.
Definition set_last_trade (t : datetime) (e : RiskEngine) : RiskEngine :=
  {| kill_switch_on := kill_switch_on e; daily_loss_by_account := daily_loss_by_account e;
     rules := rules e; last_trade_ts := Some t |}.
Definition set_daily_loss (a : string) (x : float) (e : RiskEngine) : RiskEngine :=
  {| kill_switch_on := kill_switch_on e;
     daily_loss_by_account := dset (daily_loss_by_account e) a x;
     rules := rules e; last_trade_ts := last_trade_ts e |}.

(** The objects given to the constructor, each present or [None], and the
    clock and timer of the standard library. *)
Record Collaborators (W : Type) := {
  utcnow : M W datetime;
  sleep : float → M W unit;
  save_risk_incident : option (vdict → M W unit);            (* repository *)
  close_all_positions : option (M W unit);                    (* connector *)
  cancel_all_orders : option (M W unit);                      (* execution_engine *)
  notify : option (string → string → M W unit);               (* notifier *)
  broadcast : option (string → vdict → M W unit);             (* broadcaster *)
  disable_all_strategies : option (M W unit)                  (* scheduler_controller *)
}.
Arguments utcnow {W}. Arguments sleep {W}. Arguments save_risk_incident {W}.
Arguments close_all_positions {W}. Arguments cancel_all_orders {W}.
Arguments notify {W}. Arguments broadcast {W}. Arguments disable_all_strategies {W}.

(** ** Rule evaluation *)

(** The body of the rule loop up to [if violated]: whether the rule is violated
    and the values recorded with the incident. *)
Definition eval_rule (last : option datetime) (now : datetime) (account_info : vdict)
    (rule : RiskRule) : res (bool * vdict) :=
  match rule_type rule with
  | MAX_DRAWDOWN =>
      bal ← py_float (py_or (vget_or account_info "balance" (VInt 0)) (VInt 0));
      eq ← py_float (py_or (vget_or account_info "equity" (VInt 0)) (VInt 0));
      dd ← (if flt f0 bal then d ← py_fdiv (fsub bal eq) bal; mret (VFloat d, d) else mret (VInt 0, f0));
      limit ← py_float (vget_or (parameters rule) "max_drawdown" (VFloat (flit 2 10)));
      mret (flt limit dd.2, [("drawdown", dd.1)])
  | MAX_DAILY_LOSS =>
      bal ← py_float (py_or (vget_or account_info "balance" (VInt 0)) (VInt 0));
      pnl ← py_float (py_or (vget_or account_info "profit" (VInt 0)) (VInt 0));
      daily ← (if flt f0 bal then d ← py_fdiv (fabs (fmin pnl f0)) bal; mret (VFloat d, d) else mret (VInt 0, f0));
      limit ← py_float (vget_or (parameters rule) "max_daily_loss" (VFloat (flit 1 10)));
      mret (flt limit daily.2, [("daily_loss", daily.1)])
  | MIN_TIME_BETWEEN_TRADES =>
      match last with
      | Some t =>
          let delta := total_seconds_between now t in
          limit ← py_float (vget_or (parameters rule) "seconds" (VInt 1));
          mret (flt delta limit, [("seconds_since_last_trade", VFloat delta)])
      | None => mret (false, [])
      end
  | _ => mret (false, [])
  end.

(** ** Operations *)

Section Engine.
Context `{PyRepr} {W : Type} (C : Collaborators W).

(** [datetime.utcnow()] and [datetime.utcnow().isoformat()]. *)
Definition now_ : M (RiskEngine * W) datetime := zoom_r (utcnow C).
Definition now_iso : M (RiskEngine * W) string := t ← now_; mret (isoformat t).

Definition engine_get {A} (f : RiskEngine → A) : M (RiskEngine * W) A :=
  gets (λ ew, f ew.1).
Definition engine_set (f : RiskEngine → RiskEngine) : M (RiskEngine * W) unit :=
  modify (λ ew, (f ew.1, ew.2)).

Definition add_rule (rule : RiskRule) : M (RiskEngine * W) unit :=
  engine_set (λ e, set_rules (dset (rules e) (rule_type rule) rule) e).

Definition remove_rule (t : RiskRuleType) : M (RiskEngine * W) unit :=
  engine_set (λ e, set_rules (dpop (rules e) t) e).

Definition persist_incident (incident : vdict) : M (RiskEngine * W) unit :=
  match save_risk_incident C with
  | Some save => zoom_r (save incident)
  | None => mret tt
  end.

(** The incident recorded for a violated rule. *)
Definition rule_incident (rule : RiskRule) (actual_values order : vdict)
    (account_id created_at : string) : vdict :=
  [("rule_type", VStr (rule_value (rule_type rule)));
   ("parameters", VDict (parameters rule));
   ("actual_values", VDict actual_values);
   ("order_id", vget order "id");
   ("account_id", VStr account_id);
   ("action_taken", VStr (if String.eqb (severity rule) "hard" then "reject" else "warning"));
   ("created_at", VStr created_at)].

Definition approve : TradeApproval :=
  {| approved := true; reason := None; rule_violated := None; warning := None |}.
Definition approve_with (msg : string) : TradeApproval :=
  {| approved := true; reason := None; rule_violated := None; warning := Some msg |}.
Definition reject_for (rule : RiskRule) : TradeApproval :=
  {| approved := false; reason := Some (error_message rule);
     rule_violated := Some (rule_type rule); warning := None |}.
Definition reject_kill : TradeApproval :=
  {| approved := false; reason := Some "Kill switch active"; rule_violated := None; warning := None |}.

(** [for rule in self.rules.values()], then the code after the loop. *)
Fixpoint check_rules (rs : list RiskRule) (order account_info : vdict)
    (account_id : string) (now : datetime) : M (RiskEngine * W) TradeApproval :=
  match rs with
  | [] => engine_set (set_last_trade now) ;; mret approve
  | rule :: rest =>
      if negb (rule_enabled rule) then check_rules rest order account_info account_id now
      else
        last ← engine_get last_trade_ts;
        '(violated, actual_values) ← lift_res (eval_rule last now account_info rule);
        if violated : bool then
          created_at ← now_iso;
          persist_incident (rule_incident rule actual_values order account_id created_at) ;;
          mret (if String.eqb (severity rule) "hard" then reject_for rule
                else approve_with (error_message rule))
        else check_rules rest order account_info account_id now
  end.

Definition pre_trade_check (order account_info : vdict) (positions : list vdict)
    : M (RiskEngine * W) TradeApproval :=
  ks ← engine_get kill_switch_on;
  if ks : bool then mret reject_kill
  else
    now ← now_;
    let account_id := py_str (vget_or order "account_id" (VStr "unknown")) in
    rs ← engine_get rules;
    check_rules (dvalues rs) order account_info account_id now.

(** [float(p.get(k, default) or 0)]. *)
Definition num_field (p : vdict) (k : string) (default : pyval) : res float :=
  py_float (py_or (vget_or p k default) (VInt 0)).

Definition position_exposure (p : vdict) : res float :=
  v ← num_field p "volume" (VInt 0);
  x ← num_field p "price_current" (vget_or p "entry_price" (VInt 0));
  mret (fabs (fmul v x)).

Definition exposure_incident (exposure : float) (account_id created_at : string) : vdict :=
  [("rule_type", VStr (rule_value MAX_EXPOSURE)); ("parameters", VDict []);
   ("actual_values", VDict [("exposure", VFloat exposure)]); ("order_id", VNone);
   ("account_id", VStr account_id); ("action_taken", VStr "position_reduced");
   ("created_at", VStr created_at)].

(** The configured share, as [self.rules.get(...).parameters.get(...)] reads it. *)
Definition max_percent (rs : dict RiskRuleType RiskRule) : res float :=
  let params := match dget rs MAX_POSITION_SIZE with
                | Some r => parameters r
                | None => [("max_percent", VFloat (flit 5 100))]
                end in
  py_float (vget_or params "max_percent" (VFloat (flit 5 100))).

(** The test of the position-size rule, as written: the limit is the configured
    share of the exposure itself. *)
Definition exposure_exceeds (share exposure : float) : bool :=
  flt (fmul share (fmax f1 exposure)) exposure.

Definition close_and_record (exposure : float) (account_id : string) : M (RiskEngine * W) unit :=
  match close_all_positions C with
  | Some close => zoom_r close
  | None => mret tt
  end ;;
  created_at ← now_iso;
  persist_incident (exposure_incident exposure account_id created_at).

Definition report_daily_loss (account_id : string) : M (RiskEngine * W) unit :=
  daily ← engine_get (λ e, dget (daily_loss_by_account e) account_id);
  let daily := default f0 daily in
  match notify C with
  | Some send =>
      when (flt f0 daily)
        (zoom_r (send account_id (String.append "Daily loss monitor: " (format_2f daily))))
  | None => mret tt
  end.

(** One turn of [monitor_positions]' loop. *)
Definition monitor_once (get_positions_callback : string → M W (list vdict))
    (account_id : string) : M (RiskEngine * W) unit :=
  positions ← zoom_r (get_positions_callback account_id);
  profits ← map_each (λ p, lift_res (num_field p "profit" (VInt 0))) positions;
  let total_pnl := fsum profits in
  engine_set (set_daily_loss account_id (fabs (fmin total_pnl f0))) ;;
  exposures ← map_each (λ p, lift_res (position_exposure p)) positions;
  let exposure := fsum exposures in
  when (flt f0 exposure && Nat.ltb 0 (length positions)) (
    rs ← engine_get rules;
    share ← lift_res (max_percent rs);
    when (exposure_exceeds share exposure) (close_and_record exposure account_id)) ;;
  report_daily_loss account_id ;;
  zoom_r (sleep C (flit 2 1)).

(** [monitor_positions] runs [monitor_once] for ever; this is its first [n]
    turns (it leaves the loop only by an exception). *)
Fixpoint monitor_positions (n : nat) (get_positions_callback : string → M W (list vdict))
    (account_id : string) : M (RiskEngine * W) unit :=
  match n with
  | O => mret tt
  | S n' => monitor_once get_positions_callback account_id ;;
            monitor_positions n' get_positions_callback account_id
  end.

(** The [try] block of the kill switch's retry loop. *)
Definition kill_actions : M (RiskEngine * W) unit :=
  match cancel_all_orders C with Some cancel => zoom_r cancel | None => mret tt end ;;
  match close_all_positions C with Some close => zoom_r close | None => mret tt end.

(** [for _ in range(n): try: ...; break except Exception: ...; sleep(1)]. *)
Fixpoint kill_attempts (n : nat) : M (RiskEngine * W) unit :=
  match n with
  | O => mret tt
  | S n' =>
      stop ← try_except (kill_actions ;; mret true)
                        (λ _, zoom_r (sleep C f1) ;; mret false);
      if stop : bool then mret tt else kill_attempts n'
  end.

Definition kill_incident (reason triggered_by created_at : string) : vdict :=
  [("rule_type", VStr "KILL_SWITCH"); ("parameters", VDict [("reason", VStr reason)]);
   ("actual_values", VDict []); ("order_id", VNone); ("account_id", VStr "global");
   ("action_taken", VStr "kill_switch"); ("created_at", VStr created_at);
   ("triggered_by", VStr triggered_by); ("severity", VStr "CRITICAL")].

Definition kill_switch (reason triggered_by : string) : M (RiskEngine * W) unit :=
  engine_set (set_kill true) ;;
  created_at ← now_iso;
  persist_incident (kill_incident reason triggered_by created_at) ;;
  kill_attempts 3 ;;
  match broadcast C with
  | Some send =>
      zoom_r (send "risk_events"
        [("event", VStr "kill_switch"); ("reason", VStr reason); ("triggered_by", VStr triggered_by)])
  | None => mret tt
  end ;;
  match disable_all_strategies C with
  | Some disable => zoom_r disable
  | None => mret tt
  end.

Definition release_incident (created_at : string) : vdict :=
  [("rule_type", VStr "KILL_SWITCH_RELEASE"); ("parameters", VDict []);
   ("actual_values", VDict []); ("order_id", VNone); ("account_id", VStr "global");
   ("action_taken", VStr "warning"); ("created_at", VStr created_at)].

Definition release_kill_switch : M (RiskEngine * W) bool :=
  engine_set (set_kill false) ;;
  created_at ← now_iso;
  persist_incident (release_incident created_at) ;;
  mret true.
End Engine.

(** ** Sequences of requests to one engine

    Each request runs to its end, returns or raises, and the next one starts
    from the state it left. *)

Section Requests.
Context `{PyRepr} {W : Type} (C : Collaborators W).

Inductive RiskOp :=
| OpCheck (order account_info : vdict) (positions : list vdict)
| OpAddRule (rule : RiskRule)
| OpRemoveRule (t : RiskRuleType)
| OpMonitor (get_positions_callback : string → M W (list vdict)) (account_id : string)
| OpKill (reason triggered_by : string)
| OpRelease.

(** The approval a check answers with; the other requests answer [None]. *)
Definition run_op (op : RiskOp) : M (RiskEngine * W) (option TradeApproval) :=
  match op with
  | OpCheck order ai ps => a ← pre_trade_check C order ai ps; mret (Some a)
  | OpAddRule r => add_rule r ;; mret None
  | OpRemoveRule t => remove_rule t ;; mret None
  | OpMonitor cb a => monitor_once C cb a ;; mret None
  | OpKill r b => kill_switch C r b ;; mret None
  | OpRelease => _ ← release_kill_switch C; mret None
  end.

Fixpoint run_ops (ops : list RiskOp) (s : RiskEngine * W)
    : list (RiskOp * res (option TradeApproval)) * (RiskEngine * W) :=
  match ops with
  | [] => ([], s)
  | op :: rest =>
      let '(r, s1) := run_op op s in
      let '(rs, s2) := run_ops rest s1 in
      ((op, r) :: rs, s2)
  end.

Definition is_release (op : RiskOp) : bool :=
  match op with OpRelease => true | _ => false end.
Definition is_check (op : RiskOp) : bool :=
  match op with OpCheck _ _ _ => true | _ => false end.

(** The first enabled rule, in insertion order, that is violated. *)
Fixpoint first_violation (last : option datetime) (now : datetime)
    (account_info : vdict) (rs : list RiskRule) : res (option (RiskRule * vdict)) :=
  match rs with
  | [] => Ok None
  | r :: rest =>
      if rule_enabled r then
        '(violated, vals) ← eval_rule last now account_info r;
        if violated : bool then Ok (Some (r, vals)) else first_violation last now account_info rest
      else first_violation last now account_info rest
  end.

(** What the engine answers when rule [r] is the first violated one. *)
Definition verdict (r : RiskRule) : TradeApproval :=
  if String.eqb (severity r) "hard" then reject_for r else approve_with (error_message r).

(** *** Lemmas *)

Definition killed (ew : RiskEngine * W) : Prop := kill_switch_on ew.1 = true.

Lemma engine_set_killed f :
  (∀ e, kill_switch_on e = true → kill_switch_on (f e) = true) →
  preserves killed (engine_set (W:=W) f).
Proof. intros Hf [e w] Hk. by apply Hf. Qed.

Lemma zoom_killed {A} (m : M W A) : preserves killed (zoom_r m).
Proof. apply (preserves_zoom_r (λ e, kill_switch_on e = true)). Qed.

Lemma persist_killed i : preserves killed (persist_incident C i).
Proof. unfold persist_incident. destruct (save_risk_incident C); [apply zoom_killed|apply preserves_ret]. Qed.

Hint Resolve engine_set_killed zoom_killed persist_killed : py_pres.

Lemma check_rules_killed rs order ai acc now :
  preserves killed (check_rules C rs order ai acc now).
Proof. induction rs; simpl; unfold engine_get, now_iso, now_; solve_pres. Qed.

Lemma kill_attempts_killed n : preserves killed (kill_attempts C n).
Proof. induction n; simpl; unfold kill_actions; solve_pres. Qed.

Hint Resolve check_rules_killed kill_attempts_killed : py_pres.

Lemma run_op_killed op : is_release op = false → preserves killed (run_op op).
Proof.
  destruct op; try discriminate; intros _; simpl;
    unfold pre_trade_check, add_rule, remove_rule, monitor_once, close_and_record,
      report_daily_loss, kill_switch, engine_get, now_iso, now_; solve_pres.
Qed.

(** The kill switch is on whatever happens to its notifications. *)
Lemma kill_switch_sets_lemma reason by_ s : killed (kill_switch C reason by_ s).2.
Proof.
  unfold kill_switch. destruct s as [e w].
  unfold engine_set at 1, modify, mbind at 1, M_bind at 1. cbn [fst snd].
  match goal with |- killed (?m ?s).2 => cut (preserves killed m); [intros Hp; by apply Hp|] end.
  unfold now_iso, now_. solve_pres.
Qed.

Lemma check_killed_lemma order ai ps s :
  killed s → pre_trade_check C order ai ps s = (Ok reject_kill, s).
Proof.
  destruct s as [e w]. unfold killed. cbn. intros Hk.
  unfold pre_trade_check, engine_get, gets, mbind, M_bind. cbn. by rewrite Hk.
Qed.
End Requests.

(** ** Helper lemmas for the theorems *)

Section Facts.
Context `{PyRepr} {W : Type} (C : Collaborators W).

Lemma check_rules_spec rs order ai acc now e w :
  check_rules C rs order ai acc now (e, w) =
  match first_violation (last_trade_ts e) now ai rs with
  | Raise x => (Raise x, (e, w))
  | Ok None => (Ok approve, (set_last_trade now e, w))
  | Ok (Some (r, vals)) =>
      (created_at ← now_iso C;
       persist_incident C (rule_incident r vals order acc created_at) ;;
       mret (verdict r)) (e, w)
  end.
Proof.
  induction rs as [|r rs IH]; [done|]. cbn [check_rules first_violation].
  destruct (rule_enabled r); cbn [negb]; [|apply IH].
  unfold engine_get, gets, lift_res, mbind at 1 2, M_bind at 1 2. cbn [fst snd].
  destruct (eval_rule (last_trade_ts e) now ai r) as [[[] vals]|x] eqn:Ev; cbn; [done|apply IH|done].
Qed.

Lemma first_violation_none last now ai rs :
  first_violation last now ai rs = Ok None →
  ∀ r, In r rs → rule_enabled r = true → ∃ vals, eval_rule last now ai r = Ok (false, vals).
Proof.
  induction rs as [|r rs IH]; cbn; [done|].
  intros Hf r' [<-|Hin] Hen.
  - rewrite Hen in Hf. destruct (eval_rule last now ai r) as [[[] vals]|]; simplify_eq/=; eauto.
  - apply IH; [|done..]. destruct (rule_enabled r); [|done].
    by destruct (eval_rule last now ai r) as [[[] vals]|].
Qed.

(** The incident is written after the verdict is reached and before it is
    returned: a call that returns, returns the verdict. *)
Lemma verdict_result r vals order acc e w a s' :
  (created_at ← now_iso C;
   persist_incident C (rule_incident r vals order acc created_at) ;;
   mret (verdict r)) (e, w) = (Ok a, s') → a = verdict r.
Proof.
  intros Hrun. apply bind_inv in Hrun as [(c & s1 & _ & Hrun)|(x & _ & ?)]; [|done].
  apply bind_inv in Hrun as [(c' & s2 & _ & Hrun)|(x & _ & ?)]; [|done].
  by injection Hrun.
Qed.

Lemma verdict_clean r : approved (verdict r) = true → warning (verdict r) ≠ None.
Proof. unfold verdict. by destruct (String.eqb (severity r) "hard"). Qed.

Lemma pre_trade_check_run order ai ps e w now w1 :
  kill_switch_on e = false → utcnow C w = (Ok now, w1) →
  pre_trade_check C order ai ps (e, w) =
  check_rules C (dvalues (rules e)) order ai
    (py_str (vget_or order "account_id" (VStr "unknown"))) now (e, w1).
Proof.
  intros Hk Hnow. unfold pre_trade_check, engine_get, gets, now_, zoom_r, mbind, M_bind.
  cbn. by rewrite Hk, Hnow.
Qed.

(** A call of the check that returns has read the clock. *)
Lemma pre_trade_check_inv order ai ps e w a s' :
  pre_trade_check C order ai ps (e, w) = (Ok a, s') → kill_switch_on e = false →
  ∃ now w1, utcnow C w = (Ok now, w1) ∧
    check_rules C (dvalues (rules e)) order ai
      (py_str (vget_or order "account_id" (VStr "unknown"))) now (e, w1) = (Ok a, s').
Proof.
  intros Hrun Hk. destruct (utcnow C w) as [[now|x] w1] eqn:Hnow.
  - rewrite (pre_trade_check_run _ _ _ _ _ _ _ Hk Hnow) in Hrun. eauto.
  - unfold pre_trade_check, engine_get, gets, now_, zoom_r, mbind, M_bind in Hrun.
    cbn in Hrun. by rewrite Hk, Hnow in Hrun.
Qed.

Lemma run_ops_killed ops s :
  killed s → forallb (λ op, negb (is_release op)) ops = true →
  Forall (λ r : RiskOp * _, is_check r.1 = true → r.2 = Ok (Some reject_kill)) (run_ops C ops s).1 ∧
  killed (run_ops C ops s).2.
Proof.
  revert s. induction ops as [|op ops IH]; intros s Hk Hrel; [by split|].
  cbn in Hrel. apply andb_true_iff in Hrel as [Hop Hrel]. apply negb_true_iff in Hop.
  cbn [run_ops]. pose proof (run_op_killed C op Hop s Hk) as Hk'.
  destruct (run_op C op s) as [r s1] eqn:Hrun. cbn in Hk'.
  specialize (IH s1 Hk' Hrel). destruct (run_ops C ops s1) as [rs s2].
  destruct IH as [IH1 IH2]. split; [|done]. constructor; [|done]. cbn.
  destruct op; try done. intros _. cbn in Hrun.
  unfold mbind, M_bind in Hrun. rewrite (check_killed_lemma C _ _ _ _ Hk) in Hrun.
  by injection Hrun as <- _.
Qed.
End Facts.

Section MoreFacts.
Context `{PyRepr} {W : Type} (C : Collaborators W).

Lemma map_each_pure {X A S} (f : X → res A) (l : list X) (ys : list A) (s : S) :
  Forall2 (λ x y, f x = Ok y) l ys → map_each (λ x, lift_res (f x)) l s = (Ok ys, s).
Proof.
  induction 1 as [|x y l ys Hx _ IH]; [done|]. cbn [map_each].
  rewrite (bind_ok _ _ s y s) by (unfold lift_res; by rewrite Hx).
  by rewrite (bind_ok _ _ s ys s).
Qed.

Lemma exposure_exceeds_default (x : float) :
  valid_float x = true → is_finite x = true → flt (flit 5 100) x = true →
  exposure_exceeds (flit 5 100) x = true.
Proof.
  intros Hv Hfin Hx. unfold exposure_exceeds, fmax.
  destruct (flt f1 x) eqn:E1; [by apply fmul_twentieth|].
  by change (fmul (flit 5 100) f1) with (flit 5 100).
Qed.

Lemma flt_zero_twentieth (x : float) : flt (flit 5 100) x = true → flt f0 x = true.
Proof. apply flt_trans. reflexivity. Qed.

Lemma kill_attempts_ok n s :
  (∀ s' x, (kill_actions C s').1 = Raise x → is_Exception x = true) →
  (∀ w, (sleep C f1 w).1 = Ok tt) →
  (kill_attempts C n s).1 = Ok tt.
Proof.
  intros Hact Hsleep. revert s. induction n as [|n IH]; intros s; [done|].
  cbn [kill_attempts]. specialize (Hact s).
  destruct (kill_actions C s) as [[u|x] s1] eqn:Ek.
  - rewrite (bind_ok _ _ s true s1); [done|].
    unfold try_except. by rewrite (bind_ok _ _ _ _ _ Ek).
  - destruct s1 as [e1 w1]. specialize (Hsleep w1).
    destruct (sleep C f1 w1) as [r w2] eqn:Es. cbn in Hsleep. subst r.
    rewrite (bind_ok _ _ s false (e1, w2)); [apply IH|].
    unfold try_except. rewrite (bind_raise _ _ _ _ _ Ek), (Hact x eq_refl).
    rewrite (bind_ok _ _ (e1, w1) tt (e1, w2)); [done|]. unfold zoom_r. by rewrite Es.
Qed.

(** The rule table: one entry per type, stored under its own type. *)
Definition rules_wf (e : RiskEngine) : Prop :=
  dict_wf (rules e) ∧ ∀ t r, In (t, r) (rules e) → rule_type r = t.

Lemma In_dset {K V} `{EqDecision K} (d : dict K V) k v k' v' :
  In (k', v') (dset d k v) → (k', v') = (k, v) ∨ In (k', v') d.
Proof.
  induction d as [|[j u] d IH]; simpl; [by intros [?|[]]; left|].
  case_decide; subst; simpl; [intros [?|?]; [by left|tauto]|].
  intros [?|Hin]; [tauto|]. destruct (IH Hin); tauto.
Qed.

Lemma In_dpop {K V} `{EqDecision K} (d : dict K V) k kv : In kv (dpop d k) → In kv d.
Proof.
  induction d as [|[j u] d IH]; simpl; [done|]. case_decide; simpl; tauto.
Qed.

Lemma rules_wf_initial : rules_wf initial_engine.
Proof.
  split.
  - unfold dict_wf. cbn. repeat constructor; cbn; intuition discriminate.
  - cbn. intros t r Hin. repeat destruct Hin as [Hin|Hin]; try (by injection Hin as <- <-). done.
Qed.

Definition ewf (ew : RiskEngine * W) : Prop := rules_wf ew.1.

Lemma engine_set_wf f :
  (∀ e, rules_wf e → rules_wf (f e)) → preserves ewf (engine_set (W:=W) f).
Proof. intros Hf [e w] Hk. by apply Hf. Qed.

Lemma zoom_wf {A} (m : M W A) : preserves ewf (zoom_r m).
Proof. apply (preserves_zoom_r rules_wf). Qed.

Lemma persist_wf i : preserves ewf (persist_incident C i).
Proof. unfold persist_incident. destruct (save_risk_incident C); [apply zoom_wf|apply preserves_ret]. Qed.

Lemma rules_wf_add rule e : rules_wf e → rules_wf (set_rules (dset (rules e) (rule_type rule) rule) e).
Proof.
  intros [Hnd Hty]. split; cbn; [by apply dict_wf_dset|].
  intros t r [[= -> ->]|Hin]%In_dset; [done|by apply Hty].
Qed.

Lemma rules_wf_remove t e : rules_wf e → rules_wf (set_rules (dpop (rules e) t) e).
Proof.
  intros [Hnd Hty]. split; cbn; [by apply dict_wf_dpop|].
  intros t' r Hin%In_dpop. by apply Hty.
Qed.

Hint Resolve engine_set_wf zoom_wf persist_wf rules_wf_add rules_wf_remove : py_pres.

Lemma check_rules_wf rs order ai acc now : preserves ewf (check_rules C rs order ai acc now).
Proof. induction rs; simpl; unfold engine_get, now_iso, now_; solve_pres. Qed.

Lemma kill_attempts_wf n : preserves ewf (kill_attempts C n).
Proof. induction n; simpl; unfold kill_actions; solve_pres. Qed.

Hint Resolve check_rules_wf kill_attempts_wf : py_pres.

Lemma run_op_wf op : preserves ewf (run_op C op).
Proof.
  destruct op; simpl;
    unfold pre_trade_check, add_rule, remove_rule, monitor_once, close_and_record,
      report_daily_loss, kill_switch, release_kill_switch, engine_get, now_iso, now_; solve_pres.
Qed.

Lemma run_ops_wf ops s : ewf s → ewf (run_ops C ops s).2.
Proof.
  revert s. induction ops as [|op ops IH]; intros s Hs; [done|]. cbn [run_ops].
  pose proof (run_op_wf op s Hs) as Hs1. destruct (run_op C op s) as [r s1].
  specialize (IH s1 Hs1). by destruct (run_ops C ops s1).
Qed.
End MoreFacts.

(** ** A concrete world for the witnesses

    A clock that serves a list of times, a repository that keeps the incidents
    and a connector that counts its calls to [close_all_positions]. *)

Record DemoWorld := { times : list datetime; incidents : list vdict; closes : nat }.

Definition demo_time : datetime := DT 2026 2 12 10 0 0 0.

Definition demo : Collaborators DemoWorld := {|
  utcnow := λ w,
    match times w with
    | t :: ts => (Ok t, {| times := ts; incidents := incidents w; closes := closes w |})
    | [] => (Ok demo_time, w)
    end;
  sleep := λ _ w, (Ok tt, w);
  save_risk_incident := Some (λ i w,
    (Ok tt, {| times := times w; incidents := incidents w ++ [i]; closes := closes w |}));
  close_all_positions := Some (λ w,
    (Ok tt, {| times := times w; incidents := incidents w; closes := S (closes w) |}));
  cancel_all_orders := None; notify := None; broadcast := None;
  disable_all_strategies := None
|}.

Definition demo_world : DemoWorld := {| times := []; incidents := []; closes := 0 |}.

#[export] Instance demo_repr : PyRepr := {| repr_other := λ _, "?" |}.

Definition demo_account : vdict :=
  [("balance", VFloat (flit 1000 1)); ("equity", VFloat (flit 950 1)); ("profit", VFloat (flit (-50) 1))].

(** ** Theorems *)

Section Theorems.
Context `{PyRepr} {W : Type} (C : Collaborators W).

(** C16. The pre-trade check decides by the first violated rule. With the kill
    switch off, the check answers exactly what the specification
    [first_violation] says: an exception of the rule evaluation propagates with
    nothing recorded; no violated enabled rule means approval and the trade time
    is set to now; otherwise the incident of that first rule is persisted and
    its verdict (rejection for a hard rule, approval with a warning for any
    other severity) is returned, and the trade time is left alone. *)
Theorem pre_trade_check_decides order ai ps e w now w1 :
  kill_switch_on e = false → utcnow C w = (Ok now, w1) →
  pre_trade_check C order ai ps (e, w) =
  match first_violation (last_trade_ts e) now ai (dvalues (rules e)) with
  | Raise x => (Raise x, (e, w1))
  | Ok None => (Ok approve, (set_last_trade now e, w1))
  | Ok (Some (r, vals)) =>
      (created_at ← now_iso C;
       persist_incident C
         (rule_incident r vals order
            (py_str (vget_or order "account_id" (VStr "unknown"))) created_at) ;;
       mret (verdict r)) (e, w1)
  end.
Proof.
  intros Hk Hnow. rewrite (pre_trade_check_run _ _ _ _ _ _ _ _ Hk Hnow). apply check_rules_spec.
Qed.

(** A clean approval is sound: when the check approves without a warning,
    the kill switch is off and every enabled rule of the table, evaluated at the
    time the check read, is satisfied. *)
Theorem clean_approval_sound order ai ps e w a s' :
  pre_trade_check C order ai ps (e, w) = (Ok a, s') →
  approved a = true → warning a = None →
  kill_switch_on e = false ∧
  ∃ now w1, utcnow C w = (Ok now, w1) ∧ s' = (set_last_trade now e, w1) ∧
    ∀ r, In r (dvalues (rules e)) → rule_enabled r = true →
      ∃ vals, eval_rule (last_trade_ts e) now ai r = Ok (false, vals).
Proof.
  intros Hrun Happ Hwarn. destruct (kill_switch_on e) eqn:Hk.
  { rewrite (check_killed_lemma C order ai ps (e, w) Hk) in Hrun. injection Hrun as <- _. done. }
  split; [done|]. destruct (pre_trade_check_inv _ _ _ _ _ _ _ _ Hrun Hk) as (now & w1 & Hnow & Hc).
  exists now, w1. split; [done|]. rewrite check_rules_spec in Hc.
  destruct (first_violation _ _ _ _) as [[[r vals]|]|x] eqn:Ev.
  - apply verdict_result in Hc as ->. by destruct (verdict_clean r Happ).
  - injection Hc as <- <-. split; [done|]. by apply first_violation_none.
  - done.
Qed.

(** Consecutive clean approvals are spaced: if a check approves cleanly and
    the next check on the engine approves cleanly too, the second clock reading
    is not less than the configured number of seconds after the first. *)
Theorem clean_approvals_spaced o1 ai1 ps1 e w a1 e1 w1 o2 ai2 ps2 w2 a2 s2 r limit :
  pre_trade_check C o1 ai1 ps1 (e, w) = (Ok a1, (e1, w1)) →
  approved a1 = true → warning a1 = None →
  pre_trade_check C o2 ai2 ps2 (e1, w2) = (Ok a2, s2) →
  approved a2 = true → warning a2 = None →
  In r (dvalues (rules e)) → rule_type r = MIN_TIME_BETWEEN_TRADES → rule_enabled r = true →
  py_float (vget_or (parameters r) "seconds" (VInt 1)) = Ok limit →
  ∃ t1 t2, (utcnow C w).1 = Ok t1 ∧ (utcnow C w2).1 = Ok t2 ∧
    flt (total_seconds_between t2 t1) limit = false.
Proof.
  intros H1 Ha1 Hw1 H2 Ha2 Hw2 Hin Hty Hen Hlim.
  assert (∃ t1 w1', utcnow C w = (Ok t1, w1') ∧ e1 = set_last_trade t1 e) as (t1 & w1' & Hn1 & ->).
  { destruct (kill_switch_on e) eqn:Hk.
    { rewrite (check_killed_lemma C o1 ai1 ps1 (e, w) Hk) in H1. by injection H1 as <- <- <-. }
    destruct (pre_trade_check_inv _ _ _ _ _ _ _ _ H1 Hk) as (now & w1' & Hnow & Hc).
    rewrite check_rules_spec in Hc.
    destruct (first_violation _ _ _ _) as [[[r' vals]|]|x]; [|by injection Hc as <- <- <-; eauto|done].
    apply verdict_result in Hc as ->. by destruct (verdict_clean r' Ha1). }
  destruct (kill_switch_on (set_last_trade t1 e)) eqn:Hk2.
  { rewrite (check_killed_lemma C o2 ai2 ps2 (_, w2) Hk2) in H2. by injection H2 as <- _. }
  destruct (pre_trade_check_inv _ _ _ _ _ _ _ _ H2 Hk2) as (t2 & w2' & Hn2 & Hc).
  exists t1, t2. rewrite Hn1, Hn2. repeat split.
  rewrite check_rules_spec in Hc.
  destruct (first_violation _ _ _ _) as [[[r' vals]|]|x] eqn:Ev; [| |done].
  - apply verdict_result in Hc as ->. by destruct (verdict_clean r' Ha2).
  - destruct (first_violation_none _ _ _ _ Ev r Hin Hen) as [vals Hr].
    unfold eval_rule in Hr. rewrite Hty in Hr. cbn [set_last_trade last_trade_ts] in Hr.
    rewrite Hlim in Hr. by injection Hr.
Qed.

(** C15. The kill switch blocks trading until it is released. Whatever the
    collaborators do during [kill_switch] (fail, raise, be absent), afterwards
    every pre-trade check of every later sequence of requests without a release
    is rejected with the kill-switch verdict. *)
Theorem kill_switch_blocks by_ why s ops :
  forallb (λ op, negb (is_release op)) ops = true →
  Forall (λ r : RiskOp * _, is_check r.1 = true → r.2 = Ok (Some reject_kill))
    (run_ops C ops (kill_switch C why by_ s).2).1.
Proof.
  intros Hrel. apply run_ops_killed; [apply kill_switch_sets_lemma|done].
Qed.

(** The emergency closing never stops the rest of the kill switch: if the
    cancel and close calls only raise ordinary exceptions and the timer works,
    the retry loop returns after at most its three attempts even when every
    attempt fails, so the broadcast and the strategy shutdown that follow it
    are reached. *)
Theorem kill_attempts_return s :
  (∀ s' x, (kill_actions C s').1 = Raise x → is_Exception x = true) →
  (∀ w, (sleep C f1 w).1 = Ok tt) →
  (kill_attempts C 3 s).1 = Ok tt.
Proof. apply kill_attempts_ok. Qed.

(** A violated soft rule hides every rule after it: when the first enabled
    rule of the table is violated and its severity is not "hard", the order is
    approved (with a warning) whatever the remaining rules are, violated hard
    rules included. *)
Theorem soft_violation_masks_later_rules order ai ps e w now w1 r rest vals :
  kill_switch_on e = false → utcnow C w = (Ok now, w1) → save_risk_incident C = None →
  dvalues (rules e) = r :: rest → rule_enabled r = true → severity r ≠ "hard" →
  eval_rule (last_trade_ts e) now ai r = Ok (true, vals) →
  (∀ w', ∃ t w'', utcnow C w' = (Ok t, w'')) →
  (pre_trade_check C order ai ps (e, w)).1 = Ok (approve_with (error_message r)).
Proof.
  intros Hk Hnow Hrepo Hrules Hen Hsev Hev Hclock.
  rewrite (pre_trade_check_run _ _ _ _ _ _ _ _ Hk Hnow), check_rules_spec, Hrules.
  cbn [first_violation]. rewrite Hen, Hev. cbn [mbind res_bind].
  destruct (Hclock w1) as (t & w'' & Ht).
  unfold now_iso, now_, persist_incident, verdict, zoom_r, mbind, M_bind. rewrite Ht, Hrepo.
  apply String.eqb_neq in Hsev. by rewrite Hsev.
Qed.

(** The position monitor closes everything as soon as the total exposure is
    above five hundredths of one currency unit: with the default share of 0.05
    the limit it compares with is 0.05 times the exposure itself (or 0.05), so
    every valid finite exposure above 0.05, whatever the account's equity, makes
    the turn close all positions and record the incident. *)
Theorem monitor_closes_on_any_exposure cb account ps profits xs e w w1 close :
  close_all_positions C = Some close → cb account w = (Ok ps, w1) →
  Forall2 (λ p x, num_field p "profit" (VInt 0) = Ok x) ps profits →
  Forall2 (λ p x, position_exposure p = Ok x) ps xs →
  max_percent (rules e) = Ok (flit 5 100) →
  valid_float (fsum xs) = true → is_finite (fsum xs) = true → flt (flit 5 100) (fsum xs) = true →
  monitor_once C cb account (e, w) =
  ((zoom_r close ;;
    created_at ← now_iso C;
    persist_incident C (exposure_incident (fsum xs) account created_at)) ;;
   report_daily_loss C account ;;
   zoom_r (sleep C (flit 2 1)))
  (set_daily_loss account (fabs (fmin (fsum profits) f0)) e, w1).
Proof.
  intros Hclose Hcb Hprof Hexp Hshare Hv Hfin Hx. unfold monitor_once.
  rewrite (bind_ok _ _ _ ps (e, w1)) by (cbn; by rewrite Hcb).
  rewrite (bind_ok _ _ _ profits (e, w1)) by by apply map_each_pure.
  rewrite (bind_ok _ _ _ tt (set_daily_loss account (fabs (fmin (fsum profits) f0)) e, w1)) by done.
  rewrite (bind_ok _ _ _ xs (set_daily_loss account (fabs (fmin (fsum profits) f0)) e, w1))
    by by apply map_each_pure.
  assert (Nat.ltb 0 (length ps) = true) as ->.
  { destruct Hexp as [|p x ps' xs' _ _]; [|done]. cbn in Hx. discriminate. }
  rewrite (flt_zero_twentieth _ Hx). cbn [andb when].
  apply bind_congr. set (e' := set_daily_loss _ _ e).
  rewrite (bind_ok _ _ _ (rules e) (e', w1)) by done.
  rewrite (bind_ok _ _ _ (flit 5 100) (e', w1)) by (unfold lift_res; by rewrite Hshare).
  rewrite (exposure_exceeds_default _ Hv Hfin Hx). cbn [when].
  unfold close_and_record. by rewrite Hclose.
Qed.

(** The rule table stays well formed: starting from a table with one entry
    per rule type, each stored under its own type (as the constructor builds
    it), every sequence of requests keeps it so. *)
Theorem rule_table_well_formed ops s :
  rules_wf s.1 → rules_wf (run_ops C ops s).2.1.
Proof. apply run_ops_wf. Qed.
End Theorems.

(** ** Witnesses *)

Lemma pre_trade_check_decides_witness :
  pre_trade_check demo [] demo_account [] (initial_engine, demo_world) =
  (Ok approve, (set_last_trade demo_time initial_engine, demo_world)).
Proof.
  rewrite (pre_trade_check_decides demo [] demo_account [] initial_engine demo_world demo_time demo_world)
    by reflexivity.
  vm_compute. reflexivity.
Defined.

Lemma clean_approval_sound_witness :
  ∃ vals, eval_rule None demo_time demo_account
    (default_rule MAX_DRAWDOWN [("max_drawdown", VFloat (flit 2 10))] "Max drawdown exceeded")
    = Ok (false, vals).
Proof.
  destruct (clean_approval_sound demo [] demo_account [] initial_engine demo_world approve
    (set_last_trade demo_time initial_engine, demo_world)
    ltac:(vm_compute; reflexivity) eq_refl eq_refl) as (_ & now & w1 & Hnow & _ & Hall).
  injection Hnow as <- <-. apply Hall; [|reflexivity]. right. left. reflexivity.
Defined.

Definition demo_two_times : DemoWorld :=
  {| times := [DT 2026 2 12 10 0 0 0; DT 2026 2 12 10 0 1 0]; incidents := []; closes := 0 |}.

Lemma clean_approvals_spaced_witness :
  ∃ t1 t2, (utcnow demo demo_two_times).1 = Ok t1 ∧
    flt (total_seconds_between t2 t1) f1 = false.
Proof.
  destruct (clean_approvals_spaced demo [] demo_account [] initial_engine demo_two_times approve
    (set_last_trade (DT 2026 2 12 10 0 0 0) initial_engine)
    {| times := [DT 2026 2 12 10 0 1 0]; incidents := []; closes := 0 |}
    [] demo_account [] {| times := [DT 2026 2 12 10 0 1 0]; incidents := []; closes := 0 |} approve
    (set_last_trade (DT 2026 2 12 10 0 1 0) initial_engine, demo_world)
    (default_rule MIN_TIME_BETWEEN_TRADES [("seconds", VInt 1)] "Too many trades") f1
    ltac:(vm_compute; reflexivity) eq_refl eq_refl ltac:(vm_compute; reflexivity) eq_refl eq_refl
    ltac:(do 4 right; left; reflexivity) eq_refl eq_refl ltac:(vm_compute; reflexivity))
    as (t1 & t2 & H1 & _ & H3).
  exists t1, t2. split; [exact H1|exact H3].
Defined.

Lemma kill_switch_blocks_witness :
  Forall (λ r : RiskOp * _, is_check r.1 = true → r.2 = Ok (Some reject_kill))
    (run_ops demo [OpRemoveRule MAX_DRAWDOWN; OpCheck [] demo_account []]
       (kill_switch demo "drill" "ops" (initial_engine, demo_world)).2).1.
Proof. apply kill_switch_blocks. reflexivity. Defined.

(** A connector that always fails: three attempts, then the loop returns. *)
Definition failing : Collaborators nat := {|
  utcnow := λ w, (Ok demo_time, w); sleep := λ _ w, (Ok tt, w);
  save_risk_incident := None;
  close_all_positions := Some (λ n, (Raise (ExternalError "mt5" "no connection"), S n));
  cancel_all_orders := None; notify := None; broadcast := None; disable_all_strategies := None
|}.

Lemma kill_attempts_return_witness :
  (kill_attempts failing 3 (initial_engine, 0%nat)).1 = Ok tt ∧
  (kill_attempts failing 3 (initial_engine, 0%nat)).2 = (initial_engine, 3%nat).
Proof.
  split; [|reflexivity]. apply kill_attempts_return.
  - intros [e n] x Hx. cbn in Hx. injection Hx as <-. reflexivity.
  - reflexivity.
Defined.

Definition demo_no_repo : Collaborators DemoWorld := {|
  utcnow := utcnow demo; sleep := sleep demo; save_risk_incident := None;
  close_all_positions := close_all_positions demo; cancel_all_orders := None;
  notify := None; broadcast := None; disable_all_strategies := None
|}.

Definition soft_drawdown : RiskRule :=
  {| rule_type := MAX_DRAWDOWN; parameters := []; severity := "soft"; rule_enabled := true;
     error_message := "Max drawdown exceeded" |}.

(** A soft drawdown rule before the default hard daily-loss rule. *)
Definition soft_engine : RiskEngine :=
  set_rules [(MAX_DRAWDOWN, soft_drawdown);
             (MAX_DAILY_LOSS, default_rule MAX_DAILY_LOSS [] "Max daily loss exceeded")] initial_engine.

Definition ruined_account : vdict :=
  [("balance", VFloat (flit 1000 1)); ("equity", VFloat (flit 100 1)); ("profit", VFloat (flit (-900) 1))].

(** The daily-loss rule alone rejects this account; behind the soft rule the
    order is approved. *)
Lemma soft_violation_masks_witness :
  (pre_trade_check demo_no_repo [] ruined_account [] (soft_engine, demo_world)).1
    = Ok (approve_with "Max drawdown exceeded") ∧
  (pre_trade_check demo_no_repo [] ruined_account []
     (set_rules (dpop (rules soft_engine) MAX_DRAWDOWN) soft_engine, demo_world)).1
    = Ok (reject_for (default_rule MAX_DAILY_LOSS [] "Max daily loss exceeded")).
Proof.
  split; [|vm_compute; reflexivity].
  apply (soft_violation_masks_later_rules demo_no_repo [] ruined_account [] soft_engine demo_world
    demo_time demo_world soft_drawdown
    [default_rule MAX_DAILY_LOSS [] "Max daily loss exceeded"]
    [("drawdown", VFloat (flit 9 10))]); try reflexivity; try (intros Hs; discriminate Hs).
  intros [ts inc n]. destruct ts as [|t ts]; eexists _, _; reflexivity.
Defined.

(** A position worth one currency unit, in an account of any size. *)
Lemma monitor_closes_witness :
  closes (monitor_once demo (λ _ w, (Ok [[("volume", VFloat f1); ("price_current", VFloat f1)]], w))
            "acc" (initial_engine, demo_world)).2.2 = 1%nat.
Proof.
  rewrite (monitor_closes_on_any_exposure demo _ "acc"
    [[("volume", VFloat f1); ("price_current", VFloat f1)]] [f0] [f1] initial_engine demo_world demo_world
    (λ w, (Ok tt, {| times := times w; incidents := incidents w; closes := S (closes w) |})));
    try reflexivity; repeat constructor.
Defined.

Lemma rule_table_witness :
  rules_wf (run_ops demo [OpAddRule soft_drawdown; OpKill "drill" "ops"; OpRemoveRule MAX_LEVERAGE]
              (initial_engine, demo_world)).2.1.
Proof. apply rule_table_well_formed. apply rules_wf_initial. Defined.
