(* ===== verification/Execution.v ===== *)
(** * The execution engine (trading_service/src/execution/engine.py)

    Submission, cancellation and status updates of orders.  The engine's own
    state is its table of callbacks; the connector, the risk engine, the
    repository and the callbacks work on a world [W] the engine does not see.
    The interface an order repository has to meet is the class [RepoLaws]. *)

From Stdlib Require Import ZArith Lia Bool List Ascii String Relations.
From stdpp Require Import base decidable list option strings.
From S2P Require Import Prelude PyFloat PyStr PyDateTime PyMonad PyDict PyVal Orders Risk.
Open Scope Z_scope.
Open Scope string_scope.
Open Scope py_scope.

(** ** The objects given to the constructor *)

Record Connector (W : Type) := {
  get_account_info : M W vdict;
  get_positions : pyval → M W (list vdict);
  execute_order : vdict → M W vdict;
  connector_cancel_order : pyval → M W bool
}.
Arguments get_account_info {W}. Arguments get_positions {W}.
Arguments execute_order {W}. Arguments connector_cancel_order {W}.

(** [risk_engine.pre_trade_check(order, account_info, positions, market_data=None)]. *)
Abbreviation RiskGate W := (vdict → vdict → list vdict → M W TradeApproval).

(** A repository may lack a method the engine calls: then the call raises
    [AttributeError] when it is looked up. *)
Record OrderRepo (W : Type) := {
  repo_save_order : vdict → M W unit;
  repo_get_order : pyval → M W (option vdict);
  repo_update_order : option (pyval → vdict → M W unit);
  repo_get_orders : option (pyval → option string → M W (list vdict))
}.
Arguments repo_save_order {W}. Arguments repo_get_order {W}.
Arguments repo_update_order {W}. Arguments repo_get_orders {W}.

(** The keyword arguments of [update_order_status] the engine passes, and the
    names [hasattr] does not find. *)
Inductive OrderAttr :=
| Rejection_reason (v : pyval)
| Filled_quantity (q : float)
| Opened_at (t : datetime)
| Closed_at (t : datetime)
| No_such_field (k : string).

Record ExecEngine (CB : Type) := { callbacks : dict string (list CB) }.
Arguments callbacks {CB}.

(** [__init__]: five events, no callback. *)
Definition initial_exec {CB} : ExecEngine CB :=
  {| callbacks := [("order_created", []); ("order_updated", []); ("order_filled", []);
                   ("order_rejected", []); ("order_canceled", [])] |}.

(** What a [setattr] loop does to an order. *)
Definition with_status (s : OrderStatus) (o : Order) : Order :=
  {| id := id o; client_order_id := client_order_id o; account_id := account_id o;
     strategy_id := strategy_id o; model_id := model_id o; symbol := symbol o;
     side := side o; order_type := order_type o; quantity := quantity o;
     filled_quantity := filled_quantity o; price := price o; stop_price := stop_price o;
     limit_price := limit_price o; status := s; rejection_reason := rejection_reason o;
     commission := commission o; swap := swap o; profit := profit o;
     opened_at := opened_at o; closed_at := closed_at o;
     created_at := created_at o; updated_at := updated_at o |}.

Definition with_updated_at (t : datetime) (o : Order) : Order :=
  {| id := id o; client_order_id := client_order_id o; account_id := account_id o;
     strategy_id := strategy_id o; model_id := model_id o; symbol := symbol o;
     side := side o; order_type := order_type o; quantity := quantity o;
     filled_quantity := filled_quantity o; price := price o; stop_price := stop_price o;
     limit_price := limit_price o; status := status o; rejection_reason := rejection_reason o;
     commission := commission o; swap := swap o; profit := profit o;
     opened_at := opened_at o; closed_at := closed_at o;
     created_at := created_at o; updated_at := VDate t |}.

Definition set_attr (o : Order) (a : OrderAttr) : Order :=
  {| id := id o; client_order_id := client_order_id o; account_id := account_id o;
     strategy_id := strategy_id o; model_id := model_id o; symbol := symbol o;
     side := side o; order_type := order_type o; quantity := quantity o;
     filled_quantity := match a with Filled_quantity q => q | _ => filled_quantity o end;
     price := price o; stop_price := stop_price o;
     limit_price := limit_price o; status := status o;
     rejection_reason := match a with Rejection_reason v => v | _ => rejection_reason o end;
     commission := commission o; swap := swap o; profit := profit o;
     opened_at := match a with Opened_at t => Some t | _ => opened_at o end;
     closed_at := match a with Closed_at t => Some t | _ => closed_at o end;
     created_at := created_at o; updated_at := updated_at o |}.

(** [f"{status}"] of a [str, Enum] member under Python 3.11. *)
Definition status_repr (s : OrderStatus) : string :=
  String.append "OrderStatus." (status_value s).

Definition transition_error (s s' : OrderStatus) : exn :=
  ValueError (String.append "invalid status transition "
    (String.append (status_repr s) (String.append " -> " (status_repr s')))).

Definition opt_str (s : option string) : pyval :=
  match s with Some t => VStr t | None => VNone end.

(** [broker_response.get("result", {})] and its [.get(k, d)]. *)
Definition result_get (result : pyval) (k : string) (d : pyval) : res pyval :=
  match result with
  | VDict r => Ok (vget_or r k d)
  | _ => Raise (AttributeError "get")
  end.

(** ** Operations *)

Section Engine.
Context {W CB : Type} `{EqDecision CB}.
Context (C : Connector W) (gate : RiskGate W) (R : OrderRepo W).
(** The clock, and [cb(payload)] with the [await] of a coroutine result. *)
Context (utcnow : M W datetime) (call : CB → vdict → M W unit).

Definition on (event : string) (callback : CB) : M (ExecEngine CB * W) unit :=
  modify (λ ew,
    let cbs := default [] (dget (callbacks ew.1) event) in
    ({| callbacks := dset (callbacks ew.1) event
          (if bool_decide (callback ∈ cbs) then cbs else (cbs ++ [callback])%list) |}, ew.2)).

Definition off (event : string) (callback : CB) : M (ExecEngine CB * W) unit :=
  modify (λ ew,
    match dget (callbacks ew.1) event with
    | Some cbs =>
        ({| callbacks := dset (callbacks ew.1) event
              (List.filter (λ c, negb (bool_decide (c = callback))) cbs) |}, ew.2)
    | None => ew
    end).

(** The callbacks of an event; a Python set is iterated in an order of its own,
    here the order of registration. *)
Definition emit (event : string) (payload : vdict) : M (ExecEngine CB * W) unit :=
  cbs ← gets (λ ew, default [] (dget (callbacks ew.1) event));
  for_each (λ cb, try_except (zoom_r (call cb payload)) (λ _, mret tt)) cbs.

Definition get_order (order_id : pyval) : M (ExecEngine CB * W) (option Order) :=
  data ← zoom_r (repo_get_order R order_id);
  match data with
  | None | Some [] => mret None
  | Some d => o ← zoom_r (hydrate utcnow d); mret (Some o)
  end.

Definition get_orders (account_id : pyval) (st : option OrderStatus)
    : M (ExecEngine CB * W) (list Order) :=
  match repo_get_orders R with
  | Some fetch =>
      rows ← zoom_r (fetch account_id (option_map status_value st));
      map_each (λ r, zoom_r (hydrate utcnow r)) rows
  | None => raise (AttributeError "get_orders")
  end.

Definition update_order_status (order_id : pyval) (st : OrderStatus) (kwargs : list OrderAttr)
    : M (ExecEngine CB * W) unit :=
  found ← get_order order_id;
  match found with
  | None => raise (ValueError "order not found")
  | Some order =>
      if negb (transition_ok (status order) st)
      then raise (transition_error (status order) st)
      else
        now ← zoom_r utcnow;
        let order := with_updated_at now (fold_left set_attr kwargs (with_status st order)) in
        match repo_update_order R with
        | None => raise (AttributeError "update_order")
        | Some update =>
            d ← lift_res (to_dict order);
            zoom_r (update order_id d)
        end ;;
        d ← lift_res (to_dict order);
        emit "order_updated" d ;;
        when (bool_decide (st = REJECTED)) (d ← lift_res (to_dict order); emit "order_rejected" d)
  end.

Definition cancelable (s : OrderStatus) : bool :=
  match s with PENDING | VALIDATED | SUBMITTED | PARTIAL => true | _ => false end.

Definition cancel_order (order_id : pyval) : M (ExecEngine CB * W) bool :=
  found ← get_order order_id;
  match found with
  | None => mret false
  | Some order =>
      if negb (cancelable (status order)) then mret false
      else
        ok ← zoom_r (connector_cancel_order C order_id);
        when ok (
          update_order_status order_id CANCELED [] ;;
          d ← lift_res (to_dict order); emit "order_canceled" d) ;;
        mret ok
  end.

(** The broker accepted: the order is submitted and, with a deal, filled. *)
Definition advance (order : Order) (result : pyval) : M (ExecEngine CB * W) unit :=
  now ← zoom_r utcnow;
  update_order_status (id order) SUBMITTED [Opened_at now] ;;
  deal ← lift_res (result_get result "deal" VNone);
  when (truthy deal) (
    now ← zoom_r utcnow;
    update_order_status (id order) FILLED [Filled_quantity (quantity order); Closed_at now] ;;
    d ← lift_res (to_dict order);
    emit "order_filled" d).

(** After the broker answered: the response is read and the order moves on. *)
Definition settle (order : Order) (broker_response : vdict) : M (ExecEngine CB * W) Order :=
  if negb (truthy (vget broker_response "ok")) then
    update_order_status (id order) REJECTED
      [Rejection_reason (vget_or broker_response "error" (VStr "broker rejected"))] ;;
    mret order
  else
    let result := vget_or broker_response "result" (VDict []) in
    retcode ← lift_res (v ← result_get result "retcode" (VInt 0); py_int v);
    when (negb (retcode =? 0)%Z) (advance order result) ;;
    mret order.

(** After the approval: the order is validated, saved and sent. *)
Definition place (order : Order) : M (ExecEngine CB * W) Order :=
  update_order_status (id order) VALIDATED [] ;;
  d ← lift_res (to_dict order);
  zoom_r (repo_save_order R d) ;;
  d ← lift_res (to_dict order);
  emit "order_created" d ;;
  d ← lift_res (to_dict order);
  broker_response ← zoom_r (execute_order C d);
  settle order broker_response.

(** The order object of the caller is not an argument of any assignment: every
    update works on an object [_hydrate] has just built from the repository. *)
Definition submit_order (order : Order) : M (ExecEngine CB * W) Order :=
  if negb (bool_decide (status order = PENDING)) then raise (ValueError "Order must be pending")
  else if fle (quantity order) f0 then
    update_order_status (id order) REJECTED [Rejection_reason (VStr "quantity must be positive")] ;;
    mret order
  else
    account_info ← zoom_r (get_account_info C);
    positions ← zoom_r (get_positions C (symbol order));
    d ← lift_res (to_dict order);
    approval ← zoom_r (gate d account_info positions);
    if negb (approved approval) then
      update_order_status (id order) REJECTED [Rejection_reason (opt_str (reason approval))] ;;
      mret order
    else place order.
End Engine.

(** ** What the engine expects of its surroundings *)

(** The repository as a table of rows by order id: what [get_order] returns is
    the row, [update_order] replaces it, and [save_order] of an order that is
    already there either overwrites the row ([overwrites], the in-memory
    repositories) or leaves it ([PostgresRepository.save_order], which looks the
    client order id up first). *)
Class RepoLaws {W} (R : OrderRepo W) (view : W → string → option vdict) (overwrites : bool) := {
  law_get w s : repo_get_order R (VStr s) w = (Ok (view w s), w);
  law_get_any w i : (repo_get_order R i w).2 = w;
  law_update : ∃ update, repo_update_order R = Some update ∧
    (∀ w s d, ∃ w', update (VStr s) d w = (Ok tt, w') ∧ view w' s = Some d) ∧
    (∀ w i d s, i ≠ VStr s → view (update i d w).2 s = view w s);
  law_save w s d : is_Some (view w s) → vget d "id" = VStr s →
    ∃ w', repo_save_order R d w = (Ok tt, w') ∧
          view w' s = if overwrites then Some d else view w s;
  law_save_other w s d : is_Some (view w s) → vget d "id" ≠ VStr s →
    view (repo_save_order R d w).2 s = view w s
}.

(** A call that leaves the order rows alone. *)
Definition quiet {W A} (view : W → string → option vdict) (m : M W A) : Prop :=
  ∀ w s, view (m w).2 s = view w s.

(** The clock reads valid dates, callbacks are not cancelled in mid-flight, and
    neither writes order rows. *)
Class QuietEnv {W CB} (view : W → string → option vdict)
    (utcnow : M W datetime) (call : CB → vdict → M W unit) := {
  clock_reads w : ∃ t w', utcnow w = (Ok t, w') ∧ dt_valid t = true;
  clock_quiet : quiet view utcnow;
  call_quiet cb d : quiet view (call cb d);
  call_no_cancel cb d w e w' : call cb d w = (Raise e, w') → is_Exception e = true
}.

(** The broker and the risk engine do not write order rows either. *)
Class QuietPeers {W} (view : W → string → option vdict) (C : Connector W) (gate : RiskGate W) := {
  account_quiet : quiet view (get_account_info C);
  positions_quiet y : quiet view (get_positions C y);
  execute_quiet d : quiet view (execute_order C d);
  cancel_quiet i : quiet view (connector_cancel_order C i);
  gate_quiet d a p : quiet view (gate d a p)
}.

(** The table holds order [o] under the id [s]. *)
Definition stored {W} (view : W → string → option vdict) (w : W) (s : string) (o : Order) : Prop :=
  order_wf o = true ∧ ∃ d, to_dict o = Ok d ∧ view w s = Some d.

Definition attr_valid (a : OrderAttr) : bool :=
  match a with Opened_at t | Closed_at t => dt_valid t | _ => true end.

(** The order an accepted update stores. *)
Definition moved (o : Order) (st : OrderStatus) (kwargs : list OrderAttr) (now : datetime) : Order :=
  with_updated_at now (fold_left set_attr kwargs (with_status st o)).

Lemma order_wf_set_attr o a : order_wf o = true → attr_valid a = true → order_wf (set_attr o a) = true.
Proof.
  unfold order_wf. rewrite !andb_true_iff. destruct a; cbn; intuition.
Qed.

Lemma order_wf_moved o st kwargs now :
  order_wf o = true → forallb attr_valid kwargs = true → dt_valid now = true →
  order_wf (moved o st kwargs now) = true.
Proof.
  intros Ho Hk Hn. unfold moved.
  assert (Hf : order_wf (fold_left set_attr kwargs (with_status st o)) = true).
  { apply fold_left_inv with (I := λ o, order_wf o = true); [|done].
    intros acc a Ha Hacc. apply order_wf_set_attr; [done|].
    by eapply forallb_forall in Hk. }
  revert Hf. generalize (fold_left set_attr kwargs (with_status st o)). intros o'.
  unfold order_wf. rewrite !andb_true_iff. cbn. intuition.
Qed.

Lemma status_set_attrs kwargs o : status (fold_left set_attr kwargs o) = status o.
Proof. revert o. induction kwargs as [|a k IH]; intros o; simpl; [done|]. by rewrite IH. Qed.

Lemma id_set_attrs kwargs o : id (fold_left set_attr kwargs o) = id o.
Proof. revert o. induction kwargs as [|a k IH]; intros o; simpl; [done|]. by rewrite IH. Qed.

Lemma status_moved o st kwargs now : status (moved o st kwargs now) = st.
Proof. unfold moved. cbn. by rewrite status_set_attrs. Qed.

Lemma id_moved o st kwargs now : id (moved o st kwargs now) = id o.
Proof. unfold moved. cbn. by rewrite id_set_attrs. Qed.

Lemma to_dict_total o : order_wf o = true → ∃ d, to_dict o = Ok d ∧ vget d "id" = id o.
Proof. intros Ho. eexists. split; [by apply to_dict_wf|done]. Qed.

Lemma to_dict_nonempty o d : to_dict o = Ok d → d ≠ [].
Proof.
  unfold to_dict, mbind, res_bind. do 4 (destruct (iso_field _); [|discriminate]).
  by intros [= <-].
Qed.

Lemma stored_unique {W} (view : W → string → option vdict) w s o1 o2 :
  stored view w s o1 → stored view w s o2 → o1 = o2.
Proof.
  intros (H1 & d & Hd & Hv) (H2 & d' & Hd' & Hv'). rewrite Hv in Hv'. injection Hv' as <-.
  pose proof (hydrate_to_dict_run (W:=unit) (mret (DT 2026 1 1 0 0 0 0)) _ _ tt H1 Hd) as E1.
  pose proof (hydrate_to_dict_run (W:=unit) (mret (DT 2026 1 1 0 0 0 0)) _ _ tt H2 Hd') as E2.
  congruence.
Qed.

(** ** Facts under the interface *)

(** Execute the first call of a sequence by a fact about it. *)
Ltac step_by H := rewrite (bind_ok _ _ _ _ _ H); cbn beta.

Section Lawful.
Context {W CB : Type} `{EqDecision CB}.
Context (C : Connector W) (gate : RiskGate W) (R : OrderRepo W).
Context (utcnow : M W datetime) (call : CB → vdict → M W unit).
Context (view : W → string → option vdict) (overwrites : bool).
Context {Laws : RepoLaws R view overwrites} {QE : QuietEnv view utcnow call}.

(** The row of [s], seen from the engine's state. *)
Definition row_is (s : string) (v : option vdict) (ew : ExecEngine CB * W) : Prop :=
  view ew.2 s = v.

Lemma quiet_row {A} (m : M W A) s v : quiet view m → preserves (row_is s v) (zoom_r m).
Proof. intros Hm. apply (preserves_world_r (λ w, view w s = v)). intros w Hw. by rewrite (Hm w s). Qed.

Lemma hydrate_quiet d : quiet view (hydrate utcnow d).
Proof.
  intros w s. change (view (hydrate utcnow d w).2 s) with ((λ v, v) (view (hydrate utcnow d w).2 s)).
  assert (Hp : preserves (λ w', view w' s = view w s) (hydrate utcnow d)).
  { assert (preserves (λ w', view w' s = view w s) utcnow).
    { intros w' Hw. by rewrite (clock_quiet w' s). }
    unfold hydrate, stamp_field. solve_pres. }
  by apply Hp.
Qed.

Lemma get_quiet i : quiet view (repo_get_order R i).
Proof. intros w s. by rewrite law_get_any. Qed.

Lemma emit_row event d s v : preserves (row_is s v) (emit call event d).
Proof.
  unfold emit. apply preserves_bind; [apply preserves_gets|]. intros cbs.
  apply preserves_for_each. intros cb. apply preserves_try; [|intros; apply preserves_ret].
  apply quiet_row, call_quiet.
Qed.

(** An event is delivered without an exception, whatever the callbacks do. *)
Lemma emit_run event d e w :
  ∃ w', emit call event d (e, w) = (Ok tt, (e, w')) ∧ ∀ s, view w' s = view w s.
Proof.
  unfold emit. rewrite (bind_ok _ _ _ (default [] (dget (callbacks e) event)) (e, w)) by done.
  generalize (default [] (dget (callbacks e) event)). intros cbs.
  revert w. induction cbs as [|cb cbs IH]; intros w; [by exists w|]. simpl for_each.
  assert (Hc : ∃ w1, try_except (zoom_r (call cb d)) (λ _, mret tt) (e, w) = (Ok tt, (e, w1)) ∧
                     ∀ s, view w1 s = view w s).
  { unfold try_except, zoom_r. pose proof (call_quiet cb d w) as Hq.
    pose proof (call_no_cancel cb d w) as Hn.
    destruct (call cb d w) as [[[]|x] w1]; [by exists w1|].
    rewrite (Hn x w1 eq_refl). by exists w1. }
  destruct Hc as (w1 & Hc & Hv). step_by Hc. destruct (IH w1) as (w' & -> & Hv').
  exists w'. split; [done|]. intros s. by rewrite Hv'.
Qed.

Lemma get_order_row i s v : preserves (row_is s v) (get_order (CB:=CB) R utcnow i).
Proof.
  unfold get_order. apply preserves_bind; [apply quiet_row, get_quiet|].
  intros [[|kv d]|]; [apply preserves_ret| |apply preserves_ret].
  apply preserves_bind; [apply quiet_row, hydrate_quiet|]. intros. apply preserves_ret.
Qed.

Lemma get_order_stored s o (e : ExecEngine CB) w :
  stored view w s o → get_order R utcnow (VStr s) (e, w) = (Ok (Some o), (e, w)).
Proof.
  intros (Hwf & d & Hd & Hv). unfold get_order.
  rewrite (bind_ok _ _ _ (Some d) (e, w)) by (apply zoom_r_run; by rewrite law_get, Hv).
  pose proof (to_dict_nonempty _ _ Hd). destruct d as [|kv d]; [done|].
  by rewrite (bind_ok _ _ _ o (e, w)) by (by apply zoom_r_run, hydrate_to_dict_run).
Qed.

Lemma get_order_missing s (e : ExecEngine CB) w :
  view w s = None → get_order R utcnow (VStr s) (e, w) = (Ok None, (e, w)).
Proof.
  intros Hv. unfold get_order.
  by rewrite (bind_ok _ _ _ None (e, w)) by (apply zoom_r_run; by rewrite law_get, Hv).
Qed.

(** An accepted update, run to its end. *)
Lemma update_accepted s st kwargs o e w :
  stored view w s o → transition_ok (status o) st = true → forallb attr_valid kwargs = true →
  ∃ now w', update_order_status R utcnow call (VStr s) st kwargs (e, w) = (Ok tt, (e, w')) ∧
            dt_valid now = true ∧ stored view w' s (moved o st kwargs now).
Proof.
  intros Hs Ht Hk. destruct (clock_reads w) as (now & w1 & Hnow & Hval).
  pose proof (order_wf_moved o st kwargs now (proj1 Hs) Hk Hval) as Hwf.
  destruct (to_dict_total _ Hwf) as (d & Hd & _).
  destruct law_update as (upd & Hupd & Hu & _). destruct (Hu w1 s d) as (w2 & Hw2 & Hv2).
  destruct (emit_run "order_updated" d e w2) as (w3 & He3 & Hv3).
  exists now. unfold update_order_status. step_by (get_order_stored s o e w Hs). rewrite Ht. simpl.
  rewrite (bind_ok _ _ _ now (e, w1)) by (by apply zoom_r_run).
  fold (moved o st kwargs now). rewrite Hupd.
  rewrite (bind_ok _ _ _ tt (e, w2)).
  2:{ rewrite (bind_ok _ _ _ d (e, w1)) by (unfold lift_res; by rewrite Hd). by apply zoom_r_run. }
  rewrite (bind_ok _ _ _ d (e, w2)) by (unfold lift_res; by rewrite Hd).
  step_by He3.
  case_bool_decide; simpl when.
  - destruct (emit_run "order_rejected" d e w3) as (w4 & He4 & Hv4). exists w4.
    rewrite (bind_ok _ _ _ d (e, w3)) by (unfold lift_res; by rewrite Hd).
    split; [done|]. split; [done|]. split; [done|]. exists d. by rewrite Hv4, Hv3.
  - exists w3. split; [done|]. split; [done|]. split; [done|]. exists d. by rewrite Hv3.
Qed.

Lemma update_refused s st kwargs o e w :
  stored view w s o → transition_ok (status o) st = false →
  update_order_status R utcnow call (VStr s) st kwargs (e, w) =
    (Raise (transition_error (status o) st), (e, w)).
Proof.
  intros Hs Ht. unfold update_order_status. step_by (get_order_stored s o e w Hs). by rewrite Ht.
Qed.

Lemma update_missing s st kwargs e w :
  view w s = None →
  update_order_status R utcnow call (VStr s) st kwargs (e, w) =
    (Raise (ValueError "order not found"), (e, w)).
Proof. intros Hv. unfold update_order_status. by step_by (get_order_missing s e w Hv). Qed.

(** Updating one order leaves the rows of the others. *)
Lemma update_row i st kwargs s v :
  i ≠ VStr s → preserves (row_is s v) (update_order_status R utcnow call i st kwargs).
Proof.
  intros Hi. destruct law_update as (upd & Hupd & _ & Hother).
  assert (Hw : ∀ d, preserves (row_is s v) (zoom_r (S:=ExecEngine CB) (upd i d))).
  { intros d. apply (preserves_world_r (λ w, view w s = v)). intros w Hw. by rewrite (Hother w i d s Hi). }
  assert (He : ∀ ev d, preserves (row_is s v) (emit call ev d)) by (intros; apply emit_row).
  assert (Hc : preserves (row_is s v) (zoom_r (S:=ExecEngine CB) utcnow)) by apply quiet_row, clock_quiet.
  assert (Hg : preserves (row_is s v) (get_order R utcnow i)) by apply get_order_row.
  unfold update_order_status. rewrite Hupd. solve_pres.
Qed.

(** The row of [s] holds an order whose status a run of the machine reaches
    from [st0]. *)
Definition has_history (s : string) (st0 : OrderStatus) (ew : ExecEngine CB * W) : Prop :=
  ∃ o p, stored view ew.2 s o ∧ status_run st0 p (status o).

Lemma row_history {A} (m : M (ExecEngine CB * W) A) s st0 :
  (∀ v, preserves (row_is s v) m) → preserves (has_history s st0) m.
Proof.
  intros Hm ew (o & p & (Hwf & d & Hd & Hv) & Hr). exists o, p. split; [|done].
  split; [done|]. exists d. split; [done|]. by apply (Hm (Some d)).
Qed.

Lemma quiet_history {A} (m : M W A) s st0 :
  quiet view m → preserves (has_history s st0) (zoom_r m).
Proof. intros Hm. apply row_history. intros v. by apply quiet_row. Qed.

Lemma emit_history event d s st0 : preserves (has_history s st0) (emit call event d).
Proof. apply row_history. intros v. apply emit_row. Qed.

Lemma get_order_history i s st0 : preserves (has_history s st0) (get_order (CB:=CB) R utcnow i).
Proof. apply row_history. intros v. apply get_order_row. Qed.

Lemma update_history i st kwargs s st0 :
  forallb attr_valid kwargs = true →
  preserves (has_history s st0) (update_order_status R utcnow call i st kwargs).
Proof.
  intros Hk. destruct (str_or_not i s) as [->|Hi].
  2:{ apply row_history. intros v. by apply update_row. }
  intros [e w] (o & p & Hs & Hr). simpl in Hs.
  destruct (transition_ok (status o) st) eqn:Ht.
  - destruct (update_accepted s st kwargs o e w Hs Ht Hk) as (now & w' & -> & _ & Hs').
    destruct (transition_ok_cases _ _ Ht) as [Hst|Heq].
    + exists (moved o st kwargs now), (p ++ [st])%list. split; [done|].
      rewrite status_moved. by apply (status_run_snoc _ _ _ _ Hr).
    + exists (moved o st kwargs now), p. split; [done|]. by rewrite status_moved, Heq.
  - rewrite (update_refused s st kwargs o e w Hs Ht). by exists o, p.
Qed.
End Lawful.

#[export] Hint Resolve quiet_history emit_history get_order_history update_history
  account_quiet positions_quiet execute_quiet cancel_quiet gate_quiet clock_quiet : py_pres.

(** ** The engine as a whole *)

(** A request to the engine; results and exceptions are the caller's business. *)
Inductive ExecOp :=
| OpSubmit (order : Order)
| OpCancel (order_id : pyval)
| OpUpdate (order_id : pyval) (st : OrderStatus) (kwargs : list OrderAttr)
| OpGet (order_id : pyval).

Section Theorems.
Context {W CB : Type} `{EqDecision CB}.
Context (C : Connector W) (gate : RiskGate W) (R : OrderRepo W).
Context (utcnow : M W datetime) (call : CB → vdict → M W unit).
Context (view : W → string → option vdict).

Definition exec_op (op : ExecOp) : M (ExecEngine CB * W) unit :=
  match op with
  | OpSubmit o => _ ← submit_order C gate R utcnow call o; mret tt
  | OpCancel i => _ ← cancel_order C R utcnow call i; mret tt
  | OpUpdate i st k => update_order_status R utcnow call i st k
  | OpGet i => _ ← get_order R utcnow i; mret tt
  end.

(** The requests run one after the other, each from where the last one ended. *)
Definition exec_ops (ops : list ExecOp) (ew : ExecEngine CB * W) : ExecEngine CB * W :=
  fold_left (λ ew op, (exec_op op ew).2) ops ew.

Definition op_valid (op : ExecOp) : bool :=
  match op with OpUpdate _ _ k => forallb attr_valid k | _ => true end.

Context {QE : QuietEnv view utcnow call} {QP : QuietPeers view C gate}.

Lemma clock_bind {A} (k : datetime → M (ExecEngine CB * W) A) s st0 :
  (∀ t, dt_valid t = true → preserves (has_history view s st0) (k t)) →
  preserves (has_history view s st0) (zoom_r utcnow ≫= k).
Proof.
  intros Hk [e w] Hw. destruct (clock_reads w) as (t & w' & Ht & Hv).
  rewrite (bind_ok _ _ _ t (e, w')) by (by apply zoom_r_run). apply (Hk t Hv).
  pose proof (quiet_history view utcnow s st0 clock_quiet (e, w) Hw) as H.
  by rewrite (zoom_r_run _ _ _ _ _ Ht) in H.
Qed.

Lemma save_history `{!RepoLaws R view false} d s st0 :
  preserves (has_history (CB:=CB) view s st0) (zoom_r (repo_save_order R d)).
Proof.
  intros [e w] (o & p & (Hwf & d' & Hd & Hv) & Hr). exists o, p. split; [|done]. split; [done|].
  exists d'. split; [done|]. simpl in *. destruct (str_or_not (vget d "id") s) as [Heq|Hne].
  - destruct (law_save w s d) as (w' & -> & Hw'); [by rewrite Hv|done|]. simpl. congruence.
  - pose proof (law_save_other w s d) as Hother. destruct (repo_save_order R d w) as [r w']. simpl in *.
    rewrite <- Hv. apply Hother; [by rewrite Hv|done].
Qed.

Ltac solve_hist :=
  repeat first
    [ progress intros
    | solve [eauto 2 with py_pres]
    | apply clock_bind
    | apply (quiet_history (CB:=CB));
      solve [apply account_quiet|apply positions_quiet|apply execute_quiet|apply cancel_quiet|apply gate_quiet]
    | apply (get_order_history R utcnow call view false)
    | apply (update_history R utcnow call view false);
      simpl; repeat match goal with H : dt_valid _ = true |- _ => rewrite H end; reflexivity
    | apply preserves_bind
    | apply preserves_when
    | match goal with
      | |- preserves _ (match ?x with _ => _ end) => destruct x
      end ].

Lemma submit_history `{!RepoLaws R view false} o s st0 :
  preserves (has_history view s st0) (submit_order C gate R utcnow call o).
Proof.
  pose proof (λ d, save_history d s st0) as Hsave.
  unfold submit_order, place, settle, advance. solve_hist.
Qed.

Lemma cancel_history `{!RepoLaws R view false} i s st0 :
  preserves (has_history view s st0) (cancel_order C R utcnow call i).
Proof. unfold cancel_order. solve_hist. Qed.

(** C1. Whatever requests reach the engine, and whether they return or raise,
    the status of a stored order only ever moves along VALID_TRANSITIONS: with a
    repository that keeps the row it already has on save, the order stored under
    an id after any sequence of requests is reached from the one stored before by
    a run of the status machine. *)
Theorem stored_orders_follow_the_machine `{!RepoLaws R view false} ops s o e w :
  forallb op_valid ops = true → stored view w s o →
  ∃ o' p, stored view (exec_ops ops (e, w)).2 s o' ∧ status_run (status o) p (status o').
Proof.
  intros Hok Hs.
  assert (Hi : has_history view s (status o) (exec_ops ops (e, w))); [|exact Hi].
  apply fold_left_inv with (I := has_history view s (status o)).
  - intros ew op Hin Hew. eapply forallb_forall in Hok; [|exact Hin].
    assert (Hp : preserves (has_history view s (status o)) (exec_op op)); [|by apply Hp].
    destruct op; unfold exec_op.
    + apply preserves_bind; [apply submit_history|intros; apply preserves_ret].
    + apply preserves_bind; [apply cancel_history|intros; apply preserves_ret].
    + by apply (update_history R utcnow call view false).
    + apply preserves_bind; [by apply (get_order_history R utcnow call view false)|intros; apply preserves_ret].
  - exists o, []. split; [done|constructor].
Qed.
End Theorems.

(** ** What one request does *)

Section Outcomes.
Context {W CB : Type} `{EqDecision CB}.
Context (C : Connector W) (gate : RiskGate W) (R : OrderRepo W).
Context (utcnow : M W datetime) (call : CB → vdict → M W unit).
Context (view : W → string → option vdict) (overwrites : bool).
Context {Laws : RepoLaws R view overwrites} {QE : QuietEnv view utcnow call}.

(** [update_order_status] on every branch: of an unknown order it raises
    ValueError, of a forbidden transition it raises ValueError and changes
    nothing, and otherwise it stores the order with the new status, the given
    fields and a fresh updated_at, touching no other order. *)
Theorem update_order_status_outcome s st kwargs e w :
  forallb attr_valid kwargs = true →
  let out := update_order_status R utcnow call (VStr s) st kwargs (e, w) in
  (view w s = None → out = (Raise (ValueError "order not found"), (e, w))) ∧
  (∀ o, stored view w s o →
     if transition_ok (status o) st then
       ∃ now w', out = (Ok tt, (e, w')) ∧ stored view w' s (moved o st kwargs now) ∧
                 ∀ s', s' ≠ s → view w' s' = view w s'
     else out = (Raise (transition_error (status o) st), (e, w))).
Proof.
  intros Hk out. split; [by apply (update_missing R utcnow call view overwrites)|]. intros o Hs.
  destruct (transition_ok (status o) st) eqn:Ht.
  - destruct (update_accepted R utcnow call view overwrites s st kwargs o e w Hs Ht Hk)
      as (now & w' & Hout & _ & Hs').
    exists now, w'. split; [done|]. split; [done|]. intros s' Hne.
    pose proof (update_row R utcnow call view overwrites (VStr s) st kwargs s' (view w s')
      ltac:(congruence) (e, w) eq_refl) as Hrow.
    by rewrite Hout in Hrow.
  - by apply (update_refused R utcnow call view overwrites).
Qed.

Lemma zoom_answer {A} (m : M W A) v (e : ExecEngine CB) w :
  answers m v → quiet view m →
  ∃ w', zoom_r m (e, w) = (Ok v, (e, w')) ∧ ∀ s, view w' s = view w s.
Proof.
  intros Ha Hq. destruct (Ha w) as (w' & Hw). exists w'. split; [by apply zoom_r_run|].
  intros s. pose proof (Hq w s) as Hs. by rewrite Hw in Hs.
Qed.

Lemma stored_ext w w' s o : (∀ s, view w' s = view w s) → stored view w s o → stored view w' s o.
Proof. intros Hv (Hwf & d & Hd & Hr). split; [done|]. exists d. by rewrite Hv. Qed.

Context {QP : QuietPeers view C gate}.
Context (ai : vdict) (ps : list vdict) (a : TradeApproval) (resp : vdict).
Context (account_answers : answers (get_account_info C) ai)
        (positions_answer : ∀ y, answers (get_positions C y) ps)
        (gate_answers : ∀ d, answers (gate d ai ps) a)
        (broker_answers : ∀ d, answers (execute_order C d) resp).

(** Up to the approval. *)
Lemma submit_to_gate s o e w :
  status o = PENDING → fle (quantity o) f0 = false → id o = VStr s → stored view w s o →
  ∃ w', stored view w' s o ∧
    submit_order C gate R utcnow call o (e, w) =
    (if negb (approved a) then
       update_order_status R utcnow call (VStr s) REJECTED [Rejection_reason (opt_str (reason a))] ;;
       mret o
     else place C R utcnow call o : M (ExecEngine CB * W) Order) (e, w').
Proof.
  intros Hst Hq Hid Hs. destruct (to_dict_total o (proj1 Hs)) as (d & Hd & _).
  destruct (zoom_answer _ ai e w account_answers account_quiet) as (w1 & H1 & V1).
  destruct (zoom_answer _ ps e w1 (positions_answer (symbol o)) (positions_quiet _)) as (w2 & H2 & V2).
  destruct (zoom_answer _ a e w2 (gate_answers d) (gate_quiet _ _ _)) as (w3 & H3 & V3).
  exists w3. split.
  { eapply stored_ext; [exact V3|]. eapply stored_ext; [exact V2|]. by eapply stored_ext. }
  unfold submit_order. rewrite Hst, Hq. cbn [negb bool_decide decide_rel]. simpl.
  step_by H1. step_by H2. rewrite (bind_ok _ _ _ d (e, w2)) by (unfold lift_res; by rewrite Hd).
  step_by H3. by rewrite Hid.
Qed.

(** The status of the row once the order is saved again. *)
Definition saved_status : OrderStatus := if overwrites then PENDING else VALIDATED.

(** From the approval to the broker's answer. *)
Lemma place_to_settle s o e w :
  status o = PENDING → id o = VStr s → stored view w s o →
  ∃ o1 w', stored view w' s o1 ∧ status o1 = saved_status ∧
    place C R utcnow call o (e, w) = settle R utcnow call o resp (e, w').
Proof.
  intros Hst Hid Hs. destruct (to_dict_total o (proj1 Hs)) as (d & Hd & Hdid).
  destruct (update_accepted R utcnow call view overwrites s VALIDATED [] o e w Hs) as (now & w1 & H1 & Hn & Hs1);
    [by rewrite Hst|done|].
  assert (His : is_Some (view w1 s)) by (destruct Hs1 as (_ & d1 & _ & ->); by eexists).
  destruct (law_save w1 s d His) as (w2 & H2 & V2); [by rewrite Hdid|].
  destruct (emit_run utcnow call view "order_created" d e w2) as (w3 & H3 & V3).
  destruct (zoom_answer _ resp e w3 (broker_answers d) (execute_quiet d)) as (w4 & H4 & V4).
  exists (if overwrites then o else moved o VALIDATED [] now), w4. split; [|split].
  - eapply stored_ext; [exact V4|]. eapply stored_ext; [exact V3|].
    destruct overwrites; [split; [apply (proj1 Hs)|by exists d]|].
    destruct Hs1 as (Hwf & d1 & Hd1 & Hv1). split; [done|]. exists d1. by rewrite V2.
  - unfold saved_status. destruct overwrites; [done|apply status_moved].
  - unfold place. rewrite Hid. step_by H1.
    do 3 first [rewrite (bind_ok _ _ _ d (e, w1)) by (unfold lift_res; by rewrite Hd)
      |rewrite (bind_ok _ _ _ tt (e, w2)) by (by apply zoom_r_run)
      |rewrite (bind_ok _ _ _ d (e, w2)) by (unfold lift_res; by rewrite Hd)].
    step_by H3. rewrite (bind_ok _ _ _ d (e, w3)) by (unfold lift_res; by rewrite Hd).
    by step_by H4.
Qed.

(** A refused order: what is stored, and what the caller gets back. *)
Lemma refuse_run s o why o1 e w :
  stored view w s o1 → transition_ok (status o1) REJECTED = true →
  ∃ now w',
    (update_order_status R utcnow call (VStr s) REJECTED [Rejection_reason why] ;; mret o
       : M (ExecEngine CB * W) Order) (e, w) =
      (Ok o, (e, w')) ∧ stored view w' s (moved o1 REJECTED [Rejection_reason why] now).
Proof.
  intros Hs Ht.
  destruct (update_accepted R utcnow call view overwrites s REJECTED [Rejection_reason why] o1 e w Hs Ht eq_refl)
    as (now & w' & H1 & _ & Hs').
  exists now, w'. split; [|done]. by step_by H1.
Qed.

Lemma clock_run (e : ExecEngine CB) w :
  ∃ t w', zoom_r utcnow (e, w) = (Ok t, (e, w')) ∧ dt_valid t = true ∧
          ∀ s o, stored view w s o → stored view w' s o.
Proof.
  destruct (clock_reads w) as (t & w' & Ht & Hv). exists t, w'.
  split; [by apply zoom_r_run|]. split; [done|]. intros s o. apply stored_ext.
  intros s'. pose proof (clock_quiet w s') as Hq. by rewrite Ht in Hq.
Qed.

(** An accepted order moves to SUBMITTED, and with a deal to FILLED. *)
Lemma advance_run s o o1 result deal e w :
  id o = VStr s → order_wf o = true → stored view w s o1 → status o1 = VALIDATED →
  result_get result "deal" VNone = Ok deal →
  ∃ o2 w', advance R utcnow call o result (e, w) = (Ok tt, (e, w')) ∧ stored view w' s o2 ∧
    status o2 = (if truthy deal then FILLED else SUBMITTED) ∧
    (truthy deal = true → filled_quantity o2 = quantity o).
Proof.
  intros Hid Hwf Hs Hst Hdeal. destruct (to_dict_total o Hwf) as (d & Hd & _).
  destruct (clock_run e w) as (t1 & w1 & Ht1 & Hv1 & Hs1).
  destruct (update_accepted R utcnow call view overwrites s SUBMITTED [Opened_at t1] o1 e w1 (Hs1 _ _ Hs))
    as (now & w2 & H2 & _ & Hs2); [by rewrite Hst|simpl; by rewrite Hv1|].
  unfold advance. rewrite Hid. step_by Ht1. step_by H2.
  rewrite (bind_ok _ _ _ deal (e, w2)) by (unfold lift_res; by rewrite Hdeal).
  destruct (truthy deal); simpl when.
  2:{ exists (moved o1 SUBMITTED [Opened_at t1] now), w2. split; [done|]. by rewrite status_moved. }
  destruct (clock_run e w2) as (t2 & w3 & Ht3 & Hv3 & Hs3). apply Hs3 in Hs2.
  destruct (update_accepted R utcnow call view overwrites s FILLED [Filled_quantity (quantity o); Closed_at t2]
    _ e w3 Hs2) as (now' & w4 & H4 & _ & Hs4); [by rewrite status_moved|simpl; by rewrite Hv3|].
  destruct (emit_run utcnow call view "order_filled" d e w4) as (w5 & H5 & V5).
  eexists _, w5. split; [|split; [eapply stored_ext; [exact V5|exact Hs4]|]].
  - step_by Ht3. step_by H4. by rewrite (bind_ok _ _ _ d (e, w4)) by (unfold lift_res; by rewrite Hd).
  - by rewrite status_moved.
Qed.

(** The broker's answer, read: refused, or accepted with its retcode and deal. *)
Inductive BrokerAnswer :=
| Refused (error : pyval)
| Accepted (retcode : Z) (deal : pyval).

Definition broker_says (v : BrokerAnswer) : Prop :=
  match v with
  | Refused err => truthy (vget resp "ok") = false ∧ err = vget_or resp "error" (VStr "broker rejected")
  | Accepted n deal =>
      truthy (vget resp "ok") = true ∧
      let result := vget_or resp "result" (VDict []) in
      (∃ rc, result_get result "retcode" (VInt 0) = Ok rc ∧ py_int rc = Ok n) ∧
      result_get result "deal" VNone = Ok deal
  end.

Lemma settle_read n deal o e w :
  broker_says (Accepted n deal) →
  settle R utcnow call o resp (e, w) =
  (when (negb (n =? 0)%Z) (advance R utcnow call o (vget_or resp "result" (VDict []))) ;; mret o
     : M (ExecEngine CB * W) Order) (e, w).
Proof.
  intros (Hok & (rc & Hrc & Hn) & _). unfold settle. rewrite Hok. cbn [negb]. cbv zeta.
  by rewrite (bind_ok _ _ _ n (e, w)) by (unfold lift_res; rewrite Hrc; by rewrite <- Hn).
Qed.

(** What [submit_order] leaves in the table when a second save keeps the row. *)
Definition final_status (v : BrokerAnswer) : OrderStatus :=
  if negb (approved a) then REJECTED
  else match v with
       | Refused _ => REJECTED
       | Accepted n deal => if (n =? 0)%Z then VALIDATED else if truthy deal then FILLED else SUBMITTED
       end.

Definition final_reason (v : BrokerAnswer) (o : Order) : pyval :=
  if negb (approved a) then opt_str (reason a)
  else match v with Refused err => err | Accepted _ _ => rejection_reason o end.
End Outcomes.

Section Submission.
Context {W CB : Type} `{EqDecision CB}.
Context (C : Connector W) (gate : RiskGate W) (R : OrderRepo W).
Context (utcnow : M W datetime) (call : CB → vdict → M W unit).
Context (view : W → string → option vdict).
Context {QE : QuietEnv view utcnow call} {QP : QuietPeers view C gate}.

(** The surroundings answer the same way whenever they are asked. *)
Record Peers (ai : vdict) (ps : list vdict) (a : TradeApproval) (resp : vdict) : Prop := {
  account_answers : answers (get_account_info C) ai;
  positions_answer y : answers (get_positions C y) ps;
  gate_answers d : answers (gate d ai ps) a;
  broker_answers d : answers (execute_order C d) resp
}.


(** With a repository whose [save_order] writes the row it is given (the
    in-memory repositories of the tests), the second save puts the caller's
    PENDING order back over the VALIDATED row, and the submission of every order
    the broker has accepted ends in ValueError, with the row still PENDING. *)
Theorem overwriting_save_loses_the_order `{!RepoLaws R view true} ai ps a resp n deal s o e w :
  Peers ai ps a resp → broker_says resp (Accepted n deal) → approved a = true → n ≠ 0%Z →
  status o = PENDING → fle (quantity o) f0 = false → id o = VStr s → stored view w s o →
  ∃ w' o', submit_order C gate R utcnow call o (e, w) =
             (Raise (transition_error PENDING SUBMITTED), (e, w')) ∧
           stored view w' s o' ∧ status o' = PENDING.
Proof.
  intros [Ha Hp Hg Hb] Hv Eok Hn Hst Hq Hid Hs.
  destruct (submit_to_gate C gate R utcnow call view ai ps a Ha Hp Hg s o e w Hst Hq Hid Hs) as (w1 & Hs1 & ->).
  rewrite Eok. cbn [negb].
  destruct (place_to_settle C gate R utcnow call view true resp Hb s o e w1 Hst Hid Hs1)
    as (o1 & w2 & Hs2 & Hst2 & ->).
  rewrite (settle_read R utcnow call resp n deal o e w2 Hv), (proj2 (Z.eqb_neq n 0) Hn). simpl when.
  destruct (clock_run utcnow call view e w2) as (t & w3 & Ht & Hval & Hs3). exists w3, o1. split; [|by split; [apply Hs3|]].
  apply bind_raise. unfold advance. step_by Ht. apply bind_raise. rewrite Hid.
  pose proof (update_refused R utcnow call view true s SUBMITTED [Opened_at t] o1 e w3 (Hs3 _ _ Hs2)) as Hr.
  rewrite Hst2 in Hr. by apply Hr.
Qed.
End Submission.

(** ** When the broker is asked *)

Definition with_execute {W} (C : Connector W) (x : vdict → M W vdict) : Connector W :=
  {| get_account_info := get_account_info C; get_positions := get_positions C;
     execute_order := x; connector_cancel_order := connector_cancel_order C |}.

Section Broker.
Context {W CB : Type} `{EqDecision CB}.
Context (C : Connector W) (gate : RiskGate W) (R : OrderRepo W).
Context (utcnow : M W datetime) (call : CB → vdict → M W unit).

(** What a submission does up to the gate does not involve [execute_order]. *)
Lemma submit_same_unless_approved (I : W → Prop) x1 x2 o e w :
  preserves I (get_account_info C) → (∀ y, preserves I (get_positions C y)) →
  (∀ d ai ps w a w', I w → gate d ai ps w = (Ok a, w') → approved a = false) ∨
    status o ≠ PENDING ∨ fle (quantity o) f0 = true →
  I w →
  submit_order (with_execute C x1) gate R utcnow call o (e, w) =
  submit_order (with_execute C x2) gate R utcnow call o (e, w).
Proof.
  intros Ha Hp Hno Hw. unfold submit_order, with_execute. cbn [get_account_info get_positions].
  destruct (bool_decide (status o = PENDING)) eqn:Hst; cbn [negb]; [|done].
  destruct (fle (quantity o) f0) eqn:Hq; [done|].
  destruct Hno as [Hno|[Hne| ]]; [|by apply bool_decide_eq_true in Hst|done].
  unfold mbind, M_bind, zoom_r. specialize (Ha w Hw).
  destruct (get_account_info C w) as [[ai|x] w1]; [|done].
  specialize (Hp (symbol o) w1 Ha). destruct (get_positions C (symbol o) w1) as [[ps|x] w2]; [|done].
  unfold lift_res. destruct (to_dict o) as [d|x]; [|done].
  destruct (gate d ai ps w2) as [[a|x] w3] eqn:Hg; [|done].
  by rewrite (Hno _ _ _ _ _ _ Hp Hg).
Qed.

(** No order reaches the broker unless it is pending, has a positive
    quantity and was approved: when one of the three fails, a submission does
    exactly the same whatever [execute_order] would do, so it never calls it. *)
Theorem no_broker_without_approval (I : W → Prop) x1 x2 o e w :
  preserves I (get_account_info C) → (∀ y, preserves I (get_positions C y)) →
  (∀ d ai ps w a w', I w → gate d ai ps w = (Ok a, w') → approved a = false) ∨
    status o ≠ PENDING ∨ fle (quantity o) f0 = true →
  I w →
  submit_order (with_execute C x1) gate R utcnow call o (e, w) =
  submit_order (with_execute C x2) gate R utcnow call o (e, w).
Proof. apply submit_same_unless_approved. Qed.
End Broker.

Section Cancel.
Context {W CB : Type} `{EqDecision CB}.
Context (C : Connector W) (gate : RiskGate W) (R : OrderRepo W).
Context (utcnow : M W datetime) (call : CB → vdict → M W unit).
Context (view : W → string → option vdict) (overwrites : bool).
Context {Laws : RepoLaws R view overwrites} {QE : QuietEnv view utcnow call}
        {QP : QuietPeers view C gate}.

Lemma cancelable_transition s : cancelable s = true → transition_ok s CANCELED = true.
Proof. by destruct s. Qed.

(** [cancel_order] on every branch: an unknown or finished order is refused
    with False and without asking the broker; otherwise the answer is the
    broker's, an exception of the broker included, the row becomes CANCELED when
    it is True and stays as it was when it is not. *)
Theorem cancel_order_outcome s e w :
  let out := cancel_order C R utcnow call (VStr s) (e, w) in
  (view w s = None → out = (Ok false, (e, w))) ∧
  (∀ o, stored view w s o →
     if cancelable (status o) then
       match connector_cancel_order C (VStr s) w with
       | (Ok true, _) => ∃ now w', out = (Ok true, (e, w')) ∧ stored view w' s (moved o CANCELED [] now)
       | (Ok false, w') => out = (Ok false, (e, w')) ∧ stored view w' s o
       | (Raise x, w') => out = (Raise x, (e, w')) ∧ stored view w' s o
       end
     else out = (Ok false, (e, w))).
Proof.
  intros out. unfold out, cancel_order. split.
  - intros Hv. by step_by (get_order_missing R utcnow view overwrites s e w Hv).
  - intros o Hs. step_by (get_order_stored R utcnow view overwrites s o e w Hs).
    destruct (cancelable (status o)) eqn:Hc; cbn [negb]; [|done].
    pose proof (cancel_quiet (VStr s) w) as Hq.
    destruct (connector_cancel_order C (VStr s) w) as [[[]|x] w1] eqn:Hb; simpl in Hq.
    + pose proof (stored_ext view w w1 s o Hq Hs) as Hs1.
      destruct (update_accepted R utcnow call view overwrites s CANCELED [] o e w1 Hs1)
        as (now & w2 & H2 & _ & Hs2); [by apply cancelable_transition|done|].
      destruct (to_dict_total o (proj1 Hs)) as (d & Hd & _).
      destruct (emit_run utcnow call view "order_canceled" d e w2) as (w3 & H3 & V3).
      exists now, w3. split; [|by apply (stored_ext view w2)].
      rewrite (bind_ok _ _ _ true (e, w1)) by (by apply zoom_r_run).
      rewrite (bind_ok _ _ _ tt (e, w3)); [done|]. simpl when. step_by H2.
      rewrite (bind_ok _ _ _ d (e, w2)) by (unfold lift_res; by rewrite Hd). done.
    + split; [|by apply (stored_ext view w)]. by rewrite (bind_ok _ _ _ false (e, w1)) by (by apply zoom_r_run).
    + split; [|by apply (stored_ext view w)]. apply bind_raise. by apply zoom_r_run.
Qed.
End Cancel.

(** ** Events *)

Section Events.
Context {W CB : Type} `{EqDecision CB} (call : CB → vdict → M W unit).

(** The callbacks registered for an event. *)
Definition registered (e : ExecEngine CB) (event : string) : list CB :=
  default [] (dget (callbacks e) event).

(** Delivery: when no callback is cancelled, [_emit] returns, and the world
    it leaves is the one where every callback registered for the event, and no
    other, was called with the payload, in turn, the failing ones included.
    [on] registers a callback once however often it is called, and [off] undoes
    it; neither changes another event's callbacks. *)
Theorem every_callback_is_called event d e w cb :
  (∀ cb w x w', call cb d w = (Raise x, w') → is_Exception x = true) →
  emit call event d (e, w) =
    (Ok tt, (e, fold_left (λ w cb, (call cb d w).2) (registered e event) w)) ∧
  (List.NoDup (registered e event) →
   let e1 := (on event cb (e, w)).2.1 in
   let e2 := (off event cb (e, w)).2.1 in
   List.NoDup (registered e1 event) ∧ In cb (registered e1 event) ∧
   ¬ In cb (registered e2 event) ∧
   (∀ c, c ≠ cb → (In c (registered e1 event) ↔ In c (registered e event)) ∧
                  (In c (registered e2 event) ↔ In c (registered e event))) ∧
   (∀ ev, ev ≠ event → registered e1 ev = registered e ev ∧ registered e2 ev = registered e ev)).
Proof.
  intros Hx. split.
  - unfold emit. rewrite (bind_ok _ _ _ (registered e event) (e, w)) by done.
    generalize (registered e event) as cbs. intros cbs. revert w.
    induction cbs as [|c cbs IH]; intros w; [done|]. simpl for_each.
    rewrite (bind_ok _ _ _ tt (e, (call c d w).2)); [apply IH|].
    unfold try_except, zoom_r. destruct (call c d w) as [[[]|x] w'] eqn:E; [done|].
    by rewrite (Hx _ _ _ _ E).
  - intros Hnd. unfold on, off, modify, registered in *. simpl.
    set (cbs := default [] (dget (callbacks e) event)) in *.
    assert (Hon : List.NoDup (if bool_decide (cb ∈ cbs) then cbs else cbs ++ [cb])%list ∧
      In cb (if bool_decide (cb ∈ cbs) then cbs else cbs ++ [cb])%list ∧
      ∀ c, c ≠ cb → (In c (if bool_decide (cb ∈ cbs) then cbs else cbs ++ [cb])%list ↔ In c cbs)).
    { case_bool_decide as Hin; rewrite list_elem_of_In in Hin; [done|].
      split; [by apply NoDup_snoc|]. setoid_rewrite in_app_iff. simpl.
      split; [tauto|]. intros c Hne. split; [|tauto]. by intros [?|[->|[]]]. }
    destruct Hon as (Hon1 & Hon2 & Hon3).
    assert (Hoff : default [] (dget (callbacks
        (match dget (callbacks e) event with
         | Some cbs => ({| callbacks := dset (callbacks e) event
              (List.filter (λ c, negb (bool_decide (c = cb))) cbs) |}, w)
         | None => (e, w) end).1) event) = List.filter (λ c, negb (bool_decide (c = cb))) cbs).
    { unfold cbs. destruct (dget (callbacks e) event) eqn:E; simpl; [by rewrite dget_dset_eq|by rewrite E]. }
    rewrite Hoff, dget_dset_eq. simpl. split; [done|]. split; [done|].
    setoid_rewrite filter_In. setoid_rewrite negb_true_iff. setoid_rewrite bool_decide_eq_false.
    split; [tauto|]. split.
    + intros c Hne. split; [by apply Hon3|tauto].
    + intros ev Hne. rewrite dget_dset_ne by done. split; [done|].
      destruct (dget (callbacks e) event); simpl; [by rewrite dget_dset_ne|done].
Qed.
End Events.

(** ** An in-memory repository

    The repository of the tests: a dictionary of rows.  [overwrites = true] is
    its [save_order]; with [false] it keeps a row it already has, as
    [PostgresRepository.save_order] does. *)

Abbreviation Table := (dict string vdict).

Definition mem_save (overwrites : bool) (d : vdict) : M Table unit :=
  match vget d "id" with
  | VStr s => modify (λ t, if overwrites || negb (dmem t s) then dset t s d else t)
  | _ => raise (TypeError "unhashable")
  end.

Definition mem_update (i : pyval) (d : vdict) : M Table unit :=
  match i with
  | VStr s => modify (λ t, dset t s d)
  | _ => raise (TypeError "unhashable")
  end.

Definition mem_repo (overwrites : bool) : OrderRepo Table := {|
  repo_save_order := mem_save overwrites;
  repo_get_order i := λ t, (Ok (match i with VStr s => dget t s | _ => None end), t);
  repo_update_order := Some mem_update;
  repo_get_orders := None
|}.

#[export] Instance mem_repo_laws b : RepoLaws (mem_repo b) dget b.
Proof.
  split; simpl.
  - done.
  - done.
  - exists mem_update. split; [done|]. split.
    + intros t s d. eexists. split; [done|]. apply dget_dset_eq.
    + intros t i d s Hne. destruct i; try done. simpl. apply dget_dset_ne. congruence.
  - intros t s d [r Hr] Hid. unfold mem_save. rewrite Hid. eexists. split; [done|].
    unfold dmem. rewrite Hr. destruct b; simpl; [apply dget_dset_eq|done].
  - intros t s d [r Hr] Hid. unfold mem_save. destruct (vget d "id"); try done. simpl.
    destruct (b || _); [|done]. apply dget_dset_ne. congruence.
Qed.

(** Peers that answer without touching the table. *)
Definition demo_connector (resp : vdict) (ok : bool) : Connector Table := {|
  get_account_info := mret [("balance", VInt 10000); ("equity", VInt 10000)];
  get_positions _ := mret [];
  execute_order _ := mret resp;
  connector_cancel_order _ := mret ok
|}.

Definition demo_gate (a : TradeApproval) : RiskGate Table := λ _ _ _, mret a.
Definition demo_clock : M Table datetime := mret demo_date.
Definition demo_call (cb : nat) (d : vdict) : M Table unit :=
  if Nat.even cb then mret tt else raise (RuntimeError "callback").

#[export] Instance demo_quiet_env : QuietEnv dget demo_clock demo_call.
Proof.
  split.
  - intros w. by exists demo_date, w.
  - done.
  - intros cb d w s. unfold demo_call. by destruct (Nat.even cb).
  - intros cb d w x w'. unfold demo_call. destruct (Nat.even cb); [done|]. by intros [= <- <-].
Qed.

#[export] Instance demo_quiet_peers resp ok a : QuietPeers dget (demo_connector resp ok) (demo_gate a).
Proof. by split. Qed.

(** The answers of the tests' broker. *)
Definition demo_resp : vdict :=
  [("ok", VBool true); ("result", VDict [("retcode", VInt 10010); ("deal", VInt 1)])].

Definition demo_peers : Peers (demo_connector demo_resp true) (demo_gate approve)
  [("balance", VInt 10000); ("equity", VInt 10000)] [] approve demo_resp.
Proof. split; by eexists. Defined.

Definition demo_row : vdict := match to_dict demo_order with Ok d => d | Raise _ => [] end.
Definition demo_table : Table := [("o-1", demo_row)].

Lemma demo_stored : stored dget demo_table "o-1" demo_order.
Proof. split; [reflexivity|]. exists demo_row. by split. Qed.

Definition demo_exec : ExecEngine nat :=
  {| callbacks := [("order_updated", [1%nat; 2%nat]); ("order_filled", [3%nat])] |}.

Lemma stored_orders_witness :
  ∃ o' p, stored dget (exec_ops (demo_connector demo_resp true) (demo_gate approve) (mem_repo false)
            demo_clock demo_call [OpSubmit demo_order; OpCancel (VStr "o-1")] (demo_exec, demo_table)).2 "o-1" o' ∧
          status_run PENDING p (status o').
Proof.
  exact (stored_orders_follow_the_machine (demo_connector demo_resp true) (demo_gate approve)
    (mem_repo false) demo_clock demo_call dget [OpSubmit demo_order; OpCancel (VStr "o-1")] "o-1"
    demo_order demo_exec demo_table eq_refl demo_stored).
Defined.

Lemma update_outcome_witness :
  update_order_status (mem_repo false) demo_clock demo_call (VStr "o-1") FILLED [] (demo_exec, demo_table) =
  (Raise (ValueError "invalid status transition OrderStatus.PENDING -> OrderStatus.FILLED"), (demo_exec, demo_table)).
Proof.
  exact (proj2 (update_order_status_outcome (mem_repo false) demo_clock demo_call dget false
    "o-1" FILLED [] demo_exec demo_table eq_refl) demo_order demo_stored).
Defined.


Lemma overwriting_save_witness :
  ∃ w' o', submit_order (demo_connector demo_resp true) (demo_gate approve) (mem_repo true)
             demo_clock demo_call demo_order (demo_exec, demo_table) =
             (Raise (transition_error PENDING SUBMITTED), (demo_exec, w')) ∧
           stored dget w' "o-1" o' ∧ status o' = PENDING.
Proof.
  refine (overwriting_save_loses_the_order (demo_connector demo_resp true) (demo_gate approve) (mem_repo true)
    demo_clock demo_call dget _ _ approve demo_resp 10010 (VInt 1) "o-1" demo_order
    demo_exec demo_table demo_peers _ eq_refl _ eq_refl eq_refl eq_refl demo_stored).
  - split; [reflexivity|]. split; [|reflexivity]. exists (VInt 10010). split; reflexivity.
  - discriminate.
Defined.

Lemma no_broker_witness :
  submit_order (with_execute (demo_connector demo_resp true) (λ _, mret demo_resp)) (demo_gate reject_kill)
    (mem_repo false) demo_clock demo_call demo_order (demo_exec, demo_table) =
  submit_order (with_execute (demo_connector demo_resp true) (λ _, raise (RuntimeError "sent")))
    (demo_gate reject_kill) (mem_repo false) demo_clock demo_call demo_order (demo_exec, demo_table).
Proof.
  refine (no_broker_without_approval (demo_connector demo_resp true) (demo_gate reject_kill)
    (mem_repo false) demo_clock demo_call (λ _, True) _ _ demo_order demo_exec demo_table _ _ _ I).
  - by intros w.
  - by intros y w.
  - left. intros d ai ps w a w' _ Ha. injection Ha as <- <-. reflexivity.
Defined.

Lemma cancel_outcome_witness :
  ∃ now w', cancel_order (demo_connector demo_resp true) (mem_repo false) demo_clock demo_call
              (VStr "o-1") (demo_exec, demo_table) = (Ok true, (demo_exec, w')) ∧
            stored dget w' "o-1" (moved demo_order CANCELED [] now).
Proof.
  exact (proj2 (cancel_order_outcome (demo_connector demo_resp true) (demo_gate approve) (mem_repo false)
    demo_clock demo_call dget false "o-1" demo_exec demo_table) demo_order demo_stored).
Defined.

Lemma callbacks_witness :
  emit demo_call "order_updated" demo_row (demo_exec, demo_table) = (Ok tt, (demo_exec, demo_table)).
Proof.
  refine (proj1 (every_callback_is_called demo_call "order_updated" demo_row demo_exec demo_table 1%nat _)).
  intros cb w x w'. unfold demo_call. destruct (Nat.even cb); [discriminate|]. intros [= <- <-]. reflexivity.
Defined.
