(* ===== verification/Concurrency.v ===== *)
(** * The execution engine under an event loop (trading_service/src/execution/engine.py)

    The engine's coroutines as tasks of Tasks.v: submissions, which hold the
    engine's lock, and cancellations and status updates, which do not, in any
    number and under any schedule.  Every operation is the one of Execution.v with
    its awaits as steps, and run alone it is that operation. *)

From Stdlib Require Import ZArith Bool List Ascii String Permutation.
From stdpp Require Import base decidable list option strings.
From S2P Require Import Prelude PyFloat PyStr PyDateTime PyMonad PyDict PyVal Orders Risk Execution Tasks.
Open Scope string_scope.
Open Scope py_scope.

(** ** The coroutines *)

Section Coroutines.
Context {W CB : Type} `{EqDecision CB}.
Context (C : Connector W) (gate : RiskGate W) (R : OrderRepo W) (utcnow : M W datetime).
(** [out = cb(payload)] with the [await] of a coroutine: what a callback does, which
    may be anything the engine offers. *)
Context (callback : CB → vdict → task (ExecEngine CB * W) unit).

Definition emit_task (event : string) (payload : vdict) : task (ExecEngine CB * W) unit :=
  cbs ← await_call (gets (λ ew, default [] (dget (callbacks ew.1) event)));
  for_task (λ cb, try_task (callback cb payload) (λ _, mret tt)) cbs.

(** The read of a row and the making of the order are one step: nothing is awaited
    between them. *)
Definition update_order_status_task (order_id : pyval) (st : OrderStatus) (kwargs : list OrderAttr)
    : task (ExecEngine CB * W) unit :=
  found ← await_call (get_order R utcnow order_id);
  match found with
  | None => fail (ValueError "order not found")
  | Some order =>
      if negb (transition_ok (status order) st)
      then fail (transition_error (status order) st)
      else
        now ← await_call (zoom_r utcnow);
        let order := with_updated_at now (fold_left set_attr kwargs (with_status st order)) in
        match repo_update_order R with
        | None => fail (AttributeError "update_order")
        | Some update =>
            d ← pure_res (to_dict order);
            await_call (zoom_r (update order_id d))
        end ;;
        d ← pure_res (to_dict order);
        emit_task "order_updated" d ;;
        when_task (bool_decide (st = REJECTED)) (d ← pure_res (to_dict order); emit_task "order_rejected" d)
  end.

Definition cancel_order_task (order_id : pyval) : task (ExecEngine CB * W) bool :=
  found ← await_call (get_order R utcnow order_id);
  match found with
  | None => mret false
  | Some order =>
      if negb (cancelable (status order)) then mret false
      else
        ok ← await_call (zoom_r (connector_cancel_order C order_id));
        when_task ok (
          update_order_status_task order_id CANCELED [] ;;
          d ← pure_res (to_dict order); emit_task "order_canceled" d) ;;
        mret ok
  end.

Definition advance_task (order : Order) (result : pyval) : task (ExecEngine CB * W) unit :=
  now ← await_call (zoom_r utcnow);
  update_order_status_task (id order) SUBMITTED [Opened_at now] ;;
  deal ← pure_res (result_get result "deal" VNone);
  when_task (truthy deal) (
    now ← await_call (zoom_r utcnow);
    update_order_status_task (id order) FILLED [Filled_quantity (quantity order); Closed_at now] ;;
    d ← pure_res (to_dict order);
    emit_task "order_filled" d).

Definition settle_task (order : Order) (broker_response : vdict) : task (ExecEngine CB * W) Order :=
  if negb (truthy (vget broker_response "ok")) then
    update_order_status_task (id order) REJECTED
      [Rejection_reason (vget_or broker_response "error" (VStr "broker rejected"))] ;;
    mret order
  else
    let result := vget_or broker_response "result" (VDict []) in
    retcode ← pure_res (v ← result_get result "retcode" (VInt 0); py_int v);
    when_task (negb (retcode =? 0)%Z) (advance_task order result) ;;
    mret order.

Definition place_task (order : Order) : task (ExecEngine CB * W) Order :=
  update_order_status_task (id order) VALIDATED [] ;;
  d ← pure_res (to_dict order);
  await_call (zoom_r (repo_save_order R d)) ;;
  d ← pure_res (to_dict order);
  emit_task "order_created" d ;;
  d ← pure_res (to_dict order);
  broker_response ← await_call (zoom_r (execute_order C d));
  settle_task order broker_response.

(** The body of [async with self._lock]. *)
Definition submit_section (order : Order) : task (ExecEngine CB * W) Order :=
  if negb (bool_decide (status order = PENDING)) then fail (ValueError "Order must be pending")
  else if fle (quantity order) f0 then
    update_order_status_task (id order) REJECTED [Rejection_reason (VStr "quantity must be positive")] ;;
    mret order
  else
    account_info ← await_call (zoom_r (get_account_info C));
    positions ← await_call (zoom_r (get_positions C (symbol order)));
    d ← pure_res (to_dict order);
    approval ← await_call (zoom_r (gate d account_info positions));
    if negb (approved approval) then
      update_order_status_task (id order) REJECTED [Rejection_reason (opt_str (reason approval))] ;;
      mret order
    else place_task order.

Definition submit_order_task (order : Order) : task (ExecEngine CB * W) Order := async_with (submit_section order).

(** A request to the engine as a task of the loop; what it returns is its caller's
    business. *)
Definition request_task (op : ExecOp) : task (ExecEngine CB * W) unit :=
  match op with
  | OpSubmit o => _ ← submit_order_task o; mret tt
  | OpCancel i => _ ← cancel_order_task i; mret tt
  | OpUpdate i st k => update_order_status_task i st k
  | OpGet i => _ ← await_call (get_order R utcnow i); mret tt
  end.
End Coroutines.

(** A callback that only works on the world, in one step. *)
Definition world_callback {W CB} (call : CB → vdict → M W unit) (cb : CB) (payload : vdict)
    : task (ExecEngine CB * W) unit := await_call (zoom_r (call cb payload)).

(** ** Run alone they are the operations of Execution.v *)

Section Sequential.
Context {W CB : Type} `{EqDecision CB}.
Context (C : Connector W) (gate : RiskGate W) (R : OrderRepo W).
Context (utcnow : M W datetime) (call : CB → vdict → M W unit).

Lemma emit_alone event d : run_alone (emit_task (world_callback call) event d) ≡ₘ emit call event d.
Proof. unfold emit_task, emit. solve_alone. Qed.
Hint Resolve emit_alone : py_alone.

Lemma update_alone i st k :
  run_alone (update_order_status_task R utcnow (world_callback call) i st k) ≡ₘ update_order_status R utcnow call i st k.
Proof. unfold update_order_status_task, update_order_status. solve_alone. Qed.
Hint Resolve update_alone : py_alone.

Lemma cancel_alone i :
  run_alone (cancel_order_task C R utcnow (world_callback call) i) ≡ₘ cancel_order C R utcnow call i.
Proof. unfold cancel_order_task, cancel_order. solve_alone. Qed.

Lemma settle_alone o resp :
  run_alone (settle_task R utcnow (world_callback call) o resp) ≡ₘ settle R utcnow call o resp.
Proof. unfold settle_task, settle, advance_task, advance. solve_alone. Qed.

Lemma section_alone o :
  run_alone (submit_section C gate R utcnow (world_callback call) o) ≡ₘ submit_order C gate R utcnow call o.
Proof. unfold submit_section, submit_order, place_task, place, settle_task, settle, advance_task, advance. solve_alone. Qed.

Lemma submit_alone o :
  run_alone (submit_order_task C gate R utcnow (world_callback call) o) ≡ₘ submit_order C gate R utcnow call o.
Proof. intros ew. unfold submit_order_task. rewrite (alone_async_with _ ew). apply section_alone. Qed.
End Sequential.

(** ** The table of orders under every schedule *)

Section Rows.
Context {W CB : Type} `{EqDecision CB}.
Context (C : Connector W) (gate : RiskGate W) (R : OrderRepo W).
Context (utcnow : M W datetime) (call : CB → vdict → M W unit).
Context (view : W → string → option vdict).
Context {Laws : RepoLaws R view false} {QE : QuietEnv view utcnow call} {QP : QuietPeers view C gate}.
Context (s : string) (st0 : OrderStatus).

Abbreviation history := (has_history (CB:=CB) view s st0).
Abbreviation keeps_history := (steps_keep history (λ _, True)).

(** What a task may carry for the order [s]: a well-formed order whose status the
    table reaches. *)
Definition carries (i : pyval) (o : Order) : Prop := i = VStr s → order_wf o = true ∧ ∃ p, status_run st0 p (status o).

Lemma read_carries i ew :
  history ew → history (get_order R utcnow i ew).2 ∧
               ∀ o, (get_order R utcnow i ew).1 = Ok (Some o) → carries i o.
Proof using Laws QE.
  intros Hh. split; [by apply (get_order_history R utcnow call view false)|]. intros o Ho ->.
  destruct ew as [e w]. destruct Hh as (o' & p & Hs & Hr).
  rewrite (get_order_stored R utcnow view false s o' e w Hs) in Ho. injection Ho as <-. split; [apply Hs|by exists p].
Qed.

Lemma write_history i o d upd :
  repo_update_order R = Some upd → carries i o → to_dict o = Ok d →
  preserves history (zoom_r (upd i d)).
Proof using Laws.
  intros Hupd Hc Hd. destruct law_update as (u & Hu & Hw & Hother). rewrite Hu in Hupd. injection Hupd as ->.
  destruct (str_or_not i s) as [->|Hi].
  - intros [e w] _. destruct (Hc eq_refl) as [Hwf [p Hr]]. destruct (Hw w s d) as (w' & Hrun & Hv).
    simpl. rewrite Hrun. exists o, p. split; [|done]. split; [done|]. by exists d.
  - apply row_history. intros v. apply (preserves_world_r (λ w, view w s = v)).
    intros w Hv. by rewrite (Hother w i d s Hi).
Qed.

Lemma carries_moved i o st k now :
  carries i o → transition_ok (status o) st = true → forallb attr_valid k = true → dt_valid now = true →
  carries i (moved o st k now).
Proof.
  intros Hc Ht Hk Hn Hi. destruct (Hc Hi) as [Hwf [p Hr]]. split; [by apply order_wf_moved|]. rewrite status_moved.
  destruct (transition_ok_cases _ _ Ht) as [Hst| ->]; [|by exists p].
  exists (p ++ [st])%list. by apply (status_run_snoc _ _ _ _ Hr).
Qed.

Lemma clock_keeps : steps_keep history (λ r, ∀ t, r = Ok t → dt_valid t = true) (await_call (zoom_r utcnow)).
Proof using QE.
  intros [e w] Hh. split; [by apply (quiet_history view utcnow), Hh; apply clock_quiet|].
  destruct (clock_reads w) as (t & w' & Ht & Hv). simpl. rewrite Ht. by intros t' [= <-].
Qed.

Lemma emit_keeps event d : keeps_history (emit_task (world_callback call) event d).
Proof using QE.
  unfold emit_task. eapply (steps_keep_bind _ (λ _, True)); [|intros cbs _|done].
  - apply steps_keep_call, preserves_gets.
  - apply steps_keep_for. intros cb. eapply (steps_keep_try _ (λ _, True)); [|done..].
    apply steps_keep_call. apply quiet_history, call_quiet.
Qed.

Lemma update_keeps i st k :
  forallb attr_valid k = true → keeps_history (update_order_status_task R utcnow (world_callback call) i st k).
Proof using Laws QE.
  intros Hk. unfold update_order_status_task.
  eapply (steps_keep_bind _ (λ r, ∀ o, r = Ok (Some o) → carries i o)); [|intros found Hfound|done].
  { intros ew Hew. by apply read_carries. }
  destruct found as [o|]; [|done]. destruct (transition_ok (status o) st) eqn:Ht; [|done]. cbn [negb].
  eapply steps_keep_bind; [apply clock_keeps|intros now Hnow|done].
  pose proof (carries_moved i o st k now (Hfound o eq_refl) Ht Hk (Hnow now eq_refl)) as Hc.
  fold (moved o st k now). eapply (steps_keep_bind _ (λ _, True)); [|intros _ _|done].
  - destruct (repo_update_order R) as [upd|] eqn:Hupd; [|done].
    unfold pure_res. destruct (to_dict (moved o st k now)) as [d|x] eqn:Hd; [|done].
    apply steps_keep_call. by apply (write_history i (moved o st k now)).
  - pose proof emit_keeps as He. solve_steps.
Qed.

Lemma quiet_keeps {A} (m : M W A) : quiet view m → keeps_history (await_call (zoom_r m)).
Proof. intros Hm. by apply steps_keep_call, quiet_history. Qed.

Lemma save_keeps d : keeps_history (await_call (zoom_r (repo_save_order R d))).
Proof using Laws. apply steps_keep_call, save_history, Laws. Qed.

Lemma advance_keeps o result : keeps_history (advance_task R utcnow (world_callback call) o result).
Proof using Laws QE.
  pose proof emit_keeps as He. unfold advance_task.
  eapply steps_keep_bind; [apply clock_keeps|intros now Hnow|done]. cbv beta in Hnow.
  apply steps_keep_seq; [apply update_keeps; simpl; by rewrite (Hnow now)|]. intros _.
  apply steps_keep_pure. intros deal _. apply steps_keep_when.
  eapply steps_keep_bind; [apply clock_keeps|intros now' Hnow'|done]. cbv beta in Hnow'.
  apply steps_keep_seq; [apply update_keeps; simpl; by rewrite (Hnow' now')|]. solve_steps.
Qed.

Lemma submit_keeps o : keeps_history (submit_order_task C gate R utcnow (world_callback call) o).
Proof using Laws QE QP.
  pose proof emit_keeps as He. pose proof advance_keeps as Ha. pose proof save_keeps as Hs.
  assert (Hu : ∀ i st k, forallb attr_valid k = true →
    keeps_history (update_order_status_task R utcnow (world_callback call) i st k)) by apply update_keeps.
  pose proof (λ A m H, @quiet_keeps A m H) as Hq.
  assert (H1 := Hq _ _ account_quiet). assert (H2 := λ y, Hq _ _ (positions_quiet y)).
  assert (H3 := λ d, Hq _ _ (execute_quiet d)). assert (H4 := λ d a p, Hq _ _ (gate_quiet d a p)). clear Hq.
  unfold submit_order_task, submit_section, place_task, settle_task. solve_steps.
Qed.

Lemma cancel_keeps i : keeps_history (cancel_order_task C R utcnow (world_callback call) i).
Proof using Laws QE QP.
  pose proof emit_keeps as He. pose proof (quiet_keeps _ (cancel_quiet i)) as Hq.
  assert (Hg : keeps_history (await_call (get_order R utcnow i)))
    by apply steps_keep_call, (get_order_history R utcnow call view false).
  assert (Hu : ∀ i st k, forallb attr_valid k = true →
    keeps_history (update_order_status_task R utcnow (world_callback call) i st k)) by apply update_keeps.
  unfold cancel_order_task. solve_steps.
Qed.

Lemma request_keeps op : op_valid op = true → keeps_history (request_task C gate R utcnow (world_callback call) op).
Proof using Laws QE QP.
  pose proof submit_keeps as Hs. pose proof cancel_keeps as Hc. pose proof update_keeps as Hu.
  assert (Hg : ∀ i, keeps_history (await_call (get_order R utcnow i)))
    by (intros; apply steps_keep_call, (get_order_history R utcnow call view false)).
  intros Hop. destruct op; unfold request_task; cbn [op_valid] in Hop; solve_steps.
Qed.
End Rows.

Section Machine.
Context {W CB : Type} `{EqDecision CB}.
Context (C : Connector W) (gate : RiskGate W) (R : OrderRepo W).
Context (utcnow : M W datetime) (call : CB → vdict → M W unit).
Context (view : W → string → option vdict).
Context {Laws : RepoLaws R view false} {QE : QuietEnv view utcnow call} {QP : QuietPeers view C gate}.

End Machine.

(** ** Submissions one by one *)

Section Serial.
Context {W CB : Type} `{EqDecision CB}.
Context (C : Connector W) (gate : RiskGate W) (R : OrderRepo W) (utcnow : M W datetime).

(** A callback that does not call back into the engine's lock. *)
Section Plain.
Context (callback : CB → vdict → task (ExecEngine CB * W) unit).
Context (callback_plain : ∀ cb d, plain (callback cb d)).

Lemma emit_plain event d : plain (emit_task callback event d).
Proof using callback_plain.
  unfold emit_task. apply plain_bind; [done|]. intros cbs. apply plain_for. intros cb. by apply plain_try.
Qed.

Ltac solve_plain :=
  repeat first
    [ progress intros
    | done
    | apply emit_plain
    | match goal with H : context [plain] |- _ => solve [apply H] end
    | apply plain_bind
    | match goal with
      | |- plain (match ?x with _ => _ end) => destruct x
      | |- plain (when_task ?c _) => destruct c; unfold when_task
      end ].

Lemma update_plain i st k : plain (update_order_status_task R utcnow callback i st k).
Proof using callback_plain. unfold update_order_status_task. solve_plain. Qed.

Lemma cancel_plain i : plain (cancel_order_task C R utcnow callback i).
Proof using callback_plain. pose proof update_plain. unfold cancel_order_task. solve_plain. Qed.

Lemma settle_plain o resp : plain (settle_task R utcnow callback o resp).
Proof using callback_plain. pose proof update_plain. unfold settle_task, advance_task. solve_plain. Qed.

Lemma section_plain o : plain (submit_section C gate R utcnow callback o).
Proof using callback_plain.
  pose proof update_plain. unfold submit_section, place_task, settle_task, advance_task. solve_plain.
Qed.

(** Requests obey the lock's discipline, whatever it protects. *)
Lemma plain_disciplined {S A} (p : task S A) : plain p → disciplined (λ _ : S, ()) (λ _, True) (λ _, True) None p.
Proof. induction p as [r|X m k IH|k IH|k IH]; simpl; [done| |done|done]. intros Hp s. eauto. Qed.

Lemma release_disciplined {S A B} (p : task S A) (f : A → task S B) :
  plain p → (∀ a, plain (f a)) →
  disciplined (λ _ : S, ()) (λ _, True) (λ _, True) (Some ()) (then_release p ≫= f).
Proof.
  intros Hp Hf. unfold mbind, task_bind. induction p as [r|X m k IH|k IH|k IH]; simpl in *; [|by eauto|done|done].
  split; [done|]. destruct r; [by apply plain_disciplined|done].
Qed.

Lemma request_disciplined op :
  disciplined (λ _ : ExecEngine CB * W, ()) (λ _, True) (λ _, True) None (request_task C gate R utcnow callback op).
Proof using callback_plain.
  destruct op as [o|i|i st k|i]; unfold request_task.
  - split; [done|]. intros [] _. by apply release_disciplined; [apply section_plain|].
  - apply plain_disciplined, plain_bind; [apply cancel_plain|done].
  - apply plain_disciplined, update_plain.
  - by apply plain_disciplined, plain_bind.
Qed.

(** C13. Every request is answered.  Any number of submissions, cancellations, updates
    and reads under way together, with callbacks that do not submit orders
    themselves: whatever the collaborators do, each of them returning, and however
    the event loop schedules the tasks, as long as each task gets a turn again and
    again, there is a moment at which all requests have ended; the lock is never
    held by a task that waits for it. *)
Theorem every_request_ends ops f e w :
  fair (length ops) f →
  ∃ n, all_finished (run_first f n (spawn (request_task C gate R utcnow callback <$> ops) (e, w))) = true.
Proof using callback_plain.
  intros Hf.
  apply (fair_finish (λ c, ∃ o, lock_inv (λ _, ()) (λ _ : (), True) (λ _ : (), True) o c)).
  - intros c i [o Hc]. by eapply pool_step_inv.
  - intros c [o Hc]. by eapply lock_progress.
  - exists None. apply lock_inv_spawn; [done|done|]. apply Forall_fmap, Forall_true. intros op. apply request_disciplined.
  - simpl. by rewrite !length_fmap.
Qed.
End Plain.

Context (call : CB → vdict → M W unit).

(** The submissions of [orders] one after the other, in the given order. *)
Fixpoint submit_serially (orders : list Order) (order : list nat) (ew : ExecEngine CB * W)
    : list (nat * res Order) * (ExecEngine CB * W) :=
  match order with
  | [] => ([], ew)
  | i :: rest =>
      match orders !! i with
      | Some o =>
          let '(r, ew1) := submit_order C gate R utcnow call o ew in
          let '(rs, ew2) := submit_serially orders rest ew1 in ((i, r) :: rs, ew2)
      | None => submit_serially orders rest ew
      end
  end.

Lemma in_order_serially orders order ew :
  in_order (submit_section C gate R utcnow (world_callback call) <$> orders) order ew = submit_serially orders order ew.
Proof.
  revert ew. induction order as [|i order IH]; intros ew; simpl; [done|].
  rewrite list_lookup_fmap. destruct (orders !! i) as [o|]; simpl; [|apply IH].
  rewrite (section_alone C gate R utcnow call o ew). destruct (submit_order _ _ _ _ _ o ew) as [r ew1]. by rewrite IH.
Qed.

(** C5. Submissions are served one by one, first come first served.  Start any number
    of submissions together and let the event loop switch between them at any of
    their awaits: once all have ended, the state is the one of running
    [submit_order] on the orders one after the other, in the order in which the
    tasks had their first steps, and each caller gets the result or exception of
    that run. *)
Theorem submissions_are_serialized orders schedule e w :
  let c := run_schedule schedule (spawn (submit_order_task C gate R utcnow (world_callback call) <$> orders) (e, w)) in
  let served := arrivals (submit_section C gate R utcnow (world_callback call) <$> orders) schedule in
  all_finished c = true →
  Permutation served (seq 0 (length orders)) ∧
  shared c = (submit_serially orders served (e, w)).2 ∧
  ∀ i r, In (i, r) (submit_serially orders served (e, w)).1 ↔ tasks c !! i = Some (Running (Finished r)).
Proof.
  intros c served Hfin.
  assert (Hplain : Forall plain (submit_section C gate R utcnow (world_callback call) <$> orders)).
  { apply Forall_fmap, Forall_true. intros o. by apply section_plain. }
  assert (Hc : c = run_schedule schedule
    (spawn (async_with <$> (submit_section C gate R utcnow (world_callback call) <$> orders)) (e, w))).
  { unfold c. by rewrite <- list_fmap_compose. }
  rewrite Hc in Hfin |- *.
  destruct (sections_serialize _ Hplain schedule (e, w) Hfin) as (H1 & H2 & H3).
  rewrite in_order_serially in H2, H3. rewrite length_fmap in H1. by split.
Qed.
End Serial.

(** ** Witnesses *)

Definition demo_requests : list ExecOp := [OpSubmit demo_order; OpCancel (VStr "o-1"); OpGet (VStr "o-1")].


Lemma every_request_witness :
  ∃ n, all_finished (run_first (λ k, k mod 3)%nat n
         (spawn (request_task (demo_connector demo_resp true) (demo_gate approve) (mem_repo false) demo_clock
                   (world_callback demo_call) <$> demo_requests) (demo_exec, demo_table))) = true.
Proof.
  refine (every_request_ends (demo_connector demo_resp true) (demo_gate approve) (mem_repo false) demo_clock
    (world_callback demo_call) _ demo_requests (λ k, k mod 3)%nat demo_exec demo_table (round_robin_fair 3)).
  done.
Defined.

(** Two submissions of one order that start together: the second finds it filled. *)
Definition two_submissions : list nat := ([0; 1] ++ List.repeat 0 40 ++ List.repeat 1 40)%nat%list.

Lemma submissions_serialized_witness :
  Permutation (arrivals (submit_section (demo_connector demo_resp true) (demo_gate approve) (mem_repo false) demo_clock
    (world_callback demo_call) <$> [demo_order; demo_order]) two_submissions) [0; 1]%nat.
Proof.
  refine (proj1 (submissions_are_serialized (demo_connector demo_resp true) (demo_gate approve) (mem_repo false)
    demo_clock demo_call [demo_order; demo_order] two_submissions demo_exec demo_table _)).
  vm_compute. reflexivity.
Defined.
