(* ===== verification/Collisions.v ===== *)
(** * What collides in the execution engine (trading_service/src/execution/engine.py)

    What the engine's lock achieves and what happens around it: the checks and the
    sends of concurrent submissions, observed by a log next to the collaborators; a
    cancellation in the middle of a submission; a callback that submits an order. *)

From Stdlib Require Import ZArith Bool List Ascii String.
From stdpp Require Import base decidable list option strings.
From S2P Require Import Prelude PyFloat PyStr PyDateTime PyMonad PyDict PyVal Orders Risk Execution Tasks Concurrency.
Open Scope string_scope.
Open Scope py_scope.

(** ** An observer *)

(** The calls that matter, in the order they were made: a pre-trade check with its
    verdict, an order handed to the broker. *)
Inductive Entry := Checked (d : vdict) (approved : bool) | Sent (d : vdict).

(** The collaborators of the engine with a log beside them; what they do and answer
    is the same. *)
Section Observed.
Context {W CB : Type} (C : Connector W) (gate : RiskGate W) (R : OrderRepo W).
Context (utcnow : M W datetime) (call : CB → vdict → M W unit).

Definition note (x : Entry) : M (W * list Entry) unit := modify (λ wl, (wl.1, wl.2 ++ [x])%list).

Definition observed_connector : Connector (W * list Entry) := {|
  get_account_info := zoom_l (get_account_info C);
  get_positions y := zoom_l (get_positions C y);
  execute_order d := note (Sent d) ;; zoom_l (execute_order C d);
  connector_cancel_order i := zoom_l (connector_cancel_order C i)
|}.

Definition observed_gate : RiskGate (W * list Entry) := λ d account positions,
  a ← zoom_l (gate d account positions); note (Checked d (approved a)) ;; mret a.

Definition observed_repo : OrderRepo (W * list Entry) := {|
  repo_save_order d := zoom_l (repo_save_order R d);
  repo_get_order i := zoom_l (repo_get_order R i);
  repo_update_order := option_map (λ update i d, zoom_l (update i d)) (repo_update_order R);
  repo_get_orders := option_map (λ fetch a st, zoom_l (fetch a st)) (repo_get_orders R)
|}.

Definition observed_clock : M (W * list Entry) datetime := zoom_l utcnow.
Definition observed_call (cb : CB) (d : vdict) : M (W * list Entry) unit := zoom_l (call cb d).
End Observed.

(** The log of a pool's state. *)
Definition log_of {W CB} (ew : ExecEngine CB * (W * list Entry)) : list Entry := ew.2.2.

(** Every order sent was checked, and approved, immediately before: no other check
    and no other order came between. *)
Definition freshly_checked (log : list Entry) : Prop :=
  ∀ before d after, log = (before ++ Sent d :: after)%list → ∃ earlier, before = (earlier ++ [Checked d true])%list.

Lemma freshly_nil : freshly_checked [].
Proof. intros [|x before] d after [=]. Qed.

Lemma freshly_snoc log x :
  freshly_checked log → (∀ d, x = Sent d → ∃ earlier, log = (earlier ++ [Checked d true])%list) → freshly_checked (log ++ [x]).
Proof.
  intros Hlog Hx before d after E. destruct after as [|y after _] using rev_ind.
  - apply app_inj_tail in E as [<- ->]. by apply Hx.
  - rewrite app_comm_cons, app_assoc in E. apply app_inj_tail in E as [E _]. by apply (Hlog before d after).
Qed.

(** ** Checks and sends stay together *)

Section Fresh.
Context {W CB : Type} `{EqDecision CB}.
Context (C : Connector W) (gate : RiskGate W) (R : OrderRepo W).
Context (utcnow : M W datetime) (call : CB → vdict → M W unit).

Abbreviation State := (ExecEngine CB * (W * list Entry))%type.
Abbreviation keeps_log := (keeps_off (log_of (W:=W) (CB:=CB))).
Abbreviation C' := (observed_connector C).
Abbreviation R' := (observed_repo R).
Abbreviation clock' := (observed_clock utcnow).
Abbreviation callback' := (world_callback (observed_call call)).

Lemma zoom_log {A} (m : M W A) : keeps_log (await_call (zoom_r (zoom_l m))).
Proof. apply keeps_off_call. intros [e [w l]]. simpl. by destruct (m w). Qed.

(** Calls of the world below the log that end without touching it. *)
Lemma log_kept {A} (m : M State A) : (∀ l, preserves (λ ew, log_of ew = l) m) → keeps_log (await_call m).
Proof. intros Hm. apply keeps_off_call. intros s. by apply (Hm (log_of s)). Qed.

Lemma world_kept {A} (m : M W A) l : preserves (λ ew : State, log_of ew = l) (zoom_r (zoom_l m)).
Proof. intros [e [w l']] Hl. simpl in *. by destruct (m w). Qed.

Lemma lower_kept {A} (m : M (W * list Entry) A) l :
  preserves (λ wl, wl.2 = l) m → preserves (λ ew : State, log_of ew = l) (zoom_r m).
Proof. intros Hm. apply (preserves_world_r (λ wl, wl.2 = l) m Hm). Qed.

Lemma hydrate_kept d l : preserves (λ wl : W * list Entry, wl.2 = l) (hydrate clock' d).
Proof.
  assert (preserves (λ wl : W * list Entry, wl.2 = l) clock') by (intros [w l'] Hl; simpl in *; by destruct (utcnow w)).
  unfold hydrate, stamp_field. solve_pres.
Qed.

Lemma read_log i : keeps_log (await_call (get_order R' clock' i)).
Proof.
  apply log_kept. intros l. unfold get_order. apply preserves_bind; [apply world_kept|].
  intros [[|kv d]|]; [apply preserves_ret| |apply preserves_ret].
  apply preserves_bind; [apply lower_kept, hydrate_kept|intros; apply preserves_ret].
Qed.

Lemma emit_log event d : keeps_log (emit_task callback' event d).
Proof.
  unfold emit_task. apply keeps_off_bind; [by apply keeps_off_call|]. intros cbs.
  apply keeps_off_for. intros cb. apply keeps_off_try; [apply zoom_log|done].
Qed.

Ltac solve_log :=
  repeat first
    [ progress intros
    | done
    | apply zoom_log
    | apply read_log
    | apply emit_log
    | match goal with H : context [keeps_off] |- _ => solve [apply H] end
    | apply keeps_off_bind
    | match goal with
      | |- keeps_off _ (match ?x with _ => _ end) => destruct x
      | |- keeps_off _ (when_task ?c _) => destruct c; unfold when_task
      end ].

Lemma update_log i st k : keeps_log (update_order_status_task R' clock' callback' i st k).
Proof.
  unfold update_order_status_task. cbn [repo_update_order observed_repo].
  destruct (repo_update_order R); cbn [option_map]; solve_log.
Qed.

Lemma cancel_log i : keeps_log (cancel_order_task C' R' clock' callback' i).
Proof. pose proof update_log as Hu. unfold cancel_order_task. cbn [connector_cancel_order observed_connector]. solve_log. Qed.

Lemma settle_log o resp : keeps_log (settle_task R' clock' callback' o resp).
Proof. pose proof update_log as Hu. unfold settle_task, advance_task. solve_log. Qed.

Lemma gate_log d account positions (ew : State) :
  let out := zoom_r (observed_gate gate d account positions) ew in
  log_of out.2 = match out.1 with Ok a => (log_of ew ++ [Checked d (approved a)])%list | Raise _ => log_of ew end.
Proof.
  destruct ew as [e [w l]]. unfold observed_gate, zoom_r, zoom_l, mbind, M_bind. cbn.
  by destruct (gate d account positions w) as [[a|x] w'].
Qed.

Lemma send_log d (ew : State) : log_of (zoom_r (execute_order C' d) ew).2 = (log_of ew ++ [Sent d])%list.
Proof.
  destruct ew as [e [w l]]. unfold zoom_r, zoom_l, mbind, M_bind. cbn. unfold mbind, M_bind. cbn.
  by destruct (execute_order C d w).
Qed.

(** A submission's section: the log it finds, its check, its send. *)
Lemma section_log o l :
  freshly_checked l → section_ok log_of freshly_checked l (submit_section C' (observed_gate gate) R' clock' callback' o).
Proof.
  intros Hl. pose proof update_log as Hu. pose proof settle_log as Hs. pose proof emit_log as He.
  unfold submit_section. destruct (negb _); [done|].
  destruct (fle (quantity o) f0); [by apply section_off; [apply Hu|done|intros; exact Hl]|].
  apply section_off; [apply zoom_log|done|]. intros account. apply section_off; [apply zoom_log|done|]. intros positions.
  apply section_pure; [done|]. intros d Hd. apply section_call. intros ew Hew. rewrite gate_log, Hew.
  destruct (zoom_r (observed_gate gate d account positions) ew).1 as [a|x]; [|done].
  assert (Hc : freshly_checked (l ++ [Checked d (approved a)])) by (by apply freshly_snoc).
  split; [exact Hc|]. intros ? [= <-]. destruct (approved a); [|by apply section_off; [apply Hu|done|intros; exact Hc]].
  cbn [negb]. unfold place_task. rewrite Hd. apply section_off; [apply Hu|done|]. intros _.
  apply section_pure; [done|]. intros ? [= <-]. apply section_off; [apply zoom_log|done|]. intros _.
  apply section_pure; [done|]. intros ? [= <-]. apply section_off; [apply He|done|]. intros _.
  apply section_pure; [done|]. intros ? [= <-]. apply section_call. intros ew1 Hew1. rewrite send_log, Hew1.
  assert (Hsent : freshly_checked ((l ++ [Checked d true]) ++ [Sent d])).
  { apply freshly_snoc; [done|]. intros ? [= <-]. by exists l. }
  split; [done|]. intros resp _. by apply section_end; [apply Hs|].
Qed.

(** C11. No order is sent on a stale check.  Any number of submissions, cancellations,
    updates and reads run together, and the event loop switches between them at any
    await: at every moment, of the calls to the risk check and to the broker seen so
    far, each order sent was approved by the call just before it.  Between the check
    that approves an order and its sending no other order is checked or sent. *)
Theorem sends_follow_their_check schedule ops e w :
  freshly_checked (log_of (shared (run_schedule schedule
    (spawn (request_task C' (observed_gate gate) R' clock' callback' <$> ops) (e, (w, [])))))).
Proof.
  apply (schedule_always log_of freshly_checked freshly_checked); [done|apply freshly_nil|].
  apply Forall_fmap, Forall_true. intros [o|i|i st k|i]; unfold request_task.
  - apply section_disciplined; [|done]. intros l. apply section_log.
  - by apply keeps_off_disciplined, keeps_off_bind; [apply cancel_log|].
  - apply keeps_off_disciplined, update_log.
  - by apply keeps_off_disciplined, keeps_off_bind; [apply read_log|].
Qed.
End Fresh.

(** The observer does not change what is relied on of the collaborators. *)
Section ObservedLaws.
Context {W CB : Type} (view : W → string → option vdict).
Definition below (wl : W * list Entry) : string → option vdict := view wl.1.

#[export] Instance observed_repo_laws (R : OrderRepo W) b `{!RepoLaws R view b} : RepoLaws (observed_repo R) below b.
Proof.
  unfold below. split; cbn.
  - intros [w l] s. cbn. by rewrite law_get.
  - intros [w l] i. cbn. pose proof (law_get_any w i) as Hw. destruct (repo_get_order R i w) as [r w']. cbn in *. by rewrite Hw.
  - destruct law_update as (upd & -> & Hu & Ho). eexists. split; [done|]. split.
    + intros [w l] s d. destruct (Hu w s d) as (w' & Hr & Hv). exists (w', l). cbn. by rewrite Hr.
    + intros [w l] i d s Hi. cbn. pose proof (Ho w i d s Hi) as Hv. by destruct (upd i d w).
  - intros [w l] s d His Hid. destruct (law_save w s d His Hid) as (w' & Hr & Hv). exists (w', l). cbn. by rewrite Hr.
  - intros [w l] s d His Hid. cbn. pose proof (law_save_other w s d His Hid) as Hv. by destruct (repo_save_order R d w).
Qed.

Lemma below_quiet {A} (m : M W A) : quiet view m → quiet below (zoom_l m).
Proof. intros Hm [w l] s. cbn. pose proof (Hm w s) as Hv. by destruct (m w). Qed.

#[export] Instance observed_env utcnow (call : CB → vdict → M W unit) `{!QuietEnv view utcnow call} :
  QuietEnv below (observed_clock utcnow) (observed_call call).
Proof.
  split.
  - intros [w l]. destruct (clock_reads w) as (t & w' & Ht & Hv). exists t, (w', l). cbn. by rewrite Ht.
  - apply below_quiet, clock_quiet.
  - intros cb d. apply below_quiet, call_quiet.
  - intros cb d [w l] x [w' l'] Hx. cbn in Hx. destruct (call cb d w) as [r w1] eqn:E. injection Hx as -> <- <-.
    by apply (call_no_cancel cb d w x w1).
Qed.

#[export] Instance observed_peers (C : Connector W) (gate : RiskGate W) `{!QuietPeers view C gate} :
  QuietPeers below (observed_connector C) (observed_gate gate).
Proof.
  split.
  - apply below_quiet, account_quiet.
  - intros y. apply below_quiet, positions_quiet.
  - intros d [w l] s. cbn. unfold mbind, M_bind. cbn.
    pose proof (execute_quiet (gate:=gate) d w s) as Hv. by destruct (execute_order C d w).
  - intros i. apply below_quiet, cancel_quiet.
  - intros d a p [w l] s. unfold observed_gate, zoom_l, mbind, M_bind. cbn.
    pose proof (gate_quiet (C:=C) d a p w s) as Hv. by destruct (gate d a p w) as [[v|x] w'].
Qed.

Lemma observed_answers {A} (m : M W A) v : answers m v → answers (zoom_l (W:=list Entry) m) v.
Proof. intros Hm [w l]. destruct (Hm w) as [w' Hw]. exists (w', l). cbn. by rewrite Hw. Qed.

Lemma Peers_observed (C : Connector W) (gate : RiskGate W) ai ps a resp :
  Peers C gate ai ps a resp → Peers (observed_connector C) (observed_gate gate) ai ps a resp.
Proof.
  intros [Ha Hp Hg Hb]. split.
  - by apply observed_answers.
  - intros y. by apply observed_answers.
  - intros d [w l]. destruct (Hg d w) as [w' Hw]. eexists. unfold observed_gate, zoom_l, mbind, M_bind. cbn. by rewrite Hw.
  - intros d [w l]. destruct (Hb d w) as [w' Hw]. eexists. cbn. unfold mbind, M_bind. cbn. by rewrite Hw.
Qed.
End ObservedLaws.

(** ** A cancellation in the middle of a submission *)

Section Race.
Context {W CB : Type} `{EqDecision CB}.
Context (C : Connector W) (gate : RiskGate W) (R : OrderRepo W).
Context (utcnow : M W datetime) (call : CB → vdict → M W unit).
Context (view : W → string → option vdict).
Context {Laws : RepoLaws R view false} {QE : QuietEnv view utcnow call} {QP : QuietPeers view C gate}.
Context (ai : vdict) (ps : list vdict) (a : TradeApproval) (resp : vdict) (peers : Peers C gate ai ps a resp).

Abbreviation State := (ExecEngine CB * (W * list Entry))%type.
Abbreviation C' := (observed_connector C).
Abbreviation gate' := (observed_gate gate).
Abbreviation R' := (observed_repo R).
Abbreviation clock' := (observed_clock utcnow).
Abbreviation call' := (observed_call call).
Abbreviation callback' := (world_callback (observed_call call)).
Abbreviation below' := (below view).

(** What the run of a task that leaves the log alone says about the log. *)
Lemma log_after {A} (p : task State A) (m : M State A) (s : State) r s' :
  keeps_off log_of p → run_alone p ≡ₘ m → m s = (r, s') → log_of s' = log_of s.
Proof. intros Hp Hm Hr. eapply keeps_off_run; [exact Hp|]. by rewrite (Hm s). Qed.

Lemma clock_now (e : ExecEngine CB) w :
  ∃ t w', zoom_r clock' (e, w) = (Ok t, (e, w')) ∧ w'.2 = w.2 ∧ ∀ s o, stored below' w s o → stored below' w' s o.
Proof using QE.
  destruct (clock_run clock' call' below' e w) as (t & w' & Ht & _ & Hs). exists t, w'. split; [done|].
  split; [|done]. exact (log_after _ _ _ _ _ (zoom_log utcnow) (alone_await _) Ht).
Qed.

(** A submission with nobody in between, up to the broker's answer. *)
Lemma submission_reaches_broker s o e w :
  approved a = true → status o = PENDING → fle (quantity o) f0 = false → id o = VStr s → stored below' w s o →
  ∃ d o1 w1, to_dict o = Ok d ∧
    advances (submit_section C' gate' R' clock' callback' o) (e, w) (settle_task R' clock' callback' o resp) (e, w1) ∧
    stored below' w1 s o1 ∧ status o1 = VALIDATED ∧ w1.2 = (w.2 ++ [Checked d true; Sent d])%list.
Proof using Laws QE QP peers.
  intros Hok Hst Hq Hid Hs. destruct (Peers_observed C gate ai ps a resp peers) as [Ha Hp Hg Hb].
  destruct (to_dict_total o (proj1 Hs)) as (d & Hd & Hdid).
  destruct (zoom_answer below' _ ai e w Ha account_quiet) as (w1 & H1 & V1).
  destruct (zoom_answer below' _ ps e w1 (Hp (symbol o)) (positions_quiet _)) as (w2 & H2 & V2).
  destruct (zoom_answer below' _ a e w2 (Hg d) (gate_quiet _ _ _)) as (w3 & H3 & V3).
  assert (Hs3 : stored below' w3 s o) by (eapply stored_ext; [exact V3|]; eapply stored_ext; [exact V2|]; by eapply stored_ext).
  destruct (update_accepted R' clock' call' below' false s VALIDATED [] o e w3 Hs3) as (now & w4 & H4 & _ & Hs4);
    [by rewrite Hst|done|].
  assert (His : is_Some (below' w4 s)) by (destruct Hs4 as (_ & d1 & _ & ->); by eexists).
  destruct (law_save w4 s d His) as (w5 & H5 & V5); [by rewrite Hdid|]. apply (zoom_r_run _ e) in H5.
  destruct (emit_run clock' call' below' "order_created" d e w5) as (w6 & H6 & V6).
  destruct (zoom_answer below' _ resp e w6 (Hb d) (execute_quiet d)) as (w7 & H7 & V7).
  exists d, (moved o VALIDATED [] now), w7. split; [done|]. split; [|split; [|split; [apply status_moved|]]].
  - unfold submit_section. rewrite bool_decide_eq_true_2 by done. rewrite Hq. cbn [negb].
    eapply advances_call; [exact H1|]. eapply advances_call; [exact H2|]. eapply advances_pure; [exact Hd|].
    eapply advances_call; [exact H3|]. rewrite Hok. cbn [negb]. unfold place_task. rewrite Hid.
    eapply advances_part; [by apply update_plain|by rewrite (update_alone R' clock' call' _ _ _ _)|].
    eapply advances_pure; [exact Hd|]. eapply advances_call; [exact H5|].
    eapply advances_pure; [exact Hd|]. eapply advances_part; [by apply emit_plain|by rewrite (emit_alone call' _ _ _)|].
    eapply advances_pure; [exact Hd|]. eapply advances_call; [exact H7|]. constructor.
  - eapply stored_ext; [exact V7|]. eapply stored_ext; [exact V6|]. destruct Hs4 as (Hwf & d1 & Hd1 & Hv1).
    split; [done|]. exists d1. by rewrite V5.
  - assert (L1 := log_after _ _ _ _ _ (zoom_log _) (alone_await _) H1).
    assert (L2 := log_after _ _ _ _ _ (zoom_log _) (alone_await _) H2).
    assert (L4 := log_after _ _ _ _ _ (update_log R utcnow call _ _ _) (update_alone R' clock' call' _ _ _) H4).
    assert (L5 := log_after _ _ _ _ _ (zoom_log _) (alone_await _) H5).
    assert (L6 := log_after _ _ _ _ _ (emit_log call _ _) (emit_alone call' _ _) H6).
    pose proof (gate_log (CB:=CB) gate d ai ps (e, w2)) as L3. rewrite H3 in L3. cbn in L3. rewrite Hok in L3.
    pose proof (send_log (CB:=CB) C d (e, w6)) as L7. rewrite H7 in L7. unfold log_of in *. cbn in *.
    by rewrite L7, L6, L5, L4, L3, L2, L1, <- app_assoc.
Qed.

(** What is left of it after a cancellation. *)
Lemma settled_after_cancel s o o1 n deal e w :
  broker_says resp (Accepted n deal) → n ≠ 0%Z → id o = VStr s → stored below' w s o1 → status o1 = CANCELED →
  ∃ w', run_alone (settle_task R' clock' callback' o resp) (e, w) =
          (Raise (transition_error CANCELED SUBMITTED), (e, w')) ∧ stored below' w' s o1 ∧ w'.2 = w.2.
Proof using Laws QE.
  intros Hb Hn Hid Hs Hst. destruct (clock_now e w) as (t & w1 & Ht & Hl & Hk). exists w1.
  split; [|split; [by apply Hk|done]].
  rewrite (settle_alone R' clock' call' o resp _), (settle_read R' clock' call' resp n deal o e w Hb).
  rewrite (proj2 (Z.eqb_neq n 0) Hn). cbn [negb when]. apply bind_raise. unfold advance. rewrite Hid. step_by Ht.
  apply bind_raise. rewrite (update_refused R' clock' call' below' false s SUBMITTED _ o1 e w1 (Hk _ _ Hs)); by rewrite Hst.
Qed.

(** A cancellation of the order after it was sent: it succeeds. *)
Lemma cancelled_meanwhile s o1 e w :
  answers (connector_cancel_order C (VStr s)) true → stored below' w s o1 → status o1 = VALIDATED →
  ∃ o2 w', run_alone (cancel_order_task C' R' clock' callback' (VStr s)) (e, w) = (Ok true, (e, w')) ∧
           stored below' w' s o2 ∧ status o2 = CANCELED ∧ w'.2 = w.2.
Proof using Laws QE QP.
  intros Hc Hs Hst. pose proof (cancel_order_outcome C' gate' R' clock' call' below' false s e w) as [_ Hout].
  specialize (Hout o1 Hs). rewrite Hst in Hout. cbn [cancelable] in Hout.
  destruct (observed_answers _ _ Hc w) as [w1 Hw1]. cbn in Hw1. cbn [connector_cancel_order observed_connector] in Hout.
  rewrite Hw1 in Hout. destruct Hout as (now & w' & Hrun & Hs'). exists (moved o1 CANCELED [] now), w'.
  split; [by rewrite (cancel_alone C' R' clock' call' _ _)|]. split; [done|]. split; [apply status_moved|].
  exact (log_after _ _ _ _ _ (cancel_log C R utcnow call _) (cancel_alone C' R' clock' call' _) Hrun).
Qed.

(** The submission of an order, whose caller is told whether it returned, and a
    cancellation of the same order. *)
Definition submission_and_cancellation (o : Order) (s : string) : list (task State bool) :=
  [_ ← submit_order_task C' gate' R' clock' callback' o; mret true; cancel_order_task C' R' clock' callback' (VStr s)].

End Race.

(** ** A callback that submits an order *)

Section Reentrancy.
Context {W CB : Type} `{EqDecision CB}.
Context (C : Connector W) (gate : RiskGate W) (R : OrderRepo W).
Context (utcnow : M W datetime) (call : CB → vdict → M W unit).
Context (view : W → string → option vdict).
Context {Laws : RepoLaws R view false} {QE : QuietEnv view utcnow call} {QP : QuietPeers view C gate}.
Context (ai : vdict) (ps : list vdict) (a : TradeApproval) (resp : vdict) (peers : Peers C gate ai ps a resp).
Context (callback : CB → vdict → task (ExecEngine CB * W) unit).
Abbreviation State := (ExecEngine CB * W)%type.

(** An accepted update when nobody listens to it. *)
Lemma unheard_update {A} s o e w (f : unit → task State A) :
  registered e "order_updated" = [] → stored view w s o → status o = PENDING →
  ∃ now w', advances (update_order_status_task R utcnow callback (VStr s) VALIDATED [] ≫= f) (e, w) (f tt) (e, w') ∧
            stored view w' s (moved o VALIDATED [] now).
Proof using Laws QE.
  intros Hnone Hs Hst. destruct (clock_reads w) as (now & w1 & Hnow & Hval). exists now.
  pose proof (order_wf_moved o VALIDATED [] now (proj1 Hs) eq_refl Hval) as Hwf.
  destruct (to_dict_total _ Hwf) as (d & Hd & _).
  destruct law_update as (upd & Hupd & Hu & _). destruct (Hu w1 s d) as (w2 & Hw2 & Hv2). exists w2.
  split; [|split; [done|by exists d]].
  refine (advances_within (λ p : task State unit, p ≫= f) _ (mret tt) _ _ ltac:(done) _).
  unfold update_order_status_task. eapply advances_call; [exact (get_order_stored R utcnow view false s o e w Hs)|].
  cbv beta iota. rewrite Hst. eapply advances_call; [by apply zoom_r_run|].
  cbv beta iota. fold (moved o VALIDATED [] now). rewrite Hupd, Hd.
  eapply advances_part; [|cbn; by rewrite Hw2|]; [done|]. eapply advances_pure; [done|].
  match goal with |- advances (_ ≫= ?g) _ _ _ =>
    refine (advances_within (λ p : task State unit, p ≫= g) _ (mret tt) _ _ ltac:(done) _) end.
  unfold emit_task. eapply (advances_call _ _ _ (registered e "order_updated")); [done|]. rewrite Hnone. constructor.
Qed.

(** No task but the one that waits for itself will ever release the lock: it stays
    held, and whoever asks for it waits for ever. *)
Definition asks (t : task_state State Order) : Prop :=
  match t with Running (Acquire _) | Parked _ => True | _ => False end.

Lemma blocked_step i (c : pool State Order) :
  locked c = true → Forall asks (tasks c) → locked (step i c) = true ∧ Forall asks (tasks (step i c)).
Proof.
  intros Hl Ht. unfold step. destruct (tasks c !! i) as [[[r|X m k|k|k]|p]|] eqn:Hi; try done;
    pose proof (proj1 (Forall_lookup _ _) Ht _ _ Hi) as Hk; try done.
  rewrite Hl. cbn. split; [done|]. by apply Forall_insert.
Qed.

Lemma blocked_for_ever schedule (c : pool State Order) :
  locked c = true → Forall asks (tasks c) → Forall (λ t, finished t = false) (tasks (run_schedule schedule c)).
Proof.
  revert c. induction schedule as [|i l IH]; intros c Hl Ht.
  - eapply Forall_impl; [exact Ht|]. by intros [[]|].
  - simpl. destruct (blocked_step i c Hl Ht). by apply IH.
Qed.

End Reentrancy.

(** ** Witnesses *)


(** An engine whose first callback submits the order again. *)
Definition resubmitting : nat → vdict → task (ExecEngine nat * Table) unit :=
  λ _ _, async_with (_ ← submit_section (demo_connector demo_resp true) (demo_gate approve) (mem_repo false) demo_clock
                           (world_callback demo_call) demo_order; mret tt).
Definition listening : ExecEngine nat := {| callbacks := [("order_created", [0%nat])] |}.

