(* ===== verification/Races.v ===== *)
(** * Status updates under interleaving (trading_service/src/execution/engine.py)

    [update_order_status] awaits the row it reads and, later, the row it writes;
    between the two another request of the event loop may run.  [submit_order]
    holds the engine's lock, [cancel_order] and [update_order_status] do not.  Here
    an update is a task of two steps, and a schedule says whose step is next. *)

From Stdlib Require Import ZArith Bool List Ascii String.
From stdpp Require Import base decidable list option strings.
From S2P Require Import Prelude PyFloat PyStr PyDateTime PyMonad PyDict PyVal Orders Execution.
Open Scope string_scope.
Open Scope py_scope.

(** ** The two halves of an update *)

Section Halves.
Context {W CB : Type} `{EqDecision CB}.
Context (R : OrderRepo W) (utcnow : M W datetime) (call : CB → vdict → M W unit).

(** Up to the await of [repo.update_order]: the order it is going to write. *)
Definition update_read (order_id : pyval) (st : OrderStatus) (kwargs : list OrderAttr) : M (ExecEngine CB * W) Order :=
  found ← get_order R utcnow order_id;
  match found with
  | None => raise (ValueError "order not found")
  | Some order =>
      if negb (transition_ok (status order) st) then raise (transition_error (status order) st)
      else now ← zoom_r utcnow; mret (moved order st kwargs now)
  end.

Definition update_write (order_id : pyval) (st : OrderStatus) (order : Order) : M (ExecEngine CB * W) unit :=
  match repo_update_order R with
  | None => raise (AttributeError "update_order")
  | Some update => d ← lift_res (to_dict order); zoom_r (update order_id d)
  end ;;
  d ← lift_res (to_dict order);
  emit call "order_updated" d ;;
  when (bool_decide (st = REJECTED)) (d ← lift_res (to_dict order); emit call "order_rejected" d).

(** Run one after the other they are [update_order_status]. *)
Lemma update_halves order_id st kwargs ew :
  update_order_status R utcnow call order_id st kwargs ew =
  (o ← update_read order_id st kwargs; update_write order_id st o) ew.
Proof.
  unfold update_order_status, update_read, mbind, M_bind.
  destruct (get_order R utcnow order_id ew) as [[[order|]|e] ew1]; [|done|done].
  destruct (negb (transition_ok (status order) st)); [done|].
  by destruct (zoom_r utcnow ew1) as [[now|e] ew2].
Qed.

(** ** Tasks and schedules *)

Inductive Phase := Reading | Writing (o : Order) | Over (r : res unit).

Record Task := { t_order : string; t_status : OrderStatus; t_kwargs : list OrderAttr; t_phase : Phase }.

Definition in_phase (p : Phase) (t : Task) : Task :=
  {| t_order := t_order t; t_status := t_status t; t_kwargs := t_kwargs t; t_phase := p |}.

Definition new_task (s : string) (st : OrderStatus) (kwargs : list OrderAttr) : Task :=
  {| t_order := s; t_status := st; t_kwargs := kwargs; t_phase := Reading |}.

Definition task_step (t : Task) (ew : ExecEngine CB * W) : Task * (ExecEngine CB * W) :=
  match t_phase t with
  | Reading =>
      match update_read (VStr (t_order t)) (t_status t) (t_kwargs t) ew with
      | (Ok o, ew') => (in_phase (Writing o) t, ew')
      | (Raise e, ew') => (in_phase (Over (Raise e)) t, ew')
      end
  | Writing o => let '(r, ew') := update_write (VStr (t_order t)) (t_status t) o ew in (in_phase (Over r) t, ew')
  | Over _ => (t, ew)
  end.

(** Each number of the schedule is the task that makes its next step. *)
Fixpoint interleave (schedule : list nat) (ts : list Task) (ew : ExecEngine CB * W) : list Task * (ExecEngine CB * W) :=
  match schedule with
  | [] => (ts, ew)
  | i :: rest =>
      match ts !! i with
      | Some t => let '(t', ew') := task_step t ew in interleave rest (<[i := t']> ts) ew'
      | None => interleave rest ts ew
      end
  end.
End Halves.

(** ** Every interleaving keeps rows legal *)

Section Theorems.
Context {W CB : Type} `{EqDecision CB}.
Context (R : OrderRepo W) (utcnow : M W datetime) (call : CB → vdict → M W unit).
Context (view : W → string → option vdict) (overwrites : bool).
Context {Laws : RepoLaws R view overwrites} {QE : QuietEnv view utcnow call}.
Implicit Types (e : ExecEngine CB) (w : W) (s : string) (o : Order).

Lemma read_run s st kwargs o e w :
  stored view w s o → transition_ok (status o) st = true → forallb attr_valid kwargs = true →
  ∃ now w', update_read R utcnow (VStr s) st kwargs (e, w) = (Ok (moved o st kwargs now), (e, w')) ∧
            order_wf (moved o st kwargs now) = true ∧ ∀ x, view w' x = view w x.
Proof.
  intros Hs Ht Hk. destruct (clock_reads w) as (now & w' & Hnow & Hval). exists now, w'.
  unfold update_read. step_by (get_order_stored R utcnow view overwrites s o e w Hs). rewrite Ht. cbn [negb].
  rewrite (bind_ok _ _ _ now (e, w')) by (by apply zoom_r_run). split; [done|].
  split; [apply order_wf_moved; [by destruct Hs|done|done]|].
  intros x. pose proof (clock_quiet w x) as Hq. by rewrite Hnow in Hq.
Qed.

Lemma read_refused s st kwargs o e w :
  stored view w s o → transition_ok (status o) st = false →
  update_read R utcnow (VStr s) st kwargs (e, w) = (Raise (transition_error (status o) st), (e, w)).
Proof.
  intros Hs Ht. unfold update_read. step_by (get_order_stored R utcnow view overwrites s o e w Hs). by rewrite Ht.
Qed.

Lemma write_run s st o e w :
  order_wf o = true → ∃ w', update_write R call (VStr s) st o (e, w) = (Ok tt, (e, w')) ∧ stored view w' s o.
Proof.
  intros Hwf. destruct (to_dict_total _ Hwf) as (d & Hd & _).
  destruct law_update as (upd & Hupd & Hu & _). destruct (Hu w s d) as (w2 & Hw2 & Hv2).
  destruct (emit_run utcnow call view "order_updated" d e w2) as (w3 & He3 & Hv3).
  unfold update_write. rewrite Hupd.
  rewrite (bind_ok _ _ _ tt (e, w2)).
  2:{ rewrite (bind_ok _ _ _ d (e, w)) by (unfold lift_res; by rewrite Hd). by apply zoom_r_run. }
  rewrite (bind_ok _ _ _ d (e, w2)) by (unfold lift_res; by rewrite Hd). step_by He3.
  case_bool_decide; simpl when.
  - destruct (emit_run utcnow call view "order_rejected" d e w3) as (w4 & He4 & Hv4). exists w4.
    rewrite (bind_ok _ _ _ d (e, w3)) by (unfold lift_res; by rewrite Hd).
    split; [done|]. split; [done|]. exists d. by rewrite Hv4, Hv3.
  - exists w3. split; [done|]. split; [done|]. exists d. by rewrite Hv3.
Qed.

(** The steps of one order's update leave the rows of the others. *)
Lemma read_row i st kwargs s v : preserves (row_is view s v) (update_read (CB:=CB) R utcnow i st kwargs).
Proof.
  unfold update_read. apply preserves_bind; [by eapply get_order_row|]. intros [order|]; [|apply preserves_raise].
  destruct (negb _); [apply preserves_raise|]. apply preserves_bind; [|intros; apply preserves_ret].
  apply quiet_row, (clock_quiet (call:=call)).
Qed.

Lemma write_row i st o s v : i ≠ VStr s → preserves (row_is view s v) (update_write R call i st o).
Proof.
  intros Hi. destruct law_update as (upd & Hupd & _ & Hother).
  assert (He : ∀ ev d, preserves (row_is view s v) (emit call ev d)) by (intros; by eapply emit_row).
  assert (Hw : ∀ d, preserves (row_is view s v) (zoom_r (S:=ExecEngine CB) (upd i d))).
  { intros d. apply (preserves_world_r (λ w, view w s = v)). intros w Hw. by rewrite (Hother w i d s Hi). }
  unfold update_write. rewrite Hupd. solve_pres.
Qed.

(** What a task carries for the order [s]: a well-formed order whose status the
    table reaches from [st0]. *)
Definition task_ok (s : string) (st0 : OrderStatus) (t : Task) : Prop :=
  forallb attr_valid (t_kwargs t) = true ∧
  (t_order t = s → match t_phase t with
                   | Writing o => order_wf o = true ∧ ∃ p, status_run st0 p (status o)
                   | _ => True
                   end).

Lemma task_step_ok s st0 t ew :
  has_history view s st0 ew → task_ok s st0 t →
  has_history view s st0 (task_step R utcnow call t ew).2 ∧ task_ok s st0 (task_step R utcnow call t ew).1.
Proof.
  intros Hh [Hk Ht]. destruct (decide (t_order t = s)) as [Heq|Hne].
  - specialize (Ht Heq). destruct ew as [e w]. unfold task_step. rewrite Heq. destruct (t_phase t) as [|o|r] eqn:Hp.
    + destruct Hh as (o & p & Hs & Hr). simpl in Hs. destruct (transition_ok (status o) (t_status t)) eqn:Htr.
      * destruct (read_run s (t_status t) (t_kwargs t) o e w Hs Htr Hk) as (now & w' & -> & Hwf & Hv). cbn [fst snd].
        split; [exists o, p; split; [|done]; destruct Hs as (? & d & ? & ?); split; [done|]; exists d; by rewrite Hv|].
        split; [done|]. intros _. cbn [in_phase t_phase]. split; [done|]. rewrite status_moved.
        destruct (transition_ok_cases _ _ Htr) as [Hst|Hsame]; [|exists p; by rewrite Hsame].
        exists (p ++ [t_status t])%list. by apply (status_run_snoc _ _ _ _ Hr).
      * rewrite (read_refused s _ _ o e w Hs Htr). cbn [fst snd]. split; [by exists o, p|]. by split.
    + destruct Ht as [Hwf [p Hr]]. destruct (write_run s (t_status t) o e w Hwf) as (w' & -> & Hs). cbn [fst snd].
      split; [by exists o, p|]. by split.
    + cbn [fst snd]. split; [done|]. split; [done|]. intros _. by rewrite Hp.
  - assert (Hrow : ∀ A (m : M (ExecEngine CB * W) A), (∀ v, preserves (row_is view s v) m) → has_history view s st0 (m ew).2)
      by (intros A m Hm; by apply (row_history view m s st0 Hm)).
    assert (Hni : VStr (t_order t) ≠ VStr s) by congruence.
    unfold task_step. destruct (t_phase t) as [|o|r] eqn:Hp.
    + pose proof (Hrow _ _ (λ v, read_row (VStr (t_order t)) (t_status t) (t_kwargs t) s v)) as Hr.
      destruct (update_read _ _ _ _ _ ew) as [[o|x] ew']; (split; [exact Hr|by split]).
    + pose proof (Hrow _ _ (λ v, write_row (VStr (t_order t)) (t_status t) o s v Hni)) as Hr.
      destruct (update_write _ _ _ _ _ ew) as [r ew']. split; [exact Hr|by split].
    + split; [done|]. by split.
Qed.

(** Status updates under concurrency.  Start any number of updates, of any orders
    and to any statuses, and let the event loop run their reads and writes in any
    order: at every moment the row of an order holds an order whose status the
    transition table reaches from the status it began with. *)
Theorem interleaved_updates_stay_reachable schedule ts s o e w :
  stored view w s o → Forall (λ t, t_phase t = Reading ∧ forallb attr_valid (t_kwargs t) = true) ts →
  ∃ o' p, stored view (interleave R utcnow call schedule ts (e, w)).2.2 s o' ∧ status_run (status o) p (status o').
Proof.
  intros Hs Hts.
  assert (Hinv : ∀ ts ew, has_history view s (status o) ew → Forall (task_ok s (status o)) ts →
                 has_history view s (status o) (interleave R utcnow call schedule ts ew).2).
  { clear ts Hs Hts. induction schedule as [|i rest IH]; intros ts ew Hh Hts; simpl; [done|].
    destruct (ts !! i) as [t|] eqn:Hi; [|by apply IH].
    destruct (task_step_ok s (status o) t ew Hh (proj1 (Forall_lookup _ _) Hts i t Hi)) as [Hh' Ht'].
    destruct (task_step R utcnow call t ew) as [t' ew']. apply IH; [done|]. by apply Forall_insert. }
  destruct (Hinv ts (e, w)) as (o' & p & Hs' & Hr); [by exists o, []; split; [|constructor]| |by exists o', p].
  eapply Forall_impl; [exact Hts|]. intros t [Hp Hk]. split; [done|]. by rewrite Hp.
Qed.

(** Two updates of one order that interleave: the later write wins.  From an order
    whose status allows both [st1] and [st2], while [st1] does not allow [st2]
    (SUBMITTED, then FILLED by the submission and CANCELED by a cancellation): run
    one after the other, the second update is refused and the row stays at [st1].
    But when the second one reads before the first one writes, both return without
    an error, the row moves from [st1] to [st2], a step the table does not have, and
    nothing of the first update is left in it. *)
Theorem unlocked_updates_overwrite s o st1 st2 k1 k2 e w :
  stored view w s o → transition_ok (status o) st1 = true → transition_ok (status o) st2 = true →
  transition_ok st1 st2 = false → forallb attr_valid k1 = true → forallb attr_valid k2 = true →
  let run schedule := interleave R utcnow call schedule [new_task s st1 k1; new_task s st2 k2] (e, w) in
  ((run [0; 0; 1])%nat.1 !! 1%nat = Some (in_phase (Over (Raise (transition_error st1 st2))) (new_task s st2 k2)) ∧
   ∃ now, stored view (run [0; 0; 1])%nat.2.2 s (moved o st1 k1 now)) ∧
  (∃ now, stored view (run [0; 1; 0])%nat.2.2 s (moved o st1 k1 now)) ∧
  (∃ now, stored view (run [0; 1; 0; 1])%nat.2.2 s (moved o st2 k2 now)) ∧
  Forall (λ t, t_phase t = Over (Ok tt)) (run [0; 1; 0; 1])%nat.1.
Proof.
  intros Hs H1 H2 H12 Hk1 Hk2 run. subst run.
  assert (Hkeep : ∀ w w' x, (∀ x, view w' x = view w x) → stored view w s x → stored view w' s x).
  { intros v v' x Hv (Hx & d & Hd & Hr). split; [done|]. exists d. by rewrite Hv. }
  destruct (read_run s st1 k1 o e w Hs H1 Hk1) as (n1 & w1 & R1 & Wf1 & V1).
  destruct (read_run s st2 k2 o e w1 (Hkeep _ _ _ V1 Hs) H2 Hk2) as (n2 & w2 & R2 & Wf2 & V2).
  destruct (write_run s st1 _ e w1 Wf1) as (w3 & W3 & S3).
  destruct (write_run s st1 _ e w2 Wf1) as (w4 & W4 & S4).
  destruct (write_run s st2 _ e w4 Wf2) as (w5 & W5 & S5).
  assert (R3 := read_refused s st2 k2 _ e w3 S3 ltac:(by rewrite status_moved)). rewrite status_moved in R3.
  unfold interleave, task_step. cbn -[update_read update_write].
  rewrite R1. cbn -[update_read update_write]. rewrite R2, W3. cbn -[update_read update_write].
  rewrite R3, W4. cbn -[update_read update_write]. rewrite W5. cbn -[update_read update_write].
  split; [split; [done|by exists n1]|]. split; [by exists n1|]. split; [by exists n2|]. by repeat constructor.
Qed.
End Theorems.

(** ** Witnesses: a fill and a cancellation of a submitted order *)

Definition submitted_order : Order := with_status SUBMITTED demo_order.
Definition submitted_table : Table :=
  [("o-1", match to_dict submitted_order with Ok d => d | Raise _ => [] end)].

Lemma submitted_stored : stored dget submitted_table "o-1" submitted_order.
Proof. split; [reflexivity|]. eexists. split; reflexivity. Qed.

Definition demo_fill : Task := new_task "o-1" FILLED [Filled_quantity (quantity demo_order); Closed_at demo_date].
Definition demo_cancel : Task := new_task "o-1" CANCELED [].
Definition demo_race (schedule : list nat) : list Task * (ExecEngine nat * Table) :=
  interleave (mem_repo false) demo_clock demo_call schedule [demo_fill; demo_cancel] (demo_exec, submitted_table).

Lemma interleaved_updates_witness :
  ∃ o' p, stored dget (demo_race [0; 1; 0; 1; 1]%nat).2.2 "o-1" o' ∧ status_run SUBMITTED p (status o').
Proof.
  refine (interleaved_updates_stay_reachable (mem_repo false) demo_clock demo_call dget false [0; 1; 0; 1; 1]%nat
    [demo_fill; demo_cancel] "o-1" submitted_order demo_exec submitted_table submitted_stored _).
  repeat constructor.
Defined.

Lemma unlocked_updates_witness :
  (∃ now, stored dget (demo_race [0; 1; 0]%nat).2.2 "o-1"
            (moved submitted_order FILLED [Filled_quantity (quantity demo_order); Closed_at demo_date] now)) ∧
  (∃ now, stored dget (demo_race [0; 1; 0; 1]%nat).2.2 "o-1" (moved submitted_order CANCELED [] now)).
Proof.
  destruct (unlocked_updates_overwrite (mem_repo false) demo_clock demo_call dget false "o-1" submitted_order FILLED CANCELED
    [Filled_quantity (quantity demo_order); Closed_at demo_date] [] demo_exec submitted_table submitted_stored
    eq_refl eq_refl eq_refl eq_refl eq_refl) as (_ & Hfill & Hcancel & _).
  split; [exact Hfill|exact Hcancel].
Defined.
