(* ===== verification/Mt5.v ===== *)
(** * The MetaTrader 5 connector (trading_service/src/connectors/mt5.py)

    The connector's private state is [ConnState]; the MetaTrader5 module, which
    the sources import but do not contain, is the record [Terminal] of its calls
    and constants, absent ([None]) where the import failed.  The price queries
    ([get_ticks], [get_rates]) are in Mt5Codes.v. *)

From Stdlib Require Import ZArith Lia Bool List Ascii String.
From stdpp Require Import base decidable list option strings.
From S2P Require Import Prelude PyFloat PyStr PyDateTime PyMonad PyDict PyVal.
Open Scope string_scope.
Open Scope Z_scope.
Open Scope py_scope.

(** ** The module *)

(** A named tuple is the dictionary of its fields ([_asdict]). *)
Definition attr (v : vdict) (k : string) : res pyval :=
  match dget v k with Some x => Ok x | None => Raise (AttributeError k) end.

(** What the code reads of [symbol_info], [symbol_info_tick], [order_send] and
    [positions_get] results; [None] is an attribute the object does not have. *)
Record SymbolInfo := {
  trade_mode : option Z;
  volume_min : float; volume_max : float; volume_step : float;
  trade_tick_size : option float;
  trade_stops_level : option Z;
  point : float
}.

Record Tick := { ask : float; bid : float }.

Record SendResult := { sr_retcode : option pyval; sr_asdict : option vdict }.

Record Position := {
  ticket : pyval; pos_symbol : pyval; pos_type : Z; pos_volume : pyval; pos_asdict : vdict
}.

Record Terminal (W : Type) := {
  initialize : option string → Z → M W bool;
  login : Z → string → string → M W bool;
  shutdown : M W unit;
  last_error : M W string;
  terminal_info : M W bool;
  symbol_select : pyval → bool → M W bool;
  symbol_info : pyval → M W (option SymbolInfo);
  symbol_info_tick : pyval → M W (option Tick);
  order_calc_margin : Z → pyval → float → float → M W (option float);
  terminal_account_info : M W (option vdict);
  order_send : vdict → M W (option SendResult);
  positions_get : option pyval → option Z → M W (option (list Position));
  orders_get : option pyval → M W (option (list vdict));
  TRADE_ACTION_DEAL : Z; TRADE_ACTION_PENDING : Z; TRADE_ACTION_MODIFY : Z; TRADE_ACTION_REMOVE : Z;
  ORDER_TYPE_BUY : Z; ORDER_TYPE_SELL : Z; POSITION_TYPE_BUY : Z;
  ORDER_TIME_GTC : Z; ORDER_FILLING_RETURN : Z; ORDER_FILLING_IOC : Z;
  SYMBOL_TRADE_MODE_DISABLED : option Z; SYMBOL_TRADE_MODE_CLOSEONLY : option Z
}.
Arguments initialize {W}. Arguments login {W}. Arguments shutdown {W}. Arguments last_error {W}.
Arguments terminal_info {W}. Arguments symbol_select {W}. Arguments symbol_info {W}.
Arguments symbol_info_tick {W}. Arguments order_calc_margin {W}. Arguments terminal_account_info {W}.
Arguments order_send {W}. Arguments positions_get {W}. Arguments orders_get {W}.
Arguments TRADE_ACTION_DEAL {W}. Arguments TRADE_ACTION_PENDING {W}. Arguments TRADE_ACTION_MODIFY {W}.
Arguments TRADE_ACTION_REMOVE {W}. Arguments ORDER_TYPE_BUY {W}. Arguments ORDER_TYPE_SELL {W}.
Arguments POSITION_TYPE_BUY {W}. Arguments ORDER_TIME_GTC {W}. Arguments ORDER_FILLING_RETURN {W}.
Arguments ORDER_FILLING_IOC {W}. Arguments SYMBOL_TRADE_MODE_DISABLED {W}.
Arguments SYMBOL_TRADE_MODE_CLOSEONLY {W}.

(** ** Data *)

Definition generic_retcode (n : Z) : string := String.append "MT5 retcode " (str_Z n).

(** The entries of [RETCODE_MAPPING.update]. *)
Definition retcode_names : dict Z string := [
  (10004, "Requote"); (10006, "Request rejected"); (10007, "Request canceled by trader");
  (10008, "Order placed"); (10009, "Order modified"); (10010, "Request accepted");
  (10011, "System order placed"); (10012, "Order filled partially"); (10013, "Order filled fully");
  (10014, "Order canceled"); (10015, "Order deleted"); (10016, "Order modified partially");
  (10017, "Order rejected"); (10018, "Order activation triggered");
  (10019, "Order placed by external system"); (10030, "Invalid stops"); (10031, "Invalid volume");
  (10032, "Market closed"); (10033, "No money"); (10034, "Price changed"); (10035, "Off quotes");
  (10036, "Broker busy"); (10039, "Too many requests"); (10041, "Trade disabled");
  (10046, "Invalid price"); (10051, "Position closed"); (10060, "Connection lost");
  (10069, "Trade timeout")].

Definition RETCODE_MAPPING : dict Z string :=
  dupdate (List.map (λ i, (10004 + Z.of_nat i, generic_retcode (10004 + Z.of_nat i))) (seq 0 66))
          retcode_names.

Definition success_codes : list Z := [10008; 10009; 10010; 10011; 10012; 10013; 10018; 10019].

Definition Zmem (n : Z) (l : list Z) : bool := existsb (Z.eqb n) l.

Record MT5Credentials := {
  cred_account_id : Z; password : string; server : string; path : option string
}.

Record MT5ConnectionConfig := {
  reconnect_attempts : Z; reconnect_delay : float; backoff_multiplier : float;
  heartbeat_interval : Z; timeout_ms : Z
}.

Definition default_config : MT5ConnectionConfig := {|
  reconnect_attempts := 10; reconnect_delay := f1; backoff_multiplier := flit 2 1;
  heartbeat_interval := 5; timeout_ms := 30000
|}.

(** The connector's fields.  A heartbeat task is known by a number:
    [heartbeat_task] is the one held, [live_tasks] are those started and neither
    cancelled nor finished. *)
Record ConnState := {
  connected : bool;
  heartbeat_task : option nat;
  live_tasks : list nat;
  next_task : nat;
  started_at : option float;
  last_heartbeat : option datetime;
  reconnect_count : Z;
  idempotency : dict string Z
}.

Definition initial_conn : ConnState := {|
  connected := false; heartbeat_task := None; live_tasks := []; next_task := 0; started_at := None;
  last_heartbeat := None; reconnect_count := 0; idempotency := []
|}.

Definition set_connected (b : bool) (c : ConnState) : ConnState :=
  {| connected := b; heartbeat_task := heartbeat_task c; live_tasks := live_tasks c;
     next_task := next_task c; started_at := started_at c; last_heartbeat := last_heartbeat c;
     reconnect_count := reconnect_count c; idempotency := idempotency c |}.
Definition set_started (t : float) (c : ConnState) : ConnState :=
  {| connected := connected c; heartbeat_task := heartbeat_task c; live_tasks := live_tasks c;
     next_task := next_task c; started_at := Some t; last_heartbeat := last_heartbeat c;
     reconnect_count := reconnect_count c; idempotency := idempotency c |}.
Definition set_beat (t : datetime) (c : ConnState) : ConnState :=
  {| connected := connected c; heartbeat_task := heartbeat_task c; live_tasks := live_tasks c;
     next_task := next_task c; started_at := started_at c; last_heartbeat := Some t;
     reconnect_count := reconnect_count c; idempotency := idempotency c |}.
(** [asyncio.create_task(self.heartbeat())], and the end of task [i]. *)
Definition start_heartbeat (c : ConnState) : ConnState :=
  {| connected := connected c; heartbeat_task := Some (next_task c); live_tasks := (live_tasks c ++ [next_task c])%list;
     next_task := S (next_task c); started_at := started_at c; last_heartbeat := last_heartbeat c;
     reconnect_count := reconnect_count c; idempotency := idempotency c |}.
Definition end_task (i : nat) (c : ConnState) : ConnState :=
  {| connected := connected c; heartbeat_task := heartbeat_task c; live_tasks := List.filter (λ j, negb (Nat.eqb j i)) (live_tasks c);
     next_task := next_task c; started_at := started_at c; last_heartbeat := last_heartbeat c;
     reconnect_count := reconnect_count c; idempotency := idempotency c |}.
Definition count_reconnect (c : ConnState) : ConnState :=
  {| connected := connected c; heartbeat_task := heartbeat_task c; live_tasks := live_tasks c;
     next_task := next_task c; started_at := started_at c; last_heartbeat := last_heartbeat c;
     reconnect_count := reconnect_count c + 1; idempotency := idempotency c |}.
Definition remember (client_id : string) (broker_id : Z) (c : ConnState) : ConnState :=
  {| connected := connected c; heartbeat_task := heartbeat_task c; live_tasks := live_tasks c;
     next_task := next_task c; started_at := started_at c; last_heartbeat := last_heartbeat c;
     reconnect_count := reconnect_count c; idempotency := dset (idempotency c) client_id broker_id |}.

(** ** Validation *)

(** [round(x)] to an integer. *)
Definition py_round (x : float) : res Z :=
  match f_round x with
  | Some z => Ok z
  | None =>
      if is_nan x then Raise (ValueError "cannot convert float NaN to integer")
      else Raise (OverflowError "cannot convert float infinity to integer")
  end.

Definition nano : float := flit 1 1000000000.

(** [abs(q - round(q)) > 1e-9] for [q = x / unit]. *)
Definition misaligned (x unit : float) : res bool :=
  q ← py_fdiv x unit;
  r ← py_round q;
  rf ← float_of_int r;
  mret (flt nano (fabs (fsub q rf))).

(** A validator's answer: [None] is [(True, "ok")]. *)
Abbreviation verdict := (option string).

Definition validate_volume (info : SymbolInfo) (volume : float) : res verdict :=
  if flt volume (volume_min info) || flt (volume_max info) volume then Ok (Some "volume outside range")
  else if flt f0 (volume_step info) then
    bad ← misaligned volume (volume_step info);
    mret (if bad : bool then Some "volume step invalid" else None)
  else Ok None.

(** [float(getattr(info, k, 0) or 0)] of an optional float. *)
Definition or_zero (x : option float) : float :=
  match x with Some f => if is_zero f then f0 else f | None => f0 end.

Definition validate_price_tick (info : SymbolInfo) (price : float) : res verdict :=
  let tick_size := or_zero (trade_tick_size info) in
  if fle tick_size f0 then Ok None
  else
    bad ← misaligned price tick_size;
    mret (if bad : bool then Some "price not aligned to tick size" else None).

(** [price - v] of a float and a dynamic value. *)
Definition num_sub (price : float) (v : pyval) : res float :=
  match v with
  | VFloat f => Ok (fsub price f)
  | VInt z => f ← float_of_int z; mret (fsub price f)
  | VBool b => f ← float_of_int (if b then 1 else 0); mret (fsub price f)
  | _ => Raise (TypeError "unsupported operand type(s) for -")
  end.

(** [v and abs(price - v) < stops_level]. *)
Definition too_close (price stops_level : float) (v : pyval) : res bool :=
  if truthy v then d ← num_sub price v; mret (flt (fabs d) stops_level) else Ok false.

Definition validate_stops (info : SymbolInfo) (price : float) (sl tp : pyval) : res verdict :=
  level ← float_of_int (default 0 (trade_stops_level info));
  let stops_level := fmul level (point info) in
  bad_sl ← too_close price stops_level sl;
  if bad_sl : bool then Ok (Some "stop loss too close")
  else
    bad_tp ← too_close price stops_level tp;
    mret (if bad_tp : bool then Some "take profit too close" else None).

Definition error_reply (msg : string) : vdict := [("ok", VBool false); ("error", VStr msg)].

(** [s[:n]] *)
Definition str_take (n : nat) (s : string) : string := String.substring 0 n s.

(** ** The connector *)

Section Connector.
Context `{PyRepr} {W : Type} (mt5 : option (Terminal W)).
Context (creds : MT5Credentials) (config : MT5ConnectionConfig).
(** [time.time()], [datetime.utcnow()], [asyncio.sleep]. *)
Context (time : M W float) (utcnow : M W datetime) (sleep : float → M W unit).

Definition conn_get {A} (f : ConnState → A) : M (ConnState * W) A := gets (λ cw, f cw.1).
Definition conn_set (f : ConnState → ConnState) : M (ConnState * W) unit :=
  modify (λ cw, (f cw.1, cw.2)).

(** [mt5.attr] when the import failed. *)
Definition need_mt5 : M (ConnState * W) (Terminal W) :=
  match mt5 with
  | Some t => mret t
  | None => raise (AttributeError "'NoneType' object has no attribute")
  end.

Definition conn_connect : M (ConnState * W) bool :=
  c ← conn_get connected;
  if c : bool then mret true
  else
    match mt5 with
    | None => mret false
    | Some t =>
        ok ← zoom_r (initialize t (match path creds with Some "" => None | p => p end) (timeout_ms config));
        if negb ok then _ ← zoom_r (last_error t); mret false
        else
          logged ← zoom_r (login t (cred_account_id creds) (password creds) (server creds));
          if negb logged then _ ← zoom_r (last_error t); zoom_r (shutdown t) ;; mret false
          else
            conn_set (set_connected true) ;;
            now ← zoom_r time;
            conn_set (set_started now) ;;
            beat ← zoom_r utcnow;
            conn_set (set_beat beat) ;;
            conn_set start_heartbeat ;;
            mret true
    end.

Definition disconnect : M (ConnState * W) unit :=
  task ← conn_get heartbeat_task;
  match task with Some i => conn_set (end_task i) | None => mret tt end ;;
  match mt5 with Some t => zoom_r (shutdown t) | None => mret tt end ;;
  conn_set (set_connected false).

(** [for _ in range(n)], with the delay of the coming turn. *)
Fixpoint reconnect_loop (n : nat) (delay : float) : M (ConnState * W) bool :=
  match n with
  | O => mret false
  | S n' =>
      conn_set count_reconnect ;;
      zoom_r (sleep delay) ;;
      ok ← conn_connect;
      if ok : bool then mret true
      else reconnect_loop n' (fmul delay (backoff_multiplier config))
  end.

Definition reconnect : M (ConnState * W) bool :=
  reconnect_loop (Z.to_nat (reconnect_attempts config)) (reconnect_delay config).

(** The [try] block of a heartbeat turn. *)
Definition check_terminal : M (ConnState * W) unit :=
  info ← match mt5 with Some t => zoom_r (terminal_info t) | None => mret false end;
  if negb info then conn_set (set_connected false) ;; _ ← reconnect; mret tt
  else now ← zoom_r utcnow; conn_set (set_beat now).

(** One turn of task [me]'s loop [while self._connected]; [false] when it ends. *)
Definition heartbeat_once (me : nat) : M (ConnState * W) bool :=
  c ← conn_get connected;
  if negb c then conn_set (end_task me) ;; mret false
  else
    try_except check_terminal (λ _, mret tt) ;;
    d ← lift_res (float_of_int (heartbeat_interval config));
    zoom_r (sleep d) ;;
    mret true.

(** The task's first [n] turns. *)
Fixpoint heartbeat (me : nat) (n : nat) : M (ConnState * W) unit :=
  match n with
  | O => mret tt
  | S n' => more ← heartbeat_once me; if more : bool then heartbeat me n' else mret tt
  end.

(** [_validate_symbol]: the message, or the symbol's data. *)
Definition validate_symbol (symbol : pyval) : M (ConnState * W) (string + Terminal W * SymbolInfo) :=
  match mt5 with
  | None => mret (inl "symbol not found")
  | Some t =>
      found ← zoom_r (symbol_info t symbol);
      match found with
      | None => mret (inl "symbol not found")
      | Some info =>
          let mode := default 0 (trade_mode info) in
          if mode =? default (-1) (SYMBOL_TRADE_MODE_DISABLED t) then mret (inl "symbol trade mode disabled")
          else if mode =? default (-2) (SYMBOL_TRADE_MODE_CLOSEONLY t) then mret (inl "symbol is close-only")
          else mret (inr (t, info))
      end
  end.

Definition client_id_of (order : vdict) : string :=
  py_str (py_or (vget order "client_order_id") (py_or (vget order "idempotency_key") (VStr ""))).

Definition side_text (order : vdict) : string := str_upper (py_str (vget_or order "side" (VStr "BUY"))).
Definition type_text (order : vdict) : string := str_upper (py_str (vget_or order "type" (VStr "MARKET"))).

Definition order_volume (order : vdict) : res float :=
  py_float (py_or (vget order "volume") (py_or (vget order "quantity") (VInt 0))).

Definition buy_sell (t : Terminal W) (order : vdict) : Z :=
  if String.eqb (side_text order) "BUY" then ORDER_TYPE_BUY t else ORDER_TYPE_SELL t.

(** The request dictionary. *)
Definition build_request (t : Terminal W) (order : vdict) (volume price : float) : res vdict :=
  sl ← py_float (py_or (vget order "stop_price") (VInt 0));
  tp ← py_float (py_or (vget order "limit_price") (VInt 0));
  deviation ← py_int (vget_or order "deviation" (VInt 10));
  magic ← py_int (vget_or order "magic" (VInt 100001));
  let client_id := client_id_of order in
  mret [("action", VInt (if String.eqb (type_text order) "MARKET" then TRADE_ACTION_DEAL t else TRADE_ACTION_PENDING t));
        ("symbol", vget order "symbol"); ("volume", VFloat volume);
        ("type", VInt (buy_sell t order)); ("price", VFloat price);
        ("sl", VFloat sl); ("tp", VFloat tp); ("deviation", VInt deviation); ("magic", VInt magic);
        ("comment", VStr (str_take 31 (py_str (py_or (VStr client_id) (vget_or order "comment" (VStr "mtrader"))))));
        ("type_time", VInt (ORDER_TIME_GTC t)); ("type_filling", VInt (ORDER_FILLING_RETURN t))].

(** From the symbol lookup to the request: every check that can answer early. *)
Definition prepare (order : vdict) (volume : float) : M (ConnState * W) (vdict + Terminal W * vdict) :=
  let symbol := vget order "symbol" in
  checked ← validate_symbol symbol;
  match checked with
  | inl msg => mret (inl (error_reply msg))
  | inr (t, info) =>
      v ← lift_res (validate_volume info volume);
      match v with Some msg => mret (inl (error_reply msg)) | None =>
      tick ← zoom_r (symbol_info_tick t symbol);
      match tick with None => mret (inl (error_reply "no market tick")) | Some tick =>
      price ← lift_res (py_float (py_or (vget order "price")
                 (VFloat (if String.eqb (side_text order) "BUY" then ask tick else bid tick))));
      v ← lift_res (validate_price_tick info price);
      match v with Some msg => mret (inl (error_reply msg)) | None =>
      v ← lift_res (validate_stops info price (vget order "stop_price") (vget order "limit_price"));
      match v with Some msg => mret (inl (error_reply msg)) | None =>
      selected ← zoom_r (symbol_select t symbol true);
      if negb selected then mret (inl (error_reply "symbol select failed")) else
      margin ← zoom_r (order_calc_margin t (buy_sell t order) symbol volume price);
      acct ← zoom_r (terminal_account_info t);
      poor ← lift_res (match margin, acct with
                       | Some m, Some a => v ← attr a "margin_free"; free ← py_float v; mret (flt free m)
                       | _, _ => Ok true
                       end);
      if poor : bool then mret (inl (error_reply "insufficient margin")) else
      req ← lift_res (build_request t order volume price);
      mret (inr (t, req))
      end end end end
  end.

(** [int(getattr(result, "retcode", 0) or 0)]. *)
Definition result_retcode (r : SendResult) : res Z :=
  py_int (py_or (default (VInt 0) (sr_retcode r)) (VInt 0)).

Definition retcode_message (n : Z) : string :=
  match dget RETCODE_MAPPING n with
  | Some s => s
  | None => String.append "Unknown retcode " (str_Z n)
  end.

(** Sending the request and reading the answer. *)
Definition send_request (client_id : string) (t : Terminal W) (req : vdict) : M (ConnState * W) vdict :=
  result ← zoom_r (order_send t req);
  match result with
  | None =>
      err ← zoom_r (last_error t);
      mret (error_reply (String.append "order_send failed " err))
  | Some r =>
      retcode ← lift_res (result_retcode r);
      let payload := default [("retcode", VInt retcode)] (sr_asdict r) in
      broker_order_id ← lift_res (py_int (py_or (vget payload "order") (py_or (vget payload "deal") (VInt 0))));
      when (negb (String.eqb client_id "") && negb (broker_order_id =? 0))
        (conn_set (remember client_id broker_order_id)) ;;
      mret [("ok", VBool (Zmem retcode success_codes)); ("retcode", VInt retcode);
            ("retcode_message", VStr (retcode_message retcode));
            ("broker_order_id", VInt broker_order_id); ("result", VDict payload)]
  end.

Definition duplicate_reply (broker_id : Z) : vdict :=
  [("ok", VBool true); ("duplicate", VBool true); ("broker_order_id", VInt broker_id)].

Definition mt5_execute_order (order : vdict) : M (ConnState * W) vdict :=
  let client_id := client_id_of order in
  known ← conn_get (λ c, if String.eqb client_id "" then None else dget (idempotency c) client_id);
  match known with
  | Some broker_id => mret (duplicate_reply broker_id)
  | None =>
      volume ← lift_res (order_volume order);
      if negb (truthy (vget order "symbol")) || fle volume f0 then mret (error_reply "invalid order payload")
      else
        prepared ← prepare order volume;
        match prepared with
        | inl reply => mret reply
        | inr (t, req) => send_request client_id t req
        end
  end.

(** [v = float(x)] where the argument is not [None]. *)
Definition opt_float (k : string) (v : pyval) : res vdict :=
  if is_none v then Ok [] else f ← py_float v; mret [(k, VFloat f)].

Definition reply_of (ok_codes : list Z) (r : SendResult) : res vdict :=
  retcode ← py_int (default (VInt 0) (sr_retcode r));
  payload ← match sr_asdict r with Some d => Ok d | None => Raise (AttributeError "_asdict") end;
  mret [("ok", VBool (Zmem retcode ok_codes)); ("retcode", VInt retcode);
        ("retcode_message", VStr (match dget RETCODE_MAPPING retcode with Some s => s | None => str_Z retcode end));
        ("result", VDict payload)].

Definition modify_order (order_id price stop_price limit_price quantity : pyval) : M (ConnState * W) vdict :=
  t ← need_mt5;
  oid ← lift_res (py_int order_id);
  p ← lift_res (opt_float "price" price);
  s ← lift_res (opt_float "sl" stop_price);
  l ← lift_res (opt_float "tp" limit_price);
  q ← lift_res (opt_float "volume" quantity);
  res ← zoom_r (order_send t ([("action", VInt (TRADE_ACTION_MODIFY t)); ("order", VInt oid)] ++ p ++ s ++ l ++ q)%list);
  match res with
  | None => mret (error_reply "modify failed")
  | Some r => lift_res (reply_of [10009; 10016] r)
  end.

Definition mt5_cancel_order (order_id : pyval) : M (ConnState * W) bool :=
  t ← need_mt5;
  oid ← lift_res (py_int order_id);
  res ← zoom_r (order_send t [("action", VInt (TRADE_ACTION_REMOVE t)); ("order", VInt oid)]);
  match res with
  | None => mret false
  | Some r => n ← lift_res (py_int (default (VInt 0) (sr_retcode r))); mret (Zmem n [10014; 10015])
  end.

Definition close_position (position_id : pyval) (deviation : pyval) : M (ConnState * W) vdict :=
  t ← need_mt5;
  pid ← lift_res (py_int position_id);
  positions ← zoom_r (positions_get t None (Some pid));
  match positions with
  | None | Some [] => mret (error_reply "position not found")
  | Some (pos :: _) =>
      tick ← zoom_r (symbol_info_tick t (pos_symbol pos));
      let close_type := if pos_type pos =? POSITION_TYPE_BUY t then ORDER_TYPE_SELL t else ORDER_TYPE_BUY t in
      price ← lift_res (match tick with
                        | Some k => Ok (if close_type =? ORDER_TYPE_SELL t then bid k else ask k)
                        | None => Raise (AttributeError "'NoneType' object has no attribute")
                        end);
      volume ← lift_res (py_float (pos_volume pos));
      dev ← lift_res (py_int deviation);
      res ← zoom_r (order_send t
        [("action", VInt (TRADE_ACTION_DEAL t)); ("position", VInt pid); ("symbol", pos_symbol pos);
         ("volume", VFloat volume); ("type", VInt close_type); ("price", VFloat price);
         ("deviation", VInt dev); ("type_time", VInt (ORDER_TIME_GTC t));
         ("type_filling", VInt (ORDER_FILLING_IOC t))]);
      match res with
      | None => mret (error_reply "close failed")
      | Some r => lift_res (reply_of [10013; 10012] r)
      end
  end.

Definition mt5_close_all_positions (symbol : pyval) : M (ConnState * W) (list vdict) :=
  t ← need_mt5;
  rows ← zoom_r (positions_get t (if truthy symbol then Some symbol else None) None);
  map_each (λ r, close_position (ticket r) (VInt 10)) (default [] rows).

Definition mt5_get_account_info : M (ConnState * W) vdict :=
  t ← need_mt5;
  info ← zoom_r (terminal_account_info t);
  match info with
  | None => mret []
  | Some d =>
      mret [("balance", vget d "balance"); ("equity", vget d "equity"); ("margin", vget d "margin");
            ("free_margin", vget d "margin_free"); ("margin_level", vget d "margin_level");
            ("profit", vget d "profit"); ("leverage", vget d "leverage"); ("currency", vget d "currency")]
  end.

Definition mt5_get_positions (symbol : pyval) : M (ConnState * W) (list vdict) :=
  t ← need_mt5;
  rows ← zoom_r (positions_get t (if truthy symbol then Some symbol else None) None);
  mret (List.map pos_asdict (default [] rows)).

Definition mt5_get_orders (symbol : pyval) : M (ConnState * W) (list vdict) :=
  t ← need_mt5;
  rows ← zoom_r (orders_get t (if truthy symbol then Some symbol else None));
  mret (default [] rows).

Definition subscribe_market_data (symbols : list string) : M (ConnState * W) (list (string * bool)) :=
  map_each (λ s, ok ← match mt5 with Some t => zoom_r (symbol_select t (VStr s) true) | None => mret false end;
                 mret (s, ok)) symbols.

Definition unsubscribe_market_data (symbols : list string) : M (ConnState * W) unit :=
  for_each (λ s, match mt5 with
                 | Some t => _ ← zoom_r (symbol_select t (VStr s) false); mret tt
                 | None => mret tt
                 end) symbols.

(** [connection_health]. *)
Definition connection_health : M (ConnState * W) vdict :=
  st ← conn_get started_at;
  uptime ← match st with
           | Some s => if is_zero s then mret 0
                       else now ← zoom_r time; lift_res (py_int (VFloat (fsub now s)))
           | None => mret 0
           end;
  beat ← conn_get last_heartbeat;
  n ← conn_get reconnect_count;
  mret [("uptime", VInt uptime);
        ("last_heartbeat", match beat with Some t => VStr (isoformat t) | None => VNone end);
        ("reconnect_count", VInt n)].

Definition is_connected : M (ConnState * W) bool := conn_get connected.

(** [on] and [off] take a callback and forget it. *)
Definition conn_on {CB} (event : string) (callback : CB) : M (ConnState * W) unit := mret tt.
Definition conn_off {CB} (event : string) (callback : CB) : M (ConnState * W) unit := mret tt.
End Connector.

(** ** What reaches the broker *)

(** The module with another [order_send]. *)
Definition with_send {W} (t : Terminal W) (x : vdict → M W (option SendResult)) : Terminal W := {|
  initialize := initialize t; login := login t; shutdown := shutdown t; last_error := last_error t;
  terminal_info := terminal_info t; symbol_select := symbol_select t; symbol_info := symbol_info t;
  symbol_info_tick := symbol_info_tick t; order_calc_margin := order_calc_margin t;
  terminal_account_info := terminal_account_info t; order_send := x;
  positions_get := positions_get t; orders_get := orders_get t;
  TRADE_ACTION_DEAL := TRADE_ACTION_DEAL t; TRADE_ACTION_PENDING := TRADE_ACTION_PENDING t;
  TRADE_ACTION_MODIFY := TRADE_ACTION_MODIFY t; TRADE_ACTION_REMOVE := TRADE_ACTION_REMOVE t;
  ORDER_TYPE_BUY := ORDER_TYPE_BUY t; ORDER_TYPE_SELL := ORDER_TYPE_SELL t;
  POSITION_TYPE_BUY := POSITION_TYPE_BUY t; ORDER_TIME_GTC := ORDER_TIME_GTC t;
  ORDER_FILLING_RETURN := ORDER_FILLING_RETURN t; ORDER_FILLING_IOC := ORDER_FILLING_IOC t;
  SYMBOL_TRADE_MODE_DISABLED := SYMBOL_TRADE_MODE_DISABLED t;
  SYMBOL_TRADE_MODE_CLOSEONLY := SYMBOL_TRADE_MODE_CLOSEONLY t
|}.

(** A stop or target value at least the broker's minimal distance away. *)
Definition far_enough (price level : float) (v : pyval) : Prop :=
  truthy v = true → ∃ d, num_sub price v = Ok d ∧ flt (fabs d) level = false.

(** What the broker's limits ask of a request: a positive volume within the
    symbol's range and on its step, a price on its tick grid, stops at their
    distance, a symbol open for trading, and margin not above the free margin. *)
Definition safe_request `{PyRepr} {W} (t : Terminal W) (order req : vdict) : Prop :=
  ∃ (info : SymbolInfo) (volume price level margin free : float) (w w' : W),
    build_request t order volume price = Ok req ∧
    symbol_info t (vget order "symbol") w = (Ok (Some info), w') ∧
    default 0 (trade_mode info) ≠ default (-1) (SYMBOL_TRADE_MODE_DISABLED t) ∧
    default 0 (trade_mode info) ≠ default (-2) (SYMBOL_TRADE_MODE_CLOSEONLY t) ∧
    fle volume f0 = false ∧
    flt volume (volume_min info) = false ∧ flt (volume_max info) volume = false ∧
    (flt f0 (volume_step info) = true → misaligned volume (volume_step info) = Ok false) ∧
    (fle (or_zero (trade_tick_size info)) f0 = false →
       misaligned price (or_zero (trade_tick_size info)) = Ok false) ∧
    float_of_int (default 0 (trade_stops_level info)) = Ok level ∧
    far_enough price (fmul level (point info)) (vget order "stop_price") ∧
    far_enough price (fmul level (point info)) (vget order "limit_price") ∧
    flt free margin = false.

Lemma validate_volume_ok info v :
  validate_volume info v = Ok None →
  flt v (volume_min info) = false ∧ flt (volume_max info) v = false ∧
  (flt f0 (volume_step info) = true → misaligned v (volume_step info) = Ok false).
Proof.
  unfold validate_volume. destruct (_ || _) eqn:E; [done|]. apply orb_false_iff in E as [E1 E2].
  intros H. split; [done|]. split; [done|]. intros Hs. rewrite Hs in H.
  destruct (misaligned v (volume_step info)) as [[]|]; done.
Qed.

Lemma validate_price_tick_ok info p :
  validate_price_tick info p = Ok None →
  fle (or_zero (trade_tick_size info)) f0 = false →
  misaligned p (or_zero (trade_tick_size info)) = Ok false.
Proof.
  unfold validate_price_tick. intros H E. rewrite E in H.
  destruct (misaligned p (or_zero (trade_tick_size info))) as [[]|]; done.
Qed.

Lemma too_close_false price level v : too_close price level v = Ok false → far_enough price level v.
Proof.
  unfold too_close, far_enough. intros H Hv. rewrite Hv in H.
  destruct (num_sub price v) as [d|] eqn:E; [|done]. simpl in H. injection H as H. by exists d.
Qed.

Lemma validate_stops_ok info p sl tp :
  validate_stops info p sl tp = Ok None →
  ∃ level, float_of_int (default 0 (trade_stops_level info)) = Ok level ∧
    far_enough p (fmul level (point info)) sl ∧ far_enough p (fmul level (point info)) tp.
Proof.
  unfold validate_stops. destruct (float_of_int _) as [level|]; [|done]. simpl. intros H.
  exists level. split; [done|].
  destruct (too_close p _ sl) as [[]|] eqn:E1; try done. simpl in H.
  destruct (too_close p _ tp) as [[]|] eqn:E2; try done.
  by split; apply too_close_false.
Qed.

Section Sending.
Context `{PyRepr} {W : Type} (t : Terminal W).

Lemma validate_symbol_ok order (c : ConnState) w t' info c' w' :
  validate_symbol (Some t) (vget order "symbol") (c, w) = (Ok (inr (t', info)), (c', w')) →
  t' = t ∧ c' = c ∧
  (∃ w0 w1, symbol_info t (vget order "symbol") w0 = (Ok (Some info), w1)) ∧
  default 0 (trade_mode info) ≠ default (-1) (SYMBOL_TRADE_MODE_DISABLED t) ∧
  default 0 (trade_mode info) ≠ default (-2) (SYMBOL_TRADE_MODE_CLOSEONLY t).
Proof.
  unfold validate_symbol. intros Hv. peel_world Hv as found w1 Hz. destruct found as [i|]; [|done].
  cbn zeta in Hv. repeat case_hyp Hv; try done.
  injection Hv as <- <- <- <-. rewrite Z.eqb_neq in *. eauto 10.
Qed.

(** Every early answer of [prepare] aside, the request is safe. *)
Lemma prepare_safe order volume (c : ConnState) w t' req c' w' :
  fle volume f0 = false →
  prepare (Some t) order volume (c, w) = (Ok (inr (t', req)), (c', w')) →
  t' = t ∧ c' = c ∧ safe_request t order req.
Proof.
  intros Hvol Hp. unfold prepare in Hp.
  peel Hp as x [c1 w1] Hs. destruct x as [msg|[t1 info]]; [done|].
  apply validate_symbol_ok in Hs as (-> & -> & (u0 & u1 & Hinfo) & Hm1 & Hm2).
  peel_pure Hp as v Hv.
  destruct v; [done|]. apply validate_volume_ok in Hv as (Hv1 & Hv2 & Hv3).
  peel_world Hp as tick w2 Ht.
  destruct tick as [tick|]; [|done].
  peel_pure Hp as price Hpr.
  peel_pure Hp as v Hv.
  destruct v; [done|]. pose proof (validate_price_tick_ok _ _ Hv) as Htick.
  peel_pure Hp as v Hst.
  destruct v; [done|]. apply validate_stops_ok in Hst as (level & Hl & Hsl & Htp).
  peel_world Hp as sel w3 Hsel.
  destruct sel; [|done]. cbn [negb] in Hp.
  peel_world Hp as margin w4 Hm.
  peel_world Hp as acct w5 Ha.
  peel_pure Hp as poor Hpoor.
  destruct poor; [done|]. destruct margin as [m|]; [|done]. destruct acct as [a|]; [|done].
  destruct (attr a "margin_free") as [fr|]; [|done]. simpl in Hpoor.
  destruct (py_float fr) as [free|]; [|done]. injection Hpoor as Hfree.
  peel_pure Hp as rq Hrq.
  injection Hp as <- <- <- <-. split; [done|]. split; [done|].
  by exists info, volume, price, level, m, free, u0, u1.
Qed.

(** Until it is called, [order_send] makes no difference. *)
Lemma prepare_with_send x order volume s :
  prepare (Some (with_send t x)) order volume s =
  match prepare (Some t) order volume s with
  | (Ok (inl r), s') => (Ok (inl r), s')
  | (Ok (inr (t', req)), s') => (Ok (inr (with_send t x, req)), s')
  | (Raise e, s') => (Raise e, s')
  end.
Proof.
  destruct s as [c w]. unfold prepare, validate_symbol, build_request, buy_sell, mbind, M_bind, zoom_r, lift_res, with_send. cbn.
  repeat (first [progress cbn | case_goal]; try done).
Qed.

End Sending.

(** ** Idempotency *)

Inductive ConnOp :=
| OpExecute (order : vdict)
| OpModify (order_id price stop_price limit_price quantity : pyval)
| OpCancelBroker (order_id : pyval)
| OpClose (position_id deviation : pyval)
| OpCloseAll (symbol : pyval)
| OpConnect
| OpDisconnect
| OpReconnect
| OpBeat (me : nat)
| OpQuery (symbol : pyval).

Section Idempotency.
Context `{PyRepr} {W : Type} (mt5 : option (Terminal W)).
Context (creds : MT5Credentials) (config : MT5ConnectionConfig).
Context (time : M W float) (utcnow : M W datetime) (sleep : float → M W unit).

Definition conn_op (op : ConnOp) : M (ConnState * W) unit :=
  match op with
  | OpExecute o => _ ← mt5_execute_order mt5 o; mret tt
  | OpModify i p s l q => _ ← modify_order mt5 i p s l q; mret tt
  | OpCancelBroker i => _ ← mt5_cancel_order mt5 i; mret tt
  | OpClose i d => _ ← close_position mt5 i d; mret tt
  | OpCloseAll y => _ ← mt5_close_all_positions mt5 y; mret tt
  | OpConnect => _ ← conn_connect mt5 creds config time utcnow; mret tt
  | OpDisconnect => disconnect mt5
  | OpReconnect => _ ← reconnect mt5 creds config time utcnow sleep; mret tt
  | OpBeat me => _ ← heartbeat_once mt5 creds config time utcnow sleep me; mret tt
  | OpQuery y => _ ← mt5_get_account_info mt5; _ ← mt5_get_positions mt5 y; mret tt
  end.

Definition conn_ops (ops : list ConnOp) (cw : ConnState * W) : ConnState * W :=
  fold_left (λ cw op, (conn_op op cw).2) ops cw.

(** The client id is known, with this broker order id. *)
Definition knows (client_id : string) (n : Z) (cw : ConnState * W) : Prop :=
  dget (idempotency cw.1) client_id = Some n.

Lemma world_knows {A} id n (m : M W A) : preserves (knows id n) (zoom_r m).
Proof. apply (preserves_zoom_r (λ c, dget (idempotency c) id = Some n)). Qed.

Lemma set_knows id n f :
  (∀ c, idempotency (f c) = idempotency c) → preserves (knows id n) (conn_set (W:=W) f).
Proof. intros Hf [c w] Hk. unfold knows in *. simpl in *. by rewrite Hf. Qed.

Hint Resolve world_knows set_knows : py_pres.

Lemma need_knows id n : preserves (knows id n) (need_mt5 mt5).
Proof. unfold need_mt5. solve_pres. Qed.

Lemma connect_knows id n : preserves (knows id n) (conn_connect mt5 creds config time utcnow).
Proof. unfold conn_connect, conn_get. solve_pres. Qed.

Lemma reconnect_knows id n k d :
  preserves (knows id n) (reconnect_loop mt5 creds config time utcnow sleep k d).
Proof.
  pose proof (connect_knows id n). revert d.
  induction k as [|k IH]; intros d; simpl; solve_pres.
Qed.

Lemma close_knows id n i d : preserves (knows id n) (close_position mt5 i d).
Proof. pose proof (need_knows id n). unfold close_position. solve_pres. Qed.

Lemma prepare_knows id n o v : preserves (knows id n) (prepare mt5 o v).
Proof. unfold prepare, validate_symbol. solve_pres. Qed.

Lemma execute_knows id n o : id ≠ "" → preserves (knows id n) (mt5_execute_order mt5 o).
Proof.
  intros Hid [c w] Hk. unfold mt5_execute_order.
  destruct (decide (client_id_of o = id)) as [Heq|Hne].
  { rewrite (bind_ok _ _ _ (Some n) (c, w)); [done|]. unfold conn_get, gets. cbn.
    rewrite Heq, (proj2 (String.eqb_neq id "") Hid). by rewrite Hk. }
  pose proof (λ v, prepare_knows id n o v).
  assert (Hsend : ∀ t req, preserves (knows id n) (send_request (W:=W) (client_id_of o) t req)).
  { intros t req. assert (Hset : ∀ b, preserves (knows id n) (conn_set (W:=W) (remember (client_id_of o) b))).
    { intros b [c' w'] Hk'. unfold knows in *. simpl in *. by rewrite dget_dset_ne. }
    unfold send_request. solve_pres. }
  match goal with |- knows _ _ (?m _).2 => assert (Hp : preserves (knows id n) m); [|by apply Hp] end.
  unfold conn_get. solve_pres.
Qed.

Lemma conn_ops_knows id n ops cw : id ≠ "" → knows id n cw → knows id n (conn_ops ops cw).
Proof.
  intros Hid. apply fold_left_inv with (I := knows id n). intros acc op _.
  revert acc. change (preserves (knows id n) (conn_op op)).
  pose proof (need_knows id n). pose proof (connect_knows id n).
  pose proof (λ k d, reconnect_knows id n k d). pose proof (λ i d, close_knows id n i d).
  pose proof (λ o, execute_knows id n o Hid).
  destruct op; unfold conn_op, modify_order, mt5_cancel_order, mt5_close_all_positions, disconnect,
    reconnect, heartbeat_once, check_terminal, mt5_get_account_info, mt5_get_positions, conn_get; solve_pres.
Qed.

(** What [prepare] answers early has no broker order id. *)
Lemma prepare_early o v : yields (λ p, ∀ r, p = inl r → ∃ msg, r = error_reply msg) (prepare mt5 o v).
Proof. unfold prepare. cbv zeta. solve_yields; apply yields_ret; intros r [= <-]; eauto. Qed.

(** A broker order id in the answer has been remembered. *)
Lemma send_remembers id (t : Terminal W) req s r s' n :
  send_request id t req s = (Ok r, s') → vget r "broker_order_id" = VInt n → n ≠ 0 → id ≠ "" →
  knows id n s'.
Proof.
  intros Hrun Hr Hn Hid. unfold send_request in Hrun. peel Hrun as out s1 Hout.
  destruct out as [sr|].
  2:{ peel Hrun as err s2 Herr. by injection Hrun as <- <-. }
  peel Hrun as rc s2 Hrc. peel Hrun as b s3 Hb. peel Hrun as u s4 Hset.
  injection Hrun as <- <-. injection Hr as ->.
  rewrite (proj2 (String.eqb_neq id "") Hid), (proj2 (Z.eqb_neq n 0) Hn) in Hset.
  destruct s3 as [c3 w3]. injection Hset as _ <-. unfold knows. simpl. apply dget_dset_eq.
Qed.

(** A known client id is answered from memory. *)
Lemma execute_known id n order cw :
  id ≠ "" → client_id_of order = id → knows id n cw →
  mt5_execute_order mt5 order cw = (Ok (duplicate_reply n), cw).
Proof.
  intros Hid Heq Hk. destruct cw as [c' w']. unfold mt5_execute_order. rewrite Heq.
  rewrite (bind_ok _ _ _ (Some n) (c', w')); [done|]. unfold conn_get, gets. cbn.
  rewrite (proj2 (String.eqb_neq id "") Hid). by rewrite Hk.
Qed.

Lemma execute_remembers order cw r cw1 n :
  client_id_of order ≠ "" → mt5_execute_order mt5 order cw = (Ok r, cw1) →
  vget r "broker_order_id" = VInt n → n ≠ 0 → knows (client_id_of order) n cw1.
Proof.
  intros Hid Hrun Hr Hn. destruct cw as [c w]. unfold mt5_execute_order in Hrun.
  apply bind_inv in Hrun as [(known & [c2 w2] & Hk & Hrun)|(? & _ & [=])].
  injection Hk as Hk <- <-. rewrite (proj2 (String.eqb_neq _ "") Hid) in Hk. subst known.
  destruct (dget (idempotency c) (client_id_of order)) as [m|] eqn:Em.
  { injection Hrun as <- <-. injection Hr as ->. done. }
  peel_pure Hrun as v Hv. destruct (_ || _); [by injection Hrun as <- <-|].
  peel Hrun as p [c2 w2] Hp. destruct p as [reply|[t req]].
  - injection Hrun as <- <-. by destruct (prepare_early _ _ _ _ _ Hp reply eq_refl) as [msg ->].
  - by apply (send_remembers _ _ _ _ _ _ _ Hrun).
Qed.

(** C2. At most one broker order per client id: once an order with a non-empty
    client id has been given a broker order id, every later [execute_order] with
    that client id, after any other requests to the connector, answers with the
    first broker order id and does not touch the broker. *)
Theorem one_broker_order_per_client_id order c w r c1 w1 n ops order' :
  client_id_of order ≠ "" →
  mt5_execute_order mt5 order (c, w) = (Ok r, (c1, w1)) →
  vget r "broker_order_id" = VInt n → n ≠ 0 →
  client_id_of order' = client_id_of order →
  let cw := conn_ops ops (c1, w1) in
  mt5_execute_order mt5 order' cw = (Ok (duplicate_reply n), cw).
Proof.
  intros Hid Hrun Hr Hn Heq cw. apply (execute_known (client_id_of order)); [done|done|].
  apply conn_ops_knows; [done|]. by apply (execute_remembers order (c, w) r).
Qed.

(** The memory does not keep the verdict: an order the broker refused, but
    to whose answer it attached an order number, is reported as accepted when
    the same client id is sent again. *)
Theorem refused_order_accepted_on_retry order c w r c1 w1 n :
  client_id_of order ≠ "" →
  mt5_execute_order mt5 order (c, w) = (Ok r, (c1, w1)) →
  vget r "ok" = VBool false → vget r "broker_order_id" = VInt n → n ≠ 0 →
  ∃ r2, mt5_execute_order mt5 order (c1, w1) = (Ok r2, (c1, w1)) ∧ vget r2 "ok" = VBool true.
Proof.
  intros Hid Hrun _ Hr Hn. exists (duplicate_reply n). split; [|done].
  apply (execute_known (client_id_of order)); [done|done|]. by apply (execute_remembers order (c, w) r).
Qed.
End Idempotency.

(** ** Reconnection and the heartbeat *)

Section Reconnection.
Context {W : Type} (mt5 : option (Terminal W)) (creds : MT5Credentials) (config : MT5ConnectionConfig).
Context (time : M W float) (utcnow : M W datetime) (sleep : float → M W unit).

(** The delays of [n] attempts. *)
Fixpoint delays (n : nat) (d : float) : list float :=
  match n with O => [] | S n' => d :: delays n' (fmul d (backoff_multiplier config)) end.

Definition attempts : nat := Z.to_nat (reconnect_attempts config).

(** A connection attempt leaves the counter alone, and success means connected. *)
Lemma connect_result c w b c' w' :
  conn_connect mt5 creds config time utcnow (c, w) = (Ok b, (c', w')) →
  reconnect_count c' = reconnect_count c ∧ (b = true → connected c' = true) ∧
  (b = false → c' = c ∧ connected c = false).
Proof.
  unfold conn_connect. intros H. apply bind_inv in H as [(k & s & Hk & H)|(? & _ & [=])].
  injection Hk as <- <-. destruct (connected c) eqn:Ec; [by injection H as <- <- <-|].
  destruct mt5 as [t|]; [|by injection H as <- <- <-].
  peel_world H as ok w1 H1. destruct ok; cbn [negb] in H.
  2:{ peel_world H as err w2 H2. by injection H as <- <- <-. }
  peel_world H as logged w2 H2. destruct logged; cbn [negb] in H.
  2:{ peel_world H as err w3 H3. peel_world H as u w4 H4. by injection H as <- <- <-. }
  peel H as u s3 H3. injection H3 as <- <-. peel_world H as now w3 H4.
  peel H as u s4 H5. injection H5 as <- <-. peel_world H as beat w4 H6.
  peel H as u s5 H7. injection H7 as <- <-. peel H as u s6 H8. injection H8 as <- <-.
  by injection H as <- <- <-.
Qed.

Lemma reconnect_loop_result n d c w b c' w' :
  reconnect_loop mt5 creds config time utcnow sleep n d (c, w) = (Ok b, (c', w')) →
  ∃ k : nat, (k <= n)%nat ∧ reconnect_count c' = reconnect_count c + Z.of_nat k ∧
    (b = true → connected c' = true ∧ (0 < k)%nat) ∧
    (b = false → k = n ∧ connected c' = connected c ∧ (connected c = true → n = 0%nat)).
Proof.
  revert d c w. induction n as [|n IH]; intros d c w H; simpl in H.
  - injection H as <- <- <-. exists 0%nat. split; [lia|]. split; [lia|]. done.
  - peel H as u s1 H1. injection H1 as <- <-. peel_world H as u w1 H2.
    peel H as ok [c2 w2] H3. apply connect_result in H3 as (Hcnt & Htrue & Hfalse). simpl in *.
    destruct ok.
    + injection H as <- <- <-. exists 1%nat. split; [lia|]. split; [lia|]. split; [|done].
      intros _. split; [by apply Htrue|lia].
    + apply IH in H as (k & Hk & Hc & Ht & Hf). exists (S k). split; [lia|]. split; [lia|].
      destruct (Hfalse eq_refl) as [-> Hnc]. simpl in *. split.
      * intros Hb. destruct (Ht Hb). split; [done|lia].
      * intros Hb. destruct (Hf Hb) as (-> & Hcc & _). split; [done|]. split; [done|]. by rewrite Hnc.
Qed.

(** Reconnection is bounded and counted: [reconnect] makes at most
    [reconnect_attempts] attempts, counting each; it answers True only when
    connected, after at least one attempt, and False only after all of them.
    Where the module is missing every attempt fails, and it has then slept the
    backoff delays d, d*m, d*m*m, ... one before each attempt. *)
Theorem reconnect_is_bounded c w :
  (∀ b c' w', reconnect mt5 creds config time utcnow sleep (c, w) = (Ok b, (c', w')) →
     ∃ k : nat, (k <= attempts)%nat ∧ reconnect_count c' = reconnect_count c + Z.of_nat k ∧
       (b = true → connected c' = true ∧ (0 < k)%nat) ∧ (b = false → k = attempts)) ∧
  (mt5 = None → connected c = false → (∀ d, returns (sleep d)) →
     ∃ c' w', reconnect mt5 creds config time utcnow sleep (c, w) = (Ok false, (c', w')) ∧
       for_each sleep (delays attempts (reconnect_delay config)) w = (Ok tt, w')).
Proof.
  split.
  - intros b c' w' H. apply reconnect_loop_result in H as (k & Hk & Hc & Ht & Hf).
    exists k. split; [done|]. split; [done|]. split; [done|]. intros Hb. by destruct (Hf Hb).
  - intros -> Hc Hsleep. unfold reconnect, attempts. generalize (reconnect_delay config) as d.
    generalize (Z.to_nat (reconnect_attempts config)) as n. intros n. revert c w Hc.
    induction n as [|n IH]; intros c w Hc d; [by exists c, w|]. simpl.
    destruct (Hsleep d w) as ([] & w1 & Hw1).
    destruct (IH (count_reconnect c) w1 Hc (fmul d (backoff_multiplier config))) as (c' & w' & H1 & H2).
    exists c', w'. rewrite (bind_ok _ _ _ tt w1 Hw1). split; [|done].
    rewrite (bind_ok _ _ _ tt (count_reconnect c, w)) by done.
    rewrite (bind_ok _ _ _ tt (count_reconnect c, w1)) by (by apply zoom_r_run).
    rewrite (bind_ok _ _ _ false (count_reconnect c, w1)); [done|].
    unfold conn_connect. rewrite (bind_ok _ _ _ false (count_reconnect c, w1)); [done|].
    unfold conn_get, gets. simpl. by rewrite Hc.
Qed.

(** A first successful attempt, run to its end. *)
Lemma connect_run t c w :
  mt5 = Some t → connected c = false →
  (∀ p n, answers (initialize t p n) true) → (∀ a p s, answers (login t a p s) true) →
  returns time → returns utcnow →
  ∃ c' w', conn_connect mt5 creds config time utcnow (c, w) = (Ok true, (c', w')) ∧
    connected c' = true ∧ live_tasks c' = (live_tasks c ++ [next_task c])%list ∧
    heartbeat_task c' = Some (next_task c).
Proof.
  intros -> Hc Hi Hl Ht Hu.
  destruct (Hi (match path creds with Some "" => None | p => p end) (timeout_ms config) w) as (w1 & H1).
  destruct (Hl (cred_account_id creds) (password creds) (server creds) w1) as (w2 & H2).
  destruct (Ht w2) as (now & w3 & H3). destruct (Hu w3) as (beat & w4 & H4).
  exists (start_heartbeat (set_beat beat (set_started now (set_connected true c)))), w4. split; [|done].
  unfold conn_connect.
  rewrite (bind_ok _ _ _ false (c, w)) by (unfold conn_get, gets; cbn; by rewrite Hc).
  cbv iota. rewrite (bind_ok _ _ _ true (c, w1)) by (by apply zoom_r_run). cbn [negb].
  rewrite (bind_ok _ _ _ true (c, w2)) by (by apply zoom_r_run). cbn [negb].
  rewrite (bind_ok _ _ _ tt (set_connected true c, w2)) by done.
  rewrite (bind_ok _ _ _ now (set_connected true c, w3)) by (by apply zoom_r_run).
  rewrite (bind_ok _ _ _ tt (set_started now (set_connected true c), w3)) by done.
  by rewrite (bind_ok _ _ _ beat (set_started now (set_connected true c), w4)) by (by apply zoom_r_run).
Qed.

(** Each outage that a heartbeat repairs leaves one heartbeat task more: the
    task that noticed the outage goes on, since the connector is connected again
    at its next turn, beside the new task [connect] has started, and [disconnect]
    cancels only that newest one. *)
Theorem repaired_outage_adds_a_heartbeat t me c w :
  mt5 = Some t → connected c = true → In me (live_tasks c) → me ≠ next_task c →
  (0 < attempts)%nat →
  answers (terminal_info t) false →
  (∀ p n, answers (initialize t p n) true) → (∀ a p s, answers (login t a p s) true) →
  returns time → returns utcnow → (∀ d, returns (sleep d)) → returns (shutdown t) →
  (∃ d, float_of_int (heartbeat_interval config) = Ok d) →
  ∃ c' w', heartbeat_once mt5 creds config time utcnow sleep me (c, w) = (Ok true, (c', w')) ∧
    connected c' = true ∧ live_tasks c' = (live_tasks c ++ [next_task c])%list ∧
    ∃ c2 w2, disconnect mt5 (c', w') = (Ok tt, (c2, w2)) ∧ In me (live_tasks c2).
Proof.
  intros Ht Hc Hme Hne Hatt Hinfo Hi Hl Htime Hu Hs Hshut [dt Hdt].
  destruct (Hinfo w) as (w1 & H1). destruct (Hs (reconnect_delay config) w1) as ([] & w2 & H2).
  set (c1 := count_reconnect (set_connected false c)).
  destruct (connect_run t c1 w2 Ht eq_refl Hi Hl Htime Hu) as (c' & w3 & H3 & Hc' & Hlive & Htask).
  destruct (Hs dt w3) as ([] & w4 & H4). destruct (Hshut w4) as ([] & w5 & H5).
  assert (Hrec : reconnect mt5 creds config time utcnow sleep (set_connected false c, w1) = (Ok true, (c', w3))).
  { unfold reconnect. fold attempts. destruct attempts as [|n]; [lia|]. simpl.
    rewrite (bind_ok _ _ _ tt (c1, w1)) by done.
    rewrite (bind_ok _ _ _ tt (c1, w2)) by (by apply zoom_r_run).
    by rewrite (bind_ok _ _ _ true (c', w3)). }
  assert (Hcheck : check_terminal mt5 creds config time utcnow sleep (c, w) = (Ok tt, (c', w3))).
  { unfold check_terminal. rewrite Ht at 1.
    rewrite (bind_ok _ _ _ false (c, w1)) by (by apply zoom_r_run). cbn [negb].
    rewrite (bind_ok _ _ _ tt (set_connected false c, w1)) by done.
    by rewrite (bind_ok _ _ _ true (c', w3)). }
  exists c', w4. split; [|split; [done|split; [done|]]].
  - unfold heartbeat_once.
    rewrite (bind_ok _ _ _ true (c, w)) by (unfold conn_get, gets; cbn; by rewrite Hc). cbn [negb].
    rewrite (bind_ok _ _ _ tt (c', w3)) by (unfold try_except; by rewrite Hcheck).
    rewrite (bind_ok _ _ _ dt (c', w3)) by (unfold lift_res; by rewrite Hdt).
    by rewrite (bind_ok _ _ _ tt (c', w4)) by (by apply zoom_r_run).
  - exists (set_connected false (end_task (next_task c) c')), w5. split.
    + unfold disconnect. rewrite (bind_ok _ _ _ (Some (next_task c)) (c', w4)) by (unfold conn_get, gets; cbn; by rewrite Htask).
      rewrite (bind_ok _ _ _ tt (end_task (next_task c) c', w4)) by done. rewrite Ht.
      by rewrite (bind_ok _ _ _ tt (end_task (next_task c) c', w5)) by (by apply zoom_r_run).
    + simpl. rewrite filter_In, Hlive. split; [apply in_app_iff; by left|].
      by apply negb_true_iff, Nat.eqb_neq.
Qed.
End Reconnection.

(** ** A terminal to try the connector on *)

Definition demo_info : SymbolInfo := {|
  trade_mode := Some 4; volume_min := flit 1 100; volume_max := flit 100 1; volume_step := flit 1 100;
  trade_tick_size := Some (flit 1 100000); trade_stops_level := Some 10; point := flit 1 100000
|}.

(** Its world lists the requests it was sent; each gets an order number. *)
Definition demo_terminal (online : bool) (retcode : Z) : Terminal (list vdict) := {|
  initialize _ _ := mret true; login _ _ _ := mret true; shutdown := mret tt;
  last_error := mret "(1, 'Success')"; terminal_info := mret online;
  symbol_select _ _ := mret true; symbol_info _ := mret (Some demo_info);
  symbol_info_tick _ := mret (Some {| ask := flit 11 10; bid := flit 1099 1000 |});
  order_calc_margin _ _ _ _ := mret (Some (flit 50 1));
  terminal_account_info := mret (Some [("balance", VFloat (flit 10000 1)); ("margin_free", VFloat (flit 9000 1))]);
  order_send req := λ log, (Ok (Some {| sr_retcode := Some (VInt retcode);
      sr_asdict := Some [("retcode", VInt retcode); ("order", VInt (1 + Z.of_nat (length log)))] |}),
    (log ++ [req])%list);
  positions_get _ _ := mret None; orders_get _ := mret None;
  TRADE_ACTION_DEAL := 1; TRADE_ACTION_PENDING := 5; TRADE_ACTION_MODIFY := 7; TRADE_ACTION_REMOVE := 8;
  ORDER_TYPE_BUY := 0; ORDER_TYPE_SELL := 1; POSITION_TYPE_BUY := 0;
  ORDER_TIME_GTC := 0; ORDER_FILLING_RETURN := 2; ORDER_FILLING_IOC := 1;
  SYMBOL_TRADE_MODE_DISABLED := Some 0; SYMBOL_TRADE_MODE_CLOSEONLY := Some 3
|}.

Definition demo_payload : vdict :=
  [("client_order_id", VStr "abc"); ("symbol", VStr "EURUSD"); ("volume", VFloat (flit 1 10)); ("side", VStr "BUY")].

Definition demo_creds : MT5Credentials :=
  {| cred_account_id := 1; password := "x"; server := "s"; path := None |}.

Definition mt5_repr : PyRepr := {| repr_other _ := "" |}.

(** What the demonstration terminal answers to a call and what it was sent. *)
Definition demo_run (retcode : Z) (cw : ConnState * list vdict) : res vdict * (ConnState * list vdict) :=
  mt5_execute_order (H := mt5_repr) (Some (demo_terminal true retcode)) demo_payload cw.

Example demo_run_sends :
  let '(r, (_, log)) := demo_run 10009 (initial_conn, []) in is_ok r = true ∧ length log = 1%nat.
Proof. vm_compute. by split. Qed.

(** The first execution's answer and state, evaluated. *)
Definition demo_first (retcode : Z) : vdict * (ConnState * list vdict) :=
  match demo_run retcode (initial_conn, []) with
  | (Ok r, cw) => (r, cw)
  | (Raise _, cw) => ([], cw)
  end.

Lemma demo_first_run retcode : retcode = 10009 ∨ retcode = 10006 →
  demo_run retcode (initial_conn, []) = (Ok (demo_first retcode).1, (demo_first retcode).2).
Proof. intros [->| ->]; vm_compute; reflexivity. Qed.


Lemma one_broker_order_witness :
  let cw := conn_ops (H := mt5_repr) (Some (demo_terminal true 10009)) demo_creds default_config
      (mret f1) (mret (DT 2026 2 12 9 30 0 0)) (λ _, mret tt) [OpConnect; OpBeat 0; OpExecute demo_payload]
      ((demo_first 10009).2.1, (demo_first 10009).2.2) in
  mt5_execute_order (H := mt5_repr) (Some (demo_terminal true 10009)) demo_payload cw =
    (Ok (duplicate_reply 1), cw).
Proof.
  refine (one_broker_order_per_client_id (H := mt5_repr) (Some (demo_terminal true 10009)) demo_creds default_config
    (mret f1) (mret (DT 2026 2 12 9 30 0 0)) (λ _, mret tt) demo_payload initial_conn []
    (demo_first 10009).1 _ _ 1 _ demo_payload _ _ _ _ eq_refl).
  - discriminate.
  - exact (demo_first_run 10009 (or_introl eq_refl)).
  - vm_compute. reflexivity.
  - discriminate.
Defined.

Lemma refused_retry_witness :
  ∃ r2, mt5_execute_order (H := mt5_repr) (Some (demo_terminal true 10006)) demo_payload
          ((demo_first 10006).2.1, (demo_first 10006).2.2) =
          (Ok r2, ((demo_first 10006).2.1, (demo_first 10006).2.2)) ∧ vget r2 "ok" = VBool true.
Proof.
  refine (refused_order_accepted_on_retry (H := mt5_repr) (Some (demo_terminal true 10006))
    demo_payload initial_conn [] (demo_first 10006).1 _ _ 1 _ _ _ _ _).
  - discriminate.
  - exact (demo_first_run 10006 (or_intror eq_refl)).
  - vm_compute. reflexivity.
  - vm_compute. reflexivity.
  - discriminate.
Defined.

Lemma reconnect_bounded_witness :
  ∃ c' w', reconnect None demo_creds default_config (mret f1) (mret (DT 2026 2 12 9 30 0 0))
             (λ d log, (Ok tt, log ++ [d])%list) (initial_conn, []) = (Ok false, (c', w')) ∧
           for_each (λ d log, (Ok tt, log ++ [d])%list) (delays default_config 10 f1) [] = (Ok tt, w').
Proof.
  refine (proj2 (reconnect_is_bounded None demo_creds default_config (mret f1) (mret (DT 2026 2 12 9 30 0 0))
    (λ d log, (Ok tt, log ++ [d])%list) initial_conn []) eq_refl eq_refl _).
  intros d s. by eexists _, _.
Defined.

Lemma heartbeat_witness :
  let c := {| connected := true; heartbeat_task := Some 0%nat; live_tasks := [0%nat]; next_task := 1;
              started_at := None; last_heartbeat := None; reconnect_count := 0; idempotency := [] |} in
  let T := Some (demo_terminal false 10009) in
  ∃ c' w', heartbeat_once T demo_creds default_config (mret f1) (mret (DT 2026 2 12 9 30 0 0))
             (λ _, mret tt) 0 (c, []) = (Ok true, (c', w')) ∧
    connected c' = true ∧ live_tasks c' = [0%nat; 1%nat] ∧
    ∃ c2 w2, disconnect T (c', w') = (Ok tt, (c2, w2)) ∧ In 0%nat (live_tasks c2).
Proof.
  intros c T.
  refine (repaired_outage_adds_a_heartbeat T demo_creds default_config (mret f1) (mret (DT 2026 2 12 9 30 0 0))
    (λ _, mret tt) (demo_terminal false 10009) 0 c [] eq_refl eq_refl _ _ _ _ _ _ _ _ _ _ _);
    try (intros; by eexists); try (intros ?; by eexists _, _); try (intros ? ?; by eexists _, _).
  - left. reflexivity.
  - discriminate.
  - vm_compute. repeat constructor.
Defined.
