(* ===== verification/Lifecycle.v ===== *)
(** * The connector's life cycle under an event loop (trading_service/src/connectors/mt5.py)

    [connect], [disconnect], [reconnect] and the heartbeat of Mt5.v as coroutines of
    Workers.v: [connect] and [disconnect] hold the connector's lock, [connect] starts a
    heartbeat, [disconnect] cancels the one the connector knows and waits for it, and
    a heartbeat that finds the terminal gone reconnects.  Any number of requests
    and heartbeats move in any order. *)

From Stdlib Require Import ZArith Lia Bool List Ascii String.
From stdpp Require Import base decidable list option strings.
From S2P Require Import Prelude PyFloat PyStr PyDateTime PyMonad PyDict PyVal Mt5 Workers Supervision.
Open Scope string_scope.
Open Scope Z_scope.
Open Scope py_scope.

(** ** The coroutines *)

Section Lifecycle.
Context `{PyRepr} {W : Type} (mt5 : option (Terminal W)).
Context (creds : MT5Credentials) (config : MT5ConnectionConfig).
Context (time : M W float) (utcnow : M W datetime) (sleep : float → M W unit).

(** Nothing is awaited between the entry and the exit of [connect]'s lock. *)
Definition connect_co : co (ConnState * W) bool := locking (calls (conn_connect mt5 creds config time utcnow)).

Definition stop_heartbeat (task : option nat) : co (ConnState * W) unit :=
  match task with
  | Some i => calls (conn_set (end_task i)) ;; cancels i ;; joins i
  | None => mret tt
  end.

Definition close_terminal : co (ConnState * W) unit :=
  match mt5 with Some t => calls (zoom_r (shutdown t)) | None => mret tt end ;;
  calls (conn_set (set_connected false)).

Definition disconnect_co : co (ConnState * W) unit := locking (
  task ← calls (conn_get heartbeat_task);
  stop_heartbeat task ;;
  close_terminal).

Fixpoint reconnect_co (n : nat) (delay : float) : co (ConnState * W) bool :=
  match n with
  | O => mret false
  | S n' =>
      calls (conn_set count_reconnect) ;;
      calls (zoom_r (sleep delay)) ;;
      ok ← connect_co;
      if ok : bool then mret true else reconnect_co n' (fmul delay (backoff_multiplier config))
  end.

(** [mt5.terminal_info() if mt5 else None] *)
Definition ask_terminal : M (ConnState * W) bool :=
  match mt5 with Some t => zoom_r (terminal_info t) | None => mret false end.

(** A heartbeat from the loop's test to its next [await], in one step: [None] when the
    loop ends, [Some false] when the terminal is gone. *)
Definition probe (me : nat) : M (ConnState * W) (option bool) :=
  c ← conn_get connected;
  if negb c then conn_set (end_task me) ;; mret None
  else try_except (
    info ← ask_terminal;
    if negb info then conn_set (set_connected false) ;; mret (Some false)
    else now ← zoom_r utcnow; conn_set (set_beat now) ;; mret (Some true)) (λ _, mret (Some true)).

Definition reconnecting : co (ConnState * W) bool :=
  reconnect_co (Z.to_nat (reconnect_attempts config)) (reconnect_delay config).

(** One turn of the heartbeat [me]; [true] when another follows. *)
Definition turn_co (me : nat) : co (ConnState * W) bool :=
  up ← calls (probe me);
  match up with
  | None => mret false
  | Some up =>
      (if up : bool then mret tt else try_co (_ ← reconnecting; mret tt) (λ _, mret tt)) ;;
      d ← Returned (float_of_int (heartbeat_interval config));
      calls (zoom_r (sleep d)) ;;
      mret true
  end.

(** A request to the connector.  What awaits nothing is one step. *)
Definition request_co (op : ConnOp) : co (ConnState * W) bool :=
  match op with
  | OpConnect => connect_co
  | OpDisconnect => disconnect_co ;; mret true
  | OpReconnect => reconnecting
  | OpBeat me => turn_co me
  | op => calls (conn_op mt5 creds config time utcnow sleep op) ;; mret true
  end.

Definition tasks_created (cw : ConnState * W) : nat := next_task cw.1.

(** The connector's event loop. *)
Definition conn_run (schedule : list who) (ops : list ConnOp) (cw : ConnState * W) : loop (ConnState * W) :=
  run tasks_created turn_co schedule (start (request_co <$> ops) cw).

Lemma reconnect_co_S n delay : reconnect_co (S n) delay = (
  calls (conn_set count_reconnect) ;; calls (zoom_r (sleep delay)) ;; ok ← connect_co;
  if ok : bool then mret true else reconnect_co n (fmul delay (backoff_multiplier config))).
Proof. reflexivity. Qed.

(** ** Alone they are the calls of Mt5.v *)

Lemma connect_alone : co_alone connect_co ≡ₘ conn_connect mt5 creds config time utcnow.
Proof. intros s. unfold connect_co. rewrite (co_alone_locking _ s). apply co_alone_calls. Qed.

Lemma reconnect_alone n d : co_alone (reconnect_co n d) ≡ₘ reconnect_loop mt5 creds config time utcnow sleep n d.
Proof.
  revert d. induction n as [|n IH]; intros d; [done|]. rewrite reconnect_co_S.
  do 2 (apply co_alone_seq; [apply co_alone_calls|]; intros _).
  apply co_alone_seq; [apply connect_alone|]. intros []; [done|apply IH].
Qed.

Lemma disconnect_alone : co_alone disconnect_co ≡ₘ disconnect mt5.
Proof.
  intros s. unfold disconnect_co. rewrite (co_alone_locking _ s). revert s. unfold disconnect.
  apply co_alone_seq; [apply co_alone_calls|]. intros task.
  apply co_alone_seq; [destruct task; done|]. intros _. unfold close_terminal.
  apply co_alone_seq; [destruct mt5; [apply co_alone_calls|done]|]. intros _. apply co_alone_calls.
Qed.

Lemma turn_alone me : co_alone (turn_co me) ≡ₘ heartbeat_once mt5 creds config time utcnow sleep me.
Proof.
  set (rest := λ up : bool, (if up then mret tt else try_except (_ ← reconnect mt5 creds config time utcnow sleep; mret tt) (λ _, mret tt)) ;;
     d ← lift_res (float_of_int (heartbeat_interval config)); zoom_r (sleep d) ;; mret true).
  intros s. transitivity ((probe me ≫= λ up, match up with None => mret false | Some up => rest up end) s).
  - revert s. apply co_alone_seq; [apply co_alone_calls|]. intros [up|]; [|done]. subst rest.
    apply co_alone_seq.
    + destruct up; [done|]. intros s. rewrite (co_alone_try _ _ s). apply try_except_proper; [|done].
      apply co_alone_seq; [apply reconnect_alone|done].
    + intros _. apply co_alone_seq; [done|]. intros d. apply co_alone_seq; [apply co_alone_calls|done].
  - destruct s as [c w]. unfold probe, heartbeat_once, check_terminal, try_except. fold ask_terminal. cbv [mbind M_bind conn_get gets conn_set modify mret M_ret raise].
    simpl. destruct (connected c); [|done]. simpl.
    destruct (ask_terminal (c, w)) as [[[]|e] [c1 w1]]; simpl.
    + by destruct (utcnow w1) as [[now|e] w2]; simpl; [|destruct (is_Exception e)].
    + unfold rest, try_except, mbind, M_bind. by destruct (reconnect _ _ _ _ _ _ _) as [[b|e] s2].
    + by destruct (is_Exception e).
Qed.

(** ** They keep the rules *)

(** What the code relies on: the clock answers, sleeping ends, shutting the terminal
    down raises nothing, and what [terminal_info] raises is an [Exception]. *)
Record dependable : Prop := {
  clock_time : returns time;
  clock_now : returns utcnow;
  sleep_ends d : returns (sleep d);
  shutdown_ends t : mt5 = Some t → returns (shutdown t);
  info_raises t w e w' : mt5 = Some t → terminal_info t w = (Raise e, w') → is_Exception e = true;
  interval_converts : ∃ d, float_of_int (heartbeat_interval config) = Ok d
}.

Hypothesis host : dependable.

Definition flag (cw : ConnState * W) : bool := connected cw.1.
Definition beat_task (cw : ConnState * W) : option nat := heartbeat_task cw.1.

Abbreviation calm := (calm tasks_created flag beat_task).
Abbreviation steady := (steady tasks_created flag beat_task).
Abbreviation good := (good tasks_created flag beat_task).

(** What only works on the world, or on the fields that do not matter here, is calm. *)
Definition watched (c : ConnState) : bool * option nat * nat := (connected c, heartbeat_task c, next_task c).

Lemma preserves_calm {A} (m : M (ConnState * W) A) :
  (∀ v, preserves (λ cw, watched cw.1 = v) m) → ∀ s, calm m s.
Proof. intros Hm s. specialize (Hm _ s eq_refl). unfold watched in Hm. injection Hm as Hc Hb Ht. unfold Supervision.calm, flag, beat_task, tasks_created. by rewrite Hc. Qed.

(** A connection attempt changes nothing or starts a heartbeat. *)
Lemma connect_after c w : let c' := (conn_connect mt5 creds config time utcnow (c, w)).2.1 in
  c' = c ∨ ∃ now beat, c' = start_heartbeat (set_beat beat (set_started now (set_connected true c))).
Proof using host.
  unfold conn_connect, mbind, M_bind, conn_get, gets, conn_set, modify, zoom_r, mret, M_ret. simpl.
  destruct (connected c); [by left|]. destruct mt5 as [t|]; [|by left].
  destruct (initialize t _ _ w) as [[[]|e] w1]; simpl; [|by destruct (last_error t w1) as [[|] ?]; left|by left].
  destruct (login t _ _ _ w1) as [[[]|e] w2]; simpl; [| |by left].
  - destruct (clock_time host w2) as (now & w3 & ->). simpl. destruct (clock_now host w3) as (beat & w4 & ->). simpl. eauto.
  - destruct (last_error t w2) as [[|] w3]; simpl; [|by left]. destruct (shutdown t w3) as [[|] ?]; by left.
Qed.

Lemma connect_steady : steady true (conn_connect mt5 creds config time utcnow).
Proof using host.
  intros [c w]. unfold Supervision.calm, tasks_created, flag, beat_task. simpl.
  destruct (connect_after c w) as [->|(now & beat & ->)]; [by left|]. right. simpl.
  split; [done|]. split; [|done]. by rewrite Nat.add_comm.
Qed.

Lemma watched_set v f :
  (∀ c, watched (f c) = watched c) → preserves (λ cw, watched cw.1 = v) (conn_set (W:=W) f).
Proof. intros Hf [c w]. simpl. by rewrite Hf. Qed.

Lemma watched_world {A} v (m : M W A) : preserves (λ cw, watched cw.1 = v) (zoom_r m).
Proof. apply (preserves_zoom_r (λ c, watched c = v)). Qed.

Hint Resolve watched_set watched_world : py_pres.
Hint Extern 1 (watched (_ _) = _) => reflexivity : py_pres.

Lemma world_calm {A} (m : M W A) s : calm (zoom_r m) s.
Proof. apply preserves_calm. intros v. apply watched_world. Qed.

Lemma down_calm s : calm (conn_set (W:=W) (set_connected false)) s.
Proof. destruct s as [c w]. by split. Qed.

Lemma probe_calm me s : calm (probe me) s.
Proof.
  destruct s as [c w]. unfold Supervision.calm, tasks_created, flag, beat_task.
  unfold probe, ask_terminal, mbind, M_bind, try_except, conn_get, gets, conn_set, modify, zoom_r, mret, M_ret.
  simpl. destruct (connected c) eqn:Hc; simpl; [|split_and!; simpl; congruence].
  destruct mt5 as [t|]; [|split_and!; simpl; congruence]. destruct (terminal_info t w) as [[[]|e] w1]; simpl.
  - destruct (utcnow w1) as [[now|e] w2]; simpl; [|destruct (is_Exception e)]; split_and!; simpl; congruence.
  - split_and!; simpl; congruence.
  - destruct (is_Exception e); split_and!; simpl; congruence.
Qed.

Definition broker_call (op : ConnOp) : bool :=
  match op with OpConnect | OpDisconnect | OpReconnect | OpBeat _ => false | _ => true end.

(** A request to the broker leaves the life cycle alone. *)
Lemma op_watched v op :
  broker_call op = true → preserves (λ cw, watched cw.1 = v) (conn_op mt5 creds config time utcnow sleep op).
Proof.
  assert (Hneed : preserves (λ cw : ConnState * W, watched cw.1 = v) (need_mt5 mt5)) by (unfold need_mt5; solve_pres).
  assert (Hprep : ∀ o f, preserves (λ cw : ConnState * W, watched cw.1 = v) (prepare mt5 o f))
    by (intros; unfold prepare, validate_symbol; solve_pres).
  assert (Hsend : ∀ i t r, preserves (λ cw : ConnState * W, watched cw.1 = v) (send_request i t r))
    by (intros; unfold send_request; solve_pres).
  assert (Hclose : ∀ i d, preserves (λ cw : ConnState * W, watched cw.1 = v) (close_position mt5 i d))
    by (intros; unfold close_position; solve_pres).
  intros Hop. destruct op; try done; unfold conn_op, mt5_execute_order, modify_order, mt5_cancel_order,
    mt5_close_all_positions, mt5_get_account_info, mt5_get_positions, conn_get; solve_pres.
Qed.

Lemma connect_co_good may : good may false false connect_co.
Proof using host. apply good_locking, good_calls, connect_steady. Qed.

Lemma set_good {may own} f : (∀ c, watched (f c) = watched c) → good may own own (calls (conn_set (W:=W) f)).
Proof. intros Hf. apply good_calls, steady_calm, preserves_calm. intros v. by apply watched_set. Qed.

Lemma world_co_good {A may own} (m : M W A) : good may own own (calls (zoom_r m)).
Proof. apply good_calls, steady_calm, world_calm. Qed.

Lemma reconnect_good may n d : good may false false (reconnect_co n d).
Proof using host.
  revert d. induction n as [|n IH]; intros d; [done|]. rewrite reconnect_co_S.
  apply good_bind; [by apply set_good|]. intros _. apply good_bind; [apply world_co_good|]. intros _.
  apply good_bind; [apply connect_co_good|]. intros []; [done|apply IH].
Qed.

Lemma turn_co_good may me : good may false false (turn_co me).
Proof using host.
  apply good_bind; [apply good_calls, steady_calm, probe_calm|]. intros [up|]; [|done].
  apply good_bind.
  - destruct up; [done|]. apply good_try; [|done]. apply good_bind; [apply reconnect_good|done].
  - intros _. apply good_bind; [done|]. intros d. apply good_bind; [apply world_co_good|done].
Qed.

Lemma down_good may : good may true true (calls (conn_set (W:=W) (set_connected false))).
Proof. apply good_calls, steady_calm, down_calm. Qed.

Lemma close_good may : good may true true close_terminal.
Proof.
  unfold close_terminal. destruct mt5 as [t|]; [|apply down_good]. split; [apply steady_calm, world_calm|].
  split; [done|]. intros [[]|e]; [apply down_good|done].
Qed.

Lemma close_ending may : ending tasks_created flag beat_task (good may true true) close_terminal.
Proof using host.
  unfold close_terminal. destruct mt5 as [t|] eqn:Ht.
  - intros [c w]. split; [apply world_calm|]. right. destruct (shutdown_ends host t Ht w) as ([] & w' & E).
    simpl. rewrite E. intros s. split; [apply down_calm|]. by left.
  - intros s. split; [apply down_calm|]. by left.
Qed.

(** The connector's flag is down before [disconnect] leaves. *)
Lemma disconnect_good : good true false false disconnect_co.
Proof using host.
  apply good_locking. split; [by left|]. split; [done|]. intros [[i|]|e]; [|apply close_good|done].
  split; [apply steady_calm, preserves_calm; intros v; by apply watched_set|]. split; [done|].
  intros [[]|e]; [|done]. split; [done|]. split; [done|]. apply close_ending.
Qed.

(** A heartbeat that leaves the connector connected has found the terminal there. *)
Lemma probe_up me c w :
  connected c = true → connected (probe me (c, w)).2.1 = true → (probe me (c, w)).1 = Ok (Some true).
Proof using host.
  intros Hc. unfold probe, ask_terminal, mbind, M_bind, try_except, conn_get, gets, conn_set, modify, zoom_r, mret, M_ret.
  simpl. rewrite Hc. simpl. destruct mt5 as [t|] eqn:Ht; [|done].
  destruct (terminal_info t w) as [[[]|e] w1] eqn:Hi; simpl; [|done|].
  - by destruct (clock_now host w1) as (now & w2 & ->).
  - by rewrite (info_raises host t w e w1 Ht Hi).
Qed.

(** As long as the terminal answers, a turn ends with another. *)
Lemma turn_co_lasting me : lasting flag beat_task (turn_co me).
Proof using host.
  intros [c w] Hl Hl' _. destruct (interval_converts host) as [d Hd].
  rewrite (probe_up me c w Hl Hl'). simpl. rewrite Hd. intros [c1 w1] _ _ _.
  by destruct (sleep_ends host d w1) as ([] & w2 & E); simpl; rewrite E.
Qed.

(** ** Under every schedule *)

Section Requests.
Context (ops : list ConnOp).

(** Only a request to disconnect cancels. *)
Definition disconnects (w : who) : bool :=
  match w with Client i => match ops !! i with Some OpDisconnect => true | _ => false end | Beat _ => false end.

Lemma request_good i p : (request_co <$> ops) !! i = Some p → good (disconnects (Client i)) false false p.
Proof using host.
  intros (op & -> & Hop)%list_lookup_fmap_Some. simpl. rewrite Hop.
  assert (Hcall : broker_call op = true → good false false false
    (calls (conn_op mt5 creds config time utcnow sleep op) ;; mret true)).
  { intros Hb. apply good_bind; [|done]. apply good_calls, steady_calm, preserves_calm. intros v. by apply op_watched. }
  destruct op; try (by apply Hcall).
  - apply connect_co_good.
  - apply good_bind; [apply disconnect_good|done].
  - apply reconnect_good.
  - apply turn_co_good.
Qed.

Lemma requests_orderly schedule w :
  orderly tasks_created flag beat_task disconnects (conn_run schedule ops (initial_conn, w)).
Proof using host.
  apply run_orderly; [done|apply turn_co_good|apply turn_co_lasting|].
  apply start_orderly; [done..|]. apply request_good.
Qed.

Lemma disconnect_ready n : ready tasks_created beat_task n [] (disconnect_co ;; mret true).
Proof.
  intros [c w] Hn Hc. unfold tasks_created, beat_task in *. simpl in *.
  assert (Hclose : ∀ n D, ready tasks_created beat_task n D
    (then_unlock close_terminal ≫= λ _ : (), mret true)).
  { intros n0 D. unfold close_terminal. destruct mt5 as [t|]; [|done]. intros [c1 w1] _ _. simpl.
    by destruct (shutdown t w1) as [[[]|e] w2]. }
  destruct (heartbeat_task c) as [i|]; [|apply Hclose].
  intros [c1 w1] Hn1 _. unfold tasks_created in *. simpl in *. specialize (Hc i eq_refl). split; [lia|].
  split; [by left|]. apply Hclose.
Qed.

Lemma request_ready i p : (request_co <$> ops) !! i = Some p → ready tasks_created beat_task 0 [] p.
Proof using host.
  intros Hp. pose proof (request_good i p Hp) as Hg. simpl in Hg.
  apply list_lookup_fmap_Some in Hp as (op & -> & Hop). rewrite Hop in Hg.
  destruct op; try (by eapply good_ready, Hg). apply disconnect_ready.
Qed.

Lemma requests_restful schedule w :
  restful tasks_created flag beat_task disconnects (conn_run schedule ops (initial_conn, w)).
Proof using host.
  apply run_restful; [done|apply turn_co_good|apply turn_co_lasting|].
  apply start_restful; [done..|]. intros i p Hp. split; [by apply request_good|by apply (request_ready i)].
Qed.
End Requests.

(** C6. A connected connector is watched: at every moment of every interleaving
    of requests and heartbeats, if the connector is connected, the heartbeat it knows
    is alive, neither cancelled nor at its end, unless a request to disconnect holds
    the lock. *)
Theorem connected_connector_is_watched ops schedule w :
  let l := conn_run schedule ops (initial_conn, w) in
  connected (state l).1 = true →
  (∃ i b, heartbeat_task (state l).1 = Some i ∧ beats l !! i = Some b ∧ doomed b = false ∧ over b = false) ∨
  (∃ j, holder l = Some (Client j) ∧ ops !! j = Some OpDisconnect).
Proof using host.
  intros l Hc. destruct (flag_supervised _ _ _ _ _ (requests_orderly ops schedule w) Hc)
    as [(i & b & Hi & Hb & Hd & Hl)|([j|j] & b & Hh & _ & Hm & _)]; [left|right|done].
  - exists i, b. do 3 (split; [done|]). unfold over. by destruct (rest b) as [r|X m k|k|k|j k|j k]; simpl in Hl; [rewrite Hl|..].
  - exists j. split; [done|]. simpl in Hm. by destruct (ops !! j) as [[]|].
Qed.

(** C7. Nobody waits for ever: although [disconnect] holds the lock while it waits for
    the end of a heartbeat that may be waiting for the lock itself, from every moment
    of every interleaving there is a way on after which every request has been
    answered and the lock is free. *)
Theorem every_request_can_end ops schedule w :
  ∃ more, let l := conn_run (schedule ++ more) ops (initial_conn, w) in
    holder l = None ∧ ∀ j b, clients l !! j = Some b → ∃ r, rest b = Returned r.
Proof using host.
  assert (Hcalls : ∀ i, ∃ X (m : M (ConnState * W) X) k, turn_co i = Calls m k) by (intros i; by eexists _, _, _).
  destruct (settle_all tasks_created turn_co flag beat_task (disconnects ops) (λ _, eq_refl) (turn_co_good false) turn_co_lasting Hcalls
    (length (clients (conn_run schedule ops (initial_conn, w)))) _ (requests_restful ops schedule w)) as (more & Hend & Hfree).
  exists more. unfold conn_run in *. rewrite run_app. split; [done|]. intros j b Hb.
  apply (Hend j); [|done]. apply lookup_lt_Some in Hb. by rewrite run_clients in Hb.
Qed.

(** *** The memory of sent orders *)

Hint Resolve world_knows set_knows : py_pres.

Lemma op_knows id n op : id ≠ "" → preserves (knows id n) (conn_op mt5 creds config time utcnow sleep op).
Proof. intros Hid cw Hk. exact (conn_ops_knows mt5 creds config time utcnow sleep id n [op] cw Hid Hk). Qed.

Lemma set_keeps id n f : (∀ c, idempotency (f c) = idempotency c) → calls_keep (knows (W:=W) id n) (calls (conn_set f)).
Proof. intros Hf. apply calls_keep_calls. intros [c w] Hk. unfold knows in *. simpl in *. by rewrite Hf. Qed.

Lemma world_keeps {A} id n (m : M W A) : calls_keep (knows id n) (calls (zoom_r m)).
Proof. apply calls_keep_calls, world_knows. Qed.

Lemma connect_keeps id n : calls_keep (knows id n) connect_co.
Proof. apply calls_keep_locking, calls_keep_calls, connect_knows. Qed.

Lemma reconnect_keeps id n k d : calls_keep (knows id n) (reconnect_co k d).
Proof.
  revert d. induction k as [|k IH]; intros d; [done|]. rewrite reconnect_co_S.
  apply calls_keep_bind; [by apply set_keeps|]. intros _. apply calls_keep_bind; [apply world_keeps|]. intros _.
  apply calls_keep_bind; [apply connect_keeps|]. intros []; [done|apply IH].
Qed.

Lemma turn_keeps id n me : calls_keep (knows id n) (turn_co me).
Proof.
  apply calls_keep_bind.
  - apply calls_keep_calls. unfold probe, ask_terminal, conn_get. solve_pres.
  - intros [up|]; [|done]. apply calls_keep_bind.
    + destruct up; [done|]. apply calls_keep_try; [|done]. apply calls_keep_bind; [apply reconnect_keeps|done].
    + intros _. apply calls_keep_bind; [done|]. intros d. apply calls_keep_bind; [apply world_keeps|done].
Qed.

Lemma disconnect_keeps id n : calls_keep (knows id n) disconnect_co.
Proof.
  apply calls_keep_locking, calls_keep_bind; [apply calls_keep_calls; unfold conn_get; solve_pres|]. intros task.
  apply calls_keep_bind.
  - destruct task as [i|]; [|done]. apply calls_keep_bind; [by apply set_keeps|done].
  - intros _. apply calls_keep_bind; [destruct mt5; [apply world_keeps|done]|]. intros _. by apply set_keeps.
Qed.

Lemma request_co_keeps id n op : id ≠ "" → calls_keep (knows id n) (request_co op).
Proof.
  intros Hid. pose proof (op_knows id n op Hid) as Hop.
  destruct op; try (apply calls_keep_bind; [by apply calls_keep_calls|done]).
  - apply connect_keeps.
  - apply calls_keep_bind; [apply disconnect_keeps|done].
  - apply reconnect_keeps.
  - apply turn_keeps.
Qed.

(** C8. A broker order is sent once per client id, whatever happens in between: once
    a client id is in the connector's memory, then after any interleaving of requests,
    heartbeats, reconnections and disconnections another order under that id is
    answered with the first one's number, and nothing is sent. *)
Theorem sent_orders_are_remembered ops s1 s2 w order n :
  client_id_of order ≠ "" →
  knows (client_id_of order) n (state (conn_run s1 ops (initial_conn, w))) →
  let l := conn_run (s1 ++ s2) ops (initial_conn, w) in
  mt5_execute_order mt5 order (state l) = (Ok (duplicate_reply n), state l).
Proof.
  intros Hid Hk l. assert (Htrees : trees_keep (knows (client_id_of order) n) (start (request_co <$> ops) (initial_conn, w))).
  { split; [|done]. apply Forall_fmap, Forall_fmap, Forall_true. intros op. by apply request_co_keeps. }
  destruct (run_keep tasks_created turn_co _ (turn_keeps _ n) s1 _ Htrees) as [H1 _].
  destruct (run_keep tasks_created turn_co _ (turn_keeps _ n) s2 _ H1) as [_ H2].
  apply execute_known with (id := client_id_of order); try done. subst l. unfold conn_run. rewrite run_app. by apply H2.
Qed.

(** *** Disconnecting where there are no outages *)

Definition offline (cw : ConnState * W) : Prop := connected cw.1 = false.

Lemma watched_offline {A} (m : M (ConnState * W) A) :
  (∀ v, preserves (λ cw, watched cw.1 = v) m) → preserves offline m.
Proof. intros Hm cw Hc. pose proof (Hm _ cw eq_refl) as Hw. injection Hw as H1 _ _. unfold offline in *. congruence. Qed.

Lemma disconnect_offline : calls_keep offline disconnect_co.
Proof.
  apply calls_keep_locking, calls_keep_bind; [by apply calls_keep_calls, preserves_gets|]. intros task.
  apply calls_keep_bind.
  - destruct task as [i|]; [|done]. apply calls_keep_bind; [|done]. apply calls_keep_calls. by intros [c w].
  - intros _. apply calls_keep_bind.
    + destruct mt5; [|done]. apply calls_keep_calls, watched_offline. intros v. apply watched_world.
    + intros _. apply calls_keep_calls. by intros [c w].
Qed.

(** Requests that do not ask for a connection. *)
Definition undemanding (op : ConnOp) : bool :=
  match op with OpConnect | OpReconnect | OpBeat _ => false | _ => true end.

Lemma undemanding_offline op : undemanding op = true → calls_keep offline (request_co op).
Proof.
  intros Hop. assert (Hcall : broker_call op = true → calls_keep offline
    (calls (conn_op mt5 creds config time utcnow sleep op) ;; mret true)).
  { intros Hb. apply calls_keep_bind; [|done]. apply calls_keep_calls, watched_offline. intros v. by apply op_watched. }
  destruct op; try done; try (by apply Hcall). apply calls_keep_bind; [apply disconnect_offline|done].
Qed.

(** A heartbeat whose terminal answers does not reconnect. *)
Lemma probe_answered t me s :
  mt5 = Some t → answers (terminal_info t) true → (probe me s).1 = Ok None ∨ (probe me s).1 = Ok (Some true).
Proof using host.
  intros Ht Hup. destruct s as [c w].
  unfold probe, ask_terminal, mbind, M_bind, try_except, conn_get, gets, conn_set, modify, zoom_r, mret, M_ret.
  rewrite Ht. simpl. destruct (connected c); simpl; [right|by left].
  destruct (Hup w) as [w1 ->]. simpl. by destruct (clock_now host w1) as (now & w2 & ->).
Qed.

Lemma turn_never t me : mt5 = Some t → answers (terminal_info t) true → never_breaks offline (turn_co me).
Proof using host.
  intros Ht Hup. split; [|split; [|done]].
  - intros s Hs. destruct (probe_calm me s) as (_ & _ & Hl). unfold flag, offline in *.
    destruct (connected (probe me s).2.1); [|done]. by rewrite Hl in Hs.
  - intros s. destruct (probe_answered t me s Ht Hup) as [-> | ->]; [done|]. apply calls_never.
    destruct (interval_converts host) as [d Hd]. simpl. rewrite Hd.
    split; [apply watched_offline; intros v; apply watched_world|]. by intros [[]|e].
Qed.

(** C9. Where the terminal never fails to answer, a disconnection lasts: from every moment
    of every interleaving at which the connector is disconnected, it stays so until a
    request asks for a connection; no heartbeat connects by itself. *)
Theorem disconnection_lasts_without_outages t ops s1 s2 w :
  mt5 = Some t → answers (terminal_info t) true →
  connected (state (conn_run s1 ops (initial_conn, w))).1 = false →
  (∀ j op, Client j ∈ s2 → ops !! j = Some op → undemanding op = true) →
  connected (state (conn_run (s1 ++ s2) ops (initial_conn, w))).1 = false.
Proof using host.
  intros Ht Hup Hoff Hs2. set (allowed := λ v, ∀ j op, v = Client j → ops !! j = Some op → undemanding op = true).
  assert (Hb : ∀ i, allowed (Beat i)) by done. assert (Hturn : ∀ i, never_breaks offline (turn_co i)) by (intros i; by apply (turn_never t)).
  assert (Htame : tame offline allowed (start (request_co <$> ops) (initial_conn, w))).
  { intros [j|j] b Hv; simpl; [|done]. intros (p & -> & (op & -> & Hop)%list_lookup_fmap_Some)%list_lookup_fmap_Some.
    apply calls_never, undemanding_offline, (Hv j); done. }
  unfold conn_run in *. rewrite run_app. apply (run_allowed tasks_created turn_co offline allowed); try done.
  - by apply run_tame.
  - apply Forall_forall. intros v Hv j op -> Hop. by apply (Hs2 j).
Qed.
End Lifecycle.

(** ** A disconnection that does not last *)

(** A terminal whose world is the list of what [terminal_info] will answer; everything
    else succeeds, and no order gets anywhere. *)
Definition scripted_terminal : Terminal (list bool) := {|
  initialize _ _ := mret true; login _ _ _ := mret true; shutdown := mret tt;
  last_error := mret "(1, 'Success')";
  terminal_info := λ script, match script with b :: r => (Ok b, r) | [] => (Ok true, []) end;
  symbol_select _ _ := mret true; symbol_info _ := mret None; symbol_info_tick _ := mret None;
  order_calc_margin _ _ _ _ := mret None; terminal_account_info := mret None; order_send _ := mret None;
  positions_get _ _ := mret None; orders_get _ := mret None;
  TRADE_ACTION_DEAL := 1; TRADE_ACTION_PENDING := 5; TRADE_ACTION_MODIFY := 7; TRADE_ACTION_REMOVE := 8;
  ORDER_TYPE_BUY := 0; ORDER_TYPE_SELL := 1; POSITION_TYPE_BUY := 0;
  ORDER_TIME_GTC := 0; ORDER_FILLING_RETURN := 2; ORDER_FILLING_IOC := 1;
  SYMBOL_TRADE_MODE_DISABLED := Some 0; SYMBOL_TRADE_MODE_CLOSEONLY := Some 3
|}.

Definition scripted_run (schedule : list who) (ops : list ConnOp) (script : list bool) : loop (ConnState * list bool) :=
  conn_run (H := mt5_repr) (Some scripted_terminal) demo_creds default_config (mret f1) (mret (DT 2026 2 12 9 30 0 0))
    (λ _, mret tt) schedule ops (initial_conn, script).

Lemma scripted_dependable :
  dependable (Some scripted_terminal) default_config (mret f1) (mret (DT 2026 2 12 9 30 0 0)) (λ _, mret tt).
Proof.
  split; try (intros; by eexists _, _).
  - intros t [= <-] w. by eexists _, _.
  - intros t [|b r] e w' [= <-]; discriminate.
  - vm_compute. by eexists.
Defined.

(** The first request connects.  The heartbeat 0 repairs an outage, which starts the
    heartbeat 1, and notices a second one; while it sleeps before its attempt, the
    second request disconnects, cancelling the heartbeat 1. *)
Definition outage_then_disconnect : list who :=
  (repeat (Client 0) 3 ++ repeat (Beat 0) 8 ++ repeat (Beat 0) 2 ++
   repeat (Client 1) 4 ++ [Beat 1] ++ repeat (Client 1) 4)%list.

(** A disconnection may not last: after an outage that was repaired, the heartbeat
    that repaired it is one the connector no longer knows.  If it is reconnecting when
    [disconnect] is called, then [disconnect] completes, the connector is
    disconnected and the lock is free; and four steps of that heartbeat later the connector is
    connected again, with a new heartbeat, although nobody has asked. *)
Theorem disconnect_may_not_last :
  let l := scripted_run outage_then_disconnect [OpConnect; OpDisconnect] [false; false] in
  let l' := scripted_run (outage_then_disconnect ++ repeat (Beat 0) 4) [OpConnect; OpDisconnect] [false; false] in
  rest <$> clients l = [Returned (Ok true); Returned (Ok true)] ∧
  connected (state l).1 = false ∧ holder l = None ∧
  connected (state l').1 = true ∧ heartbeat_task (state l').1 = Some 2%nat ∧ holder l' = None.
Proof. vm_compute. repeat split. Qed.

(** ** The theorems at work *)

Lemma connected_connector_witness :
  let ops := [OpConnect; OpDisconnect; OpConnect] in
  let l := scripted_run (outage_then_disconnect ++ repeat (Client 2) 3) ops [false; false] in
  connected (state l).1 = true ∧
  ((∃ i b, heartbeat_task (state l).1 = Some i ∧ beats l !! i = Some b ∧ doomed b = false ∧ over b = false) ∨
   (∃ j, holder l = Some (Client j) ∧ ops !! j = Some OpDisconnect)).
Proof.
  intros ops l. subst l. unfold scripted_run. refine ((λ Hc, conj Hc (connected_connector_is_watched (H := mt5_repr) (Some scripted_terminal)
    demo_creds default_config (mret f1) (mret (DT 2026 2 12 9 30 0 0)) (λ _, mret tt) scripted_dependable ops
    (outage_then_disconnect ++ repeat (Client 2) 3)%list [false; false] Hc)) _).
  vm_compute. reflexivity.
Defined.

(** From the moment at which [disconnect] waits for the heartbeat. *)
Lemma every_request_can_end_witness :
  ∃ more, let l := scripted_run ((repeat (Client 0) 3 ++ repeat (Client 1) 4) ++ more) [OpConnect; OpDisconnect] [] in
    holder l = None ∧ ∀ j b, clients l !! j = Some b → ∃ r, rest b = Returned r.
Proof.
  exact (every_request_can_end (H := mt5_repr) (Some scripted_terminal) demo_creds default_config _ _ _
    scripted_dependable [OpConnect; OpDisconnect] (repeat (Client 0) 3 ++ repeat (Client 1) 4) []).
Defined.

(** An order, a connection, an outage and a disconnection, and the order again. *)
Lemma sent_orders_witness :
  let T := Some (demo_terminal true 10009) in
  let ops := [OpExecute demo_payload; OpConnect; OpDisconnect] in
  let runs s := conn_run (H := mt5_repr) T demo_creds default_config (mret f1) (mret (DT 2026 2 12 9 30 0 0)) (λ _, mret tt) s ops in
  let l := runs ([Client 0] ++ [Client 1; Client 1; Client 1; Beat 0; Client 2; Client 2])%list (initial_conn, []) in
  mt5_execute_order (H := mt5_repr) T demo_payload (state l) = (Ok (duplicate_reply 1), state l).
Proof.
  refine (sent_orders_are_remembered (H := mt5_repr) (Some (demo_terminal true 10009)) demo_creds default_config
    (mret f1) (mret (DT 2026 2 12 9 30 0 0)) (λ _, mret tt) [OpExecute demo_payload; OpConnect; OpDisconnect] [Client 0]
    [Client 1; Client 1; Client 1; Beat 0; Client 2; Client 2] [] demo_payload 1 _ _).
  - discriminate.
  - vm_compute. reflexivity.
Defined.

Lemma demo_dependable :
  dependable (Some (demo_terminal true 10009)) default_config (mret f1) (mret (DT 2026 2 12 9 30 0 0)) (λ _, mret tt).
Proof.
  split; try (intros; by eexists _, _).
  - intros t [= <-] w. by eexists _, _.
  - by intros t w e w' [= <-] [=].
  - vm_compute. by eexists.
Defined.

(** Connected, disconnected, and then an order and a turn of the heartbeat that was. *)
Lemma disconnection_lasts_witness :
  let T := Some (demo_terminal true 10009) in
  let ops := [OpConnect; OpDisconnect; OpExecute demo_payload] in
  let runs s := conn_run (H := mt5_repr) T demo_creds default_config (mret f1) (mret (DT 2026 2 12 9 30 0 0)) (λ _, mret tt)
    s ops (initial_conn, []) in
  connected (state (runs ((repeat (Client 0) 3 ++ repeat (Client 1) 4 ++ [Beat 0] ++ repeat (Client 1) 4) ++
                          [Client 2; Beat 0])%list)).1 = false.
Proof.
  refine (disconnection_lasts_without_outages (H := mt5_repr) (Some (demo_terminal true 10009)) demo_creds default_config
    (mret f1) (mret (DT 2026 2 12 9 30 0 0)) (λ _, mret tt) demo_dependable (demo_terminal true 10009)
    [OpConnect; OpDisconnect; OpExecute demo_payload] (repeat (Client 0) 3 ++ repeat (Client 1) 4 ++ [Beat 0] ++ repeat (Client 1) 4)
    [Client 2; Beat 0] [] eq_refl _ _ _).
  - intros l. by eexists.
  - vm_compute. reflexivity.
  - intros j op Hj Hop. apply elem_of_cons in Hj as [[= ->]|Hj]; [injection Hop as <-; reflexivity|].
    apply elem_of_cons in Hj as [[=]|Hj]. by apply elem_of_nil in Hj.
Defined.
