(* ===== verification/Storage.v ===== *)
(** * The PostgreSQL repository (trading_service/src/storage/postgres_repository.py,
      trading_service/src/repositories/postgres_repository.py)

    Every method is modelled with its SQL text and its parameters, in the order
    the code sends them; asyncpg's pool and connections are the record [Db] of
    calls over the world.  The repository's own state is whether [connect] has
    set its pool.  What PostgreSQL does with the statements of [save_order] is
    stated by the class [OrdersTable]. *)

From Stdlib Require Import ZArith Lia Bool List Ascii String.
From stdpp Require Import base decidable list option strings.
From S2P Require Import Prelude PyFloat PyStr PyDateTime PyMonad PyDict PyVal.
Open Scope string_scope.
Open Scope Z_scope.
Open Scope py_scope.

(** ** asyncpg *)

Record Db (W : Type) := {
  create_pool : M W unit;
  close_pool : M W unit;
  acquire : M W unit;                       (* pool.acquire().__aenter__ *)
  release : M W unit;                       (* and its __aexit__ *)
  begin_tx : M W unit;
  commit_tx : M W unit;
  rollback_tx : M W unit;
  fetchrow : string → list pyval → M W (option vdict);
  fetch : string → list pyval → M W (list vdict);
  fetchval : string → list pyval → M W pyval;
  db_execute : string → list pyval → M W string;
  json_dumps : pyval → res string;          (* json.dumps *)
  transient : exn → bool                    (* PostgresConnectionError, TooManyConnectionsError *)
}.
Arguments create_pool {W}. Arguments close_pool {W}. Arguments acquire {W}. Arguments release {W}.
Arguments begin_tx {W}. Arguments commit_tx {W}. Arguments rollback_tx {W}. Arguments fetchrow {W}.
Arguments fetch {W}. Arguments fetchval {W}. Arguments db_execute {W}. Arguments json_dumps {W}.
Arguments transient {W}.

(** ** SQL *)

Definition sql_find_order : string := "SELECT id FROM orders WHERE client_order_id=$1".
Definition sql_insert_order : string :=
  "INSERT INTO orders (id, client_order_id, account_id, strategy_id, model_id, symbol, side, order_type, quantity, filled_quantity, price, stop_price, limit_price, status, rejection_reason, commission, swap, profit, opened_at, closed_at, created_at, updated_at, version) VALUES (COALESCE($1::uuid, gen_random_uuid()), $2, $3::uuid, $4::uuid, $5::uuid, $6, $7, $8, $9, $10, $11, $12, $13, $14, $15, $16, $17, $18, $19, $20, NOW(), NOW(), 1) RETURNING id".
Definition sql_get_order : string := "SELECT * FROM orders WHERE id=$1::uuid".
Definition sql_lock_version : string := "SELECT version FROM orders WHERE id=$1::uuid FOR UPDATE".
Definition sql_open_orders : string :=
  "SELECT * FROM orders WHERE account_id=$1::uuid AND status IN ('PENDING','VALIDATED','SUBMITTED','PARTIAL')".
Definition sql_insert_trade : string :=
  "INSERT INTO trades (id, order_id, account_id, position_id, symbol, side, volume, price, commission, swap, profit, created_at) VALUES (COALESCE($1::uuid, gen_random_uuid()), $2::uuid, $3::uuid, $4::uuid, $5, $6, $7, $8, $9, $10, $11, NOW()) RETURNING id".
Definition sql_get_position : string := "SELECT * FROM positions WHERE id=$1::uuid".
Definition sql_insert_incident : string :=
  "INSERT INTO risk_incidents (id, rule_type, parameters, actual_values, order_id, account_id, action_taken, created_at) VALUES (gen_random_uuid(), $1, $2::jsonb, $3::jsonb, $4, $5, $6, NOW()) RETURNING id".
Definition sql_open_positions : string := "SELECT * FROM positions WHERE account_id=$1::uuid AND closed_at IS NULL".
Definition sql_account : string := "SELECT id FROM broker_accounts WHERE id=$1::uuid".
Definition sql_count_orders : string :=
  "SELECT COUNT(*) FROM orders WHERE account_id=$1::uuid AND status IN ('PENDING','VALIDATED','SUBMITTED','PARTIAL')".
Definition sql_count_positions : string :=
  "SELECT COUNT(*) FROM positions WHERE account_id=$1::uuid AND closed_at IS NULL".
Definition sql_audit : string :=
  "INSERT INTO trade_audit_log (id, order_id, event_type, payload, created_at) VALUES (gen_random_uuid(), $1::uuid, $2, $3::jsonb, NOW())".

(** [v == "NOW()"] *)
Definition is_now (v : pyval) : bool := match v with VStr s => String.eqb s "NOW()" | _ => false end.

(** [f"{k}=${idx}"] *)
Definition assign_param (k : string) (idx : Z) : string := (k ++ "=$" ++ str_Z idx)%string.

(** The loop over [updates.items()]: the SET parts, the values and the next index. *)
Fixpoint set_clause (updates : vdict) (idx : Z) : list string * list pyval * Z :=
  match updates with
  | [] => ([], [], idx)
  | (k, v) :: rest =>
      if is_now v then
        let '(parts, vals, last) := set_clause rest idx in ((k ++ "=NOW()")%string :: parts, vals, last)
      else
        let '(parts, vals, last) := set_clause rest (idx + 1) in (assign_param k idx :: parts, v :: vals, last)
  end.

(** [", ".join(parts)] *)
Fixpoint str_join (sep : string) (l : list string) : string :=
  match l with
  | [] => ""
  | [x] => x
  | x :: r => (x ++ sep ++ str_join sep r)%string
  end.

Definition ends_with (suffix s : string) : bool :=
  String.eqb (String.substring (String.length s - String.length suffix) (String.length suffix) s) suffix
  && Nat.leb (String.length suffix) (String.length s).

(** The statement and parameters of [update_order_status]. *)
Definition update_statement (order_id : pyval) (st : string) (kwargs : vdict) (version : Z) : string * list pyval :=
  let updates := dupdate [("status", VStr st); ("updated_at", VStr "NOW()"); ("version", VInt (version + 1))] kwargs in
  let '(parts, vals, idx) := set_clause updates 2 in
  (("UPDATE orders SET " ++ str_join ", " parts ++ " WHERE id=$1::uuid AND version=$" ++ str_Z idx)%string,
   (order_id :: vals ++ [VInt version])%list).

(** The loop of [update_position], which has no NOW() case. *)
Fixpoint set_clause_plain (updates : vdict) (idx : Z) : list string * list pyval :=
  match updates with
  | [] => ([], [])
  | (k, v) :: rest =>
      let '(parts, vals) := set_clause_plain rest (idx + 1) in (assign_param k idx :: parts, v :: vals)
  end.

(** ** The repository *)

(** [0.2 * (2**attempt)] *)
Definition backoff (attempt : Z) : float := fmul (flit 2 10) (f_of_Z (2 ^ attempt)).

(** [PostgresRepository(dsn)]: the pool's bounds, and no pool yet. *)
Record RepoSettings := { dsn : string; min_size : Z; max_size : Z }.
Definition new_repository (dsn : string) : RepoSettings * bool :=
  ({| dsn := dsn; min_size := 2; max_size := 20 |}, false).

Section Repository.
Context `{PyRepr} {W : Type} (D : Db W) (sleep : float → M W unit).

Definition db_connect : M (bool * W) unit :=
  zoom_r (create_pool D) ;; modify (λ pw, (true, pw.2)).

Definition db_close : M (bool * W) unit :=
  p ← gets fst; when p (zoom_r (close_pool D)).

(** [assert self.pool]. *)
Definition assert_pool : M (bool * W) unit :=
  p ← gets fst; if p : bool then mret tt else raise (AssertionError "").

(** [async with self.pool.acquire() as conn: m]. *)
Definition with_conn {A} (m : M W A) : M (bool * W) A :=
  assert_pool ;; zoom_r (acquire D) ;; on_exit (zoom_r m) (zoom_r (release D)) (zoom_r (release D)).

(** [async with conn.transaction(): m]. *)
Definition with_tx {A} (m : M W A) : M W A :=
  begin_tx D ;; on_exit m (commit_tx D) (rollback_tx D).

(** The loop of [_execute_retry], from attempt [attempt] with [n] turns left. *)
Fixpoint retry_loop {A} (fn : M (bool * W) A) (n : nat) (attempt : Z) (last_exc : option exn) : M (bool * W) A :=
  match n with
  | O => raise (match last_exc with Some e => e | None => TypeError "exceptions must derive from BaseException" end)
  | S n' => λ pw,
      match fn pw with
      | (Ok a, pw') => (Ok a, pw')
      | (Raise e, pw') =>
          if transient D e then
            (zoom_r (sleep (backoff attempt)) ;; retry_loop fn n' (attempt + 1) (Some e)) pw'
          else (Raise e, pw')
      end
  end.

Definition execute_retry {A} (fn : M (bool * W) A) (retries : nat) : M (bool * W) A :=
  retry_loop fn retries 0 None.

(** [float(order.get(k, 0))]. *)
Definition float_field (d : vdict) (k : string) : res pyval :=
  f ← py_float (vget_or d k (VInt 0)); mret (VFloat f).

(** The parameters of the INSERT, in order. *)
Definition order_params (order : vdict) : res (list pyval) :=
  quantity ← float_field order "quantity";
  filled ← float_field order "filled_quantity";
  commission ← float_field order "commission";
  swap ← float_field order "swap";
  profit ← float_field order "profit";
  mret [vget order "id"; vget order "client_order_id"; vget order "account_id"; vget order "strategy_id";
        vget order "model_id"; vget order "symbol"; vget order "side"; vget order "order_type";
        quantity; filled; vget order "price"; vget order "stop_price"; vget order "limit_price";
        vget order "status"; vget order "rejection_reason"; commission; swap; profit;
        vget order "opened_at"; vget order "closed_at"].

(** [str(row["id"])] of a fetched row, which may be [None]. *)
Definition row_id (row : option vdict) : res string :=
  match row with
  | Some r => v ← vindex r "id"; mret (py_str v)
  | None => Raise (TypeError "'NoneType' object is not subscriptable")
  end.

Definition save_order_run (order : vdict) : M (bool * W) string :=
  with_conn (with_tx (
    existing ← fetchrow D sql_find_order [vget order "client_order_id"];
    match existing with
    | Some (_ :: _) => lift_res (row_id existing)
    | _ =>
        params ← lift_res (order_params order);
        row ← fetchrow D sql_insert_order params;
        lift_res (row_id row)
    end)).

Definition pg_save_order (order : vdict) : M (bool * W) string := execute_retry (save_order_run order) 3.

Definition pg_get_order (order_id : pyval) : M (bool * W) (option vdict) :=
  with_conn (row ← fetchrow D sql_get_order [order_id];
             mret (match row with Some (_ :: _) => row | _ => None end)).

Definition update_run (order_id : pyval) (st : string) (kwargs : vdict) : M (bool * W) bool :=
  with_conn (with_tx (
    row ← fetchrow D sql_lock_version [order_id];
    match row with
    | Some ((_ :: _) as r) =>
        version ← lift_res (v ← vindex r "version"; py_int v);
        let '(sql, vals) := update_statement order_id st kwargs version in
        result ← db_execute D sql vals;
        mret (ends_with "1" result)
    | _ => mret false
    end)).

Definition pg_update_order_status (order_id : pyval) (st : string) (kwargs : vdict) : M (bool * W) bool :=
  execute_retry (update_run order_id st kwargs) 3.

Definition pg_get_open_orders (account_id : pyval) : M (bool * W) (list vdict) :=
  with_conn (fetch D sql_open_orders [account_id]).

Definition pg_save_trade (trade : vdict) : M (bool * W) string :=
  with_conn (
    volume ← lift_res (float_field trade "volume");
    price ← lift_res (float_field trade "price");
    commission ← lift_res (float_field trade "commission");
    swap ← lift_res (float_field trade "swap");
    profit ← lift_res (float_field trade "profit");
    row ← fetchrow D sql_insert_trade
      [vget trade "id"; vget trade "order_id"; vget trade "account_id"; vget trade "position_id";
       vget trade "symbol"; vget trade "side"; volume; price; commission; swap; profit];
    lift_res (row_id row)).

Definition pg_get_position (position_id : pyval) : M (bool * W) (option vdict) :=
  with_conn (row ← fetchrow D sql_get_position [position_id];
             mret (match row with Some (_ :: _) => row | _ => None end)).

Definition pg_update_position (position_id : pyval) (kwargs : vdict) : M (bool * W) bool :=
  match kwargs with
  | [] => mret true
  | _ =>
      with_conn (
        let '(parts, vals) := set_clause_plain kwargs 2 in
        result ← db_execute D
          ("UPDATE positions SET " ++ str_join ", " parts ++ ", updated_at=NOW() WHERE id=$1::uuid")%string
          (position_id :: vals);
        mret (ends_with "1" result))
  end.

Definition pg_close_position (position_id : pyval) (exit_price : float) : M (bool * W) bool :=
  pg_update_position position_id [("current_price", VFloat exit_price); ("closed_at", VStr "now")].

Definition pg_save_risk_incident (incident : vdict) : M (bool * W) string :=
  with_conn (
    ps ← lift_res (json_dumps D (vget_or incident "parameters" (VDict [])));
    vs ← lift_res (json_dumps D (vget_or incident "actual_values" (VDict [])));
    row ← fetchrow D sql_insert_incident
      [vget incident "rule_type"; VStr ps; VStr vs; vget incident "order_id"; vget incident "account_id";
       vget incident "action_taken"];
    lift_res (row_id row)).

(** *** [PostgresOrderRepository] *)

Definition pg_get_open_positions (account_id : pyval) : M (bool * W) (list vdict) :=
  with_conn (fetch D sql_open_positions [account_id]).

Definition pg_get_account_state (account_id : pyval) : M (bool * W) vdict :=
  with_conn (
    account ← fetchrow D sql_account [account_id];
    open_orders ← fetchval D sql_count_orders [account_id];
    open_positions ← fetchval D sql_count_positions [account_id];
    aid ← lift_res (match account with
                    | Some ((_ :: _) as r) => v ← vindex r "id"; mret (VStr (py_str v))
                    | _ => mret account_id
                    end);
    o ← lift_res (py_int (py_or open_orders (VInt 0)));
    p ← lift_res (py_int (py_or open_positions (VInt 0)));
    mret [("account_id", aid); ("open_orders", VInt o); ("open_positions", VInt p)]).

Definition pg_save_audit_log (payload : vdict) : M (bool * W) unit :=
  with_conn (
    _ ← db_execute D sql_audit
      [vget payload "order_id"; vget_or payload "event_type" (VStr "event"); vget_or payload "payload" (VDict [])];
    mret tt).
End Repository.

(** ** Statements and their parameters *)

Lemma set_clause_spec updates idx :
  let '(parts, vals, last) := set_clause updates idx in
  last = idx + Z.of_nat (length vals) ∧
  Forall2 (λ kv part,
    if is_now kv.2 then part = (kv.1 ++ "=NOW()")%string
    else ∃ i, part = assign_param kv.1 i ∧ idx <= i < last ∧
              nth_error vals (Z.to_nat (i - idx)) = Some kv.2) updates parts.
Proof.
  revert idx. induction updates as [|[k v] rest IH]; intros idx; simpl; [split; [lia|constructor]|].
  destruct (is_now v) eqn:En.
  - specialize (IH idx). destruct (set_clause rest idx) as [[parts vals] last].
    destruct IH as [Hl IH]. split; [done|]. constructor; [by simpl; rewrite En|done].
  - specialize (IH (idx + 1)). destruct (set_clause rest (idx + 1)) as [[parts vals] last].
    destruct IH as [Hl IH]. split; [simpl length; lia|]. constructor.
    + simpl. rewrite En. exists idx. split; [done|]. split; [lia|]. by rewrite Z.sub_diag.
    + eapply Forall2_impl; [exact IH|]. intros [k' v'] part. simpl. destruct (is_now v'); [done|].
      intros (i & -> & Hi & Hnth). exists i. split; [done|]. split; [lia|].
      replace (Z.to_nat (i - idx)) with (S (Z.to_nat (i - (idx + 1)))) by lia. done.
Qed.

(** The UPDATE statement of [update_order_status] binds every placeholder to
    the value it was built for: the SET list assigns each updated column either
    NOW() or a placeholder $i whose i-th parameter is that column's value, $1 is
    the order id, and the last placeholder, the version guard, is the version
    that was read; there are exactly as many parameters as placeholders. *)
Theorem update_statement_binds order_id st kwargs version :
  let updates := dupdate [("status", VStr st); ("updated_at", VStr "NOW()"); ("version", VInt (version + 1))] kwargs in
  let '(sql, params) := update_statement order_id st kwargs version in
  ∃ parts,
    sql = ("UPDATE orders SET " ++ str_join ", " parts ++ " WHERE id=$1::uuid AND version=$"
           ++ str_Z (Z.of_nat (length params)))%string ∧
    nth_error params 0 = Some order_id ∧
    nth_error params (length params - 1) = Some (VInt version) ∧
    Forall2 (λ kv part,
      if is_now kv.2 then part = (kv.1 ++ "=NOW()")%string
      else ∃ i, part = assign_param kv.1 i ∧ 2 <= i < Z.of_nat (length params) ∧
                nth_error params (Z.to_nat (i - 1)) = Some kv.2) updates parts.
Proof.
  intros updates. unfold update_statement. fold updates. pose proof (set_clause_spec updates 2) as H.
  destruct (set_clause updates 2) as [[parts vals] last]. destruct H as [Hlast H].
  assert (Hlen : length (order_id :: vals ++ [VInt version])%list = (length vals + 2)%nat).
  { simpl. rewrite length_app. simpl. lia. }
  exists parts. split; [rewrite Hlen; repeat f_equal; lia|]. split; [done|]. split.
  - rewrite Hlen. replace (length vals + 2 - 1)%nat with (S (length vals)) by lia. simpl.
    rewrite nth_error_app2 by lia. by rewrite Nat.sub_diag.
  - eapply Forall2_impl; [exact H|]. intros [k v] part. simpl fst. simpl snd. destruct (is_now v); [done|].
    intros (i & -> & Hi & Hnth). exists i. split; [done|]. split; [rewrite Hlen; lia|].
    replace (Z.to_nat (i - 1)) with (S (Z.to_nat (i - 2))) by lia. simpl.
    rewrite nth_error_app1; [done|]. apply nth_error_Some. by rewrite Hnth.
Qed.

(** ** Retrying *)

Section Retry.
Context {W A : Type} (D : Db W) (sleep : float → M W unit) (fn : M (bool * W) A).

(** [k] connection failures in a row, each followed by its sleep. *)
Inductive failures : Z → bool * W → nat → bool * W → Prop :=
| failures_none i s : failures i s 0 s
| failures_more i s e s1 s2 k s' :
    fn s = (Raise e, s1) → transient D e = true → zoom_r (sleep (backoff i)) s1 = (Ok tt, s2) →
    failures (i + 1) s2 k s' → failures i s (S k) s'.

Lemma retry_loop_spec n i last s :
  (∀ d, returns (sleep d)) →
  ∃ k s1, (k <= n)%nat ∧ failures i s k s1 ∧
    (((k < n)%nat ∧ retry_loop D sleep fn n i last s = fn s1 ∧
      ∀ e s2, fn s1 = (Raise e, s2) → transient D e = false) ∨
     (k = n ∧ ∃ e, retry_loop D sleep fn n i last s = (Raise e, s1) ∧ ((0 < n)%nat → transient D e = true))).
Proof.
  intros Hsleep. revert i last s. induction n as [|n IH]; intros i last s.
  - exists 0%nat, s. split; [done|]. split; [constructor|]. right. split; [done|].
    eexists. split; [reflexivity|lia].
  - cbn [retry_loop]. destruct (fn s) as [[a|e] s1] eqn:E.
    { exists 0%nat, s. split; [lia|]. split; [constructor|]. left. rewrite E. split; [lia|]. done. }
    destruct (transient D e) eqn:Et.
    2:{ exists 0%nat, s. split; [lia|]. split; [constructor|]. left. rewrite E. split; [lia|].
        split; [done|]. by intros e' s2 [= <- <-]. }
    destruct s1 as [p w1]. destruct (Hsleep (backoff i) w1) as ([] & w2 & Hw2).
    assert (Hz : zoom_r (sleep (backoff i)) (p, w1) = (Ok tt, (p, w2))) by by apply zoom_r_run.
    rewrite (bind_ok _ _ _ tt (p, w2) Hz).
    destruct (IH (i + 1) (Some e) (p, w2)) as (k & s3 & Hk & Hf & Hcase).
    exists (S k), s3. split; [lia|]. split; [by econstructor|].
    destruct Hcase as [(Hlt & Hr & Hx)|(-> & e' & Hr & Hx)]; [left; split; [lia|done]|right].
    split; [done|]. exists e'. split; [done|]. intros _. destruct n as [|n]; [|apply Hx; lia].
    simpl in Hr. unfold raise in Hr. by injection Hr as <- <-.
Qed.

(** [_execute_retry] gives up: it calls the operation at most [retries]
    times, sleeping 0.2 s, 0.4 s, ... after each connection failure; its result is
    the first call that does not fail with a connection error, whether it returned
    or raised something else, and after [retries] failures it raises a connection
    error.  It never runs for ever and never swallows a result. *)
Theorem retry_is_bounded retries s :
  (∀ d, returns (sleep d)) → (0 < retries)%nat →
  ∃ k s1, (k <= retries)%nat ∧ failures 0 s k s1 ∧
    (((k < retries)%nat ∧ execute_retry D sleep fn retries s = fn s1 ∧
      ∀ e s2, fn s1 = (Raise e, s2) → transient D e = false) ∨
     (k = retries ∧ ∃ e, execute_retry D sleep fn retries s = (Raise e, s1) ∧ transient D e = true)).
Proof.
  intros Hs Hn. destruct (retry_loop_spec retries 0 None s Hs) as (k & s1 & Hk & Hf & Hcase).
  exists k, s1. split; [done|]. split; [done|].
  destruct Hcase as [|(Heq & e & Hr & Ht)]; [by left|right]. split; [done|]. exists e.
  split; [done|]. by apply Ht.
Qed.
End Retry.

(** ** Saving an order *)

(** What PostgreSQL promises the two statements of [save_order]: [table] is the
    committed and pending content of [orders], as client order ids with row ids,
    and [snapshot] what a rollback returns to.  Any call may also fail; a failed
    COMMIT may or may not have taken place. *)
Class OrdersTable `{PyRepr} {W} (D : Db W) (table snapshot : W → dict string string) := {
  ot_acquire w : table (acquire D w).2 = table w;
  ot_release w : table (release D w).2 = table w;
  ot_begin w : table (begin_tx D w).2 = table w;
  ot_begin_snapshot w w' : begin_tx D w = (Ok tt, w') → snapshot w' = table w;
  ot_commit w : table (commit_tx D w).2 = table w ∨
                ((∃ e, (commit_tx D w).1 = Raise e) ∧ table (commit_tx D w).2 = snapshot w);
  ot_rollback w : table (rollback_tx D w).2 = snapshot w;
  ot_find w c : let w' := (fetchrow D sql_find_order [VStr c] w).2 in
                table w' = table w ∧ snapshot w' = snapshot w;
  ot_find_row w c row w' :
    fetchrow D sql_find_order [VStr c] w = (Ok row, w') →
    match dget (table w) c with
    | Some i => ∃ r, row = Some r ∧ r ≠ [] ∧ row_id row = Ok i
    | None => row = None
    end;
  ot_insert w ps c : nth_error ps 1 = Some (VStr c) →
    let w' := (fetchrow D sql_insert_order ps w).2 in
    snapshot w' = snapshot w ∧
    match (fetchrow D sql_insert_order ps w).1 with
    | Ok row => ∃ i, row_id row = Ok i ∧ table w' = dset (table w) c i
    | Raise _ => table w' = table w
    end
}.

Section SaveOrder.
Context `{PyRepr} {W : Type} (D : Db W) (sleep : float → M W unit) (table snapshot : W → dict string string).
Context {OT : OrdersTable D table snapshot}.
Context (sleep_quiet : ∀ d w, table (sleep d w).2 = table w).

(** One client's row has at most been added. *)
Definition grows (c : string) (t t' : dict string string) : Prop :=
  t' = t ∨ (dget t c = None ∧ ∃ i, t' = dset t c i).

Lemma grows_trans c t1 t2 t3 : grows c t1 t2 → grows c t2 t3 → grows c t1 t3.
Proof.
  intros [->|(Hn & i & ->)] Hg; [done|]. destruct Hg as [->|(Hn2 & _)]; [right; eauto|].
  by rewrite dget_dset_eq in Hn2.
Qed.

(** What a run of a method does to the table of client [c]: it grows at most by
    that row, and a returned id is the row's. *)
Definition saves (c : string) {X} (st : X → W) (m : M X string) : Prop :=
  ∀ s, let '(r, s') := m s in
       grows c (table (st s)) (table (st s')) ∧ (∀ i, r = Ok i → dget (table (st s')) c = Some i).

(** The two statements inside the transaction. *)
Definition find_or_insert (order : vdict) : M W string :=
  existing ← fetchrow D sql_find_order [vget order "client_order_id"];
  match existing with
  | Some (_ :: _) => lift_res (row_id existing)
  | _ =>
      params ← lift_res (order_params order);
      row ← fetchrow D sql_insert_order params;
      lift_res (row_id row)
  end.

Lemma order_params_client order ps :
  order_params order = Ok ps → nth_error ps 1 = Some (vget order "client_order_id").
Proof.
  unfold order_params, mbind, res_bind. do 5 (destruct (float_field _ _); [|discriminate]).
  by intros [= <-].
Qed.

Lemma find_or_insert_spec order c w :
  vget order "client_order_id" = VStr c →
  let '(r, w') := find_or_insert order w in
  snapshot w' = snapshot w ∧ grows c (table w) (table w') ∧ (∀ i, r = Ok i → dget (table w') c = Some i).
Proof.
  intros Hc. unfold find_or_insert, mbind, M_bind. rewrite Hc.
  pose proof (ot_find w c) as Hq. pose proof (ot_find_row w c) as Hrow. simpl in Hq.
  destruct (fetchrow D sql_find_order [VStr c] w) as [[row|e] w1]; destruct Hq as [Ht Hs]; simpl in Ht, Hs.
  2:{ simpl. split; [done|]. split; [by left|]. by intros i [=]. }
  specialize (Hrow row w1 eq_refl). destruct (dget (table w) c) as [i0|] eqn:Ec.
  - destruct Hrow as (r & -> & Hne & Hid). destruct r as [|kv r]; [done|].
    unfold lift_res. split; [done|]. split; [left; exact Ht|].
    intros i Hi. rewrite Hid in Hi. injection Hi as <-. simpl. by rewrite Ht.
  - subst row. unfold lift_res. destruct (order_params order) as [ps|e] eqn:Eps.
    2:{ split; [done|]. split; [left; exact Ht|]. by intros i [=]. }
    pose proof (order_params_client _ _ Eps) as Hnth. rewrite Hc in Hnth.
    pose proof (ot_insert w1 ps c Hnth) as Hins. simpl in Hins.
    destruct (fetchrow D sql_insert_order ps w1) as [[row|e] w2]; simpl in Hins; destruct Hins as [Hs2 Hins].
    + destruct Hins as (i & Hi & Ht2). simpl. split; [congruence|]. rewrite Ht in Ht2. split.
      * right. split; [done|]. by exists i.
      * intros i' Hi'. rewrite Hi in Hi'. injection Hi' as <-. rewrite Ht2. apply dget_dset_eq.
    + simpl. split; [congruence|]. split; [left; congruence|]. by intros i [=].
Qed.

Lemma tx_saves order c :
  vget order "client_order_id" = VStr c → saves c (λ w, w) (with_tx D (find_or_insert order)).
Proof.
  intros Hc w. unfold with_tx, on_exit. pose proof (ot_begin w) as Hb. pose proof (ot_begin_snapshot w) as Hbs.
  unfold mbind at 1, M_bind at 1. destruct (begin_tx D w) as [[[]|e] w1]; simpl in Hb.
  2:{ split; [by left; rewrite Hb|]. by intros i [=]. }
  specialize (Hbs w1 eq_refl). pose proof (find_or_insert_spec order c w1 Hc) as Hf.
  destruct (find_or_insert order w1) as [[i|e] w2]; destruct Hf as (Hs & Hg & Hi); rewrite Hb in Hg.
  - unfold mbind, M_bind. pose proof (ot_commit w2) as Hct.
    destruct (commit_tx D w2) as [[[]|e] w3]; simpl in Hct.
    + destruct Hct as [Hct|[[e [=]] _]]. unfold mret, M_ret. rewrite Hct. split; [done|].
      intros i' [= <-]. by apply Hi.
    + split; [|by intros i' [=]]. destruct Hct as [->|[_ ->]]; [done|]. left. by rewrite Hs, Hbs.
  - unfold mbind, M_bind. pose proof (ot_rollback w2) as Hrb.
    destruct (rollback_tx D w2) as [[[]|x] w3]; simpl in Hrb; unfold raise;
      (split; [left; by rewrite Hrb, Hs, Hbs|by intros i [=]]).
Qed.

Lemma conn_saves (m : M W string) c : saves c (λ w, w) m → saves c snd (with_conn D m).
Proof.
  intros Hm [p w]. unfold with_conn, assert_pool, gets, on_exit, mbind, M_bind. simpl.
  destruct p; simpl; [|split; [by left|by intros i [=]]].
  pose proof (ot_acquire w) as Ha. destruct (acquire D w) as [[[]|e] w1]; simpl in *.
  2:{ split; [left; by rewrite Ha|by intros i [=]]. }
  specialize (Hm w1). destruct (m w1) as [[i|e] w2]; destruct Hm as [Hg Hi]; rewrite Ha in Hg;
    pose proof (ot_release w2) as Hr; simpl;
    destruct (release D w2) as [[[]|x] w3]; simpl in *; rewrite Hr;
    (split; [done|]); intros i' Hi'; try discriminate Hi'; injection Hi' as <-; by apply Hi.
Qed.

Lemma retry_saves fn n i last c : saves c snd fn → saves c snd (retry_loop D sleep fn n i last).
Proof.
  intros Hfn. revert i last. induction n as [|n IH]; intros i last s; cbn [retry_loop].
  { split; [by left|by intros j [=]]. }
  specialize (Hfn s). destruct (fn s) as [[a|e] [p w1]]; destruct Hfn as [Hg Hi]; [done|].
  destruct (transient D e); [|by split; [|intros j [=]]].
  unfold mbind, M_bind, zoom_r. simpl in Hg. pose proof (sleep_quiet (backoff i) w1) as Hq.
  destruct (sleep (backoff i) w1) as [[[]|x] w2]; simpl in Hq; rewrite <- Hq in Hg.
  2:{ split; [done|by intros j [=]]. }
  specialize (IH (i + 1) (Some e) (p, w2)).
  destruct (retry_loop D sleep fn n (i + 1) (Some e) (p, w2)) as [r s']. destruct IH as [Hg2 Hi2].
  split; [by apply (grows_trans c _ _ _ Hg)|done].
Qed.

Lemma pg_save_order_saves order c :
  vget order "client_order_id" = VStr c → saves c snd (pg_save_order D sleep order).
Proof. intros Hc. apply retry_saves, conn_saves. by apply tx_saves. Qed.

End SaveOrder.

(** ** A table in memory

    Its world: the rows, the rows at the last BEGIN, and a number of coming
    statements that fail with a connection error. *)

Record MemDb := { mem_table : dict string string; mem_snapshot : dict string string; mem_faults : nat }.

Definition conn_error : exn := ExternalError "PostgresConnectionError" "lost".

Definition mem_fetchrow (sql : string) (ps : list pyval) : M MemDb (option vdict) := λ w,
  match mem_faults w with
  | S n => (Raise conn_error, {| mem_table := mem_table w; mem_snapshot := mem_snapshot w; mem_faults := n |})
  | O =>
      if String.eqb sql sql_find_order then
        match ps with
        | [VStr c] => (Ok (match dget (mem_table w) c with Some i => Some [("id", VUuid i)] | None => None end), w)
        | _ => (Ok None, w)
        end
      else if String.eqb sql sql_insert_order then
        match ps with
        | _ :: VStr c :: _ =>
            let i := String.append "row-" c in
            (Ok (Some [("id", VUuid i)]),
             {| mem_table := dset (mem_table w) c i; mem_snapshot := mem_snapshot w; mem_faults := 0 |})
        | _ => (Raise (ExternalError "NotNullViolationError" ""), w)
        end
      else (Ok None, w)
  end.

Definition mem_db : Db MemDb := {|
  create_pool := mret tt; close_pool := mret tt; acquire := mret tt; release := mret tt;
  begin_tx := λ w, (Ok tt, {| mem_table := mem_table w; mem_snapshot := mem_table w; mem_faults := mem_faults w |});
  commit_tx := mret tt;
  rollback_tx := λ w, (Ok tt, {| mem_table := mem_snapshot w; mem_snapshot := mem_snapshot w; mem_faults := mem_faults w |});
  fetchrow := mem_fetchrow;
  fetch _ _ := mret []; fetchval _ _ := mret (VInt 0); db_execute _ _ := mret "UPDATE 0";
  json_dumps _ := Ok "{}";
  transient e := match e with ExternalError cls _ => String.eqb cls "PostgresConnectionError" | _ => false end
|}.

Definition storage_repr : PyRepr := {| repr_other _ := "" |}.

#[export] Instance mem_orders_table : OrdersTable (H := storage_repr) mem_db mem_table mem_snapshot.
Proof.
  split; try done.
  - by intros w w' [= <-].
  - intros w. by left.
  - intros w c. cbn. unfold mem_fetchrow. by destruct (mem_faults w).
  - intros w c row w'. cbn. unfold mem_fetchrow. destruct (mem_faults w); [|done]. cbn.
    intros [= <- <-]. destruct (dget (mem_table w) c) as [i|]; [|done]. by eexists.
  - intros w ps c Hps. cbn. unfold mem_fetchrow. destruct (mem_faults w); [|done].
    destruct ps as [|x [|y ps]]; try done. injection Hps as ->.
    change (String.eqb sql_insert_order sql_find_order) with false.
    change (String.eqb sql_insert_order sql_insert_order) with true. cbn. split; [done|]. by eexists.
Qed.

Definition demo_save : vdict := [("client_order_id", VStr "c-1"); ("quantity", VFloat f1)].

(** A pool whose first two statements fail. *)
Definition demo_pool : bool * MemDb :=
  (true, {| mem_table := []; mem_snapshot := []; mem_faults := 2 |}).


Lemma retry_witness :
  ∃ k s1, (k <= 3)%nat ∧ failures mem_db (λ _, mret tt) (save_order_run (H := storage_repr) mem_db demo_save) 0 demo_pool k s1 ∧
    (((k < 3)%nat ∧ execute_retry mem_db (λ _, mret tt) (save_order_run (H := storage_repr) mem_db demo_save) 3 demo_pool =
        save_order_run (H := storage_repr) mem_db demo_save s1 ∧
      ∀ e s2, save_order_run (H := storage_repr) mem_db demo_save s1 = (Raise e, s2) → transient mem_db e = false) ∨
     (k = 3%nat ∧ ∃ e, execute_retry mem_db (λ _, mret tt) (save_order_run (H := storage_repr) mem_db demo_save) 3 demo_pool
        = (Raise e, s1) ∧ transient mem_db e = true)).
Proof.
  exact (retry_is_bounded mem_db (λ _, mret tt) (save_order_run (H := storage_repr) mem_db demo_save) 3 demo_pool
    (λ _ s, ex_intro _ tt (ex_intro _ s eq_refl)) ltac:(repeat constructor)).
Defined.
