(* ===== verification/Trading.v ===== *)
(** * The trading service (trading_service/src/app.py)

    The HTTP handlers, and the service put together as [app.py] does it: the
    execution engine with the MT5 connector, the risk engine and the PostgreSQL
    repository of the other files. *)

From Stdlib Require Import ZArith Lia Bool List Ascii String.
From stdpp Require Import base decidable list option strings.
From S2P Require Import Prelude PyFloat PyStr PyDateTime PyMonad PyDict PyVal.
From S2P Require Import Orders Risk Execution Mt5 Storage.
Open Scope string_scope.
Open Scope Z_scope.
Open Scope py_scope.

(** ** Requests *)

(** [OrderIn]. *)
Record OrderIn := {
  in_account_id : string; in_symbol : string; in_side : string; in_order_type : string;
  in_quantity : float; in_strategy_id : option string; in_model_id : option string
}.

(** [PostgresOrderRepository] as the engine sees it: the methods [update_order]
    and [get_orders] the engine calls do not exist in the class. *)
Definition pg_order_repo `{PyRepr} {V} (D : Db V) (sleep : float → M V unit) : OrderRepo (bool * V) := {|
  repo_save_order d := _ ← pg_save_order D sleep d; mret tt;
  repo_get_order i := pg_get_order D i;
  repo_update_order := None;
  repo_get_orders := None
|}.

Section Service.
Context {W CB : Type} `{EqDecision CB}.
Context (C : Connector W) (gate : RiskGate W) (R : OrderRepo W).
Context (utcnow : M W datetime) (call : CB → vdict → M W unit).
(** [str(uuid4())], [str(exc)] and the repository's [get_account_state]. *)
Context (uuid4 : M W string) (exn_text : exn → string) (account_state : pyval → M W vdict).

(** The handlers' common [except Exception as exc: raise HTTPException(400, str(exc))]. *)
Definition bad_request {A} (m : M (ExecEngine CB * W) A) : M (ExecEngine CB * W) A :=
  try_except m (λ exc, raise (HTTPException 400 (exn_text exc))).

(** The order the handler builds. *)
Definition order_of_payload (payload : OrderIn) : M (ExecEngine CB * W) Order :=
  id ← zoom_r uuid4;
  client_id ← zoom_r uuid4;
  side ← lift_res (side_of (VStr (str_upper (in_side payload))));
  type ← lift_res (type_of (VStr (str_upper (in_order_type payload))));
  now1 ← zoom_r utcnow;
  now2 ← zoom_r utcnow;
  mret (new_order (VStr id) (VStr client_id) (VStr (in_account_id payload))
          (opt_str (in_strategy_id payload)) (opt_str (in_model_id payload))
          (VStr (in_symbol payload)) side type (in_quantity payload) now1 now2).

(** [POST /orders]. *)
Definition post_order (payload : OrderIn) : M (ExecEngine CB * W) vdict :=
  bad_request (
    order ← order_of_payload payload;
    d ← lift_res (to_dict order);
    zoom_r (repo_save_order R d) ;;
    _ ← submit_order C gate R utcnow call order;
    lift_res (to_dict order)).

(** [GET /orders/{order_id}]. *)
Definition get_order_handler (order_id : string) : M (ExecEngine CB * W) vdict :=
  found ← get_order R utcnow (VStr order_id);
  match found with
  | None => raise (HTTPException 404 "order not found")
  | Some order => lift_res (to_dict order)
  end.

(** [GET /account/{account_id}]. *)
Definition get_account_handler (account_id : string) : M (ExecEngine CB * W) vdict :=
  account_info ← zoom_r (get_account_info C);
  state ← zoom_r (account_state (VStr account_id));
  mret [("broker", VDict account_info); ("state", VDict state)].

(** ** A submission needs [update_order] *)

Lemma update_never_returns i st kwargs :
  repo_update_order R = None → yields (λ _, False) (update_order_status R utcnow call i st kwargs).
Proof.
  intros Hr s a s' Hrun. unfold update_order_status in Hrun. rewrite Hr in Hrun.
  peel Hrun as found s1 Hf. destruct found as [o|]; [|done].
  destruct (negb _); [done|]. peel Hrun as now s2 Hn. by peel Hrun as u s3 Hu.
Qed.

Lemma submit_never_returns o :
  repo_update_order R = None → yields (λ _, False) (submit_order C gate R utcnow call o).
Proof.
  intros Hr. pose proof (λ i st k, update_never_returns i st k Hr) as Hu.
  assert (Hseq : ∀ i st k B (f : unit → M (ExecEngine CB * W) B),
    yields (λ _, False) (update_order_status R utcnow call i st k ≫= f)).
  { intros i st k B f s a s' Hrun. peel Hrun as u s1 H1. by apply Hu in H1. }
  unfold submit_order, place.
  repeat first [apply Hseq | progress intros | apply yields_raise | case_match | apply yields_bind].
Qed.

(** Every order posted to the service fails: with the repository the service
    is built with, which has no [update_order], [POST /orders] never returns an
    order.  It answers 400 for every exception, whatever the connector, the risk
    engine and the database do (only a cancellation of the request goes through). *)
Theorem post_order_never_succeeds payload s :
  repo_update_order R = None →
  ∃ e s', post_order payload s = (Raise e, s') ∧
    (is_Exception e = false ∨ ∃ detail, e = HTTPException 400 detail).
Proof.
  intros Hr. unfold post_order, bad_request, try_except.
  match goal with |- context [match ?m s with _ => _ end] => destruct (m s) as [[d|e] s'] eqn:E end.
  - exfalso. peel E as order s1 H1. peel E as d1 s2 H2. peel E as u s3 H3. peel E as o s4 H4.
    by apply (submit_never_returns order Hr) in H4.
  - destruct (is_Exception e) eqn:Ee; [|exists e, s'; auto]. unfold raise. eauto 6.
Qed.
End Service.

(** ** The kill switch, through the whole service *)

Section KillSwitch.
Context `{PyRepr} {V CB : Type} `{EqDecision CB}.
(** The risk engine is part of the world the execution engine calls into. *)
Context (CR : Collaborators V) (C : Connector V) (R : OrderRepo (RiskEngine * V)).
Context (utcnow : M (RiskEngine * V) datetime) (call : CB → vdict → M (RiskEngine * V) unit).

(** The connector does not know the risk engine. *)
Definition lift_connector : Connector (RiskEngine * V) := {|
  get_account_info := zoom_r (get_account_info C);
  get_positions y := zoom_r (get_positions C y);
  execute_order d := zoom_r (execute_order C d);
  connector_cancel_order i := zoom_r (connector_cancel_order C i)
|}.

(** C17. End to end, the kill switch keeps orders from the broker: once
    [RiskEngine.kill_switch] has been called, whether it returned or raised, and
    after any further requests to the risk engine that do not release it,
    [submit_order] of any order on any repository does the same whatever the
    broker's [execute_order] would do, that is, without calling it. *)
Theorem kill_switch_stops_submissions why who ops o e s x1 x2 :
  forallb (λ op, negb (is_release op)) ops = true →
  let s1 := (run_ops CR ops (kill_switch CR why who s).2).2 in
  submit_order (with_execute lift_connector x1) (pre_trade_check CR) R utcnow call o (e, s1) =
  submit_order (with_execute lift_connector x2) (pre_trade_check CR) R utcnow call o (e, s1).
Proof.
  intros Hops s1. apply (submit_same_unless_approved _ _ _ _ _ killed).
  - apply zoom_killed.
  - intros y. apply zoom_killed.
  - left. intros d ai ps w a w' Hk Hg. rewrite (check_killed_lemma CR d ai ps w Hk) in Hg.
    by injection Hg as <- <-.
  - apply run_ops_killed; [apply kill_switch_sets_lemma|done].
Qed.
End KillSwitch.

(** ** The engine and the MT5 connector together *)

(** A canonical UUID text: a hyphen after its first eight characters. *)
Definition uuid_text (s : string) : bool :=
  match list_ascii_of_string s with
  | c :: r => negb (is_space c) && existsb (Ascii.eqb "-") r
  | [] => false
  end.

Lemma parse_int_uuid s : uuid_text s = true → parse_int s = None.
Proof.
  unfold uuid_text. destruct (list_ascii_of_string s) as [|c r] eqn:E; [done|].
  rewrite andb_true_iff, negb_true_iff, existsb_exists. intros [Hc (x & Hin & <-%Ascii.eqb_eq)].
  by apply (parse_int_inner_hyphen s c r).
Qed.

Section EngineAndMt5.
Context `{PyRepr} {V : Type} (t : Terminal V).

Lemma build_request_fields d volume price req :
  build_request t d volume price = Ok req →
  vget req "action" = VInt (if String.eqb (type_text d) "MARKET" then TRADE_ACTION_DEAL t else TRADE_ACTION_PENDING t) ∧
  ∃ sl tp, py_float (py_or (vget d "stop_price") (VInt 0)) = Ok sl ∧ vget req "sl" = VFloat sl ∧
           py_float (py_or (vget d "limit_price") (VInt 0)) = Ok tp ∧ vget req "tp" = VFloat tp.
Proof.
  unfold build_request, mbind, res_bind.
  destruct (py_float (py_or (vget d "stop_price") _)) as [sl|]; [|discriminate].
  destruct (py_float (py_or (vget d "limit_price") _)) as [tp|]; [|discriminate].
  do 2 (destruct (py_int _); [|discriminate]). intros [= <-]. split; [done|]. by exists sl, tp.
Qed.

(** Whatever its type, an order the engine hands to the connector is sent as
    an immediate market deal: [to_dict] writes the type under "order_type" while
    the connector reads "type".  Its stop and limit prices become the stop loss
    and the take profit of that deal. *)
Theorem engine_orders_are_market_deals o d volume price req :
  to_dict o = Ok d → build_request t d volume price = Ok req →
  vget req "action" = VInt (TRADE_ACTION_DEAL t) ∧
  ∃ sl tp, py_float (py_or (stop_price o) (VInt 0)) = Ok sl ∧ vget req "sl" = VFloat sl ∧
           py_float (py_or (limit_price o) (VInt 0)) = Ok tp ∧ vget req "tp" = VFloat tp.
Proof.
  intros Hd Hr. destruct (build_request_fields d volume price req Hr) as (Ha & sl & tp & Hsl & Esl & Htp & Etp).
  unfold to_dict, mbind, res_bind in Hd. do 4 (destruct (iso_field _); [|discriminate Hd]).
  injection Hd as <-. split; [exact Ha|]. by exists sl, tp.
Qed.

Context {CB : Type} `{EqDecision CB} (C : Connector (ConnState * V)) (R : OrderRepo (ConnState * V)).
Context (utcnow : M (ConnState * V) datetime) (call : CB → vdict → M (ConnState * V) unit).
Context (view : ConnState * V → string → option vdict) (overwrites : bool).
Context {Laws : RepoLaws R view overwrites} {QE : QuietEnv view utcnow call}.

(** Cancelling a live order through the engine always fails: the engine
    passes its own order id, which the service draws with uuid4, to the
    connector, whose int(order_id) raises ValueError on it; nothing is sent and
    the order keeps its status. *)
Theorem cancel_by_uuid_always_fails s o e w :
  connector_cancel_order C = mt5_cancel_order (Some t) →
  uuid_text s = true → stored view w s o → cancelable (status o) = true →
  cancel_order C R utcnow call (VStr s) (e, w) =
    (Raise (ValueError "invalid literal for int() with base 10"), (e, w)).
Proof.
  intros Hcancel Hs Hst Hc. unfold cancel_order.
  rewrite (bind_ok _ _ _ _ _ (get_order_stored R utcnow view overwrites s o e w Hst)). rewrite Hc. cbn [negb].
  apply bind_raise, zoom_r_run. rewrite Hcancel. unfold mt5_cancel_order, need_mt5.
  rewrite (bind_ok _ _ _ t w) by done. apply bind_raise. unfold lift_res. simpl.
  by rewrite (parse_int_uuid s Hs).
Qed.
End EngineAndMt5.

(** ** Witnesses *)

(** A repository that is one part of a larger world. *)
Definition zoom_repo {S W} (R : OrderRepo W) : OrderRepo (S * W) := {|
  repo_save_order d := zoom_r (repo_save_order R d);
  repo_get_order i := zoom_r (repo_get_order R i);
  repo_update_order := option_map (λ f i d, zoom_r (f i d)) (repo_update_order R);
  repo_get_orders := option_map (λ f i s, zoom_r (f i s)) (repo_get_orders R)
|}.

#[export] Instance zoom_repo_laws {S W} (R : OrderRepo W) view b `{!RepoLaws R view b} :
  RepoLaws (zoom_repo (S:=S) R) (λ sw, view sw.2) b.
Proof.
  split.
  - intros [s w] i. apply zoom_r_run, law_get.
  - intros [s w] i. simpl. pose proof (law_get_any w i) as Hg. destruct (repo_get_order R i w). simpl in *. by subst.
  - destruct (law_update (R:=R) (view:=view)) as (upd & Hupd & H1 & H2).
    exists (λ i d, zoom_r (upd i d)). split; [simpl; by rewrite Hupd|]. split.
    + intros [s w] i d. destruct (H1 w i d) as (w' & Hw & Hv). exists (s, w'). split; [by apply zoom_r_run|done].
    + intros [s w] i d j Hj. simpl. specialize (H2 w i d j Hj). by destruct (upd i d w).
  - intros [s w] i d His Hid. destruct (law_save w i d His Hid) as (w' & Hw & Hv).
    exists (s, w'). split; [by apply zoom_r_run|done].
  - intros [s w] i d His Hid. simpl. pose proof (law_save_other w i d His Hid) as Ho.
    by destruct (repo_save_order R d w).
Qed.

#[export] Instance zoom_quiet_env {S} : QuietEnv (λ sw : S * Table, dget sw.2) (zoom_r demo_clock) (λ cb d, zoom_r (demo_call cb d)).
Proof.
  split.
  - intros [s w]. by exists demo_date, (s, w).
  - by intros [s w] i.
  - intros cb d [s w] i. simpl. unfold demo_call. by destruct (Nat.even cb).
  - intros cb d [s w] x w'. simpl. unfold demo_call. destruct (Nat.even cb); [done|]. by intros [= <- <-].
Qed.

Definition trading_repr : PyRepr := {| repr_other _ := "" |}.

Definition demo_in : OrderIn := {|
  in_account_id := "acc"; in_symbol := "EURUSD"; in_side := "buy"; in_order_type := "market";
  in_quantity := flit 1 10; in_strategy_id := None; in_model_id := None
|}.

Lemma post_order_witness :
  ∃ e s', post_order (CB := nat)
      {| get_account_info := mret []; get_positions _ := mret []; execute_order _ := mret []; connector_cancel_order _ := mret true |}
      (λ _ _ _, mret approve) (pg_order_repo (H := trading_repr) mem_db (λ _, mret tt)) (mret demo_date)
      (λ _ _, mret tt) (mret "u-1") (λ _, "") demo_in (initial_exec, demo_pool) = (Raise e, s') ∧
    (is_Exception e = false ∨ ∃ detail, e = HTTPException 400 detail).
Proof.
  exact (post_order_never_succeeds (CB := nat)
    {| get_account_info := mret []; get_positions _ := mret []; execute_order _ := mret []; connector_cancel_order _ := mret true |}
    (λ _ _ _, mret approve) (pg_order_repo (H := trading_repr) mem_db (λ _, mret tt)) (mret demo_date)
    (λ _ _, mret tt) (mret "u-1") (λ _, "") demo_in (initial_exec, demo_pool) eq_refl).
Defined.

(** A limit order with a price, as [to_dict] gives it to the connector. *)
Definition demo_limit : Order :=
  set_attr {| id := VStr "o-2"; client_order_id := VStr "c-2"; account_id := VStr "acc"; strategy_id := VNone;
     model_id := VNone; symbol := VStr "EURUSD"; side := BUY; order_type := LIMIT; quantity := flit 1 10;
     filled_quantity := f0; price := VNone; stop_price := VNone; limit_price := VFloat (flit 105 100);
     status := PENDING; rejection_reason := VNone; commission := f0; swap := f0; profit := f0;
     opened_at := None; closed_at := None; created_at := VDate demo_date; updated_at := VDate demo_date |}
    (No_such_field "none").

Definition demo_request : vdict :=
  match to_dict demo_limit with
  | Ok d => match build_request (H := trading_repr) (demo_terminal true 10009) d f1 f1 with Ok r => r | Raise _ => [] end
  | Raise _ => []
  end.

Lemma market_deals_witness :
  order_type demo_limit = LIMIT ∧ vget demo_request "action" = VInt 1 ∧
  ∃ sl tp, py_float (py_or (stop_price demo_limit) (VInt 0)) = Ok sl ∧ vget demo_request "sl" = VFloat sl ∧
           py_float (py_or (limit_price demo_limit) (VInt 0)) = Ok tp ∧ vget demo_request "tp" = VFloat tp.
Proof.
  split; [reflexivity|].
  exact (engine_orders_are_market_deals (H := trading_repr) (demo_terminal true 10009) demo_limit _ f1 f1 demo_request
    eq_refl ltac:(vm_compute; reflexivity)).
Defined.

Definition demo_uuid : string := "7b0c2a3e-1111-4222-8333-444455556666".

(** A terminal that accepts every request, beside the order table. *)
Definition table_terminal : Terminal Table := {|
  initialize _ _ := mret true; login _ _ _ := mret true; shutdown := mret tt;
  last_error := mret "(1, 'Success')"; terminal_info := mret true;
  symbol_select _ _ := mret true; symbol_info _ := mret (Some demo_info);
  symbol_info_tick _ := mret (Some {| ask := flit 11 10; bid := flit 1099 1000 |});
  order_calc_margin _ _ _ _ := mret (Some (flit 50 1));
  terminal_account_info := mret None;
  order_send _ := mret (Some {| sr_retcode := Some (VInt 10009); sr_asdict := Some [("retcode", VInt 10009); ("order", VInt 1)] |});
  positions_get _ _ := mret None; orders_get _ := mret None;
  TRADE_ACTION_DEAL := 1; TRADE_ACTION_PENDING := 5; TRADE_ACTION_MODIFY := 7; TRADE_ACTION_REMOVE := 8;
  ORDER_TYPE_BUY := 0; ORDER_TYPE_SELL := 1; POSITION_TYPE_BUY := 0;
  ORDER_TIME_GTC := 0; ORDER_FILLING_RETURN := 2; ORDER_FILLING_IOC := 1;
  SYMBOL_TRADE_MODE_DISABLED := Some 0; SYMBOL_TRADE_MODE_CLOSEONLY := Some 3
|}.

Lemma cancel_uuid_witness :
  let w := (initial_conn, [(demo_uuid, demo_row)]) : ConnState * Table in
  cancel_order {| get_account_info := mret []; get_positions _ := mret []; execute_order _ := mret [];
                  connector_cancel_order := mt5_cancel_order (Some table_terminal) |}
    (zoom_repo (mem_repo false)) (zoom_r demo_clock) (λ cb d, zoom_r (demo_call cb d)) (VStr demo_uuid) (demo_exec, w) =
    (Raise (ValueError "invalid literal for int() with base 10"), (demo_exec, w)).
Proof.
  intros w.
  refine (cancel_by_uuid_always_fails table_terminal
    {| get_account_info := mret []; get_positions _ := mret []; execute_order _ := mret [];
       connector_cancel_order := mt5_cancel_order (Some table_terminal) |}
    (zoom_repo (mem_repo false)) (zoom_r demo_clock) (λ cb d, zoom_r (demo_call cb d))
    (λ sw, dget sw.2) false demo_uuid demo_order demo_exec w eq_refl eq_refl _ eq_refl).
  split; [reflexivity|]. exists demo_row. split; reflexivity.
Defined.

Lemma kill_submissions_witness :
  let C : Connector DemoWorld := {| get_account_info := mret []; get_positions _ := mret [];
            execute_order _ := mret []; connector_cancel_order _ := mret true |} in
  let R : OrderRepo (RiskEngine * DemoWorld) := {| repo_save_order _ := mret tt; repo_get_order _ := mret None;
            repo_update_order := None; repo_get_orders := None |} in
  let s1 := (run_ops (H := trading_repr) demo [] (kill_switch demo "test" "tester" (initial_engine, demo_world)).2).2 in
  submit_order (with_execute (lift_connector C) (λ _, mret [("ok", VBool true)])) (pre_trade_check (H := trading_repr) demo) R
    (mret demo_date) (λ (_ : nat) _, mret tt) demo_order (initial_exec, s1) =
  submit_order (with_execute (lift_connector C) (λ _, raise (RuntimeError "sent"))) (pre_trade_check (H := trading_repr) demo) R
    (mret demo_date) (λ (_ : nat) _, mret tt) demo_order (initial_exec, s1).
Proof.
  intros C R.
  exact (kill_switch_stops_submissions (H := trading_repr) demo C R (mret demo_date) (λ (_ : nat) _, mret tt)
    "test" "tester" [] demo_order initial_exec (initial_engine, demo_world) _ _ eq_refl).
Defined.
