(* ===== verification/Registry.v ===== *)
(** * The model registry (ml_service/src/registry/manager.py, ml_service/src/app.py)

    Registration, promotion gates, promotion, rollback and rejection of models,
    and the two handlers of the service.  The registry is its dictionary of models
    by id, in order of registration.  The drift report ([detect_drift]) is in
    Drift.v. *)

From Stdlib Require Import ZArith Lia Bool List Ascii String Sorting.Sorted.
From stdpp Require Import base decidable list option strings.
From S2P Require Import Prelude PyFloat PyStr PyDateTime PyMonad PyDict PyVal.
Open Scope string_scope.
Open Scope Z_scope.
Open Scope py_scope.

(** ** Data *)

Record Model := {
  model_id : string; name : string; version : Z; description : pyval;
  status : string; stage : string; model_type : pyval; framework : pyval; artifact_path : pyval;
  metrics : vdict; parameters : pyval; features : pyval; targets : pyval;
  training_start : option datetime; training_end : option datetime; trained_at : option datetime;
  approved_at : option datetime; approved_by : option string;
  rejected_at : option datetime; rejected_reason : option string;
  deployed_at : option datetime; deployed_by : option string;
  performance_metrics : vdict; created_at : datetime; created_by : pyval
}.

(** [self._models] *)
Record ModelRegistry := { models : dict string Model }.

Definition empty_registry : ModelRegistry := {| models := [] |}.

(** The assignments the methods make to a model. *)
Definition set_stage (s : string) (m : Model) : Model := {|
  model_id := model_id m; name := name m; version := version m; description := description m;
  status := status m; stage := s; model_type := model_type m; framework := framework m;
  artifact_path := artifact_path m; metrics := metrics m; parameters := parameters m;
  features := features m; targets := targets m; training_start := training_start m;
  training_end := training_end m; trained_at := trained_at m; approved_at := approved_at m;
  approved_by := approved_by m; rejected_at := rejected_at m; rejected_reason := rejected_reason m;
  deployed_at := deployed_at m; deployed_by := deployed_by m;
  performance_metrics := performance_metrics m; created_at := created_at m; created_by := created_by m |}.

Definition set_status (s : string) (m : Model) : Model := {|
  model_id := model_id m; name := name m; version := version m; description := description m;
  status := s; stage := stage m; model_type := model_type m; framework := framework m;
  artifact_path := artifact_path m; metrics := metrics m; parameters := parameters m;
  features := features m; targets := targets m; training_start := training_start m;
  training_end := training_end m; trained_at := trained_at m; approved_at := approved_at m;
  approved_by := approved_by m; rejected_at := rejected_at m; rejected_reason := rejected_reason m;
  deployed_at := deployed_at m; deployed_by := deployed_by m;
  performance_metrics := performance_metrics m; created_at := created_at m; created_by := created_by m |}.

Definition set_approved (at_ : datetime) (by_ : string) (m : Model) : Model := {|
  model_id := model_id m; name := name m; version := version m; description := description m;
  status := status m; stage := stage m; model_type := model_type m; framework := framework m;
  artifact_path := artifact_path m; metrics := metrics m; parameters := parameters m;
  features := features m; targets := targets m; training_start := training_start m;
  training_end := training_end m; trained_at := trained_at m; approved_at := Some at_;
  approved_by := Some by_; rejected_at := rejected_at m; rejected_reason := rejected_reason m;
  deployed_at := deployed_at m; deployed_by := deployed_by m;
  performance_metrics := performance_metrics m; created_at := created_at m; created_by := created_by m |}.

Definition set_rejected (at_ : datetime) (why : string) (m : Model) : Model := {|
  model_id := model_id m; name := name m; version := version m; description := description m;
  status := status m; stage := stage m; model_type := model_type m; framework := framework m;
  artifact_path := artifact_path m; metrics := metrics m; parameters := parameters m;
  features := features m; targets := targets m; training_start := training_start m;
  training_end := training_end m; trained_at := trained_at m; approved_at := approved_at m;
  approved_by := approved_by m; rejected_at := Some at_; rejected_reason := Some why;
  deployed_at := deployed_at m; deployed_by := deployed_by m;
  performance_metrics := performance_metrics m; created_at := created_at m; created_by := created_by m |}.

Definition set_deployed (at_ : datetime) (by_ : option string) (m : Model) : Model := {|
  model_id := model_id m; name := name m; version := version m; description := description m;
  status := status m; stage := stage m; model_type := model_type m; framework := framework m;
  artifact_path := artifact_path m; metrics := metrics m; parameters := parameters m;
  features := features m; targets := targets m; training_start := training_start m;
  training_end := training_end m; trained_at := trained_at m; approved_at := approved_at m;
  approved_by := approved_by m; rejected_at := rejected_at m; rejected_reason := rejected_reason m;
  deployed_at := Some at_; deployed_by := by_;
  performance_metrics := performance_metrics m; created_at := created_at m; created_by := created_by m |}.

(** ** Promotion gates *)

Definition metric (m : vdict) (k : string) (d : Z) : res float := py_float (vget_or m k (VInt d)).

Definition gate_minimum_sharpe (m : vdict) : res bool := x ← metric m "sharpe" 0; mret (flt (flit 3 2) x).
Definition gate_maximum_drawdown (m : vdict) : res bool := x ← metric m "max_drawdown" 1; mret (flt x (flit 1 4)).
Definition gate_minimum_win_rate (m : vdict) : res bool := x ← metric m "win_rate" 0; mret (flt (flit 55 100) x).
Definition gate_out_of_sample_consistency (m : vdict) : res bool :=
  in_s ← metric m "in_sample_sharpe" 0;
  out_s ← metric m "out_sample_sharpe" 0;
  mret (if flt f0 in_s then flt (fmul (flit 7 10) in_s) out_s else false).
Definition gate_minimum_trades (m : vdict) : res bool :=
  n ← py_int (vget_or m "trades" (VInt 0)); mret (100 <=? n).

(** [all([...])]: the list is built first, so every gate is evaluated. *)
Definition passes_gates (m : vdict) : res bool :=
  a ← gate_minimum_sharpe m;
  b ← gate_maximum_drawdown m;
  c ← gate_minimum_win_rate m;
  d ← gate_out_of_sample_consistency m;
  e ← gate_minimum_trades m;
  mret (a && b && c && d && e).

(** ** Sorting by version ([sorted] is stable) *)

Definition sort_versions (l : list Model) : list Model := sort_by version l.

(** [max(versions)] of a non-empty list. *)
Definition list_max (l : list Z) : Z := match l with [] => 0 | x :: r => fold_left Z.max r x end.

(** ** Operations *)

Record RegisterArgs := {
  r_name : string; r_model_type : pyval; r_artifact_path : pyval; r_metrics : vdict;
  r_parameters : pyval; r_features : pyval; r_targets : pyval; r_created_by : pyval;
  r_description : pyval; r_framework : pyval
}.

Section Registry.
Context {W : Type} (uuid4 : M W string) (utcnow : M W datetime).

Definition all_models : M (ModelRegistry * W) (list Model) := gets (λ rw, dvalues (models rw.1)).
Definition find_model (mid : string) : M (ModelRegistry * W) (option Model) :=
  gets (λ rw, dget (models rw.1) mid).

(** Assigning to fields of the object stored under its id. *)
Definition mutate (mid : string) (f : Model → Model) : M (ModelRegistry * W) unit :=
  modify (λ rw, ({| models := match dget (models rw.1) mid with
                              | Some m => dset (models rw.1) mid (f m)
                              | None => models rw.1
                              end |}, rw.2)).

Definition next_version (l : list Model) (n : string) : Z :=
  match List.map version (List.filter (λ m, String.eqb (name m) n) l) with
  | [] => 1
  | vs => list_max vs + 1
  end.

Definition register (a : RegisterArgs) : M (ModelRegistry * W) Model :=
  l ← all_models;
  let v := next_version l (r_name a) in
  mid ← zoom_r uuid4;
  trained ← zoom_r utcnow;
  created ← zoom_r utcnow;
  let model := {|
    model_id := mid; name := r_name a; version := v; description := r_description a;
    status := "development"; stage := "development"; model_type := r_model_type a;
    framework := r_framework a; artifact_path := r_artifact_path a; metrics := r_metrics a;
    parameters := r_parameters a; features := r_features a; targets := r_targets a;
    training_start := None; training_end := None; trained_at := Some trained; approved_at := None;
    approved_by := None; rejected_at := None; rejected_reason := None; deployed_at := None;
    deployed_by := None; performance_metrics := []; created_at := created; created_by := r_created_by a |} in
  modify (λ rw, ({| models := dset (models rw.1) mid model |}, rw.2)) ;;
  mret model.

Definition get_models_by_name (n : string) : M (ModelRegistry * W) (list Model) :=
  l ← all_models; mret (sort_versions (List.filter (λ m, String.eqb (name m) n) l)).

Definition in_production (n : string) (m : Model) : bool :=
  String.eqb (name m) n && String.eqb (stage m) "production".

Definition get_production_model (n : string) : M (ModelRegistry * W) (option Model) :=
  l ← all_models;
  mret (last (sort_versions (List.filter (λ m, in_production n m && String.eqb (status m) "approved") l))).

(** [not model or not self._passes_gates(model.metrics)], negated. *)
Definition admissible (found : option Model) : M (ModelRegistry * W) (option Model) :=
  match found with
  | None => mret None
  | Some m => ok ← lift_res (passes_gates (metrics m)); mret (if ok : bool then Some m else None)
  end.

Definition promote_to_staging (mid promoted_by : string) : M (ModelRegistry * W) bool :=
  found ← find_model mid;
  ok ← admissible found;
  match ok with
  | None => mret false
  | Some _ =>
      mutate mid (λ m, set_status "approved" (set_stage "staging" m)) ;;
      now ← zoom_r utcnow;
      mutate mid (set_approved now promoted_by) ;;
      mret true
  end.

(** [for m in self._models.values(): if ...: m.stage = "archived"]. *)
Definition archive_production (n : string) : M (ModelRegistry * W) unit :=
  modify (λ rw, ({| models := List.map (λ kv, (kv.1, if in_production n kv.2 then set_stage "archived" kv.2 else kv.2))
                                       (models rw.1) |}, rw.2)).

Definition promote_to_production (mid approved_by : string) : M (ModelRegistry * W) bool :=
  found ← find_model mid;
  ok ← admissible found;
  match ok with
  | None => mret false
  | Some model =>
      archive_production (name model) ;;
      mutate mid (λ m, set_status "approved" (set_stage "production" m)) ;;
      deployed ← zoom_r utcnow;
      mutate mid (set_deployed deployed (Some approved_by)) ;;
      approved ← zoom_r utcnow;
      mutate mid (set_approved approved approved_by) ;;
      mret true
  end.

(** The two last of a list sorted by version: the one before the last, and the last. *)
Definition last_two (l : list Model) : option (Model * Model) :=
  match rev l with c :: p :: _ => Some (p, c) | _ => None end.

Definition approved_versions (l : list Model) (n : string) : list Model :=
  sort_versions (List.filter (λ m, String.eqb (name m) n && String.eqb (status m) "approved") l).

Definition rollback (n : string) : M (ModelRegistry * W) Model :=
  l ← all_models;
  match last_two (approved_versions l n) with
  | None => raise (ValueError "No rollback candidate")
  | Some (previous, current) =>
      mutate (model_id current) (set_stage "archived") ;;
      mutate (model_id previous) (set_stage "production") ;;
      now ← zoom_r utcnow;
      mutate (model_id previous) (λ m, set_deployed now (deployed_by m) m) ;;
      found ← find_model (model_id previous);
      mret (default previous found)
  end.

Definition reject (mid rejected_by why : string) : M (ModelRegistry * W) unit :=
  found ← find_model mid;
  match found with
  | None => raise (ValueError "model not found")
  | Some _ =>
      mutate mid (λ m, set_stage "rejected" (set_status "rejected" m)) ;;
      now ← zoom_r utcnow;
      mutate mid (set_rejected now (rejected_by ++ ": " ++ why)%string)
  end.

(** ** The service *)

Definition default_metrics : vdict :=
  [("sharpe", VFloat (flit 2 1)); ("max_drawdown", VFloat (flit 1 10)); ("win_rate", VFloat (flit 6 10));
   ("in_sample_sharpe", VFloat (flit 2 1)); ("out_sample_sharpe", VFloat (flit 3 2)); ("trades", VInt 200)].

(** [POST /train]; [n] and [ms] are what the payload says of "name" and "metrics". *)
Definition train_model (payload : vdict) (n : option string) (ms : option vdict) : M (ModelRegistry * W) vdict :=
  model ← register {|
    r_name := default "default-model" n; r_model_type := vget_or payload "model_type" (VStr "classification");
    r_artifact_path := vget_or payload "artifact_path" (VStr "s3://models/default");
    r_metrics := default default_metrics ms;
    r_parameters := vget_or payload "parameters" (VDict []);
    r_features := vget_or payload "features" (VList [VStr "f1"]);
    r_targets := vget_or payload "targets" (VList [VStr "y"]);
    r_created_by := vget_or payload "created_by" (VStr "system");
    r_description := VNone; r_framework := VNone |};
  mret [("model_id", VStr (model_id model)); ("version", VInt (version model))].

(** [POST /promote/{model_id}]. *)
Definition promote_handler (mid : string) : M (ModelRegistry * W) vdict :=
  ok ← promote_to_production mid "system";
  if negb ok then raise (HTTPException 400 "promotion gates failed")
  else mret [("ok", VBool true)].
End Registry.

(** ** What holds of a registry at all times *)

Abbreviation Models := (dict string Model).

(** An approved or deployed model has passed the gates. *)
Definition gated (m : Model) : Prop :=
  status m = "approved" ∨ stage m = "production" → passes_gates (metrics m) = Ok true.

(** Names with versions, in order of registration. *)
Definition nv (m : Model) : string * Z := (name m, version m).
Definition versions_of (n : string) (l : list (string * Z)) : list Z :=
  List.map snd (List.filter (λ p, String.eqb p.1 n) l).

(** The versions of each name are 1, 2, 3, ... in order of registration. *)
Definition dense (l : list (string * Z)) : Prop :=
  ∀ n, versions_of n l = List.map Z.of_nat (seq 1 (length (versions_of n l))).

(** At most one model of each name is in production. *)
Definition single (d : Models) : Prop := ∀ n, (dcount (in_production n) d <= 1)%nat.

Definition keyed (d : Models) : Prop := ∀ k m, dget d k = Some m → model_id m = k.

Record good (d : Models) : Prop := {
  good_gated : Forall gated (dvalues d);
  good_dense : dense (List.map nv (dvalues d));
  good_keyed : keyed d;
  good_wf : dict_wf d
}.

Lemma versions_nv n l :
  List.map version (List.filter (λ m, String.eqb (name m) n) l) = versions_of n (List.map nv l).
Proof.
  unfold versions_of. induction l as [|m l IH]; simpl; [done|].
  destruct (String.eqb (name m) n); simpl; by rewrite IH.
Qed.

Lemma versions_snoc n l p :
  versions_of n (l ++ [p])%list = (versions_of n l ++ (if String.eqb p.1 n then [p.2] else []))%list.
Proof.
  unfold versions_of. rewrite List.filter_app, List.map_app. simpl. by destruct (String.eqb p.1 n).
Qed.

Lemma fold_max_seq k a : fold_left Z.max (List.map Z.of_nat (seq (S a) k)) (Z.of_nat a) = Z.of_nat (a + k).
Proof.
  revert a. induction k as [|k IH]; intros a; cbn [seq List.map fold_left]; [f_equal; lia|].
  rewrite Z.max_r by lia. rewrite IH. f_equal. lia.
Qed.

Lemma next_version_dense l n :
  dense (List.map nv l) →
  next_version l n = Z.of_nat (S (length (versions_of n (List.map nv l)))).
Proof.
  intros Hd. unfold next_version. rewrite versions_nv. rewrite (Hd n) at 1.
  destruct (length (versions_of n (List.map nv l))) as [|k]; [done|].
  cbn [seq List.map]. unfold list_max. change (Z.of_nat 1) with (Z.of_nat 1).
  rewrite fold_max_seq. lia.
Qed.

Lemma dense_snoc l n v :
  dense l → v = Z.of_nat (S (length (versions_of n l))) → dense (l ++ [(n, v)])%list.
Proof.
  intros Hd -> n'. rewrite versions_snoc. simpl. destruct (String.eqb_spec n n') as [->|Hne].
  - rewrite length_app. simpl. rewrite Nat.add_1_r, seq_S, List.map_app. simpl. by rewrite <- Hd.
  - rewrite List.app_nil_r. apply Hd.
Qed.

(** An assignment to a stored model that leaves its identity and metrics alone. *)
Record tame (f : Model → Model) : Prop := {
  tame_nv m : nv (f m) = nv m;
  tame_id m : model_id (f m) = model_id m;
  tame_metrics m : metrics (f m) = metrics m
}.

Lemma good_update d k m f :
  good d → dget d k = Some m → tame f → gated (f m) → good (dset d k (f m)).
Proof.
  intros [Hg Hd Hk Hw] Hm [Hnv Hid _] Hf. split.
  - by apply Forall_dset.
  - by rewrite (map_dvalues_dset nv d k m (f m) Hm (Hnv m)).
  - intros k' m'. rewrite dget_dset. case_decide; [intros [= <-]; subst; rewrite Hid; by apply Hk|apply Hk].
  - by apply dict_wf_dset.
Qed.

Lemma good_new d k m :
  good d → dget d k = None → model_id m = k → gated m →
  version m = next_version (dvalues d) (name m) → good (dset d k m).
Proof.
  intros [Hg Hd Hk Hw] Hn Hid Hm Hv. split.
  - by apply Forall_dset.
  - rewrite dvalues_dset_new by done. rewrite List.map_app. simpl. unfold nv at 2.
    apply dense_snoc; [done|]. by rewrite Hv, next_version_dense.
  - intros k' m'. rewrite dget_dset. case_decide; [intros [= <-]; congruence|apply Hk].
  - by apply dict_wf_dset.
Qed.

Lemma tame_stage s : tame (set_stage s).
Proof. by split. Qed.
Lemma tame_status s : tame (set_status s).
Proof. by split. Qed.
Lemma tame_approved t b : tame (set_approved t b).
Proof. by split. Qed.
Lemma tame_deployed t g : tame (λ m, set_deployed t (g m) m).
Proof. by split. Qed.
Lemma tame_rejected t w : tame (set_rejected t w).
Proof. by split. Qed.
Lemma tame_compose f g : tame f → tame g → tame (λ m, f (g m)).
Proof.
  intros [H1 H2 H3] [K1 K2 K3]. split; intros m; [by rewrite H1, K1|by rewrite H2, K2|by rewrite H3, K3].
Qed.
#[export] Hint Resolve tame_stage tame_status tame_approved tame_deployed tame_rejected tame_compose : py_pres.

(** Archiving the production models of a name. *)
Definition archived (n : string) (d : Models) : Models :=
  List.map (λ kv, (kv.1, if in_production n kv.2 then set_stage "archived" kv.2 else kv.2)) d.

Lemma dget_archived n d k :
  dget (archived n d) k =
  option_map (λ m, if in_production n m then set_stage "archived" m else m) (dget d k).
Proof.
  induction d as [|[j m] d IH]; simpl; [done|]. by case_decide.
Qed.

Lemma dvalues_archived n d :
  dvalues (archived n d) =
  List.map (λ m, if in_production n m then set_stage "archived" m else m) (dvalues d).
Proof. unfold archived, dvalues. by rewrite !List.map_map. Qed.

Lemma good_archived n d : good d → good (archived n d).
Proof.
  intros [Hg Hd Hk Hw]. split.
  - rewrite dvalues_archived. apply Forall_map. eapply Forall_impl; [exact Hg|].
    intros m Hm. simpl. destruct (in_production n m); [|done]. intros [Ha|Ha]; [|done]. apply Hm. by left.
  - rewrite dvalues_archived, List.map_map. erewrite List.map_ext; [exact Hd|].
    intros m. by destruct (in_production n m).
  - intros k m. rewrite dget_archived. destruct (dget d k) as [m'|] eqn:E; [|done]. simpl.
    intros [= <-]. apply Hk in E. by destruct (in_production n m').
  - unfold dict_wf, dkeys, archived in *. by rewrite List.map_map.
Qed.

Lemma dcount_archived n d : dcount (in_production n) (archived n d) = 0%nat.
Proof.
  unfold dcount. rewrite dvalues_archived. induction (dvalues d) as [|m l IH]; simpl; [done|].
  destruct (in_production n m) eqn:E; [|by rewrite E].
  unfold in_production at 1. simpl. by rewrite andb_false_r.
Qed.

Lemma dcount_archived_le n n' d : (dcount (in_production n') (archived n d) <= dcount (in_production n') d)%nat.
Proof.
  unfold dcount. rewrite dvalues_archived. induction (dvalues d) as [|m l IH]; simpl; [done|].
  destruct (in_production n m) eqn:E; [|destruct (in_production n' m); simpl; lia].
  unfold in_production at 1. simpl. rewrite andb_false_r. destruct (in_production n' m); simpl; lia.
Qed.

Lemma last_two_In l p c : last_two l = Some (p, c) → In p l ∧ In c l.
Proof.
  unfold last_two. destruct (rev l) as [|x [|y r]] eqn:E; [done|done|]. intros [= <- <-].
  split; apply in_rev; rewrite E; simpl; auto.
Qed.

(** ** The operations keep it *)

Section Invariant.
Context {W : Type} (uuid4 : M W string) (utcnow : M W datetime).

Definition is_good (rw : ModelRegistry * W) : Prop := good (models rw.1).

(** The model of this id is there and has passed the gates. *)
Definition passed (mid : string) (rw : ModelRegistry * W) : Prop :=
  is_good rw ∧ ∃ m, dget (models rw.1) mid = Some m ∧ passes_gates (metrics m) = Ok true.

Lemma world_good {A} (m : M W A) : preserves is_good (zoom_r m).
Proof. apply (preserves_zoom_r (λ r, good (models r))). Qed.

Lemma world_passed {A} mid (m : M W A) : preserves (passed mid) (zoom_r m).
Proof.
  apply (preserves_zoom_r (λ r, good (models r) ∧
    ∃ m, dget (models r) mid = Some m ∧ passes_gates (metrics m) = Ok true)).
Qed.

(** Assigning to a model that has passed the gates. *)
Lemma mutate_passed mid mid' f :
  tame f → ∀ rw, passed mid rw → passed mid' rw → passed mid' (mutate mid f rw).2.
Proof.
  intros Hf [r w] [Hg (m & Hm & Hp)] [_ (m' & Hm' & Hp')]. unfold passed, is_good, mutate, modify in *. simpl in *.
  rewrite Hm. split.
  - apply good_update; [done|done|done|]. intros _. by rewrite tame_metrics.
  - rewrite dget_dset. case_decide as E; [subst|by exists m'].
    exists (f m). split; [done|]. by rewrite tame_metrics.
Qed.

Lemma mutate_self mid f : tame f → preserves (passed mid) (mutate (W:=W) mid f).
Proof. intros Hf rw Hp. by apply mutate_passed. Qed.

Lemma archive_passed mid n : preserves (passed mid) (archive_production (W:=W) n).
Proof.
  intros [r w] [Hg (m & Hm & Hp)]. unfold passed, is_good, archive_production, modify in *. simpl in *.
  fold (archived n (models r)). split; [by apply good_archived|]. rewrite dget_archived, Hm.
  eexists. split; [done|]. by destruct (in_production n m).
Qed.

Hint Resolve world_good world_passed mutate_self archive_passed : py_pres.

(** From the gate check on, the model found has passed. *)
Lemma admissible_passed {A} mid (k : option Model → M (ModelRegistry * W) A) :
  (∀ rw, is_good rw → is_good (k None rw).2) →
  (∀ m, preserves (passed mid) (k (Some m))) →
  preserves is_good (found ← find_model mid; ok ← admissible found; k ok).
Proof.
  intros Hnone Hsome [r w] Hg. unfold find_model, gets, mbind, M_bind. simpl.
  destruct (dget (models r) mid) as [m|] eqn:Em; simpl.
  2:{ by apply Hnone. }
  unfold mbind, M_bind, lift_res. destruct (passes_gates (metrics m)) as [[]|] eqn:Ep; simpl.
  - apply (Hsome m (r, w)). split; [done|]. by exists m.
  - by apply Hnone.
  - done.
Qed.

Lemma stage_good mid by_ : preserves is_good (promote_to_staging utcnow mid by_).
Proof.
  apply (admissible_passed mid (λ ok, match ok with
    | None => mret false
    | Some _ => mutate mid (λ m, set_status "approved" (set_stage "staging" m)) ;;
        now ← zoom_r utcnow; mutate mid (set_approved now by_) ;; mret true end)); [done|].
  intros m. solve_pres.
Qed.

Lemma produce_good mid by_ : preserves is_good (promote_to_production utcnow mid by_).
Proof.
  apply (admissible_passed mid (λ ok, match ok with
    | None => mret false
    | Some model => archive_production (name model) ;;
        mutate mid (λ m, set_status "approved" (set_stage "production" m)) ;;
        deployed ← zoom_r utcnow; mutate mid (set_deployed deployed (Some by_)) ;;
        approved ← zoom_r utcnow; mutate mid (set_approved approved by_) ;; mret true end)); [done|].
  intros m. pose proof (λ d, mutate_self mid (set_deployed d (Some by_)) (tame_deployed d (λ _, Some by_))).
  solve_pres.
Qed.

Lemma approved_passed l w n m :
  is_good (l, w) → In m (approved_versions (dvalues (models l)) n) → passed (model_id m) (l, w).
Proof.
  intros Hg Hin. unfold approved_versions in Hin. apply In_sort_by, filter_In in Hin as [Hin Hst].
  apply andb_true_iff in Hst as [_ Hst%String.eqb_eq]. split; [done|]. exists m.
  destruct Hg as [Hgate _ Hk Hw]. apply in_map_iff in Hin as ([k m'] & Heq & Hin). simpl in Heq. subst m'.
  pose proof (In_dget _ _ _ Hw Hin) as Hget. rewrite (Hk _ _ Hget). split; [done|].
  pose proof (Forall_dget gated _ _ _ Hgate Hget) as Hgm. apply Hgm. by left.
Qed.

Lemma rollback_good n : preserves is_good (rollback utcnow n).
Proof.
  intros [r w] Hg. unfold rollback, all_models, gets. rewrite (bind_ok _ _ _ (dvalues (models r)) (r, w)) by done.
  destruct (last_two _) as [[p c]|] eqn:E; [|done]. apply last_two_In in E as [Hp Hc].
  apply (approved_passed r w) in Hp, Hc; [|done|done].
  set (both := λ rw, passed (model_id p) rw ∧ passed (model_id c) rw).
  assert (Hmut : ∀ mid f, tame f → (mid = model_id p ∨ mid = model_id c) → preserves both (mutate (W:=W) mid f)).
  { intros mid f Hf [->| ->] rw [H1 H2]; split; by apply mutate_passed. }
  assert (Hworld : ∀ A (m : M W A), preserves both (zoom_r m)).
  { intros A m rw [H1 H2]. split; by apply world_passed. }
  match goal with |- is_good (?m _).2 => assert (Hpres : preserves both m); [|by apply (Hpres (r, w))] end.
  unfold find_model. repeat first [apply preserves_bind; intros | apply Hmut | apply Hworld
    | apply preserves_gets | apply preserves_ret]; auto with py_pres.
Qed.

Lemma reject_good mid by_ why : preserves is_good (reject utcnow mid by_ why).
Proof.
  set (present := λ rw : ModelRegistry * W, is_good rw ∧ ∃ m, dget (models rw.1) mid = Some m ∧ status m = "rejected" ∧ stage m = "rejected").
  assert (Hworld : preserves present (zoom_r utcnow)).
  { apply (preserves_zoom_r (λ r, good (models r) ∧
      ∃ m, dget (models r) mid = Some m ∧ status m = "rejected" ∧ stage m = "rejected")). }
  intros [r w] Hg. unfold reject, find_model, gets. rewrite (bind_ok _ _ _ (dget (models r) mid) (r, w)) by done.
  destruct (dget (models r) mid) as [m|] eqn:Em; [|done].
  assert (Hset : ∀ f rw m, tame f → dget (models rw.1) mid = Some m → is_good rw →
    status (f m) = "rejected" → stage (f m) = "rejected" → present (mutate (W:=W) mid f rw).2).
  { intros f [r' w'] m' Hf Hm' Hg' Hs Hs'. unfold present, is_good, mutate, modify in *. simpl in *. rewrite Hm'. split.
    - apply good_update; [done|done|done|]. intros [Ha|Ha]; [rewrite Hs in Ha|rewrite Hs' in Ha]; discriminate.
    - exists (f m'). by rewrite dget_dset_eq. }
  pose proof (Hset (λ m, set_stage "rejected" (set_status "rejected" m)) (r, w) m
    ltac:(auto with py_pres) Em Hg eq_refl eq_refl) as H1.
  destruct (mutate mid _ (r, w)) as [[[]|e] rw1] eqn:E1; simpl in H1.
  2:{ rewrite (bind_raise _ _ _ _ _ E1). apply H1. }
  rewrite (bind_ok _ _ _ _ _ E1). specialize (Hworld rw1 H1).
  destruct (zoom_r utcnow rw1) as [[now|e] rw2] eqn:E2; simpl in Hworld.
  2:{ rewrite (bind_raise _ _ _ _ _ E2). apply Hworld. }
  rewrite (bind_ok _ _ _ _ _ E2). destruct Hworld as [Hg2 (m2 & Hm2 & Hs & Hs')].
  by apply (Hset _ rw2 m2).
Qed.

Lemma register_good a rw :
  (∀ mid w', uuid4 rw.2 = (Ok mid, w') → dget (models rw.1) mid = None) →
  is_good rw → is_good (register uuid4 utcnow a rw).2.
Proof.
  destruct rw as [r w]. intros Hfresh Hg. unfold register, all_models, gets.
  rewrite (bind_ok _ _ _ (dvalues (models r)) (r, w)) by done. simpl in Hfresh.
  destruct (uuid4 w) as [[mid|e] w1] eqn:E1.
  2:{ by rewrite (bind_raise _ _ _ e (r, w1)) by (by apply zoom_r_run). }
  rewrite (bind_ok _ _ _ mid (r, w1)) by (by apply zoom_r_run).
  destruct (utcnow w1) as [[t1|e] w2] eqn:E2.
  2:{ by rewrite (bind_raise _ _ _ e (r, w2)) by (by apply zoom_r_run). }
  rewrite (bind_ok _ _ _ t1 (r, w2)) by (by apply zoom_r_run).
  destruct (utcnow w2) as [[t2|e] w3] eqn:E3.
  2:{ by rewrite (bind_raise _ _ _ e (r, w3)) by (by apply zoom_r_run). }
  rewrite (bind_ok _ _ _ t2 (r, w3)) by (by apply zoom_r_run).
  unfold is_good. simpl. apply good_new; [done|by apply (Hfresh mid w1)|done| |done].
  by intros [[=]|[=]].
Qed.
End Invariant.

(** ** Histories of a registry *)

Inductive reg_step {W} (uuid4 : M W string) (utcnow : M W datetime) :
  ModelRegistry * W → ModelRegistry * W → Prop :=
| step_register a rw :
    (∀ mid w', uuid4 rw.2 = (Ok mid, w') → dget (models rw.1) mid = None) →
    reg_step uuid4 utcnow rw (register uuid4 utcnow a rw).2
| step_stage mid by_ rw : reg_step uuid4 utcnow rw (promote_to_staging utcnow mid by_ rw).2
| step_produce mid by_ rw : reg_step uuid4 utcnow rw (promote_to_production utcnow mid by_ rw).2
| step_reject mid by_ why rw : reg_step uuid4 utcnow rw (reject utcnow mid by_ why rw).2
| step_rollback n rw : reg_step uuid4 utcnow rw (rollback utcnow n rw).2.

(** What an empty registry can become, by requests that return or raise; a new
    model's uuid4 is not the id of another. *)
Inductive reg_reachable {W} (uuid4 : M W string) (utcnow : M W datetime) : ModelRegistry * W → Prop :=
| reach_empty w : reg_reachable uuid4 utcnow (empty_registry, w)
| reach_step rw rw' :
    reg_reachable uuid4 utcnow rw → reg_step uuid4 utcnow rw rw' → reg_reachable uuid4 utcnow rw'.

(** C28. Nothing gets around the gates and no version is lost: in every registry
    reachable by registrations, promotions, rollbacks and rejections, including
    ones that failed half-way, each model that is approved or in production passes
    the promotion gates, and the versions of each name are exactly 1, 2, ..., k in
    order of registration. *)
Theorem registry_always_gated {W} (uuid4 : M W string) (utcnow : M W datetime) rw :
  reg_reachable uuid4 utcnow rw →
  (∀ mid m, dget (models rw.1) mid = Some m → status m = "approved" ∨ stage m = "production" →
     passes_gates (metrics m) = Ok true) ∧
  (∀ n, let vs := List.map version (List.filter (λ m, String.eqb (name m) n) (dvalues (models rw.1))) in
        vs = List.map Z.of_nat (seq 1 (length vs))).
Proof.
  intros Hr. assert (Hg : is_good rw).
  { induction Hr as [w|rw rw' _ IH Hs].
    - split; [constructor|by intros n|by intros k m|constructor].
    - destruct Hs; [by apply register_good|by apply stage_good|by apply produce_good|by apply reject_good|by apply rollback_good]. }
  destruct Hg as [Hg Hd _ _]. split.
  - intros mid m Hm. exact (Forall_dget gated _ _ _ Hg Hm).
  - intros n. cbv zeta. rewrite versions_nv. apply Hd.
Qed.

(** ** What a promotion does *)

Section Promotion.
Context {W : Type} (uuid4 : M W string) (utcnow : M W datetime).

Lemma mutate_run mid f d w m :
  dget d mid = Some m →
  mutate (W:=W) mid f ({| models := d |}, w) = (Ok tt, ({| models := dset d mid (f m) |}, w)).
Proof. intros Hm. unfold mutate, modify. simpl. by rewrite Hm. Qed.

(** What the models of the other ids become. *)
Definition archived_if (n : string) (m : Model) : Model :=
  if in_production n m then set_stage "archived" m else m.

(** A successful promotion to production puts the model, which is in the
    registry and passes the gates, in production under the approver's name, takes
    every other model of that name out of production, and changes no other
    model; so exactly one model of the name is then in production. *)
Theorem promotion_replaces_production mid by_ r w r' w' :
  promote_to_production utcnow mid by_ (r, w) = (Ok true, (r', w')) →
  ∃ m m', dget (models r) mid = Some m ∧ passes_gates (metrics m) = Ok true ∧
    dget (models r') mid = Some m' ∧ nv m' = nv m ∧ metrics m' = metrics m ∧
    stage m' = "production" ∧ status m' = "approved" ∧
    approved_by m' = Some by_ ∧ deployed_by m' = Some by_ ∧
    (∀ k, k ≠ mid → dget (models r') k = option_map (archived_if (name m)) (dget (models r) k)) ∧
    (∀ k m2, dget (models r') k = Some m2 → in_production (name m) m2 = true → k = mid).
Proof.
  intros Hrun. unfold promote_to_production in Hrun.
  apply bind_inv in Hrun as [(found & s1 & Hf & Hrun)|(? & _ & [=])]. injection Hf as <- <-.
  peel Hrun as ok s1 Hok. destruct ok as [m|]; [|done].
  unfold admissible in Hok. simpl in Hok. destruct (dget (models r) mid) as [m0|] eqn:Em; [|done].
  apply bind_inv in Hok as [(b & s2 & Hb & Hok)|(? & _ & [=])]. injection Hb as Hgate <-.
  destruct b; [|done]. injection Hok as <- <-.
  peel Hrun as u s2 H1. injection H1 as <- <-. fold (archived (name m0) (models r)) in Hrun.
  set (d1 := archived (name m0) (models r)) in *.
  assert (Hd1 : dget d1 mid = Some (archived_if (name m0) m0)) by (unfold d1; by rewrite dget_archived, Em).
  peel Hrun as u s2 H1. rewrite (mutate_run _ _ _ _ _ Hd1) in H1. injection H1 as <- <-.
  set (m1 := set_status "approved" (set_stage "production" (archived_if (name m0) m0))) in *.
  peel_world Hrun as t1 w1 H1. peel Hrun as u s2 H2.
  rewrite (mutate_run _ _ _ _ m1) in H2 by (by rewrite dget_dset_eq). injection H2 as <- <-.
  peel_world Hrun as t2 w2 H2. peel Hrun as u s2 H3.
  rewrite (mutate_run _ _ _ _ (set_deployed t1 (Some by_) m1)) in H3 by (by rewrite dget_dset_eq).
  injection H3 as <- <-. injection Hrun as <- <-. simpl. rewrite !dset_dset, dget_dset_eq.
  exists m0. eexists. split; [done|]. split; [done|]. split; [done|].
  assert (Hsame : ∀ m, nv (archived_if (name m0) m) = nv m ∧ metrics (archived_if (name m0) m) = metrics m).
  { intros m. unfold archived_if. by destruct (in_production (name m0) m). }
  split; [apply Hsame|]. split; [apply Hsame|]. do 4 (split; [done|]). split.
  - intros k Hk. rewrite dget_dset_ne by done. unfold d1. by rewrite dget_archived.
  - intros k m2. rewrite dget_dset. case_decide; [by subst|]. unfold d1. rewrite dget_archived.
    destruct (dget (models r) k) as [mk|]; [|done]. simpl. intros [= <-] Hp.
    unfold archived_if in Hp. destruct (in_production (name m0) mk) eqn:Eq; [|congruence].
    unfold in_production in Hp. simpl in Hp. by rewrite andb_false_r in Hp.
Qed.
End Promotion.

(** ** A history to try the registry on *)

Definition demo_uuid4 : M Z string := λ n, (Ok (str_Z n), n + 1).
Definition demo_now : M Z datetime := mret (DT 2026 2 12 9 30 0 0).

Definition demo_register : RegisterArgs := {|
  r_name := "alpha"; r_model_type := VStr "classification"; r_artifact_path := VStr "s3://models/alpha";
  r_metrics := default_metrics; r_parameters := VDict []; r_features := VList []; r_targets := VList [];
  r_created_by := VStr "ci"; r_description := VNone; r_framework := VNone |}.

(** Three versions; the first goes to production, the others to staging. *)
Definition demo_h1 := (register demo_uuid4 demo_now demo_register (empty_registry, 1)).2.
Definition demo_h2 := (register demo_uuid4 demo_now demo_register demo_h1).2.
Definition demo_h3 := (register demo_uuid4 demo_now demo_register demo_h2).2.
Definition demo_h4 := (promote_to_production demo_now "1" "ops" demo_h3).2.
Definition demo_h5 := (promote_to_staging demo_now "2" "ops" demo_h4).2.
Definition demo_history : ModelRegistry * Z := (promote_to_staging demo_now "3" "ops" demo_h5).2.

Lemma demo_history_reachable : reg_reachable demo_uuid4 demo_now demo_history.
Proof.
  refine (reach_step _ _ demo_h5 _ _ (step_stage _ _ "3" "ops" demo_h5)).
  refine (reach_step _ _ demo_h4 _ _ (step_stage _ _ "2" "ops" demo_h4)).
  refine (reach_step _ _ demo_h3 _ _ (step_produce _ _ "1" "ops" demo_h3)).
  refine (reach_step _ _ demo_h2 _ _ (step_register _ _ demo_register demo_h2 _)).
  2:{ intros mid w' [= <- <-]. vm_compute. reflexivity. }
  refine (reach_step _ _ demo_h1 _ _ (step_register _ _ demo_register demo_h1 _)).
  2:{ intros mid w' [= <- <-]. vm_compute. reflexivity. }
  refine (reach_step _ _ (empty_registry, 1) _ (reach_empty _ _ 1) (step_register _ _ demo_register _ _)).
  intros mid w' [= <- <-]. reflexivity.
Qed.

(** A rollback can leave two models of one name in production: it archives
    the highest approved version and deploys the one before it, wherever the
    production model is.  With version 1 in production and versions 2 and 3
    staged, it archives 3, which was never deployed, and puts 2 beside 1. *)
Theorem rollback_can_leave_two_in_production :
  ∃ rw m, reg_reachable demo_uuid4 demo_now rw ∧
    rollback demo_now "alpha" rw = (Ok m, (rollback demo_now "alpha" rw).2) ∧ version m = 2 ∧
    dcount (in_production "alpha") (models rw.1) = 1%nat ∧
    dcount (in_production "alpha") (models (rollback demo_now "alpha" rw).2.1) = 2%nat.
Proof.
  exists demo_history. eexists. split; [apply demo_history_reachable|].
  split; [vm_compute; reflexivity|]. repeat split; vm_compute; reflexivity.
Qed.

Lemma registry_gated_witness :
  (∀ mid m, dget (models demo_history.1) mid = Some m → status m = "approved" ∨ stage m = "production" →
     passes_gates (metrics m) = Ok true) ∧
  (∀ n, let vs := List.map version (List.filter (λ m, String.eqb (name m) n) (dvalues (models demo_history.1))) in
        vs = List.map Z.of_nat (seq 1 (length vs))).
Proof. exact (registry_always_gated demo_uuid4 demo_now demo_history demo_history_reachable). Defined.

(** Version 3 goes to production in place of version 1. *)
Definition demo_promoted : ModelRegistry * Z := (promote_to_production demo_now "3" "ops" demo_history).2.

Lemma promotion_witness :
  ∃ m m', dget (models demo_history.1) "3" = Some m ∧ passes_gates (metrics m) = Ok true ∧
    dget (models demo_promoted.1) "3" = Some m' ∧ nv m' = nv m ∧ metrics m' = metrics m ∧
    stage m' = "production" ∧ status m' = "approved" ∧
    approved_by m' = Some "ops" ∧ deployed_by m' = Some "ops" ∧
    (∀ k, k ≠ "3" → dget (models demo_promoted.1) k = option_map (archived_if (name m)) (dget (models demo_history.1) k)) ∧
    (∀ k m2, dget (models demo_promoted.1) k = Some m2 → in_production (name m) m2 = true → k = "3").
Proof.
  exact (promotion_replaces_production demo_now "3" "ops" demo_history.1 demo_history.2
    demo_promoted.1 demo_promoted.2 ltac:(vm_compute; reflexivity)).
Defined.
