(* ===== verification/Calendar.v ===== *)
(** * The economic calendar (news_service/src/calendar/engine.py)

    Merging the providers' events, the live-update turn, the bias prediction and
    the impact class.  Providers, the repository and the broadcaster are calls
    over the world; those of the source are in ForexFactory.v. *)

From Stdlib Require Import ZArith Lia Bool List Ascii String Sorted Permutation.
From stdpp Require Import base decidable list option strings.
From S2P Require Import Prelude PyFloat PyStr PyDateTime PyMonad PyDict PyVal.
Open Scope string_scope.
Open Scope Z_scope.
Open Scope py_scope.

Record EconomicEvent := {
  ev_id : string; provider : string; ev_time : datetime; country : string; region : string;
  event_name : string; category : string; impact : string;
  forecast : option string; actual : option string; previous : option string; revised : option string;
  unit_ : option string; sentiment_score : float; bias_prediction : option string; confidence : float;
  importance : Z
}.

(** ** Merging *)

Definition priority (p : string) : Z :=
  default 0 (dget [("bloomberg", 3); ("reuters", 2); ("forexfactory", 1)] p).

(** [if l and x not in l: continue]: a missing or empty list keeps everything. *)
Definition wanted (l : option (list string)) (x : string) : bool :=
  match l with
  | None | Some [] => true
  | Some l => existsb (String.eqb x) l
  end.

Abbreviation Merged := (dict string EconomicEvent).

Definition merge_event (countries impacts : option (list string)) (merged : Merged) (e : EconomicEvent) : Merged :=
  if negb (wanted countries (country e)) then merged
  else if negb (wanted impacts (impact e)) then merged
  else match dget merged (ev_id e) with
       | None => dset merged (ev_id e) e
       | Some current => if priority (provider current) <? priority (provider e) then dset merged (ev_id e) e else merged
       end.

(** The loop over the gathered batches; a batch that is a cancellation is not an
    Exception and cannot be iterated. *)
Fixpoint merge_batches (countries impacts : option (list string)) (merged : Merged)
    (batches : list (res (list EconomicEvent))) : res Merged :=
  match batches with
  | [] => Ok merged
  | Ok events :: rest => merge_batches countries impacts (fold_left (merge_event countries impacts) events merged) rest
  | Raise x :: rest =>
      if is_Exception x then merge_batches countries impacts merged rest
      else Raise (TypeError "'CancelledError' object is not iterable")
  end.

Definition event_key (e : EconomicEvent) : Z := to_us (ev_time e).

Definition collate (countries impacts : option (list string)) (batches : list (res (list EconomicEvent)))
    : res (list EconomicEvent) :=
  merged ← merge_batches countries impacts [] batches;
  mret (sort_by event_key (dvalues merged)).

(** ** The calendar *)

(** A provider's [fetch_events(start, end)], the repository and the broadcaster. *)
Record CalendarRepo (W : Type) := {
  get_event_actual : string → M W (option string);
  upsert_event : vdict → M W unit
}.
Arguments get_event_actual {W}. Arguments upsert_event {W}.

(** [event.__dict__]: [EconomicEvent] is declared with [slots=True], so its
    instances have no [__dict__]. *)
Definition event_dict (e : EconomicEvent) : res vdict :=
  Raise (AttributeError "'EconomicEvent' object has no attribute '__dict__'").

Section Calendar.
Context {W : Type} (db : option (CalendarRepo W)) (ws : option (string → vdict → M W unit)).
Context (utcnow : M W datetime) (sleep : float → M W unit) (later : datetime → datetime).

Abbreviation Provider := (datetime → option datetime → M W (list EconomicEvent)).

(** [self.providers] *)
Record EconomicCalendar := { providers : list Provider; running : bool }.

Definition register_provider (p : Provider) (c : EconomicCalendar) : EconomicCalendar :=
  {| providers := (providers c ++ [p])%list; running := running c |}.

(** [asyncio.gather(..., return_exceptions=True)]: every provider runs, and its
    result or exception is an item of the list. *)
Fixpoint gather (ps : list Provider) (start : datetime) (end_ : option datetime) : M W (list (res (list EconomicEvent))) :=
  match ps with
  | [] => mret []
  | p :: rest => λ w,
      let '(r, w1) := p start end_ w in
      match gather rest start end_ w1 with
      | (Ok rs, w2) => (Ok (r :: rs), w2)
      | (Raise x, w2) => (Raise x, w2)
      end
  end.

Definition fetch_events (ps : list Provider) (start : datetime) (end_ : option datetime)
    (countries impacts : option (list string)) : M W (list EconomicEvent) :=
  batches ← gather ps start end_;
  lift_res (collate countries impacts batches).

Definition opt_text_eqb (a b : option string) : bool :=
  match a, b with
  | Some x, Some y => String.eqb x y
  | None, None => true
  | _, _ => false
  end.

(** The body of [for event in events]. *)
Definition update_event (e : EconomicEvent) : M W unit :=
  old_actual ← match db with Some r => get_event_actual r (ev_id e) | None => mret None end;
  when (negb (opt_text_eqb old_actual (actual e))) (
    match db with
    | Some r => d ← lift_res (event_dict e); upsert_event r d
    | None => mret tt
    end ;;
    match ws with
    | Some send => d ← lift_res (event_dict e); send "calendar_updates" [("event", VDict d)]
    | None => mret tt
    end).

(** One turn of [start_live_updates]; [later] adds the six hours. *)
Definition live_once (ps : list Provider) (interval : Z) : M W unit :=
  now ← utcnow;
  events ← fetch_events ps now (Some (later now)) None (Some ["high"]);
  for_each update_event events ;;
  d ← lift_res (float_of_int interval);
  sleep d.

(** Its first [n] turns. *)
Fixpoint live_updates (n : nat) (ps : list Provider) (interval : Z) : M W unit :=
  match n with
  | O => mret tt
  | S n' => live_once ps interval ;; live_updates n' ps interval
  end.

Definition mock_fetch_events (start : datetime) (end_ : option datetime) : M W (list EconomicEvent) := mret [].
End Calendar.

(** ** Prediction *)

Definition to_num (v : option string) : option float :=
  match v with
  | None => None
  | Some v => parse_float (str_strip (str_remove "," (str_remove "%" v)))
  end.

Definition direction (actual forecast : float) : string :=
  if flt forecast actual then "bullish" else if flt actual forecast then "bearish" else "neutral".

Definition bias_reason (name : string) : string :=
  if str_contains "interest rate" name then "Higher rates generally support currency"
  else if str_contains "cpi" name then "Inflation surprise and policy expectations"
  else if str_contains "non-farm" name || str_contains "nfp" name then "Labor market surprise signal"
  else "Actual compared with forecast".

Record Bias := { bias : string; bias_confidence : float; reasoning : string }.

Definition predict_bias (e : EconomicEvent) : res Bias :=
  match to_num (actual e), to_num (forecast e) with
  | Some a, Some f =>
      q ← py_fdiv (fabs (fsub a f)) (fadd (fabs f) (flit 1 1000000000));
      mret {| bias := direction a f; bias_confidence := fmin (flit 95 100) (fadd (flit 1 2) q);
              reasoning := bias_reason (str_lower (event_name e)) |}
  | _, _ => Ok {| bias := "neutral"; bias_confidence := flit 2 10; reasoning := "Insufficient numeric data" |}
  end.

Definition calculate_impact (e : EconomicEvent) : string :=
  if (5 <=? importance e) || String.eqb (str_lower (impact e)) "high" then "high"
  else if 3 <=? importance e then "medium" else "low".

(** ** What merging promises *)

(** An event of a provider that answered, and that passes the filters. *)
Definition candidate (countries impacts : option (list string)) (batches : list (res (list EconomicEvent)))
    (e : EconomicEvent) : Prop :=
  (∃ events, In (Ok events) batches ∧ In e events) ∧
  wanted countries (country e) = true ∧ wanted impacts (impact e) = true.

Record merges (P : EconomicEvent → Prop) (m : Merged) : Prop := {
  merges_wf : dict_wf m;
  merges_best k e : dget m k = Some e → ev_id e = k ∧ P e ∧
    ∀ e', P e' → ev_id e' = k → priority (provider e') <= priority (provider e);
  merges_all e : P e → is_Some (dget m (ev_id e))
}.

Lemma merges_ext P Q m : (∀ e, P e ↔ Q e) → merges P m → merges Q m.
Proof.
  intros Heq [Hw Hb Ha]. split; [done| |].
  - intros k e Hk. destruct (Hb k e Hk) as (Hid & Hp & Hmax). split; [done|]. split; [by apply Heq|].
    intros e' He'. apply Hmax. by apply Heq.
  - intros e He. apply Ha. by apply Heq.
Qed.

(** One event more. *)
Lemma merge_event_merges countries impacts P m x :
  merges P m →
  merges (λ e, P e ∨ (e = x ∧ wanted countries (country e) = true ∧ wanted impacts (impact e) = true))
         (merge_event countries impacts m x).
Proof.
  intros [Hw Hb Ha]. unfold merge_event.
  destruct (wanted countries (country x)) eqn:Ec; simpl.
  2:{ eapply merges_ext; [|split; [exact Hw|exact Hb|exact Ha]]. intros e. split; [auto|]. intros [?|(-> & ? & _)]; congruence. }
  destruct (wanted impacts (impact x)) eqn:Ei; simpl.
  2:{ eapply merges_ext; [|split; [exact Hw|exact Hb|exact Ha]]. intros e. split; [auto|]. intros [?|(-> & _ & ?)]; congruence. }
  assert (Hset : (∀ e', P e' → ev_id e' = ev_id x → priority (provider e') <= priority (provider x)) →
    merges (λ e, P e ∨ (e = x ∧ wanted countries (country e) = true ∧ wanted impacts (impact e) = true))
           (dset m (ev_id x) x)).
  { intros Hmax. split; [by apply dict_wf_dset| |].
    - intros k e. rewrite dget_dset. case_decide as E.
      + intros [= <-]. split; [done|]. split; [by right|]. intros e' [He'|(-> & _)] Hid; [apply Hmax; congruence|lia].
      + intros Hk. destruct (Hb k e Hk) as (Hid & Hp & Hm). split; [done|]. split; [by left|].
        intros e' [He'|(-> & _)] Hid'; [by apply Hm|congruence].
    - intros e [He|(-> & _)]; rewrite dget_dset; case_decide; [by eexists|by apply Ha|by eexists|done]. }
  destruct (dget m (ev_id x)) as [cur|] eqn:Ecur.
  - destruct (Hb _ _ Ecur) as (Hid & Hp & Hm). destruct (Z.ltb_spec (priority (provider cur)) (priority (provider x))).
    + apply Hset. intros e' He' Hid'. specialize (Hm e' He' Hid'). lia.
    + split; [done| |].
      * intros k e Hk. destruct (Hb k e Hk) as (Hid2 & Hp2 & Hm2). split; [done|]. split; [by left|].
        intros e' [He'|(-> & _)] Hid'; [by apply Hm2|].
        assert (e = cur) as -> by congruence. lia.
      * intros e [He|(-> & _)]; [by apply Ha|by eexists].
  - apply Hset. intros e' He' Hid'. destruct (Ha e' He') as [y Hy]. rewrite Hid' in Hy. congruence.
Qed.

Lemma merge_events_merges countries impacts events P m :
  merges P m →
  merges (λ e, P e ∨ (In e events ∧ wanted countries (country e) = true ∧ wanted impacts (impact e) = true))
         (fold_left (merge_event countries impacts) events m).
Proof.
  revert P m. induction events as [|x events IH]; intros P m Hm; simpl.
  - eapply merges_ext; [|exact Hm]. intros e. tauto.
  - eapply merges_ext; [|apply IH, merge_event_merges, Hm]. intros e. simpl.
    split; [intros [[?|(-> & ?)]|(? & ?)]; tauto|intros [?|([->|?] & ?)]; tauto].
Qed.

Lemma merge_batches_merges countries impacts batches P m m' :
  merges P m → merge_batches countries impacts m batches = Ok m' →
  merges (λ e, P e ∨ candidate countries impacts batches e) m'.
Proof.
  revert P m. induction batches as [|[events|x] rest IH]; intros P m Hm; simpl.
  - intros [= <-]. eapply merges_ext; [|exact Hm]. intros e. split; [auto|]. intros [?|((l & [] & _) & _)]; done.
  - intros Hr. eapply merges_ext; [|apply (IH _ _ (merge_events_merges countries impacts events P m Hm) Hr)].
    intros e. unfold candidate. split.
    + intros [[?|(? & ?)]|((l & ? & ?) & ?)]; [by left|right; split; [exists events; split; [by left|done]|done]|].
      right. split; [exists l; split; [by right|done]|done].
    + intros [?|((l & [Heq|Hin] & ?) & ?)]; [by left; left|injection Heq as <-; left; right; tauto|].
      right. split; [by exists l|done].
  - destruct (is_Exception x); [|done]. intros Hr. eapply merges_ext; [|apply (IH _ _ Hm Hr)].
    intros e. unfold candidate. split; [intros [?|((l & ? & ?) & ?)]; [by left|]|intros [?|((l & [?|?] & ?) & ?)]; [by left|done|]];
      right; (split; [exists l; split; [try right; done|done]|done]).
Qed.

Lemma merge_batches_total countries impacts batches m :
  (∀ x, In (Raise x) batches → is_Exception x = true) → is_ok (merge_batches countries impacts m batches) = true.
Proof.
  revert m. induction batches as [|[events|x] rest IH]; intros m Hb; simpl; [done|apply IH; intros; apply Hb; by right|].
  rewrite (Hb x) by by left. apply IH. intros y Hy. apply Hb. by right.
Qed.


(** ** The live updates *)

Section Live.
Context {W : Type} (r : CalendarRepo W) (ws : option (string → vdict → M W unit)).
Context (utcnow : M W datetime) (sleep : float → M W unit) (later : datetime → datetime).

(** The live updates stop at the first news: [EconomicEvent] is a slotted
    dataclass, so building the payload from [event.__dict__] raises
    AttributeError.  A turn that fetches an event whose actual value differs from
    the stored one ends the task with that exception, having stored and broadcast
    nothing: it does the same whatever [upsert_event] and the broadcaster are. *)
Theorem live_updates_stop_at_first_news ps interval now w1 w2 events stored w :
  utcnow w = (Ok now, w1) →
  fetch_events ps now (Some (later now)) None (Some ["high"]) w1 = (Ok events, w2) →
  (∀ i w, get_event_actual r i w = (Ok (stored i), w)) →
  (∃ e, In e events ∧ opt_text_eqb (stored (ev_id e)) (actual e) = false) →
  live_once (Some r) ws utcnow sleep later ps interval w =
    (Raise (AttributeError "'EconomicEvent' object has no attribute '__dict__'"), w2).
Proof.
  intros Hnow Hfetch Hget Hnews. unfold live_once. rewrite (bind_ok _ _ _ _ _ Hnow), (bind_ok _ _ _ _ _ Hfetch).
  apply bind_raise. clear Hnow Hfetch. induction events as [|x events IH]; [by destruct Hnews as (e & [] & _)|].
  simpl for_each. destruct (opt_text_eqb (stored (ev_id x)) (actual x)) eqn:Ex.
  - rewrite (bind_ok _ _ _ tt w2).
    + apply IH. destruct Hnews as (e & [->|Hin] & He); [congruence|by exists e].
    + unfold update_event. rewrite (bind_ok _ _ _ _ _ (Hget _ _)). by rewrite Ex.
  - apply bind_raise. unfold update_event. rewrite (bind_ok _ _ _ _ _ (Hget _ _)). rewrite Ex. reflexivity.
Qed.
End Live.

(** ** Witnesses *)

Definition demo_event (i p : string) (act : option string) : EconomicEvent := {|
  ev_id := i; provider := p; ev_time := DT 2026 2 12 13 30 0 0; country := "USD"; region := "USD";
  event_name := "CPI m/m"; category := "macro"; impact := "high"; forecast := Some "0.3%"; actual := act;
  previous := None; revised := None; unit_ := None; sentiment_score := f0; bias_prediction := None;
  confidence := f0; importance := 5 |}.

Definition demo_batches : list (res (list EconomicEvent)) :=
  [Ok [demo_event "1" "forexfactory" None; demo_event "2" "forexfactory" None];
   Raise (RuntimeError "timeout"); Ok [demo_event "1" "bloomberg" (Some "0.4%")]].

Example demo_collate :
  collate None (Some ["high"]) demo_batches =
    Ok [demo_event "1" "bloomberg" (Some "0.4%"); demo_event "2" "forexfactory" None].
Proof. reflexivity. Qed.


Lemma live_updates_witness :
  let r : CalendarRepo unit := {| get_event_actual _ := mret None; upsert_event _ := mret tt |} in
  live_once (Some r) None (mret (DT 2026 2 12 13 30 0 0)) (λ _, mret tt) (λ d, d)
    [λ _ _, mret [demo_event "1" "bloomberg" (Some "0.4%")]] 60 tt =
    (Raise (AttributeError "'EconomicEvent' object has no attribute '__dict__'"), tt).
Proof.
  intros r.
  refine (live_updates_stop_at_first_news r None (mret (DT 2026 2 12 13 30 0 0)) (λ _, mret tt) (λ d, d)
    [λ _ _, mret [demo_event "1" "bloomberg" (Some "0.4%")]] 60 _ tt tt _ (λ _, None) tt eq_refl eq_refl
    (λ _ _, eq_refl) _).
  exists (demo_event "1" "bloomberg" (Some "0.4%")). split; [left; reflexivity|reflexivity].
Defined.
