(* ===== verification/Backtest.v ===== *)
(** * The backtester (backtest_service/src/engine/backtester.py)

    The cost models, the bar loop of [run] with its equity and trade accounting,
    the trade statistics that are plain Python, and the walk-forward driver.  The
    report, the parameter search, the Monte-Carlo resampling and the stress
    scenarios are in BacktestReport.v; [np.log1p], [pd.DateOffset] and what is run
    on a window are parameters. *)

From Stdlib Require Import ZArith Lia Bool List Ascii String Sorted Permutation.
From stdpp Require Import base decidable list option strings.
From S2P Require Import Prelude PyFloat PyStr PyDateTime PyMonad PyDict PyVal.
Open Scope string_scope.
Open Scope Z_scope.
Open Scope py_scope.

(** ** Cost models *)

Record CommissionModel := { commission_per_lot : float; min_commission : float }.
Definition default_commission : CommissionModel := {| commission_per_lot := flit 7 1; min_commission := f0 |}.

Definition commission_calculate (c : CommissionModel) (volume price : float) : float :=
  fmax (min_commission c) (fmul (fabs volume) (commission_per_lot c)).

Record SlippageModel := { base_slippage : float; volatility_multiplier : bool }.
Definition default_slippage : SlippageModel := {| base_slippage := flit 1 10000; volatility_multiplier := true |}.

Record MarginModel := { margin_rates : dict string float; forex_rate : float }.
Definition default_margin : MarginModel := {|
  margin_rates := [("forex", flit 2 100); ("indices", flit 5 100); ("commodities", flit 10 100); ("stocks", flit 20 100)];
  forex_rate := flit 2 100 |}.

(** [margin_rates.get(asset_class, margin_rates["forex"])]. *)
(** [BacktestEngine(...)]: the models left out are the default ones. *)
Definition new_engine (c : option CommissionModel) (s : option SlippageModel) (m : option MarginModel)
    : CommissionModel * SlippageModel * MarginModel :=
  (default default_commission c, default default_slippage s, default default_margin m).

Definition calculate_required (m : MarginModel) (volume price : float) (asset_class : string) : float :=
  fmul (fabs (fmul volume price)) (default (forex_rate m) (dget (margin_rates m) asset_class)).

(** ** Bars, positions, trades *)

Record Row := { row_time : datetime; close : float; volatility : option float }.

Record OpenPosition := { pos_side : string; qty : float; entry : float; entry_time : datetime }.

Record Trade := {
  t_entry_time : datetime; t_exit_time : datetime; t_side : string; t_entry : float; t_exit : float;
  t_qty : float; pnl : float; commission : float
}.

(** The loop's variables. *)
Record RunState := {
  equity : float; equity_curve : list float; trades : list Trade; position : option OpenPosition
}.

Definition start_state (initial_capital : float) : RunState :=
  {| equity := initial_capital; equity_curve := []; trades := []; position := None |}.

Definition append_equity (s : RunState) : RunState :=
  {| equity := equity s; equity_curve := (equity_curve s ++ [equity s])%list; trades := trades s; position := position s |}.

(** [(1 if side == "buy" else -1)] *)
Definition side_sign (side : string) : float := if String.eqb side "buy" then f1 else flit (-1) 1.

Section Engine.
Context (cm : CommissionModel) (sm : SlippageModel) (mm : MarginModel) (log1p : float → float).
Context (use_commission use_slippage use_margin : bool) (params : vdict).
(** [strategy(df.iloc[:i+1], **params)]: what it answers may be any object. *)
Context (strategy : list Row → res pyval).

Definition slippage_calculate (price volume : float) (vola : option float) : float :=
  let mult := fadd f1 (match vola with
                       | Some v => if volatility_multiplier sm then fabs v else f0
                       | None => f0
                       end) in
  fmul (fmul (fmul price (base_slippage sm)) mult) (log1p (fabs volume)).

(** [signal in ("buy", "sell")] and [signal == "close"]. *)
Definition entry_signal (signal : pyval) : option string :=
  match signal with
  | VStr s => if String.eqb s "buy" || String.eqb s "sell" then Some s else None
  | _ => None
  end.
Definition close_signal (signal : pyval) : bool :=
  match signal with VStr s => String.eqb s "close" | _ => false end.

Definition open_position (side : string) (q price : float) (r : Row) : OpenPosition :=
  {| pos_side := side; qty := q;
     entry := if use_slippage
              then fadd price (fmul (slippage_calculate price q (volatility r)) (side_sign side))
              else price;
     entry_time := row_time r |}.

Definition close_trade (p : OpenPosition) (price : float) (r : Row) : Trade :=
  let exit_price := if use_slippage
                    then fsub price (fmul (slippage_calculate price (qty p) (volatility r)) (side_sign (pos_side p)))
                    else price in
  let gross := fmul (fmul (fsub exit_price (entry p)) (qty p)) (side_sign (pos_side p)) in
  let fee := if use_commission then commission_calculate cm (qty p) exit_price else f0 in
  {| t_entry_time := entry_time p; t_exit_time := row_time r; t_side := pos_side p; t_entry := entry p;
     t_exit := exit_price; t_qty := qty p; pnl := fsub gross fee; commission := fee |}.

(** One bar: [seen] is [df.iloc[:i+1]]. *)
Definition bar (seen : list Row) (r : Row) (s : RunState) : res RunState :=
  signal ← strategy seen;
  let price := close r in
  match position s, entry_signal signal with
  | None, Some side =>
      q ← py_float (vget_or params "size" (VFloat f1));
      let required := calculate_required mm q price "forex" in
      if use_margin && flt (equity s) required then mret (append_equity s)
      else mret (append_equity {| equity := equity s; equity_curve := equity_curve s; trades := trades s;
                                  position := Some (open_position side q price r) |})
  | Some p, _ =>
      if close_signal signal then
        let t := close_trade p price r in
        mret (append_equity {| equity := fadd (equity s) (pnl t); equity_curve := equity_curve s;
                               trades := (trades s ++ [t])%list; position := None |})
      else mret (append_equity s)
  | None, None => mret (append_equity s)
  end.

(** [for i, (ts, row) in enumerate(df.iterrows())]. *)
Fixpoint bars (seen todo : list Row) (s : RunState) : res RunState :=
  match todo with
  | [] => Ok s
  | r :: rest => s' ← bar (seen ++ [r])%list r s; bars (seen ++ [r])%list rest s'
  end.

Definition row_key (r : Row) : Z := to_us (row_time r).

(** The accounting part of [run]. *)
Definition run_backtest (data : list Row) (initial_capital : float) : res RunState :=
  bars [] (sort_by row_key data) (start_state initial_capital).
End Engine.

(** ** Trade statistics *)

Definition wins (ts : list Trade) : list float := List.filter (λ x, flt f0 x) (List.map pnl ts).
Definition losses (ts : list Trade) : list float := List.filter (λ x, fle x f0) (List.map pnl ts).

(** [eq.iloc[-1] if not eq.empty else initial_capital]. *)
Definition final_capital (initial_capital : float) (s : RunState) : float :=
  default initial_capital (last (equity_curve s)).

Definition win_rate (ts : list Trade) : res float :=
  match ts with
  | [] => Ok f0
  | _ => py_fdiv (f_of_Z (Z.of_nat (length (wins ts)))) (f_of_Z (Z.of_nat (length ts)))
  end.

(** ** Walk-forward windows *)

Section WalkForward.
Context {R : Type}.
(** [d + pd.DateOffset(years=n)], [d + pd.DateOffset(months=n)], and the runs of
    one window: the search over the in-sample rows and the out-of-sample run. *)
Context (add_years add_months : Z → datetime → datetime) (run_window : list Row → list Row → res R).
Context (in_sample_years out_sample_months : Z).

(** [df[(df.index >= a) & (df.index < b)]]. *)
Definition between (a b : datetime) (df : list Row) : list Row :=
  List.filter (λ r, (to_us a <=? row_key r) && (row_key r <? to_us b)) df.

(** [while cursor < end]; [None] when [fuel] runs out. *)
Fixpoint windows (fuel : nat) (df : list Row) (end_ cursor : datetime) : option (res (list R)) :=
  match fuel with
  | O => None
  | S n =>
      if to_us cursor <? to_us end_ then
        let in_end := add_years in_sample_years cursor in
        let out_end := add_months out_sample_months in_end in
        let in_sample := between cursor in_end df in
        let out_sample := between in_end out_end df in
        if (Z.of_nat (length in_sample) <? 50) || (Z.of_nat (length out_sample) <? 20) then Some (Ok [])
        else match run_window in_sample out_sample with
             | Raise e => Some (Raise e)
             | Ok r =>
                 match windows n df end_ (add_months out_sample_months cursor) with
                 | Some (Ok rs) => Some (Ok (r :: rs))
                 | other => other
                 end
             end
      else Some (Ok [])
  end.

(** [df.index.min()] to [df.index.max()]. *)
Definition run_walk_forward (fuel : nat) (data : list Row) : option (res (list R)) :=
  let df := sort_by row_key data in
  match df, last df with
  | r0 :: _, Some r1 => windows fuel df (row_time r1) (row_time r0)
  | _, _ => Some (Ok [])
  end.
End WalkForward.

(** ** Accounting *)

(** Trades one after the other, none before [lo], none still open after [hi]. *)
Fixpoint spaced (lo : Z) (ts : list Trade) : Prop :=
  match ts with
  | [] => True
  | t :: rest => lo <= to_us (t_entry_time t) ∧ to_us (t_entry_time t) <= to_us (t_exit_time t) ∧
                 spaced (to_us (t_exit_time t)) rest
  end.

Definition last_exit (lo : Z) (ts : list Trade) : Z := fold_left (λ _ t, to_us (t_exit_time t)) ts lo.

Lemma spaced_snoc lo ts t :
  spaced lo ts → last_exit lo ts <= to_us (t_entry_time t) → to_us (t_entry_time t) <= to_us (t_exit_time t) →
  spaced lo (ts ++ [t]).
Proof.
  revert lo. induction ts as [|x ts IH]; intros lo Hs Hl He; simpl in *; [done|].
  destruct Hs as (H1 & H2 & H3). split; [done|]. split; [done|]. by apply IH.
Qed.

Section Accounting.
Context (cm : CommissionModel) (sm : SlippageModel) (mm : MarginModel) (log1p : float → float).
Context (use_commission use_slippage use_margin : bool) (params : vdict) (strategy : list Row → res pyval).

(** After [n] bars, up to time [now], having started with [cap] at time [lo]. *)
Record accounted (cap : float) (lo : Z) (n : nat) (now : Z) (s : RunState) : Prop := {
  acc_length : length (equity_curve s) = n;
  acc_last : (0 < n)%nat → last (equity_curve s) = Some (equity s);
  acc_equity : equity s = fold_left fadd (List.map pnl (trades s)) cap;
  acc_spaced : spaced lo (trades s);
  acc_exit : last_exit lo (trades s) <= now;
  acc_position p : position s = Some p → last_exit lo (trades s) <= to_us (entry_time p) <= now
}.

Lemma last_snoc {A} (l : list A) x : last (l ++ [x]) = Some x.
Proof. induction l as [|y [|z l] IH]; simpl; done. Qed.

(** Recording the equity of a bar. *)
Lemma accounted_append cap lo n now now' s :
  now <= now' → length (equity_curve s) = n →
  equity s = fold_left fadd (List.map pnl (trades s)) cap → spaced lo (trades s) →
  last_exit lo (trades s) <= now' →
  (∀ p, position s = Some p → last_exit lo (trades s) <= to_us (entry_time p) <= now') →
  accounted cap lo (S n) now' (append_equity s).
Proof.
  intros Hle Hlen He Hs Hx Hp. split; simpl; try done.
  - rewrite length_app. simpl. lia.
  - intros _. apply last_snoc.
Qed.

Lemma bar_accounted cap lo n now seen r s s' :
  accounted cap lo n now s → now <= row_key r →
  bar cm sm mm log1p use_commission use_slippage use_margin params strategy seen r s = Ok s' →
  accounted cap lo (S n) (row_key r) s'.
Proof.
  intros [Hlen _ He Hsp Hx Hp] Hle Hbar. unfold bar in Hbar. destruct (strategy seen) as [signal|]; [|done].
  cbn [mbind res_bind] in Hbar. cbv zeta in Hbar.
  assert (Hsame : accounted cap lo (S n) (row_key r) (append_equity s)).
  { apply (accounted_append cap lo n now); try done; [lia|]. intros p Hpos. specialize (Hp p Hpos). lia. }
  destruct (position s) as [p|] eqn:Epos.
  - destruct (close_signal signal); [|by injection Hbar as <-]. injection Hbar as <-.
    specialize (Hp p eq_refl). apply (accounted_append cap lo n now); simpl; try done.
    + rewrite List.map_app, fold_left_app. simpl. by rewrite <- He.
    + apply spaced_snoc; simpl; [done|lia|]. unfold row_key in *. lia.
    + unfold last_exit. rewrite fold_left_app. simpl. unfold row_key. lia.
  - destruct (entry_signal signal) as [side|]; [|by injection Hbar as <-].
    destruct (py_float _) as [q|]; [|done]. cbn [mbind res_bind] in Hbar.
    destruct (_ && _); [by injection Hbar as <-|]. injection Hbar as <-.
    apply (accounted_append cap lo n now); simpl; try done; [lia|].
    intros p [= <-]. simpl. unfold row_key in *. lia.
Qed.

Lemma bars_accounted cap lo n now seen todo s s' :
  accounted cap lo n now s → StronglySorted (key_le row_key) todo → Forall (λ r, now <= row_key r) todo →
  bars cm sm mm log1p use_commission use_slippage use_margin params strategy seen todo s = Ok s' →
  ∃ now', accounted cap lo (n + length todo) now' s'.
Proof.
  revert n now seen s. induction todo as [|r rest IH]; intros n now seen s Hacc Hsort Hall Hrun; simpl in Hrun.
  - injection Hrun as <-. exists now. by rewrite Nat.add_0_r.
  - destruct (bar _ _ _ _ _ _ _ _ _ _ r s) as [s1|] eqn:E; [|done]. simpl in Hrun.
    inversion Hsort as [|? ? Hsort' Hge]; subst. inversion Hall as [|? ? Hr Hall']; subst.
    destruct (IH (S n) (row_key r) (seen ++ [r])%list s1) as [now' Hfin]; [|done|exact Hge|done|].
    + by apply (bar_accounted cap lo n now (seen ++ [r])%list r s).
    + exists now'. simpl. by rewrite Nat.add_succ_r.
Qed.

(** C29. The books of a backtest balance: when a run returns, the equity curve has
    one point per bar, the final capital reported is the initial capital plus the
    profits and losses of the recorded trades, added up in order, and the trades
    follow one another in time, each closed before the next is opened. *)
Theorem backtest_books_balance data cap s :
  run_backtest cm sm mm log1p use_commission use_slippage use_margin params strategy data cap = Ok s →
  length (equity_curve s) = length data ∧
  final_capital cap s = fold_left fadd (List.map pnl (trades s)) cap ∧
  ∃ lo, spaced lo (trades s).
Proof.
  unfold run_backtest. intros Hrun.
  set (lo := match sort_by row_key data with r :: _ => row_key r | [] => 0 end).
  assert (H0 : accounted cap lo 0 lo (start_state cap)).
  { split; simpl; try done; lia. }
  assert (Hge0 : Forall (λ r, lo <= row_key r) (sort_by row_key data)).
  { unfold lo. pose proof (sort_by_sorted row_key data) as Hsort. destruct (sort_by row_key data) as [|r rest]; [constructor|].
    inversion Hsort as [|? ? _ Hge]; subst. constructor; [lia|exact Hge]. }
  destruct (bars_accounted cap lo 0 lo [] (sort_by row_key data) (start_state cap) s H0
    (sort_by_sorted row_key data) Hge0 Hrun) as [now [Hlen Hlast He Hs _ _]].
  assert (Hl : length (sort_by row_key data) = length data) by (symmetry; apply Permutation_length, sort_by_Permutation).
  simpl in Hlen. rewrite Hl in Hlen. split; [done|]. split; [|by exists lo].
  unfold final_capital. destruct (length data) as [|n] eqn:Ed.
  - destruct (equity_curve s); [|done]. simpl. rewrite <- He.
    destruct data; [|done]. simpl in Hrun. by injection Hrun as <-.
  - rewrite Hl in Hlast. by rewrite Hlast by (simpl; lia).
Qed.
End Accounting.

(** ** The walk-forward loop ends *)

Section WalkForwardEnds.
Context {R : Type} (add_years add_months : Z → datetime → datetime) (run_window : list Row → list Row → res R).
Context (in_sample_years out_sample_months : Z).

(** Four weeks in microseconds: no calendar month is shorter. *)
Definition month_us : Z := 28 * 86400 * 1000000.

(** What is relied on of [pd.DateOffset(months=n)]. *)
Context (months_forward : ∀ n d, 1 <= n → to_us d + month_us <= to_us (add_months n d)).
Context (months_back : ∀ n d, n <= 0 → to_us (add_months n d) <= to_us d).

Lemma between_empty a b df : to_us b <= to_us a → between a b df = [].
Proof.
  intros Hle. apply filter_none, List.Forall_forall. intros r _.
  apply andb_false_iff. destruct (Z.leb_spec (to_us a) (row_key r)); [right|by left]. apply Z.ltb_ge. lia.
Qed.

(** Enough turns for the windows that fit between [cursor] and [end_]. *)
Definition window_fuel (end_ cursor : datetime) : nat := S (S (Z.to_nat ((to_us end_ - to_us cursor) / month_us))).

Lemma windows_end fuel df end_ cursor :
  (window_fuel end_ cursor <= fuel)%nat →
  ∃ r, windows add_years add_months run_window in_sample_years out_sample_months fuel df end_ cursor = Some r ∧
    ∀ rs, r = Ok rs → (length rs < window_fuel end_ cursor)%nat.
Proof.
  revert cursor. induction fuel as [|n IH]; intros cursor Hf; [unfold window_fuel in Hf; lia|]. simpl.
  destruct (Z.ltb_spec (to_us cursor) (to_us end_)) as [Hlt|]; [|eexists; split; [done|]; intros rs [= <-]; simpl; unfold window_fuel; lia].
  destruct (_ || _) eqn:Eenough; [eexists; split; [done|]; intros rs [= <-]; simpl; unfold window_fuel; lia|].
  apply orb_false_iff in Eenough as [_ Hout]. apply Z.ltb_ge in Hout.
  destruct (run_window _ _) as [r|e]; [|eexists; split; [done|]; by intros rs [=]].
  assert (Hm : 1 <= out_sample_months).
  { destruct (Z.le_gt_cases 1 out_sample_months); [done|]. exfalso.
    rewrite between_empty in Hout; [simpl in Hout; lia|]. apply months_back. lia. }
  pose proof (months_forward out_sample_months cursor Hm) as Hadv.
  set (next := add_months out_sample_months cursor) in *.
  assert (Hfuel : ((window_fuel end_ next <= n)%nat ∧ (S (window_fuel end_ next) <= window_fuel end_ cursor)%nat) ∨
                  (to_us end_ <= to_us next ∧ (1 <= n)%nat)).
  { unfold window_fuel in *. change month_us with 2419200000000 in *. destruct (Z.le_gt_cases (to_us end_) (to_us next)); [right; split; [done|]|left].
    - assert (0 <= (to_us end_ - to_us cursor) / 2419200000000) by (apply Z.div_pos; lia). lia.
    - assert (Hdiv : (to_us end_ - to_us next) / 2419200000000 + 1 <= (to_us end_ - to_us cursor) / 2419200000000).
      { rewrite <- Z.div_add by lia. apply Z.div_le_mono; lia. }
      assert (0 <= (to_us end_ - to_us next) / 2419200000000) by (apply Z.div_pos; lia). lia. }
  destruct Hfuel as [[Hfuel Hdec]|[Hend Hn]].
  - destruct (IH next Hfuel) as (r' & -> & Hlen). destruct r' as [rs|e]; eexists; (split; [done|]).
    + intros rs' [= <-]. specialize (Hlen rs eq_refl). simpl. lia.
    + by intros rs [=].
  - destruct n as [|n]; [lia|]. simpl. rewrite (proj2 (Z.ltb_ge _ _)) by lia.
    eexists. split; [done|]. intros rs [= <-]. simpl. unfold window_fuel. lia.
Qed.

End WalkForwardEnds.

(** ** Witnesses *)

Definition demo_row (d : Z) (c : float) : Row := {| row_time := DT 2026 2 d 0 0 0 0; close := c; volatility := None |}.
Definition demo_data : list Row := [demo_row 2 (flit 101 1); demo_row 1 (flit 100 1); demo_row 3 (flit 104 1)].

(** Buys on the first bar, closes on the third. *)
Definition demo_strategy (seen : list Row) : res pyval :=
  Ok (match length seen with 1%nat => VStr "buy" | 3%nat => VStr "close" | _ => VNone end).

Definition demo_backtest : res RunState :=
  run_backtest default_commission default_slippage default_margin (λ x, x) true false true [] demo_strategy
    demo_data (flit 10000 1).

Definition demo_state : RunState := match demo_backtest with Ok s => s | Raise _ => start_state f0 end.

Example demo_pnl : List.map pnl (trades demo_state) = [flit (-3) 1].
Proof. vm_compute. reflexivity. Qed.

Lemma books_balance_witness :
  length (equity_curve demo_state) = length demo_data ∧
  final_capital (flit 10000 1) demo_state = fold_left fadd (List.map pnl (trades demo_state)) (flit 10000 1) ∧
  ∃ lo, spaced lo (trades demo_state).
Proof.
  exact (backtest_books_balance default_commission default_slippage default_margin (λ x, x) true false true []
    demo_strategy demo_data (flit 10000 1) demo_state ltac:(vm_compute; reflexivity)).
Defined.

(** An offset for the witness: months of four weeks, counted in the day field. *)
Definition demo_months (n : Z) (d : datetime) : datetime :=
  DT (dt_year d) (dt_month d) (dt_day d + 28 * n) (dt_hour d) (dt_minute d) (dt_second d) (dt_micro d).

