(* ===== verification/Redis.v ===== *)
(** * Tasks that talk to Redis

    A coroutine of the token code is a [proc]: a tree of the calls it awaits, each
    with what it does on the reply or exception.  Run alone it is a call of PyMonad
    ([run]); several tasks interleave between their calls ([step_left],
    [step_right]), which is how asyncio schedules them.  The
    services behind the calls (redis, uuid, the clock) are a handler;
    the class [RedisLaws] is what the code relies on of it. *)

From Stdlib Require Import ZArith Lia Bool List Ascii String.
From stdpp Require Import base decidable list option strings.
From S2P Require Import Prelude PyFloat PyStr PyDateTime PyMonad PyDict PyVal.
Open Scope string_scope.
Open Scope Z_scope.
Open Scope py_scope.

(** ** Calls *)

Inductive ev : Type → Type :=
| RSet (k v : string) (ex : Z) : ev unit
| RExists (k : string) : ev bool
| RGet (k : string) : ev (option string)
| RLpush (k v : string) : ev unit
| RDelete (k : string) : ev unit
| UtcNow : ev datetime
| Uuid4 : ev string.

Inductive proc (A : Type) : Type :=
| Done (r : res A)
| Call {X : Type} (e : ev X) (k : res X → proc A).
Arguments Done {A} r.
Arguments Call {A X} e k.

(** ** Sequencing *)

#[export] Instance proc_ret : MRet proc := λ A a, Done (Ok a).

Fixpoint proc_bind_fix {A B} (f : A → proc B) (p : proc A) : proc B :=
  match p with
  | Done (Ok a) => f a
  | Done (Raise e) => Done (Raise e)
  | Call e k => Call e (λ r, proc_bind_fix f (k r))
  end.
#[export] Instance proc_bind : MBind proc := @proc_bind_fix.

(** Await one call. *)
Definition await {X} (e : ev X) : proc X := Call e Done.
Definition throw {A} (e : exn) : proc A := Done (Raise e).
Definition lift {A} (r : res A) : proc A := Done r.

Fixpoint try_proc {A} (p : proc A) (h : exn → proc A) : proc A :=
  match p with
  | Done (Raise e) => if is_Exception e then h e else p
  | Done _ => p
  | Call e k => Call e (λ r, try_proc (k r) h)
  end.

Fixpoint for_proc {X} (f : X → proc unit) (l : list X) : proc unit :=
  match l with [] => mret tt | x :: r => f x ;; for_proc f r end.

Fixpoint map_proc {X A} (f : X → proc A) (l : list X) : proc (list A) :=
  match l with [] => mret [] | x :: r => y ← f x; ys ← map_proc f r; mret (y :: ys) end.

(** ** Running *)

Section Run.
Context {W : Type} (exec : ∀ X, ev X → M W X).

Fixpoint run {A} (p : proc A) : M W A := λ w,
  match p with
  | Done r => (r, w)
  | Call e k => let '(r, w') := exec _ e w in run (k r) w'
  end.

Lemma run_bind {A B} (p : proc A) (f : A → proc B) w : run (p ≫= f) w = (a ← run p; run (f a)) w.
Proof.
  unfold mbind, proc_bind, M_bind. revert w. induction p as [[a|e]|X e k IH]; intros w; simpl; [done|done|].
  destruct (exec X e w) as [r w']. apply IH.
Qed.

Lemma run_await {X} (e : ev X) w : run (await e) w = exec X e w.
Proof. simpl. by destruct (exec X e w). Qed.

Lemma run_bind_inv {A B} (p : proc A) (f : A → proc B) w r w' :
  run (p ≫= f) w = (r, w') →
  (∃ a w1, run p w = (Ok a, w1) ∧ run (f a) w1 = (r, w')) ∨ (∃ e, run p w = (Raise e, w') ∧ r = Raise e).
Proof. rewrite run_bind. apply bind_inv. Qed.

(** Two tasks: which one goes on is the scheduler's choice. *)
Definition step_proc {A} (p : proc A) (w : W) : proc A * W :=
  match p with
  | Done r => (p, w)
  | Call e k => let '(r, w') := exec _ e w in (k r, w')
  end.

Inductive par_step {A B} : proc A * proc B * W → proc A * proc B * W → Prop :=
| step_left p q w p' w' : step_proc p w = (p', w') → par_step (p, q, w) (p', q, w')
| step_right p q w q' w' : step_proc q w = (q', w') → par_step (p, q, w) (p, q', w').

Inductive par_steps {A B} : proc A * proc B * W → proc A * proc B * W → Prop :=
| par_done s : par_steps s s
| par_more s1 s2 s3 : par_step s1 s2 → par_steps s2 s3 → par_steps s1 s3.

(** Following a schedule: [true] steps the left task. *)
Fixpoint follow {A B} (schedule : list bool) (s : proc A * proc B * W) : proc A * proc B * W :=
  match schedule with
  | [] => s
  | b :: rest =>
      let '(p, q, w) := s in
      follow rest (if b : bool then let '(p', w') := step_proc p w in (p', q, w')
                   else let '(q', w') := step_proc q w in (p, q', w'))
  end.

Lemma follow_steps {A B} schedule (s : proc A * proc B * W) : par_steps s (follow schedule s).
Proof.
  revert s. induction schedule as [|b rest IH]; intros [[p q] w]; simpl; [constructor|].
  destruct b.
  - destruct (step_proc p w) as [p' w'] eqn:E. eapply par_more; [by apply step_left|apply IH].
  - destruct (step_proc q w) as [q' w'] eqn:E. eapply par_more; [by apply step_right|apply IH].
Qed.
End Run.

(** ** What is relied on of Redis and the clock *)

(** [int(d.timestamp())] of an aware UTC datetime after 1970. *)
Definition timestamp (d : datetime) : Z := (to_us d - to_us (DT 1970 1 1 0 0 0 0)) / 1000000.

(** [entry] is the last value set under a key with the second it expires at,
    [secs] the current second.  An expired entry counts as absent; only SET and
    DEL change entries; time does not go back. *)
Definition alive (entry : option (string * Z)) (now : Z) : bool :=
  match entry with Some (_, t) => now <? t | None => false end.

Definition plain {X} (e : ev X) : bool :=
  match e with RSet _ _ _ | RDelete _ => false | _ => true end.

Class RedisLaws {W} (exec : ∀ X, ev X → M W X) (entry : W → string → option (string * Z)) (secs : W → Z) := {
  law_mono X (e : ev X) w : secs w <= secs (exec X e w).2;
  law_plain X (e : ev X) w k : plain e = true → entry (exec X e w).2 k = entry w k;
  law_exists w k b w' : exec _ (RExists k) w = (Ok b, w') → b = alive (entry w k) (secs w');
  law_rget w k v w' : exec _ (RGet k) w = (Ok v, w') →
    v = if alive (entry w k) (secs w') then option_map fst (entry w k) else None;
  law_set w k v ex w' : 0 < ex → exec _ (RSet k v ex) w = (Ok tt, w') →
    (∃ t, secs w <= t ∧ entry w' k = Some (v, t + ex)) ∧ ∀ j, j ≠ k → entry w' j = entry w j;
  law_now w d w' : exec _ UtcNow w = (Ok d, w') → secs w <= timestamp d <= secs w'
}.

(** ** Facts under the laws *)

Section Laws.
Context {W : Type} (exec : ∀ X, ev X → M W X) (entry : W → string → option (string * Z)) (secs : W → Z).
Context {Laws : RedisLaws exec entry secs}.

(** [keeps k p]: the task does not change the entry of [k]. *)
Definition keeps {A} (k : string) (p : proc A) : Prop := ∀ w, entry (run exec p w).2 k = entry w k.

Lemma keeps_done {A} k (r : res A) : keeps k (Done r).
Proof. by intros w. Qed.

Lemma keeps_await {X} k (e : ev X) : plain e = true → keeps k (await e).
Proof. intros He w. rewrite run_await. by apply law_plain. Qed.

Lemma keeps_bind {A B} k (p : proc A) (f : A → proc B) :
  keeps k p → (∀ a, keeps k (f a)) → keeps k (p ≫= f).
Proof.
  intros Hp Hf w. rewrite run_bind. unfold mbind, M_bind. specialize (Hp w).
  destruct (run exec p w) as [[a|e] w1]; simpl in *; [|done]. rewrite <- Hp. apply Hf.
Qed.

(** Time goes on while a task runs. *)
Lemma run_mono {A} (p : proc A) w : secs w <= secs (run exec p w).2.
Proof.
  revert w. induction p as [r|X e k IH]; intros w; simpl; [lia|].
  pose proof (law_mono X e w). destruct (exec X e w) as [r w1]. simpl in *. specialize (IH r w1). lia.
Qed.

Lemma run_mono' {A} (p : proc A) w r w' : run exec p w = (r, w') → secs w <= secs w'.
Proof. intros Hr. pose proof (run_mono p w) as Hm. by rewrite Hr in Hm. Qed.
End Laws.

(** Walk a task that only makes plain calls. *)
Ltac solve_keeps :=
  repeat first
    [ progress intros
    | apply keeps_done
    | solve [refine (keeps_await _ _ _ _ _ _); reflexivity]
    | match goal with H : context [keeps] |- _ => solve [apply H] end
    | apply keeps_bind
    | match goal with
      | |- keeps _ _ _ (match ?x with _ => _ end) => destruct x
      end ].

(** Peel one call off a task's run that returned. *)
Tactic Notation "peel_run" hyp(H) "as" simple_intropattern(x) simple_intropattern(w) ident(Hx) :=
  apply run_bind_inv in H as [(x & w & Hx & H)|(? & _ & [=])].
