(* ===== verification/Security.v ===== *)
(** * Tokens (app/core/security.py)

    Issuing, verifying, revoking and rotating JSON web tokens.  The JWT library
    (encode, decode with its signature and time checks), SHA-256 and the password
    hasher are parameters; Redis is the handler of Redis.v. *)

From Stdlib Require Import ZArith Lia Bool List Ascii String.
From stdpp Require Import base decidable list option strings.
From S2P Require Import Prelude PyFloat PyStr PyDateTime PyMonad PyDict PyVal Redis.
Open Scope string_scope.
Open Scope Z_scope.
Open Scope py_scope.

Record TokenPair := {
  access_token : string; refresh_token : string; access_jti : string; refresh_jti : string; family_id : string
}.

Record JwtSettings := {
  jwt_issuer : string; jwt_audience : string; jwt_access_ttl_minutes : Z; jwt_refresh_ttl_days : Z
}.

(** The libraries: [jwt.encode], [jwt.decode] at a second ([None] where it raises
    JWTError), [hashlib.sha256(...).hexdigest()], [PasswordHasher.verify]. *)
Record Crypto := {
  jwt_encode : vdict → string;
  jwt_decode : Z → string → option vdict;
  sha256_hex : string → string;
  ph_verify : string → string → res bool
}.

(** [if s:] of an optional string. *)
Definition given (s : option string) : bool :=
  match s with Some s => negb (String.eqb s "") | None => false end.

Section Tokens.
Context `{PyRepr} (K : Crypto) (settings : JwtSettings).

Definition verify_password (password password_hash : string) : bool :=
  match ph_verify K password_hash password with Ok b => b | Raise _ => false end.

(** [ph.hash], which draws a salt. *)
Definition hash_password {W} (ph_hash : string → M W string) (password : string) : M W string := ph_hash password.

(** A password is accepted for the hash made of it, by a library that verifies its own
    hashes, and a hash that the library cannot read accepts nothing. *)
Lemma own_hash_accepted {W} (ph_hash : string → M W string) password w h w' :
  (∀ p w h w', ph_hash p w = (Ok h, w') → ph_verify K h p = Ok true) →
  hash_password ph_hash password w = (Ok h, w') → verify_password password h = true.
Proof. intros Hown Hh. unfold verify_password. by rewrite (Hown _ _ _ _ Hh). Qed.

(** [_build_claims]; [ttl] in seconds. *)
Definition build_claims (subject : string) (ttl : Z) (token_type : string)
    (family fingerprint : option string) : proc vdict :=
  now ← await UtcNow;
  jti ← await Uuid4;
  let iat := timestamp now in
  mret ([("sub", VStr subject); ("iss", VStr (jwt_issuer settings)); ("aud", VStr (jwt_audience settings));
         ("iat", VInt iat); ("nbf", VInt iat); ("exp", VInt (iat + ttl)); ("jti", VStr jti); ("typ", VStr token_type)]
        ++ (if given family then [("fid", VStr (default "" family))] else [])
        ++ (if given fingerprint then [("fp", VStr (sha256_hex K (default "" fingerprint)))] else []))%list.

(** The token and [claims["jti"]]. *)
Definition signed (claims : vdict) : string * string :=
  (jwt_encode K claims, match vget claims "jti" with VStr s => s | _ => "" end).

Definition create_access_token (subject : string) (fingerprint : string) : proc (string * string) :=
  claims ← build_claims subject (60 * jwt_access_ttl_minutes settings) "access" None (Some fingerprint);
  mret (signed claims).

Definition create_refresh_token (subject family fingerprint : string) : proc (string * string) :=
  claims ← build_claims subject (86400 * jwt_refresh_ttl_days settings) "refresh" (Some family) (Some fingerprint);
  mret (signed claims).

Definition create_token_pair (subject fingerprint : string) : proc TokenPair :=
  family ← await Uuid4;
  '(access, ajti) ← create_access_token subject fingerprint;
  '(refresh, rjti) ← create_refresh_token subject family fingerprint;
  mret {| access_token := access; refresh_token := refresh; access_jti := ajti; refresh_jti := rjti;
          family_id := family |}.

Definition decode_payload (token : string) : proc vdict :=
  now ← await UtcNow;
  match jwt_decode K (timestamp now) token with
  | Some p => mret p
  | None => throw (ValueError "invalid token")
  end.

Definition revoked_key (jti : string) : string := String.append "jwt:revoked:" jti.
Definition user_key (user_id : string) : string := String.append "jwt:user:revoke_after:" user_id.
Definition used_key (jti : string) : string := String.append "jwt:refresh:used:" jti.
Definition family_key (family : string) : string := String.append "jwt:refresh:family:revoked:" family.

Definition is_token_revoked (jti : string) : proc bool := await (RExists (revoked_key jti)).

Definition revoke_token (jti : string) (expires_in : Z) : proc unit :=
  await (RSet (revoked_key jti) "1" (if expires_in <=? 0 then 1 else expires_in)).

Definition revoke_all_user_tokens (user_id reason : string) : proc unit :=
  now ← await UtcNow;
  await (RSet (user_key user_id) (str_Z (timestamp now)) (60 * 60 * 24 * 90)) ;;
  now ← await UtcNow;
  await (RLpush (String.append "audit:token_revocations:" user_id)
           (isoformat now ++ "+00:00|" ++ reason)%string).

(** [revoke_after and int(payload.get("iat", 0)) <= int(revoke_after.decode())]. *)
Definition globally_revoked (revoke_after : option string) (payload : vdict) : res bool :=
  if given revoke_after then
    iat ← py_int (vget_or payload "iat" (VInt 0));
    t ← py_int (VStr (default "" revoke_after));
    mret (iat <=? t)
  else mret false.

Definition same_text (v : pyval) (s : string) : bool := match v with VStr t => String.eqb t s | _ => false end.

Definition verify_token (token : string) (fingerprint : option string) : proc vdict :=
  payload ← decode_payload token;
  let jti := py_str (vget payload "jti") in
  if String.eqb jti "" then throw (ValueError "missing jti")
  else
    revoked ← is_token_revoked jti;
    if revoked : bool then throw (ValueError "token revoked")
    else
      sub ← lift (vindex payload "sub");
      revoke_after ← await (RGet (user_key (py_str sub)));
      all_revoked ← lift (globally_revoked revoke_after payload);
      if all_revoked : bool then throw (ValueError "token globally revoked")
      else if given fingerprint && negb (same_text (vget payload "fp") (sha256_hex K (default "" fingerprint)))
      then throw (ValueError "fingerprint mismatch")
      else mret payload.

(** After the checks: the token is marked used and a new pair is issued. *)
Definition rotate_issue (payload : vdict) (jti family : pyval) (fingerprint : string) : proc TokenPair :=
  now ← await UtcNow;
  let now_ts := timestamp now in
  exp_ts ← lift (py_int (vget_or payload "exp" (VInt (now_ts + 1))));
  let ttl := Z.max 1 (exp_ts - now_ts) in
  await (RSet (used_key (py_str jti)) "1" ttl) ;;
  revoke_token (py_str jti) ttl ;;
  sub ← lift (vindex payload "sub");
  '(access, ajti) ← create_access_token (py_str sub) fingerprint;
  '(refresh, rjti) ← create_refresh_token (py_str sub) (py_str family) fingerprint;
  mret {| access_token := access; refresh_token := refresh; access_jti := ajti; refresh_jti := rjti;
          family_id := py_str family |}.

Definition rotate_refresh_token (refresh : string) (fingerprint : string) : proc TokenPair :=
  payload ← verify_token refresh (Some fingerprint);
  if negb (same_text (vget payload "typ") "refresh") then throw (ValueError "not refresh token")
  else
    jti ← lift (vindex payload "jti");
    let family := vget payload "fid" in
    used ← await (RExists (used_key (py_str jti)));
    if used : bool then
      (if truthy family then
         await (RSet (family_key (py_str family)) "1" (60 * 60 * 24 * jwt_refresh_ttl_days settings))
       else mret tt) ;;
      throw (ValueError "refresh token reuse detected")
    else
      family_revoked ← (if truthy family then await (RExists (family_key (py_str family))) else mret false);
      if family_revoked : bool then throw (ValueError "token family revoked")
      else rotate_issue payload jti family fingerprint.
End Tokens.

(** ** What is relied on of the JWT library

    Decoding checks a signature, so the claims of a token do not depend on when
    it is decoded. *)
Class JwtLaws (K : Crypto) := {
  jwt_stable t1 t2 token p1 p2 : jwt_decode K t1 token = Some p1 → jwt_decode K t2 token = Some p2 → p1 = p2
}.

Section TokenLaws.
Context `{PyRepr} (K : Crypto) (settings : JwtSettings) {JL : JwtLaws K}.
Context {W : Type} (exec : ∀ X, ev X → M W X) (entry : W → string → option (string * Z)) (secs : W → Z).
Context {Laws : RedisLaws exec entry secs}.

Lemma decode_inv token w p w1 :
  run exec (decode_payload K token) w = (Ok p, w1) → ∃ t, jwt_decode K t token = Some p ∧ secs w <= t <= secs w1.
Proof.
  unfold decode_payload. intros Hr. peel_run Hr as now w2 Hnow. rewrite run_await in Hnow.
  apply law_now in Hnow. destruct (jwt_decode K (timestamp now) token) as [p'|] eqn:E; [|done].
  injection Hr as -> ->. by exists (timestamp now).
Qed.

Lemma verify_inv token fp w p w1 :
  run exec (verify_token K token fp) w = (Ok p, w1) →
  (∃ t, jwt_decode K t token = Some p ∧ secs w <= t <= secs w1) ∧ py_str (vget p "jti") ≠ "".
Proof.
  unfold verify_token. intros Hr. peel_run Hr as payload w2 Hd. apply decode_inv in Hd as (t & Hd & Ht).
  destruct (String.eqb_spec (py_str (vget payload "jti")) "") as [|Hj]; [done|].
  peel_run Hr as b w3 Hb. destruct b; [done|]. peel_run Hr as sub w4 Hs. peel_run Hr as ra w5 Hra.
  peel_run Hr as g w6 Hg. destruct g; [done|]. destruct (_ && _); [done|]. injection Hr as <- <-.
  apply (run_mono' exec entry secs) in Hb, Hs, Hra, Hg. split; [|done]. exists t. split; [done|lia].
Qed.

Lemma claims_keep k s t ty f fp : keeps exec entry k (build_claims K settings s t ty f fp).
Proof. unfold build_claims. solve_keeps. Qed.

Lemma access_keep k s f : keeps exec entry k (create_access_token K settings s f).
Proof. pose proof claims_keep. unfold create_access_token. solve_keeps. Qed.

Lemma refresh_keep k s g f : keeps exec entry k (create_refresh_token K settings s g f).
Proof. pose proof claims_keep. unfold create_refresh_token. solve_keeps. Qed.

Lemma key_prefix_ne (a b x y : string) : String.prefix a (String.append b y) = false → String.append a x ≠ String.append b y.
Proof.
  intros Hp Heq. rewrite <- Heq in Hp. clear Heq. revert Hp. induction a as [|c a IH]; simpl; [by destruct x|].
  destruct (ascii_dec c c); [|done]. apply IH.
Qed.

(** A returned rotation has set the token's revocation entry to outlive it. *)
Lemma rotate_issue_revokes payload jti family fp w pair w1 exp :
  vget payload "exp" = VInt exp →
  run exec (rotate_issue K settings payload jti family fp) w = (Ok pair, w1) →
  ∃ t, exp <= t ∧ entry w1 (revoked_key (py_str jti)) = Some ("1", t).
Proof.
  intros Hexp Hr. unfold rotate_issue in Hr. peel_run Hr as now w2 Hnow. rewrite run_await in Hnow.
  apply law_now in Hnow.
  assert (Hget : vget_or payload "exp" (VInt (timestamp now + 1)) = VInt exp).
  { unfold vget, vget_or in *. by destruct (dget payload "exp"). }
  rewrite Hget in Hr. peel_run Hr as e w3 He. injection He as <- <-.
  peel_run Hr as u w3 Hset1. apply (run_mono' exec entry secs) in Hset1 as Hm. clear Hset1.
  peel_run Hr as u' w4 Hset. destruct u'. unfold revoke_token in Hset. rewrite run_await in Hset.
  replace (Z.max 1 (exp - timestamp now) <=? 0) with false in Hset by (symmetry; apply Z.leb_gt; lia).
  apply law_set in Hset as [(t & Ht & Hent) _]; [|lia].
  exists (t + Z.max 1 (exp - timestamp now)). split; [lia|]. rewrite <- Hent.
  peel_run Hr as sub w5 Hs. injection Hs as _ <-. peel_run Hr as [a ja] w6 Ha. peel_run Hr as [b jb] w7 Hb.
  injection Hr as <- <-.
  pose proof (access_keep (revoked_key (py_str jti)) (py_str sub) fp w4) as K1. rewrite Ha in K1.
  pose proof (refresh_keep (revoked_key (py_str jti)) (py_str sub) (py_str family) fp w6) as K2. rewrite Hb in K2.
  simpl in K1, K2. congruence.
Qed.

Lemma verify_keep k token fp : keeps exec entry k (verify_token K token fp).
Proof. unfold verify_token, decode_payload, is_token_revoked. solve_keeps. Qed.

(** A token whose revocation entry is alive does not pass. *)
Lemma verify_revoked token fp w p w1 t J :
  run exec (verify_token K token fp) w = (Ok p, w1) → py_str (vget p "jti") = J →
  entry w (revoked_key J) = Some ("1", t) → t <= secs w1.
Proof.
  unfold verify_token. intros Hr HJ He. peel_run Hr as payload w2 Hd.
  assert (Hk : entry w2 (revoked_key J) = Some ("1", t)).
  { rewrite <- He. assert (Hkeep : keeps exec entry (revoked_key J) (decode_payload K token)) by (unfold decode_payload; solve_keeps).
    specialize (Hkeep w). by rewrite Hd in Hkeep. }
  destruct (String.eqb (py_str (vget payload "jti")) ""); [done|].
  peel_run Hr as b w3 Hb. pose proof Hb as Hm. unfold is_token_revoked in Hb. rewrite run_await in Hb.
  destruct b; [done|]. peel_run Hr as sub w4 Hs. peel_run Hr as ra w5 Hra.
  peel_run Hr as g w6 Hg. destruct g; [done|]. destruct (_ && _); [done|]. injection Hr as <- <-.
  rewrite HJ in Hb. apply law_exists in Hb. rewrite Hk in Hb. simpl in Hb.
  symmetry in Hb. apply Z.ltb_ge in Hb. apply (run_mono' exec entry secs) in Hs, Hra, Hg. lia.
Qed.

Lemma vindex_vget (d : vdict) k v : vindex d k = Ok v → vget d k = v.
Proof. unfold vindex, vget, vget_or. destruct (dget d k); [by intros [= ->]|done]. Qed.

(** A refresh token works once, and its reuse raises no alarm.  After a
    rotation that returned, and while no revocation entry is removed, no later
    rotation of the same token that ends before the token's own expiry returns,
    with whatever fingerprint.  But it fails in verify_token, on the revocation
    entry the first rotation wrote, before the reuse check: no entry is written at
    all, so the family of a stolen token is never revoked. *)
Theorem rotated_token_is_refused token fp fp' w pair w1 w2 r w3 exp :
  (∀ t p, jwt_decode K t token = Some p → vget p "exp" = VInt exp) →
  run exec (rotate_refresh_token K settings token fp) w = (Ok pair, w1) →
  (∀ j, entry w2 (revoked_key j) = entry w1 (revoked_key j)) →
  run exec (rotate_refresh_token K settings token fp') w2 = (r, w3) → secs w3 < exp →
  (∃ e, r = Raise e) ∧ ∀ k, entry w3 k = entry w2 k.
Proof.
  intros Hexp Hr1 Hent Hr2 Hsecs. unfold rotate_refresh_token in Hr1.
  peel_run Hr1 as p wa Hv. destruct (negb _); [done|]. peel_run Hr1 as jti wb Hj.
  injection Hj as Hj <-. peel_run Hr1 as used wc Hu.
  destruct used; [peel_run Hr1 as u wd Hd; done|]. peel_run Hr1 as fr wd Hf. destruct fr; [done|].
  destruct (verify_inv _ _ _ _ _ Hv) as [(t0 & Hdec & _) _].
  destruct (rotate_issue_revokes _ _ _ _ _ _ _ exp (Hexp _ _ Hdec) Hr1) as (t & Ht & He).
  unfold rotate_refresh_token in Hr2. apply run_bind_inv in Hr2 as [(p2 & w4 & Hv2 & Hr2)|(e & Hv2 & ->)].
  - exfalso. destruct (verify_inv _ _ _ _ _ Hv2) as [(t2 & Hdec2 & _) _].
    pose proof (jwt_stable _ _ _ _ _ Hdec Hdec2) as <-.
    assert (HJ : py_str (vget p "jti") = py_str jti) by (by rewrite (vindex_vget _ _ _ Hj)).
    rewrite <- Hent in He. pose proof (verify_revoked _ _ _ _ _ _ _ Hv2 HJ He).
    pose proof (run_mono' exec entry secs _ _ _ _ Hr2). lia.
  - split; [by exists e|]. intros k. pose proof (verify_keep k token (Some fp') w2) as Hk. by rewrite Hv2 in Hk.
Qed.

(** "Log out everywhere" works: once [revoke_all_user_tokens] has returned,
    and while its marker is not rewritten, [verify_token] accepts no token of that
    user issued up to the second the revocation began, for ninety days. *)
Theorem revoked_user_is_logged_out user why w w1 w2 token fp p w3 iat :
  0 <= secs w →
  run exec (revoke_all_user_tokens user why) w = (Ok tt, w1) →
  entry w2 (user_key user) = entry w1 (user_key user) →
  run exec (verify_token K token fp) w2 = (Ok p, w3) →
  py_str (vget p "sub") = user → vget p "iat" = VInt iat → iat <= secs w →
  secs w + 60 * 60 * 24 * 90 <= secs w3.
Proof.
  intros H0 Hr1 Hent Hr2 Hsub Hiat Hle. unfold revoke_all_user_tokens in Hr1.
  peel_run Hr1 as now wa Hn. rewrite run_await in Hn. apply law_now in Hn.
  peel_run Hr1 as u wb Hs. destruct u. rewrite run_await in Hs. apply law_set in Hs as [(t & Ht & He) _]; [|lia].
  peel_run Hr1 as now2 wc Hn2.
  assert (Hk : entry w1 (user_key user) = entry wb (user_key user)).
  { pose proof (keeps_await exec entry secs (user_key user) UtcNow eq_refl wb) as K1. rewrite Hn2 in K1.
    rewrite run_await in Hr1. match type of Hr1 with exec _ ?e _ = _ =>
      pose proof (law_plain _ e wc (user_key user) eq_refl) as K2 end. rewrite Hr1 in K2. simpl in *. congruence. }
  rewrite Hk, He in Hent.
  unfold verify_token in Hr2. peel_run Hr2 as payload w4 Hd.
  assert (Hk4 : entry w4 (user_key user) = entry w2 (user_key user)).
  { assert (Hkeep : keeps exec entry (user_key user) (decode_payload K token)) by (unfold decode_payload; solve_keeps).
    specialize (Hkeep w2). by rewrite Hd in Hkeep. }
  destruct (String.eqb _ ""); [done|]. peel_run Hr2 as b w5 Hb.
  assert (Hk5 : entry w5 (user_key user) = entry w4 (user_key user)).
  { unfold is_token_revoked in Hb. rewrite run_await in Hb.
    match type of Hb with exec _ ?e _ = _ => pose proof (law_plain _ e w4 (user_key user) eq_refl) as K2 end.
    by rewrite Hb in K2. }
  destruct b; [done|]. peel_run Hr2 as sub w6 Hsb. injection Hsb as Hsb <-.
  peel_run Hr2 as ra w7 Hra. rewrite run_await in Hra. peel_run Hr2 as g w8 Hg. injection Hg as Hg <-.
  destruct g; [done|]. destruct (_ && _); [done|]. injection Hr2 as <- <-.
  rewrite (vindex_vget _ _ _ Hsb) in Hsub. rewrite Hsub in Hra. apply law_rget in Hra.
  rewrite Hk5, Hk4, Hent in Hra. simpl in Hra.
  destruct (Z.ltb_spec (secs w7) (t + 60 * 60 * 24 * 90)); [|lia]. exfalso. subst ra.
  unfold globally_revoked in Hg. unfold vget, vget_or in Hiat.
  assert (Hi : vget_or payload "iat" (VInt 0) = VInt iat) by (unfold vget_or; by destruct (dget payload "iat")).
  assert (Hne : given (Some (str_Z (timestamp now))) = true).
  { simpl. apply negb_true_iff, String.eqb_neq. intros Heq. pose proof (parse_int_str_Z (timestamp now) ltac:(lia)) as Hp.
    by rewrite Heq in Hp. }
  rewrite Hne, Hi in Hg. cbv beta iota delta [default from_option id py_int mbind res_bind] in Hg.
  rewrite parse_int_str_Z in Hg by lia. injection Hg as Hg. apply Z.leb_gt in Hg. lia.
Qed.
End TokenLaws.

(** ** A store, a clock and a key to try it on *)

Definition demo_settings : JwtSettings := {|
  jwt_issuer := "mtrader"; jwt_audience := "mtrader-clients"; jwt_access_ttl_minutes := 15; jwt_refresh_ttl_days := 7
|}.

(** Seven days from 2026-02-12 09:30:00. *)
Definition demo_issued : Z := timestamp (DT 2026 2 12 9 30 0 0).
Definition demo_exp : Z := demo_issued + 7 * 86400.

Definition demo_claims : vdict :=
  [("sub", VStr "u1"); ("iat", VInt demo_issued); ("exp", VInt demo_exp); ("jti", VStr "j1");
   ("typ", VStr "refresh"); ("fid", VStr "f1"); ("fp", VStr "dev")].

(** One refresh token, "T", whose fingerprint hash is the fingerprint itself. *)
Definition demo_crypto : Crypto := {|
  jwt_encode _ := "new";
  jwt_decode t token := if String.eqb token "T" && (t <=? demo_exp) then Some demo_claims else None;
  sha256_hex s := s;
  ph_verify h p := Ok (String.eqb h p)
|}.

#[export] Instance demo_jwt_laws : JwtLaws demo_crypto.
Proof.
  split. intros t1 t2 token p1 p2. simpl. destruct (String.eqb token "T"); [|done]. simpl.
  destruct (t1 <=? demo_exp); [|done]. destruct (t2 <=? demo_exp); [|done]. by intros [= <-] [= <-].
Qed.

Record DemoRedis := { d_now : datetime; d_keys : dict string (string * Z); d_uuid : Z }.

Definition d_secs (w : DemoRedis) : Z := timestamp (d_now w).
Definition d_entry (w : DemoRedis) (k : string) : option (string * Z) := dget (d_keys w) k.

Definition demo_exec (X : Type) (e : ev X) : M DemoRedis X :=
  match e in ev X return M DemoRedis X with
  | RSet k v ex => λ w, (Ok tt, {| d_now := d_now w; d_keys := dset (d_keys w) k (v, d_secs w + ex); d_uuid := d_uuid w |})
  | RExists k => λ w, (Ok (alive (d_entry w k) (d_secs w)), w)
  | RGet k => λ w, (Ok (if alive (d_entry w k) (d_secs w) then option_map fst (d_entry w k) else None), w)
  | RDelete k => λ w, (Ok tt, {| d_now := d_now w; d_keys := dpop (d_keys w) k; d_uuid := d_uuid w |})
  | UtcNow => λ w, (Ok (d_now w), w)
  | Uuid4 => λ w, (Ok (str_Z (d_uuid w)), {| d_now := d_now w; d_keys := d_keys w; d_uuid := d_uuid w + 1 |})
  | RLpush _ _ => mret tt
  end.

#[export] Instance demo_redis_laws : RedisLaws demo_exec d_entry d_secs.
Proof.
  split.
  - intros X e w. destruct e; simpl; unfold d_secs; simpl; lia.
  - intros X e w k He. by destruct e.
  - intros w k b w' [= <- <-]. done.
  - intros w k v w' [= <- <-]. done.
  - intros w k v ex w' Hex [= <-]. split.
    + exists (d_secs w). split; [lia|]. unfold d_entry. simpl. apply dget_dset_eq.
    + intros j Hj. unfold d_entry. simpl. by apply dget_dset_ne.
  - intros w d w' [= <- <-]. unfold d_secs. lia.
Qed.

Definition demo_redis : DemoRedis := {| d_now := DT 2026 2 12 10 0 0 0; d_keys := []; d_uuid := 1 |}.
Definition security_repr : PyRepr := {| repr_other _ := "" |}.

Definition demo_rotate : proc TokenPair :=
  rotate_refresh_token (H := security_repr) demo_crypto demo_settings "T" "dev".

(** The calls of one rotation up to its last check, and after it. *)
Definition checks : nat := 5.
Definition writes : nat := 7.

(** Rotation is not atomic: with two rotations of the same refresh token under
    way, there is an order of their calls to Redis, with switches only where a
    task awaits Redis, in which both return a new token pair. *)
Theorem concurrent_rotations_both_succeed :
  ∃ p1 p2 w', par_steps demo_exec (demo_rotate, demo_rotate, demo_redis) (Done (Ok p1), Done (Ok p2), w') ∧
    access_jti p1 ≠ access_jti p2 ∧ family_id p1 = family_id p2.
Proof.
  set (schedule := (repeat true checks ++ repeat false (checks + writes) ++ repeat true writes)%list).
  pose proof (follow_steps demo_exec schedule (demo_rotate, demo_rotate, demo_redis)) as Hs.
  destruct (follow demo_exec schedule (demo_rotate, demo_rotate, demo_redis)) as [[p q] w'] eqn:E.
  vm_compute in E. injection E as <- <- <-.
  eexists _, _, _. split; [exact Hs|]. split; [discriminate|reflexivity].
Qed.

Definition demo_after (p : proc TokenPair) (w : DemoRedis) : TokenPair * DemoRedis :=
  match run demo_exec p w with
  | (Ok t, w') => (t, w')
  | (Raise _, w') => ({| access_token := ""; refresh_token := ""; access_jti := ""; refresh_jti := ""; family_id := "" |}, w')
  end.

Lemma rotated_witness :
  let w1 := (demo_after demo_rotate demo_redis).2 in
  let out := run demo_exec demo_rotate w1 in
  (∃ e, out.1 = Raise e) ∧ ∀ k, d_entry out.2 k = d_entry w1 k.
Proof.
  refine (rotated_token_is_refused (H := security_repr) demo_crypto demo_settings demo_exec d_entry d_secs
    "T" "dev" "dev" demo_redis (demo_after demo_rotate demo_redis).1 (demo_after demo_rotate demo_redis).2
    (demo_after demo_rotate demo_redis).2 _ _ demo_exp _ _ (λ j, eq_refl) _ _).
  - intros t p. simpl. destruct (t <=? demo_exp); [|discriminate]. intros [= <-]. reflexivity.
  - vm_compute. reflexivity.
  - vm_compute. reflexivity.
  - vm_compute. reflexivity.
Defined.

(** The revocation of user u1's tokens, and the same store half a year later. *)
Definition demo_revoked : DemoRedis :=
  (run demo_exec (revoke_all_user_tokens "u1" "lost phone") demo_redis).2.
Definition demo_later : DemoRedis :=
  {| d_now := DT 2026 8 12 10 0 0 0; d_keys := d_keys demo_revoked; d_uuid := d_uuid demo_revoked |}.
(** A decoder that does not look at the expiry. *)
Definition lax_crypto : Crypto := {|
  jwt_encode := jwt_encode demo_crypto; jwt_decode _ token := if String.eqb token "T" then Some demo_claims else None;
  sha256_hex := sha256_hex demo_crypto; ph_verify := ph_verify demo_crypto |}.

Lemma logged_out_witness : d_secs demo_redis + 60 * 60 * 24 * 90 <= d_secs demo_later.
Proof.
  refine (revoked_user_is_logged_out (H := security_repr) lax_crypto demo_exec d_entry d_secs "u1" "lost phone"
    demo_redis demo_revoked demo_later "T" (Some "dev") demo_claims demo_later demo_issued _ _ eq_refl _ eq_refl eq_refl _).
  - vm_compute. discriminate.
  - vm_compute. reflexivity.
  - vm_compute. reflexivity.
  - vm_compute. discriminate.
Defined.
