(* ===== verification/Sessions.v ===== *)
(** * Issued tokens verify (app/core/security.py)

    The round trip from [create_token_pair] to [verify_token]: the JWT library
    gives back what it signed as long as it is valid, Redis answers, and no
    revocation was written. *)

From Stdlib Require Import ZArith Lia Bool List Ascii String.
From stdpp Require Import base decidable list option strings countable.
From S2P Require Import Prelude PyFloat PyStr PyDateTime PyMonad PyDict PyVal Redis Security.
Open Scope string_scope.
Open Scope Z_scope.
Open Scope py_scope.

(** ** What is relied on of the JWT library *)

(** Claims that JSON carries unchanged. *)
Definition plain_claims (claims : vdict) : bool :=
  forallb (λ kv, match kv.2 with VStr _ | VInt _ => true | _ => false end) claims.

(** Decoding checks the signature, the issuer, the audience and the times. *)
Class JwtRoundTrip (K : Crypto) (settings : JwtSettings) := {
  jwt_accepts t claims nbf exp :
    plain_claims claims = true → vget claims "iss" = VStr (jwt_issuer settings) →
    vget claims "aud" = VStr (jwt_audience settings) → vget claims "nbf" = VInt nbf → vget claims "exp" = VInt exp →
    nbf <= t <= exp → jwt_decode K t (jwt_encode K claims) = Some claims;
  jwt_expired t claims exp :
    plain_claims claims = true → vget claims "exp" = VInt exp → exp < t → jwt_decode K t (jwt_encode K claims) = None
}.

Section RoundTrip.
Context `{PyRepr} (K : Crypto) (settings : JwtSettings) {JR : JwtRoundTrip K settings}.
Context {W : Type} (exec : ∀ X, ev X → M W X) (entry : W → string → option (string * Z)) (secs : W → Z).
Context {Laws : RedisLaws exec entry secs}.

(** Redis, the clock and the id generator answer; an id is not empty. *)
Definition answered : Prop := ∀ X (e : ev X) w, is_ok (exec X e w).1 = true.
Definition ids_not_empty : Prop := ∀ w j w', exec _ Uuid4 w = (Ok j, w') → j ≠ "".

(** The claims [build_claims] makes at the second [iat]. *)
Definition claims_at (iat : Z) (jti subject : string) (ttl : Z) (token_type : string) (family : option string)
    (fingerprint : string) : vdict :=
  ([("sub", VStr subject); ("iss", VStr (jwt_issuer settings)); ("aud", VStr (jwt_audience settings));
    ("iat", VInt iat); ("nbf", VInt iat); ("exp", VInt (iat + ttl)); ("jti", VStr jti); ("typ", VStr token_type)]
   ++ (if given family then [("fid", VStr (default "" family))] else [])
   ++ (if given (Some fingerprint) then [("fp", VStr (sha256_hex K fingerprint))] else []))%list.

Lemma build_claims_inv subject ttl ty family fp w claims w1 :
  run exec (build_claims K settings subject ttl ty family (Some fp)) w = (Ok claims, w1) →
  ∃ iat jti, secs w <= iat <= secs w1 ∧ (ids_not_empty → jti ≠ "") ∧ claims = claims_at iat jti subject ttl ty family fp.
Proof.
  unfold build_claims. intros Hr. peel_run Hr as now w2 Hn. rewrite run_await in Hn. apply law_now in Hn.
  peel_run Hr as jti w3 Hj. pose proof (run_mono' exec entry secs _ _ _ _ Hj) as Hm. rewrite run_await in Hj.
  injection Hr as <- <-. exists (timestamp now), jti. split; [lia|]. split; [|done]. intros Hid. by apply (Hid w2 jti w3).
Qed.

Lemma claims_fields iat jti subject ttl ty family fp :
  let c := claims_at iat jti subject ttl ty family fp in
  plain_claims c = true ∧ vget c "sub" = VStr subject ∧ vget c "iss" = VStr (jwt_issuer settings) ∧
  vget c "aud" = VStr (jwt_audience settings) ∧ vget c "iat" = VInt iat ∧ vget c "nbf" = VInt iat ∧
  vget c "exp" = VInt (iat + ttl) ∧ vget c "jti" = VStr jti ∧ vget c "typ" = VStr ty ∧
  (fp ≠ "" → vget c "fp" = VStr (sha256_hex K fp)).
Proof.
  unfold claims_at. simpl. destruct (given family); simpl.
  all: destruct (String.eqb_spec fp "") as [->|Hfp]; simpl; repeat split; done.
Qed.

(** The two tokens of a pair, with the claims behind them. *)
Lemma pair_inv user fp w tp w1 :
  run exec (create_token_pair K settings user fp) w = (Ok tp, w1) →
  ∀ token jti ty ttl,
    In (token, jti, ty, ttl)
      [(access_token tp, access_jti tp, "access", 60 * jwt_access_ttl_minutes settings);
       (refresh_token tp, refresh_jti tp, "refresh", 86400 * jwt_refresh_ttl_days settings)] →
    ∃ iat family, secs w <= iat <= secs w1 ∧ (ids_not_empty → jti ≠ "") ∧
      token = jwt_encode K (claims_at iat jti user ttl ty family fp).
Proof.
  unfold create_token_pair. intros Hr. peel_run Hr as family w2 Hf. apply (run_mono' exec entry secs) in Hf.
  peel_run Hr as [access ajti] w3 Ha. pose proof (run_mono' exec entry secs _ _ _ _ Ha) as Hma.
  unfold create_access_token in Ha. peel_run Ha as ca wa Hca. injection Ha as <- <- <-.
  peel_run Hr as [refresh rjti] w4 Hb. unfold create_refresh_token in Hb. peel_run Hb as cb wb Hcb. injection Hb as <- <- <-.
  injection Hr as <- <-. apply build_claims_inv in Hca as (ia & ja & Hia & Hja & ->).
  apply build_claims_inv in Hcb as (ib & jb & Hib & Hjb & ->).
  intros token jti ty ttl [[= <- <- <- <-]|[[= <- <- <- <-]|[]]].
  - exists ia, None. split; [lia|]. split; [exact Hja|done].
  - exists ib, (Some family). split; [lia|]. split; [exact Hjb|done].
Qed.

(** A call that is answered either goes on or was the last. *)
Lemma await_answered {X B} (e : ev X) (f : X → proc B) w r w' :
  answered → run exec (await e ≫= f) w = (r, w') →
  ∃ a w1, exec X e w = (Ok a, w1) ∧ run exec (f a) w1 = (r, w').
Proof.
  intros Hup Hr. apply run_bind_inv in Hr as [(a & w1 & Ha & Hr)|(x & Hx & _)].
  - rewrite run_await in Ha. by exists a, w1.
  - rewrite run_await in Hx. specialize (Hup X e w). by rewrite Hx in Hup.
Qed.

Lemma decode_answered {B} token p (f : vdict → proc B) w r w' :
  answered → (∀ t, secs w <= t <= secs w' → jwt_decode K t token = Some p) →
  run exec (decode_payload K token ≫= f) w = (r, w') →
  ∃ w1, (∀ k, entry w1 k = entry w k) ∧ run exec (f p) w1 = (r, w').
Proof.
  intros Hup Hdec Hr. rewrite run_bind in Hr. unfold mbind at 1, M_bind, decode_payload in Hr.
  destruct (run exec (now ← await UtcNow; _) w) as [rd wd] eqn:Hd.
  apply await_answered in Hd as (now & w1 & Hn & Hd); [|done].
  pose proof (law_mono _ UtcNow w) as Hm. rewrite Hn in Hm. simpl in Hm.
  assert (Hk : ∀ k, entry w1 k = entry w k).
  { intros k. pose proof (law_plain _ UtcNow w k eq_refl) as Hk. by rewrite Hn in Hk. }
  apply law_now in Hn. assert (Hw1 : secs w1 <= secs w').
  { destruct (jwt_decode K (timestamp now) token); simpl in Hd; injection Hd as <- <-;
      [by apply (run_mono' exec entry secs) in Hr|by injection Hr as _ <-]. }
  rewrite Hdec in Hd by lia. simpl in Hd. injection Hd as <- <-. by exists w1.
Qed.

(** [verify_token] on a token that decodes and that nothing revokes: only the
    fingerprint is left to decide. *)
Lemma verify_unrevoked token fp p jti user w r w' :
  answered → (∀ t, secs w <= t <= secs w' → jwt_decode K t token = Some p) →
  vget p "jti" = VStr jti → jti ≠ "" → vget p "sub" = VStr user →
  entry w (revoked_key jti) = None → entry w (user_key user) = None →
  run exec (verify_token K token fp) w = (r, w') →
  r = if given fp && negb (same_text (vget p "fp") (sha256_hex K (default "" fp)))
      then Raise (ValueError "fingerprint mismatch") else Ok p.
Proof.
  intros Hup Hdec Hj Hne Hs Hrev Hglob Hr. unfold verify_token in Hr.
  apply decode_answered with (p := p) in Hr as (w1 & Hk1 & Hr); [|done..].
  rewrite Hj in Hr. change (py_str (VStr jti)) with jti in Hr.
  destruct (String.eqb_spec jti "") as [|_]; [done|].
  apply await_answered in Hr as (b & w2 & Hb & Hr); [|done].
  pose proof (law_plain _ (RExists (revoked_key jti)) w1 (user_key user) eq_refl) as Hk2. rewrite Hb in Hk2. simpl in Hk2.
  apply law_exists in Hb. rewrite Hk1, Hrev in Hb. simpl in Hb. subst b.
  assert (Hsub : vindex p "sub" = Ok (VStr user)).
  { unfold vget, vget_or, vindex in *. destruct (dget p "sub"); [by rewrite Hs|done]. }
  rewrite Hsub in Hr. cbn [lift mbind proc_bind proc_bind_fix] in Hr. change (py_str (VStr user)) with user in Hr.
  apply await_answered in Hr as (ra & w3 & Hra & Hr); [|done].
  apply law_rget in Hra. rewrite Hk2, Hk1, Hglob in Hra. simpl in Hra. subst ra. simpl in Hr.
  destruct (given fp && _); injection Hr as <- _; done.
Qed.

End RoundTrip.

(** ** Witness: a signature that spells out its claims *)

Definition to_json (claims : vdict) : list (string * (string + Z)) :=
  List.map (λ kv, (kv.1, match kv.2 with VStr s => inl s | VInt n => inr n | _ => inr 0 end)) claims.
Definition from_json (l : list (string * (string + Z))) : vdict :=
  List.map (λ kv, (kv.1, match kv.2 with inl s => VStr s | inr n => VInt n end)) l.

Lemma json_roundtrip claims : plain_claims claims = true → from_json (to_json claims) = claims.
Proof.
  unfold plain_claims. induction claims as [|[k v] l IH]; simpl; [done|]. intros Hp. apply andb_true_iff in Hp as [Hv Hl].
  rewrite IH by done. by destruct v.
Qed.

Fixpoint bits (p : positive) : string :=
  match p with xH => "" | xO p => String "0" (bits p) | xI p => String "1" (bits p) end.
Fixpoint unbits (s : string) : positive :=
  match s with EmptyString => xH | String c r => if Ascii.eqb c "0" then xO (unbits r) else xI (unbits r) end.
Lemma unbits_bits p : unbits (bits p) = p.
Proof. induction p; simpl; by rewrite ?IHp. Qed.

Definition int_claim (claims : vdict) (k : string) : Z := match vget claims k with VInt n => n | _ => 0 end.

Definition plain_jwt : Crypto := {|
  jwt_encode claims := bits (encode (to_json claims));
  jwt_decode t token :=
    match decode (A := list (string * (string + Z))) (unbits token) with
    | Some l => let claims := from_json l in
                if (int_claim claims "nbf" <=? t) && (t <=? int_claim claims "exp") then Some claims else None
    | None => None
    end;
  sha256_hex s := s;
  ph_verify h p := Ok (String.eqb h p)
|}.

#[export] Instance plain_jwt_laws : JwtRoundTrip plain_jwt demo_settings.
Proof.
  split.
  - intros t claims nbf exp Hp _ _ Hn He Ht. cbn [jwt_decode jwt_encode plain_jwt].
    rewrite unbits_bits, decode_encode. cbv zeta. rewrite json_roundtrip by done. unfold int_claim. rewrite Hn, He.
    rewrite (proj2 (Z.leb_le nbf t)), (proj2 (Z.leb_le t exp)) by lia. done.
  - intros t claims exp Hp He Ht. cbn [jwt_decode jwt_encode plain_jwt].
    rewrite unbits_bits, decode_encode. cbv zeta. rewrite json_roundtrip by done. unfold int_claim. rewrite He.
    by rewrite (proj2 (Z.leb_gt t exp)), andb_false_r by lia.
Qed.

Lemma demo_answered : answered demo_exec.
Proof. intros X e w. by destruct e. Qed.
Lemma demo_ids : ids_not_empty demo_exec.
Proof.
  intros w j w' [= <- _] Heq. destruct (Z.leb_spec 0 (d_uuid w)) as [Hz|Hz].
  - pose proof (parse_int_str_Z _ Hz) as Hp. by rewrite Heq in Hp.
  - unfold str_Z in Heq. by destruct (d_uuid w).
Qed.

(** The demo clock stands still. *)
Lemma demo_clock {A} (p : proc A) w : d_now (run demo_exec p w).2 = d_now w.
Proof.
  revert w. induction p as [r|X e k IH]; intros w; simpl; [done|].
  assert (He : d_now (demo_exec X e w).2 = d_now w) by (by destruct e).
  destruct (demo_exec X e w) as [r w1]. rewrite IH. exact He.
Qed.

Definition demo_pair : res TokenPair * DemoRedis :=
  run demo_exec (create_token_pair plain_jwt demo_settings "7" "dev") demo_redis.

(** The refresh token of the pair, presented from its device and from another one. *)
Definition demo_verify (fp : string) : res vdict * DemoRedis :=
  match demo_pair with
  | (Ok tp, w1) => run demo_exec (verify_token (H := security_repr) plain_jwt (refresh_token tp) (Some fp)) w1
  | (Raise e, w1) => (Raise e, w1)
  end.

