(* ===== verification/Gateway.v ===== *)
(** * The WebSocket gateway (api_gateway/src)

    The connection registry in Redis (ws/manager.py), the sliding-window rate
    limiter (middleware/rate_limit.py), token checks (ws/auth.py) and the session
    loop of the [/ws] endpoint (routes/ws.py).  Redis, the socket, the clock and
    JSON are interfaces; verifying a token is a call, the one that Security.v's
    [verify_token] makes when it is run.

    Each request to the endpoint builds its own [RedisConnectionManager], so a
    manager's table of sockets holds the sockets of one request. *)

From Stdlib Require Import ZArith Lia Bool List Ascii String Sorted.
From stdpp Require Import base decidable list option strings sorting.
From S2P Require Import Prelude PyFloat PyStr PyDateTime PyMonad PyDict PyVal.
Open Scope string_scope.
Open Scope Z_scope.
Open Scope py_scope.

(** ** The Redis client and the socket *)

(** Commands queued on a pipeline; each has an integer (or boolean) reply. *)
Inductive ZCmd :=
| ZRemRangeByScore (k : string) (lo hi : float)
| ZAdd (k member : string) (score : float)
| ZCard (k : string)
| ZExpire (k : string) (seconds : Z).

Record RedisOps (W : Type) := {
  hset : string → dict string string → M W unit;
  hget : string → string → M W (option string);
  hgetall : string → M W (dict string string);
  expire : string → Z → M W unit;
  sadd : string → list string → M W unit;
  srem : string → list string → M W unit;
  smembers : string → M W (list string);
  scard : string → M W Z;
  redis_delete : string → M W unit;
  redis_publish : string → string → M W unit;
  pipeline_execute : list ZCmd → M W (list Z);
  psubscribe : string → M W unit;
  pubsub_close : M W unit;
  get_message : M W (option (string * string));
  redis_close : M W unit
}.
Arguments hset {W}. Arguments hget {W}. Arguments hgetall {W}. Arguments expire {W}.
Arguments sadd {W}. Arguments srem {W}. Arguments smembers {W}. Arguments scard {W}.
Arguments redis_delete {W}. Arguments redis_publish {W}. Arguments pipeline_execute {W}.
Arguments psubscribe {W}. Arguments pubsub_close {W}. Arguments get_message {W}. Arguments redis_close {W}.

(** A [WebSocket] object of type [Sock], and the task functions of asyncio. *)
Record SocketOps (W Sock : Type) := {
  ws_accept : Sock → M W unit;
  ws_send_json : Sock → vdict → M W unit;
  ws_close : Sock → Z → M W unit;
  ws_receive_json : Sock → M W pyval;
  create_task : string → M W unit;
  cancel_task : string → M W unit;
  asyncio_sleep : float → M W unit
}.
Arguments ws_accept {W Sock}. Arguments ws_send_json {W Sock}. Arguments ws_close {W Sock}.
Arguments ws_receive_json {W Sock}. Arguments create_task {W Sock}. Arguments cancel_task {W Sock}.
Arguments asyncio_sleep {W Sock}.

(** ** Text *)

(** [s.split(sep, 1)[-1]]. *)
Fixpoint str_after (sep s : string) : option string :=
  if String.prefix sep s then Some (String.substring (String.length sep) (String.length s - String.length sep) s)
  else match s with EmptyString => None | String _ r => str_after sep r end.
Definition split_last (sep s : string) : string := match str_after sep s with Some r => r | None => s end.

(** [datetime.now(timezone.utc).isoformat()], and [fromisoformat] of such a text
    ([None] where it raises ValueError or yields a time without zone, which
    cannot be subtracted). *)
Definition iso_utc (d : datetime) : string := String.append (isoformat d) "+00:00".
Definition from_iso_utc (s : string) : option datetime :=
  let n := (String.length s - 6)%nat in
  if String.eqb (String.substring n 6 s) "+00:00" then fromisoformat (String.substring 0 n s) else None.

Definition conn_key (cid : string) : string := String.append "ws:connections:" cid.
Definition user_conns_key (user : string) : string := ("ws:user:" ++ user ++ ":connections")%string.
Definition subs_key (user : string) : string := String.append "ws:subs:user:" user.
Definition day : Z := 60 * 60 * 24.

(** ** ws/manager.py *)

Record Manager (Sock : Type) := { local_connections : dict string Sock; pubsub : bool }.
Arguments local_connections {Sock}. Arguments pubsub {Sock}.
Definition new_manager {Sock} : Manager Sock := {| local_connections := []; pubsub := false |}.

(** ** middleware/rate_limit.py *)

Record WebSocketRateLimiter := {
  connections_per_ip : Z; messages_per_minute : Z; max_subscriptions : Z; window_seconds : Z
}.
Definition new_limiter (connections messages : Z) : WebSocketRateLimiter :=
  {| connections_per_ip := connections; messages_per_minute := messages; max_subscriptions := 100; window_seconds := 60 |}.

Section Gateway.
Context {W Sock : Type} `{PyRepr} (R : RedisOps W) (S : SocketOps W Sock) (instance_id : string).
Context (utcnow : M W datetime) (time_ : M W float).
Context (json_dumps : vdict → string) (json_loads : string → res pyval).
(** [verify_token(redis, token, fingerprint)]. *)
Context (verify : string → option string → M W vdict).

Definition cutoff (l : WebSocketRateLimiter) (now : float) : float := fsub now (f_of_Z (window_seconds l)).

Definition window_commands (l : WebSocketRateLimiter) (key : string) (now : float) : list ZCmd :=
  [ZRemRangeByScore key f0 (cutoff l now); ZAdd key (py_str (VFloat now)) now; ZCard key; ZExpire key (window_seconds l)].

Definition check_message_rate (l : WebSocketRateLimiter) (cid : string) : M W bool :=
  now ← time_;
  replies ← pipeline_execute R (window_commands l (String.append "ws:msg:" cid) now);
  match replies with
  | [_; _; count; _] => mret (count <=? messages_per_minute l)
  | _ => raise (ValueError "wrong number of values to unpack")
  end.

Definition check_connection_limit (l : WebSocketRateLimiter) (ip : string) : M W bool :=
  now ← time_;
  replies ← pipeline_execute R (window_commands l (String.append "ws:conn:ip:" ip) now);
  match replies with
  | [_; _; count; _] => mret (count <=? connections_per_ip l)
  | _ => raise (ValueError "wrong number of values to unpack")
  end.

Definition check_subscription_limit (l : WebSocketRateLimiter) (user : string) : M W bool :=
  cnt ← scard R (subs_key user); mret (cnt <=? max_subscriptions l).

Definition hold (cid : string) (ws : Sock) : M (Manager Sock * W) unit :=
  modify (λ mw, ({| local_connections := dset (local_connections mw.1) cid ws; pubsub := pubsub mw.1 |}, mw.2)).
Definition release (cid : string) : M (Manager Sock * W) unit :=
  modify (λ mw, ({| local_connections := dpop (local_connections mw.1) cid; pubsub := pubsub mw.1 |}, mw.2)).

Definition manager_start : M (Manager Sock * W) unit :=
  zoom_r (psubscribe R "ws:broadcast:*") ;;
  modify (λ mw, ({| local_connections := local_connections mw.1; pubsub := true |}, mw.2)) ;;
  zoom_r (create_task S "listen").

Definition manager_stop : M (Manager Sock * W) unit :=
  started ← gets (λ mw, pubsub mw.1);
  when started (zoom_r (cancel_task S "listen") ;; zoom_r (pubsub_close R)).

Definition manager_connect (ws : Sock) (user cid session : string) : M (Manager Sock * W) unit :=
  zoom_r (ws_accept S ws) ;;
  t ← zoom_r utcnow;
  let now := iso_utc t in
  hold cid ws ;;
  zoom_r (hset R (conn_key cid)
    [("user_id", user); ("session_id", session); ("connection_id", cid);
     ("connected_at", now); ("last_heartbeat", now); ("instance_id", instance_id)]) ;;
  zoom_r (expire R (conn_key cid) day) ;;
  zoom_r (sadd R (user_conns_key user) [cid]).

Definition manager_disconnect (cid : string) : M (Manager Sock * W) unit :=
  user ← zoom_r (hget R (conn_key cid) "user_id");
  (match user with
   | Some u => when (negb (String.eqb u "")) (zoom_r (srem R (user_conns_key u) [cid]))
   | None => mret tt
   end) ;;
  zoom_r (redis_delete R (conn_key cid)) ;;
  release cid.

Definition publish (channel : string) (message : vdict) : M W unit :=
  redis_publish R (String.append "ws:broadcast:" channel) (json_dumps message).

Definition subscribe_user (user : string) (topics : list string) : M W unit :=
  when (match topics with [] => false | _ => true end) (sadd R (subs_key user) topics) ;;
  expire R (subs_key user) day.

Definition unsubscribe_user (user : string) (topics : list string) : M W unit :=
  when (match topics with [] => false | _ => true end) (srem R (subs_key user) topics).

Definition send_local (message : vdict) (cid : string) : M (Manager Sock * W) unit :=
  found ← gets (λ mw, dget (local_connections mw.1) cid);
  match found with
  | Some ws => zoom_r (ws_send_json S ws message)
  | None => mret tt
  end.

Definition broadcast_to_user (user topic : string) (data : pyval) : M (Manager Sock * W) unit :=
  conn_ids ← zoom_r (smembers R (user_conns_key user));
  for_each (send_local [("topic", VStr topic); ("data", data)]) conn_ids.

Definition get_presence (user : string) : M W (list (dict string string)) :=
  conn_ids ← smembers R (user_conns_key user);
  data ← map_each (λ cid, hgetall R (conn_key cid)) conn_ids;
  mret (List.filter (λ d, match d with [] => false | _ => true end) data).

Definition touch_heartbeat (cid : string) : M W unit :=
  t ← utcnow; hset R (conn_key cid) [("last_heartbeat", iso_utc t)].

(** One turn of [_listen_pubsub]. *)
Definition listen_once : M (Manager Sock * W) unit :=
  msg ← zoom_r (get_message R);
  match msg with
  | None => zoom_r (asyncio_sleep S (flit 5 100))
  | Some (channel, data) =>
      let channel := split_last "ws:broadcast:" channel in
      payload ← lift_res (json_loads data);
      match payload with
      | VDict d =>
          let user := vget d "user_id" in
          when (truthy user) (broadcast_to_user (py_str user) channel payload)
      | _ => raise (AttributeError "get")
      end
  end.

(** ** ws/auth.py *)

Definition authenticate_websocket (token fp : option string) : M W vdict :=
  match token with
  | Some t => if String.eqb t "" then raise (ValueError "missing token") else verify t fp
  | None => raise (ValueError "missing token")
  end.

(** One turn of [periodic_revalidate]: whether it goes on. *)
Definition revalidate_once (ws : Sock) (token : string) (fp : option string) (interval : float) : M W bool :=
  asyncio_sleep S interval ;;
  try_except (verify token fp ;; mret true) (λ _, ws_close S ws 4003 ;; mret false).

(** ** routes/ws.py *)

Definition channels : list string :=
  ["user"; "account_updates"; "position_updates"; "order_updates"; "market_data"; "calendar_updates"; "strategy_signals"].

Definition allowed_prefixes (sub : string) : list string :=
  List.map (λ c, (c ++ ":" ++ sub)%string) channels.

Definition topic_allowed (topic : string) (claims : vdict) : res bool :=
  sub ← vindex claims "sub";
  mret (existsb (λ p, starts_with p topic) (allowed_prefixes (py_str sub))).

(** One turn of [heartbeat_monitor]: whether it goes on. *)
Definition heartbeat_monitor_once (ws : Sock) (cid : string) : M W bool :=
  asyncio_sleep S (f_of_Z 30) ;;
  presence ← hgetall R (conn_key cid);
  match presence with
  | [] => ws_close S ws 1001 ;; mret false
  | _ =>
      match dget presence "last_heartbeat" with
      | Some last =>
          if String.eqb last "" then mret true
          else
            now ← utcnow;
            match from_iso_utc last with
            | Some t =>
                if flt (f_of_Z 90) (total_seconds_between now t) then ws_close S ws 1001 ;; mret false
                else mret true
            | None => raise (ValueError "Invalid isoformat string")
            end
      | None => mret true
      end
  end.

(** The body of the message loop: whether it goes on ([false] is [break]). *)
Definition handle_message (l : WebSocketRateLimiter) (ws : Sock) (cid user : string) (claims : vdict)
    (msg : pyval) : M W bool :=
  fine ← check_message_rate l cid;
  if negb fine then ws_close S ws 4002 ;; mret false
  else match msg with
  | VDict d =>
      let event := vget d "event" in
      let topic := py_str (vget_or d "topic" (VStr "")) in
      let event_is e := match event with VStr s => String.eqb s e | _ => false end in
      if event_is "heartbeat" then
        touch_heartbeat cid ;;
        t ← utcnow;
        ws_send_json S ws [("event", VStr "heartbeat_ack"); ("ts", VStr (iso_utc t))] ;; mret true
      else if event_is "subscribe" then
        allowed ← (if String.eqb topic "" then mret false else lift_res (topic_allowed topic claims));
        if negb allowed then ws_close S ws 4001 ;; mret false
        else
          subscribe_user user [topic] ;;
          below ← check_subscription_limit l user;
          if negb below then ws_close S ws 4002 ;; mret false
          else ws_send_json S ws [("event", VStr "subscribed"); ("topic", VStr topic)] ;; mret true
      else if event_is "unsubscribe" then
        unsubscribe_user user [topic] ;;
        ws_send_json S ws [("event", VStr "unsubscribed"); ("topic", VStr topic)] ;; mret true
      else ws_send_json S ws [("event", VStr "error"); ("detail", VStr "unsupported event")] ;; mret true
  | _ => raise (AttributeError "get")
  end.

Definition WebSocketDisconnect : exn := ExternalError "WebSocketDisconnect" "".

(** [while True: ...] over the first [n] messages of a client that then leaves. *)
Fixpoint message_loop (n : nat) (l : WebSocketRateLimiter) (ws : Sock) (cid user : string) (claims : vdict) : M W unit :=
  match n with
  | O => raise WebSocketDisconnect
  | Datatypes.S n' =>
      msg ← ws_receive_json S ws;
      go_on ← handle_message l ws cid user claims msg;
      if go_on : bool then message_loop n' l ws cid user claims else mret tt
  end.

(** The [try] block of [websocket_endpoint]. *)
Definition session (n : nat) (l : WebSocketRateLimiter) (ws : Sock) (ip : string) (token fp : option string)
    (cid : string) : M (Manager Sock * W) unit :=
  fine ← zoom_r (check_connection_limit l ip);
  if negb fine then zoom_r (ws_close S ws 4002)
  else
    claims ← zoom_r (authenticate_websocket token fp);
    sub ← lift_res (vindex claims "sub");
    let user := py_str sub in
    let session_id := py_str (vget claims "jti") in
    manager_start ;;
    manager_connect ws user cid session_id ;;
    zoom_r (create_task S (String.append "ws-revalidate-" cid)) ;;
    zoom_r (create_task S (String.append "ws-heartbeat-monitor-" cid)) ;;
    zoom_r (message_loop n l ws cid user claims).

(** Its [except] clauses, in order. *)
Definition session_failed (ws : Sock) (e : exn) : M (Manager Sock * W) unit :=
  match e with
  | ValueError _ => zoom_r (ws_close S ws 4001)
  | _ =>
      if match e with ExternalError c _ => String.eqb c "WebSocketDisconnect" | _ => false end then mret tt
      else try_except (zoom_r (ws_close S ws 1011)) (λ _, mret tt)
  end.

(** Its [finally] clause. *)
Definition session_cleanup (cid : string) : M (Manager Sock * W) unit :=
  try_except (manager_disconnect cid ;; manager_stop ;; zoom_r (redis_close R)) (λ _, mret tt).

Definition websocket_endpoint (n : nat) (l : WebSocketRateLimiter) (ws : Sock) (ip : option string)
    (token fp : option string) (uuid4 : M W string) : M (Manager Sock * W) unit :=
  cid ← zoom_r uuid4;
  on_exit (try_except (session n l ws (default "unknown" ip) token fp cid) (session_failed ws))
    (session_cleanup cid) (session_cleanup cid).
End Gateway.

(** ** What the gateway relies on of Redis

    [view] is the content of the keys the gateway uses: hashes, sets (as lists
    without order) and sorted sets, an absent key being empty.  A command that
    returns has done its documented effect on the view; one that raises has done
    it or nothing.  Expiry is not an effect of a command: a theorem about an
    expired key says so in its hypotheses. *)

Record Store := {
  hashes : string → dict string string; sets : string → list string; zsets : string → dict string float
}.

#[export] Instance store_equiv : Equiv Store := λ s t,
  (∀ k, hashes s k = hashes t k) ∧ (∀ k, sets s k = sets t k) ∧ (∀ k, zsets s k = zsets t k).

#[export] Instance store_equivalence : Equivalence (≡@{Store}).
Proof.
  split.
  - intros s. done.
  - intros s t (H1 & H2 & H3). done.
  - intros s t u (H1 & H2 & H3) (H4 & H5 & H6). split; [|split]; intros k; congruence.
Qed.

(** Replacing what a key holds. *)
Definition at_key {A} (f : string → A) (k : string) (v : A) : string → A :=
  λ j, if decide (j = k) then v else f j.

Lemma at_key_eq {A} (f : string → A) k v : at_key f k v k = v.
Proof. unfold at_key. by rewrite decide_True. Qed.

Lemma at_key_ne {A} (f : string → A) k j v : j ≠ k → at_key f k v j = f j.
Proof. intros. unfold at_key. by rewrite decide_False. Qed.

Definition set_add (l : list string) (x : string) : list string :=
  if existsb (String.eqb x) l then l else (l ++ [x])%list.
Definition set_remove (l : list string) (x : string) : list string := List.filter (λ y, negb (String.eqb y x)) l.

Definition in_range (lo hi x : float) : bool := fle lo x && fle x hi.

Definition st_hset (k : string) (m : dict string string) (s : Store) : Store :=
  {| hashes := at_key (hashes s) k (dupdate (hashes s k) m); sets := sets s; zsets := zsets s |}.
Definition st_sets (k : string) (f : list string → list string) (s : Store) : Store :=
  {| hashes := hashes s; sets := at_key (sets s) k (f (sets s k)); zsets := zsets s |}.
Definition st_sadd (k : string) (ms : list string) : Store → Store := st_sets k (λ l, fold_left set_add ms l).
Definition st_srem (k : string) (ms : list string) : Store → Store := st_sets k (λ l, fold_left set_remove ms l).
Definition st_delete (k : string) (s : Store) : Store :=
  {| hashes := at_key (hashes s) k []; sets := at_key (sets s) k []; zsets := at_key (zsets s) k [] |}.
Definition st_zsets (k : string) (f : dict string float → dict string float) (s : Store) : Store :=
  {| hashes := hashes s; sets := sets s; zsets := at_key (zsets s) k (f (zsets s k)) |}.

(** One queued command: its reply and its effect. *)
Definition st_command (c : ZCmd) (s : Store) : Z * Store :=
  match c with
  | ZRemRangeByScore k lo hi =>
      let gone := λ p : string * float, in_range lo hi p.2 in
      (Z.of_nat (length (List.filter gone (zsets s k))), st_zsets k (List.filter (λ p, negb (gone p))) s)
  | ZAdd k m x => ((if dmem (zsets s k) m then 0 else 1), st_zsets k (λ d, dset d m x) s)
  | ZCard k => (Z.of_nat (length (zsets s k)), s)
  | ZExpire k _ => ((match zsets s k with [] => 0 | _ => 1 end), s)
  end.

Fixpoint st_pipeline (cs : list ZCmd) (s : Store) : list Z * Store :=
  match cs with
  | [] => ([], s)
  | c :: r => let '(x, s') := st_command c s in let '(xs, s'') := st_pipeline r s' in (x :: xs, s'')
  end.

Section StoreLaws.
Context {W Sock : Type} (view : W → Store).

(** The call does [f] to the view and answers as [ans] says. *)
Definition acts {A} (m : M W A) (f : Store → Store) (ans : Store → A → Prop) : Prop := ∀ w,
  match m w with
  | (Ok a, w') => ans (view w) a ∧ view w' ≡ f (view w)
  | (Raise _, w') => view w' ≡ view w ∨ view w' ≡ f (view w)
  end.

Definition quiet {A} (m : M W A) : Prop := ∀ w, view (m w).2 ≡ view w.

Lemma acts_ok {A} (m : M W A) f ans w a w' :
  acts m f ans → m w = (Ok a, w') → ans (view w) a ∧ view w' ≡ f (view w).
Proof. intros Hm Hr. specialize (Hm w). by rewrite Hr in Hm. Qed.

Lemma acts_cases {A} (m : M W A) f ans w :
  acts m f ans → view (m w).2 ≡ view w ∨ view (m w).2 ≡ f (view w).
Proof. intros Hm. specialize (Hm w). destruct (m w) as [[a|e] w']; simpl; tauto. Qed.

Lemma quiet_ok {A} (m : M W A) w r w' : quiet m → m w = (r, w') → view w' ≡ view w.
Proof. intros Hm Hr. specialize (Hm w). by rewrite Hr in Hm. Qed.
End StoreLaws.

Class StoreLaws {W Sock} (view : W → Store) (R : RedisOps W) (S : SocketOps W Sock) := {
  law_hset k m : acts view (hset R k m) (st_hset k m) (λ _ _, True);
  law_hget k f : acts view (hget R k f) id (λ s v, v = dget (hashes s k) f);
  law_hgetall k : acts view (hgetall R k) id (λ s d, dequiv d (hashes s k));
  law_expire k n : quiet view (expire R k n);
  law_sadd k ms : acts view (sadd R k ms) (st_sadd k ms) (λ _ _, True);
  law_srem k ms : acts view (srem R k ms) (st_srem k ms) (λ _ _, True);
  law_smembers k : acts view (smembers R k) id (λ s l, l ≡ₚ sets s k);
  law_scard k : acts view (scard R k) id (λ s n, n = Z.of_nat (length (sets s k)));
  law_delete k : acts view (redis_delete R k) (st_delete k) (λ _ _, True);
  law_publish c m : quiet view (redis_publish R c m);
  law_pipeline cs : acts view (pipeline_execute R cs) (λ s, (st_pipeline cs s).2) (λ s rs, rs = (st_pipeline cs s).1);
  law_psubscribe p : quiet view (psubscribe R p);
  law_pubsub_close : quiet view (pubsub_close R);
  law_get_message : quiet view (get_message R);
  law_redis_close : quiet view (redis_close R);
  law_accept ws : quiet view (ws_accept S ws);
  law_send ws m : quiet view (ws_send_json S ws m);
  law_close ws c : quiet view (ws_close S ws c);
  law_receive ws : quiet view (ws_receive_json S ws);
  law_create_task n : quiet view (create_task S n);
  law_cancel_task n : quiet view (cancel_task S n);
  law_sleep d : quiet view (asyncio_sleep S d)
}.

#[export] Hint Resolve law_hset law_hget law_hgetall law_expire law_sadd law_srem law_smembers law_scard
  law_delete law_publish law_pipeline law_psubscribe law_pubsub_close law_get_message law_redis_close law_accept
  law_send law_close law_receive law_create_task law_cancel_task law_sleep : py_run.

(** ** The rate limiter is a sliding window *)

Section Limiter.
Context {W Sock : Type} `{PyRepr} (view : W → Store) (R : RedisOps W) (S : SocketOps W Sock).
Context `{!StoreLaws view R S} (time_ : M W float) (time_quiet : quiet view time_).
Context (l : WebSocketRateLimiter) (cid : string).

Definition msg_key : string := String.append "ws:msg:" cid.
Definition stamp (t : float) : string := py_str (VFloat t).

(** Which of the times [ts] the window that ends at [now] still counts. *)
Definition expired (now t : float) : bool := in_range f0 (cutoff l now) t.
Definition in_window (now : float) (ts : list float) : list float := List.filter (λ t, negb (expired now t)) ts.

(** What clock readings satisfy: they have different texts, the start of the
    window moves forward with them, and the window is not empty. *)
Definition precedes (s t : float) : Prop := fle (cutoff l s) (cutoff l t) = true ∧ stamp s ≠ stamp t.
Definition clock_ok (ts : list float) : Prop := StronglySorted precedes ts ∧ Forall (λ t, expired t t = false) ts.

(** The checks of one connection with their answers, from an empty sorted set;
    anything else may happen between them, but for that key. *)
Inductive rate_history : list (float * bool) → W → Prop :=
| history_start w : zsets (view w) msg_key = [] → rate_history [] w
| history_check h w t w1 b w2 :
    rate_history h w → time_ w = (Ok t, w1) → check_message_rate R time_ l cid w = (Ok b, w2) →
    rate_history (h ++ [(t, b)]) w2
| history_other h w w' :
    rate_history h w → zsets (view w') msg_key = zsets (view w) msg_key → rate_history h w'.

Lemma check_message_rate_run w t w1 b w2 :
  time_ w = (Ok t, w1) → check_message_rate R time_ l cid w = (Ok b, w2) →
  let kept := List.filter (λ p : string * float, negb (expired t p.2)) (zsets (view w) msg_key) in
  zsets (view w2) msg_key = dset kept (stamp t) t ∧
  b = (Z.of_nat (length (dset kept (stamp t) t)) <=? messages_per_minute l).
Proof using StoreLaws0 time_quiet.
  intros Ht Hr. unfold check_message_rate in Hr. rewrite (bind_ok _ _ _ _ _ Ht) in Hr.
  peel Hr as replies w3 Hp.
  destruct (acts_ok _ _ _ _ _ _ _ (law_pipeline (view:=view) (R:=R) (S:=S) _) Hp) as [-> Hv].
  destruct (quiet_ok _ _ _ _ _ time_quiet Ht) as (_ & _ & Hz).
  cbn in Hr. injection Hr as <- <-. destruct Hv as (_ & _ & Hv).
  rewrite (Hv msg_key). cbn. unfold msg_key, stamp, expired in *. rewrite !at_key_eq, Hz. done.
Qed.

Lemma in_window_mono s t ts : fle (cutoff l s) (cutoff l t) = true → in_window t (in_window s ts) = in_window t ts.
Proof.
  intros Hc. unfold in_window. induction ts as [|x ts IH]; simpl; [done|].
  destruct (expired s x) eqn:Es; simpl.
  - unfold expired, in_range in *. apply andb_true_iff in Es as [E1 E2].
    rewrite E1, (fle_trans _ _ _ E2 Hc). done.
  - by rewrite IH.
Qed.

Lemma in_window_length_mono s t ts :
  fle (cutoff l s) (cutoff l t) = true → (length (in_window t ts) <= length (in_window s ts))%nat.
Proof. intros Hc. rewrite <- (in_window_mono s t ts Hc). apply List.filter_length_le. Qed.

Definition entries (ts : list float) : dict string float := List.map (λ t, (stamp t, t)) ts.

Lemma dset_entries ts t : Forall (λ s, stamp s ≠ stamp t) ts → dset (entries ts) (stamp t) t = entries (ts ++ [t]).
Proof.
  induction 1 as [|s ts Hs _ IH]; simpl; [done|]. rewrite decide_False by congruence. by rewrite IH.
Qed.

Lemma filter_entries now ts :
  List.filter (λ p : string * float, negb (expired now p.2)) (entries ts) = entries (in_window now ts).
Proof. induction ts as [|t ts IH]; simpl; [done|]. rewrite IH. by destruct (expired now t). Qed.

Lemma clock_snoc ts t :
  clock_ok (ts ++ [t]) → clock_ok ts ∧ Forall (λ s, precedes s t) ts ∧ expired t t = false.
Proof.
  intros [Hs Hf]. apply Forall_app in Hf as [Hf Ht]. inversion_clear Ht.
  apply StronglySorted_app in Hs as (Hp & Hs & _). split; [done|]. split; [|done].
  apply Forall_forall. intros s Hin. apply Hp; [done|by constructor].
Qed.

Lemma in_window_kept ts now t :
  Forall (λ s, precedes s t) ts → last ts = Some now → in_window t (in_window now ts) = in_window t ts.
Proof.
  intros Hp Hl. apply in_window_mono. rewrite Forall_forall in Hp.
  apply (Hp now). apply last_Some_elem_of in Hl. done.
Qed.

(** What the sorted set holds, and what every check answered. *)
Lemma history_state h w :
  rate_history h w → clock_ok (List.map fst h) →
  (∃ now, (h = [] ∨ last (List.map fst h) = Some now) ∧
          zsets (view w) msg_key = entries (in_window now (List.map fst h))) ∧
  ∀ h1 t b h2, h = (h1 ++ (t, b) :: h2)%list →
    b = (Z.of_nat (length (in_window t (List.map fst h1 ++ [t]))) <=? messages_per_minute l).
Proof using StoreLaws0 time_quiet.
  induction 1 as [w Hz|h w t w1 b w2 Hh IH Ht Hr|h w w' Hh IH Hz]; intros Hc.
  - split; [exists f0; split; [by left|done]|]. by intros [] ? ? ?.
  - rewrite map_app in Hc. change (List.map fst [(t, b)]) with [t] in Hc. apply clock_snoc in Hc as (Hc & Hp & Hself). destruct (IH Hc) as [(now & Hlast & Hz) Hold].
    destruct (check_message_rate_run _ _ _ _ _ Ht Hr) as [Hz2 Hb]. rewrite Hz, filter_entries in Hz2, Hb.
    assert (in_window t (in_window now (List.map fst h)) = in_window t (List.map fst h)) as Hk.
    { destruct Hlast as [->|Hl]; [done|]. by apply in_window_kept. }
    assert (Forall (λ s, stamp s ≠ stamp t) (in_window t (List.map fst h))) as Hnew.
    { rewrite Forall_forall in *. intros s Hin. apply list_elem_of_In, filter_In in Hin as [Hin _].
      apply (Hp s). by apply list_elem_of_In. }
    assert (in_window t (List.map fst h ++ [t]) = (in_window t (List.map fst h) ++ [t])%list) as Hw.
    { unfold in_window. rewrite List.filter_app. simpl. by rewrite Hself. }
    rewrite Hk, dset_entries in Hz2, Hb by done. rewrite <- Hw in Hz2, Hb.
    split; [exists t; rewrite map_app; simpl; rewrite last_snoc; auto|].
    intros h1 t' b' h2 Heq. induction h2 as [|x h2' _] using rev_ind.
    + apply app_inj_tail in Heq as [-> [= -> ->]].
      rewrite Hb. unfold entries. by rewrite length_map.
    + rewrite app_comm_cons, app_assoc in Heq. apply app_inj_tail in Heq as [-> _]. by eapply Hold.
  - destruct (IH Hc) as [(now & Hl & Hz') Hold]. split; [|done]. exists now. by rewrite Hz.
Qed.

(** How many of the checks so far were accepted at a time the window that ends
    at [now] still counts. *)
Definition accepted_in (now : float) (h : list (float * bool)) : nat :=
  length (List.filter (λ p : float * bool, p.2 && negb (expired now p.1)) h).

Lemma accepted_in_le now h : (accepted_in now h <= length (in_window now (List.map fst h)))%nat.
Proof.
  unfold accepted_in, in_window. induction h as [|[t b] h IH]; simpl; [lia|].
  destruct b, (expired now t); simpl; lia.
Qed.

Lemma accepted_in_snoc now h t b :
  accepted_in now (h ++ [(t, b)]) = (accepted_in now h + if b && negb (expired now t) then 1 else 0)%nat.
Proof. unfold accepted_in. rewrite List.filter_app, length_app. simpl. by destruct (b && _). Qed.

(** If the answers are the limiter's, no window holds too many accepted checks. *)
Lemma accepted_bound h now :
  (∀ h1 t b h2, h = (h1 ++ (t, b) :: h2)%list →
     b = (Z.of_nat (length (in_window t (List.map fst h1 ++ [t]))) <=? messages_per_minute l)) →
  Forall (λ t, fle (cutoff l t) (cutoff l now) = true) (List.map fst h) →
  Z.of_nat (accepted_in now h) <= Z.max 0 (messages_per_minute l).
Proof.
  induction h as [|[t b] h IH] using rev_ind; intros Hb Hf; [unfold accepted_in; simpl; lia|].
  rewrite map_app in Hf. apply Forall_app in Hf as [Hf Ht]. apply Forall_cons in Ht as [Ht _]. simpl in Ht.
  assert (Z.of_nat (accepted_in now h) <= Z.max 0 (messages_per_minute l)) as Hh.
  { apply IH; [|done]. intros h1 t' b' h2 ->. eapply (Hb h1 t' b' (h2 ++ [(t, b)])%list). by rewrite <- app_assoc. }
  pose proof (accepted_in_le now (h ++ [(t, b)])) as Hle. rewrite map_app in Hle. simpl in Hle.
  pose proof (in_window_length_mono t now (List.map fst h ++ [t]) Ht) as Hm.
  specialize (Hb h t b [] eq_refl). rewrite accepted_in_snoc in *.
  destruct b; simpl in *; [|lia]. symmetry in Hb. apply Z.leb_le in Hb. destruct (expired now t); simpl in *; lia.
Qed.

(** C24. The message limiter is a sliding window: a check is accepted exactly when
    the checks of the connection within the last [window_seconds], itself included
    and refused ones counted too, are at most [messages_per_minute]; so at any
    check, at most that many checks of the window that ends there were accepted. *)
Theorem rate_limit_is_a_sliding_window h w :
  rate_history h w → clock_ok (List.map fst h) →
  ∀ h1 t b h2, h = (h1 ++ (t, b) :: h2)%list →
    b = (Z.of_nat (length (in_window t (List.map fst h1 ++ [t]))) <=? messages_per_minute l) ∧
    Z.of_nat (accepted_in t (h1 ++ [(t, b)])) <= Z.max 0 (messages_per_minute l).
Proof using StoreLaws0 time_quiet.
  intros Hist Hc. destruct (history_state h w Hist Hc) as [_ Hb]. intros h1 t b h2 ->.
  specialize (Hb h1 t b h2 eq_refl) as Hbt. split; [done|].
  assert (Forall (λ s, fle (cutoff l s) (cutoff l t) = true) (List.map fst h1)) as Hf.
  { destruct Hc as [Hs _]. rewrite map_app in Hs. apply Forall_forall. intros s Hin.
    apply (StronglySorted_app_1_elem_of _ _ _ s t Hs Hin). by constructor. }
  assert (Z.of_nat (accepted_in t h1) <= Z.max 0 (messages_per_minute l)) as Hh.
  { apply accepted_bound; [|done]. intros g1 t' b' g2 ->. eapply (Hb g1 t' b' (g2 ++ (t, b) :: h2)%list).
    by rewrite <- app_assoc. }
  pose proof (accepted_in_le t (h1 ++ [(t, b)])) as Hle. rewrite map_app in Hle. simpl in Hle.
  rewrite accepted_in_snoc in *.
  destruct b; simpl in *; [|lia]. symmetry in Hbt. apply Z.leb_le in Hbt. destruct (expired t t); simpl in *; lia.
Qed.
End Limiter.

(** ** Connections *)

Lemma set_remove_absent l x : ¬ In x l → set_remove l x = l.
Proof.
  intros Hx. apply filter_all, List.Forall_forall. intros y Hy. apply negb_true_iff, String.eqb_neq. by intros ->.
Qed.

Lemma set_remove_added l x : ¬ In x l → set_remove (set_add l x) x = l.
Proof.
  intros Hx. unfold set_add. destruct (existsb (String.eqb x) l) eqn:E.
  - apply existsb_exists in E as (y & Hy & ->%String.eqb_eq). done.
  - unfold set_remove. rewrite List.filter_app. simpl. rewrite String.eqb_refl. simpl. rewrite app_nil_r.
    by apply set_remove_absent.
Qed.

Lemma at_key_undo {A} (f : string → A) k v j : at_key (at_key f k v) k (f k) j = f j.
Proof. unfold at_key. by destruct (decide (j = k)) as [->|]. Qed.

(** The three families of keys do not meet. *)
Lemma conns_not_subs u v : user_conns_key u ≠ subs_key v.
Proof. discriminate. Qed.
Lemma conn_not_subs c v : conn_key c ≠ subs_key v.
Proof. discriminate. Qed.
Lemma conn_not_conns c u : conn_key c ≠ user_conns_key u.
Proof. discriminate. Qed.

Section Connections.
Context {W Sock : Type} `{PyRepr} (view : W → Store) (R : RedisOps W) (S : SocketOps W Sock) (instance_id : string).
Context `{!StoreLaws view R S} (utcnow : M W datetime) (time_ : M W float).
Context (clock_quiet : quiet view utcnow) (time_quiet : quiet view time_).

(** The entry of a connection, and what connecting and disconnecting do to the view. *)
Definition connection_entry (user cid session now : string) : dict string string :=
  [("user_id", user); ("session_id", session); ("connection_id", cid); ("connected_at", now);
   ("last_heartbeat", now); ("instance_id", instance_id)].

Lemma connect_view ws user cid session mg w mg1 w1 :
  manager_connect R S instance_id utcnow ws user cid session (mg, w) = (Ok tt, (mg1, w1)) →
  hashes (view w) (conn_key cid) = [] →
  ∃ t, (utcnow (ws_accept S ws w).2).1 = Ok t ∧
       local_connections mg1 = dset (local_connections mg) cid ws ∧
       hashes (view w1) (conn_key cid) = connection_entry user cid session (iso_utc t) ∧
       (∀ k, k ≠ conn_key cid → hashes (view w1) k = hashes (view w) k) ∧
       (∀ k, sets (view w1) k = at_key (sets (view w)) (user_conns_key user)
                                       (set_add (sets (view w) (user_conns_key user)) cid) k) ∧
       (∀ k, zsets (view w1) k = zsets (view w) k).
Proof using StoreLaws0 clock_quiet.
  intros Hr Hnew. unfold manager_connect in Hr. peel_world Hr as [] w2 Ha. peel_world Hr as t w3 Ht.
  peel Hr as [] [mg2 w4] Hh. injection Hh as Hmg ->. peel_world Hr as [] w5 Hs. peel_world Hr as [] w6 He.
  apply zoom_r_inv in Hr as [-> Hr].
  apply (quiet_ok _ _ _ _ _ (law_accept (view:=view) ws)) in Ha as Hva.
  apply (quiet_ok _ _ _ _ _ clock_quiet) in Ht as Hvt.
  apply (acts_ok _ _ _ _ _ _ _ (law_hset (view:=view) (R:=R) (S:=S) _ _)) in Hs as [_ Hvs].
  apply (quiet_ok _ _ _ _ _ (law_expire (view:=view) (R:=R) (S:=S) _ _)) in He as Hve.
  apply (acts_ok _ _ _ _ _ _ _ (law_sadd (view:=view) (R:=R) (S:=S) _ _)) in Hr as [_ Hvr].
  destruct Hva as (A1 & A2 & A3), Hvt as (B1 & B2 & B3), Hvs as (C1 & C2 & C3), Hve as (D1 & D2 & D3),
    Hvr as (E1 & E2 & E3). cbn in *.
  exists t. rewrite Ha, <- Hmg. simpl. rewrite Ht. split; [done|]. split; [done|].
  split; [|split; [|split]].
  - rewrite E1, D1, C1, at_key_eq, B1, A1, Hnew. reflexivity.
  - intros k Hk. by rewrite E1, D1, C1, at_key_ne, B1, A1 by done.
  - intros k. rewrite E2. unfold at_key. destruct (decide _); by rewrite D2, C2, B2, A2.
  - intros k. by rewrite E3, D3, C3, B3, A3.
Qed.

Lemma disconnect_view cid (mg mg1 : Manager Sock) w w1 :
  manager_disconnect R cid (mg, w) = (Ok tt, (mg1, w1)) →
  local_connections mg1 = dpop (local_connections mg) cid ∧
  (∀ k, hashes (view w1) k = at_key (hashes (view w)) (conn_key cid) [] k) ∧
  (∀ k, k ≠ conn_key cid → sets (view w1) k =
     match dget (hashes (view w) (conn_key cid)) "user_id" with
     | Some u => if String.eqb u "" then sets (view w) k
                 else at_key (sets (view w)) (user_conns_key u) (set_remove (sets (view w) (user_conns_key u)) cid) k
     | None => sets (view w) k
     end) ∧
  (∀ k, k ≠ conn_key cid → zsets (view w1) k = zsets (view w) k).
Proof using StoreLaws0.
  intros Hr. unfold manager_disconnect in Hr. peel_world Hr as user w2 Hg. peel Hr as [] [mg3 w3] Hs.
  peel_world Hr as [] w4 Hd. injection Hr as Hmg ->.
  apply (acts_ok _ _ _ _ _ _ _ (law_hget (view:=view) (R:=R) (S:=S) _ _)) in Hg as [Hu (A1 & A2 & A3)].
  apply (acts_ok _ _ _ _ _ _ _ (law_delete (view:=view) (R:=R) (S:=S) _)) in Hd as [_ (C1 & C2 & C3)].
  cbn in *. rewrite <- Hu.
  assert (mg3 = mg ∧ (∀ k, hashes (view w3) k = hashes (view w2) k) ∧ (∀ k, zsets (view w3) k = zsets (view w2) k) ∧
    ∀ k, sets (view w3) k = match user with
     | Some u => if String.eqb u "" then sets (view w2) k
                 else at_key (sets (view w2)) (user_conns_key u) (set_remove (sets (view w2) (user_conns_key u)) cid) k
     | None => sets (view w2) k
     end) as (-> & B1 & B3 & B2).
  { destruct user as [u|]; [|by injection Hs as -> ->]. destruct (String.eqb u "") eqn:Eu; [by injection Hs as -> ->|].
    apply zoom_r_inv in Hs as [-> Hs].
    by apply (acts_ok _ _ _ _ _ _ _ (law_srem (view:=view) (R:=R) (S:=S) _ _)) in Hs as [_ (B1 & B2 & B3)]. }
  rewrite <- Hmg. simpl. split; [done|]. split; [|split].
  - intros k. rewrite C1. unfold at_key. destruct (decide _); [done|]. by rewrite B1, A1.
  - intros k Hk. rewrite C2, at_key_ne, B2 by done. destruct user as [u|]; [|apply A2].
    destruct (String.eqb u ""); [apply A2|]. unfold at_key. by destruct (decide _); rewrite A2.
  - intros k Hk. by rewrite C3, at_key_ne, B3, A3 by done.
Qed.

(** Connecting and disconnecting again leaves no trace: for a connection id that
    was not in use, the sets of connections, the other entries and the limiter's
    windows are as before, the entry is gone and the socket is no longer held. *)
Theorem disconnect_undoes_connect ws user cid session mg w mg1 w1 w1' mg2 w2 :
  manager_connect R S instance_id utcnow ws user cid session (mg, w) = (Ok tt, (mg1, w1)) →
  view w1' ≡ view w1 →
  manager_disconnect R cid (mg1, w1') = (Ok tt, (mg2, w2)) →
  user ≠ "" → hashes (view w) (conn_key cid) = [] → ¬ In cid (sets (view w) (user_conns_key user)) →
  dict_wf (local_connections mg) →
  (∀ k, hashes (view w2) k = hashes (view w) k) ∧
  (∀ k, k ≠ conn_key cid → sets (view w2) k = sets (view w) k ∧ zsets (view w2) k = zsets (view w) k) ∧
  dget (local_connections mg2) cid = None.
Proof using StoreLaws0 clock_quiet.
  intros Hc (V1 & V2 & V3) Hd Hu Hnew Hni Hwf.
  destruct (connect_view _ _ _ _ _ _ _ _ Hc Hnew) as (t & _ & Hl1 & He & Hh & Hs & Hz).
  destruct (disconnect_view _ _ _ _ _ Hd) as (Hl2 & Hh2 & Hs2 & Hz2).
  split; [|split].
  - intros k. rewrite Hh2. unfold at_key. destruct (decide (k = conn_key cid)) as [->|Hk]; [by rewrite Hnew|].
    by rewrite V1, Hh.
  - intros k Hk. rewrite Hz2, V3, Hz by done. split; [|done].
    rewrite Hs2, V1, He by done. cbn [dget connection_entry]. rewrite decide_True by done.
    apply String.eqb_neq in Hu as ->. unfold at_key at 1.
    destruct (decide (k = user_conns_key user)) as [->|Hk2]; rewrite V2, Hs.
    + by rewrite at_key_eq, set_remove_added.
    + by rewrite at_key_ne.
  - rewrite Hl2, Hl1. apply dget_dpop_eq. by apply dict_wf_dset.
Qed.

(** A connection that outlives its entry (which expires a day after connecting,
    a heartbeat does not renew it) is never removed from its user's set: the
    heartbeat writes the entry back without the user, and disconnecting then finds
    no user to remove it from. *)
Theorem expired_connection_stays_listed user cid (mg mg2 : Manager Sock) w t w1 w1' w2 :
  hashes (view w) (conn_key cid) = [] → In cid (sets (view w) (user_conns_key user)) →
  touch_heartbeat R utcnow cid w = (Ok t, w1) → view w1' ≡ view w1 →
  manager_disconnect R cid (mg, w1') = (Ok tt, (mg2, w2)) →
  In cid (sets (view w2) (user_conns_key user)) ∧ hashes (view w2) (conn_key cid) = [].
Proof using StoreLaws0 clock_quiet.
  intros Hexp Hin Ht (V1 & V2 & V3) Hd. unfold touch_heartbeat in Ht. peel Ht as d w3 Hn.
  apply (quiet_ok _ _ _ _ _ clock_quiet) in Hn as (A1 & A2 & A3).
  apply (acts_ok _ _ _ _ _ _ _ (law_hset (view:=view) (R:=R) (S:=S) _ _)) in Ht as [_ (B1 & B2 & B3)]. cbn in *.
  destruct (disconnect_view _ _ _ _ _ Hd) as (_ & Hh2 & Hs2 & _).
  split; [|by rewrite Hh2, at_key_eq].
  rewrite Hs2, V1, B1, at_key_eq, A1, Hexp by (apply not_eq_sym, conn_not_conns). cbn. by rewrite V2, B2, A2.
Qed.
End Connections.

(** ** Subscriptions *)

(** The topics the subject [sub] may subscribe to. *)
Definition permitted (sub topic : string) : bool := existsb (λ p, starts_with p topic) (allowed_prefixes sub).

Lemma permitted_In sub topic : permitted sub topic = true ↔ ∃ c r, In c channels ∧ topic = (c ++ ":" ++ sub ++ r)%string.
Proof.
  unfold permitted. rewrite existsb_exists. split.
  - intros (p & Hin & (r & ->)%starts_with_app). apply in_map_iff in Hin as (c & <- & Hc).
    exists c, r. by rewrite !str_app_assoc.
  - intros (c & r & Hc & ->). exists (c ++ ":" ++ sub)%string. split; [by apply in_map_iff; eauto|].
    apply starts_with_app. exists r. by rewrite !str_app_assoc.
Qed.

Lemma topic_allowed_permitted `{PyRepr} topic claims sub :
  vindex claims "sub" = Ok sub → topic_allowed topic claims = Ok (permitted (py_str sub) topic).
Proof. unfold topic_allowed. by intros ->. Qed.

(** The topic check has no separator after the subject: whoever's id begins
    with mine, every topic he may subscribe to I may subscribe to as well. *)
Theorem longer_ids_are_exposed `{PyRepr} topic (mine his : vdict) me him :
  vindex mine "sub" = Ok me → vindex his "sub" = Ok him → starts_with (py_str me) (py_str him) = true →
  topic_allowed topic his = Ok true → topic_allowed topic mine = Ok true.
Proof.
  intros Hme Hhim (x & Hx)%starts_with_app. rewrite (topic_allowed_permitted _ _ _ Hme), (topic_allowed_permitted _ _ _ Hhim).
  intros [= (c & r & Hc & ->)%permitted_In]. f_equal. apply permitted_In. exists c, (x ++ r)%string.
  by rewrite Hx, !str_app_assoc.
Qed.

Section Subscriptions.
Context {W Sock : Type} `{PyRepr} (view : W → Store) (R : RedisOps W) (S : SocketOps W Sock) (instance_id : string).
Context `{!StoreLaws view R S} (utcnow : M W datetime) (time_ : M W float) (uuid4 : M W string).
Context (verify : string → option string → M W vdict).
Context (clock_quiet : quiet view utcnow) (time_quiet : quiet view time_) (uuid_quiet : quiet view uuid4)
        (verify_quiet : ∀ t fp, quiet view (verify t fp)).

(** Every subscription is one of [w0]'s or permitted to its user. *)
Definition only_permitted (w0 : Store) (w : W) : Prop := ∀ user topic,
  In topic (sets (view w) (subs_key user)) → In topic (sets w0 (subs_key user)) ∨ permitted user topic = true.

Lemma quiet_permitted {A} (m : M W A) w0 : quiet view m → preserves (only_permitted w0) m.
Proof. intros Hm w Hw user topic. destruct (Hm w) as (_ & Hs & _). rewrite Hs. apply Hw. Qed.

Lemma acts_permitted {A} (m : M W A) f ans w0 :
  acts view m f ans →
  (∀ s user topic, In topic (sets (f s) (subs_key user)) → In topic (sets s (subs_key user)) ∨ permitted user topic = true) →
  preserves (only_permitted w0) m.
Proof.
  intros Hm Hf w Hw user topic. destruct (acts_cases view _ _ _ w Hm) as [(_ & Hs & _)|(_ & Hs & _)]; rewrite Hs.
  - apply Hw.
  - intros [Hin|]%Hf; [by apply Hw|by right].
Qed.

Lemma In_set_removes ms l x : In x (fold_left set_remove ms l) → In x l.
Proof.
  revert l. induction ms as [|m ms IH]; intros l; simpl; [done|]. intros Hin%IH. by apply filter_In in Hin as [? _].
Qed.

Lemma In_set_add l y x : In x (set_add l y) → In x l ∨ x = y.
Proof. unfold set_add. destruct (existsb _ _); [by left|]. intros [?|[<-|[]]]%in_app_iff; auto. Qed.

Lemma hset_permitted w0 k m : preserves (only_permitted w0) (hset R k m).
Proof using StoreLaws0. eapply acts_permitted; [apply law_hset|]. auto. Qed.

Lemma srem_permitted w0 k ms : preserves (only_permitted w0) (srem R k ms).
Proof using StoreLaws0.
  eapply acts_permitted; [apply law_srem|]. intros s user topic. cbn. unfold at_key.
  destruct (decide _) as [<-|]; [|by left]. intros ?%In_set_removes. by left.
Qed.

Lemma delete_permitted w0 k : preserves (only_permitted w0) (redis_delete R k).
Proof using StoreLaws0.
  eapply acts_permitted; [apply law_delete|]. intros s user topic. cbn. unfold at_key. destruct (decide _); [done|by left].
Qed.

Lemma conns_permitted w0 user cid : preserves (only_permitted w0) (sadd R (user_conns_key user) [cid]).
Proof using StoreLaws0.
  eapply acts_permitted; [apply law_sadd|]. intros s u topic. cbn. rewrite at_key_ne; [by left|].
  apply not_eq_sym, conns_not_subs.
Qed.

Lemma id_permitted {A} w0 (m : M W A) ans : acts view m id ans → preserves (only_permitted w0) m.
Proof. intros Hm. eapply acts_permitted; [exact Hm|]. by left. Qed.

Lemma pipeline_permitted w0 l key now : preserves (only_permitted w0) (pipeline_execute R (window_commands l key now)).
Proof using StoreLaws0. eapply acts_permitted; [apply law_pipeline|]. by left. Qed.

Lemma subscribe_permitted w0 user topic :
  permitted user topic = true → preserves (only_permitted w0) (subscribe_user R user [topic]).
Proof using StoreLaws0.
  intros Hp. unfold subscribe_user. cbn [when]. apply preserves_bind; [|intros; apply quiet_permitted, law_expire].
  eapply acts_permitted; [apply law_sadd|]. intros s u t. cbn. unfold at_key.
  destruct (decide _) as [E|]; [|by left]. apply str_app_inj in E as ->. intros [?| ->]%In_set_add; [by left|by right].
Qed.

Lemma zoom_permitted {A} w0 (m : M W A) :
  preserves (only_permitted w0) m → preserves (λ mw : Manager Sock * W, only_permitted w0 mw.2) (zoom_r m).
Proof. apply preserves_world_r. Qed.

Lemma rate_permitted w0 l key b (f : list Z → M W b) :
  (∀ rs, preserves (only_permitted w0) (f rs)) →
  preserves (only_permitted w0) (now ← time_; replies ← pipeline_execute R (window_commands l key now); f replies).
Proof using StoreLaws0 time_quiet.
  intros Hf. apply preserves_bind; [by apply quiet_permitted|]. intros now.
  apply preserves_bind; [apply pipeline_permitted|done].
Qed.

#[local] Hint Resolve hset_permitted srem_permitted delete_permitted conns_permitted pipeline_permitted : py_pres.
#[local] Hint Extern 2 (preserves (only_permitted _) (hget _ _ _)) => eapply id_permitted; apply law_hget : py_pres.
#[local] Hint Extern 2 (preserves (only_permitted _) (scard _ _)) => eapply id_permitted; apply law_scard : py_pres.
#[local] Hint Extern 3 (preserves (only_permitted _) _) => apply quiet_permitted; solve [eauto with py_run] : py_pres.
#[local] Hint Extern 1 (preserves (λ mw, only_permitted _ mw.2) (zoom_r _)) => apply zoom_permitted : py_pres.
#[local] Hint Extern 1 (preserves (λ mw, only_permitted _ mw.2) (modify _)) => intros [? ?] ?; assumption : py_pres.

Lemma message_permitted w0 l ws cid claims sub msg :
  vindex claims "sub" = Ok sub →
  preserves (only_permitted w0) (handle_message R S utcnow time_ l ws cid (py_str sub) claims msg).
Proof using StoreLaws0 clock_quiet time_quiet.
  intros Hsub. unfold handle_message. apply preserves_bind; [unfold check_message_rate; solve_pres|]. intros fine.
  destruct (negb fine); [solve_pres|].
  destruct msg as [| | | | | | | |d]; try apply preserves_raise.
  set (topic := py_str _). rewrite (topic_allowed_permitted _ _ _ Hsub).
  destruct (match vget d "event" with VStr s => String.eqb s "heartbeat" | _ => false end);
    [unfold touch_heartbeat; solve_pres|].
  destruct (match vget d "event" with VStr s => String.eqb s "subscribe" | _ => false end);
    [|unfold unsubscribe_user; solve_pres].
  destruct (String.eqb topic ""); [rewrite mret_bind; solve_pres|].
  apply preserves_lift_bind. intros allowed [= <-]. destruct (permitted _ topic) eqn:Hp; cbn [negb]; [|solve_pres].
  apply preserves_bind; [by apply subscribe_permitted|]. unfold check_subscription_limit. solve_pres.
Qed.

Lemma loop_permitted w0 n l ws cid claims sub :
  vindex claims "sub" = Ok sub →
  preserves (only_permitted w0) (message_loop R S utcnow time_ n l ws cid (py_str sub) claims).
Proof using StoreLaws0 clock_quiet time_quiet.
  intros Hsub. induction n as [|n IH]; cbn [message_loop]; [apply preserves_raise|].
  apply preserves_bind; [solve_pres|]. intros msg. apply preserves_bind; [by apply message_permitted|].
  intros []; [done|apply preserves_ret].
Qed.

Lemma session_permitted w0 n l ws ip token fp cid :
  preserves (λ mw, only_permitted w0 mw.2) (session R S instance_id utcnow time_ verify n l ws ip token fp cid).
Proof using StoreLaws0 clock_quiet time_quiet verify_quiet.
  unfold session. apply preserves_bind; [apply zoom_permitted; unfold check_connection_limit; solve_pres|]. intros fine.
  destruct (negb fine); [solve_pres|].
  apply preserves_bind; [apply zoom_permitted; unfold authenticate_websocket; solve_pres; by apply quiet_permitted|].
  intros claims. apply preserves_lift_bind. intros sub Hsub.
  unfold manager_start, manager_connect. repeat (apply preserves_bind; [solve_pres|intros]).
  by apply zoom_permitted, loop_permitted.
Qed.

(** Whatever a client sends, and however its session ends, every topic that is
    in a subscription set afterwards was there before or is permitted to the user
    whose set it is. *)
Theorem sessions_only_add_permitted_topics n l ws ip token fp mg w :
  let w' := (websocket_endpoint R S instance_id utcnow time_ verify n l ws ip token fp uuid4 (mg, w)).2.2 in
  ∀ user topic, In topic (sets (view w') (subs_key user)) →
    In topic (sets (view w) (subs_key user)) ∨ permitted user topic = true.
Proof using StoreLaws0 clock_quiet time_quiet verify_quiet uuid_quiet.
  assert (preserves (λ mw, only_permitted (view w) mw.2)
    (websocket_endpoint R S instance_id utcnow time_ verify n l ws ip token fp uuid4)) as Hp.
  { unfold websocket_endpoint. apply preserves_bind; [by apply zoom_permitted, quiet_permitted|]. intros cid.
    unfold session_cleanup, manager_disconnect, manager_stop, release.
    apply preserves_on_exit; [apply preserves_try; [apply session_permitted|]|solve_pres|solve_pres].
    intros e. unfold session_failed. solve_pres. }
  intros w'. apply (Hp (mg, w)). by left.
Qed.
End Subscriptions.

(** ** Heartbeats *)

Lemma from_iso_utc_iso d : dt_valid d = true → from_iso_utc (iso_utc d) = Some d.
Proof.
  intros Hd. unfold from_iso_utc, iso_utc. rewrite str_length_app.
  replace (String.length (isoformat d) + String.length "+00:00" - 6)%nat with (String.length (isoformat d)) by (simpl; lia).
  pose proof (substring_app_r (isoformat d) "+00:00") as Hr. simpl String.length in Hr at 2.
  rewrite Hr, String.eqb_refl, substring_app_l. by apply fromisoformat_isoformat.
Qed.

Section Heartbeat.
Context {W Sock : Type} (view : W → Store) (R : RedisOps W) (S : SocketOps W Sock).
Context `{!StoreLaws view R S} (utcnow : M W datetime) (clock_quiet : quiet view utcnow).

(** The heartbeat monitor closes a connection exactly when its last heartbeat
    is more than ninety seconds old: after a heartbeat at [t], the monitor's next
    check, at whatever time [now] it reads, closes with code 1001 if [now - t] is
    more than 90 seconds, and otherwise goes on without touching the socket. *)
Theorem monitor_enforces_ninety_seconds ws cid w t wt w1 w2 b w3 :
  utcnow w = (Ok t, wt) → dt_valid t = true → touch_heartbeat R utcnow cid w = (Ok tt, w1) →
  view w2 ≡ view w1 →
  heartbeat_monitor_once R S utcnow ws cid w2 = (Ok b, w3) →
  ∃ wa now wb, utcnow wa = (Ok now, wb) ∧
    if flt (f_of_Z 90) (total_seconds_between now t) then b = false ∧ ws_close S ws 1001 wb = (Ok tt, w3)
    else b = true ∧ w3 = wb.
Proof using StoreLaws0 clock_quiet.
  intros Hn Hv Ht (V1 & _ & _) Hr. unfold touch_heartbeat in Ht. rewrite (bind_ok _ _ _ _ _ Hn) in Ht.
  apply (acts_ok _ _ _ _ _ _ _ (law_hset (view:=view) (R:=R) (S:=S) _ _)) in Ht as [_ (B1 & _ & _)].
  unfold heartbeat_monitor_once in Hr. peel Hr as [] w4 Hs. peel Hr as presence w5 Hg.
  apply (quiet_ok _ _ _ _ _ (law_sleep (view:=view) (R:=R) (S:=S) _)) in Hs as (C1 & _ & _).
  apply (acts_ok _ _ _ _ _ _ _ (law_hgetall (view:=view) (R:=R) (S:=S) _)) in Hg as [Hp _].
  assert (dget presence "last_heartbeat" = Some (iso_utc t)) as Hlast.
  { rewrite (Hp "last_heartbeat"), C1, V1, B1. cbn. rewrite at_key_eq. apply dget_dset_eq. }
  destruct presence as [|p presence]; [done|]. rewrite Hlast in Hr.
  assert (String.eqb (iso_utc t) "" = false) as He by (unfold iso_utc; by destruct (isoformat t)).
  rewrite He in Hr. peel Hr as now wb Hnow. rewrite (from_iso_utc_iso t Hv) in Hr.
  exists w5, now, wb. split; [done|]. destruct (flt _ _); [|by injection Hr as <- <-].
  peel Hr as [] w6 Hc. injection Hr as <- <-. done.
Qed.
End Heartbeat.

(** ** A Redis in memory, and the theorems on it *)

Record DemoGate := {
  g_view : Store; g_times : list float; g_now : datetime; g_inbox : list pyval; g_sent : list vdict
}.

Definition g_update (f : Store → Store) : M DemoGate unit := modify (λ w, {|
  g_view := f (g_view w); g_times := g_times w; g_now := g_now w; g_inbox := g_inbox w; g_sent := g_sent w |}).

Definition gate_redis : RedisOps DemoGate := {|
  hset k m := g_update (st_hset k m);
  hget k f := gets (λ w, dget (hashes (g_view w) k) f);
  hgetall k := gets (λ w, hashes (g_view w) k);
  expire _ _ := mret tt;
  sadd k ms := g_update (st_sadd k ms);
  srem k ms := g_update (st_srem k ms);
  smembers k := gets (λ w, sets (g_view w) k);
  scard k := gets (λ w, Z.of_nat (length (sets (g_view w) k)));
  redis_delete k := g_update (st_delete k);
  redis_publish _ _ := mret tt;
  pipeline_execute cs := λ w, (Ok (st_pipeline cs (g_view w)).1, (g_update (λ s, (st_pipeline cs s).2) w).2);
  psubscribe _ := mret tt; pubsub_close := mret tt; get_message := mret None; redis_close := mret tt
|}.

Definition demo_socket : SocketOps DemoGate string := {|
  ws_accept _ := mret tt;
  ws_send_json _ m := modify (λ w, {| g_view := g_view w; g_times := g_times w; g_now := g_now w; g_inbox := g_inbox w;
                                      g_sent := (g_sent w ++ [m])%list |});
  ws_close _ _ := mret tt;
  ws_receive_json _ := λ w, match g_inbox w with
    | [] => (Raise WebSocketDisconnect, w)
    | m :: r => (Ok m, {| g_view := g_view w; g_times := g_times w; g_now := g_now w; g_inbox := r; g_sent := g_sent w |})
    end;
  create_task _ := mret tt; cancel_task _ := mret tt; asyncio_sleep _ := mret tt
|}.

#[export] Instance demo_store_laws : StoreLaws g_view gate_redis demo_socket.
Proof.
  split; intros; intros w; simpl; repeat split; try reflexivity; by destruct (g_inbox w).
Qed.

Definition demo_time : M DemoGate float := λ w,
  match g_times w with
  | [] => (Raise (RuntimeError "no more readings"), w)
  | t :: r => (Ok t, {| g_view := g_view w; g_times := r; g_now := g_now w; g_inbox := g_inbox w; g_sent := g_sent w |})
  end.
Definition demo_utcnow : M DemoGate datetime := gets g_now.

Lemma demo_time_quiet : quiet g_view demo_time.
Proof. intros w. unfold demo_time. by destruct (g_times w). Qed.
Lemma demo_utcnow_quiet : quiet g_view demo_utcnow.
Proof. by intros w. Qed.

(** [str(t)] of a time that is a whole number of seconds. *)
#[local] Instance gate_repr : PyRepr :=
  {| repr_other v := match v with VFloat f => match f_trunc f with Some z => str_Z z | None => "" end | _ => "" end |}.

Definition empty_store : Store := {| hashes _ := []; sets _ := []; zsets _ := [] |}.
Definition demo_gate : DemoGate := {|
  g_view := empty_store; g_times := [f_of_Z 100; f_of_Z 101; f_of_Z 102; f_of_Z 170]; g_now := DT 2026 2 12 9 0 0 0;
  g_inbox := []; g_sent := [] |}.

Definition two_a_minute : WebSocketRateLimiter := new_limiter 20 2.
Definition demo_check : M DemoGate bool := check_message_rate gate_redis demo_time two_a_minute "c".
Definition demo_checks : list (float * bool) :=
  [(f_of_Z 100, true); (f_of_Z 101, true); (f_of_Z 102, false); (f_of_Z 170, true)].

Definition gate_after (n : nat) : DemoGate := Nat.iter n (λ w, (demo_check w).2) demo_gate.

Lemma demo_next h w t b :
  rate_history g_view gate_redis demo_time two_a_minute "c" h w →
  (demo_time w).1 = Ok t → (demo_check w).1 = Ok b →
  rate_history g_view gate_redis demo_time two_a_minute "c" (h ++ [(t, b)]) (demo_check w).2.
Proof.
  intros Hh Ht Hb. apply (history_check _ _ _ _ _ h w t (demo_time w).2 b); [done| |].
  - by rewrite <- Ht, <- surjective_pairing.
  - unfold demo_check in *. by rewrite <- Hb, <- surjective_pairing.
Qed.

Lemma demo_history : rate_history g_view gate_redis demo_time two_a_minute "c" demo_checks (gate_after 4).
Proof.
  apply (demo_next [_; _; _] (gate_after 3)); [|by vm_compute..].
  apply (demo_next [_; _] (gate_after 2)); [|by vm_compute..].
  apply (demo_next [_] (gate_after 1)); [|by vm_compute..].
  apply (demo_next [] (gate_after 0)); [|by vm_compute..].
  by apply history_start.
Qed.

Lemma demo_clock_ok : clock_ok two_a_minute (List.map fst demo_checks).
Proof.
  split; [|repeat constructor].
  repeat first [apply SSorted_nil | apply SSorted_cons | apply Forall_nil_2 | apply Forall_cons_2 | split
               | vm_compute; (reflexivity || discriminate)].
Qed.

(** Four checks against two messages a minute: the third is refused, and the
    window has moved on at the fourth. *)
Lemma rate_limit_witness :
  false = (Z.of_nat (length (in_window two_a_minute (f_of_Z 102) [f_of_Z 100; f_of_Z 101; f_of_Z 102])) <=? 2) ∧
  Z.of_nat (accepted_in two_a_minute (f_of_Z 102) [(f_of_Z 100, true); (f_of_Z 101, true); (f_of_Z 102, false)]) <= 2.
Proof.
  exact (rate_limit_is_a_sliding_window g_view gate_redis demo_socket demo_time demo_time_quiet two_a_minute "c"
    demo_checks (gate_after 4) demo_history demo_clock_ok [_; _] (f_of_Z 102) false [_] eq_refl).
Defined.

Definition demo_connect : M (Manager string * DemoGate) unit :=
  manager_connect gate_redis demo_socket "api_gateway" demo_utcnow "socket" "1" "c" "session".
Definition held : Manager string := {| local_connections := [("c", "socket")]; pubsub := false |}.

Lemma disconnect_undoes_connect_witness :
  let w1 := (demo_connect (new_manager, demo_gate)).2.2 in
  let w2 := (manager_disconnect gate_redis "c" (held, w1)).2.2 in
  sets (g_view w1) (user_conns_key "1") = ["c"] ∧ sets (g_view w2) (user_conns_key "1") = [].
Proof.
  intros w1 w2. split; [reflexivity|].
  refine (proj1 (proj1 (proj2 (disconnect_undoes_connect g_view gate_redis demo_socket "api_gateway" demo_utcnow
    demo_utcnow_quiet "socket" "1" "c" "session" new_manager demo_gate held w1 w1 {| local_connections := []; pubsub := false |} w2
    eq_refl _ eq_refl _ eq_refl _ _)) (user_conns_key "1") _)); [reflexivity|discriminate|intros []|constructor|discriminate].
Defined.

(** The connection "c" of user 1 after a day: its entry has expired. *)
Definition day_later : DemoGate := {|
  g_view := st_sadd (user_conns_key "1") ["c"] empty_store; g_times := []; g_now := DT 2026 2 13 9 0 0 1;
  g_inbox := []; g_sent := [] |}.

Lemma expired_connection_witness :
  let w1 := (touch_heartbeat gate_redis demo_utcnow "c" day_later).2 in
  let w2 := (manager_disconnect gate_redis "c" (held, w1)).2.2 in
  In "c" (sets (g_view w2) (user_conns_key "1")) ∧ hashes (g_view w2) (conn_key "c") = [].
Proof.
  intros w1 w2.
  refine (expired_connection_stays_listed g_view gate_redis demo_socket demo_utcnow demo_utcnow_quiet "1" "c" held
    {| local_connections := []; pubsub := false |} day_later tt w1 w1 w2 eq_refl _ eq_refl _ eq_refl); [by left|reflexivity].
Defined.

Lemma longer_ids_witness :
  topic_allowed "user:10" [("sub", VStr "1")] = Ok true.
Proof.
  exact (longer_ids_are_exposed "user:10" [("sub", VStr "1")] [("sub", VStr "10")] (VStr "1") (VStr "10")
    eq_refl eq_refl eq_refl eq_refl).
Defined.

Definition demo_verify (token : string) (fp : option string) : M DemoGate vdict :=
  mret [("sub", VStr "1"); ("jti", VStr "j")].
Definition demo_session : DemoGate := {|
  g_view := empty_store; g_times := List.map f_of_Z [100; 101; 102; 103]; g_now := DT 2026 2 12 9 0 0 0;
  g_inbox := [VDict [("event", VStr "subscribe"); ("topic", VStr "user:1")];
              VDict [("event", VStr "subscribe"); ("topic", VStr "user:2")]]; g_sent := [] |}.
Definition demo_run : res unit * (Manager string * DemoGate) :=
  websocket_endpoint gate_redis demo_socket "api_gateway" demo_utcnow demo_time demo_verify 5 (new_limiter 20 600)
    "socket" None (Some "token") None (mret "c") (new_manager, demo_session).

Lemma quiet_ret {A} (a : A) : quiet g_view (mret a).
Proof. by intros w. Qed.

(** A client that subscribes to its own topic and then to another user's. *)
Lemma permitted_topics_witness :
  sets (g_view demo_run.2.2) (subs_key "1") = ["user:1"] ∧
  ∀ topic, In topic (sets (g_view demo_run.2.2) (subs_key "1")) → False ∨ permitted "1" topic = true.
Proof.
  split; [vm_compute; reflexivity|].
  exact (sessions_only_add_permitted_topics g_view gate_redis demo_socket "api_gateway" demo_utcnow demo_time (mret "c")
    demo_verify demo_utcnow_quiet demo_time_quiet (quiet_ret "c") (λ _ _, quiet_ret _) 5 (new_limiter 20 600)
    "socket" None (Some "token") None new_manager demo_session "1").
Defined.

Definition demo_beaten : DemoGate := (touch_heartbeat gate_redis demo_utcnow "c" demo_gate).2.
Definition demo_late : DemoGate := {|
  g_view := g_view demo_beaten; g_times := []; g_now := DT 2026 2 12 9 1 30 1; g_inbox := []; g_sent := [] |}.

Lemma monitor_witness : ∃ wa now wb, demo_utcnow wa = (Ok now, wb) ∧
  if flt (f_of_Z 90) (total_seconds_between now (DT 2026 2 12 9 0 0 0))
  then false = false ∧ ws_close demo_socket "socket" 1001 wb = (Ok tt, demo_late)
  else false = true ∧ demo_late = wb.
Proof.
  refine (monitor_enforces_ninety_seconds g_view gate_redis demo_socket demo_utcnow demo_utcnow_quiet "socket" "c"
    demo_gate _ demo_gate demo_beaten demo_late false demo_late eq_refl eq_refl eq_refl _ _); [reflexivity|].
  vm_compute. reflexivity.
Defined.
