(* ===== verification/Connections.v ===== *)
(** * The WebSocket gateway under an event loop (api_gateway/src/)

    Sessions, heartbeat monitors, revalidations and listeners as tasks of Tasks.v,
    any number of them over one Redis, each session with its own connection manager.
    Every call that is awaited is a step; [verify_token], which only reads, is one
    step as a whole.  A background task is taken for its first [n] turns, for
    every [n], and may run from the beginning: that its session has not started it
    yet, or that the session has ended, makes no difference to what is claimed. *)

From Stdlib Require Import ZArith Bool List Ascii String.
From stdpp Require Import base decidable list option strings.
From S2P Require Import Prelude PyFloat PyStr PyDateTime PyMonad PyDict PyVal Tasks Local Gateway.
Open Scope string_scope.
Open Scope Z_scope.
Open Scope py_scope.

(** ** The coroutines *)

Section Coroutines.
Context {W Sock : Type} `{PyRepr} (R : RedisOps W) (S : SocketOps W Sock) (instance_id : string).
Context (utcnow : M W datetime) (time_ : M W float) (json_loads : string → res pyval).
Context (verify : string → option string → M W vdict).
Abbreviation Own := (Manager Sock * W)%type.
Abbreviation call m := (await_call (S:=Own) (zoom_r m)).

(** *** middleware/rate_limit.py *)

Definition window_task (l : WebSocketRateLimiter) (key : string) (most : Z) : task Own bool :=
  now ← call time_;
  replies ← call (pipeline_execute R (window_commands l key now));
  match replies with
  | [_; _; count; _] => mret (count <=? most)
  | _ => fail (ValueError "wrong number of values to unpack")
  end.
Definition check_message_rate_task (l : WebSocketRateLimiter) (cid : string) : task Own bool :=
  window_task l (String.append "ws:msg:" cid) (messages_per_minute l).
Definition check_connection_limit_task (l : WebSocketRateLimiter) (ip : string) : task Own bool :=
  window_task l (String.append "ws:conn:ip:" ip) (connections_per_ip l).
Definition check_subscription_limit_task (l : WebSocketRateLimiter) (user : string) : task Own bool :=
  cnt ← call (scard R (subs_key user)); mret (cnt <=? max_subscriptions l).

(** *** ws/manager.py *)

Definition start_task : task Own unit :=
  call (psubscribe R "ws:broadcast:*") ;;
  await_call (modify (λ mw, ({| local_connections := local_connections mw.1; pubsub := true |}, mw.2))) ;;
  call (create_task S "listen").

Definition stop_task : task Own unit :=
  started ← await_call (gets (λ mw : Own, pubsub mw.1));
  when_task started (call (cancel_task S "listen") ;; call (pubsub_close R)).

Definition connect_task (ws : Sock) (user cid session : string) : task Own unit :=
  call (ws_accept S ws) ;;
  t ← call utcnow;
  let now := iso_utc t in
  await_call (hold cid ws) ;;
  call (hset R (conn_key cid)
    [("user_id", user); ("session_id", session); ("connection_id", cid);
     ("connected_at", now); ("last_heartbeat", now); ("instance_id", instance_id)]) ;;
  call (expire R (conn_key cid) day) ;;
  call (sadd R (user_conns_key user) [cid]).

Definition disconnect_task (cid : string) : task Own unit :=
  user ← call (hget R (conn_key cid) "user_id");
  (match user with
   | Some u => when_task (negb (String.eqb u "")) (call (srem R (user_conns_key u) [cid]))
   | None => mret tt
   end) ;;
  call (redis_delete R (conn_key cid)) ;;
  await_call (release cid).

Definition subscribe_user_task (user : string) (topics : list string) : task Own unit :=
  when_task (match topics with [] => false | _ => true end) (call (sadd R (subs_key user) topics)) ;;
  call (expire R (subs_key user) day).

Definition unsubscribe_user_task (user : string) (topics : list string) : task Own unit :=
  when_task (match topics with [] => false | _ => true end) (call (srem R (subs_key user) topics)).

Definition send_local_task (message : vdict) (cid : string) : task Own unit :=
  found ← await_call (gets (λ mw : Own, dget (local_connections mw.1) cid));
  match found with
  | Some ws => call (ws_send_json S ws message)
  | None => mret tt
  end.

Definition broadcast_task (user topic : string) (data : pyval) : task Own unit :=
  conn_ids ← call (smembers R (user_conns_key user));
  for_task (send_local_task [("topic", VStr topic); ("data", data)]) conn_ids.

Definition touch_heartbeat_task (cid : string) : task Own unit :=
  t ← call utcnow; call (hset R (conn_key cid) [("last_heartbeat", iso_utc t)]).

Definition listen_once_task : task Own unit :=
  msg ← call (get_message R);
  match msg with
  | None => call (asyncio_sleep S (flit 5 100))
  | Some (channel, data) =>
      let channel := split_last "ws:broadcast:" channel in
      payload ← pure_res (json_loads data);
      match payload with
      | VDict d =>
          let user := vget d "user_id" in
          when_task (truthy user) (broadcast_task (py_str user) channel payload)
      | _ => fail (AttributeError "get")
      end
  end.

(** *** ws/auth.py *)

Definition revalidate_once_task (ws : Sock) (token : string) (fp : option string) (interval : float) : task Own bool :=
  call (asyncio_sleep S interval) ;;
  try_task (_ ← call (verify token fp); mret true) (λ _, call (ws_close S ws 4003) ;; mret false).

(** *** routes/ws.py *)

Definition heartbeat_monitor_task (ws : Sock) (cid : string) : task Own bool :=
  call (asyncio_sleep S (f_of_Z 30)) ;;
  presence ← call (hgetall R (conn_key cid));
  match presence with
  | [] => call (ws_close S ws 1001) ;; mret false
  | _ =>
      match dget presence "last_heartbeat" with
      | Some last =>
          if String.eqb last "" then mret true
          else
            now ← call utcnow;
            match from_iso_utc last with
            | Some t =>
                if flt (f_of_Z 90) (total_seconds_between now t) then call (ws_close S ws 1001) ;; mret false
                else mret true
            | None => fail (ValueError "Invalid isoformat string")
            end
      | None => mret true
      end
  end.

Definition handle_message_task (l : WebSocketRateLimiter) (ws : Sock) (cid user : string) (claims : vdict)
    (msg : pyval) : task Own bool :=
  fine ← check_message_rate_task l cid;
  if negb fine then call (ws_close S ws 4002) ;; mret false
  else match msg with
  | VDict d =>
      let event := vget d "event" in
      let topic := py_str (vget_or d "topic" (VStr "")) in
      let event_is e := match event with VStr s => String.eqb s e | _ => false end in
      if event_is "heartbeat" then
        touch_heartbeat_task cid ;;
        t ← call utcnow;
        call (ws_send_json S ws [("event", VStr "heartbeat_ack"); ("ts", VStr (iso_utc t))]) ;; mret true
      else if event_is "subscribe" then
        allowed ← (if String.eqb topic "" then mret false else pure_res (topic_allowed topic claims));
        if negb allowed then call (ws_close S ws 4001) ;; mret false
        else
          subscribe_user_task user [topic] ;;
          below ← check_subscription_limit_task l user;
          if negb below then call (ws_close S ws 4002) ;; mret false
          else call (ws_send_json S ws [("event", VStr "subscribed"); ("topic", VStr topic)]) ;; mret true
      else if event_is "unsubscribe" then
        unsubscribe_user_task user [topic] ;;
        call (ws_send_json S ws [("event", VStr "unsubscribed"); ("topic", VStr topic)]) ;; mret true
      else call (ws_send_json S ws [("event", VStr "error"); ("detail", VStr "unsupported event")]) ;; mret true
  | _ => fail (AttributeError "get")
  end.

Fixpoint message_loop_task (n : nat) (l : WebSocketRateLimiter) (ws : Sock) (cid user : string) (claims : vdict)
    : task Own unit :=
  match n with
  | O => fail WebSocketDisconnect
  | Datatypes.S n' =>
      msg ← call (ws_receive_json S ws);
      go_on ← handle_message_task l ws cid user claims msg;
      if go_on : bool then message_loop_task n' l ws cid user claims else mret tt
  end.

Definition session_task (n : nat) (l : WebSocketRateLimiter) (ws : Sock) (ip : string) (token fp : option string)
    (cid : string) : task Own unit :=
  fine ← check_connection_limit_task l ip;
  if negb fine then call (ws_close S ws 4002)
  else
    claims ← call (authenticate_websocket verify token fp);
    sub ← pure_res (vindex claims "sub");
    let user := py_str sub in
    let session_id := py_str (vget claims "jti") in
    start_task ;;
    connect_task ws user cid session_id ;;
    call (create_task S (String.append "ws-revalidate-" cid)) ;;
    call (create_task S (String.append "ws-heartbeat-monitor-" cid)) ;;
    message_loop_task n l ws cid user claims.

Definition session_failed_task (ws : Sock) (e : exn) : task Own unit :=
  match e with
  | ValueError _ => call (ws_close S ws 4001)
  | _ =>
      if match e with ExternalError c _ => String.eqb c "WebSocketDisconnect" | _ => false end then mret tt
      else try_task (call (ws_close S ws 1011)) (λ _, mret tt)
  end.

Definition session_cleanup_task (cid : string) : task Own unit :=
  try_task (disconnect_task cid ;; stop_task ;; call (redis_close R)) (λ _, mret tt).

(** [websocket_endpoint] once its connection id is drawn. *)
Definition connection_task (n : nat) (l : WebSocketRateLimiter) (ws : Sock) (ip token fp : option string)
    (cid : string) : task Own unit :=
  exit_task (try_task (session_task n l ws (default "unknown" ip) token fp cid) (session_failed_task ws))
    (session_cleanup_task cid) (session_cleanup_task cid).

(** The first [n] turns of a background task. *)
Fixpoint turns (n : nat) (turn : task Own bool) : task Own unit :=
  match n with
  | O => mret tt
  | Datatypes.S n' => go_on ← turn; if go_on : bool then turns n' turn else mret tt
  end.

(** What runs in the gateway's process: a session, with the number of messages its
    client sends, or one of the background tasks. *)
Inductive Job :=
| Session (n : nat) (l : WebSocketRateLimiter) (ws : Sock) (ip token fp : option string) (cid : string)
| Monitor (n : nat) (ws : Sock) (cid : string)
| Revalidation (n : nat) (ws : Sock) (token : string) (fp : option string) (interval : float) (cid : string)
| Listener (n : nat) (cid : string).

(** The connection a job belongs to: the id names its manager. *)
Definition job_id (j : Job) : string :=
  match j with Session _ _ _ _ _ _ cid | Monitor _ _ cid | Revalidation _ _ _ _ _ cid | Listener _ cid => cid end.

Definition job_task (j : Job) : task Own unit :=
  match j with
  | Session n l ws ip token fp cid => connection_task n l ws ip token fp cid
  | Monitor n ws cid => turns n (heartbeat_monitor_task ws cid)
  | Revalidation n ws token fp interval _ => turns n (revalidate_once_task ws token fp interval)
  | Listener n _ => turns n (listen_once_task ;; mret true)
  end.
End Coroutines.
Arguments Session {Sock}. Arguments Monitor {Sock}. Arguments Revalidation {Sock}. Arguments Listener {Sock}.

(** The process: a manager for every connection id, and the world. *)
Definition Process (Sock W : Type) : Type := (string → Manager Sock) * W.

Definition with_manager {Sock W} (cid : string) (X : Type) (m : M (Manager Sock * W) X) : M (Process Sock W) X := λ mw,
  let '(r, (mg, w')) := m (mw.1 cid, mw.2) in (r, (at_key mw.1 cid mg, w')).

(** ** Run alone they are the operations of Gateway.v *)

Section Zoomed.
Context {V W : Type}.

Lemma zoomed_seq {A B} (p : task (V * W) A) (f : A → task (V * W) B) (m : M W A) g :
  run_alone p ≡ₘ zoom_r m → (∀ a, run_alone (f a) ≡ₘ zoom_r (g a)) → run_alone (p ≫= f) ≡ₘ zoom_r (m ≫= g).
Proof.
  intros Hp Hf [v w]. rewrite (alone_bind p f (v, w)). unfold mbind, M_bind. rewrite (Hp (v, w)). unfold zoom_r. simpl.
  destruct (m w) as [[a|e] w']; [apply Hf|done].
Qed.

Lemma zoomed_try {A} (p : task (V * W) A) h (m : M W A) k :
  run_alone p ≡ₘ zoom_r m → (∀ e, run_alone (h e) ≡ₘ zoom_r (k e)) → run_alone (try_task p h) ≡ₘ zoom_r (try_except m k).
Proof.
  intros Hp Hh [v w]. rewrite (alone_try p h (v, w)). unfold try_except. rewrite (Hp (v, w)). unfold zoom_r. simpl.
  destruct (m w) as [[a|e] w']; [done|]. destruct (is_Exception e); [apply Hh|done].
Qed.

Lemma zoomed_when c (p : task (V * W) unit) (m : M W unit) :
  run_alone p ≡ₘ zoom_r m → run_alone (when_task c p) ≡ₘ zoom_r (when c m).
Proof. by destruct c; [|intros _ [v w]]. Qed.

Lemma zoomed_call {A} (m : M W A) : run_alone (await_call (zoom_r m)) ≡ₘ zoom_r (S:=V) m.
Proof. apply alone_await. Qed.
Lemma zoomed_ret {A} (a : A) : run_alone (mret a) ≡ₘ zoom_r (S:=V) (W:=W) (mret a).
Proof. by intros [v w]. Qed.
Lemma zoomed_fail {A} e : run_alone (fail e) ≡ₘ zoom_r (S:=V) (W:=W) (A:=A) (raise e).
Proof. by intros [v w]. Qed.
Lemma zoomed_pure {A} (r : res A) : run_alone (pure_res r) ≡ₘ zoom_r (S:=V) (W:=W) (lift_res r).
Proof. by intros [v w]. Qed.
End Zoomed.

(** Walk a task beside the call of the world it stands for. *)
Ltac solve_zoomed :=
  repeat first
    [ progress intros
    | solve [eauto]
    | apply zoomed_call
    | apply zoomed_ret
    | apply zoomed_fail
    | apply zoomed_pure
    | apply zoomed_seq
    | apply zoomed_try
    | apply zoomed_when
    | match goal with
      | |- run_alone (match ?x with _ => _ end) ≡ₘ _ => destruct x
      end ].

Section Sequential.
Context {W Sock : Type} `{PyRepr} (R : RedisOps W) (S : SocketOps W Sock) (instance_id : string).
Context (utcnow : M W datetime) (time_ : M W float) (json_loads : string → res pyval).
Context (verify : string → option string → M W vdict).
Abbreviation Own := (Manager Sock * W)%type.

Lemma message_alone l ws cid user claims msg :
  run_alone (handle_message_task R S utcnow time_ l ws cid user claims msg) ≡ₘ
  zoom_r (handle_message R S utcnow time_ l ws cid user claims msg).
Proof.
  unfold handle_message_task, handle_message, check_message_rate_task, window_task, check_message_rate,
    touch_heartbeat_task, touch_heartbeat, subscribe_user_task, subscribe_user, unsubscribe_user_task,
    unsubscribe_user, check_subscription_limit_task, check_subscription_limit.
  cbn [when when_task]. solve_zoomed.
Qed.

Lemma loop_alone n l ws cid user claims :
  run_alone (message_loop_task R S utcnow time_ n l ws cid user claims) ≡ₘ
  zoom_r (message_loop R S utcnow time_ n l ws cid user claims).
Proof. pose proof message_alone. induction n; cbn [message_loop_task message_loop]; solve_zoomed. Qed.

Lemma connection_limit_alone l ip :
  run_alone (check_connection_limit_task (Sock:=Sock) R time_ l ip) ≡ₘ zoom_r (check_connection_limit R time_ l ip).
Proof. unfold check_connection_limit_task, window_task, check_connection_limit. solve_zoomed. Qed.

Lemma monitor_alone ws cid :
  run_alone (heartbeat_monitor_task R S utcnow ws cid) ≡ₘ zoom_r (heartbeat_monitor_once R S utcnow ws cid).
Proof. unfold heartbeat_monitor_task, heartbeat_monitor_once. solve_zoomed. Qed.

Lemma revalidate_alone ws token fp interval :
  run_alone (revalidate_once_task S verify ws token fp interval) ≡ₘ zoom_r (revalidate_once S verify ws token fp interval).
Proof. unfold revalidate_once_task, revalidate_once. solve_zoomed. Qed.

Lemma listen_alone : run_alone (listen_once_task R S json_loads) ≡ₘ listen_once R S json_loads.
Proof. unfold listen_once_task, listen_once, broadcast_task, broadcast_to_user, send_local_task, send_local. solve_alone. Qed.

Lemma cleanup_alone cid : run_alone (session_cleanup_task R S cid) ≡ₘ session_cleanup R S cid.
Proof.
  unfold session_cleanup_task, session_cleanup, disconnect_task, manager_disconnect, stop_task, manager_stop. solve_alone.
Qed.

Lemma session_alone n l ws ip token fp cid :
  run_alone (session_task R S instance_id utcnow time_ verify n l ws ip token fp cid) ≡ₘ
  session R S instance_id utcnow time_ verify n l ws ip token fp cid.
Proof.
  pose proof loop_alone. pose proof connection_limit_alone.
  unfold session_task, session, start_task, manager_start, connect_task, manager_connect. solve_alone.
Qed.

Lemma failed_alone ws e : run_alone (session_failed_task (W:=W) S ws e) ≡ₘ session_failed S ws e.
Proof. unfold session_failed_task, session_failed. solve_alone. Qed.

(** The endpoint draws the connection's id and runs the session. *)
Lemma connection_alone n l ws ip token fp uuid4 :
  (cid ← zoom_r uuid4; run_alone (connection_task R S instance_id utcnow time_ verify n l ws ip token fp cid)) ≡ₘ
  websocket_endpoint R S instance_id utcnow time_ verify n l ws ip token fp uuid4.
Proof.
  intros mw. unfold websocket_endpoint, mbind, M_bind. destruct (zoom_r uuid4 mw) as [[cid|e] mw']; [|done].
  apply alone_exit; [|apply cleanup_alone..]. apply alone_handler; [apply session_alone|apply failed_alone].
Qed.
End Sequential.

(** ** Whoever is listed is connected *)

(** A job of the process, with the manager of its connection. *)
Definition process_task {W Sock} `{PyRepr} (R : RedisOps W) (S : SocketOps W Sock) instance_id utcnow time_ json_loads verify
    (j : Job) : task (Process Sock W) unit :=
  focus (with_manager (job_id j)) (job_task R S instance_id utcnow time_ json_loads verify j).

Definition session_id {Sock} (j : Job (Sock:=Sock)) : option string :=
  match j with Session _ _ _ _ _ _ cid => Some cid | _ => None end.

Section Presence.
Context {W Sock : Type} `{PyRepr} (view : W → Store) (R : RedisOps W) (S : SocketOps W Sock) (instance_id : string).
Context `{!StoreLaws view R S} (utcnow : M W datetime) (time_ : M W float) (json_loads : string → res pyval).
Context (verify : string → option string → M W vdict).
Context (clock_quiet : quiet view utcnow) (time_quiet : quiet view time_) (verify_quiet : ∀ t fp, quiet view (verify t fp)).

(** A connection [cid] and a user [u]: the user that the connection's entry names,
    and whether the connection is in the user's set. *)
Section Row.
Context (u cid : string).

Definition row (s : Store) : option string * bool :=
  (dget (hashes s (conn_key cid)) "user_id", existsb (String.eqb cid) (sets s (user_conns_key u))).
Definition here (mw : Manager Sock * W) : option string * bool := row (view mw.2).
Abbreviation off := (keeps_off here).

Lemma row_equiv s t : s ≡ t → row s = row t.
Proof. intros (Hh & Hs & _). unfold row. by rewrite Hh, Hs. Qed.

Lemma listed_row s : (row s).2 = true ↔ In cid (sets s (user_conns_key u)).
Proof.
  simpl. rewrite existsb_exists. split; [intros (x & Hin & ->%String.eqb_eq); done|].
  intros Hin. exists cid. by rewrite String.eqb_refl.
Qed.

Lemma conn_key_inj c : conn_key c = conn_key cid → c = cid.
Proof. intros E. by apply str_app_inj in E. Qed.
Lemma user_conns_key_inj v : user_conns_key v = user_conns_key u → v = u.
Proof. intros E. apply str_app_inj in E. by apply str_app_inj_l in E. Qed.

(** Commands that leave the row alone. *)
Lemma row_other_entry c m s : c ≠ cid → row (st_hset (conn_key c) m s) = row s.
Proof. intros Hc. unfold row. cbn. rewrite at_key_ne; [done|]. intros E. apply Hc. symmetry in E. by apply conn_key_inj in E. Qed.

Lemma row_touch c t s : row (st_hset (conn_key c) [("last_heartbeat", t)] s) = row s.
Proof.
  unfold row. cbn. unfold at_key. destruct (decide _) as [E|]; [|done]. unfold dupdate. simpl.
  by rewrite dget_dset_ne, E.
Qed.

Lemma existsb_set_add l x : existsb (String.eqb cid) (set_add l x) = existsb (String.eqb cid) l || String.eqb cid x.
Proof.
  unfold set_add. destruct (existsb (String.eqb x) l) eqn:E; [|by rewrite existsb_app; simpl; rewrite orb_false_r].
  destruct (String.eqb_spec cid x) as [->|]; [|by rewrite orb_false_r]. by rewrite E.
Qed.

Lemma existsb_set_remove l x : existsb (String.eqb cid) (set_remove l x) = existsb (String.eqb cid) l && negb (String.eqb cid x).
Proof.
  unfold set_remove. induction l as [|y l IH]; [done|]. simpl. destruct (String.eqb_spec y x) as [->|Hy]; simpl; rewrite IH.
  - destruct (String.eqb_spec cid x); simpl; [by rewrite !andb_false_r|done].
  - destruct (String.eqb_spec cid y) as [->|]; simpl; [|done]. by apply String.eqb_neq in Hy as ->.
Qed.

Lemma row_other_member k c s : c ≠ cid → row (st_sadd k [c] s) = row s.
Proof.
  intros Hc. unfold row. cbn. unfold at_key. destruct (decide _) as [<-|]; [|done].
  rewrite existsb_set_add. apply not_eq_sym, String.eqb_neq in Hc as ->. by rewrite orb_false_r.
Qed.

Lemma row_other_removed k c s : c ≠ cid → row (st_srem k [c] s) = row s.
Proof.
  intros Hc. unfold row. cbn. unfold at_key. destruct (decide _) as [<-|]; [|done].
  rewrite existsb_set_remove. apply not_eq_sym, String.eqb_neq in Hc as ->. by rewrite andb_true_r.
Qed.

Lemma row_topics v ms s : row (st_sadd (subs_key v) ms s) = row s ∧ row (st_srem (subs_key v) ms s) = row s.
Proof. unfold row. cbn. by rewrite !at_key_ne by apply conns_not_subs. Qed.

Lemma row_other_deleted c s : c ≠ cid → row (st_delete (conn_key c) s) = row s.
Proof.
  intros Hc. unfold row. cbn. rewrite !at_key_ne; [done| |]; [apply not_eq_sym, conn_not_conns|].
  intros E. apply Hc. symmetry in E. by apply conn_key_inj in E.
Qed.

(** *** Tasks that leave the row alone *)

Lemma off_quiet {A} (m : M W A) : quiet view m → off (await_call (zoom_r m)).
Proof. intros Hm. apply keeps_off_call. intros [mg w]. unfold here. simpl. specialize (Hm w). destruct (m w). by apply row_equiv. Qed.

Lemma off_acts {A} (m : M W A) f ans : acts view m f ans → (∀ s, row (f s) = row s) → off (await_call (zoom_r m)).
Proof.
  intros Hm Hf. apply keeps_off_call. intros [mg w]. unfold here. simpl. pose proof (acts_cases view _ _ _ w Hm) as Hc.
  destruct (m w) as [r w']. simpl in *. destruct Hc as [E|E]; apply row_equiv in E; [done|by rewrite Hf in E].
Qed.

Lemma off_hand {A} (m : M (Manager Sock * W) A) : (∀ mw, (m mw).2.2 = mw.2) → off (await_call m).
Proof. intros Hm. apply keeps_off_call. intros mw. unfold here. by rewrite Hm. Qed.

Lemma off_read {A} (m : M W A) ans : acts view m id ans → off (await_call (zoom_r m)).
Proof. intros Hm. by eapply off_acts. Qed.

Lemma off_pipeline l key now : off (await_call (zoom_r (pipeline_execute R (window_commands l key now)))).
Proof using StoreLaws0. eapply off_acts; [apply law_pipeline|]. done. Qed.

Lemma off_touch c : off (touch_heartbeat_task R utcnow c).
Proof using StoreLaws0 clock_quiet.
  unfold touch_heartbeat_task. apply keeps_off_bind; [by apply off_quiet|]. intros t.
  eapply off_acts; [apply law_hset|]. intros s. apply row_touch.
Qed.

Lemma off_subscribe v topics : off (subscribe_user_task R v topics).
Proof using StoreLaws0.
  unfold subscribe_user_task. apply keeps_off_bind; [|intros; apply off_quiet, law_expire].
  destruct topics; [done|]. eapply off_acts; [apply law_sadd|]. intros st. apply row_topics.
Qed.

Lemma off_unsubscribe v topics : off (unsubscribe_user_task R v topics).
Proof using StoreLaws0.
  unfold unsubscribe_user_task. destruct topics; [done|]. eapply off_acts; [apply law_srem|]. intros st. apply row_topics.
Qed.

Ltac solve_off :=
  repeat first
    [ progress intros
    | done
    | match goal with H : context [keeps_off] |- _ => solve [apply H; auto] end
    | apply off_quiet; solve [eauto with py_run]
    | apply off_pipeline
    | apply off_touch
    | apply off_subscribe
    | apply off_unsubscribe
    | eapply off_read; solve [apply law_scard | apply law_smembers | apply law_hgetall | apply law_hget]
    | apply off_hand; intros [? ?]; reflexivity
    | apply keeps_off_bind
    | apply keeps_off_try
    | apply keeps_off_for
    | match goal with
      | |- keeps_off _ (match ?x with _ => _ end) => destruct x
      | |- keeps_off _ (when_task ?c _) => destruct c; unfold when_task
      end ].

Lemma message_off l ws c v claims msg : off (handle_message_task R S utcnow time_ l ws c v claims msg).
Proof using StoreLaws0 clock_quiet time_quiet.
  unfold handle_message_task, check_message_rate_task, window_task, check_subscription_limit_task. solve_off.
Qed.

Lemma loop_off n l ws c v claims : off (message_loop_task R S utcnow time_ n l ws c v claims).
Proof using StoreLaws0 clock_quiet time_quiet.
  pose proof message_off as Hm. induction n; cbn [message_loop_task]; solve_off.
Qed.

Lemma turns_off n turn : off turn → off (turns n turn).
Proof. intros Ht. induction n; cbn [turns]; solve_off. Qed.

Lemma monitor_off n ws c : off (turns n (heartbeat_monitor_task R S utcnow ws c)).
Proof using StoreLaws0 clock_quiet. apply turns_off. unfold heartbeat_monitor_task. solve_off. Qed.

Lemma revalidation_off n ws token fp interval : off (turns n (revalidate_once_task S verify ws token fp interval)).
Proof using StoreLaws0 verify_quiet. apply turns_off. unfold revalidate_once_task. solve_off. Qed.

Lemma listener_off n : off (turns n (listen_once_task R S json_loads ;; mret true)).
Proof using StoreLaws0. apply turns_off. unfold listen_once_task, broadcast_task, send_local_task. solve_off. Qed.

Lemma stop_off : off (stop_task R S).
Proof using StoreLaws0. unfold stop_task. solve_off. Qed.

Lemma failed_off ws e : off (session_failed_task S ws e).
Proof using StoreLaws0. unfold session_failed_task. solve_off. Qed.

(** The session of another connection. *)
Lemma connect_off ws v c session : c ≠ cid → off (connect_task R S instance_id utcnow ws v c session).
Proof using StoreLaws0 clock_quiet.
  intros Hc. unfold connect_task. solve_off.
  - eapply off_acts; [apply law_hset|]. intros st. by apply row_other_entry.
  - eapply off_acts; [apply law_sadd|]. intros st. by apply row_other_member.
Qed.

Lemma disconnect_off c : c ≠ cid → off (disconnect_task R c).
Proof using StoreLaws0.
  intros Hc. unfold disconnect_task. solve_off.
  - eapply off_acts; [apply law_srem|]. intros st. by apply row_other_removed.
  - eapply off_acts; [apply law_delete|]. intros st. by apply row_other_deleted.
Qed.

Lemma before_session_off : off (start_task R S).
Proof using StoreLaws0. unfold start_task. solve_off. Qed.

Lemma authenticate_off token fp : off (await_call (zoom_r (authenticate_websocket verify token fp))).
Proof using verify_quiet.
  apply off_quiet. intros w. destruct token as [t|]; [|done]. simpl. destruct (String.eqb t ""); [done|apply verify_quiet].
Qed.

Lemma connection_off n l ws ip token fp c :
  c ≠ cid → off (connection_task R S instance_id utcnow time_ verify n l ws ip token fp c).
Proof using StoreLaws0 clock_quiet time_quiet verify_quiet.
  intros Hc. pose proof loop_off as Hl. pose proof (disconnect_off c Hc) as Hd. pose proof stop_off as Hs.
  pose proof before_session_off as Hb. pose proof authenticate_off as Ha. pose proof failed_off as Hf.
  pose proof (λ ws v session, connect_off ws v c session Hc) as Hco.
  unfold connection_task. apply keeps_off_exit; unfold session_cleanup_task, session_task,
    check_connection_limit_task, window_task; solve_off.
Qed.

(** *** The session of the connection itself *)

(** The user's set names the connection only if its entry names the user. *)
Definition tidy (v : option string * bool) : Prop := v.2 = true → v.1 = Some u.
Definition unlisted (v : option string * bool) : Prop := v.2 = false.

Lemma unlisted_tidy v : unlisted v → tidy v.
Proof. unfold unlisted, tidy. congruence. Qed.

(** The entry is written, or the call failed and the connection is not listed. *)
Lemma entry_step v session now x :
  unlisted x →
  wp here (λ r x', match r with Ok _ => x' = (Some v, false) | Raise _ => unlisted x' end)
    (await_call (zoom_r (hset R (conn_key cid) (connection_entry instance_id v cid session now)))) x.
Proof using StoreLaws0.
  intros Hx. apply wp_call. intros [mg w] Hw. unfold here in *. simpl in *.
  pose proof (law_hset (view:=view) (R:=R) (S:=S) (conn_key cid) (connection_entry instance_id v cid session now) w) as Hl.
  destruct (hset R _ _ w) as [[[]|e] w1]; simpl in *.
  - destruct Hl as [_ E]. apply row_equiv in E. rewrite E. subst x. unfold unlisted, row in *. cbn in *.
    rewrite Hx, at_key_eq. f_equal. unfold dupdate. simpl. by rewrite !dget_dset_ne, dget_dset_eq by done.
  - subst x. destruct Hl as [E|E]; apply row_equiv in E; rewrite E; exact Hx.
Qed.

(** The connection is put into the set of the user that its entry names. *)
Lemma listing_step v :
  wp here (λ _, tidy) (await_call (zoom_r (sadd R (user_conns_key v) [cid]))) (Some v, false).
Proof using StoreLaws0.
  apply wp_call. intros [mg w] Hw. unfold here in *. simpl in *.
  pose proof (acts_cases view _ _ _ w (law_sadd (view:=view) (R:=R) (S:=S) (user_conns_key v) [cid])) as Hs.
  destruct (sadd R _ _ w) as [r w1]. simpl in *. destruct Hs as [E|E]; apply row_equiv in E; rewrite E; [by rewrite Hw|].
  unfold row in *. cbn in *. injection Hw as Hu Hm. unfold tidy. cbn. rewrite Hu. unfold at_key.
  destruct (decide _) as [K|]; [|by rewrite Hm]. symmetry in K. by apply user_conns_key_inj in K as ->.
Qed.

Lemma connect_tidy ws v session x :
  unlisted x → wp here (λ _, tidy) (connect_task R S instance_id utcnow ws v cid session) x.
Proof using StoreLaws0 clock_quiet.
  intros Hx. pose proof (unlisted_tidy _ Hx) as Ht. unfold connect_task.
  apply wp_off_bind; [apply off_quiet, law_accept| |done]. intros _.
  apply wp_off_bind; [by apply off_quiet| |done]. intros t.
  apply wp_off_bind; [by apply off_hand| |done]. intros _.
  apply wp_bind. eapply wp_mono; [|by apply entry_step]. intros [[]|e] x'; [intros ->|by intros ?%unlisted_tidy].
  apply wp_off_bind; [apply off_quiet, law_expire| |by intros _ [=]]. intros _. apply listing_step.
Qed.

(** Redis answers the two commands that take a connection out of its user's set. *)
Context (hget_answers : ∀ k f w, is_ok (hget R k f w).1 = true) (srem_answers : ∀ k ms w, is_ok (srem R k ms w).1 = true).
Context (u_named : u ≠ "").

Lemma removal_step v x :
  tidy x → x.1 = Some v →
  wp here (λ _, unlisted) (when_task (negb (String.eqb v "")) (await_call (zoom_r (srem R (user_conns_key v) [cid])))) x.
Proof using StoreLaws0 srem_answers u_named.
  intros Ht Hv. assert (Hother : v ≠ u → unlisted x).
  { intros Hne. unfold unlisted. destruct (x.2) eqn:E; [|done]. specialize (Ht E). congruence. }
  destruct (String.eqb_spec v "") as [->|_]; [by apply Hother, not_eq_sym|].
  apply wp_call. intros [mg w] Hw. unfold here in *. simpl in *. specialize (srem_answers (user_conns_key v) [cid] w).
  pose proof (law_srem (view:=view) (R:=R) (S:=S) (user_conns_key v) [cid] w) as Hs.
  destruct (srem R _ _ w) as [[[]|e] w1]; [|done]. simpl. destruct Hs as [_ E]. apply row_equiv in E. rewrite E.
  subst x. unfold unlisted, row in *. cbn in *. unfold at_key. destruct (decide _) as [K|K].
  - rewrite existsb_set_remove, String.eqb_refl. apply andb_false_r.
  - apply Hother. by intros ->.
Qed.

Lemma deletion_step x : unlisted x → wp here (λ _, unlisted) (await_call (zoom_r (redis_delete R (conn_key cid)))) x.
Proof using StoreLaws0.
  intros Hx. apply wp_call. intros [mg w] Hw. unfold here in *. simpl in *.
  pose proof (acts_cases view _ _ _ w (law_delete (view:=view) (R:=R) (S:=S) (conn_key cid))) as Hd.
  destruct (redis_delete R _ w) as [r w1]. simpl in *. subst x.
  destruct Hd as [E|E]; apply row_equiv in E; rewrite E; [exact Hx|].
  unfold unlisted, row in *. cbn in *. by rewrite at_key_ne by apply not_eq_sym, conn_not_conns.
Qed.

Lemma lookup_step x :
  wp here (λ r x', r = Ok x.1 ∧ x' = x) (await_call (zoom_r (hget R (conn_key cid) "user_id"))) x.
Proof using StoreLaws0 hget_answers.
  apply wp_call. intros [mg w] Hw. unfold here in *. simpl in *. specialize (hget_answers (conn_key cid) "user_id" w).
  pose proof (law_hget (view:=view) (R:=R) (S:=S) (conn_key cid) "user_id" w) as Hg.
  destruct (hget R _ _ w) as [[found|e] w1]; [|done]. simpl. destruct Hg as [-> E]. apply row_equiv in E. rewrite E.
  by subst x.
Qed.

Lemma disconnect_unlists x : tidy x → wp here (λ _, unlisted) (disconnect_task R cid) x.
Proof using StoreLaws0 hget_answers srem_answers u_named.
  intros Ht. unfold disconnect_task. apply wp_bind. eapply wp_mono; [|apply lookup_step]. intros r x0 [-> ->].
  assert (Hend : ∀ x', unlisted x' → wp here (λ _ : res (), unlisted)
    (await_call (zoom_r (redis_delete R (conn_key cid))) ;; await_call (release cid)) x').
  { intros x' Hx'. apply wp_bind. eapply wp_mono; [|by apply deletion_step]. intros [[]|e] x2 Hx2; [|done].
    eapply wp_mono; [|apply wp_off; by apply off_hand]. by intros r x3 ->. }
  apply wp_bind. destruct x.1 as [v|] eqn:Ef.
  - eapply wp_mono; [|by apply removal_step]. intros [[]|e] x' Hx'; [by apply Hend|done].
  - apply Hend. unfold unlisted. destruct x.2 eqn:E2; [|done]. specialize (Ht E2). congruence.
Qed.

Lemma cleanup_unlists x : tidy x → wp here (λ _, unlisted) (session_cleanup_task R S cid) x.
Proof using StoreLaws0 hget_answers srem_answers u_named.
  intros Ht. unfold session_cleanup_task. apply wp_try.
  assert (Hret : ∀ (r : res ()) x', unlisted x' →
    match r with
    | Raise e => if is_Exception e then wp here (λ _, unlisted) (mret tt : task (Manager Sock * W) ()) x' else unlisted x'
    | _ => unlisted x'
    end) by (intros [[]|e] x' Hx'; [done|by destruct (is_Exception e)]).
  apply wp_bind. eapply wp_mono; [|by apply disconnect_unlists]. intros [[]|e] x' Hx'; [|by apply (Hret (Raise e))].
  apply wp_off_bind; [apply stop_off| |intros e; by apply (Hret (Raise e))]. intros _.
  eapply wp_mono; [|apply wp_off, off_quiet, law_redis_close]. intros r x2 ->. by apply Hret.
Qed.

Lemma connection_unlists n l ws ip token fp x :
  unlisted x → wp here (λ _, unlisted) (connection_task R S instance_id utcnow time_ verify n l ws ip token fp cid) x.
Proof using StoreLaws0 clock_quiet time_quiet verify_quiet hget_answers srem_answers u_named.
  intros Hx. pose proof (unlisted_tidy _ Hx) as Ht. unfold connection_task.
  apply wp_exit. eapply (wp_mono _ (λ _, tidy)); [by intros [] x' Hx'; apply cleanup_unlists|].
  apply wp_try. eapply (wp_mono _ (λ _, tidy)).
  { intros [[]|e] x' Hx'; [done|]. destruct (is_Exception e); [|done].
    eapply wp_mono; [|apply wp_off, failed_off]. by intros r x2 ->. }
  unfold session_task.
  apply wp_off_bind; [unfold check_connection_limit_task, window_task; solve_off| |done]. intros [].
  2:{ eapply wp_mono; [|apply wp_off, off_quiet, law_close]. by intros r x2 ->. }
  apply wp_off_bind; [apply authenticate_off| |done]. intros claims.
  destruct (vindex claims "sub") as [sub|e]; [|done]. change (pure_res (Ok sub) ≫= ?f) with (f sub). cbv zeta beta.
  apply wp_off_bind; [apply before_session_off| |done]. intros _.
  apply wp_bind. eapply wp_mono; [|by apply connect_tidy]. intros [[]|e] x' Hx'; [|done].
  eapply wp_mono; [|apply wp_off; pose proof loop_off; solve_off]. by intros r x2 ->.
Qed.
End Row.

Lemma session_ids_differ (jobs : list (Job (Sock:=Sock))) i k j j' cid :
  NoDup (omap session_id jobs) → jobs !! i = Some j → jobs !! k = Some j' → k ≠ i →
  session_id j = Some cid → session_id j' ≠ Some cid.
Proof.
  revert i k. induction jobs as [|j0 jobs IH]; intros i k Hd Hi Hk Hne Hj Hj'; [done|].
  assert (Hin : ∀ m j1, jobs !! m = Some j1 → session_id j1 = Some cid → cid ∈ omap session_id jobs).
  { intros m j1 Hm Hs. apply list_elem_of_omap. exists j1. split; [|done]. by apply list_elem_of_lookup_2 in Hm. }
  simpl in Hd. destruct i as [|i], k as [|k]; simpl in *; [done| | |].
  - injection Hi as ->. rewrite Hj in Hd. apply NoDup_cons in Hd as [Hd _]. by eapply Hd, Hin.
  - injection Hk as ->. rewrite Hj' in Hd. apply NoDup_cons in Hd as [Hd _]. by eapply Hd, Hin.
  - apply (IH i k); try done; [|congruence]. destruct (session_id j0); [by apply NoDup_cons in Hd as [_ Hd]|done].
Qed.

Lemma with_manager_own cid X (m : M (Manager Sock * W) X) (mw : Process Sock W) :
  let get (mw : Process Sock W) := (mw.1 cid, mw.2) in
  (with_manager cid X m mw).1 = (m (get mw)).1 ∧ get (with_manager cid X m mw).2 = (m (get mw)).2.
Proof. unfold with_manager. destruct (m (mw.1 cid, mw.2)) as [r [mg w']]. simpl. by rewrite at_key_eq. Qed.

Abbreviation process := (process_task R S instance_id utcnow time_ json_loads verify).

Lemma process_off u cid j : session_id j ≠ Some cid → keeps_off (λ mw, row u cid (view mw.2)) (process j).
Proof using StoreLaws0 clock_quiet time_quiet verify_quiet.
  intros Hj. apply (focus_off _ (λ mw, (mw.1 (job_id j), mw.2)) (here u cid) (with_manager_own (job_id j))).
  destruct j as [n l ws ip token fp c|n ws c|n ws token fp interval c|n c]; cbn [job_task].
  - apply connection_off. intros ->. by apply Hj.
  - apply monitor_off.
  - apply revalidation_off.
  - apply listener_off.
Qed.

End Presence.

(** ** Topics under every schedule *)

Section Topics.
Context {W Sock : Type} `{PyRepr} (view : W → Store) (R : RedisOps W) (S : SocketOps W Sock) (instance_id : string).
Context `{!StoreLaws view R S} (utcnow : M W datetime) (time_ : M W float) (json_loads : string → res pyval).
Context (verify : string → option string → M W vdict).
Context (clock_quiet : quiet view utcnow) (time_quiet : quiet view time_) (verify_quiet : ∀ t fp, quiet view (verify t fp)).
Section Fine.
Context (w0 : Store).

Definition topics_fine (mw : Manager Sock * W) : Prop := only_permitted view w0 mw.2.
Abbreviation fine := (steps_keep topics_fine (λ _, True)).

Lemma fine_call {A} (m : M W A) : preserves (only_permitted view w0) m → fine (await_call (zoom_r m)).
Proof. intros Hm. apply steps_keep_call. apply (preserves_world_r (only_permitted view w0) m Hm). Qed.

Lemma fine_quiet {A} (m : M W A) : quiet view m → fine (await_call (zoom_r m)).
Proof. intros Hm. by apply fine_call, quiet_permitted. Qed.

Lemma fine_read {A} (m : M W A) ans : acts view m id ans → fine (await_call (zoom_r m)).
Proof. intros Hm. apply fine_call. by eapply id_permitted. Qed.

Lemma fine_hand {A} (m : M (Manager Sock * W) A) : (∀ mw, (m mw).2.2 = mw.2) → fine (await_call m).
Proof. intros Hm. apply steps_keep_call. intros mw Hmw. unfold topics_fine. by rewrite Hm. Qed.

Ltac solve_fine :=
  repeat first
    [ progress intros
    | done
    | match goal with H : context [steps_keep] |- _ => solve [apply H; eauto] end
    | apply fine_quiet; solve [eauto with py_run]
    | apply fine_call; first [apply (hset_permitted view R S) | apply (srem_permitted view R S)
                             | apply (delete_permitted view R S) | apply (conns_permitted view R S)
                             | apply (pipeline_permitted view R S)]
    | eapply fine_read; solve [apply law_scard | apply law_smembers | apply law_hgetall | apply law_hget]
    | apply fine_hand; intros [? ?]; reflexivity
    | apply steps_keep_pure
    | apply steps_keep_seq
    | apply steps_keep_when
    | apply steps_keep_for
    | match goal with
      | |- steps_keep _ _ (match ?x with _ => _ end) => destruct x
      | |- steps_keep _ _ (try_task _ _) => eapply (steps_keep_try _ (λ _, True))
      end ].

Lemma message_fine l ws cid claims sub msg :
  vindex claims "sub" = Ok sub → fine (handle_message_task R S utcnow time_ l ws cid (py_str sub) claims msg).
Proof using StoreLaws0 clock_quiet time_quiet.
  intros Hsub.
  assert (Hs : ∀ topic, permitted (py_str sub) topic = true → fine (subscribe_user_task R (py_str sub) [topic])).
  { intros topic Ht. unfold subscribe_user_task. cbn [when_task]. apply steps_keep_seq; [|intros; apply fine_quiet, law_expire].
    apply fine_call. eapply acts_permitted; [apply law_sadd|]. intros st user t. cbn. unfold at_key.
    destruct (decide _) as [E|]; [|by left]. apply str_app_inj in E as ->. intros [?| ->]%In_set_add; [by left|by right]. }
  unfold handle_message_task, check_message_rate_task, window_task, touch_heartbeat_task, unsubscribe_user_task,
    check_subscription_limit_task.
  apply steps_keep_seq; [solve_fine|]. intros [|]; cbn [negb]; [|solve_fine].
  destruct msg as [| | | | | | | |d]; try done. cbv zeta. rewrite (topic_allowed_permitted _ _ _ Hsub).
  destruct (match vget d "event" with VStr s => String.eqb s "heartbeat" | _ => false end); [solve_fine|].
  destruct (match vget d "event" with VStr s => String.eqb s "subscribe" | _ => false end); [|solve_fine].
  destruct (String.eqb _ "").
  { match goal with |- steps_keep _ _ (_ ≫= ?f) => change (fine (f false)) end. cbn [negb]. solve_fine. }
  apply steps_keep_pure. intros allowed [= <-].
  destruct (permitted _ _) eqn:Hp; cbn [negb]; [|solve_fine]. apply steps_keep_seq; [by apply Hs|]. solve_fine.
Qed.

Lemma connection_fine n l ws ip token fp cid :
  fine (connection_task R S instance_id utcnow time_ verify n l ws ip token fp cid).
Proof using StoreLaws0 clock_quiet time_quiet verify_quiet.
  assert (Hclean : fine (session_cleanup_task R S cid)).
  { unfold session_cleanup_task, disconnect_task, stop_task. solve_fine. }
  assert (Hloop : ∀ claims sub, vindex claims "sub" = Ok sub →
    fine (message_loop_task R S utcnow time_ n l ws cid (py_str sub) claims)).
  { intros claims sub Hsub. pose proof (λ msg, message_fine l ws cid claims sub msg Hsub) as Hm.
    induction n; cbn [message_loop_task]; solve_fine. }
  unfold connection_task. apply steps_keep_exit; [|done|done].
  eapply (steps_keep_try _ (λ _, True)); [|done| |done]; [|intros e _; unfold session_failed_task; solve_fine].
  unfold session_task, check_connection_limit_task, window_task, start_task, connect_task.
  apply steps_keep_seq; [solve_fine|]. intros [|]; cbn [negb]; [|solve_fine].
  apply steps_keep_seq; [apply fine_quiet; intros w; destruct token as [t|]; [|done]; simpl; destruct (String.eqb t ""); [done|apply verify_quiet]|].
  intros claims. apply steps_keep_pure. intros sub Hsub. specialize (Hloop claims sub Hsub). solve_fine.
Qed.

Lemma turns_fine n turn : fine turn → fine (turns n turn).
Proof. intros Ht. induction n; cbn [turns]; solve_fine. Qed.

Lemma job_fine j : fine (job_task R S instance_id utcnow time_ json_loads verify j).
Proof using StoreLaws0 clock_quiet time_quiet verify_quiet.
  destruct j as [n l ws ip token fp c|n ws c|n ws token fp interval c|n c]; cbn [job_task]; [apply connection_fine|apply turns_fine..].
  - unfold heartbeat_monitor_task. solve_fine.
  - unfold revalidate_once_task. solve_fine.
  - unfold listen_once_task, broadcast_task, send_local_task. solve_fine.
Qed.
End Fine.

(** C19. Topics under every schedule.  Any number of sessions, monitors, revalidations
    and listeners run together over one Redis, whatever their clients send, whatever
    calls fail, and however the event loop switches between them: at every moment,
    each topic in a user's subscription set was there at the beginning or is
    permitted to that user. *)
Theorem concurrent_sessions_add_permitted_topics jobs schedule (ms : string → Manager Sock) w :
  let c := run_schedule schedule
    (spawn (process_task R S instance_id utcnow time_ json_loads verify <$> jobs) (ms, w)) in
  ∀ user topic, In topic (sets (view (shared c).2) (subs_key user)) →
    In topic (sets (view w) (subs_key user)) ∨ permitted user topic = true.
Proof using StoreLaws0 clock_quiet time_quiet verify_quiet.
  apply (schedule_keeps (λ mw : Process Sock W, only_permitted view (view w) mw.2)); [by left|].
  apply Forall_fmap, Forall_true. intros j.
  apply (focus_steps _ (λ mw, (mw.1 (job_id j), mw.2)) (with_manager_own (job_id j)) (topics_fine (view w))).
  apply job_fine.
Qed.
End Topics.

(** ** Two sessions in memory *)

Definition one_message : WebSocketRateLimiter := new_limiter 20 600.
Definition demo_jobs : list (Job (Sock:=string)) :=
  [Session 1 one_message "socket" None (Some "token") None "c"; Session 1 one_message "other" None (Some "token") None "d";
   Monitor 1 "socket" "c"; Listener 1 "c"].
Definition two_clients : DemoGate := {|
  g_view := empty_store; g_times := List.map f_of_Z [100; 101; 102; 103; 104; 105]; g_now := DT 2026 2 12 9 0 0 0;
  g_inbox := [VDict [("event", VStr "subscribe"); ("topic", VStr "user:1")];
              VDict [("event", VStr "subscribe"); ("topic", VStr "user:2")]]; g_sent := [] |}.
#[local] Instance whole_seconds : PyRepr :=
  {| repr_other v := match v with VFloat f => match f_trunc f with Some z => str_Z z | None => "" end | _ => "" end |}.
Definition demo_process : Job → task (Process string DemoGate) unit :=
  process_task gate_redis demo_socket "api_gateway" demo_utcnow demo_time (λ _, Ok VNone) demo_verify.

(** Both sessions connect, the first ends, the second goes on. *)
Definition first_ends : list nat := (List.repeat 0 14 ++ List.repeat 1 14 ++ [2; 3] ++ List.repeat 0 40)%nat%list.
Definition after_first : pool (Process string DemoGate) unit :=
  run_schedule first_ends (spawn (demo_process <$> demo_jobs) (λ _, new_manager, two_clients)).


Lemma concurrent_topics_witness :
  sets (g_view (shared after_first).2) (subs_key "1") = ["user:1"] ∧
  ∀ topic, In topic (sets (g_view (shared after_first).2) (subs_key "1")) → False ∨ permitted "1" topic = true.
Proof.
  split; [vm_compute; reflexivity|].
  exact (concurrent_sessions_add_permitted_topics g_view gate_redis demo_socket "api_gateway" demo_utcnow demo_time
    (λ _, Ok VNone) demo_verify demo_utcnow_quiet demo_time_quiet (λ _ _, quiet_ret _) demo_jobs first_ends
    (λ _, new_manager) two_clients "1").
Defined.
