(* ===== verification/Logout.v ===== *)
(** * Logging out and the live sessions (app/core/security.py, api_gateway/src/ws/auth.py)

    The gateway's sessions over the tokens' Redis: [verify_token] of Security.v is
    what [authenticate_websocket] and [periodic_revalidate] of Gateway.v call. *)

From Stdlib Require Import ZArith Lia Bool List Ascii String.
From stdpp Require Import base decidable list option strings.
From S2P Require Import Prelude PyFloat PyStr PyDateTime PyMonad PyDict PyVal Redis Security Gateway.
Open Scope string_scope.
Open Scope Z_scope.
Open Scope py_scope.

(** The gateway's timers leave the token entries alone. *)
Class TokenFrame {W Sock} (S : SocketOps W Sock) (entry : W → string → option (string * Z)) := {
  frame_sleep d w k : entry (asyncio_sleep S d w).2 k = entry w k
}.

Section Logout.
Context `{PyRepr} (K : Crypto) {W Sock : Type} (S : SocketOps W Sock).
Context (exec : ∀ X, ev X → M W X) (entry : W → string → option (string * Z)) (secs : W → Z).
Context {Laws : RedisLaws exec entry secs} {Frame : TokenFrame S entry}.

(** [verify_token(redis, token, fingerprint)] as the gateway awaits it. *)
Definition verify (token : string) (fp : option string) : M W vdict := run exec (verify_token K token fp).

(** A token of [user] issued at the second [iat]: what its signed claims say. *)
Definition issued_to (token user : string) (iat : Z) : Prop :=
  ∀ t p, jwt_decode K t token = Some p → py_str (vget p "sub") = user ∧ vget p "iat" = VInt iat.

(** The user is logged out as of the second [since], in the state [w]. *)
Definition logged_out (user : string) (since : Z) (w : W) : Prop :=
  ∃ w0 why w1, 0 <= secs w0 ∧ since = secs w0 ∧ run exec (revoke_all_user_tokens user why) w0 = (Ok tt, w1) ∧
               entry w (user_key user) = entry w1 (user_key user).

Lemma verify_refuses token fp user iat since w r w1 :
  logged_out user since w → issued_to token user iat → iat <= since →
  verify token fp w = (r, w1) → secs w1 < since + 60 * 60 * 24 * 90 → ∃ e, r = Raise e.
Proof using Laws.
  intros (w0 & why & wr & H0 & -> & Hr & He) Htok Hle Hv Hsecs. destruct r as [p|e]; [|by eexists]. exfalso.
  destruct (verify_inv K exec entry secs _ _ _ _ _ Hv) as [(t & Hd & _) _]. destruct (Htok _ _ Hd) as [Hsub Hiat].
  pose proof (revoked_user_is_logged_out K exec entry secs user why w0 wr w token fp p w1 iat H0 Hr He Hv Hsub Hiat Hle). lia.
Qed.

(** C25. Logging out reaches the live sessions.  Once [revoke_all_user_tokens] has
    returned, and while its marker is not rewritten, for ninety days: no session is
    opened with a token of the user issued up to that second, and a session that was
    opened with one does not survive its next revalidation, which does not go on to
    another turn and, unless closing fails, has closed the socket with 4003. *)
Theorem logout_closes_sessions user since token iat fp ws interval w :
  logged_out user since w → issued_to token user iat → iat <= since →
  (∀ r w1, authenticate_websocket verify (Some token) fp w = (r, w1) →
     secs w1 < since + 60 * 60 * 24 * 90 → ∃ e, r = Raise e) ∧
  (∀ r w1, revalidate_once S verify ws token fp interval w = (r, w1) →
     secs w1 < since + 60 * 60 * 24 * 90 →
     r ≠ Ok true ∧ (r = Ok false → ∃ w2, ws_close S ws 4003 w2 = (Ok tt, w1))).
Proof using Laws Frame.
  intros Hout Htok Hle. split; intros r w1 Hr Hsecs.
  - simpl in Hr. destruct (String.eqb token ""); [injection Hr as <- _; by eexists|]. by eapply verify_refuses.
  - unfold revalidate_once in Hr. apply bind_inv in Hr as [([] & wa & Hs & Hr)|(e & _ & ->)]; [|done].
    pose proof (frame_sleep (S:=S) (entry:=entry) interval w) as Hka. rewrite Hs in Hka. simpl in Hka.
    assert (Hout' : logged_out user since wa).
    { destruct Hout as (w0 & why & w0' & H0 & H1 & H2 & H3). exists w0, why, w0'. by rewrite Hka. }
    unfold try_except in Hr. destruct (verify token fp wa) as [rv wb] eqn:Hv.
    assert (Hb : (mbind (M:=M W) (λ _ : vdict, mret true) (verify token fp)) wa = match rv with Ok _ => (Ok true, wb) | Raise e => (Raise e, wb) end)
      by (unfold mbind, M_bind; rewrite Hv; by destruct rv).
    rewrite Hb in Hr. destruct rv as [p|e].
    + injection Hr as <- <-. by destruct (verify_refuses token fp user iat since wa _ _ Hout' Htok Hle Hv Hsecs).
    + destruct (is_Exception e); [|by injection Hr as <- _].
      apply bind_inv in Hr as [([] & wc & Hc & Hr)|(e' & _ & ->)]; [|done]. injection Hr as <- <-.
      split; [done|]. intros _. by exists wb.
Qed.
End Logout.

(** ** A logged-out user's session in memory *)

Definition silent_socket : SocketOps DemoRedis string := {|
  ws_accept _ := mret tt; ws_send_json _ _ := mret tt; ws_close _ _ := mret tt;
  ws_receive_json _ := raise WebSocketDisconnect; create_task _ := mret tt; cancel_task _ := mret tt;
  asyncio_sleep _ := mret tt
|}.
#[export] Instance silent_frame : TokenFrame silent_socket d_entry.
Proof. by split. Qed.

Definition u1_revalidation : res bool * DemoRedis :=
  revalidate_once silent_socket (verify (H := security_repr) demo_crypto demo_exec) "socket" "T" (Some "dev") (f_of_Z 300)
    demo_revoked.

Lemma logout_witness :
  u1_revalidation.1 ≠ Ok true ∧ (u1_revalidation.1 = Ok false → ∃ w2, ws_close silent_socket "socket" 4003 w2 = (Ok tt, u1_revalidation.2)).
Proof.
  refine (proj2 (logout_closes_sessions (H := security_repr) demo_crypto silent_socket demo_exec d_entry d_secs "u1"
    (d_secs demo_redis) "T" demo_issued (Some "dev") "socket" (f_of_Z 300) demo_revoked _ _ _) _ _ (surjective_pairing _) _).
  - exists demo_redis, "lost phone", demo_revoked. split; [vm_compute; discriminate|]. split; [reflexivity|].
    split; [vm_compute; reflexivity|reflexivity].
  - intros t p. simpl. destruct (t <=? demo_exp); [|discriminate]. intros [= <-]. split; reflexivity.
  - vm_compute. discriminate.
  - vm_compute. reflexivity.
Defined.

Example u1_revalidation_ends : u1_revalidation.1 = Ok false.
Proof. vm_compute. reflexivity. Qed.
