(* ===== verification/Notifier.v ===== *)
(** * The notifier service (notifier_service/src/app.py)

    The per-recipient limiter and the delivery with its retries.  Templates, SMTP
    and HTTP are interfaces. *)

From Stdlib Require Import ZArith Lia Bool List Ascii String.
From stdpp Require Import base decidable list option strings.
From S2P Require Import Prelude PyFloat PyStr PyDateTime PyMonad PyDict PyVal.
Open Scope string_scope.
Open Scope Z_scope.
Open Scope py_scope.

Record NotifyIn := { channel : string; recipient : string; template : string; context : vdict }.

(** [RATE]: how often each recipient was asked for. *)
Abbreviation Rate := (dict string Z).

(** jinja2, smtplib, httpx and asyncio.sleep; [http_post] answers a status code. *)
Record Outside (W : Type) := {
  render : string → vdict → M W string;
  send_mail : string → string → string → string → M W unit;   (* subject, from, to, body *)
  http_post : string → vdict → M W Z;
  sleep : float → M W unit
}.
Arguments render {W}. Arguments send_mail {W}. Arguments http_post {W}. Arguments sleep {W}.

Section Notifier.
Context {W : Type} (Ext : Outside W).

Definition asked (r : Rate) (who : string) : Z := match dget r who with Some n => n | None => 0 end.

(** [_limited]. *)
Definition limited (who : string) : M (Rate * W) bool := λ '(r, w),
  let n := asked r who + 1 in (Ok (60 <? n), (dset r who n, w)).

(** The body of the [try]. *)
Definition deliver (p : NotifyIn) (body : string) : M W unit :=
  if String.eqb (channel p) "email" then send_mail Ext "MTrader Notification" "noreply@mtrader.local" (recipient p) body
  else if String.eqb (channel p) "sms" || String.eqb (channel p) "webhook" then
    status ← http_post Ext (recipient p) [("message", VStr body)]; mret tt
  else raise (HTTPException 400 "unsupported channel").

(** [0.5 * (2**attempt)]. *)
Definition pause (attempt : Z) : float := fmul (flit 1 2) (f_of_Z (2 ^ attempt)).

(** [for attempt in range(3)] from [attempt] on, [left] turns to go; the last
    attempt's exception is raised again.  After the loop the handler returns None. *)
Fixpoint attempts (left : nat) (attempt : Z) (p : NotifyIn) (body : string) : M W pyval :=
  match left with
  | O => mret VNone
  | S left' =>
      out ← try_except (deliver p body ;; mret None) (λ e, mret (Some e));
      match out with
      | None => mret (VDict [("ok", VBool true)])
      | Some e =>
          if attempt =? 2 then raise e
          else sleep Ext (pause attempt) ;; attempts left' (attempt + 1) p body
      end
  end.

Definition notify (p : NotifyIn) : M (Rate * W) pyval :=
  over ← limited (recipient p);
  if over : bool then raise (HTTPException 429 "rate limit")
  else
    body ← zoom_r (render Ext (template p) (context p));
    zoom_r (attempts 3 0 p body).

(** ** The limiter *)

Lemma asked_dset r who n who' : asked (dset r who n) who' = if decide (who = who') then n else asked r who'.
Proof. unfold asked. rewrite dget_dset. by destruct (decide _). Qed.

(** The handler after the limiter, which has counted the request. *)
Definition admitted (p : NotifyIn) (n : Z) : M (Rate * W) pyval :=
  if 60 <? n then raise (HTTPException 429 "rate limit")
  else body ← zoom_r (render Ext (template p) (context p)); zoom_r (attempts 3 0 p body).

Lemma notify_run p r w :
  notify p (r, w) = admitted p (asked r (recipient p) + 1) (dset r (recipient p) (asked r (recipient p) + 1), w).
Proof. reflexivity. Qed.

(** One request counts once, for its recipient. *)
Lemma notify_counts p r w :
  ∃ w', (notify p (r, w)).2 = (dset r (recipient p) (asked r (recipient p) + 1), w').
Proof.
  rewrite notify_run. set (n := asked r (recipient p) + 1). set (r' := dset r (recipient p) n).
  assert (preserves (λ s : Rate * W, s.1 = r') (admitted p n)) as Hp.
  { unfold admitted. destruct (60 <? n); [apply preserves_raise|].
    apply preserves_bind; intros; apply (preserves_zoom_r (λ x, x = r')). }
  specialize (Hp (r', w) eq_refl). destruct (admitted p n (r', w)) as [out [r2 w2]].
  cbn in *. exists w2. by rewrite Hp.
Qed.

(** Requests in a row, whatever each of them answers. *)
Definition notify_all (ps : list NotifyIn) (s : Rate * W) : Rate * W := fold_left (λ s p, (notify p s).2) ps s.

Lemma notify_all_counts ps r w who :
  asked (notify_all ps (r, w)).1 who =
  asked r who + Z.of_nat (length (List.filter (λ p, String.eqb (recipient p) who) ps)).
Proof.
  unfold notify_all. revert r w. induction ps as [|p ps IH]; intros r w; cbn [fold_left]; [simpl; lia|].
  destruct (notify_counts p r w) as [w' ->]. rewrite IH, asked_dset. cbn [List.filter].
  destruct (decide (recipient p = who)) as [<-|Hne]; [rewrite String.eqb_refl; cbn [length]; lia|].
  apply String.eqb_neq in Hne as ->. lia.
Qed.

(** A recipient is good for sixty notifications in the life of the process: after
    any sequence of requests of which sixty or more were for a recipient, failed
    and refused ones included, every further request for it is answered 429 and
    nothing is rendered or sent; before, none is answered 429 by the limiter. *)
Theorem sixty_per_recipient ps w p :
  let s := notify_all ps ([], w) in
  let n := Z.of_nat (length (List.filter (λ q, String.eqb (recipient q) (recipient p)) ps)) in
  if 60 <=? n then
    ∃ r, notify p s = (Raise (HTTPException 429 "rate limit"), (r, s.2))
  else
    ∃ r, notify p s = (body ← zoom_r (render Ext (template p) (context p)); zoom_r (attempts 3 0 p body)) (r, s.2).
Proof.
  intros s n. assert (asked s.1 (recipient p) = n) as Hn by (unfold s, n; by rewrite notify_all_counts).
  destruct s as [r w1]. rewrite notify_run. cbn [fst snd] in *. rewrite Hn. unfold admitted.
  destruct (Z.leb_spec 60 n) as [Hle|Hlt].
  - replace (60 <? n + 1) with true by (symmetry; apply Z.ltb_lt; lia). by eexists.
  - replace (60 <? n + 1) with false by (symmetry; apply Z.ltb_ge; lia). by eexists.
Qed.

(** ** Delivery *)

(** The delivery fails at [w] with [e], leaving [w']. *)
Definition fails (p : NotifyIn) (body : string) (w : W) (e : exn) (w' : W) : Prop :=
  deliver p body w = (Raise e, w') ∧ is_Exception e = true.

Lemma attempts_ok n a p body w w' :
  deliver p body w = (Ok tt, w') → attempts (S n) a p body w = (Ok (VDict [("ok", VBool true)]), w').
Proof. intros Hd. cbn [attempts]. unfold mbind, M_bind, try_except. by rewrite Hd. Qed.

Lemma attempts_fail n a p body w e w' :
  fails p body w e w' →
  attempts (S n) a p body w =
  (if a =? 2 then raise e else sleep Ext (pause a) ;; attempts n (a + 1) p body) w'.
Proof.
  intros [Hd He]. cbn [attempts]. unfold mbind at 1, M_bind at 1, try_except, mbind at 1, M_bind at 1.
  rewrite Hd, He. done.
Qed.

(** A notification within the limit is delivered by one of at most three attempts,
    with pauses of 0.5 and 1 seconds between them: it is acknowledged when the
    first, second or third delivery returns, and otherwise the third delivery's
    exception is the answer. *)
Theorem delivered_within_three_attempts p body w e1 w1 w1' e2 w2 w2' :
  (∀ w', deliver p body w = (Ok tt, w') → attempts 3 0 p body w = (Ok (VDict [("ok", VBool true)]), w')) ∧
  (fails p body w e1 w1 → sleep Ext (flit 1 2) w1 = (Ok tt, w1') →
   (∀ w', deliver p body w1' = (Ok tt, w') → attempts 3 0 p body w = (Ok (VDict [("ok", VBool true)]), w')) ∧
   (fails p body w1' e2 w2 → sleep Ext f1 w2 = (Ok tt, w2') →
    (∀ w', deliver p body w2' = (Ok tt, w') → attempts 3 0 p body w = (Ok (VDict [("ok", VBool true)]), w')) ∧
    (∀ e3 w3, fails p body w2' e3 w3 → attempts 3 0 p body w = (Raise e3, w3)))).
Proof.
  split; [by intros; apply attempts_ok|]. intros F1 S1. rewrite (attempts_fail _ _ _ _ _ _ _ F1). cbn [Z.eqb].
  change (pause 0) with (flit 1 2). rewrite (bind_ok _ _ _ _ _ S1).
  split; [by intros; apply attempts_ok|]. intros F2 S2. rewrite (attempts_fail _ _ _ _ _ _ _ F2).
  change ((0 + 1 =? 2)%Z) with false. cbn iota. change (pause (0 + 1)) with f1. rewrite (bind_ok _ _ _ _ _ S2).
  split; [by intros; apply attempts_ok|]. intros e3 w3 F3. by rewrite (attempts_fail _ _ _ _ _ _ _ F3).
Qed.
End Notifier.

(** A request for a channel the service does not know is refused only after the
    retries: its answer, 400, comes after two pauses of 0.5 and 1 seconds. *)
Theorem unknown_channel_is_retried {W} (Ext : Outside W) p body w w1 w2 :
  channel p ≠ "email" → channel p ≠ "sms" → channel p ≠ "webhook" →
  sleep Ext (flit 1 2) w = (Ok tt, w1) → sleep Ext f1 w1 = (Ok tt, w2) →
  attempts Ext 3 0 p body w = (Raise (HTTPException 400 "unsupported channel"), w2).
Proof.
  intros H1%String.eqb_neq H2%String.eqb_neq H3%String.eqb_neq S1 S2.
  assert (∀ w', fails Ext p body w' (HTTPException 400 "unsupported channel") w') as F.
  { intros w'. unfold fails, deliver. by rewrite H1, H2, H3. }
  rewrite (attempts_fail _ _ _ _ _ _ _ _ (F w)). cbn [Z.eqb]. change (pause 0) with (flit 1 2).
  rewrite (bind_ok _ _ _ _ _ S1), (attempts_fail _ _ _ _ _ _ _ _ (F w1)).
  change ((0 + 1 =? 2)%Z) with false. cbn iota. change (pause (0 + 1)) with f1.
  by rewrite (bind_ok _ _ _ _ _ S2), (attempts_fail _ _ _ _ _ _ _ _ (F w2)).
Qed.

(** ** The theorems on a mail server that refuses twice *)

(** Its world counts the refusals left. *)
Definition demo_outside : Outside Z := {|
  render t _ := mret t;
  send_mail _ _ _ _ := λ n, if 0 <? n then (Raise (ExternalError "SMTPException" ""), n - 1) else (Ok tt, n);
  http_post _ _ := mret 200;
  sleep _ := mret tt
|}.
Definition demo_mail : NotifyIn :=
  {| channel := "email"; recipient := "ops@example.com"; template := "hello"; context := [] |}.
Definition demo_fax : NotifyIn := {| channel := "fax"; recipient := "1"; template := "hello"; context := [] |}.

Lemma delivered_witness :
  attempts demo_outside 3 0 demo_mail "hello" 2 = (Ok (VDict [("ok", VBool true)]), 0).
Proof.
  refine (proj1 (proj2 (proj2 (delivered_within_three_attempts demo_outside demo_mail "hello" 2
    (ExternalError "SMTPException" "") 1 1 (ExternalError "SMTPException" "") 0 0) _ _) _ _) 0 _);
    (reflexivity || split; reflexivity).
Defined.

Lemma unknown_channel_witness :
  attempts demo_outside 3 0 demo_fax "hello" 0 = (Raise (HTTPException 400 "unsupported channel"), 0).
Proof.
  refine (unknown_channel_is_retried demo_outside demo_fax "hello" 0 0 0 _ _ _ _ _); (reflexivity || discriminate).
Defined.
