(* ===== verification/Scheduler.v ===== *)
(** * The scheduler service (scheduler_service/src/app.py)

    The table of schedules and the execution of one job.  APScheduler (its
    triggers and its own table of jobs), uuid, the clock and asyncio's
    [wait_for] are interfaces. *)

From Stdlib Require Import ZArith Lia Bool List Ascii String.
From stdpp Require Import base decidable list option strings.
From S2P Require Import Prelude PyFloat PyStr PyDateTime PyMonad PyDict PyVal.
Open Scope string_scope.
Open Scope Z_scope.
Open Scope py_scope.

Record ScheduleIn := {
  sched_name : string; sched_type : string; cron : option string; seconds : option Z;
  timeout_seconds : Z; retries : Z
}.

Inductive Trigger := CronTrigger (minute hour day month day_of_week : string) | IntervalTrigger (seconds : Z).

(** APScheduler: a trigger's constructor may refuse its arguments. *)
Record Scheduler (W : Type) := {
  make_trigger : Trigger → res unit;
  add_job : string → Trigger → M W unit;
  remove_job : string → M W unit;
  scheduler_start : M W unit;
  scheduler_shutdown : bool → M W unit        (* wait *)
}.
Arguments scheduler_start {W}. Arguments scheduler_shutdown {W}.
Arguments make_trigger {W}. Arguments add_job {W}. Arguments remove_job {W}.

(** [s.split()]: the words of [s]; [w] is the word being read, reversed. *)
Fixpoint words (l w : list ascii) : list string :=
  let flush := match w with [] => [] | _ => [string_of_list_ascii (rev w)] end in
  match l with
  | [] => flush
  | c :: r => if is_space c then (flush ++ words r [])%list else words r (c :: w)
  end.
Definition str_split (s : string) : list string := words (list_ascii_of_string s) [].

Abbreviation Jobs := (dict string vdict).

Section Service.
Context {W : Type} (A : Scheduler W) (uuid4 : M W string) (utcnow : M W datetime).
(** [asyncio.wait_for(asyncio.sleep(0.01), timeout)]. *)
Context (run_body : Z → M W unit).

Definition startup : M (Jobs * W) unit := zoom_r (scheduler_start A).
(** Jobs under way are not waited for. *)
Definition shutdown : M (Jobs * W) unit := zoom_r (scheduler_shutdown A false).

Definition set_job_field (jid k : string) (v : pyval) : M (Jobs * W) unit :=
  modify (λ jw, (match dget jw.1 jid with Some cfg => dset jw.1 jid (dset cfg k v) | None => jw.1 end, jw.2)).

(** [payload.model_dump()]. *)
Definition opt_val {X} (f : X → pyval) (o : option X) : pyval := match o with Some x => f x | None => VNone end.
Definition model_dump (p : ScheduleIn) : vdict :=
  [("name", VStr (sched_name p)); ("type", VStr (sched_type p)); ("cron", opt_val VStr (cron p));
   ("seconds", opt_val VInt (seconds p)); ("timeout_seconds", VInt (timeout_seconds p)); ("retries", VInt (retries p))].

(** [for attempt in range(cfg["retries"])] from [attempt] on. *)
Fixpoint job_attempts (left : nat) (attempt retries timeout : Z) (jid : string) : M (Jobs * W) unit :=
  match left with
  | O => mret tt
  | S left' =>
      done_ ← try_except
        (zoom_r (run_body timeout) ;;
         now ← zoom_r utcnow;
         set_job_field jid "last_run" (VStr (isoformat now)) ;;
         mret true)
        (λ _, when (attempt =? retries - 1) (set_job_field jid "dead_letter" (VBool true)) ;; mret false);
      if done_ : bool then mret tt else job_attempts left' (attempt + 1) retries timeout jid
  end.

(** [_execute_job]: the row's own numbers, read when the job starts (no statement
    of the service assigns them later). *)
Definition execute_job (jid : string) : M (Jobs * W) unit :=
  found ← gets (λ jw, dget jw.1 jid);
  match found with
  | None => raise (KeyError jid)
  | Some cfg =>
      n ← lift_res (v ← vindex cfg "retries"; py_int v);
      t ← lift_res (v ← vindex cfg "timeout_seconds"; py_int v);
      job_attempts (Z.to_nat n) 0 n t jid
  end.

Definition trigger_of (p : ScheduleIn) : res Trigger :=
  if String.eqb (sched_type p) "cron" then
    match cron p with
    | Some c =>
        if String.eqb c "" then Raise (HTTPException 400 "cron expression required")
        else match str_split c with
             | [minute; hour; day; month; dow] =>
                 let t := CronTrigger minute hour day month dow in make_trigger A t ;; mret t
             | _ => Raise (ValueError "wrong number of values to unpack")
             end
    | None => Raise (HTTPException 400 "cron expression required")
    end
  else if String.eqb (sched_type p) "interval" then
    match seconds p with
    | Some n => if n =? 0 then Raise (HTTPException 400 "seconds required")
                else let t := IntervalTrigger n in make_trigger A t ;; mret t
    | None => Raise (HTTPException 400 "seconds required")
    end
  else Raise (HTTPException 400 "unsupported schedule type").

Definition create_schedule (p : ScheduleIn) : M (Jobs * W) vdict :=
  sid ← zoom_r uuid4;
  trigger ← lift_res (trigger_of p);
  now ← zoom_r utcnow;
  let row := (model_dump p ++ [("id", VStr sid); ("created_at", VStr (isoformat now)); ("dead_letter", VBool false)])%list in
  modify (λ jw, (dset jw.1 sid row, jw.2)) ;;
  zoom_r (add_job A sid trigger) ;;
  found ← gets (λ jw, dget jw.1 sid);
  match found with Some r => mret r | None => raise (KeyError sid) end.

Definition delete_schedule (sid : string) : M (Jobs * W) vdict :=
  known ← gets (λ jw, dmem jw.1 sid);
  if negb known then raise (HTTPException 404 "not found")
  else
    zoom_r (remove_job A sid) ;;
    modify (λ jw, (dpop jw.1 sid, jw.2)) ;;
    mret [("ok", VBool true)].

Definition list_schedules : M (Jobs * W) (list vdict) := gets (λ jw, dvalues jw.1).
End Service.

(** ** Running a job *)

Section Running.
Context {W : Type} (utcnow : M W datetime) (run_body : Z → M W unit).

(** The body fails [n] times in a row from [w], leaving [w']. *)
Inductive failing (t : Z) : nat → W → W → Prop :=
| failing_none w : failing t 0 w w
| failing_more n w e w1 w2 :
    run_body t w = (Raise e, w1) → is_Exception e = true → failing t n w1 w2 → failing t (S n) w w2.

Lemma attempt_ok left a n t jid j w w1 now w2 :
  run_body t w = (Ok tt, w1) → utcnow w1 = (Ok now, w2) →
  job_attempts utcnow run_body (S left) a n t jid (j, w) =
  (Ok tt, (match dget j jid with
           | Some cfg => dset j jid (dset cfg "last_run" (VStr (isoformat now)))
           | None => j
           end, w2)).
Proof.
  intros Hb Hn. cbn [job_attempts]. unfold mbind, M_bind, try_except, zoom_r. rewrite Hb, Hn. reflexivity.
Qed.

Lemma attempt_fail left a n t jid j w e w1 :
  run_body t w = (Raise e, w1) → is_Exception e = true →
  job_attempts utcnow run_body (S left) a n t jid (j, w) =
  job_attempts utcnow run_body left (a + 1) n t jid
    (if a =? n - 1 then match dget j jid with Some cfg => dset j jid (dset cfg "dead_letter" (VBool true)) | None => j end
     else j, w1).
Proof.
  intros Hb He. cbn [job_attempts]. unfold mbind, M_bind, try_except, zoom_r. rewrite Hb, He. by destruct (a =? n - 1).
Qed.

(** Failures before the last attempt change nothing. *)
Lemma attempts_skip k left a n t jid j w w1 :
  failing t k w w1 → a + Z.of_nat k <= n - 1 →
  job_attempts utcnow run_body (k + left) a n t jid (j, w) =
  job_attempts utcnow run_body left (a + Z.of_nat k) n t jid (j, w1).
Proof.
  intros Hf. revert a. induction Hf as [w|k w e w1 w2 Hb He Hf IH]; intros a Ha; [by rewrite Z.add_0_r|].
  cbn [Nat.add]. rewrite (attempt_fail _ _ _ _ _ _ _ _ _ Hb He). replace (a =? n - 1) with false by (symmetry; apply Z.eqb_neq; lia).
  rewrite IH by lia. f_equal. lia.
Qed.

Lemma execute_job_run jid j w cfg n t :
  dget j jid = Some cfg → vindex cfg "retries" = Ok (VInt n) → vindex cfg "timeout_seconds" = Ok (VInt t) →
  execute_job utcnow run_body jid (j, w) = job_attempts utcnow run_body (Z.to_nat n) 0 n t jid (j, w).
Proof. intros Hj Hn Ht. unfold execute_job, mbind, M_bind, gets, lift_res. cbn. by rewrite Hj, Hn, Ht. Qed.

(** A job runs until its body succeeds, at most [retries] times: the first success
    stamps [last_run] and nothing else; only when every attempt failed is the row
    marked as a dead letter; with no retries the body never runs and the row says
    nothing.  In every case the job itself returns. *)
Theorem job_outcome jid j w cfg n t :
  dget j jid = Some cfg → vindex cfg "retries" = Ok (VInt n) → vindex cfg "timeout_seconds" = Ok (VInt t) →
  (∀ k w1 w2 now w3, failing t k w w1 → Z.of_nat k < n → run_body t w1 = (Ok tt, w2) → utcnow w2 = (Ok now, w3) →
     execute_job utcnow run_body jid (j, w) = (Ok tt, (dset j jid (dset cfg "last_run" (VStr (isoformat now))), w3))) ∧
  (∀ w1, failing t (Z.to_nat n) w w1 → 0 < n →
     execute_job utcnow run_body jid (j, w) = (Ok tt, (dset j jid (dset cfg "dead_letter" (VBool true)), w1))) ∧
  (n <= 0 → execute_job utcnow run_body jid (j, w) = (Ok tt, (j, w))).
Proof.
  intros Hj Hn Ht. rewrite (execute_job_run _ _ w _ _ _ Hj Hn Ht). split; [|split].
  - intros k w1 w2 now w3 Hf Hk Hb Hnow.
    replace (Z.to_nat n) with (k + S (Z.to_nat n - k - 1))%nat by lia.
    rewrite (attempts_skip _ _ _ _ _ _ _ _ _ Hf), (attempt_ok _ _ _ _ _ _ _ _ _ _ Hb Hnow) by lia. by rewrite Hj.
  - intros w1 Hf Hpos. destruct (Z.to_nat n) as [|m] eqn:Em; [lia|].
    assert (∃ wm e, failing t m w wm ∧ run_body t wm = (Raise e, w1) ∧ is_Exception e = true) as (wm & e & Hm & Hb & He).
    { clear Em. revert w Hf. induction m as [|m IH]; intros w Hf; inversion Hf as [|? ? e w' ? Hb He Hf']; subst.
      - inversion Hf'; subst. exists w, e. split; [constructor|done].
      - destruct (IH _ Hf') as (wm & e' & ? & ? & ?). exists wm, e'. split; [by eapply failing_more|done]. }
    replace (S m) with (m + 1)%nat by lia. rewrite (attempts_skip _ _ _ _ _ _ _ _ _ Hm) by lia.
    rewrite (attempt_fail _ _ _ _ _ _ _ _ _ Hb He). replace (0 + Z.of_nat m =? n - 1) with true by (symmetry; apply Z.eqb_eq; lia).
    by rewrite Hj.
  - intros Hle. by replace (Z.to_nat n) with 0%nat by lia.
Qed.
End Running.

(** ** The two tables *)

(** APScheduler's own table: [add_job] and [remove_job] change it when they return
    and leave it when they raise; removing an unknown job raises. *)
Class SchedulerLaws {W} (A : Scheduler W) (scheduled : W → string → Prop) := {
  law_add sid t w : match add_job A sid t w with
    | (Ok _, w') => ∀ j, scheduled w' j ↔ j = sid ∨ scheduled w j
    | (Raise _, w') => ∀ j, scheduled w' j ↔ scheduled w j
    end;
  law_remove sid w : match remove_job A sid w with
    | (Ok _, w') => scheduled w sid ∧ ∀ j, scheduled w' j ↔ j ≠ sid ∧ scheduled w j
    | (Raise _, w') => ∀ j, scheduled w' j ↔ scheduled w j
    end
}.

Section Tables.
Context {W : Type} (A : Scheduler W) (uuid4 : M W string) (utcnow : M W datetime) (scheduled : W → string → Prop).
Context `{!SchedulerLaws A scheduled}.
Context (uuid_quiet : ∀ w j, scheduled (uuid4 w).2 j ↔ scheduled w j).
Context (clock_quiet : ∀ w j, scheduled (utcnow w).2 j ↔ scheduled w j).

(** Every row is a scheduled job and every scheduled job has a row. *)
Definition consistent (s : Jobs * W) : Prop := dict_wf s.1 ∧ ∀ sid, dmem s.1 sid = true ↔ scheduled s.2 sid.

Lemma dmem_dset (d : Jobs) k v j : dmem (dset d k v) j = true ↔ j = k ∨ dmem d j = true.
Proof. unfold dmem. rewrite dget_dset. destruct (decide (k = j)) as [->|]; [by split; auto|]. intuition congruence. Qed.

Lemma dmem_dpop (d : Jobs) k j : dict_wf d → dmem (dpop d k) j = true ↔ j ≠ k ∧ dmem d j = true.
Proof.
  intros Hwf. unfold dmem. destruct (decide (k = j)) as [->|Hne].
  - rewrite dget_dpop_eq by done. split; [done|]. by intros [? _].
  - rewrite dget_dpop_ne by done. intuition congruence.
Qed.

(** How far a request to create a schedule gets. *)
Lemma create_inv p j w r s :
  create_schedule A uuid4 utcnow p (j, w) = (r, s) →
  (s.1 = j ∧ (∀ i, scheduled s.2 i ↔ scheduled w i) ∧ is_ok r = false) ∨
  ∃ sid row t w1 w2, s = (dset j sid row, w2) ∧ (∀ i, scheduled w1 i ↔ scheduled w i) ∧
    ((add_job A sid t w1 = (Ok tt, w2) ∧ r = Ok row) ∨ ∃ e, add_job A sid t w1 = (Raise e, w2) ∧ r = Raise e).
Proof using uuid_quiet clock_quiet.
  unfold create_schedule. intros Hr. unfold mbind, M_bind, zoom_r, lift_res, modify, gets in Hr. cbn in Hr.
  pose proof (uuid_quiet w) as Hu. destruct (uuid4 w) as [[sid|e] w1]; cbn in *; [|injection Hr as <- <-; by left].
  destruct (trigger_of A p) as [t|e]; cbn in *; [|injection Hr as <- <-; by left].
  pose proof (clock_quiet w1) as Hc. destruct (utcnow w1) as [[now|e] w2]; cbn in *;
    [|injection Hr as <- <-; left; split; [done|]; split; [|done]; intros i; by rewrite Hc].
  match type of Hr with context [dset j sid ?x] => set (row := x) in * end.
  right. destruct (add_job A sid t w2) as [[[]|e] w3] eqn:Ea; cbn in *.
  - rewrite dget_dset_eq in Hr. injection Hr as <- <-. exists sid, row, t, w2, w3.
    split; [done|]. split; [|by left]. intros i. by rewrite Hc.
  - injection Hr as <- <-. exists sid, row, t, w2, w3. split; [done|]. split; [|right; by exists e]. intros i. by rewrite Hc.
Qed.

(** The service's table and APScheduler's agree: a request to create a schedule
    that is answered, and every request to delete one, however it ends, lead from
    agreeing tables to agreeing tables. *)
Theorem tables_stay_consistent s :
  consistent s →
  (∀ p row s', create_schedule A uuid4 utcnow p s = (Ok row, s') → consistent s') ∧
  (∀ sid, consistent (delete_schedule A sid s).2).
Proof using All.
  destruct s as [j w]. intros [Hwf Hs]. cbn in *. split.
  - intros p row s' Hr. destruct (create_inv _ _ _ _ _ Hr) as [(_ & _ & [=])|(sid & row' & t & w1 & w2 & -> & Hw1 & Ha)].
    destruct Ha as [[Ha _]|(e & _ & [=])]. split; [by apply dict_wf_dset|]. intros i. cbn.
    pose proof (law_add sid t w1) as Hl. rewrite Ha in Hl. by rewrite Hl, Hw1, dmem_dset, Hs.
  - intros sid. unfold delete_schedule, mbind, M_bind, gets, zoom_r, modify. cbn.
    destruct (dmem j sid) eqn:Em; cbn; [|done].
    pose proof (law_remove sid w) as Hl. destruct (remove_job A sid w) as [[[]|e] w']; cbn.
    + destruct Hl as [_ Hl]. split; [by apply dict_wf_dpop|]. intros i. cbn. by rewrite dmem_dpop, Hl, Hs.
    + split; [done|]. intros i. cbn. by rewrite Hl.
Qed.

(** The row is written before APScheduler is asked: when it refuses the job of a
    fresh id, the caller gets its exception, but the schedule is listed from then on
    and no request can delete it. *)
Theorem refused_schedules_stay_listed p j w e s :
  consistent (j, w) → create_schedule A uuid4 utcnow p (j, w) = (Raise e, s) → s.1 ≠ j →
  ∃ sid row, dget s.1 sid = Some row ∧
    (dmem j sid = false → ∃ x, (delete_schedule A sid s).1 = Raise x ∧ (delete_schedule A sid s).2.1 = s.1).
Proof using All.
  intros [Hwf Hs] Hr Hne. destruct (create_inv _ _ _ _ _ Hr) as [(? & _)|(sid & row & t & w1 & w2 & -> & Hw1 & Ha)]; [done|].
  destruct Ha as [[_ [=]]|(e' & Ha & _)]. exists sid, row. split; [apply dget_dset_eq|]. intros Hnew.
  unfold delete_schedule, mbind, M_bind, gets, zoom_r, modify. cbn.
  assert (dmem (dset j sid row) sid = true) as -> by (apply dmem_dset; by left). cbn.
  pose proof (law_remove sid w2) as Hl. destruct (remove_job A sid w2) as [[[]|x] w3]; cbn; [|by exists x].
  exfalso. destruct Hl as [Hin _]. pose proof (law_add sid t w1) as Hl2. rewrite Ha in Hl2.
  apply Hl2, Hw1, Hs in Hin. cbn in Hin. congruence.
Qed.
End Tables.

(** ** A scheduler in memory, and the theorems on it *)

Record DemoScheduler := { ds_jobs : list string; ds_refuse : bool; ds_failures : Z }.

Definition demo_scheduler : Scheduler DemoScheduler := {|
  scheduler_start := mret tt; scheduler_shutdown _ := mret tt;
  make_trigger _ := Ok tt;
  add_job sid _ := λ w, if ds_refuse w then (Raise (ExternalError "ConflictingIdError" sid), w)
    else (Ok tt, {| ds_jobs := sid :: ds_jobs w; ds_refuse := ds_refuse w; ds_failures := ds_failures w |});
  remove_job sid := λ w, if existsb (String.eqb sid) (ds_jobs w)
    then (Ok tt, {| ds_jobs := List.filter (λ j, negb (String.eqb j sid)) (ds_jobs w);
                    ds_refuse := ds_refuse w; ds_failures := ds_failures w |})
    else (Raise (ExternalError "JobLookupError" sid), w)
|}.

Definition demo_scheduled (w : DemoScheduler) (j : string) : Prop := In j (ds_jobs w).

#[export] Instance demo_scheduler_laws : SchedulerLaws demo_scheduler demo_scheduled.
Proof.
  split; intros; unfold demo_scheduled; cbn.
  - destruct (ds_refuse w); cbn; [done|]. intros j. split; intros [?|?]; auto.
  - destruct (existsb (String.eqb sid) (ds_jobs w)) eqn:E; cbn; [|done].
    apply existsb_exists in E as (x & Hx & ->%String.eqb_eq). split; [done|]. intros j.
    rewrite filter_In, negb_true_iff, String.eqb_neq. tauto.
Qed.

Definition demo_uuid4 : M DemoScheduler string := mret "s1".
Definition demo_clock : M DemoScheduler datetime := mret (DT 2026 2 12 9 0 0 0).
(** The job's body: it fails while failures are left. *)
Definition demo_body (timeout : Z) : M DemoScheduler unit := λ w,
  if 0 <? ds_failures w
  then (Raise (ExternalError "TimeoutError" ""), {| ds_jobs := ds_jobs w; ds_refuse := ds_refuse w; ds_failures := ds_failures w - 1 |})
  else (Ok tt, w).

Definition demo_schedule : ScheduleIn := {|
  sched_name := "nightly"; sched_type := "cron"; cron := Some "0 3 * * 1"; seconds := None; timeout_seconds := 60; retries := 3 |}.
Definition demo_world (refuse : bool) (failures : Z) : DemoScheduler :=
  {| ds_jobs := []; ds_refuse := refuse; ds_failures := failures |}.
Definition demo_created (refuse : bool) (failures : Z) : res vdict * (Jobs * DemoScheduler) :=
  create_schedule demo_scheduler demo_uuid4 demo_clock demo_schedule ([], demo_world refuse failures).
Definition demo_row : vdict := default [] (dget (demo_created false 0).2.1 "s1").

(** Two failures, then a success; and three failures. *)
Lemma job_outcome_witness :
  (∃ w, execute_job demo_clock demo_body "s1" ([("s1", demo_row)], demo_world false 2) =
     (Ok tt, ([("s1", dset demo_row "last_run" (VStr "2026-02-12T09:00:00"))], w))) ∧
  (∃ w, execute_job demo_clock demo_body "s1" ([("s1", demo_row)], demo_world false 3) =
     (Ok tt, ([("s1", dset demo_row "dead_letter" (VBool true))], w))).
Proof.
  split; exists (demo_world false 0).
  - refine (proj1 (job_outcome demo_clock demo_body "s1" [("s1", demo_row)] (demo_world false 2) demo_row 3 60
      eq_refl eq_refl eq_refl) 2%nat (demo_world false 0) (demo_world false 0) (DT 2026 2 12 9 0 0 0)
      (demo_world false 0) _ eq_refl eq_refl eq_refl).
    repeat (eapply failing_more; [reflexivity|reflexivity|]). apply failing_none.
  - refine (proj1 (proj2 (job_outcome demo_clock demo_body "s1" [("s1", demo_row)] (demo_world false 3) demo_row 3 60
      eq_refl eq_refl eq_refl)) _ _ eq_refl).
    repeat (eapply failing_more; [reflexivity|reflexivity|]). apply failing_none.
Defined.

Lemma demo_quiet {A} (a : A) : ∀ w j, demo_scheduled (mret (M := M DemoScheduler) a w).2 j ↔ demo_scheduled w j.
Proof. done. Qed.

Lemma demo_consistent refuse failures : consistent demo_scheduled ([], demo_world refuse failures).
Proof. split; [constructor|]. intros sid. split; [done|intros []]. Qed.

Lemma tables_witness : consistent demo_scheduled (demo_created false 0).2.
Proof.
  refine (proj1 (tables_stay_consistent demo_scheduler demo_uuid4 demo_clock demo_scheduled (demo_quiet _) (demo_quiet _)
    ([], demo_world false 0) (demo_consistent false 0)) demo_schedule demo_row _ _).
  vm_compute. reflexivity.
Defined.

Lemma refused_schedule_witness : ∃ sid row, dget (demo_created true 0).2.1 sid = Some row ∧
  (dmem ([] : Jobs) sid = false → ∃ x,
     (delete_schedule demo_scheduler sid (demo_created true 0).2).1 = Raise x ∧
     (delete_schedule demo_scheduler sid (demo_created true 0).2).2.1 = (demo_created true 0).2.1).
Proof.
  refine (refused_schedules_stay_listed demo_scheduler demo_uuid4 demo_clock demo_scheduled (demo_quiet _) (demo_quiet _)
    demo_schedule [] (demo_world true 0) (ExternalError "ConflictingIdError" "s1") (demo_created true 0).2
    (demo_consistent true 0) _ _).
  - vm_compute. reflexivity.
  - vm_compute. discriminate.
Defined.
