(* ===== verification/Config.v ===== *)
(** * Settings (app/core/config.py)

    The settings of the gateway, their validators, and what is accepted at start.
    The file system and the PEM parser are interfaces; [base64.b64decode] is the
    standard library's, byte by byte. *)

From Stdlib Require Import ZArith Lia Bool List Ascii String.
From stdpp Require Import base decidable list option strings.
From S2P Require Import Prelude PyFloat PyStr PyDateTime PyMonad PyDict PyVal.
Open Scope string_scope.
Open Scope Z_scope.
Open Scope py_scope.

(** ** base64.b64decode

    Characters outside the alphabet are skipped; reading stops at a complete
    padding; what is left over must not be a partial group. *)

Definition b64_value (c : ascii) : option Z :=
  let n := ord c in
  if (65 <=? n) && (n <=? 90) then Some (n - 65)
  else if (97 <=? n) && (n <=? 122) then Some (n - 71)
  else if (48 <=? n) && (n <=? 57) then Some (n + 4)
  else if n =? 43 then Some 62
  else if n =? 47 then Some 63
  else None.

Inductive b64_err := BadPadding | BadLength.

(** [quad] is the place in the group of four, [left] the bits left over from the
    character before, [pads] the padding characters seen in a row. *)
Fixpoint b64_loop (l : list ascii) (quad pads : nat) (left : Z) : list Z + b64_err :=
  match l with
  | [] => match quad with O => inl [] | 1%nat => inr BadLength | _ => inr BadPadding end
  | c :: r =>
      if Ascii.eqb c "=" then
        if (2 <=? quad)%nat then
          if (4 <=? quad + S pads)%nat then inl [] else b64_loop r quad (S pads) left
        else b64_loop r quad pads left
      else match b64_value c with
      | None => b64_loop r quad pads left
      | Some v =>
          let out (b : Z) (rest : list Z + b64_err) := match rest with inl bs => inl (b :: bs) | inr e => inr e end in
          match quad with
          | O => b64_loop r 1 0 v
          | 1%nat => out (Z.lor (Z.shiftl left 2) (Z.shiftr v 4)) (b64_loop r 2 0 (Z.land v 15))
          | 2%nat => out (Z.lor (Z.shiftl left 4) (Z.shiftr v 2)) (b64_loop r 3 0 (Z.land v 3))
          | _ => out (Z.lor (Z.shiftl left 6) v) (b64_loop r 0 0 0)
          end
      end
  end.

Definition b64decode (s : string) : res (list Z) :=
  let l := list_ascii_of_string s in
  if existsb (λ c, 128 <=? ord c) l then Raise (ValueError "string argument should contain only ASCII characters")
  else match b64_loop l 0 0 0 with
       | inl bs => Ok bs
       | inr _ => Raise (ValueError "Incorrect padding")
       end.

(** ** The settings *)

Inductive Environment := development | staging | production.
Inductive SSLMode := disable | allow | prefer | require | verify_ca | verify_full.

Definition environment_value (e : Environment) : string :=
  match e with development => "development" | staging => "staging" | production => "production" end.
Definition sslmode_value (m : SSLMode) : string :=
  match m with
  | disable => "disable" | allow => "allow" | prefer => "prefer" | require => "require"
  | verify_ca => "verify-ca" | verify_full => "verify-full"
  end.

Record Settings := {
  environment : Environment; database_url : string; redis_url : string; ssl_mode : SSLMode;
  jwt_issuer : string; jwt_audience : string; jwt_access_ttl_minutes : Z; jwt_refresh_ttl_days : Z;
  jwt_private_key : option string; jwt_private_key_path : option string;
  jwt_public_key : option string; jwt_public_key_path : option string;
  encryption_master_key : string; ws_rate_limit_per_minute : Z; ws_max_connections_per_ip : Z; app_port : Z
}.

Definition with_keys (priv pub : string) (s : Settings) : Settings := {|
  environment := environment s; database_url := database_url s; redis_url := redis_url s; ssl_mode := ssl_mode s;
  jwt_issuer := jwt_issuer s; jwt_audience := jwt_audience s;
  jwt_access_ttl_minutes := jwt_access_ttl_minutes s; jwt_refresh_ttl_days := jwt_refresh_ttl_days s;
  jwt_private_key := Some priv; jwt_private_key_path := jwt_private_key_path s;
  jwt_public_key := Some pub; jwt_public_key_path := jwt_public_key_path s;
  encryption_master_key := encryption_master_key s; ws_rate_limit_per_minute := ws_rate_limit_per_minute s;
  ws_max_connections_per_ip := ws_max_connections_per_ip s; app_port := app_port s |}.

Definition validate_db_url (v : string) : res string :=
  if starts_with "postgresql" v then Ok v else Raise (ValueError "FATAL: DATABASE_URL must be postgresql scheme").
Definition validate_redis_url (v : string) : res string :=
  if starts_with "redis://" v || starts_with "rediss://" v then Ok v
  else Raise (ValueError "FATAL: REDIS_URL must be redis:// or rediss://").
Definition validate_port (v : Z) : res Z :=
  if (1 <=? v) && (v <=? 65535) then Ok v else Raise (ValueError "FATAL: APP_PORT out of range").
Definition validate_ttl (v : Z) : res Z :=
  if v <=? 0 then Raise (ValueError "FATAL: token TTL values must be positive") else Ok v.
Definition validate_master_key (v : string) : res string :=
  match b64decode v with
  | Raise _ => Raise (ValueError "FATAL: ENCRYPTION_MASTER_KEY must be valid base64")
  | Ok raw => if negb (length raw =? 32)%nat
              then Raise (ValueError "FATAL: ENCRYPTION_MASTER_KEY must decode to exactly 32 bytes") else Ok v
  end.

Section Loading.
(** [Path(p)]: the text of the file, if there is one; and the PEM parser's verdict
    on bytes: an RSA key, another key, or an exception. *)
Context (read_file : string → option string) (rsa_private rsa_public : list Z → option bool).

Definition read_from_path (path : option string) : res (option string) :=
  match path with
  | None => Ok None
  | Some p =>
      if String.eqb p "" then Ok None
      else match read_file p with
           | Some t => Ok (Some t)
           | None => Raise (ValueError "Configured key path does not exist")
           end
  end.

(** [self.jwt_..._key or _read_from_path(...)]. *)
Definition key_text (key path : option string) : res (option string) :=
  match key with
  | Some k => if String.eqb k "" then read_from_path path else Ok (Some k)
  | None => read_from_path path
  end.

Definition present (k : option string) : bool := match k with Some s => negb (String.eqb s "") | None => false end.

Definition load_and_validate_keys (s : Settings) : res Settings :=
  priv ← key_text (jwt_private_key s) (jwt_private_key_path s);
  pub ← key_text (jwt_public_key s) (jwt_public_key_path s);
  if negb (present priv) then Raise (ValueError "FATAL: JWT_PRIVATE_KEY environment variable is required")
  else if negb (present pub) then Raise (ValueError "FATAL: JWT_PUBLIC_KEY environment variable is required")
  else match b64decode (default "" priv), b64decode (default "" pub) with
  | Ok priv_bytes, Ok pub_bytes =>
      match rsa_private priv_bytes, rsa_public pub_bytes with
      | Some true, Some true => Ok (with_keys (default "" priv) (default "" pub) s)
      | _, _ => Raise (ValueError "FATAL: JWT_PRIVATE_KEY/JWT_PUBLIC_KEY are not valid RSA keys")
      end
  | _, _ => Raise (ValueError "FATAL: JWT keys must be base64-encoded PEM data")
  end.

(** [Settings()] on fields of the right types: every validator, then the keys. *)
Definition validate_settings (s : Settings) : res Settings :=
  validate_db_url (database_url s) ;; validate_redis_url (redis_url s) ;;
  validate_ttl (jwt_access_ttl_minutes s) ;; validate_ttl (jwt_refresh_ttl_days s) ;;
  validate_master_key (encryption_master_key s) ;; validate_port (app_port s) ;;
  load_and_validate_keys s.

(** The module: whatever a validator raises reaches the importer as a RuntimeError. *)
Definition load_settings (s : Settings) : res Settings :=
  match validate_settings s with
  | Ok t => Ok t
  | Raise _ => Raise (RuntimeError "FATAL: invalid configuration; verify required environment variables")
  end.

(** ** What is accepted *)

Record acceptable (s : Settings) (priv pub : string) : Prop := {
  ok_db : starts_with "postgresql" (database_url s) = true;
  ok_redis : starts_with "redis://" (redis_url s) = true ∨ starts_with "rediss://" (redis_url s) = true;
  ok_ttls : 0 < jwt_access_ttl_minutes s ∧ 0 < jwt_refresh_ttl_days s;
  ok_master : ∃ raw, b64decode (encryption_master_key s) = Ok raw ∧ length raw = 32%nat;
  ok_port : 1 <= app_port s <= 65535;
  ok_priv : key_text (jwt_private_key s) (jwt_private_key_path s) = Ok (Some priv) ∧ priv ≠ "";
  ok_pub : key_text (jwt_public_key s) (jwt_public_key_path s) = Ok (Some pub) ∧ pub ≠ "";
  ok_rsa : ∃ a b, b64decode priv = Ok a ∧ b64decode pub = Ok b ∧ rsa_private a = Some true ∧ rsa_public b = Some true
}.

Lemma validate_master_key_ok v : is_ok (validate_master_key v) = true ↔ ∃ raw, b64decode v = Ok raw ∧ length raw = 32%nat.
Proof.
  unfold validate_master_key. destruct (b64decode v) as [raw|e].
  - destruct (Nat.eqb_spec (length raw) 32) as [E|E]; cbn; split; [eauto|done|done|]. intros (r & [= ->] & ?). congruence.
  - split; [done|]. by intros (r & ? & _).
Qed.

Lemma keys_ok s t : load_and_validate_keys s = Ok t ↔ ∃ priv pub,
  key_text (jwt_private_key s) (jwt_private_key_path s) = Ok (Some priv) ∧ priv ≠ "" ∧
  key_text (jwt_public_key s) (jwt_public_key_path s) = Ok (Some pub) ∧ pub ≠ "" ∧
  (∃ a b, b64decode priv = Ok a ∧ b64decode pub = Ok b ∧ rsa_private a = Some true ∧ rsa_public b = Some true) ∧
  t = with_keys priv pub s.
Proof.
  unfold load_and_validate_keys. split.
  - intros Hr. destruct (key_text (jwt_private_key s) _) as [[priv|]|]; cbn in Hr;
      [|by destruct (key_text (jwt_public_key s) _)|done].
    destruct (key_text (jwt_public_key s) _) as [[pub|]|]; cbn in Hr; [|by destruct (String.eqb priv "")|done].
    destruct (String.eqb_spec priv "") as [|Hp]; cbn in Hr; [done|].
    destruct (String.eqb_spec pub "") as [|Hq]; cbn in Hr; [done|].
    destruct (b64decode priv) as [a|] eqn:Ea; [|done]. destruct (b64decode pub) as [b|] eqn:Eb; [|done].
    destruct (rsa_private a) as [[]|] eqn:Fa, (rsa_public b) as [[]|] eqn:Fb; try done.
    injection Hr as <-. exists priv, pub. repeat split; try done. by exists a, b.
  - intros (priv & pub & -> & Hp & -> & Hq & (a & b & Ea & Eb & Fa & Fb) & ->). cbn.
    apply String.eqb_neq in Hp as ->. apply String.eqb_neq in Hq as ->. cbn. by rewrite Ea, Eb, Fa, Fb.
Qed.


(** app/core/security.py: what tokens are signed and verified with. *)
Definition private_key_bytes (s : Settings) : res (list Z) := b64decode (default "" (jwt_private_key s)).
Definition public_key_bytes (s : Settings) : res (list Z) := b64decode (default "" (jwt_public_key s)).

(** A process that has started has an RSA key pair to sign and verify with, whether
    the keys were given directly or by path. *)
Lemma started_with_keys s t :
  load_settings s = Ok t →
  ∃ a b, private_key_bytes t = Ok a ∧ public_key_bytes t = Ok b ∧ rsa_private a = Some true ∧ rsa_public b = Some true.
Proof.
  unfold load_settings, validate_settings. intros Hr. destruct (_ ≫= _) as [u|] eqn:E; [|done]. injection Hr as ->.
  assert (Hk : load_and_validate_keys s = Ok t).
  { revert E. unfold mbind, res_bind. repeat (case_match; try done). }
  apply keys_ok in Hk as (priv & pub & _ & _ & _ & _ & Hr & ->). exact Hr.
Qed.
End Loading.

(** Each decoded byte needs four thirds of a character. *)
Lemma b64_loop_length l quad pads left bs :
  b64_loop l quad pads left = inl bs → (quad <= 3)%nat →
  (4 * length bs <= 3 * length l + match quad with O => 0 | _ => 4 - quad end)%nat.
Proof.
  revert quad pads left bs. induction l as [|c l IH]; intros quad pads left bs Hr Hq.
  - cbn in Hr. destruct quad as [|[]]; [|done|done]. injection Hr as <-. simpl. lia.
  - cbn [b64_loop] in Hr. destruct (Ascii.eqb c "=").
    { destruct (2 <=? quad)%nat; [|apply IH in Hr; simpl; lia].
      destruct (4 <=? quad + S pads)%nat; [injection Hr as <-; simpl; lia|]. apply IH in Hr; simpl; lia. }
    destruct (b64_value c) as [v|]; [|apply IH in Hr; simpl; lia].
    destruct quad as [|[|[|quad]]]; [apply IH in Hr; simpl in *; lia| | |];
      (destruct (b64_loop l _ _ _) as [rest|] eqn:E in Hr; [|done]; injection Hr as <-; apply IH in E; simpl in *; lia).
Qed.

Example b64_ex : b64decode "TVRyYWRlcg==" = Ok (List.map ord (list_ascii_of_string "MTrader")).
Proof. reflexivity. Qed.
