(* ===== verification/Vault.v ===== *)
(** * The API key vault (app/core/crypto.py, app/services/vault_service.py,
      app/services/audit_service.py, app/api/routes/vault.py)

    Provider keys under envelope encryption: a random key per secret, itself
    encrypted under the master key of the settings, in one row per user and
    provider.  AES-GCM, the random generator and the database session are
    interfaces.  Texts are their UTF-8 bytes, so [encode] and [decode] are the
    identity on what was encrypted. *)

From Stdlib Require Import ZArith Lia Bool List Ascii String.
From stdpp Require Import base decidable list option strings.
From S2P Require Import Prelude PyFloat PyStr PyDateTime PyMonad PyDict PyVal Config.
Open Scope string_scope.
Open Scope Z_scope.
Open Scope py_scope.

(** ** crypto.py *)

(** [AESGCM(key).encrypt(nonce, data, None)] and [decrypt], which raises InvalidTag. *)
Record AesGcm := { aes_encrypt : string → string → string → string; aes_decrypt : string → string → string → option string }.

Fixpoint repeat_char (c : ascii) (n : nat) : string :=
  match n with O => EmptyString | S n => String c (repeat_char c n) end.

(** [raw if len(raw) == 32 else raw.ljust(32, b'0')[:32]]. *)
Definition master_key (key : string) : string :=
  if (String.length key =? 32)%nat then key
  else String.substring 0 32 (String.append key (repeat_char "0" (32 - String.length key))).

Record Sealed := { encrypted_dek : string; dek_nonce : string; ciphertext : string; data_nonce : string }.

Definition decrypt_secret (C : AesGcm) (key : string) (s : Sealed) : res string :=
  match aes_decrypt C (master_key key) (dek_nonce s) (encrypted_dek s) with
  | None => Raise (ExternalError "InvalidTag" "")
  | Some dek =>
      match aes_decrypt C dek (data_nonce s) (ciphertext s) with
      | None => Raise (ExternalError "InvalidTag" "")
      | Some plaintext => Ok plaintext
      end
  end.

(** ** models.py: the rows the vault works on *)

Inductive AuditAction := LOGIN | LOGOUT | KEY_ACCESS | SETTINGS_CHANGED | TOKEN_REFRESH.

Record AuditTrail := {
  audit_user : option Z; audit_action : AuditAction; resource_type : string;
  resource_id : option string; details : vdict; ip_address : option string
}.

Record ApiKeyVault := {
  key_id : Z; key_user : Z; key_provider : string; key_last4 : string; key_sealed : Sealed; key_updated_at : datetime
}.

(** The session: [db.scalar(select(...))] for one row, [db.scalars] for the rows of
    a user by provider; [add] or assignments, then [commit] and [refresh]; [delete]
    and [commit]; the audit row with its own commit.  [insert_key] and [update_key]
    answer the row as the database has it, with its id and its [updated_at]. *)
Record Session (W : Type) := {
  find_key : Z → string → M W (option ApiKeyVault);
  find_key_by_id : Z → Z → M W (option ApiKeyVault);   (* the row's id, the user *)
  keys_by_provider : Z → M W (list ApiKeyVault);
  insert_key : Z → string → string → Sealed → M W ApiKeyVault;
  update_key : ApiKeyVault → M W ApiKeyVault;
  delete_row : ApiKeyVault → M W unit;
  insert_audit : AuditTrail → M W unit
}.
Arguments find_key {W}. Arguments find_key_by_id {W}. Arguments keys_by_provider {W}. Arguments insert_key {W}.
Arguments update_key {W}. Arguments delete_row {W}. Arguments insert_audit {W}.

Section Vault.
Context {W : Type} (C : AesGcm) (urandom : nat → M W string) (key : string) (db : Session W).

Definition encrypt_secret (plaintext : string) : M W Sealed :=
  dek ← urandom 32%nat;
  nonce ← urandom 12%nat;
  let sealed := aes_encrypt C dek nonce plaintext in
  nonce2 ← urandom 12%nat;
  mret {| encrypted_dek := aes_encrypt C (master_key key) nonce2 dek; dek_nonce := nonce2;
          ciphertext := sealed; data_nonce := nonce |}.

(** [s[-4:]]. *)
Definition last4 (s : string) : string := last_chars 4 s.

Definition record_audit (user : option Z) (action : AuditAction) (rtype : string) (rid : option string)
    (d : option vdict) (ip : option string) : M W unit :=
  insert_audit db {| audit_user := user; audit_action := action; resource_type := rtype; resource_id := rid;
                     details := default [] d; ip_address := ip |}.

Definition upsert_key (user : Z) (provider api_key : string) : M W ApiKeyVault :=
  encrypted ← encrypt_secret api_key;
  found ← find_key db user provider;
  row ← match found with
        | None => insert_key db user provider (last4 api_key) encrypted
        | Some row => update_key db {| key_id := key_id row; key_user := key_user row; key_provider := key_provider row;
                                       key_last4 := last4 api_key; key_sealed := encrypted;
                                       key_updated_at := key_updated_at row |}
        end;
  record_audit (Some user) SETTINGS_CHANGED "vault" (Some (str_Z (key_id row))) (Some [("provider", VStr provider)]) None ;;
  mret row.

Definition list_keys (user : Z) : M W (list ApiKeyVault) := keys_by_provider db user.

Definition delete_key (user kid : Z) : M W unit :=
  found ← find_key_by_id db kid user;
  match found with
  | None => raise (HTTPException 404 "Key not found")
  | Some row =>
      delete_row db row ;;
      record_audit (Some user) SETTINGS_CHANGED "vault" (Some (str_Z kid)) (Some [("event", VStr "delete")]) None
  end.

Definition get_key_for_runtime (user : Z) (provider : string) : M W string :=
  found ← find_key db user provider;
  match found with
  | None => raise (HTTPException 404 "Provider key not found")
  | Some row =>
      record_audit (Some user) KEY_ACCESS "vault" (Some (str_Z (key_id row))) (Some [("provider", VStr provider)]) None ;;
      lift_res (decrypt_secret C key (key_sealed row))
  end.

(** The routes. *)
Definition key_view (r : ApiKeyVault) : vdict :=
  [("id", VInt (key_id r)); ("provider", VStr (key_provider r)); ("key_last4", VStr (key_last4 r));
   ("updated_at", VDate (key_updated_at r))].

Definition get_keys (user : Z) : M W (list vdict) := rows ← list_keys user; mret (List.map key_view rows).
Definition put_key (user : Z) (provider api_key : string) : M W vdict :=
  row ← upsert_key user provider api_key; mret (key_view row).
Definition remove_key (user kid : Z) : M W unit := delete_key user kid.
Definition test_key (user : Z) (provider : string) : M W vdict :=
  secret ← get_key_for_runtime user provider;
  mret [("provider", VStr provider); ("ok", VBool (8 <=? py_len secret)%nat);
        ("detail", VStr "Provider key loaded and decrypted for runtime use")].
End Vault.

(** ** What is relied on *)

Class AesLaws (C : AesGcm) := {
  law_decrypt k n p : String.length k = 32%nat → aes_decrypt C k n (aes_encrypt C k n p) = Some p
}.

(** The two tables; a call that raises is rolled back. *)
Definition Tables : Type := list ApiKeyVault * list AuditTrail.
Definition is_key (user : Z) (provider : string) (r : ApiKeyVault) : bool :=
  (key_user r =? user) && String.eqb (key_provider r) provider.

Section Sql.
Context {W : Type} (tables : W → Tables).
Definition sql {A} (m : M W A) (f : A → Tables → Tables) (ans : Tables → A → Prop) : Prop := ∀ w,
  match m w with
  | (Ok a, w') => ans (tables w) a ∧ tables w' = f a (tables w)
  | (Raise _, w') => tables w' = tables w
  end.

Lemma sql_ok {A} (m : M W A) f ans w a w' :
  sql m f ans → m w = (Ok a, w') → ans (tables w) a ∧ tables w' = f a (tables w).
Proof. intros Hm Hr. specialize (Hm w). by rewrite Hr in Hm. Qed.
End Sql.

Class VaultLaws {W} (db : Session W) (tables : W → Tables) := {
  law_find u p : sql tables (find_key db u p) (λ _ t, t) (λ t r, r = List.find (is_key u p) t.1);
  law_find_id k u : sql tables (find_key_by_id db k u) (λ _ t, t)
    (λ t r, r = List.find (λ x, (key_id x =? k) && (key_user x =? u)) t.1);
  law_keys u : sql tables (keys_by_provider db u) (λ _ t, t) (λ t l, l ≡ₚ List.filter (λ x, key_user x =? u) t.1);
  law_insert u p l s : sql tables (insert_key db u p l s) (λ r t, (t.1 ++ [r], t.2)%list)
    (λ t r, key_user r = u ∧ key_provider r = p ∧ key_last4 r = l ∧ key_sealed r = s ∧ ¬ In (key_id r) (List.map key_id t.1));
  law_update row : sql tables (update_key db row) (λ r t, (List.map (λ x, if key_id x =? key_id row then r else x) t.1, t.2))
    (λ _ r, key_id r = key_id row ∧ key_user r = key_user row ∧ key_provider r = key_provider row ∧
            key_last4 r = key_last4 row ∧ key_sealed r = key_sealed row);
  law_delete row : sql tables (delete_row db row) (λ _ t, (List.filter (λ x, negb (key_id x =? key_id row)) t.1, t.2)) (λ _ _, True);
  law_audit a : sql tables (insert_audit db a) (λ _ t, (t.1, t.2 ++ [a])%list) (λ _ _, True)
}.

(** ** Sealing and opening *)

Lemma repeat_char_length c n : String.length (repeat_char c n) = n.
Proof. induction n as [|n IH]; simpl; [done|]. by rewrite IH. Qed.

Lemma substring_length_le n s : (n <= String.length s)%nat → String.length (String.substring 0 n s) = n.
Proof.
  revert s. induction n as [|n IH]; intros s Hn; destruct s; simpl in *; try lia. by rewrite IH by lia.
Qed.

Lemma master_key_length key : String.length (master_key key) = 32%nat.
Proof.
  unfold master_key. destruct (Nat.eqb_spec (String.length key) 32); [done|].
  apply substring_length_le. rewrite str_length_app, repeat_char_length. lia.
Qed.

Section Opening.
Context {W : Type} (C : AesGcm) `{!AesLaws C} (urandom : nat → M W string).
Context (urandom_length : ∀ n w s w', urandom n w = (Ok s, w') → String.length s = n).

Lemma seal_open key key' plaintext w s w' :
  encrypt_secret C urandom key plaintext w = (Ok s, w') → master_key key = master_key key' →
  decrypt_secret C key' s = Ok plaintext.
Proof using AesLaws0 urandom_length.
  unfold encrypt_secret. intros Hr Hk. peel Hr as dek w1 H1. peel Hr as n1 w2 H2. peel Hr as n2 w3 H3.
  injection Hr as <- <-. unfold decrypt_secret. cbn. rewrite <- Hk, law_decrypt by apply master_key_length.
  rewrite law_decrypt by (by eapply urandom_length). done.
Qed.

(** An accepted master key is longer than the 32 characters that are used. *)
Lemma valid_key_truncated k : is_ok (validate_master_key k) = true → master_key k = String.substring 0 32 k.
Proof.
  intros (raw & Hd & Hl)%validate_master_key_ok. unfold b64decode in Hd.
  destruct (existsb _ _); [done|]. destruct (b64_loop _ _ _ _) as [bs|] eqn:E; [|done]. injection Hd as ->.
  apply b64_loop_length in E; [|lia]. rewrite Hl, length_list_ascii in E. unfold master_key.
  destruct (Nat.eqb_spec (String.length k) 32); [lia|].
  replace (32 - String.length k)%nat with 0%nat by lia. cbn [repeat_char]. by rewrite str_app_nil.
Qed.

(** A quarter of the master key is not used: a master key is accepted when
    its base64 text decodes to 32 bytes, but the AES key is that text's first 32
    characters, 24 of the bytes; a secret sealed under one accepted master key opens
    under every other that begins with the same 32 characters. *)
Theorem master_key_tail_is_ignored key key' plaintext w s w' :
  is_ok (validate_master_key key) = true → is_ok (validate_master_key key') = true →
  String.substring 0 32 key = String.substring 0 32 key' →
  encrypt_secret C urandom key plaintext w = (Ok s, w') → decrypt_secret C key' s = Ok plaintext.
Proof using AesLaws0 urandom_length.
  intros Hk Hk' Heq Hr. apply (seal_open _ _ _ _ _ _ Hr). by rewrite !valid_key_truncated.
Qed.
End Opening.

(** ** The key table *)

Section Table.
Context {W : Type} (C : AesGcm) `{!AesLaws C} (urandom : nat → M W string) (key : string) (db : Session W).
Context (tables : W → Tables) `{!VaultLaws db tables}.
Context (urandom_length : ∀ n w s w', urandom n w = (Ok s, w') → String.length s = n).
Context (urandom_quiet : ∀ n w, tables (urandom n w).2 = tables w).

Lemma encrypt_tables p w s w' : encrypt_secret C urandom key p w = (Ok s, w') → tables w' = tables w.
Proof using urandom_quiet.
  unfold encrypt_secret. intros Hr. peel Hr as dek w1 H1. peel Hr as n1 w2 H2. peel Hr as n2 w3 H3. injection Hr as _ <-.
  pose proof (urandom_quiet 32 w) as E1. pose proof (urandom_quiet 12 w1) as E2. pose proof (urandom_quiet 12 w2) as E3.
  rewrite H1 in E1. rewrite H2 in E2. rewrite H3 in E3. simpl in *. congruence.
Qed.

Lemma find_updated u p k row r (l : list ApiKeyVault) :
  List.find (is_key u p) l = Some row → is_key u p r = true → key_id row = k →
  List.find (is_key u p) (List.map (λ x, if key_id x =? k then r else x) l) = Some r.
Proof.
  intros Hf Hr <-. induction l as [|x l IH]; simpl in *; [done|].
  destruct (Z.eqb_spec (key_id x) (key_id row)); [by rewrite Hr|].
  destruct (is_key u p x); [by injection Hf as ->|]. by apply IH.
Qed.

Lemma find_inserted u p r (l : list ApiKeyVault) :
  List.find (is_key u p) l = None → is_key u p r = true → List.find (is_key u p) (l ++ [r]) = Some r.
Proof.
  intros Hf Hr. induction l as [|x l IH]; simpl in *; [by rewrite Hr|]. destruct (is_key u p x); [done|]. by apply IH.
Qed.

(** What storing a key leaves: the row that looking it up finds, and an audit row. *)
Lemma upsert_stores u p k w row w' :
  upsert_key C urandom key db u p k w = (Ok row, w') →
  List.find (is_key u p) (tables w').1 = Some row ∧
  (∃ w0 w1, encrypt_secret C urandom key k w0 = (Ok (key_sealed row), w1)) ∧
  ∃ a, (tables w').2 = ((tables w).2 ++ [a])%list ∧ audit_user a = Some u ∧ audit_action a = SETTINGS_CHANGED.
Proof using VaultLaws0 urandom_quiet.
  unfold upsert_key. intros Hr. peel Hr as s w1 He. peel Hr as found w2 Hf. peel Hr as row' w3 Hw.
  peel Hr as [] w4 Ha. injection Hr as -> ->.
  apply encrypt_tables in He as Ht.
  apply (sql_ok tables _ _ _ _ _ _ (law_find _ _)) in Hf as [Hf Ht2].
  unfold record_audit in Ha. apply (sql_ok tables _ _ _ _ _ _ (law_audit _)) in Ha as [_ Ht4]. rewrite Ht4. cbn.
  rewrite Ht in Hf. destruct found as [old|].
  - apply (sql_ok tables _ _ _ _ _ _ (law_update _)) in Hw as [(Hid & Hu & Hp & _ & Hs) Ht3]. cbn in *. rewrite Ht3, Ht2, Ht. cbn.
    symmetry in Hf. pose proof (List.find_some _ _ Hf) as [_ Hk]. split; [|split; [rewrite Hs; eauto|eauto 10]].
    eapply find_updated; [exact Hf| |done]. unfold is_key in *. by rewrite Hu, Hp.
  - apply (sql_ok tables _ _ _ _ _ _ (law_insert _ _ _ _)) in Hw as [(Hu & Hp & _ & Hs & _) Ht3]. rewrite Ht3, Ht2, Ht. cbn.
    split; [|split; [rewrite Hs; eauto|eauto 10]]. apply find_inserted; [done|]. unfold is_key.
    by rewrite Hu, Hp, Z.eqb_refl, String.eqb_refl.
Qed.

(** A use of a key that was stored, with what it leaves in the tables. *)
Lemma use_after_store u p k w row w1 w2 r w3 :
  upsert_key C urandom key db u p k w = (Ok row, w1) → tables w2 = tables w1 →
  (∀ x, is_ok (find_key db u p x).1 = true) → (∀ a x, is_ok (insert_audit db a x).1 = true) →
  get_key_for_runtime C key db u p w2 = (r, w3) →
  r = Ok k ∧ ∃ a, (tables w3).2 = ((tables w1).2 ++ [a])%list ∧ audit_user a = Some u ∧ audit_action a = KEY_ACCESS.
Proof using All.
  intros Hu Ht Hfind Haudit Hg. destruct (upsert_stores _ _ _ _ _ _ Hu) as (Hrow & (w0 & w0' & Henc) & _).
  unfold get_key_for_runtime in Hg. specialize (Hfind w2).
  destruct (find_key db u p w2) as [[found|e] w4] eqn:Ef; [|done]. rewrite (bind_ok _ _ _ _ _ Ef) in Hg.
  apply (sql_ok tables _ _ _ _ _ _ (law_find _ _)) in Ef as [-> Ht4]. rewrite Ht, Hrow in Hg.
  unfold record_audit in Hg. match type of Hg with context [insert_audit db ?x] => set (a := x) in * end.
  specialize (Haudit a w4). destruct (insert_audit db a w4) as [[[]|e] w5] eqn:Ea; [|done].
  rewrite (bind_ok _ _ _ _ _ Ea) in Hg. apply (sql_ok tables _ _ _ _ _ _ (law_audit _)) in Ea as [_ Ht5].
  unfold lift_res in Hg. rewrite (seal_open C urandom urandom_length key key k w0 _ w0' Henc eq_refl) in Hg.
  injection Hg as <- <-. split; [done|]. exists a. by rewrite Ht5, Ht4, Ht.
Qed.


(** The rows of everybody but [u]. *)
Definition others (u : Z) (t : Tables) : list ApiKeyVault := List.filter (λ x, negb (key_user x =? u)) t.1.
Lemma NoDup_map_inj {X Y} (f : X → Y) l x y : List.NoDup (List.map f l) → In x l → In y l → f x = f y → x = y.
Proof.
  induction l as [|z l IH]; simpl; [done|]. intros Hnd%List.NoDup_cons_iff. destruct Hnd as [Hni Hnd].
  intros [->|Hx] [->|Hy] Hf; [done| | |by apply IH]; exfalso; apply Hni; [rewrite Hf|rewrite <- Hf]; by apply in_map.
Qed.

Definition ids_unique (t : Tables) : Prop := List.NoDup (List.map key_id t.1).

Inductive VaultRequest := ListKeys | PutKey (provider api_key : string) | DeleteKey (kid : Z) | TestKey (provider : string).

(** A request of user [u], whatever it answers. *)
Definition serve (u : Z) (q : VaultRequest) : M W unit :=
  match q with
  | ListKeys => get_keys db u ;; mret tt
  | PutKey p k => put_key C urandom key db u p k ;; mret tt
  | DeleteKey kid => delete_key db u kid
  | TestKey p => test_key C key db u p ;; mret tt
  end.

(** [sound u o]: the ids are unique and the rows of the others are [o]. *)
Definition sound (u : Z) (o : list ApiKeyVault) (w : W) : Prop := ids_unique (tables w) ∧ others u (tables w) = o.

Lemma sql_sound {A} u o (m : M W A) f ans :
  sql tables m f ans → (∀ a t, ans t a → ids_unique t → ids_unique (f a t) ∧ others u (f a t) = others u t) →
  preserves (sound u o) m.
Proof.
  intros Hm Hf w [Hi Ho]. specialize (Hm w). destruct (m w) as [[a|e] w'].
  - destruct Hm as [Ha Ht]. destruct (Hf _ _ Ha Hi) as [? Heq]. split; simpl; rewrite Ht; [done|]. by rewrite Heq.
  - split; simpl; by rewrite Hm.
Qed.

Lemma find_mine u t (q : ApiKeyVault → bool) row :
  (∀ x, q x = true → key_user x = u) → List.find q t = Some row → In row t ∧ key_user row = u.
Proof. intros Hq Hf. apply List.find_some in Hf as [? ?]. auto. Qed.

(** Replacing a row of [u] by another of his under the same id. *)
Lemma update_others u row r t :
  In row t.1 → key_user row = u → key_user r = u → key_id r = key_id row → ids_unique t →
  let l := List.map (λ x, if key_id x =? key_id row then r else x) t.1 in
  List.map key_id l = List.map key_id t.1 ∧ List.filter (λ x, negb (key_user x =? u)) l = others u t.
Proof.
  unfold ids_unique, others. destruct t as [l a]. cbn. intros Hin Hu Hr Hid Hnd. split.
  - rewrite map_map. apply map_ext. intros x. destruct (Z.eqb_spec (key_id x) (key_id row)); congruence.
  - induction l as [|x l IH]; simpl in *; [done|]. apply List.NoDup_cons_iff in Hnd as [Hni Hnd].
    destruct (Z.eqb_spec (key_id x) (key_id row)) as [E|E].
    + destruct Hin as [->|Hin]; [|exfalso; apply Hni; rewrite E; by apply in_map].
      rewrite Hr, Hu, !Z.eqb_refl. simpl. f_equal. rewrite <- (map_id l) at 2. apply map_ext_in. intros y Hy.
      destruct (Z.eqb_spec (key_id y) (key_id row)) as [E'|]; [|done].
      exfalso. apply Hni. rewrite <- E'. by apply in_map.
    + destruct Hin as [->|Hin]; [done|]. destruct (negb (key_user x =? u)); [f_equal|]; by apply IH.
Qed.

Lemma delete_others u row t :
  In row t.1 → key_user row = u → ids_unique t →
  let l := List.filter (λ x, negb (key_id x =? key_id row)) t.1 in
  List.NoDup (List.map key_id l) ∧ List.filter (λ x, negb (key_user x =? u)) l = others u t.
Proof.
  unfold ids_unique, others. destruct t as [l a]. cbn. intros Hin Hu Hnd. split.
  - clear Hin. induction l as [|x l IH]; simpl in *; [constructor|]. apply List.NoDup_cons_iff in Hnd as [Hni Hnd].
    destruct (negb (key_id x =? key_id row)); simpl; [|by apply IH]. constructor; [|by apply IH].
    intros (y & Hy & Hin)%in_map_iff. apply filter_In in Hin as [Hin _]. apply Hni. rewrite <- Hy. by apply in_map.
  - induction l as [|x l IH]; simpl in *; [done|]. apply List.NoDup_cons_iff in Hnd as [Hni Hnd].
    destruct (Z.eqb_spec (key_id x) (key_id row)) as [E|E]; simpl.
    + destruct Hin as [->|Hin]; [|exfalso; apply Hni; rewrite E; by apply in_map].
      rewrite Hu, Z.eqb_refl. simpl. f_equal. apply filter_all, List.Forall_forall. intros y Hy.
      apply negb_true_iff, Z.eqb_neq. intros E'. apply Hni. rewrite <- E'. by apply in_map.
    + destruct Hin as [->|Hin]; [done|]. destruct (negb (key_user x =? u)); [f_equal|]; by apply IH.
Qed.

Lemma read_sound {A} u o (m : M W A) ans : sql tables m (λ _ t, t) ans → preserves (sound u o) m.
Proof. intros Hm. eapply sql_sound; [exact Hm|done]. Qed.

Lemma audit_sound u o a : preserves (sound u o) (insert_audit db a).
Proof using VaultLaws0. eapply sql_sound; [apply law_audit|]. by intros [] [l as'] _ Hi. Qed.

Lemma urandom_sound u o n : preserves (sound u o) (urandom n).
Proof using urandom_quiet. intros w Hw. unfold sound. by rewrite urandom_quiet. Qed.

Lemma insert_sound u o p l s : preserves (sound u o) (insert_key db u p l s).
Proof using VaultLaws0.
  eapply sql_sound; [apply law_insert|]. intros r [ks as'] (Hu & _ & _ & _ & Hni) Hi. unfold ids_unique, others in *. cbn in *.
  rewrite map_app, List.filter_app. cbn. rewrite Hu, Z.eqb_refl. cbn. rewrite app_nil_r.
  split; [by apply NoDup_snoc|done].
Qed.

(** Finding a row and changing it, in one rule: what was found is still there. *)
Lemma find_then_sound {A B} u o (m : M W (option A)) (k : option A → M W B) (test : ApiKeyVault → bool)
    (row_of : A → ApiKeyVault) :
  sql tables m (λ _ t, t) (λ t r, option_map row_of r = List.find test t.1) →
  (∀ x, test x = true → key_user x = u) →
  preserves (sound u o) (k None) →
  (∀ a w, sound u o w → In (row_of a) (tables w).1 → key_user (row_of a) = u → sound u o (k (Some a) w).2) →
  preserves (sound u o) (m ≫= k).
Proof.
  intros Hm Ht Hn Hs w Hw. unfold mbind, M_bind. specialize (Hm w). destruct (m w) as [[[a|]|e] w'].
  - destruct Hm as [Ha Heq]. symmetry in Ha. apply (find_mine u) in Ha as [Hin Hu]; [|done].
    apply Hs; [unfold sound; by rewrite Heq|by rewrite Heq|done].
  - destruct Hm as [_ Heq]. apply Hn. unfold sound. by rewrite Heq.
  - unfold sound. simpl. by rewrite Hm.
Qed.

Lemma update_sound u o row row' w :
  sound u o w → In row (tables w).1 → key_user row = u → key_id row' = key_id row → key_user row' = u →
  sound u o (update_key db row' w).2.
Proof using VaultLaws0.
  intros [Hi Ho] Hin Hu Hid Hu'. pose proof (law_update row' w) as Hl.
  destruct (update_key db row' w) as [[r|e] w']; unfold sound; simpl; [|by rewrite Hl].
  destruct Hl as [(Hrid & Hru & _) ->]. rewrite Hid.
  destruct (update_others u row r (tables w) Hin Hu) as [E1 E2]; [congruence|congruence|done|].
  unfold ids_unique, others. cbn. split; [by rewrite E1|by rewrite E2].
Qed.

Lemma delete_sound u o row w :
  sound u o w → In row (tables w).1 → key_user row = u → sound u o (delete_row db row w).2.
Proof using VaultLaws0.
  intros [Hi Ho] Hin Hu. pose proof (law_delete row w) as Hl.
  destruct (delete_row db row w) as [[[]|e] w']; unfold sound; simpl; [|by rewrite Hl].
  destruct Hl as [_ ->]. destruct (delete_others u row (tables w) Hin Hu Hi) as [E1 E2].
  unfold ids_unique, others. cbn. by split; [|rewrite E2].
Qed.

#[local] Hint Resolve audit_sound urandom_sound insert_sound : py_pres.

Lemma is_key_user u p x : is_key u p x = true → key_user x = u.
Proof. unfold is_key. by intros [?%Z.eqb_eq _]%andb_true_iff. Qed.

Lemma find_option_id {A} (r : option A) : option_map id r = r.
Proof. by destruct r. Qed.

Lemma find_law_id u p : sql tables (find_key db u p) (λ _ t, t) (λ t r, option_map id r = List.find (is_key u p) t.1).
Proof using VaultLaws0. intros w. pose proof (law_find u p w) as Hl. destruct (find_key _ _ _ w) as [[r|]]; [|done]. by rewrite find_option_id. Qed.

Lemma serve_sound u o q : preserves (sound u o) (serve u q).
Proof using VaultLaws0 urandom_quiet.
  destruct q as [|p k|kid|p]; simpl.
  - apply preserves_bind; [|solve_pres]. unfold get_keys, list_keys. apply preserves_bind; [|solve_pres].
    eapply read_sound. apply law_keys.
  - unfold put_key, upsert_key, encrypt_secret, record_audit. apply preserves_bind; [|solve_pres].
    apply preserves_bind; [|solve_pres]. apply preserves_bind; [solve_pres|]. intros s.
    apply (find_then_sound u o _ _ (is_key u p) id); [exact (find_law_id u p)|exact (is_key_user u p)|solve_pres|].
    intros row w Hw Hin Hu. apply bind_then; [|solve_pres]. by apply (update_sound u o row).
  - unfold delete_key, record_audit.
    apply (find_then_sound u o _ _ (λ x, (key_id x =? kid) && (key_user x =? u)) id); [| |solve_pres|].
    + intros w. pose proof (law_find_id kid u w) as Hl. destruct (find_key_by_id _ _ _ w) as [[r|]]; [|done].
      by rewrite find_option_id.
    + by intros x [_ ?%Z.eqb_eq]%andb_true_iff.
    + intros row w Hw Hin Hu. apply bind_then; [|solve_pres]. by apply delete_sound.
  - unfold test_key, get_key_for_runtime, record_audit. apply preserves_bind; [|solve_pres]. apply preserves_bind; [|solve_pres].
    apply preserves_bind; [eapply read_sound; apply law_find|]. solve_pres.
Qed.

(** C26. No request of one user changes another's keys: whatever a user asks (list,
    store, delete, test) and however the request ends, the rows of everybody else
    are untouched; asking to delete a row that is not his own is answered 404 when
    the database answers, and deletes nothing. *)
Theorem other_users_keys_are_untouched u q w :
  ids_unique (tables w) →
  others u (tables (serve u q w).2) = others u (tables w) ∧
  ∀ kid row, q = DeleteKey kid → In row (tables w).1 → key_id row = kid → key_user row ≠ u →
    tables (serve u q w).2 = tables w ∧
    (is_ok (find_key_by_id db kid u w).1 = true → (serve u q w).1 = Raise (HTTPException 404 "Key not found")).
Proof using VaultLaws0 urandom_quiet.
  intros Hi. split; [by apply (serve_sound u (others u (tables w)) q)|]. intros kid row -> Hin Hid Hu. simpl. unfold delete_key, mbind, M_bind.
  pose proof (law_find_id kid u w) as Hl. destruct (find_key_by_id db kid u w) as [[r|e] w1]; [|done].
  destruct Hl as [Hr Ht]. assert (List.find (λ x, (key_id x =? kid) && (key_user x =? u)) (tables w).1 = None) as Hf.
  { destruct (List.find _ _) as [x|] eqn:Ef; [|done]. exfalso.
    apply List.find_some in Ef as [Hx [Ek%Z.eqb_eq Eu%Z.eqb_eq]%andb_true_iff].
    apply Hu. rewrite <- Eu. f_equal. by apply (NoDup_map_inj key_id (tables w).1); [..|congruence]. }
  rewrite Hr, Hf. done.
Qed.
End Table.

(** ** A vault in memory, and the theorems on it *)

(** Not a cipher: it marks the text with key and nonce, which is all the laws ask. *)
Definition demo_aes : AesGcm := {|
  aes_encrypt k n p := (k ++ n ++ p)%string;
  aes_decrypt k n c := if starts_with (k ++ n)%string c
    then Some (String.substring (String.length (k ++ n)%string) (String.length c - String.length (k ++ n)%string) c) else None
|}.

#[export] Instance demo_aes_laws : AesLaws demo_aes.
Proof.
  split. intros k n p _. cbn [aes_encrypt aes_decrypt demo_aes]. rewrite <- (str_app_assoc k n p).
  assert (starts_with (k ++ n)%string ((k ++ n) ++ p)%string = true) as -> by (apply starts_with_app; by exists p).
  f_equal. rewrite (str_length_app (k ++ n)%string p).
  replace (String.length (k ++ n) + String.length p - String.length (k ++ n))%nat with (String.length p) by lia.
  apply substring_app_r.
Qed.

Definition demo_random (n : nat) : M Tables string := mret (repeat_char "r" n).
Definition fresh_id (l : list ApiKeyVault) : Z := 1 + fold_right Z.max 0 (List.map key_id l).

Lemma fresh_id_new l : ¬ In (fresh_id l) (List.map key_id l).
Proof.
  assert (∀ x, In x (List.map key_id l) → x <= fold_right Z.max 0 (List.map key_id l)) as Hm.
  { induction (List.map key_id l) as [|y r IH]; simpl; [done|]. intros x [->|Hx%IH]; lia. }
  intros Hin%Hm. unfold fresh_id in Hin. lia.
Qed.

Definition demo_session : Session Tables := {|
  find_key u p := gets (λ t, List.find (is_key u p) t.1);
  find_key_by_id k u := gets (λ t, List.find (λ x, (key_id x =? k) && (key_user x =? u)) t.1);
  keys_by_provider u := gets (λ t, List.filter (λ x, key_user x =? u) t.1);
  insert_key u p l s := λ t,
    let r := {| key_id := fresh_id t.1; key_user := u; key_provider := p; key_last4 := l; key_sealed := s;
                key_updated_at := DT 2026 2 12 9 0 0 0 |} in (Ok r, (t.1 ++ [r], t.2)%list);
  update_key row := λ t, (Ok row, (List.map (λ x, if key_id x =? key_id row then row else x) t.1, t.2));
  delete_row row := modify (λ t, (List.filter (λ x, negb (key_id x =? key_id row)) t.1, t.2));
  insert_audit a := modify (λ t, (t.1, t.2 ++ [a])%list)
|}.

#[export] Instance demo_vault_laws : VaultLaws demo_session id.
Proof. split; intros; intros w; cbn; repeat split; try done. apply fresh_id_new. Qed.

Lemma demo_random_length n w s w' : demo_random n w = (Ok s, w') → String.length s = n.
Proof. intros [= <- _]. apply repeat_char_length. Qed.
Lemma demo_random_quiet n w : id (demo_random n w).2 = id w.
Proof. done. Qed.

(** Two master keys of 32 bytes that differ in the 25th. *)
Definition key_a : string := "AAAAAAAAAAAAAAAAAAAAAAAAAAAAAAAAAAAAAAAAAAA=".
Definition key_b : string := "AAAAAAAAAAAAAAAAAAAAAAAAAAAAAAAABBBBBBBBBBA=".

Definition demo_sealed : Sealed :=
  match (encrypt_secret demo_aes demo_random key_a "sk-live-1234" ([], [])).1 with
  | Ok s => s
  | Raise _ => {| encrypted_dek := ""; dek_nonce := ""; ciphertext := ""; data_nonce := "" |}
  end.

Lemma master_key_witness :
  b64decode key_a ≠ b64decode key_b ∧ decrypt_secret demo_aes key_b demo_sealed = Ok "sk-live-1234".
Proof.
  split; [vm_compute; discriminate|].
  refine (master_key_tail_is_ignored demo_aes demo_random demo_random_length key_a key_b "sk-live-1234"
    ([], []) demo_sealed ([], []) _ _ _ _); vm_compute; reflexivity.
Defined.

Definition demo_stored : res ApiKeyVault * Tables :=
  upsert_key demo_aes demo_random key_a demo_session 1 "broker" "sk-live-1234" ([], []).
Definition demo_row : ApiKeyVault := match demo_stored.1 with
  | Ok r => r
  | Raise _ => {| key_id := 0; key_user := 0; key_provider := ""; key_last4 := ""; key_sealed := demo_sealed;
                  key_updated_at := DT 1970 1 1 0 0 0 0 |}
  end.
Definition demo_used : res string * Tables := get_key_for_runtime demo_aes key_a demo_session 1 "broker" demo_stored.2.


(** User 2 asks to delete user 1's key. *)
Lemma other_users_witness :
  others 2 (serve demo_aes demo_random key_a demo_session 2 (DeleteKey 1) demo_stored.2).2 = others 2 demo_stored.2 ∧
  (serve demo_aes demo_random key_a demo_session 2 (DeleteKey 1) demo_stored.2).1 = Raise (HTTPException 404 "Key not found").
Proof.
  assert (ids_unique demo_stored.2) as Hi by (vm_compute; repeat constructor; intros []).
  destruct (other_users_keys_are_untouched demo_aes demo_random key_a demo_session id demo_random_quiet 2 (DeleteKey 1)
    demo_stored.2 Hi) as [Ho Hd].
  split; [exact Ho|]. apply (Hd 1 demo_row eq_refl); [vm_compute; by left|reflexivity|vm_compute; discriminate|reflexivity].
Defined.
