(* ===== verification/MarketData.v ===== *)
(** * The market data service (market_data_service/src/providers/base.py, src/app.py)

    The MetaTrader 5 price provider with its streaming tasks, and the HTTP and
    WebSocket routes over the one provider of the process.  The MetaTrader5
    module and the sockets are interfaces. *)

From Stdlib Require Import ZArith Lia Bool List Ascii String.
From stdpp Require Import base decidable list option strings.
From S2P Require Import Prelude PyFloat PyStr PyDateTime PyMonad PyDict PyVal.
Open Scope string_scope.
Open Scope Z_scope.
Open Scope py_scope.

Inductive Timeframe := M1 | M5 | M15 | M30 | H1 | H4 | D1 | W1 | MN1.

Definition timeframe_value (t : Timeframe) : string :=
  match t with
  | M1 => "M1" | M5 => "M5" | M15 => "M15" | M30 => "M30" | H1 => "H1" | H4 => "H4" | D1 => "D1" | W1 => "W1" | MN1 => "MN1"
  end.
Definition timeframes : list Timeframe := [M1; M5; M15; M30; H1; H4; D1; W1; MN1].
Definition timeframe_of (s : string) : res Timeframe :=
  enum_of (List.map (λ t, (t, timeframe_value t)) timeframes) "Timeframe" (VStr s).

Record Tick := {
  tick_symbol : string; bid : float; ask : float; tick_time : datetime; tick_volume : Z; tick_provider : string
}.

Record OHLCV := {
  bar_symbol : string; timeframe : Timeframe; bar_time : datetime; open : float; high : float; low : float;
  close : float; volume : float; bar_tick_volume : Z; spread : Z; bar_provider : string
}.

(** The MetaTrader5 module; rows of its arrays are payloads, [None] its failures. *)
Record Mt5Data (W : Type) := {
  initialize : option string → M W bool;
  login : Z → string → string → M W bool;
  shutdown : M W unit;
  copy_ticks_range : string → datetime → datetime → M W (option (list vdict));
  copy_ticks_from : string → datetime → Z → M W (option (list vdict));
  copy_rates_range : string → Z → datetime → datetime → M W (option (list vdict));
  copy_rates_from : string → Z → datetime → Z → M W (option (list vdict));
  symbol_select : string → bool → M W bool;
  symbol_info : string → M W (option vdict);
  timeframe_code : Timeframe → Z
}.
Arguments initialize {W}. Arguments login {W}. Arguments shutdown {W}. Arguments copy_ticks_range {W}.
Arguments copy_ticks_from {W}. Arguments copy_rates_range {W}. Arguments copy_rates_from {W}.
Arguments symbol_select {W}. Arguments symbol_info {W}. Arguments timeframe_code {W}.

(** What ticks are streamed to: the [lambda _: None] of POST /subscriptions, or the
    callback of a WebSocket. *)
Inductive Callback := Ignore | ToSocket (socket : string).

Record Task := { task_id : Z; task_symbol : string; task_callback : Callback }.

(** [_tasks] is the provider's table; [live] are the tasks the event loop still
    runs: created, and neither cancelled nor at their end. *)
Record MT5Provider := {
  account : Z; password : string; server : string; path : option string;
  connected : bool; tasks : dict string Task; live : list Task; next_task : Z
}.

Definition new_provider (acct : Z) (pw srv : string) (p : option string) : MT5Provider := {|
  account := acct; password := pw; server := srv; path := p; connected := false; tasks := []; live := []; next_task := 0 |}.

Definition with_connected (b : bool) (p : MT5Provider) : MT5Provider := {|
  account := account p; password := password p; server := server p; path := path p; connected := b;
  tasks := tasks p; live := live p; next_task := next_task p |}.
Definition with_tasks (t : dict string Task) (p : MT5Provider) : MT5Provider := {|
  account := account p; password := password p; server := server p; path := path p; connected := connected p;
  tasks := t; live := live p; next_task := next_task p |}.

(** The task is cancelled, or has returned or raised. *)
Definition finish (t : Task) (p : MT5Provider) : MT5Provider := {|
  account := account p; password := password p; server := server p; path := path p; connected := connected p;
  tasks := tasks p; live := List.filter (λ u, negb (task_id u =? task_id t)) (live p); next_task := next_task p |}.

(** [self._tasks[s] = asyncio.create_task(self._stream(s, callback))]. *)
Definition start_stream (s : string) (cb : Callback) (p : MT5Provider) : MT5Provider :=
  let t := {| task_id := next_task p; task_symbol := s; task_callback := cb |} in {|
  account := account p; password := password p; server := server p; path := path p; connected := connected p;
  tasks := dset (tasks p) s t; live := (live p ++ [t])%list; next_task := next_task p + 1 |}.

Section Provider.
Context {W : Type} (mt5 : option (Mt5Data W)) (utcnow : M W datetime) (sleep : float → M W unit).
Context (send_json : string → vdict → M W unit).
Abbreviation P := (MT5Provider * W)%type.

Definition update (f : MT5Provider → MT5Provider) : M P unit := modify (λ pw, (f pw.1, pw.2)).
Definition look {A} (f : MT5Provider → A) : M P A := gets (λ pw, f pw.1).

(** An attribute of the module, which may not be installed. *)
Definition module : M P (Mt5Data W) :=
  match mt5 with Some m => mret m | None => raise (AttributeError "NoneType") end.

Definition provider_connect : M P bool :=
  match mt5 with
  | None => mret false
  | Some m =>
      p ← look path;
      ok ← zoom_r (initialize m (match p with Some s => if String.eqb s "" then None else Some s | None => None end));
      if negb ok then mret false
      else
        acct ← look account; pw ← look password; srv ← look server;
        b ← zoom_r (login m acct pw srv);
        update (with_connected b) ;; mret b
  end.

Definition provider_disconnect : M P unit :=
  ts ← look (λ p, dvalues (tasks p));
  for_each (λ t, update (finish t)) ts ;;
  update (with_tasks []) ;;
  match mt5 with Some m => zoom_r (shutdown m) | None => mret tt end ;;
  update (with_connected false).

Definition when_of (r : vdict) : res datetime :=
  v ← vindex r "time"; n ← py_int v;
  match utcfromtimestamp n with Some d => Ok d | None => Raise (ValueError "year is out of range") end.

Definition float_of (r : vdict) (k : string) : res float := v ← vindex r k; py_float v.
Definition int_of (r : vdict) (k : string) : res Z := v ← vindex r k; py_int v.

Definition tick_of (symbol : string) (r : vdict) : res Tick :=
  b ← float_of r "bid"; a ← float_of r "ask"; t ← when_of r; v ← int_of r "volume";
  mret {| tick_symbol := symbol; bid := b; ask := a; tick_time := t; tick_volume := v; tick_provider := "mt5" |}.

Definition bar_of (symbol : string) (tf : Timeframe) (r : vdict) : res OHLCV :=
  t ← when_of r; o ← float_of r "open"; h ← float_of r "high"; l ← float_of r "low"; c ← float_of r "close";
  v ← float_of r "real_volume"; tv ← int_of r "tick_volume"; sp ← int_of r "spread";
  mret {| bar_symbol := symbol; timeframe := tf; bar_time := t; open := o; high := h; low := l; close := c;
          volume := v; bar_tick_volume := tv; spread := sp; bar_provider := "mt5" |}.

Definition get_ticks (symbol : string) (start : datetime) (end_ : option datetime) (limit : Z) : M P (list Tick) :=
  m ← module;
  data ← zoom_r (match end_ with Some e => copy_ticks_range m symbol start e | None => copy_ticks_from m symbol start limit end);
  match data with
  | None => mret []
  | Some rows => map_each (λ r, lift_res (tick_of symbol r)) rows
  end.

Definition get_ohlcv (symbol : string) (tf : Timeframe) (start : datetime) (end_ : option datetime) (limit : Z) : M P (list OHLCV) :=
  m ← module;
  let tfi := timeframe_code m tf in
  data ← zoom_r (match end_ with Some e => copy_rates_range m symbol tfi start e | None => copy_rates_from m symbol tfi start limit end);
  match data with
  | None => mret []
  | Some rows => map_each (λ r, lift_res (bar_of symbol tf r)) rows
  end.

(** [result] grows in the order of the symbols. *)
Fixpoint subscribe_each (m : Mt5Data W) (symbols : list string) (cb : Callback) (result : dict string bool) : M P (dict string bool) :=
  match symbols with
  | [] => mret result
  | s :: r =>
      ok ← zoom_r (symbol_select m s true);
      known ← look (λ p, dmem (tasks p) s);
      when (ok && negb known) (update (start_stream s cb)) ;;
      subscribe_each m r cb (dset result s ok)
  end.

Definition subscribe_ticks (symbols : list string) (cb : Callback) : M P (dict string bool) :=
  match symbols with [] => mret [] | _ => m ← module; subscribe_each m symbols cb [] end.

Definition unsubscribe_one (s : string) : M P unit :=
  task ← look (λ p, dget (tasks p) s);
  (match task with
   | Some t => update (λ p, finish t (with_tasks (dpop (tasks p) s) p))
   | None => mret tt
   end) ;;
  m ← module;
  zoom_r (symbol_select m s false) ;; mret tt.

Definition unsubscribe_ticks (symbols : list string) : M P unit := for_each unsubscribe_one symbols.

Definition get_instrument_info (symbol : string) : M P vdict :=
  m ← module;
  info ← zoom_r (symbol_info m symbol);
  mret (default [] info).

(** ** The interface of a provider *)

(** [MarketDataProvider]: the methods an implementation has to give. *)
Record MarketDataProvider := {
  mdp_connect : M P bool;
  mdp_disconnect : M P unit;
  mdp_get_ticks : string → datetime → option datetime → Z → M P (list Tick);
  mdp_get_ohlcv : string → Timeframe → datetime → option datetime → Z → M P (list OHLCV);
  mdp_subscribe_ticks : list string → Callback → M P (dict string bool);
  mdp_unsubscribe_ticks : list string → M P unit;
  mdp_get_instrument_info : string → M P vdict;
  mdp_name : M P string;
  mdp_is_connected : M P bool
}.

Definition not_implemented {A} : M P A := raise (ExternalError "NotImplementedError" "").

(** The bodies of the abstract methods. *)
Definition abstract_provider : MarketDataProvider := {|
  mdp_connect := not_implemented; mdp_disconnect := not_implemented;
  mdp_get_ticks _ _ _ _ := not_implemented; mdp_get_ohlcv _ _ _ _ _ := not_implemented;
  mdp_subscribe_ticks _ _ := not_implemented; mdp_unsubscribe_ticks _ := not_implemented;
  mdp_get_instrument_info _ := not_implemented; mdp_name := not_implemented; mdp_is_connected := not_implemented |}.

Definition provider_name : string := "mt5".

(** [class MT5Provider(MarketDataProvider)] *)
Definition mt5_provider : MarketDataProvider := {|
  mdp_connect := provider_connect; mdp_disconnect := provider_disconnect;
  mdp_get_ticks := get_ticks; mdp_get_ohlcv := get_ohlcv;
  mdp_subscribe_ticks := subscribe_ticks; mdp_unsubscribe_ticks := unsubscribe_ticks;
  mdp_get_instrument_info := get_instrument_info;
  mdp_name := mret provider_name; mdp_is_connected := look connected |}.

(** ** src/app.py *)

(** [tick.__dict__]: [Tick] and [OHLCV] are dataclasses with [slots=True], whose
    instances have no [__dict__]. *)
Definition tick_dict (t : Tick) : res vdict := Raise (AttributeError "__dict__").
Definition bar_dict (b : OHLCV) : res vdict := Raise (AttributeError "__dict__").

Definition call_back (cb : Callback) (t : Tick) : M P unit :=
  match cb with
  | Ignore => mret tt
  | ToSocket s => d ← lift_res (tick_dict t); zoom_r (send_json s d)
  end.

(** One turn of [_stream] of the task [t]; a task that raises is at its end too. *)
Definition stream_once (t : Task) : M P unit :=
  on ← look connected;
  if negb on then update (finish t)
  else
    try_except
      (m ← module;
       now ← zoom_r utcnow;
       ticks ← zoom_r (copy_ticks_from m (task_symbol t) now 1);
       (match ticks with
        | Some rows => match last rows with
                       | Some row => tick ← lift_res (tick_of (task_symbol t) row); call_back (task_callback t) tick
                       | None => mret tt
                       end
        | None => mret tt
        end) ;;
       zoom_r (sleep f1))
      (λ _, update (finish t)).

Section Routes.
(** [datetime.fromisoformat] of a query parameter. *)
Context (parse_time : string → res datetime).

Definition opt_time (end_ : option string) : res (option datetime) :=
  match end_ with
  | Some e => if String.eqb e "" then Ok None else d ← parse_time e; mret (Some d)
  | None => Ok None
  end.

Definition ticks_route (symbol start : string) (end_ : option string) (limit : Z) : M P (list vdict) :=
  st ← lift_res (parse_time start); ed ← lift_res (opt_time end_);
  data ← get_ticks symbol st ed limit;
  map_each (λ d, lift_res (tick_dict d)) data.

Definition ohlcv_route (symbol tf start : string) (end_ : option string) (limit : Z) : M P (list vdict) :=
  st ← lift_res (parse_time start); ed ← lift_res (opt_time end_); tf ← lift_res (timeframe_of tf);
  data ← get_ohlcv symbol tf st ed limit;
  map_each (λ b, d ← lift_res (bar_dict b); mret (dset d "timeframe" (VStr (timeframe_value (timeframe b))))) data.
End Routes.

Definition subscribe_route (symbols : list string) : M P (dict string bool) := subscribe_ticks symbols Ignore.

(** One message of [ws_ticks]: the symbols the socket holds, before and after. *)
Definition ws_message (socket action : string) (symbols active : list string) : M P (list string) :=
  if String.eqb action "subscribe" then
    subscribe_ticks symbols (ToSocket socket) ;; mret (active ++ symbols)%list
  else if String.eqb action "unsubscribe" then
    unsubscribe_ticks symbols ;;
    mret (List.filter (λ s, negb (existsb (String.eqb s) symbols)) active)
  else mret active.

(** [except WebSocketDisconnect]. *)
Definition ws_leave (active : list string) : M P unit :=
  when (match active with [] => false | _ => true end) (unsubscribe_ticks active).
End Provider.

(** The provider the service starts with: it never calls [connect]. *)
Definition startup : MT5Provider := new_provider 0 "" "" None.

(** ** The table of streams *)

(** Every running stream is the one its symbol's entry names. *)
Record listed (p : MT5Provider) : Prop := {
  listed_wf : dict_wf (tasks p);
  listed_live t : In t (live p) → dget (tasks p) (task_symbol t) = Some t;
  listed_key k t : dget (tasks p) k = Some t → task_symbol t = k;
  listed_next t : In t (live p) → task_id t < next_task p
}.

Lemma listed_start : listed startup.
Proof. split; cbn; [constructor|done..]. Qed.

Lemma listed_finish t p : listed p → listed (finish t p).
Proof. intros [H1 H2 H3 H4]. split; cbn; auto; intros u [Hu _]%filter_In; auto. Qed.

Lemma listed_connected b p : listed p → listed (with_connected b p).
Proof. by intros []. Qed.

Lemma listed_stream s cb p : listed p → dget (tasks p) s = None → listed (start_stream s cb p).
Proof.
  intros [H1 H2 H3 H4] Hn. split; cbn.
  - by apply dict_wf_dset.
  - intros t [Ht|[<-|[]]]%in_app_iff; cbn; [|apply dget_dset_eq].
    rewrite dget_dset_ne; [auto|]. intros ->. apply H2 in Ht. congruence.
  - intros k t. rewrite dget_dset. destruct (decide _) as [<-|]; [by intros [= <-]|auto].
  - intros t [Ht|[<-|[]]]%in_app_iff; cbn; [|lia]. apply H4 in Ht. lia.
Qed.

Lemma listed_pop s t p : listed p → dget (tasks p) s = Some t → listed (finish t (with_tasks (dpop (tasks p) s) p)).
Proof.
  intros [H1 H2 H3 H4] Hs. pose proof (H3 _ _ Hs) as Hsym. split; cbn.
  - by apply dict_wf_dpop.
  - intros u [Hu Hne]%filter_In. pose proof (H2 _ Hu) as Hg. rewrite dget_dpop_ne; [done|]. intros ->.
    rewrite Hs in Hg. injection Hg as ->. by rewrite Z.eqb_refl in Hne.
  - intros k u Hk. destruct (decide (s = k)) as [<-|Hne]; [by rewrite dget_dpop_eq in Hk|].
    rewrite dget_dpop_ne in Hk by done. auto.
  - intros u [Hu _]%filter_In. auto.
Qed.

(** Cancelling every listed task leaves no stream. *)
Lemma finish_all {W} ts p (w : W) :
  ∃ p', for_each (λ t, update (finish t)) ts (p, w) = (Ok tt, (p', w)) ∧ tasks p' = tasks p ∧ next_task p' = next_task p ∧
        ∀ u, In u (live p') → In u (live p) ∧ ¬ In u ts.
Proof.
  revert p. induction ts as [|t ts IH]; intros p; cbn [for_each]; [exists p; repeat split; [done|intros []]|].
  destruct (IH (finish t p)) as (p' & Hr & Ht & Hn & Hl). exists p'. split; [exact Hr|]. split; [done|]. split; [done|].
  intros u Hu. destruct (Hl u Hu) as [Hin Hni]. apply filter_In in Hin as [Hin Hne]. split; [done|].
  intros [->|?]; [by rewrite Z.eqb_refl in Hne|done].
Qed.

Section Streams.
Context {W : Type} (mt5 : option (Mt5Data W)) (utcnow : M W datetime) (sleep : float → M W unit).
Context (send_json : string → vdict → M W unit) (parse_time : string → res datetime).

Definition good (pw : MT5Provider * W) : Prop := listed pw.1.

Lemma update_good f : (∀ p, listed p → listed (f p)) → preserves good (update (W:=W) f).
Proof. intros Hf. apply preserves_modify. intros [p w]. apply Hf. Qed.

Lemma provider_world {A} (m : M W A) : preserves good (zoom_r m).
Proof. apply (preserves_zoom_r listed). Qed.

#[local] Hint Resolve listed_finish listed_connected : py_list.
#[local] Hint Extern 1 (preserves good (zoom_r _)) => apply provider_world : py_pres.
#[local] Hint Extern 1 (preserves good (look _)) => apply preserves_gets : py_pres.
#[local] Hint Extern 1 (preserves good (update (finish _))) => apply update_good; auto with py_list : py_pres.
#[local] Hint Extern 1 (preserves good (update (with_connected _))) => apply update_good; auto with py_list : py_pres.

Lemma module_good : preserves good (module mt5).
Proof. unfold module. destruct mt5; solve_pres. Qed.
#[local] Hint Resolve module_good : py_pres.

Lemma subscribe_good m symbols cb result : preserves good (subscribe_each m symbols cb result).
Proof.
  revert result. induction symbols as [|s r IH]; intros result; cbn [subscribe_each]; [apply preserves_ret|].
  apply preserves_bind; [solve_pres|]. intros ok. intros [p w] Hp.
  unfold mbind at 1, M_bind at 1, look, gets. cbn [fst].
  apply (bind_then good); [|intros; apply IH]. unfold dmem. destruct ok; [|exact Hp].
  destruct (dget (tasks p) s) eqn:E; [exact Hp|]. by apply listed_stream.
Qed.

Lemma unsubscribe_good symbols : preserves good (unsubscribe_ticks mt5 symbols).
Proof.
  apply preserves_for_each. intros s [p w] Hp. unfold unsubscribe_one, mbind at 1, M_bind at 1, look, gets. cbn [fst].
  apply (bind_then good); [|solve_pres]. destruct (dget (tasks p) s) as [t|] eqn:E; [|exact Hp]. by apply listed_pop.
Qed.

(** After the streams are gone, what [disconnect] still does starts none. *)
Definition idle (pw : MT5Provider * W) : Prop := live pw.1 = [].
Lemma world_idle {A} (m : M W A) : preserves idle (zoom_r m).
Proof. apply (preserves_zoom_r (λ p, live p = [])). Qed.
Lemma keep_idle f : (∀ p, live (f p) = live p) → preserves idle (update (W:=W) f).
Proof. intros Hf. apply preserves_modify. intros [p w] Hp. unfold idle in *. cbn. by rewrite Hf. Qed.

Lemma disconnect_both s : good s → good (provider_disconnect mt5 s).2 ∧ idle (provider_disconnect mt5 s).2.
Proof.
  destruct s as [p w]. intros Hp. destruct (finish_all (dvalues (tasks p)) p w) as (p' & Hr & Ht & Hn & Hl).
  unfold provider_disconnect. rewrite (bind_ok (look (λ p, dvalues (tasks p))) _ (p, w) _ _ eq_refl), (bind_ok _ _ _ _ _ Hr).
  assert (live p' = []) as Hnone.
  { destruct (live p') as [|u l] eqn:E; [done|]. exfalso. destruct (Hl u) as [Hin Hni]; [by left|].
    apply Hni. apply listed_live, dget_In in Hin; [|exact Hp]. by apply (in_map snd) in Hin. }
  split.
  - apply (bind_then good); [|intros; apply preserves_bind; [destruct mt5; solve_pres|solve_pres]].
    split; cbn; rewrite ?Hnone; [constructor|done..].
  - apply (bind_then idle); [exact Hnone|]. intros. apply preserves_bind; [destruct mt5; [apply world_idle|apply preserves_ret]|].
    intros. by apply keep_idle.
Qed.

(** Unsubscribing pops the symbol's entry, which was its only stream. *)
Lemma unsubscribe_ends symbol s :
  good s → ∀ t, In t (live (unsubscribe_one mt5 symbol s).2.1) → task_symbol t ≠ symbol.
Proof.
  destruct s as [p w]. intros Hp. unfold unsubscribe_one, mbind at 1, M_bind at 1, look, gets. cbn [fst].
  set (off := λ pw : MT5Provider * W, ∀ t, In t (live pw.1) → task_symbol t ≠ symbol).
  assert (∀ A (m : M W A), preserves off (zoom_r m)) as Hw.
  { intros A m. apply (preserves_zoom_r (λ q, ∀ t, In t (live q) → task_symbol t ≠ symbol)). }
  apply (bind_then off); [|intros; apply preserves_bind; [unfold module; destruct mt5; solve_pres|]; intros; solve_pres].
  destruct (dget (tasks p) symbol) as [t|] eqn:E.
  - intros u [Hu Hne]%filter_In Hs. apply (listed_live _ Hp) in Hu. cbn in Hu. rewrite Hs, E in Hu. injection Hu as ->.
    by rewrite Z.eqb_refl in Hne.
  - intros u Hu Hs. apply (listed_live _ Hp) in Hu. cbn in Hu. rewrite Hs, E in Hu. done.
Qed.

Lemma connect_good : preserves good (provider_connect mt5).
Proof. unfold provider_connect. solve_pres. Qed.

Lemma subscribe_ticks_good symbols cb : preserves good (subscribe_ticks mt5 symbols cb).
Proof. unfold subscribe_ticks. destruct symbols; [solve_pres|]. apply preserves_bind; [solve_pres|]. intros. apply subscribe_good. Qed.

Lemma stream_good t : preserves good (stream_once mt5 utcnow sleep send_json t).
Proof. unfold stream_once. solve_pres. all: unfold call_back; solve_pres. Qed.

(** Everything that happens to the provider: its own operations, the turns of its
    running streams, and whatever else the world does. *)
Inductive provider_step : MT5Provider * W → MT5Provider * W → Prop :=
| step_connect s : provider_step s (provider_connect mt5 s).2
| step_disconnect s : provider_step s (provider_disconnect mt5 s).2
| step_subscribe symbols cb s : provider_step s (subscribe_ticks mt5 symbols cb s).2
| step_unsubscribe symbols s : provider_step s (unsubscribe_ticks mt5 symbols s).2
| step_stream t s : In t (live s.1) → provider_step s (stream_once mt5 utcnow sleep send_json t s).2
| step_world p w w' : provider_step (p, w) (p, w').

Inductive provider_reachable (p0 : MT5Provider) : MT5Provider * W → Prop :=
| reach_start w : provider_reachable p0 (p0, w)
| reach_step s s' : provider_reachable p0 s → provider_step s s' → provider_reachable p0 s'.

(** No stream is orphaned: in every reachable state, each running stream is the
    entry of its symbol, so there is at most one stream per symbol, and
    unsubscribing the symbol or disconnecting ends it. *)
Theorem streams_are_listed acct pw srv path s :
  provider_reachable (new_provider acct pw srv path) s →
  (∀ t, In t (live s.1) → dget (tasks s.1) (task_symbol t) = Some t) ∧
  (∀ symbol, (∀ t, In t (live (unsubscribe_one mt5 symbol s).2.1) → task_symbol t ≠ symbol)) ∧
  live (provider_disconnect mt5 s).2.1 = [].
Proof.
  intros Hr. assert (good s) as Hg.
  { induction Hr as [w|s s' _ IH Hs].
    - split; cbn; [constructor|done..].
    - destruct Hs; [by apply connect_good|by apply disconnect_both|by apply subscribe_ticks_good|by apply unsubscribe_good
                   |by apply stream_good|exact IH]. }
  split; [apply Hg|]. split; [intros symbol; by apply unsubscribe_ends|by apply disconnect_both].
Qed.
End Streams.

(** ** What subscribers get *)

Section Subscribers.
Context {W : Type} (mt5 : Mt5Data W) (utcnow : M W datetime) (sleep : float → M W unit).
Context (send_json : string → vdict → M W unit) (parse_time : string → res datetime).

(** A symbol's stream belongs to whoever subscribed first: for a symbol that has an
    entry, alive or at its end, a further subscription is answered [True] and
    changes nothing (no stream is started and the callback is dropped), and the
    first subscriber to leave ends the entry for everybody. *)
Theorem later_subscribers_get_nothing s t cb p w w1 :
  dget (tasks p) s = Some t → symbol_select mt5 s true w = (Ok true, w1) →
  subscribe_ticks (Some mt5) [s] cb (p, w) = (Ok [(s, true)], (p, w1)) ∧
  ∀ w2 w3, dict_wf (tasks p) → symbol_select mt5 s false w2 = (Ok true, w3) →
    ∃ p', ws_leave (Some mt5) [s] (p, w2) = (Ok tt, (p', w3)) ∧
      dget (tasks p') s = None ∧ ¬ In t (live p').
Proof.
  intros Ht Hs. split.
  - unfold subscribe_ticks, module, subscribe_each, mbind, M_bind, zoom_r, look, gets. cbn. rewrite Hs. cbn.
    unfold dmem. by rewrite Ht.
  - intros w2 w3 Hwf Hd. exists (finish t (with_tasks (dpop (tasks p) s) p)). split; [|split].
    + unfold ws_leave, when, unsubscribe_ticks, for_each, unsubscribe_one, module, mbind, M_bind, zoom_r, look, gets, update, modify.
      cbn. rewrite Ht. cbn. by rewrite Hd.
    + cbn. by apply dget_dpop_eq.
    + intros [_ Hne]%filter_In. by rewrite Z.eqb_refl in Hne.
Qed.

(** What a client of the service can make it do, and the turns of its streams. *)
Inductive service_step : MT5Provider * W → MT5Provider * W → Prop :=
| serve_subscribe symbols s : service_step s (subscribe_route (Some mt5) symbols s).2
| serve_message socket action symbols active s : service_step s (ws_message (Some mt5) socket action symbols active s).2
| serve_leave active s : service_step s (ws_leave (Some mt5) active s).2
| serve_ticks symbol start end_ limit s : service_step s (ticks_route (Some mt5) parse_time symbol start end_ limit s).2
| serve_ohlcv symbol tf start end_ limit s : service_step s (ohlcv_route (Some mt5) parse_time symbol tf start end_ limit s).2
| serve_stream t s : service_step s (stream_once (Some mt5) utcnow sleep send_json t s).2
| serve_world p w w' : service_step (p, w) (p, w').

Inductive service_reachable : MT5Provider * W → Prop :=
| service_start w : service_reachable (startup, w)
| service_more s s' : service_reachable s → service_step s s' → service_reachable s'.

Definition offline (pw : MT5Provider * W) : Prop := connected pw.1 = false.

Lemma world_offline {A} (m : M W A) : preserves offline (zoom_r m).
Proof. apply (preserves_zoom_r (λ p, connected p = false)). Qed.
Lemma update_offline f : (∀ p, connected (f p) = connected p) → preserves offline (update (W:=W) f).
Proof. intros Hf. apply preserves_modify. intros [p w] Hp. unfold offline in *. cbn. by rewrite Hf. Qed.
Lemma module_offline : preserves offline (module (Some mt5)).
Proof. apply preserves_ret. Qed.

#[local] Hint Extern 1 (preserves offline (zoom_r _)) => apply world_offline : py_pres.
#[local] Hint Extern 1 (preserves offline (look _)) => apply preserves_gets : py_pres.
#[local] Hint Extern 1 (preserves offline (update _)) => apply update_offline; reflexivity : py_pres.
#[local] Hint Resolve module_offline : py_pres.

Lemma subscribe_offline symbols cb : preserves offline (subscribe_ticks (Some mt5) symbols cb).
Proof.
  unfold subscribe_ticks. destruct symbols as [|s r]; [solve_pres|]. apply preserves_bind; [solve_pres|]. intros m.
  generalize (@nil (string * bool)). generalize (s :: r). clear s r. intros l.
  induction l as [|s r IH]; intros result; cbn [subscribe_each]; solve_pres.
Qed.

Lemma unsubscribe_offline symbols : preserves offline (unsubscribe_ticks (Some mt5) symbols).
Proof. unfold unsubscribe_ticks, unsubscribe_one. solve_pres. Qed.
#[local] Hint Resolve subscribe_offline unsubscribe_offline : py_pres.

Lemma step_offline s s' : service_step s s' → offline s → offline s'.
Proof.
  intros Hs. destruct Hs; [| | | | | |done]; match goal with |- offline ?s → offline (?m ?s).2 =>
    revert s; change (preserves offline m) end.
  - apply subscribe_offline.
  - unfold ws_message. solve_pres.
  - unfold ws_leave. solve_pres.
  - unfold ticks_route, get_ticks. solve_pres.
  - unfold ohlcv_route, get_ohlcv. solve_pres.
  - unfold stream_once, call_back. solve_pres.
Qed.

(** The service never streams a price: nothing connects its provider, so in every
    state its clients can bring it to, each running stream ends at its next turn,
    without asking for a tick and without calling its subscriber; and the price
    routes answer either an empty list or an error, never a price. *)
Theorem the_service_delivers_no_price s :
  service_reachable s →
  (∀ t, stream_once (Some mt5) utcnow sleep send_json t s = (Ok tt, (finish t s.1, s.2))) ∧
  (∀ symbol start end_ limit l s', ticks_route (Some mt5) parse_time symbol start end_ limit s = (Ok l, s') → l = []) ∧
  (∀ symbol tf start end_ limit l s', ohlcv_route (Some mt5) parse_time symbol tf start end_ limit s = (Ok l, s') → l = []).
Proof.
  intros Hr. assert (offline s) as Hoff by (induction Hr as [w|s s' _ IH Hs]; [done|by apply (step_offline _ _ Hs)]).
  split; [|split].
  - intros t. destruct s as [p w]. unfold offline in Hoff. cbn in Hoff.
    unfold stream_once, mbind, M_bind, look, gets. cbn. by rewrite Hoff.
  - intros symbol start end_ limit l s' Ht. unfold ticks_route in Ht.
    peel Ht as st s1 Hp1. peel Ht as ed s2 Hp2. peel Ht as data s3 Hp3.
    destruct data as [|d data]; cbn [map_each] in Ht; [by injection Ht as <- _|].
    by unfold mbind, M_bind, lift_res in Ht.
  - intros symbol tf start end_ limit l s' Ht. unfold ohlcv_route in Ht.
    peel Ht as st s1 Hp4. peel Ht as ed s2 Hp5. peel Ht as tf' s3 Hp6. peel Ht as data s4 Hp7.
    destruct data as [|d data]; cbn [map_each] in Ht; [by injection Ht as <- _|].
    by unfold mbind, M_bind, lift_res in Ht.
Qed.
End Subscribers.

(** ** The theorems on a terminal that grants every symbol *)

Definition demo_data : Mt5Data unit := {|
  initialize _ := mret true; login _ _ _ := mret true; shutdown := mret tt;
  copy_ticks_range _ _ _ := mret None; copy_ticks_from _ _ _ := mret None;
  copy_rates_range _ _ _ _ := mret None; copy_rates_from _ _ _ _ := mret None;
  symbol_select _ _ := mret true; symbol_info _ := mret None; timeframe_code _ := 0
|}.

Definition demo_subscribed : MT5Provider * unit := (subscribe_ticks (Some demo_data) ["EURUSD"] (ToSocket "a") (startup, tt)).2.
Definition demo_task : Task := {| task_id := 0; task_symbol := "EURUSD"; task_callback := ToSocket "a" |}.

Definition demo_turn (t : Task) : M (MT5Provider * unit) unit :=
  stream_once (Some demo_data) (mret (DT 2026 2 12 9 0 0 0)) (λ _, mret tt) (λ _ _, mret tt) t.

Lemma streams_listed_witness : dget (tasks demo_subscribed.1) "EURUSD" = Some demo_task.
Proof.
  refine (proj1 (streams_are_listed (Some demo_data) (mret (DT 2026 2 12 9 0 0 0)) (λ _, mret tt) (λ _ _, mret tt)
    0 "" "" None demo_subscribed _) demo_task _).
  - apply (reach_step _ _ _ _ _ (startup, tt)); [apply reach_start|apply step_subscribe].
  - by left.
Defined.

Lemma later_subscribers_witness :
  subscribe_ticks (Some demo_data) ["EURUSD"] (ToSocket "b") demo_subscribed = (Ok [("EURUSD", true)], demo_subscribed) ∧
  ∃ p', ws_leave (Some demo_data) ["EURUSD"] demo_subscribed = (Ok tt, (p', tt)) ∧
    dget (tasks p') "EURUSD" = None ∧ ¬ In demo_task (live p').
Proof.
  destruct (later_subscribers_get_nothing demo_data "EURUSD" demo_task (ToSocket "b") demo_subscribed.1 tt tt
    eq_refl eq_refl) as [H1 H2].
  split; [exact H1|]. refine (H2 tt tt _ eq_refl). repeat constructor. intros [].
Defined.

Lemma no_price_witness : demo_turn demo_task demo_subscribed = (Ok tt, (finish demo_task demo_subscribed.1, tt)).
Proof.
  refine (proj1 (the_service_delivers_no_price demo_data (mret (DT 2026 2 12 9 0 0 0)) (λ _, mret tt) (λ _ _, mret tt)
    (λ _, Raise (ValueError "")) demo_subscribed _) demo_task).
  apply (service_more _ _ _ _ _ (startup, tt)); [apply service_start|].
  exact (serve_message demo_data (mret (DT 2026 2 12 9 0 0 0)) (λ _, mret tt) (λ _ _, mret tt)
    (λ _, Raise (ValueError "")) "a" "subscribe" ["EURUSD"] [] (startup, tt)).
Defined.
