(* ===== verification/Streams.v ===== *)
(** * Market data streams under an event loop (market_data_service/src/providers/base.py)

    The provider of MarketData.v with its streams as background tasks of Workers.v
    and its operations as requests: [subscribe_ticks] and [connect], which await
    nothing, and [unsubscribe_ticks], which waits for the end of each stream it
    cancels.  Under every schedule a running stream is its symbol's entry, and nobody
    waits for ever.  [disconnect], which no route calls, is left out. *)

From Stdlib Require Import ZArith Lia Bool List Ascii String.
From stdpp Require Import base decidable list option strings.
From S2P Require Import Prelude PyFloat PyStr PyDateTime PyMonad PyDict PyVal Workers MarketData.
Open Scope string_scope.
Open Scope Z_scope.
Open Scope py_scope.

(** ** The coroutines *)

Section Atomic.
Context {W : Type}.
Abbreviation P := (MT5Provider * W)%type.

Definition streams_created (pw : P) : nat := Z.to_nat (next_task pw.1).
Definition stream_of (i : nat) (p : MT5Provider) : option Task := List.find (λ t, task_id t =? Z.of_nat i) (live p).

(** A cancellation belongs to the step before it: nothing is awaited in between. *)
Definition atomic_step (turn : nat → co P bool) (w : who) (l : loop P) : loop P :=
  let l1 := step streams_created turn w l in
  match worker_at w l1 with
  | Some b => match rest b with Cancels _ _ => step streams_created turn w l1 | _ => l1 end
  | None => l1
  end.

Definition atomic_run (turn : nat → co P bool) (schedule : list who) (l : loop P) : loop P :=
  fold_left (λ l w, atomic_step turn w l) schedule l.
End Atomic.

Section Coroutines.
Context {W : Type} (mt5 : option (Mt5Data W)) (utcnow : M W datetime) (sleep : float → M W unit).
Context (send_json : string → vdict → M W unit).
Abbreviation P := (MT5Provider * W)%type.

(** From the loop's test to the callback's end: the newest tick, if there is one. *)
Definition deliver_newest (t : Task) : M P unit :=
  m ← module mt5;
  now ← zoom_r utcnow;
  ticks ← zoom_r (copy_ticks_from m (task_symbol t) now 1);
  match ticks with
  | Some rows => match last rows with
                 | Some row => tick ← lift_res (tick_of (task_symbol t) row); call_back send_json (task_callback t) tick
                 | None => mret tt
                 end
  | None => mret tt
  end.

(** The end of a stream, by return or by an exception. *)
Definition stream_ends (t : Task) : co P bool := calls (update (finish t)) ;; mret false.

Definition stream_body (t : Task) : co P bool :=
  on ← calls (look connected);
  if negb on then stream_ends t
  else try_co (calls (deliver_newest t) ;; calls (zoom_r (sleep f1)) ;; mret true) (λ _, stream_ends t).

(** One turn of [_stream] of the [i]th stream. *)
Definition stream_turn (i : nat) : co P bool :=
  t ← calls (look (stream_of i));
  match t with None => mret false | Some t => stream_body t end.

(** [self._tasks.pop(s, None)]; the stream is cancelled before anything is awaited. *)
Definition pop_stream (s : string) : M P (option Task) :=
  task ← look (λ p, dget (tasks p) s);
  match task with
  | Some t => update (λ p, finish t (with_tasks (dpop (tasks p) s) p)) ;; mret (Some t)
  | None => mret None
  end.

Definition deselect (s : string) : M P unit := m ← module mt5; zoom_r (symbol_select m s false) ;; mret tt.

Definition unsubscribe_one_co (s : string) : co P unit :=
  task ← calls (pop_stream s);
  match task with
  | Some t => cancels (Z.to_nat (task_id t)) ;; joins (Z.to_nat (task_id t))
  | None => mret tt
  end ;;
  calls (deselect s).

Fixpoint unsubscribe_co (symbols : list string) : co P unit :=
  match symbols with [] => mret tt | s :: r => unsubscribe_one_co s ;; unsubscribe_co r end.

Inductive DataRequest := Subscribe (symbols : list string) (cb : Callback) | Unsubscribe (symbols : list string) | Connect.

Definition data_request (q : DataRequest) : co P bool :=
  match q with
  | Subscribe symbols cb => calls (subscribe_ticks mt5 symbols cb) ;; mret true
  | Unsubscribe symbols => unsubscribe_co symbols ;; mret true
  | Connect => calls (provider_connect mt5)
  end.

Definition data_run (schedule : list who) (qs : list DataRequest) (pw : P) : loop P :=
  atomic_run stream_turn schedule (start (data_request <$> qs) pw).

(** ** Alone they are the calls of MarketData.v *)

Lemma unsubscribe_one_alone s : co_alone (unsubscribe_one_co s) ≡ₘ unsubscribe_one mt5 s.
Proof.
  intros [p w]. unfold unsubscribe_one_co, unsubscribe_one, pop_stream, deselect.
  simpl. unfold mbind, M_bind, look, gets, update, modify. simpl.
  destruct (dget (tasks p) s) as [t|]; simpl; unfold mbind, M_bind; simpl; destruct (module mt5 _) as [[m|e] s1]; simpl; try done.
  all: by destruct (zoom_r _ s1) as [[]].
Qed.

Lemma unsubscribe_alone symbols : co_alone (unsubscribe_co symbols) ≡ₘ unsubscribe_ticks mt5 symbols.
Proof.
  induction symbols as [|s r IH]; [done|].
  change (unsubscribe_co (s :: r)) with (unsubscribe_one_co s ;; unsubscribe_co r).
  apply co_alone_seq; [apply unsubscribe_one_alone|intros _; apply IH].
Qed.

(** A stream's turn is [stream_once], but for its answer. *)
Lemma stream_alone t :
  (r ← co_alone (stream_body t); mret tt) ≡ₘ stream_once mt5 utcnow sleep send_json t.
Proof.
  set (turn := (on ← look connected;
    if negb on then update (finish t) ;; mret false
    else try_except (deliver_newest t ;; zoom_r (sleep f1) ;; mret true) (λ _, update (finish t) ;; mret false)) : M P bool).
  assert (Hturn : co_alone (stream_body t) ≡ₘ turn).
  { apply co_alone_seq; [apply co_alone_calls|]. intros []; cbn [negb].
    - intros s. rewrite (co_alone_try _ _ s). apply try_except_proper; [|done].
      apply co_alone_seq; [apply co_alone_calls|]. intros _.
      apply co_alone_seq; [apply co_alone_calls|done].
    - apply co_alone_seq; [apply co_alone_calls|done]. }
  intros s. transitivity ((r ← turn; mret tt) s); [by apply mbind_proper|].
  subst turn. unfold stream_once, deliver_newest, try_except, mbind, M_bind, look, gets. destruct s as [p w]. simpl.
  destruct (connected p); [|done]. simpl.
  destruct (module mt5 (p, w)) as [[m|e] s1]; [|by destruct (is_Exception e)].
  destruct (zoom_r utcnow s1) as [[now|e] s2]; [|by destruct (is_Exception e)].
  destruct (zoom_r _ s2) as [[rows|e] s3]; [|by destruct (is_Exception e)].
  destruct rows as [rows|]; [destruct (last rows) as [row|]; [destruct (tick_of _ row) as [k|e]; simpl;
    [destruct (call_back _ _ k s3) as [[[]|e] s4]|]|]|]; simpl;
    try (destruct (zoom_r (sleep f1) _) as [[[]|e'] s5]; simpl); try done; by destruct (is_Exception _).
Qed.
End Coroutines.

(** ** The provider's table, numbered *)

Record lawful (p : MT5Provider) : Prop := {
  law_listed : listed p;
  law_next : 0 ≤ next_task p;
  law_ids k t : dget (tasks p) k = Some t → 0 ≤ task_id t < next_task p
}.

Lemma lawful_new acct pw srv path : lawful (new_provider acct pw srv path).
Proof. split; [|done|done]. split; cbn; [constructor|done..]. Qed.

Lemma lawful_finish t p : lawful p → lawful (finish t p).
Proof. intros [H1 H2 H3]. split; [by apply listed_finish|done|done]. Qed.

Lemma lawful_connected b p : lawful p → lawful (with_connected b p).
Proof. intros [H1 H2 H3]. split; [by apply listed_connected|done|done]. Qed.

Lemma lawful_pop s t p : lawful p → dget (tasks p) s = Some t → lawful (finish t (with_tasks (dpop (tasks p) s) p)).
Proof.
  intros [H1 H2 H3] Ht. split; [by apply listed_pop|done|]. intros k u. cbn. destruct (decide (k = s)) as [->|Hne].
  - by rewrite dget_dpop_eq by apply H1.
  - rewrite dget_dpop_ne by done. apply H3.
Qed.

Lemma lawful_stream s cb p : lawful p → dget (tasks p) s = None → lawful (start_stream s cb p).
Proof.
  intros [H1 H2 H3] Hs. split; [by apply listed_stream|cbn; lia|]. intros k u. cbn. destruct (decide (k = s)) as [->|Hne].
  - rewrite dget_dset_eq. intros [= <-]. cbn. lia.
  - rewrite dget_dset_ne by done. intros Hu. specialize (H3 _ _ Hu). lia.
Qed.

Lemma stream_of_In i p t : stream_of i p = Some t → In t (live p) ∧ task_id t = Z.of_nat i.
Proof. intros [Ht Hi]%find_some. split; [done|by apply Z.eqb_eq]. Qed.

Lemma stream_of_finish t i p u :
  stream_of i p = Some u → stream_of i (finish t p) = Some u ∨ Z.to_nat (task_id t) = i.
Proof.
  unfold stream_of. cbn. induction (live p) as [|v r IH]; cbn; [done|]. destruct (task_id v =? Z.of_nat i) eqn:Ev.
  - intros [= <-]. destruct (task_id v =? task_id t) eqn:Et; cbn; [right; lia|left]. by rewrite Ev.
  - intros Hr. destruct (task_id v =? task_id t); cbn; [by apply IH|]. rewrite Ev. by apply IH.
Qed.

Lemma stream_of_start s cb i p u : stream_of i p = Some u → stream_of i (start_stream s cb p) = Some u.
Proof. unfold stream_of. cbn. induction (live p) as [|v r IH]; cbn; [done|]. by destruct (_ =? _). Qed.

Lemma stream_of_new s cb p : 0 ≤ next_task p → is_Some (stream_of (Z.to_nat (next_task p)) (start_stream s cb p)).
Proof.
  intros Hn. unfold stream_of. cbn. induction (live p) as [|v r IH]; cbn; [|by destruct (_ =? _)].
  rewrite Z2Nat.id, Z.eqb_refl by done. done.
Qed.

(** ** What a step may do to the streams *)

Section Rules.
Context {W : Type}.
Abbreviation P := (MT5Provider * W)%type.

(** From [s] to [s'], only the streams of which [x] tells may have ended, and what was
    created runs. *)
Record onward (x : nat → Prop) (s s' : P) : Prop := {
  on_law : lawful s'.1;
  on_created : (streams_created s ≤ streams_created s')%nat;
  on_new i : (streams_created s ≤ i < streams_created s')%nat → is_Some (stream_of i s'.1);
  on_kept i t : stream_of i s.1 = Some t → stream_of i s'.1 = Some t ∨ x i
}.

Definition growing {A} (m : M P A) : Prop := ∀ s, lawful s.1 → onward (λ _, False) s (m s).2.

Lemma onward_refl x s : lawful s.1 → onward x s s.
Proof. intros H. split; [done|lia|lia|auto]. Qed.

Lemma onward_same x p w w' : lawful p → onward x (p, w) (p, w').
Proof. intros H. split; [done|done|unfold streams_created; cbn; lia|auto]. Qed.

Lemma growing_bind {A B} (m : M P A) (f : A → M P B) :
  growing m → (∀ a, growing (f a)) → growing (m ≫= f).
Proof.
  intros Hm Hf s Hs. unfold mbind, M_bind. specialize (Hm s Hs). destruct (m s) as [[a|e] s1]; [|done].
  cbn in Hm. specialize (Hf a s1 (on_law _ _ _ Hm)). destruct Hm as [H1 H2 H3 H4], Hf as [H5 H6 H7 H8].
  assert (Hk : ∀ i t, stream_of i s1.1 = Some t → stream_of i (f a s1).2.1 = Some t) by (intros i t Ht; by destruct (H8 i t Ht)).
  split; [done|lia| |].
  - intros i Hi. destruct (decide (i < streams_created s1)%nat) as [Hlt|Hge]; [|apply H7; lia].
    destruct (H3 i ltac:(lia)) as [t Ht]. exists t. by apply Hk.
  - intros i t Ht. left. destruct (H4 i t Ht) as [Ht'|[]]. by apply Hk.
Qed.

Lemma growing_ret {A} (a : A) : growing (mret a).
Proof. intros s. apply onward_refl. Qed.
Lemma growing_raise {A} e : growing (@raise _ A e).
Proof. intros s. apply onward_refl. Qed.
Lemma growing_look {A} (f : MT5Provider → A) : growing (look f).
Proof. intros s. apply onward_refl. Qed.
Lemma growing_lift {A} (r : res A) : growing (lift_res r).
Proof. intros s. apply onward_refl. Qed.
Lemma growing_world {A} (m : M W A) : growing (zoom_r m).
Proof. intros [p w] Hp. unfold zoom_r. cbn. destruct (m w). by apply onward_same. Qed.

Lemma growing_connected b : growing (update (with_connected b)).
Proof. intros [p w] Hp. split; [by apply lawful_connected|done|unfold streams_created; cbn; lia|auto]. Qed.

Lemma growing_module mt5 : growing (module (W:=W) mt5).
Proof. unfold module. destruct mt5; [apply growing_ret|apply growing_raise]. Qed.

#[local] Hint Resolve growing_ret growing_raise growing_look growing_lift growing_world growing_connected growing_module : py_pres.
Ltac solve_growing := repeat first [solve [auto with py_pres] | apply growing_bind; intros | case_match].

Lemma started_onward s cb (pw : P) : lawful pw.1 → dget (tasks pw.1) s = None → onward (λ _, False) pw (start_stream s cb pw.1, pw.2).
Proof.
  intros Hp Hn. pose proof (law_next _ Hp). split; [by apply lawful_stream|unfold streams_created; cbn; lia| |].
  - intros i Hi. assert (i = Z.to_nat (next_task pw.1)) as -> by (unfold streams_created in Hi; cbn in Hi; lia). by apply stream_of_new.
  - intros i t Ht. left. by apply stream_of_start.
Qed.

Lemma growing_subscribe mt5 symbols cb : growing (subscribe_ticks (W:=W) mt5 symbols cb).
Proof.
  unfold subscribe_ticks. destruct symbols as [|s r]; [apply growing_ret|]. apply growing_bind; [apply growing_module|].
  intros m. generalize (@nil (string * bool)). induction (s :: r) as [|s' r' IH]; intros result; cbn [subscribe_each]; [apply growing_ret|].
  apply growing_bind; [apply growing_world|]. intros ok pw Hp. unfold mbind at 1, M_bind at 1, look at 1, gets. cbn [fst].
  revert pw Hp. enough (H : ∀ pw : P, lawful pw.1 → onward (λ _, False) pw (when (ok && negb (dmem (tasks pw.1) s')) (update (start_stream s' cb)) pw).2).
  { intros pw Hp. 
    pose (m1 := λ pw : P, when (ok && negb (dmem (tasks pw.1) s')) (update (start_stream s' cb)) pw).
    apply (growing_bind m1 (λ _, subscribe_each m r' cb (dset result s' ok))); [exact H|intros; apply IH|done]. }
  intros pw Hp. unfold dmem. destruct ok; [|by apply onward_refl].
  destruct (dget (tasks pw.1) s') eqn:E; [by apply onward_refl|]. by apply started_onward.
Qed.

Lemma growing_connect mt5 : growing (provider_connect (W:=W) mt5).
Proof. unfold provider_connect. solve_growing. Qed.

Lemma growing_deselect mt5 s : growing (deselect (W:=W) mt5 s).
Proof. unfold deselect. solve_growing. Qed.

Lemma growing_deliver_newest mt5 utcnow send_json t : growing (deliver_newest (W:=W) mt5 utcnow send_json t).
Proof. unfold deliver_newest, call_back. solve_growing. Qed.

(** *** Coroutines by these rules *)

Definition aimed {A} (p : co P A) : option nat := match p with Cancels i _ => Some i | _ => None end.
Definition awaited {A} (p : co P A) : option nat := match p with Joins i _ => Some i | _ => None end.
Definition open {A} (p : co P A) : Prop := aimed p = None ∧ awaited p = None.

(** A request ends a stream only to cancel it at once, and waits only for what it has
    just cancelled. *)
Fixpoint polite {A} (p : co P A) : Prop :=
  match p with
  | Returned _ => True
  | Calls m k => ∀ s, lawful s.1 →
      onward (λ i, aimed (k (m s).1) = Some i) s (m s).2 ∧ awaited (k (m s).1) = None ∧
      (∀ i, aimed (k (m s).1) = Some i → (i < streams_created (m s).2)%nat) ∧ polite (k (m s).1)
  | Cancels i k => polite k ∧ aimed k = None ∧ (∀ j, awaited k = Some j → j = i)
  | Joins _ k => polite (k (Ok tt)) ∧ open (k (Ok tt))
  | Locks _ | Unlocks _ => False
  end.

(** A coroutine of a stream ends the streams of [x] only as its last step; what it awaits
    passes a cancellation on. *)
Fixpoint own (x : nat → Prop) (p : co P bool) : Prop :=
  match p with
  | Returned _ => True
  | Calls m k => k (Raise CancelledError) = Returned (Raise CancelledError) ∧
      ∀ s, lawful s.1 → onward (λ i, x i ∧ over {| rest := k (m s).1; doomed := false |} = true) s (m s).2 ∧ own x (k (m s).1)
  | _ => False
  end.

Lemma onward_weaken (x y : nat → Prop) s s' : (∀ i, x i → y i) → onward x s s' → onward y s s'.
Proof. intros Hxy [H1 H2 H3 H4]. split; [done..|]. intros i t Ht. destruct (H4 i t Ht); auto. Qed.

Lemma own_calls {A} x (m : M P A) (f : A → co P bool) :
  growing m → (∀ a, own x (f a)) → own x (calls m ≫= f).
Proof.
  intros Hm Hf. split; [done|]. intros s Hs. split; [by apply (onward_weaken (λ _, False)), Hm|].
  destruct (m s) as [[a|e] s']; [apply Hf|done].
Qed.

Lemma own_try x (p : co P bool) h :
  own (λ _, False) p → (∀ e, own x (h e)) → own x (try_co p h).
Proof.
  intros Hp Hh. induction p as [[b|e]|X m k IH|k IH|k IH|i k IH|i k IH]; cbn in *; try done.
  - by destruct (is_Exception e).
  - destruct Hp as [Hc Hp]. split; [by rewrite Hc|]. intros s Hs. destruct (Hp s Hs) as [Ho Hk]. split; [|by apply IH].
    apply (onward_weaken (λ i, False ∧ over {| rest := k (m s).1; doomed := false |} = true)); [by intros i []|done].
Qed.

Lemma finish_onward (x : nat → Prop) t (pw : P) :
  lawful pw.1 → x (Z.to_nat (task_id t)) → onward x pw (finish t pw.1, pw.2).
Proof.
  intros Hp Hx. split; [by apply lawful_finish|done|unfold streams_created; cbn; lia|].
  intros i u Hu. cbn. by destruct (stream_of_finish t i _ u Hu) as [|<-]; auto.
Qed.

Lemma own_ends (x : nat → Prop) t : x (Z.to_nat (task_id t)) → own x (stream_ends (W:=W) t).
Proof. intros Hx. split; [done|]. intros s Hs. split; [|done]. by apply finish_onward. Qed.

Lemma own_body (x : nat → Prop) mt5 utcnow sleep send_json t :
  x (Z.to_nat (task_id t)) → own x (stream_body (W:=W) mt5 utcnow sleep send_json t).
Proof.
  intros Hx. unfold stream_body. apply own_calls; [apply growing_look|].
  intros on. destruct on; [|by apply own_ends].
  refine (own_try x _ _ _ (λ _, own_ends x t Hx)).
  apply own_calls; [apply growing_deliver_newest|]. intros _. by apply own_calls; [apply growing_world|].
Qed.

Lemma own_turn mt5 utcnow sleep send_json i : own (eq i) (stream_turn (W:=W) mt5 utcnow sleep send_json i).
Proof.
  split; [done|]. intros s Hs. split; [by apply onward_refl|].
  change (own (eq i) (match stream_of i s.1 with None => mret false | Some t => stream_body mt5 utcnow sleep send_json t end)).
  destruct (stream_of i s.1) as [t|] eqn:Et; [|done]. apply stream_of_In in Et as [_ Ht]. apply own_body. lia.
Qed.

Lemma popped_onward s t (pw : P) :
  lawful pw.1 → dget (tasks pw.1) s = Some t →
  onward (λ i, Some (Z.to_nat (task_id t)) = Some i) pw (finish t (with_tasks (dpop (tasks pw.1) s) pw.1), pw.2).
Proof.
  intros Hp Ht. split; [by apply lawful_pop|done|unfold streams_created; cbn; lia|].
  intros i u Hu. cbn. destruct (stream_of_finish t i (with_tasks (dpop (tasks pw.1) s) pw.1) u Hu) as [|<-]; auto.
Qed.

Lemma open_bind {A B} (p : co P A) (f : A → co P B) : (∀ a, open (f a)) →
  aimed (p ≫= f) = aimed p ∧ awaited (p ≫= f) = awaited p.
Proof. intros Hf. destruct p as [[a|e]|X m k|k|k|i k|i k]; try done. apply (Hf a). Qed.

Lemma polite_bind {A B} (p : co P A) (f : A → co P B) :
  polite p → (∀ a, polite (f a)) → (∀ a, open (f a)) → polite (p ≫= f).
Proof.
  intros Hp Hf Ho. induction p as [[a|e]|X m k IH|k IH|k IH|i k IH|i k IH]; try done; [apply Hf| | |].
  - intros s Hs. destruct (Hp s Hs) as (H1 & H2 & H3 & H4). destruct (open_bind (k (m s).1) f Ho) as [Ea Ew].
    unfold mbind, co_bind in *. cbn. unfold co_bind.
    split; [|rewrite Ew; split; [done|]; split; [intros i; rewrite Ea; auto|by apply IH]].
    apply (onward_weaken (λ i, aimed (k (m s).1) = Some i)); [|done]. intros i Hi. by rewrite Ea.
  - destruct Hp as (H1 & H2 & H3). destruct (open_bind k f Ho) as [Ea Ew]. cbn.
    unfold mbind, co_bind in *. rewrite Ea, Ew. by auto.
  - destruct Hp as (H1 & H2). destruct (open_bind (k (Ok tt)) f Ho) as [Ea Ew]. cbn. unfold open.
    unfold mbind, co_bind in *. rewrite Ea, Ew. by auto.
Qed.

Lemma polite_calls {A} (m : M P A) : growing m → polite (calls m).
Proof. intros Hm s Hs. split; [|done]. by apply (onward_weaken (λ _, False)), Hm. Qed.

Lemma polite_unsubscribe_one mt5 s : polite (unsubscribe_one_co (W:=W) mt5 s).
Proof.
  pose proof (polite_calls _ (growing_deselect mt5 s)) as Hd.
  intros pw Hp. cbn. unfold pop_stream, mbind, M_bind, look, gets. cbn.
  destruct (dget (tasks pw.1) s) as [t|] eqn:Et; cbn.
  - split; [by apply popped_onward|]. split; [done|]. split.
    + intros i [= <-]. pose proof (law_ids _ Hp _ _ Et). unfold streams_created. cbn. lia.
    + split; [|split; [done|by intros j [= <-]]]. by split.
  - split; [by apply onward_refl|]. split; [done|]. split; [done|exact Hd].
Qed.

Lemma polite_request mt5 q : polite (data_request (W:=W) mt5 q) ∧ open (data_request (W:=W) mt5 q).
Proof.
  destruct q as [symbols cb|symbols|]; cbn [data_request].
  - split; [|done]. apply polite_bind; [apply polite_calls, growing_subscribe|done|done].
  - split; [|by destruct symbols]. apply polite_bind; [|done|done].
    induction symbols as [|s r IH]; [done|].
    apply polite_bind; [apply polite_unsubscribe_one|done|]. intros _. by destruct r.
  - split; [|done]. apply polite_calls, growing_connect.
Qed.
End Rules.

(** ** Under every schedule *)

Section Running.
Context {W : Type}.
Abbreviation P := (MT5Provider * W)%type.
Context (turn : nat → co P bool).
Hypothesis turn_own : ∀ i, own (eq i) (turn i).

Definition settled (b : worker P) : bool := over b || doomed b.
Definition stopping (j : nat) (l : loop P) : Prop := ∃ b, beats l !! j = Some b ∧ settled b = true.

(** Every task that is not over or cancelled, but the [x]th, is a running stream; who
    waits, waits for one that is. *)
Record sound (x : option nat) (l : loop P) : Prop := {
  snd_length : length (beats l) = streams_created (state l);
  snd_law : lawful (state l).1;
  snd_beats i b : beats l !! i = Some b → own (eq i) (rest b);
  snd_running i b : beats l !! i = Some b → settled b = false → x ≠ Some i → is_Some (stream_of i (state l).1);
  snd_clients c b : clients l !! c = Some b →
    doomed b = false ∧ polite (rest b) ∧ ∀ j, awaited (rest b) = Some j → stopping j l
}.

Definition nobody_aims (l : loop P) : Prop := ∀ c b, clients l !! c = Some b → aimed (rest b) = None.

Lemma with_state_sound x s l :
  sound None l → onward (λ i, x = Some i) (state l) s → sound x (with_state streams_created turn s l).
Proof using turn_own.
  intros [H1 H2 H3 H4 H5] [O1 O2 O3 O4]. split; cbn.
  - rewrite length_app, length_fmap, length_seq. lia.
  - done.
  - intros i b [Hb|[Hge Hb]]%lookup_app_Some; [by apply H3|].
    apply list_lookup_fmap_Some in Hb as (k & -> & [Hk Hlt]%lookup_seq).
    replace i with k by lia. apply turn_own.
  - intros i b [Hb|[Hge Hb]]%lookup_app_Some Hs Hx.
    + destruct (H4 i b Hb Hs) as [t Ht]; [done|]. destruct (O4 i t Ht) as [?|?]; [by exists t|done].
    + apply O3. apply list_lookup_fmap_Some in Hb as (k & -> & [Hk Hlt]%lookup_seq). lia.
  - intros c b Hb. destruct (H5 c b Hb) as (Hd & Hp & Hw). split; [done|]. split; [done|].
    intros j Hj. destruct (Hw j Hj) as (b' & Hb' & Hs). exists b'. split; [|done]. cbn. by apply lookup_app_l_Some.
Qed.

Lemma stopping_put i b b' j l :
  beats l !! i = Some b → (settled b = true → settled b' = true) → stopping j l → stopping j (put_worker (Beat i) b' l).
Proof.
  intros Hb Hs (b1 & Hb1 & Hs1). unfold stopping. cbn. destruct (decide (i = j)) as [<-|Hne].
  - rewrite Hb in Hb1. injection Hb1 as <-. exists b'. split; [|auto].
    apply list_lookup_insert_eq. by eapply lookup_lt_Some.
  - exists b1. by rewrite list_lookup_insert_ne.
Qed.

(** The [x]th task comes to its end, or its turn goes on. *)
Lemma put_beat_sound x y i b b' l :
  sound x l → beats l !! i = Some b → own (eq i) (rest b') → (settled b = true → settled b' = true) →
  (∀ k, x = Some k → y = Some k ∨ (k = i ∧ settled b' = true)) →
  sound y (put_worker (Beat i) b' l).
Proof.
  intros [H1 H2 H3 H4 H5] Hb Ho Hs Hx. split; cbn.
  - by rewrite length_insert.
  - done.
  - intros j b1 [(-> & <- & _)|[_ Hb1]]%list_lookup_insert_Some; [done|by apply H3].
  - intros j b1 Hj Hs1 Hy. apply list_lookup_insert_Some in Hj as [(<- & <- & _)|[Hne Hb1]].
    + apply (H4 i b Hb); [|intros ->]; [by destruct (settled b); [rewrite Hs in Hs1|]|].
      destruct (Hx i eq_refl) as [?|[_ ?]]; congruence.
    + apply (H4 j b1 Hb1 Hs1). intros ->. destruct (Hx j eq_refl) as [?|[? _]]; congruence.
  - intros c b1 Hb1. destruct (H5 c b1 Hb1) as (Hd & Hp & Hw). split; [done|]. split; [done|].
    intros j Hj. apply (stopping_put i b); [done..|]. by apply Hw.
Qed.

Lemma put_client_sound x c b' l :
  sound x l → doomed b' = false → polite (rest b') → (∀ j, awaited (rest b') = Some j → stopping j l) →
  sound x (put_worker (Client c) b' l).
Proof.
  intros [H1 H2 H3 H4 H5] Hd Hp Hw. split; cbn; try done.
  intros c1 b1 [(<- & <- & _)|[_ Hb1]]%list_lookup_insert_Some; [done|by apply H5 in Hb1].
Qed.

Lemma doom_sound i l : sound (Some i) l → (i < length (beats l))%nat → sound None (doom i l) ∧ stopping i (doom i l).
Proof.
  intros Hl Hi. unfold doom. apply lookup_lt_is_Some in Hi as [b Hb]. rewrite Hb. destruct (over b) eqn:Ho.
  - split; [|exists b; split; [done|unfold settled; by rewrite Ho]].
    destruct Hl as [H1 H2 H3 H4 H5]. split; try done. intros j b1 Hb1 Hs _. apply (H4 j b1); [done..|].
    intros [= <-]. rewrite Hb in Hb1. injection Hb1 as <-. unfold settled in Hs. by rewrite Ho in Hs.
  - assert (Hs : settled {| rest := rest b; doomed := true |} = true) by (unfold settled; cbn; by rewrite orb_true_r).
    split.
    + apply (put_beat_sound (Some i) None i b); [done..| |done|].
      * exact (snd_beats _ _ Hl _ _ Hb).
      * intros k [= <-]. by right.
    + exists {| rest := rest b; doomed := true |}. split; [|done]. cbn. apply list_lookup_insert_eq. by eapply lookup_lt_Some.
Qed.

(** *** The steps *)

Definition orderly (l : loop P) : Prop := sound None l ∧ nobody_aims l.

Lemma put_nobody c b' l : nobody_aims l → aimed (rest b') = None → nobody_aims (put_worker (Client c) b' l).
Proof. intros Hl Hb c1 b1 [(<- & <- & _)|[_ Hb1]]%list_lookup_insert_Some; [done|by apply (Hl c1)]. Qed.

Lemma put_client_at c b b' (l : loop P) : clients l !! c = Some b → clients (put_worker (Client c) b' l) !! c = Some b'.
Proof. intros Hb. cbn. apply list_lookup_insert_eq. by eapply lookup_lt_Some. Qed.

Lemma doom_clients i (l : loop P) : clients (doom i l) = clients l.
Proof. unfold doom. by destruct (beats l !! i) as [b|]; [destruct (over b)|]. Qed.

(** A call of a request, and the cancellation that belongs to it. *)
Lemma client_called {X} c b (m : M P X) k l :
  orderly l → clients l !! c = Some b → rest b = Calls m k →
  orderly (atomic_step turn (Client c) l) ∧
  ∃ b1, clients (atomic_step turn (Client c) l) !! c = Some b1 ∧
    (rest b1 = k (m (state l)).1 ∨ ∃ i, k (m (state l)).1 = Cancels i (rest b1)).
Proof using turn_own.
  intros [Hl Hn] Hb Hr. destruct (snd_clients _ _ Hl c b Hb) as (Hd & Hp & _). rewrite Hr in Hp.
  destruct (Hp _ (snd_law _ _ Hl)) as (Ho & Hw & Hlt & Hk).
  set (l1 := step streams_created turn (Client c) l).
  assert (E : l1 = put_worker (Client c) {| rest := k (m (state l)).1; doomed := false |} (with_state streams_created turn (m (state l)).2 l)).
  { subst l1. unfold step, move. cbn. rewrite Hb, Hr, Hd. by destruct (m (state l)). }
  set (b1 := {| rest := k (m (state l)).1; doomed := false |}) in *.
  assert (Hb1 : clients l1 !! c = Some b1) by (rewrite E; by apply (put_client_at _ b)).
  assert (Hl1 : sound (aimed (rest b1)) l1).
  { rewrite E. apply put_client_sound; [|done|done|by intros j; cbn; rewrite Hw].
    by apply with_state_sound. }
  assert (Hlen : length (beats l1) = streams_created (m (state l)).2) by (rewrite (snd_length _ _ Hl1), E; done).
  unfold atomic_step. fold l1. clearbody l1. cbn. rewrite Hb1. subst b1. cbn in Hl1, Hb1.
  destruct (k (m (state l)).1) as [r|Y m' k'|k'|k'|i k'|i k'] eqn:Ek; try done.
  all: try (split; [|by eexists; split; [exact Hb1|left]]).
  all: try (split; [exact Hl1|]; rewrite E; apply put_nobody; [exact Hn|]; done).
  unfold step, move. cbn. rewrite Hb1. cbn.
  destruct Hk as (Hp' & Ha & Hj). destruct (doom_sound i l1) as [Hl2 Hs]; [exact Hl1|rewrite Hlen; by apply Hlt|].
  split; [split|].
  - apply put_client_sound; [done..|]. cbn. by intros j ->%Hj.
  - intros c1 b2 [(<- & <- & _)|[Hne Hb2]]%list_lookup_insert_Some; [done|].
    rewrite doom_clients, E in Hb2. cbn in Hb2. rewrite list_lookup_insert_ne in Hb2 by done. by apply (Hn c1).
  - exists {| rest := k'; doomed := false |}. split; [|by right; exists i].
    apply (put_client_at _ {| rest := Cancels i k'; doomed := false |}). by rewrite doom_clients.
Qed.

Lemma step_atomic w l : orderly (step streams_created turn w l) → atomic_step turn w l = step streams_created turn w l.
Proof.
  intros [Hl Hn]. unfold atomic_step. destruct (worker_at w _) as [b|] eqn:Hb; [|done]. destruct w as [c|i].
  - specialize (Hn c b Hb). by destruct (rest b).
  - pose proof (snd_beats _ _ Hl i b Hb) as Ho. by destruct (rest b).
Qed.

(** The end of a wait. *)
Lemma client_joined c b j k l :
  orderly l → clients l !! c = Some b → rest b = Joins j k → beat_over j l = true →
  orderly (atomic_step turn (Client c) l) ∧
  atomic_step turn (Client c) l = put_worker (Client c) {| rest := k (Ok tt); doomed := false |} l.
Proof.
  intros [Hs Hn] Hb Hr Hj. destruct (snd_clients _ _ Hs c b Hb) as (Hd & Hp & _). rewrite Hr in Hp.
  destruct Hp as (Hp & Ha & Hw).
  assert (E : step streams_created turn (Client c) l = put_worker (Client c) {| rest := k (Ok tt); doomed := false |} l).
  { unfold step, move. cbn. by rewrite Hb, Hr, Hd, Hj. }
  enough (Ho : orderly (step streams_created turn (Client c) l)) by by rewrite step_atomic.
  rewrite E. split; [|by apply put_nobody]. apply put_client_sound; [done..|]. intros i. cbn. by rewrite Hw.
Qed.

Lemma client_orderly c l : orderly l → orderly (atomic_step turn (Client c) l).
Proof using turn_own.
  intros Hl. destruct (clients l !! c) as [b|] eqn:Hb.
  2: { unfold atomic_step, step. cbn. by rewrite Hb; cbn; rewrite Hb. }
  destruct Hl as [Hs Hn]. destruct (snd_clients _ _ Hs c b Hb) as (Hd & Hp & _).
  destruct (rest b) as [r|X m k|k|k|i k|i k] eqn:Hr; try done.
  - enough (Ho : orderly (step streams_created turn (Client c) l)) by by rewrite step_atomic.
    unfold step, move. cbn. rewrite Hb, Hr. by destruct r as [[]|].
  - by apply (client_called c b m k).
  - specialize (Hn c b Hb). by rewrite Hr in Hn.
  - destruct (beat_over i l) eqn:Hj; [by eapply client_joined|].
    enough (Ho : orderly (step streams_created turn (Client c) l)) by by rewrite step_atomic.
    unfold step, move. cbn. by rewrite Hb, Hr, Hd, Hj.
Qed.

Lemma beat_orderly i l : orderly l → orderly (atomic_step turn (Beat i) l).
Proof using turn_own.
  intros [Hl Hn]. enough (Ho : orderly (step streams_created turn (Beat i) l)) by by rewrite step_atomic.
  unfold step. cbn. destruct (beats l !! i) as [b|] eqn:Hb; [|done].
  pose proof (snd_beats _ _ Hl i b Hb) as Ho. unfold move.
  destruct (rest b) as [[[]|e]|X m k|k|k|j k|j k] eqn:Hr; try done.
  - split; [|done]. apply (put_beat_sound None None i b); [done..|exact (turn_own i)| |done].
    unfold settled, over at 1. rewrite Hr. cbn. intros ->. apply orb_true_r.
  - destruct Ho as [Hc Hk]. destruct (doomed b) eqn:Hd.
    + rewrite Hc. split; [|done]. by apply (put_beat_sound None None i b).
    + destruct (Hk _ (snd_law _ _ Hl)) as [Ho Hown].
      destruct (m (state l)) as [r s'] eqn:Em. cbn in Ho, Hown.
      set (b' := {| rest := k r; doomed := false |}) in *.
      set (x := if over b' then Some i else None).
      split; [|done]. apply (put_beat_sound x None i b).
      * apply with_state_sound; [done|]. apply (onward_weaken (λ j, i = j ∧ over b' = true)); [|done].
        intros j [<- E]. unfold x. by rewrite E.
      * cbn. by apply lookup_app_l_Some.
      * exact Hown.
      * unfold settled at 1, over. by rewrite Hr, Hd.
      * intros j. unfold x, settled. destruct (over b') eqn:E; [|done]. intros [= <-]. by right.
Qed.

Lemma atomic_orderly w l : orderly l → orderly (atomic_step turn w l).
Proof using turn_own. destruct w; [apply client_orderly|apply beat_orderly]. Qed.

#[local] Abbreviation atomic_run := (atomic_run turn).

Lemma streams_run_orderly schedule l : orderly l → orderly (atomic_run schedule l).
Proof using turn_own. intros Hl. unfold Streams.atomic_run. apply fold_left_inv; [|done]. intros acc w _. apply atomic_orderly. Qed.

Lemma run_more s1 s2 l : atomic_run (s1 ++ s2) l = atomic_run s2 (atomic_run s1 l).
Proof. apply List.fold_left_app. Qed.

(** *** Whoever waits can go on *)

Hypothesis turn_calls : ∀ i, ∃ X (m : M P X) k, turn i = Calls m k.

(** A cancelled task is over once it has moved, twice where it is between two turns. *)
Lemma doomed_calls {X} i b (m : M P X) k l :
  orderly l → beats l !! i = Some b → rest b = Calls m k → doomed b = true →
  clients (atomic_step turn (Beat i) l) = clients l ∧ beat_over i (atomic_step turn (Beat i) l) = true.
Proof using turn_own.
  intros Hl Hb Hr Hd. pose proof (snd_beats _ _ (proj1 Hl) i b Hb) as Ho. rewrite Hr in Ho. destruct Ho as [Hc _].
  assert (E : step streams_created turn (Beat i) l = put_worker (Beat i) {| rest := Returned (Raise CancelledError); doomed := false |} l).
  { unfold step, move. cbn. by rewrite Hb, Hr, Hd, Hc. }
  assert (Hat : ∀ b', <[i := b']> (beats l) !! i = Some b').
  { intros b'. apply list_lookup_insert_eq. by eapply lookup_lt_Some. }
  unfold atomic_step, beat_over. rewrite E. cbn. rewrite Hat. cbn. by rewrite Hat.
Qed.

Lemma turn_again i b l :
  orderly l → beats l !! i = Some b → rest b = Returned (Ok true) →
  atomic_step turn (Beat i) l = put_worker (Beat i) {| rest := turn i; doomed := doomed b |} l.
Proof using turn_own.
  intros Hl Hb Hr. rewrite step_atomic; [unfold step; cbn; by rewrite Hb, Hr|].
  unfold step. cbn. rewrite Hb, Hr. split; [|apply Hl].
  apply (put_beat_sound None None i b); [apply Hl|done|exact (turn_own i)| |done].
  unfold settled, over at 1. rewrite Hr. cbn. intros ->. apply orb_true_r.
Qed.

Lemma settles i b l :
  orderly l → beats l !! i = Some b → settled b = true →
  ∃ more, clients (atomic_run more l) = clients l ∧ beat_over i (atomic_run more l) = true.
Proof using turn_own turn_calls.
  intros Hl Hb Hs. pose proof (snd_beats _ _ (proj1 Hl) i b Hb) as Ho.
  unfold settled, over in Hs. destruct (rest b) as [[[]|e]|X m k|k|k|j k|j k] eqn:Hr; try done; cbn in Hs.
  - destruct (turn_calls i) as (X & m & k & Ht). exists [Beat i; Beat i]. cbn.
    pose proof (beat_orderly i l Hl) as Hl1. rewrite (turn_again i b l Hl Hb Hr) in *.
    refine (doomed_calls i {| rest := turn i; doomed := doomed b |} m k _ Hl1 _ Ht Hs).
    apply list_lookup_insert_eq. by eapply lookup_lt_Some.
  - exists []. split; [done|]. cbn. unfold beat_over, over. by rewrite Hb, Hr.
  - exists []. split; [done|]. cbn. unfold beat_over, over. by rewrite Hb, Hr.
  - exists [Beat i]. by apply (doomed_calls i b m k l).
Qed.

Definition can_end (c : nat) (l : loop P) : Prop :=
  ∃ more b r, clients (atomic_run more l) !! c = Some b ∧ rest b = Returned r.

Lemma can_end_later c s l : can_end c (atomic_run s l) → can_end c l.
Proof. intros (more & b & r & H). exists (s ++ more)%list, b, r. by rewrite run_more. Qed.

Lemma client_can_end p c b l : orderly l → clients l !! c = Some b → rest b = p → can_end c l.
Proof using turn_own turn_calls.
  enough (H : (∀ b l, orderly l → clients l !! c = Some b → rest b = p → can_end c l) ∧
              match p with Cancels _ k => ∀ b l, orderly l → clients l !! c = Some b → rest b = k → can_end c l | _ => True end) by eapply H.
  clear b l. induction p as [r|X m k IH|k IH|k IH|i k IH|i k IH]; (split; [|try done; apply IH]); intros b l Hl Hb Hr.
  all: destruct (snd_clients _ _ (proj1 Hl) c b Hb) as (Hd & Hp & Hw); rewrite Hr in Hp; try done.
  - by exists [], b, r.
  - apply (can_end_later c [Client c]). destruct (client_called c b m k l Hl Hb Hr) as (Hl1 & b1 & Hb1 & Hr1).
    destruct (IH (m (state l)).1) as [IH1 IH2]. destruct Hr1 as [Hr1|[i Hr1]].
    + by apply (IH1 b1).
    + rewrite Hr1 in IH2. by apply (IH2 b1).
  - pose proof (proj2 Hl c b Hb) as Ha. by rewrite Hr in Ha.
  - destruct (Hw i) as (b1 & Hb1 & Hs1); [by rewrite Hr|]. destruct (settles i b1 l Hl Hb1 Hs1) as (more & Hmc & Hmo).
    apply (can_end_later c more). pose proof (streams_run_orderly more l Hl) as Hl1. set (l1 := atomic_run more l) in *. clearbody l1.
    rewrite <- Hmc in Hb. destruct (client_joined c b i k l1 Hl1 Hb Hr Hmo) as [Hl2 E].
    apply (can_end_later c [Client c]). apply (proj1 (IH (Ok tt)) {| rest := k (Ok tt); doomed := false |} _ Hl2); [|done].
    rewrite E. by apply (put_client_at _ b).
Qed.
End Running.

(** ** The provider's streams *)

Section Provider.
Context {W : Type} (mt5 : option (Mt5Data W)) (utcnow : M W datetime) (sleep : float → M W unit).
Context (send_json : string → vdict → M W unit).
Abbreviation P := (MT5Provider * W)%type.
#[local] Abbreviation data_run := (data_run mt5 utcnow sleep send_json).

(** A background task that is neither over nor cancelled. *)
Definition running (i : nat) (l : loop P) : bool := match beats l !! i with Some b => negb (over b || doomed b) | None => false end.

Lemma data_orderly schedule qs acct pw srv path w :
  orderly (data_run schedule qs (new_provider acct pw srv path, w)).
Proof.
  apply streams_run_orderly; [apply own_turn|]. split.
  - split; cbn; [done|apply lawful_new|done|done|].
    intros c b (p & -> & (q & -> & _)%list_lookup_fmap_Some)%list_lookup_fmap_Some. cbn.
    destruct (polite_request mt5 q) as [Hp [_ Hw]]. split; [done|]. split; [done|]. intros j. by rewrite Hw.
  - intros c b (p & -> & (q & -> & _)%list_lookup_fmap_Some)%list_lookup_fmap_Some.
    by destruct (polite_request mt5 q) as [_ [Ha _]].
Qed.

(** C21. No stream gets away: however subscriptions, unsubscriptions, connections and the
    turns of the streams interleave, each task still running is the entry of its symbol
    in [_tasks], so that unsubscribing or disconnecting reaches it, and no symbol has two. *)
Theorem no_stream_gets_away schedule qs acct pw srv path w :
  let l := data_run schedule qs (new_provider acct pw srv path, w) in
  (∀ i, running i l = true → ∃ t, stream_of i (state l).1 = Some t ∧ dget (tasks (state l).1) (task_symbol t) = Some t) ∧
  (∀ i j t u, stream_of i (state l).1 = Some t → stream_of j (state l).1 = Some u → task_symbol t = task_symbol u → i = j).
Proof.
  intros l. destruct (data_orderly schedule qs acct pw srv path w) as [Hs _]. fold l in Hs.
  pose proof (law_listed _ (snd_law _ _ Hs)) as Hl. split.
  - intros i Hi. unfold running in Hi. destruct (beats l !! i) as [b|] eqn:Hb; [|done].
    destruct (snd_running _ _ Hs i b Hb) as [t Ht]; [by apply negb_true_iff|done|].
    exists t. split; [done|]. apply (listed_live _ Hl). by apply (stream_of_In i).
  - intros i j t u [Ht Hi]%stream_of_In [Hu Hj]%stream_of_In E.
    apply (listed_live _ Hl) in Ht, Hu. rewrite E, Hu in Ht. injection Ht as ->. lia.
Qed.

End Provider.

(** ** On a terminal that remembers what is selected *)

Definition demo_terminal : Mt5Data (list string) := {|
  initialize _ := mret true; login _ _ _ := mret true; shutdown := mret tt;
  copy_ticks_range _ _ _ := mret None; copy_ticks_from _ _ _ := mret None;
  copy_rates_range _ _ _ _ := mret None; copy_rates_from _ _ _ _ := mret None;
  symbol_select s on :=
    modify (λ l, if on then s :: l else List.filter (λ u, negb (String.eqb u s)) l) ;; mret true;
  symbol_info _ := mret None; timeframe_code _ := 0
|}.

Definition demo_run (schedule : list who) (qs : list DataRequest) : loop (MT5Provider * list string) :=
  data_run (Some demo_terminal) (mret (DT 2026 2 12 9 0 0 0)) (λ _, mret tt) (λ _ _, mret tt) schedule qs (startup, []).

(** A client unsubscribes while another is about to subscribe. *)
Definition demo_requests : list DataRequest :=
  [Connect; Subscribe ["EURUSD"] (ToSocket "a"); Unsubscribe ["EURUSD"]; Subscribe ["EURUSD"] (ToSocket "b")].

Definition demo_subscribed_twice : list who := [Client 0; Client 1; Beat 0; Client 2; Client 3].

(** Where the symbol is subscribed to again while an unsubscription awaits the stream it has
    cancelled, the unsubscription ends by deselecting the symbol: the new stream runs on
    a symbol the terminal does not have, and its subscriber was answered [True]. *)
Theorem a_subscription_is_deselected :
  let l := demo_run (demo_subscribed_twice ++ [Beat 0; Client 2; Client 2]) demo_requests in
  running 1 l = true ∧ (task_callback <$> stream_of 1 (state l).1) = Some (ToSocket "b") ∧ (state l).2 = [].
Proof. intros l. subst l. repeat split; vm_compute; reflexivity. Qed.

Lemma no_stream_gets_away_witness :
  let l := demo_run demo_subscribed_twice demo_requests in
  running 1 l = true ∧ ∃ t, stream_of 1 (state l).1 = Some t ∧ dget (tasks (state l).1) (task_symbol t) = Some t.
Proof.
  assert (H : running 1 (demo_run demo_subscribed_twice demo_requests) = true) by (vm_compute; reflexivity).
  split; [exact H|].
  exact (proj1 (no_stream_gets_away (Some demo_terminal) (mret (DT 2026 2 12 9 0 0 0)) (λ _, mret tt) (λ _ _, mret tt)
    demo_subscribed_twice demo_requests 0 "" "" None []) 1%nat H).
Defined.

