(* ===== verification/Sql.v ===== *)
(** * The catalog of the database: tables, columns, keys and indexes

    What the migrations and the repository rely on of PostgreSQL's catalog, as a
    reference catalog that can be run: a statement's text is cut into words and
    applied to a [Schema].  The server's own decisions (which tables it accepts
    as hypertables, which storage options and functions it has) are the record
    [Server].  [Alembic] is the interface of Alembic's [op] and of SQLAlchemy's
    inspector; [CatalogLaws] states that a database answers it as the reference
    catalog does. *)

From Stdlib Require Import ZArith Bool List Ascii String.
From stdpp Require Import base decidable list option strings.
From S2P Require Import Prelude PyStr PyMonad PyDict.
Open Scope string_scope.
Open Scope list_scope.

(** ** Words of a statement *)

Definition quote : ascii := "'"%char.
Definition is_punct (c : ascii) : bool :=
  existsb (Ascii.eqb c) ["("%char; ")"%char; ","%char; ";"%char; "="%char].

Definition flush (cur : list ascii) (rest : list string) : list string :=
  match cur with [] => rest | _ => string_of_list_ascii (rev cur) :: rest end.

(** Words are separated by blanks; punctuation stands alone; a quoted text is
    one word with its quotes. *)
Fixpoint words_from (quoted : bool) (cur : list ascii) (s : string) : list string :=
  match s with
  | EmptyString => flush cur []
  | String c r =>
      if quoted then
        if Ascii.eqb c quote then flush (c :: cur) (words_from false [] r) else words_from true (c :: cur) r
      else if Ascii.eqb c quote then flush cur (words_from true [c] r)
      else if is_space c then flush cur (words_from false [] r)
      else if is_punct c then flush cur (String c EmptyString :: words_from false [] r)
      else words_from false (c :: cur) r
  end.
Definition words (s : string) : list string := words_from false [] s.

(** [strip_words p ws]: what follows the words [p]. *)
Fixpoint strip_words (p ws : list string) : option (list string) :=
  match p, ws with
  | [], _ => Some ws
  | x :: p, y :: ws => if String.eqb x y then strip_words p ws else None
  | _, [] => None
  end.

(** The words up to the parenthesis that closes the one already open. *)
Fixpoint in_parens (depth : nat) (ws : list string) : list string :=
  match ws with
  | [] => []
  | w :: r =>
      if String.eqb w "(" then w :: in_parens (S depth) r
      else if String.eqb w ")" then match depth with O => [] | S d => w :: in_parens d r end
      else w :: in_parens depth r
  end.

(** The elements between the commas outside parentheses. *)
Fixpoint elements_from (depth : nat) (cur : list string) (ws : list string) : list (list string) :=
  match ws with
  | [] => [rev cur]
  | w :: r =>
      if String.eqb w "," then
        match depth with O => rev cur :: elements_from 0 [] r | _ => elements_from depth (w :: cur) r end
      else if String.eqb w "(" then elements_from (S depth) (w :: cur) r
      else if String.eqb w ")" then elements_from (pred depth) (w :: cur) r
      else elements_from depth (w :: cur) r
  end.
Definition elements (ws : list string) : list (list string) := elements_from 0 [] ws.

(** The first word of each element: the names of a column list. *)
Definition heads (l : list (list string)) : list string :=
  List.flat_map (λ e, match e with [] => [] | x :: _ => [x] end) l.

(** A quoted word without its quotes. *)
Definition unquote (s : string) : string := String.substring 1 (String.length s - 2) s.

(** The words after the first occurrence of [p] in [ws]. *)
Fixpoint find_words (p ws : list string) : option (list string) :=
  match strip_words p ws with
  | Some r => Some r
  | None => match ws with [] => None | _ :: r => find_words p r end
  end.
Definition has_words (p ws : list string) : bool :=
  match find_words p ws with Some _ => true | None => false end.

(** ** Schemas *)

Record Column := { col_name : string; data_type : string; nullable : bool; has_default : bool }.

(** A table: its columns in order; its keys (the primary key and the unique
    constraints) and its indexes by name with their columns; its foreign keys by
    name with the table they point to; the column it is partitioned by. *)
Record Table := {
  columns : list Column;
  primary_key : list string;
  uniques : list (string * list string);
  foreign_keys : list (string * (list string * string));
  indexes : list (string * list string);
  partition : option string
}.

Record Schema := { tables : dict string Table; extensions : list string }.

Definition empty_schema : Schema := {| tables := []; extensions := [] |}.

Definition find_table (s : Schema) (t : string) : option Table := dget (tables s) t.
Definition set_table (s : Schema) (t : string) (T : Table) : Schema :=
  {| tables := dset (tables s) t T; extensions := extensions s |}.

Definition mem_str (x : string) (l : list string) : bool := existsb (String.eqb x) l.
Definition column_names (T : Table) : list string := List.map col_name (columns T).
Definition find_column (T : Table) (c : string) : option Column :=
  List.find (λ k, String.eqb c (col_name k)) (columns T).

(** [information_schema.columns]: the names and data types of a table. *)
Definition column_types (T : Table) : dict string string :=
  List.map (λ c, (col_name c, data_type c)) (columns T).

(** ** Column definitions *)

(** The name PostgreSQL reports for a type as it is written. *)
Definition type_name (w : string) : string :=
  match dget [("TIMESTAMPTZ", "timestamp with time zone"); ("TEXT", "text"); ("DOUBLE", "double precision");
              ("BIGINT", "bigint"); ("INTEGER", "integer"); ("SERIAL", "integer"); ("UUID", "uuid");
              ("JSONB", "jsonb"); ("JSON", "json"); ("BYTEA", "bytea"); ("BOOLEAN", "boolean");
              ("VARCHAR", "character varying"); ("NUMERIC", "numeric")] w with
  | Some n => n
  | None => "USER-DEFINED"
  end.

(** One element of a CREATE TABLE: a table constraint, or a column with its own. *)
Definition add_element (t : string) (T : Table) (e : list string) : Table :=
  match e with
  | "UNIQUE" :: "(" :: r =>
      let cs := heads (elements (in_parens 0 r)) in
      {| columns := columns T; primary_key := primary_key T;
         uniques := uniques T ++ [((t ++ "_" ++ String.concat "_" cs ++ "_key")%string, cs)];
         foreign_keys := foreign_keys T; indexes := indexes T; partition := partition T |}
  | "CONSTRAINT" :: n :: "UNIQUE" :: "(" :: r =>
      {| columns := columns T; primary_key := primary_key T;
         uniques := uniques T ++ [(n, heads (elements (in_parens 0 r)))];
         foreign_keys := foreign_keys T; indexes := indexes T; partition := partition T |}
  | c :: ty :: r =>
      let primary := has_words ["PRIMARY"; "KEY"] r in
      {| columns := columns T ++ [{| col_name := c; data_type := type_name ty;
                                     nullable := negb (primary || has_words ["NOT"; "NULL"] r);
                                     has_default := String.eqb ty "SERIAL" || has_words ["DEFAULT"] r |}];
         primary_key := if primary then [c] else primary_key T;
         uniques := if has_words ["UNIQUE"] r then uniques T ++ [((t ++ "_" ++ c ++ "_key")%string, [c])] else uniques T;
         foreign_keys := match find_words ["REFERENCES"] r with
                         | Some (t2 :: _) => foreign_keys T ++ [((t ++ "_" ++ c ++ "_fkey")%string, ([c], t2))]
                         | _ => foreign_keys T
                         end;
         indexes := indexes T; partition := partition T |}
  | _ => T
  end.

Definition empty_table : Table :=
  {| columns := []; primary_key := []; uniques := []; foreign_keys := []; indexes := []; partition := None |}.

Definition declared_table (t : string) (body : list string) : Table :=
  fold_left (add_element t) (elements body) empty_table.

(** ** Statements *)

(** What the server decides by rules of its own. *)
Record Server := {
  hypertable_ok : Table → string → bool;     (* create_hypertable(table, column) *)
  options_ok : Table → list string → bool;   (* ALTER TABLE ... SET (...) *)
  has_function : string → bool;              (* SELECT f(...) of an extension *)
  has_extension : string → bool              (* CREATE EXTENSION *)
}.

Definition sql_error {A} (cls what : string) : res A := Raise (ExternalError cls what).

Definition need_table (s : Schema) (t : string) : res Table :=
  match find_table s t with Some T => Ok T | None => sql_error "UndefinedTable" t end.

Definition create_table (s : Schema) (t : string) (T : Table) (if_not_exists : bool) : res Schema :=
  match find_table s t with
  | Some _ => if if_not_exists then Ok s else sql_error "DuplicateTable" t
  | None =>
      match List.find (λ fk, negb (dmem (tables s) fk.2.2)) (foreign_keys T) with
      | Some fk => sql_error "UndefinedTable" fk.2.2
      | None => Ok (set_table s t T)
      end
  end.

Definition with_columns (T : Table) (cs : list Column) : Table :=
  {| columns := cs; primary_key := primary_key T; uniques := uniques T; foreign_keys := foreign_keys T;
     indexes := indexes T; partition := partition T |}.
Definition with_uniques (T : Table) (us : list (string * list string)) : Table :=
  {| columns := columns T; primary_key := primary_key T; uniques := us; foreign_keys := foreign_keys T;
     indexes := indexes T; partition := partition T |}.
Definition with_foreign_keys (T : Table) (fs : list (string * (list string * string))) : Table :=
  {| columns := columns T; primary_key := primary_key T; uniques := uniques T; foreign_keys := fs;
     indexes := indexes T; partition := partition T |}.
Definition with_indexes (T : Table) (is_ : list (string * list string)) : Table :=
  {| columns := columns T; primary_key := primary_key T; uniques := uniques T; foreign_keys := foreign_keys T;
     indexes := is_; partition := partition T |}.
Definition with_partition (T : Table) (c : string) : Table :=
  {| columns := columns T; primary_key := primary_key T; uniques := uniques T; foreign_keys := foreign_keys T;
     indexes := indexes T; partition := Some c |}.

(** The names the inspector reports: PostgreSQL backs a unique constraint with an
    index of its name. *)
Definition index_names (T : Table) : list string := List.map fst (indexes T) ++ List.map fst (uniques T).
Definition is_index (s : Schema) (n : string) : bool := existsb (λ T, mem_str n (index_names T)) (dvalues (tables s)).

Section Catalog.
Variable srv : Server.

(** A hypertable takes another key only when the server accepts it. *)
Definition key_ok (T : Table) : bool :=
  match partition T with Some c => hypertable_ok srv T c | None => true end.

Definition add_unique (s : Schema) (n t : string) (cs : list string) : res Schema :=
  T ← need_table s t;
  if negb (forallb (λ c, mem_str c (column_names T)) cs) then sql_error "UndefinedColumn" t
  else if is_index s n then sql_error "DuplicateTable" n
  else
    let T' := with_uniques T (uniques T ++ [(n, cs)]) in
    if key_ok T' then Ok (set_table s t T') else sql_error "FeatureNotSupported" n.

Definition create_index (s : Schema) (n t : string) (cs : list string) (unique if_not_exists : bool) : res Schema :=
  T ← need_table s t;
  if is_index s n then (if if_not_exists then Ok s else sql_error "DuplicateTable" n)
  else if negb (forallb (λ c, mem_str c (column_names T)) cs) then sql_error "UndefinedColumn" t
  else if unique && negb (key_ok (with_uniques T (uniques T ++ [(n, cs)]))) then sql_error "FeatureNotSupported" n
  else Ok (set_table s t (with_indexes T (indexes T ++ [(n, cs)]))).

Definition create_hypertable (s : Schema) (t c : string) : res Schema :=
  T ← need_table s t;
  match partition T with
  | Some _ => Ok s
  | None =>
      if hypertable_ok srv T c
      then Ok (set_table s t (with_indexes (with_partition T c) (indexes T ++ [((t ++ "_" ++ c ++ "_idx")%string, [c])])))
      else sql_error "FeatureNotSupported" t
  end.

(** Without [CASCADE] a table another one refers to stays. *)
Definition refers_to (t : string) (fk : string * (list string * string)) : bool := String.eqb fk.2.2 t.

Definition drop_table (s : Schema) (t : string) (if_exists cascade : bool) : res Schema :=
  match find_table s t with
  | None => if if_exists then Ok s else sql_error "UndefinedTable" t
  | Some _ =>
      let rest := dpop (tables s) t in
      if negb cascade && existsb (λ T, existsb (refers_to t) (foreign_keys T)) (dvalues rest)
      then sql_error "DependentObjectsStillExist" t
      else Ok {| tables := List.map (λ kT, (kT.1, with_foreign_keys kT.2 (List.filter (λ fk, negb (refers_to t fk)) (foreign_keys kT.2)))) rest;
                 extensions := extensions s |}
  end.

Definition add_column (s : Schema) (t : string) (c : Column) : res Schema :=
  T ← need_table s t;
  if mem_str (col_name c) (column_names T) then sql_error "DuplicateColumn" (col_name c)
  else Ok (set_table s t (with_columns T (columns T ++ [c]))).

(** A column goes with its keys and indexes. *)
Definition drop_column (s : Schema) (t c : string) : res Schema :=
  T ← need_table s t;
  if negb (mem_str c (column_names T)) then sql_error "UndefinedColumn" c
  else
    let free {A} (cols : A → list string) (x : A) := negb (mem_str c (cols x)) in
    Ok (set_table s t
      {| columns := List.filter (λ k, negb (String.eqb c (col_name k))) (columns T);
         primary_key := if mem_str c (primary_key T) then [] else primary_key T;
         uniques := List.filter (free snd) (uniques T);
         foreign_keys := List.filter (free (λ fk : string * (list string * string), fk.2.1)) (foreign_keys T);
         indexes := List.filter (free snd) (indexes T); partition := partition T |}).

Definition add_foreign_key (s : Schema) (n src tgt : string) (cs remote : list string) : res Schema :=
  T ← need_table s src;
  R ← need_table s tgt;
  if negb (forallb (λ c, mem_str c (column_names T)) cs && forallb (λ c, mem_str c (column_names R)) remote)
  then sql_error "UndefinedColumn" src
  else if mem_str n (List.map fst (foreign_keys T) ++ List.map fst (uniques T)) then sql_error "DuplicateObject" n
  else Ok (set_table s src (with_foreign_keys T (foreign_keys T ++ [(n, (cs, tgt))]))).

Definition drop_constraint (s : Schema) (n t : string) : res Schema :=
  T ← need_table s t;
  let other {A} (x : string * A) := negb (String.eqb n x.1) in
  if mem_str n (List.map fst (foreign_keys T) ++ List.map fst (uniques T))
  then Ok (set_table s t (with_foreign_keys (with_uniques T (List.filter other (uniques T))) (List.filter other (foreign_keys T))))
  else sql_error "UndefinedObject" n.

Definition drop_index (s : Schema) (n t : string) : res Schema :=
  T ← need_table s t;
  if mem_str n (List.map fst (indexes T))
  then Ok (set_table s t (with_indexes T (List.filter (λ x, negb (String.eqb n x.1)) (indexes T))))
  else sql_error "UndefinedObject" n.

Definition create_extension (s : Schema) (e : string) : res Schema :=
  if mem_str e (extensions s) then Ok s
  else if has_extension srv e then Ok {| tables := tables s; extensions := extensions s ++ [e] |}
  else sql_error "UndefinedFile" e.

(** A function call names its table first. *)
Definition call_function (s : Schema) (f : string) (args : list string) : res Schema :=
  match args with
  | t :: r =>
      if negb (has_function srv f) then sql_error "UndefinedFunction" f
      else if String.eqb f "create_hypertable" then
        match r with "," :: c :: _ => create_hypertable s (unquote t) (unquote c) | _ => sql_error "UndefinedFunction" f end
      else need_table s (unquote t) ;; Ok s
  | [] => sql_error "UndefinedFunction" f
  end.

Definition alter_options (s : Schema) (t : string) (opts : list string) : res Schema :=
  T ← need_table s t; if options_ok srv T opts then Ok s else sql_error "InvalidParameterValue" t.

(** The statements the sources send. *)
Inductive Statement :=
| CreateExtension (e : string)
| CreateType
| CreateTable (t : string) (body : list string) (if_not_exists : bool)
| CreateIndex (n t : string) (cs : list string) (if_not_exists : bool)
| CallFunction (f : string) (args : list string)
| AlterOptions (t : string) (opts : list string)
| DropTableCascade (t : string).

Definition parse (ws : list string) : option Statement :=
  match ws with
  | "CREATE" :: "EXTENSION" :: "IF" :: "NOT" :: "EXISTS" :: e :: _ => Some (CreateExtension (unquote e))
  | "CREATE" :: "TYPE" :: _ => Some CreateType
  | "CREATE" :: "TABLE" :: "IF" :: "NOT" :: "EXISTS" :: t :: "(" :: r => Some (CreateTable t (in_parens 0 r) true)
  | "CREATE" :: "TABLE" :: t :: "(" :: r => Some (CreateTable t (in_parens 0 r) false)
  | "CREATE" :: "INDEX" :: "IF" :: "NOT" :: "EXISTS" :: n :: "ON" :: t :: "(" :: r =>
      Some (CreateIndex n t (heads (elements (in_parens 0 r))) true)
  | "CREATE" :: "INDEX" :: n :: "ON" :: t :: "(" :: r => Some (CreateIndex n t (heads (elements (in_parens 0 r))) false)
  | "SELECT" :: f :: "(" :: r => Some (CallFunction f r)
  | "ALTER" :: "TABLE" :: t :: "SET" :: "(" :: r => Some (AlterOptions t (in_parens 0 r))
  | "DROP" :: "TABLE" :: "IF" :: "EXISTS" :: t :: "CASCADE" :: _ => Some (DropTableCascade t)
  | _ => None
  end.

Definition exec_statement (s : Schema) (st : Statement) : res Schema :=
  match st with
  | CreateExtension e => create_extension s e
  | CreateType => Ok s
  | CreateTable t body ine => create_table s t (declared_table t body) ine
  | CreateIndex n t cs ine => create_index s n t cs false ine
  | CallFunction f args => call_function s f args
  | AlterOptions t opts => alter_options s t opts
  | DropTableCascade t => drop_table s t true true
  end.

Definition exec (s : Schema) (sql : string) : res Schema :=
  match parse (words sql) with
  | Some st => exec_statement s st
  | None => sql_error "SyntaxError" sql
  end.
End Catalog.

(** ** SQLAlchemy columns *)

Inductive SaType :=
| SaText | SaString (n : Z) | SaInteger | SaBoolean | SaUuid | SaNumeric (p s : Z)
| SaJsonb | SaJson | SaTimestampTz | SaBinary | SaEnum (name : string).

(** The type PostgreSQL reports for it. *)
Definition pg_type (t : SaType) : string :=
  match t with
  | SaText => "text" | SaString _ => "character varying" | SaInteger => "integer" | SaBoolean => "boolean"
  | SaUuid => "uuid" | SaNumeric _ _ => "numeric" | SaJsonb => "jsonb" | SaJson => "json"
  | SaTimestampTz => "timestamp with time zone" | SaBinary => "bytea" | SaEnum _ => "USER-DEFINED"
  end.

(** [sa.Column(name, type, nullable=..., server_default=..., primary_key=...)]. *)
Record SaColumn := {
  sa_name : string; sa_type : SaType; sa_nullable : bool; sa_server_default : option string; sa_primary : bool
}.

Definition pg_column (c : SaColumn) : Column :=
  {| col_name := sa_name c; data_type := pg_type (sa_type c); nullable := sa_nullable c && negb (sa_primary c);
     has_default := match sa_server_default c with Some _ => true | None => false end |}.

Definition sa_table (cs : list SaColumn) : Table :=
  {| columns := List.map pg_column cs; primary_key := List.map sa_name (List.filter sa_primary cs);
     uniques := []; foreign_keys := []; indexes := []; partition := None |}.

(** ** Alembic's operations and SQLAlchemy's inspector *)

Record Alembic (W : Type) := {
  op_execute : string → M W unit;
  op_create_table : string → list SaColumn → M W unit;
  op_drop_table : string → M W unit;
  op_add_column : string → SaColumn → M W unit;
  op_drop_column : string → string → M W unit;                              (* table, column *)
  op_create_foreign_key : string → string → string → list string → list string → M W unit;
  op_create_unique_constraint : string → string → list string → M W unit;   (* name, table, columns *)
  op_drop_constraint : string → string → M W unit;                          (* name, table *)
  op_create_index : string → string → list string → bool → M W unit;        (* name, table, columns, unique *)
  op_drop_index : string → string → M W unit;                               (* name, table *)
  insp_columns : string → M W (list string);
  insp_foreign_keys : string → M W (list string);
  insp_unique_constraints : string → M W (list string);
  insp_indexes : string → M W (list string);
  insp_table_names : M W (list string)
}.
Arguments op_execute {W}. Arguments op_create_table {W}. Arguments op_drop_table {W}. Arguments op_add_column {W}.
Arguments op_drop_column {W}. Arguments op_create_foreign_key {W}. Arguments op_create_unique_constraint {W}.
Arguments op_drop_constraint {W}. Arguments op_create_index {W}. Arguments op_drop_index {W}. Arguments insp_columns {W}.
Arguments insp_foreign_keys {W}. Arguments insp_unique_constraints {W}. Arguments insp_indexes {W}. Arguments insp_table_names {W}.

(** A change of the schema, as a call: a statement that fails changes nothing. *)
Definition change (f : Schema → res Schema) : M Schema unit := λ s,
  match f s with Ok s' => (Ok tt, s') | Raise e => (Raise e, s) end.

(** The inspector's answer about a table, which must exist. *)
Definition inspect (f : Table → list string) (t : string) : M Schema (list string) := λ s,
  match find_table s t with
  | Some T => (Ok (f T), s)
  | None => (Raise (ExternalError "NoSuchTableError" t), s)
  end.

(** ** Databases that behave as the reference catalog

    [agrees f m m']: a call [m] of the database and a call [m'] of the catalog
    return the same, or both raise, and leave corresponding schemas. *)

Definition same_outcome {A} (r r' : res A) : Prop :=
  match r, r' with Ok a, Ok b => a = b | Raise _, Raise _ => True | _, _ => False end.

Definition agrees {W A} (f : W → Schema) (m : M W A) (m' : M Schema A) : Prop :=
  ∀ w, same_outcome (m w).1 (m' (f w)).1 ∧ f (m w).2 = (m' (f w)).2.

Section Agrees.
Context {W : Type} (f : W → Schema).

Lemma agrees_ret {A} (a : A) : agrees f (mret a) (mret a).
Proof. by intros w. Qed.

Lemma agrees_bind {A B} (m : M W A) (k : A → M W B) m' k' :
  agrees f m m' → (∀ a, agrees f (k a) (k' a)) → agrees f (m ≫= k) (m' ≫= k').
Proof.
  intros Hm Hk w. destruct (Hm w) as [Hr Hs]. unfold mbind, M_bind.
  destruct (m w) as [[a|e] w'], (m' (f w)) as [[b|e'] s']; cbn in Hr, Hs |- *; subst; try done. apply Hk.
Qed.

Lemma agrees_when c m m' : agrees f m m' → agrees f (when c m) (when c m').
Proof. destruct c; [done|intros _; apply agrees_ret]. Qed.

Lemma agrees_for_each {X} (k : X → M W unit) k' (l : list X) :
  (∀ x, agrees f (k x) (k' x)) → agrees f (for_each k l) (for_each k' l).
Proof.
  intros Hk. induction l as [|x l IH]; simpl; [apply agrees_ret|]. apply agrees_bind; [apply Hk|by intros].
Qed.
End Agrees.

#[export] Hint Resolve agrees_ret agrees_bind agrees_when agrees_for_each : py_run.

(** ** INSERT statements *)

(** The table and the columns an INSERT names. *)
Definition insert_target (sql : string) : option (string * list string) :=
  match words sql with
  | "INSERT" :: "INTO" :: t :: "(" :: r => Some (t, heads (elements (in_parens 0 r)))
  | _ => None
  end.

(** The columns it names that the table does not have. *)
Definition unknown_columns (T : Table) (cs : list string) : list string :=
  List.filter (λ c, negb (mem_str c (column_names T))) cs.

(** The columns that need a value and that it does not name. *)
Definition omitted_columns (T : Table) (cs : list string) : list string :=
  List.map col_name (List.filter (λ k, negb (nullable k || has_default k || mem_str (col_name k) cs)) (columns T)).

(** Whether PostgreSQL accepts the statement's names. *)
Definition insert_check (s : Schema) (sql : string) : res unit :=
  match insert_target sql with
  | None => sql_error "SyntaxError" sql
  | Some (t, cs) =>
      T ← need_table s t;
      match unknown_columns T cs, omitted_columns T cs with
      | c :: _, _ => sql_error "UndefinedColumn" c
      | [], c :: _ => sql_error "NotNullViolation" c
      | [], [] => Ok tt
      end
  end.

(** ** Servers

    A server that accepts everything; what any server accepts, it does too. *)

Definition lenient : Server :=
  {| hypertable_ok _ _ := true; options_ok _ _ := true; has_function _ := true; has_extension _ := true |}.

Ltac server_cases :=
  repeat match goal with
  | H : context [if ?b then _ else _] |- _ => destruct b eqn:?; cbn in *; try discriminate
  end.

Section Lenient.
Variable srv : Server.

Lemma key_ok_lenient T : key_ok lenient T = true.
Proof. unfold key_ok. by destruct (partition T). Qed.

Lemma create_index_lenient s n t cs u ine s' :
  create_index srv s n t cs u ine = Ok s' → create_index lenient s n t cs u ine = Ok s'.
Proof.
  unfold create_index, mbind, res_bind. destruct (need_table s t) as [T|e]; [|done]. rewrite key_ok_lenient.
  destruct (is_index s n); [done|]. destruct (negb _); [done|]. rewrite andb_false_r.
  by destruct (u && _).
Qed.

Lemma add_unique_lenient s n t cs s' : add_unique srv s n t cs = Ok s' → add_unique lenient s n t cs = Ok s'.
Proof.
  unfold add_unique, mbind, res_bind. destruct (need_table s t) as [T|e]; [|done]. rewrite key_ok_lenient.
  destruct (negb _); [done|]. destruct (is_index s n); [done|]. by destruct (key_ok srv _).
Qed.

Lemma create_hypertable_lenient s t c s' : create_hypertable srv s t c = Ok s' → create_hypertable lenient s t c = Ok s'.
Proof.
  unfold create_hypertable, mbind, res_bind. destruct (need_table s t) as [T|e]; [|done].
  destruct (partition T); [done|]. simpl. by destruct (hypertable_ok srv T c).
Qed.

Lemma exec_lenient s sql s' : exec srv s sql = Ok s' → exec lenient s sql = Ok s'.
Proof.
  unfold exec. destruct (parse (words sql)) as [[e| |t b i|n t cs i|f args|t opts|t]|]; simpl; try done.
  - unfold create_extension. destruct (mem_str e (extensions s)); [done|]. by destruct (has_extension srv e).
  - unfold call_function. destruct args as [|t [|x [|c r]]]; try done; simpl; destruct (has_function srv f); try done; simpl;
      destruct (String.eqb f "create_hypertable"); try done.
    repeat case_goal; try done; apply create_hypertable_lenient.
  - unfold alter_options, mbind, res_bind. destruct (need_table s t) as [T|e]; [|done]. simpl.
    by destruct (options_ok srv T opts).
Qed.
End Lenient.

(** [allowed m m']: whatever [m] returns, [m'] returns too, with the same schema. *)
Definition allowed {A} (m m' : M Schema A) : Prop := ∀ s a s', m s = (Ok a, s') → m' s = (Ok a, s').

Lemma allowed_refl {A} (m : M Schema A) : allowed m m.
Proof. by intros s a s'. Qed.

Lemma allowed_bind {A B} (m m' : M Schema A) (k k' : A → M Schema B) :
  allowed m m' → (∀ a, allowed (k a) (k' a)) → allowed (m ≫= k) (m' ≫= k').
Proof.
  intros Hm Hk s b s' Hr. apply bind_inv in Hr as [(a & s1 & Ha & Hr)|(? & _ & [=])].
  rewrite (bind_ok _ _ _ _ _ (Hm _ _ _ Ha)). by apply Hk.
Qed.

Lemma allowed_when c m m' : allowed m m' → allowed (when c m) (when c m').
Proof. destruct c; [done|intros _; apply allowed_refl]. Qed.

Lemma allowed_for_each {X} (k k' : X → M Schema unit) (l : list X) :
  (∀ x, allowed (k x) (k' x)) → allowed (for_each k l) (for_each k' l).
Proof.
  intros Hk. induction l as [|x l IH]; simpl; [apply allowed_refl|]. apply allowed_bind; [apply Hk|by intros].
Qed.

Lemma allowed_change f g : (∀ s s', f s = Ok s' → g s = Ok s') → allowed (change f) (change g).
Proof.
  intros Hfg s a s'. unfold change. destruct (f s) as [s1|e] eqn:E; [|done]. by rewrite (Hfg _ _ E).
Qed.

(** ** Growing schemas *)

(** [s'] has every table, column, constraint and index of [s]. *)
Definition table_extends (T T' : Table) : Prop :=
  incl (column_names T) (column_names T') ∧ incl (List.map fst (foreign_keys T)) (List.map fst (foreign_keys T')) ∧
  incl (List.map fst (uniques T)) (List.map fst (uniques T')) ∧ incl (index_names T) (index_names T').
Definition extends (s s' : Schema) : Prop :=
  ∀ t T, find_table s t = Some T → ∃ T', find_table s' t = Some T' ∧ table_extends T T'.

#[export] Instance table_extends_preorder : PreOrder table_extends.
Proof.
  split; [intros T; repeat split; apply incl_refl|].
  intros T1 T2 T3 (? & ? & ? & ?) (? & ? & ? & ?). repeat split; eapply incl_tran; eassumption.
Qed.

#[export] Instance extends_preorder : PreOrder extends.
Proof.
  split; [intros s t T HT; by exists T|].
  intros s1 s2 s3 H12 H23 t T HT. destruct (H12 t T HT) as (T2 & HT2 & H2).
  destruct (H23 t T2 HT2) as (T3 & HT3 & H3). exists T3. split; [done|]. by etransitivity.
Qed.

(** Replacing a table by one that has all it had. *)
Lemma extends_set s t T T' : find_table s t = Some T → table_extends T T' → extends s (set_table s t T').
Proof.
  intros HT Hext u U HU. unfold find_table, set_table in *. simpl. rewrite dget_dset.
  case_decide; subst; [simplify_eq; eauto|]. exists U. split; [done|reflexivity].
Qed.

Lemma mem_str_In x l : mem_str x l = true ↔ In x l.
Proof.
  unfold mem_str. rewrite existsb_exists. split; [|intros Hin; exists x; split; [done|apply String.eqb_refl]].
  intros (y & Hy & Heq). apply String.eqb_eq in Heq. by subst.
Qed.

Lemma mem_str_app x l l' : mem_str x (l ++ l') = mem_str x l || mem_str x l'.
Proof. apply existsb_app. Qed.
