(* ===== verification/Migrations.v ===== *)
(** * The migrations (migrations/0001_init.sql, migrations/versions/002 to 004)
      and the scripts that try them (scripts/migration_test.py,
      scripts/verify_migration.py)

    Each revision's [upgrade] and [downgrade] with its statements' texts, over
    Alembic's operations and SQLAlchemy's inspector.  Whatever database behaves
    as the reference catalog of Sql.v goes through the schemas computed there. *)

From Stdlib Require Import ZArith Bool List Ascii String.
From stdpp Require Import base decidable list option strings.
From S2P Require Import Prelude PyStr PyMonad PyDict Sql.
Open Scope string_scope.
Open Scope list_scope.

Definition dquote : string := String (ascii_of_nat 34) EmptyString.

(** ** 0001_init.sql *)

Definition init_sql : list string :=
  ["CREATE TYPE role_enum AS ENUM ('ADMIN', 'USER');";
   "CREATE TYPE audit_action_enum AS ENUM ('login', 'logout', 'key_access', 'settings_changed', 'token_refresh');";
   "CREATE TABLE users (
    id SERIAL PRIMARY KEY,
    email VARCHAR(320) UNIQUE NOT NULL,
    password_hash VARCHAR(512) NOT NULL,
    role role_enum NOT NULL DEFAULT 'USER',
    is_active BOOLEAN NOT NULL DEFAULT TRUE,
    created_at TIMESTAMPTZ NOT NULL DEFAULT NOW()
);";
   "CREATE TABLE refresh_tokens (
    id SERIAL PRIMARY KEY,
    user_id INTEGER NOT NULL REFERENCES users(id) ON DELETE CASCADE,
    token_hash VARCHAR(128) NOT NULL,
    device_fingerprint VARCHAR(256) NOT NULL,
    expires_at TIMESTAMPTZ NOT NULL,
    revoked BOOLEAN NOT NULL DEFAULT FALSE,
    last_activity_at TIMESTAMPTZ NOT NULL DEFAULT NOW(),
    created_at TIMESTAMPTZ NOT NULL DEFAULT NOW()
);";
   "CREATE TABLE audit_trail (
    id SERIAL PRIMARY KEY,
    user_id INTEGER REFERENCES users(id) ON DELETE SET NULL,
    action audit_action_enum NOT NULL,
    resource_type VARCHAR(64) NOT NULL,
    resource_id VARCHAR(64),
    details JSONB NOT NULL DEFAULT '{}'::jsonb,
    ip_address VARCHAR(128),
    created_at TIMESTAMPTZ NOT NULL DEFAULT NOW()
);";
   "CREATE TABLE api_key_vault (
    id SERIAL PRIMARY KEY,
    user_id INTEGER NOT NULL REFERENCES users(id) ON DELETE CASCADE,
    provider VARCHAR(100) NOT NULL,
    key_last4 VARCHAR(4) NOT NULL,
    encrypted_dek BYTEA NOT NULL,
    dek_nonce BYTEA NOT NULL,
    ciphertext BYTEA NOT NULL,
    data_nonce BYTEA NOT NULL,
    meta JSONB NOT NULL DEFAULT '{}'::jsonb,
    created_at TIMESTAMPTZ NOT NULL DEFAULT NOW(),
    updated_at TIMESTAMPTZ NOT NULL DEFAULT NOW(),
    CONSTRAINT uq_user_provider UNIQUE (user_id, provider)
);";
   "CREATE INDEX idx_refresh_tokens_user_id ON refresh_tokens(user_id);";
   "CREATE INDEX idx_refresh_tokens_token_hash ON refresh_tokens(token_hash);";
   "CREATE INDEX idx_audit_trail_action ON audit_trail(action);";
   "CREATE INDEX idx_audit_trail_created_at ON audit_trail(created_at);";
   "CREATE INDEX idx_api_key_vault_user_provider ON api_key_vault(user_id, provider);"].

(** ** 002_timescale_trading_core.py *)

Module Core.
Definition broker_accounts_sql : string :=
"
        CREATE TABLE IF NOT EXISTS broker_accounts (
            id UUID PRIMARY KEY DEFAULT gen_random_uuid(),
            user_id INTEGER NOT NULL REFERENCES users(id) ON DELETE CASCADE,
            broker_name TEXT NOT NULL,
            account_login TEXT NOT NULL,
            server TEXT NOT NULL,
            environment TEXT NOT NULL,
            encrypted_credentials BYTEA NOT NULL,
            credentials_nonce BYTEA NOT NULL,
            status TEXT NOT NULL,
            created_at TIMESTAMPTZ NOT NULL DEFAULT NOW(),
            updated_at TIMESTAMPTZ NOT NULL DEFAULT NOW(),
            UNIQUE (user_id, account_login, server)
        );
        ".

Definition tables : dict string string :=
  [("ticks",
    "time TIMESTAMPTZ NOT NULL, symbol TEXT NOT NULL, bid DOUBLE PRECISION NOT NULL, ask DOUBLE PRECISION NOT NULL, volume BIGINT NOT NULL DEFAULT 0, provider TEXT NOT NULL");
   ("ohlcv",
    "time TIMESTAMPTZ NOT NULL, symbol TEXT NOT NULL, timeframe TEXT NOT NULL, open DOUBLE PRECISION NOT NULL, high DOUBLE PRECISION NOT NULL, low DOUBLE PRECISION NOT NULL, close DOUBLE PRECISION NOT NULL, volume BIGINT NOT NULL DEFAULT 0, provider TEXT NOT NULL");
   ("trades",
    "time TIMESTAMPTZ NOT NULL, id UUID PRIMARY KEY DEFAULT gen_random_uuid(), account_id UUID REFERENCES broker_accounts(id) ON DELETE CASCADE, symbol TEXT NOT NULL, side TEXT NOT NULL, volume DOUBLE PRECISION NOT NULL, price DOUBLE PRECISION NOT NULL, profit DOUBLE PRECISION NOT NULL DEFAULT 0");
   ("economic_events",
    "time TIMESTAMPTZ NOT NULL, event_id TEXT NOT NULL, provider TEXT NOT NULL, country TEXT NOT NULL, impact TEXT NOT NULL, payload JSONB NOT NULL DEFAULT '{}'::jsonb");
   ("news_articles",
    "time TIMESTAMPTZ NOT NULL, article_id TEXT NOT NULL, provider TEXT NOT NULL, headline TEXT NOT NULL, sentiment DOUBLE PRECISION NOT NULL DEFAULT 0, payload JSONB NOT NULL DEFAULT '{}'::jsonb");
   ("models",
    "id UUID PRIMARY KEY DEFAULT gen_random_uuid(), name TEXT NOT NULL, version INTEGER NOT NULL, stage TEXT NOT NULL, metrics JSONB NOT NULL DEFAULT '{}'::jsonb, created_at TIMESTAMPTZ NOT NULL DEFAULT NOW(), UNIQUE(name,version)");
   ("backtest_results",
    "created_at TIMESTAMPTZ NOT NULL, id UUID PRIMARY KEY DEFAULT gen_random_uuid(), strategy_id UUID, metrics JSONB NOT NULL, equity_curve JSONB NOT NULL");
   ("strategies",
    "id UUID PRIMARY KEY DEFAULT gen_random_uuid(), user_id INTEGER REFERENCES users(id) ON DELETE CASCADE, name TEXT NOT NULL, version INTEGER NOT NULL DEFAULT 1, dsl JSONB NOT NULL, status TEXT NOT NULL, created_at TIMESTAMPTZ NOT NULL DEFAULT NOW(), UNIQUE(user_id,name,version)");
   ("orders",
    "opened_at TIMESTAMPTZ NOT NULL, id UUID PRIMARY KEY DEFAULT gen_random_uuid(), client_order_id TEXT UNIQUE, account_id UUID REFERENCES broker_accounts(id) ON DELETE CASCADE, strategy_id UUID REFERENCES strategies(id) ON DELETE SET NULL, model_id UUID REFERENCES models(id) ON DELETE SET NULL, symbol TEXT NOT NULL, side TEXT NOT NULL, order_type TEXT NOT NULL, quantity DOUBLE PRECISION NOT NULL, filled_quantity DOUBLE PRECISION NOT NULL DEFAULT 0, status TEXT NOT NULL, version INTEGER NOT NULL DEFAULT 1, created_at TIMESTAMPTZ NOT NULL DEFAULT NOW(), updated_at TIMESTAMPTZ NOT NULL DEFAULT NOW()");
   ("positions",
    "opened_at TIMESTAMPTZ NOT NULL, id UUID PRIMARY KEY DEFAULT gen_random_uuid(), account_id UUID REFERENCES broker_accounts(id) ON DELETE CASCADE, symbol TEXT NOT NULL, side TEXT NOT NULL, quantity DOUBLE PRECISION NOT NULL, entry_price DOUBLE PRECISION NOT NULL, price_current DOUBLE PRECISION, profit DOUBLE PRECISION NOT NULL DEFAULT 0, closed_at TIMESTAMPTZ, updated_at TIMESTAMPTZ NOT NULL DEFAULT NOW()");
   ("risk_incidents",
    "id UUID PRIMARY KEY DEFAULT gen_random_uuid(), rule_type TEXT NOT NULL, parameters JSONB NOT NULL, actual_values JSONB NOT NULL, order_id TEXT, account_id TEXT, action_taken TEXT NOT NULL, created_at TIMESTAMPTZ NOT NULL DEFAULT NOW()")].

Definition hypertables : list (string * string * string) :=
  [("ticks", "time", "7 days"); ("ohlcv", "time", "30 days"); ("trades", "time", "30 days"); ("economic_events", "time", "30 days"); ("news_articles", "time", "7 days"); ("backtest_results", "created_at", "30 days"); ("orders", "opened_at", "30 days"); ("positions", "opened_at", "30 days")].

Definition index_sql : list string :=
  ["CREATE INDEX IF NOT EXISTS ix_broker_accounts_user_id ON broker_accounts(user_id);";
   "CREATE INDEX IF NOT EXISTS ix_ticks_symbol_time ON ticks(symbol,time DESC);";
   "CREATE INDEX IF NOT EXISTS ix_ohlcv_symbol_tf_time ON ohlcv(symbol,timeframe,time DESC);";
   "CREATE INDEX IF NOT EXISTS ix_trades_account_time ON trades(account_id,time DESC);";
   "CREATE INDEX IF NOT EXISTS ix_trades_symbol_time ON trades(symbol,time DESC);";
   "CREATE INDEX IF NOT EXISTS ix_events_country_impact_time ON economic_events(country,impact,time DESC);";
   "CREATE INDEX IF NOT EXISTS ix_news_provider_time ON news_articles(provider,time DESC);";
   "CREATE INDEX IF NOT EXISTS ix_orders_account_status_opened ON orders(account_id,status,opened_at DESC);";
   "CREATE INDEX IF NOT EXISTS ix_positions_account_symbol_opened ON positions(account_id,symbol,opened_at DESC);";
   "CREATE INDEX IF NOT EXISTS ix_backtest_created ON backtest_results(created_at DESC);"].

Definition drop_order : list string :=
  ["risk_incidents"; "positions"; "orders"; "backtest_results"; "news_articles"; "economic_events"; "trades";
   "ohlcv"; "ticks"; "models"; "strategies"; "broker_accounts"].

Definition create_table_sql (t ddl : string) : string :=
  ("CREATE TABLE IF NOT EXISTS " ++ t ++ " (" ++ ddl ++ ");")%string.
Definition hypertable_sql (name col chunk : string) : string :=
  ("SELECT create_hypertable('" ++ name ++ "','" ++ col ++ "',if_not_exists=>TRUE,chunk_time_interval=>INTERVAL '" ++ chunk ++ "');")%string.
Definition drop_sql (t : string) : string := ("DROP TABLE IF EXISTS " ++ t ++ " CASCADE;")%string.

Definition option_sql : list string :=
  ["ALTER TABLE ticks SET (timescaledb.compress, timescaledb.compress_segmentby='symbol,provider');";
   "ALTER TABLE ohlcv SET (timescaledb.compress, timescaledb.compress_segmentby='symbol,timeframe');";
   "ALTER TABLE trades SET (timescaledb.compress, timescaledb.compress_segmentby='account_id,symbol');";
   "SELECT add_compression_policy('ticks', INTERVAL '1 day', if_not_exists=>TRUE);";
   "SELECT add_compression_policy('ohlcv', INTERVAL '7 days', if_not_exists=>TRUE);";
   "SELECT add_compression_policy('trades', INTERVAL '30 days', if_not_exists=>TRUE);";
   "SELECT add_drop_chunks_policy('ticks', INTERVAL '7 days', if_not_exists=>TRUE);";
   "SELECT add_drop_chunks_policy('ohlcv', INTERVAL '2 years', if_not_exists=>TRUE);";
   "SELECT add_drop_chunks_policy('news_articles', INTERVAL '90 days', if_not_exists=>TRUE);"].

Section Revision.
Context {W : Type} (op : Alembic W).

Definition upgrade : M W unit :=
  op_execute op ("CREATE EXTENSION IF NOT EXISTS " ++ dquote ++ "pgcrypto" ++ dquote ++ ";")%string ;;
  op_execute op ("CREATE EXTENSION IF NOT EXISTS " ++ dquote ++ "timescaledb" ++ dquote ++ ";")%string ;;
  op_execute op broker_accounts_sql ;;
  for_each (λ '(t, ddl), op_execute op (create_table_sql t ddl)) tables ;;
  for_each (λ '(name, col, chunk), op_execute op (hypertable_sql name col chunk)) hypertables ;;
  for_each (op_execute op) option_sql ;;
  for_each (op_execute op) index_sql.

Definition downgrade : M W unit := for_each (λ t, op_execute op (drop_sql t)) drop_order.
End Revision.
End Core.

(** ** 003_align_trading_schema.py *)

Module Align.
Section Revision.
Context {W : Type} (op : Alembic W).

Definition column_exists (table column : string) : M W bool :=
  cs ← insp_columns op table; mret (mem_str column cs).
Definition constraint_exists (table constraint : string) : M W bool :=
  fks ← insp_foreign_keys op table;
  uqs ← insp_unique_constraints op table;
  mret (mem_str constraint fks || mem_str constraint uqs).
Definition index_exists (table index : string) : M W bool :=
  is_ ← insp_indexes op table; mret (mem_str index is_).

(** [if not test: m] and [if test: m]. *)
Definition unless (test : M W bool) (m : M W unit) : M W unit := b ← test; when (negb b) m.
Definition only_if (test : M W bool) (m : M W unit) : M W unit := b ← test; when b m.

Definition column (n : string) (t : SaType) (nullable_ : bool) (default_ : option string) : SaColumn :=
  {| sa_name := n; sa_type := t; sa_nullable := nullable_; sa_server_default := default_; sa_primary := false |}.

Definition upgrade : M W unit :=
  unless (column_exists "orders" "client_order_id")
    (op_add_column op "orders" (column "client_order_id" SaText false (Some ""))) ;;
  unless (column_exists "orders" "version") (op_add_column op "orders" (column "version" SaInteger false (Some "1"))) ;;
  unless (column_exists "orders" "idempotency_key")
    (op_add_column op "orders" (column "idempotency_key" SaText true None)) ;;
  unless (column_exists "orders" "parent_order_id")
    (op_add_column op "orders" (column "parent_order_id" SaUuid true None)) ;;
  unless (constraint_exists "orders" "fk_orders_parent_order")
    (op_create_foreign_key op "fk_orders_parent_order" "orders" "orders" ["parent_order_id"] ["id"]) ;;
  unless (column_exists "positions" "version")
    (op_add_column op "positions" (column "version" SaInteger false (Some "1"))) ;;
  unless (column_exists "positions" "unrealized_pnl")
    (op_add_column op "positions" (column "unrealized_pnl" (SaNumeric 10 2) true None)) ;;
  unless (column_exists "positions" "realized_pnl")
    (op_add_column op "positions" (column "realized_pnl" (SaNumeric 10 2) true None)) ;;
  unless (constraint_exists "orders" "uq_orders_idempotency_key")
    (op_create_unique_constraint op "uq_orders_idempotency_key" "orders" ["idempotency_key"]) ;;
  unless (index_exists "orders" "orders_client_order_id_idx")
    (op_create_index op "orders_client_order_id_idx" "orders" ["client_order_id"] false) ;;
  unless (index_exists "orders" "orders_idempotency_key_idx")
    (op_create_index op "orders_idempotency_key_idx" "orders" ["idempotency_key"] true) ;;
  unless (index_exists "positions" "positions_version_idx")
    (op_create_index op "positions_version_idx" "positions" ["version"] false) ;;
  op_execute op "ALTER TABLE orders SET (timescaledb.compress_segmentby='account_id,symbol,status,version');" ;;
  op_execute op "ALTER TABLE positions SET (timescaledb.compress_segmentby='account_id,symbol,version');".

Definition downgrade : M W unit :=
  op_execute op "ALTER TABLE orders SET (timescaledb.compress_segmentby='account_id,symbol');" ;;
  op_execute op "ALTER TABLE positions SET (timescaledb.compress_segmentby='account_id,symbol');" ;;
  only_if (index_exists "positions" "positions_version_idx") (op_drop_index op "positions_version_idx" "positions") ;;
  only_if (index_exists "orders" "orders_idempotency_key_idx") (op_drop_index op "orders_idempotency_key_idx" "orders") ;;
  only_if (index_exists "orders" "orders_client_order_id_idx") (op_drop_index op "orders_client_order_id_idx" "orders") ;;
  only_if (constraint_exists "orders" "uq_orders_idempotency_key")
    (op_drop_constraint op "uq_orders_idempotency_key" "orders") ;;
  only_if (constraint_exists "orders" "fk_orders_parent_order") (op_drop_constraint op "fk_orders_parent_order" "orders") ;;
  only_if (column_exists "positions" "realized_pnl") (op_drop_column op "positions" "realized_pnl") ;;
  only_if (column_exists "positions" "unrealized_pnl") (op_drop_column op "positions" "unrealized_pnl") ;;
  only_if (column_exists "positions" "version") (op_drop_column op "positions" "version") ;;
  only_if (column_exists "orders" "parent_order_id") (op_drop_column op "orders" "parent_order_id") ;;
  only_if (column_exists "orders" "idempotency_key") (op_drop_column op "orders" "idempotency_key") ;;
  only_if (column_exists "orders" "version") (op_drop_column op "orders" "version") ;;
  only_if (column_exists "orders" "client_order_id") (op_drop_column op "orders" "client_order_id").
End Revision.
End Align.

(** ** 004_trading_service_persistence_tables.py *)

Module Persist.
Definition make_hypertable_sql : string :=
"
            DO $$
            BEGIN
                IF EXISTS (SELECT 1 FROM pg_extension WHERE extname = 'timescaledb')
                   AND NOT EXISTS (
                       SELECT 1
                       FROM timescaledb_information.hypertables
                       WHERE hypertable_schema = current_schema()
                         AND hypertable_name = 'trade_audit_log'
                   ) THEN
                    PERFORM create_hypertable('trade_audit_log', 'created_at', if_not_exists => TRUE);
                END IF;
            END
            $$;
            ".

Definition compress_sql : string :=
"
            DO $$
            BEGIN
                IF EXISTS (
                    SELECT 1
                    FROM timescaledb_information.hypertables
                    WHERE hypertable_schema = current_schema()
                      AND hypertable_name = 'trade_audit_log'
                ) THEN
                    ALTER TABLE trade_audit_log
                        SET (timescaledb.compress = true, timescaledb.compress_segmentby='order_id,event_type');
                END IF;
            END
            $$;
            ".

(** Columns as the revision writes them. *)
Definition uuid_key : SaColumn :=
  {| sa_name := "id"; sa_type := SaUuid; sa_nullable := false; sa_server_default := Some "gen_random_uuid()"; sa_primary := true |}.
Definition col (n : string) (t : SaType) (nullable_ : bool) (default_ : option string) : SaColumn :=
  {| sa_name := n; sa_type := t; sa_nullable := nullable_; sa_server_default := default_; sa_primary := false |}.

Definition risk_incidents : list SaColumn :=
  [uuid_key; col "rule_type" SaText false None; col "parameters" SaJsonb false (Some "'{}'::jsonb");
   col "actual_values" SaJsonb false (Some "'{}'::jsonb"); col "order_id" SaUuid true None;
   col "account_id" SaUuid true None; col "action_taken" SaText false None;
   col "created_at" SaTimestampTz false (Some "NOW()")].
Definition trade_audit_log : list SaColumn :=
  [uuid_key; col "order_id" SaUuid true None; col "event_type" SaText false None;
   col "payload" SaJsonb false (Some "'{}'::jsonb"); col "created_at" SaTimestampTz false (Some "NOW()")].

Section Revision.
Context {W : Type} (op : Alembic W).

Definition table_exists (table : string) : M W bool := ts ← insp_table_names op; mret (mem_str table ts).
Definition index_exists (table idx : string) : M W bool := is_ ← insp_indexes op table; mret (mem_str idx is_).

(** [a and not b] and [a and b]: the second call is made only after a true first. *)
Definition and_not (a b : M W bool) : M W bool := x ← a; if x : bool then (y ← b; mret (negb y)) else mret false.
Definition and_also (a b : M W bool) : M W bool := x ← a; if x : bool then b else mret false.
Definition if_ (c : M W bool) (m : M W unit) : M W unit := b ← c; when b m.

Definition upgrade : M W unit :=
  (b ← table_exists "risk_incidents"; when (negb b) (op_create_table op "risk_incidents" risk_incidents)) ;;
  (b ← table_exists "trade_audit_log"; when (negb b) (op_create_table op "trade_audit_log" trade_audit_log)) ;;
  if_ (and_not (table_exists "risk_incidents") (index_exists "risk_incidents" "ix_risk_incidents_order_id"))
    (op_create_index op "ix_risk_incidents_order_id" "risk_incidents" ["order_id"] false) ;;
  if_ (and_not (table_exists "risk_incidents") (index_exists "risk_incidents" "ix_risk_incidents_account_id"))
    (op_create_index op "ix_risk_incidents_account_id" "risk_incidents" ["account_id"] false) ;;
  if_ (and_not (table_exists "trade_audit_log") (index_exists "trade_audit_log" "ix_trade_audit_log_order_id"))
    (op_create_index op "ix_trade_audit_log_order_id" "trade_audit_log" ["order_id"] false) ;;
  if_ (table_exists "trade_audit_log") (op_execute op make_hypertable_sql ;; op_execute op compress_sql).

Definition downgrade : M W unit :=
  if_ (and_also (table_exists "trade_audit_log") (index_exists "trade_audit_log" "ix_trade_audit_log_order_id"))
    (op_drop_index op "ix_trade_audit_log_order_id" "trade_audit_log") ;;
  if_ (and_also (table_exists "risk_incidents") (index_exists "risk_incidents" "ix_risk_incidents_account_id"))
    (op_drop_index op "ix_risk_incidents_account_id" "risk_incidents") ;;
  if_ (and_also (table_exists "risk_incidents") (index_exists "risk_incidents" "ix_risk_incidents_order_id"))
    (op_drop_index op "ix_risk_incidents_order_id" "risk_incidents") ;;
  if_ (table_exists "trade_audit_log") (op_drop_table op "trade_audit_log") ;;
  if_ (table_exists "risk_incidents") (op_drop_table op "risk_incidents").
End Revision.
End Persist.

(** ** The reference catalog as an Alembic target *)

Section Reference.
Variable srv : Server.

(** The two PL/pgSQL blocks of revision 004. *)
Definition exec_any (sql : string) (s : Schema) : res Schema :=
  if String.eqb sql Persist.make_hypertable_sql then
    match find_table s "trade_audit_log" with
    | Some T => match partition T with
                | None => if mem_str "timescaledb" (extensions s) then create_hypertable srv s "trade_audit_log" "created_at" else Ok s
                | Some _ => Ok s
                end
    | None => if mem_str "timescaledb" (extensions s) then sql_error "UndefinedTable" "trade_audit_log" else Ok s
    end
  else if String.eqb sql Persist.compress_sql then
    match find_table s "trade_audit_log" with
    | Some T => match partition T with
                | None => Ok s
                | Some _ => if options_ok srv T (words "timescaledb.compress = true, timescaledb.compress_segmentby='order_id,event_type'")
                            then Ok s else sql_error "InvalidParameterValue" "trade_audit_log"
                end
    | None => Ok s
    end
  else exec srv s sql.

Definition catalog : Alembic Schema := {|
  op_execute sql := change (exec_any sql);
  op_create_table t cs := change (λ s, Sql.create_table s t (sa_table cs) false);
  op_drop_table t := change (λ s, drop_table s t false false);
  op_add_column t c := change (λ s, add_column s t (pg_column c));
  op_drop_column t c := change (λ s, drop_column s t c);
  op_create_foreign_key n src tgt cs remote := change (λ s, add_foreign_key s n src tgt cs remote);
  op_create_unique_constraint n t cs := change (λ s, add_unique srv s n t cs);
  op_drop_constraint n t := change (λ s, drop_constraint s n t);
  op_create_index n t cs u := change (λ s, Sql.create_index srv s n t cs u false);
  op_drop_index n t := change (λ s, drop_index s n t);
  insp_columns := inspect column_names;
  insp_foreign_keys := inspect (λ T, List.map fst (foreign_keys T));
  insp_unique_constraints := inspect (λ T, List.map fst (uniques T));
  insp_indexes := inspect index_names;
  insp_table_names := gets (λ s, dkeys (tables s))
|}.
End Reference.

(** What a database must do for the schemas below to be its own. *)
Class CatalogLaws {W} (op : Alembic W) (srv : Server) (schema : W → Schema) := {
  law_execute sql : agrees schema (op_execute op sql) (op_execute (catalog srv) sql);
  law_create_table t cs : agrees schema (op_create_table op t cs) (op_create_table (catalog srv) t cs);
  law_drop_table t : agrees schema (op_drop_table op t) (op_drop_table (catalog srv) t);
  law_add_column t c : agrees schema (op_add_column op t c) (op_add_column (catalog srv) t c);
  law_drop_column t c : agrees schema (op_drop_column op t c) (op_drop_column (catalog srv) t c);
  law_create_foreign_key n s t a b :
    agrees schema (op_create_foreign_key op n s t a b) (op_create_foreign_key (catalog srv) n s t a b);
  law_create_unique n t cs :
    agrees schema (op_create_unique_constraint op n t cs) (op_create_unique_constraint (catalog srv) n t cs);
  law_drop_constraint n t : agrees schema (op_drop_constraint op n t) (op_drop_constraint (catalog srv) n t);
  law_create_index n t cs u : agrees schema (op_create_index op n t cs u) (op_create_index (catalog srv) n t cs u);
  law_drop_index n t : agrees schema (op_drop_index op n t) (op_drop_index (catalog srv) n t);
  law_columns t : agrees schema (insp_columns op t) (insp_columns (catalog srv) t);
  law_foreign_keys t : agrees schema (insp_foreign_keys op t) (insp_foreign_keys (catalog srv) t);
  law_uniques t : agrees schema (insp_unique_constraints op t) (insp_unique_constraints (catalog srv) t);
  law_indexes t : agrees schema (insp_indexes op t) (insp_indexes (catalog srv) t);
  law_table_names : agrees schema (insp_table_names op) (insp_table_names (catalog srv))
}.

(** Walk a migration: each call agrees by its law. *)
Ltac solve_agrees :=
  repeat first
    [ progress intros
    | apply agrees_bind | apply agrees_ret | apply agrees_when | apply agrees_for_each
    | apply law_execute | apply law_create_table | apply law_drop_table | apply law_add_column | apply law_drop_column
    | apply law_create_foreign_key | apply law_create_unique | apply law_drop_constraint | apply law_create_index
    | apply law_drop_index | apply law_columns | apply law_foreign_keys | apply law_uniques | apply law_indexes
    | apply law_table_names
    | match goal with |- agrees _ (match ?x with _ => _ end) _ => destruct x end ].

Section Refinement.
Context {W : Type} (op : Alembic W) (srv : Server) (schema : W → Schema) `{L : CatalogLaws W op srv schema}.

Lemma core_upgrade_agrees : agrees schema (Core.upgrade op) (Core.upgrade (catalog srv)).
Proof. unfold Core.upgrade. solve_agrees. Qed.

Lemma align_upgrade_agrees : agrees schema (Align.upgrade op) (Align.upgrade (catalog srv)).
Proof. unfold Align.upgrade, Align.unless, Align.column_exists, Align.constraint_exists, Align.index_exists. solve_agrees. Qed.

Lemma persist_upgrade_agrees : agrees schema (Persist.upgrade op) (Persist.upgrade (catalog srv)).
Proof. unfold Persist.upgrade, Persist.if_, Persist.and_not, Persist.table_exists, Persist.index_exists. solve_agrees. Qed.
End Refinement.

(** What any server accepts of a revision, the lenient one does. *)
Section Lenient.
Variable srv : Server.

Lemma exec_any_lenient sql s s' : exec_any srv sql s = Ok s' → exec_any lenient sql s = Ok s'.
Proof.
  unfold exec_any. destruct (String.eqb sql Persist.make_hypertable_sql).
  - destruct (find_table s "trade_audit_log") as [T|]; [|done]. destruct (partition T); [done|].
    destruct (mem_str "timescaledb" (extensions s)); [|done]. apply create_hypertable_lenient.
  - destruct (String.eqb sql Persist.compress_sql); [|apply exec_lenient].
    destruct (find_table s "trade_audit_log") as [T|]; [|done]. destruct (partition T); [|done].
    by destruct (options_ok srv _ _).
Qed.

Lemma execute_lenient sql : allowed (op_execute (catalog srv) sql) (op_execute (catalog lenient) sql).
Proof. apply allowed_change. intros s s'. apply exec_any_lenient. Qed.
Lemma create_unique_lenient n t cs :
  allowed (op_create_unique_constraint (catalog srv) n t cs) (op_create_unique_constraint (catalog lenient) n t cs).
Proof. apply allowed_change. intros s s'. apply add_unique_lenient. Qed.
Lemma create_index_lenient_op n t cs u :
  allowed (op_create_index (catalog srv) n t cs u) (op_create_index (catalog lenient) n t cs u).
Proof. apply allowed_change. intros s s'. apply create_index_lenient. Qed.
End Lenient.

Ltac solve_allowed :=
  repeat first
    [ progress intros
    | lazymatch goal with
      | |- allowed (_ ≫= _) _ => apply allowed_bind
      | |- allowed (when _ _) _ => apply allowed_when
      | |- allowed (for_each _ _) _ => apply allowed_for_each
      | |- allowed (op_execute _ _) _ => apply execute_lenient
      | |- allowed (op_create_unique_constraint _ _ _ _) _ => apply create_unique_lenient
      | |- allowed (op_create_index _ _ _ _ _) _ => apply create_index_lenient_op
      | |- allowed (match ?x with _ => _ end) _ => destruct x
      | |- _ => apply allowed_refl
      end ].

Lemma core_lenient srv : allowed (Core.upgrade (catalog srv)) (Core.upgrade (catalog lenient)).
Proof. unfold Core.upgrade. solve_allowed. Qed.
Lemma align_lenient srv : allowed (Align.upgrade (catalog srv)) (Align.upgrade (catalog lenient)).
Proof. unfold Align.upgrade, Align.unless. solve_allowed. Qed.
Lemma persist_lenient srv : allowed (Persist.upgrade (catalog srv)) (Persist.upgrade (catalog lenient)).
Proof. unfold Persist.upgrade, Persist.if_. solve_allowed. Qed.

(** ** Re-running a revision *)

(** A guarded step: once done, its test holds for ever and it does nothing more. *)
Definition settles (m : M Schema unit) (P : Schema → Prop) : Prop :=
  (∀ s s', m s = (Ok tt, s') → extends s s' ∧ P s') ∧
  (∀ s s', extends s s' → P s → P s') ∧
  (∀ s, P s → m s = (Ok tt, s)).

(** A revision that may be run again: where it succeeded, it now changes nothing. *)
Definition rerunnable (m : M Schema unit) : Prop :=
  ∀ s s', m s = (Ok tt, s') → extends s s' ∧ m s' = (Ok tt, s').

Lemma rerunnable_bind m P k : settles m P → rerunnable k → rerunnable (m ;; k).
Proof.
  intros (Hm & Hst & Hnop) Hk s s' Hr. apply bind_inv in Hr as [([] & s1 & H1 & Hr)|(? & _ & [=])].
  destruct (Hm _ _ H1) as [He HP]. destruct (Hk _ _ Hr) as [He' Hagain].
  split; [by etransitivity|]. by rewrite (bind_ok _ _ _ _ _ (Hnop s' (Hst _ _ He' HP))).
Qed.

(** A statement that never changes the schema. *)
Lemma rerunnable_constant m : (∀ s s', m s = (Ok tt, s') → s' = s) → rerunnable m.
Proof. intros Hm s s' Hr. pose proof (Hm _ _ Hr) as ->. done. Qed.

Lemma constant_bind m k :
  (∀ s s', m s = (Ok tt, s') → s' = s) → (∀ s s', k s = (Ok tt, s') → s' = s) →
  ∀ s s', (m ;; k : M Schema unit) s = (Ok tt, s') → s' = s.
Proof.
  intros Hm Hk s s' Hr. apply bind_inv in Hr as [([] & s1 & H1 & Hr)|(? & _ & [=])].
  by rewrite (Hk _ _ Hr), (Hm _ _ H1).
Qed.

(** What the inspector's tests test. *)
Definition holds (f : Table → list string) (t n : string) (s : Schema) : Prop :=
  ∃ T, find_table s t = Some T ∧ In n (f T).

Definition monotone (f : Table → list string) : Prop := ∀ T T', table_extends T T' → incl (f T) (f T').

Lemma holds_stable f t n s s' : monotone f → extends s s' → holds f t n s → holds f t n s'.
Proof.
  intros Hf He (T & HT & Hn). destruct (He t T HT) as (T' & HT' & Hext). exists T'. split; [done|]. by apply (Hf T T').
Qed.

(** [unless test op], when [op] makes the tested name appear. *)
Lemma unless_settles q op f t n :
  monotone f →
  (∀ s, q s = match find_table s t with
              | Some T => (Ok (mem_str n (f T)), s)
              | None => (Raise (ExternalError "NoSuchTableError" t), s)
              end) →
  (∀ s s', op s = (Ok tt, s') → extends s s' ∧ holds f t n s') →
  settles (Align.unless q op) (holds f t n).
Proof.
  intros Hf Hq Hop. split; [|split].
  - intros s s' Hr. unfold Align.unless, mbind, M_bind in Hr. rewrite Hq in Hr.
    destruct (find_table s t) as [T|] eqn:ET; [|done]. destruct (mem_str n (f T)) eqn:Em; simpl in Hr; [|by apply Hop].
    injection Hr as <-. split; [reflexivity|]. exists T. by rewrite mem_str_In in Em.
  - intros s s'. by apply holds_stable.
  - intros s (T & HT & Hn). apply mem_str_In in Hn. unfold Align.unless, mbind, M_bind. by rewrite Hq, HT, Hn.
Qed.

Lemma change_ok f s s' : change f s = (Ok tt, s') → f s = Ok s'.
Proof. unfold change. by destruct (f s); intros [= <-]. Qed.

Ltac run_op H :=
  cbn [catalog op_execute op_create_table op_drop_table op_add_column op_drop_column op_create_foreign_key
       op_create_unique_constraint op_drop_constraint op_create_index op_drop_index] in H;
  apply change_ok in H.

Lemma need_table_ok s t T : need_table s t = Ok T → find_table s t = Some T.
Proof. unfold need_table. by destruct (find_table s t); intros [= <-]. Qed.

(** Setting a table that has all the old one had, and the new name. *)
Lemma set_table_grows f s t T T' n :
  find_table s t = Some T → table_extends T T' → In n (f T') →
  extends s (set_table s t T') ∧ holds f t n (set_table s t T').
Proof.
  intros HT He Hn. split; [by eapply extends_set|]. exists T'. split; [|done]. apply dget_dset_eq.
Qed.

Section Growth.
Variable srv : Server.

Lemma add_column_grows t c s s' :
  op_add_column (catalog srv) t c s = (Ok tt, s') → extends s s' ∧ holds column_names t (sa_name c) s'.
Proof.
  intros Hr. run_op Hr. unfold add_column, mbind, res_bind in Hr.
  destruct (need_table s t) as [T|e] eqn:HT; [apply need_table_ok in HT|done].
  destruct (mem_str _ _); [done|]. injection Hr as <-. eapply set_table_grows; [done| |].
  - repeat split; try apply incl_refl. unfold column_names, with_columns. simpl. rewrite List.map_app. apply incl_appl, incl_refl.
  - unfold column_names, with_columns. simpl. rewrite List.map_app. apply in_app_iff. right. by left.
Qed.

Lemma add_foreign_key_grows n src tgt cs rem s s' :
  op_create_foreign_key (catalog srv) n src tgt cs rem s = (Ok tt, s') →
  extends s s' ∧ holds (λ T, List.map fst (foreign_keys T) ++ List.map fst (uniques T)) src n s'.
Proof.
  intros Hr. run_op Hr. unfold add_foreign_key, mbind, res_bind in Hr.
  destruct (need_table s src) as [T|e] eqn:HT; [apply need_table_ok in HT|done].
  destruct (need_table s tgt); [|done]. destruct (negb _); [done|]. destruct (mem_str _ _); [done|].
  injection Hr as <-. eapply set_table_grows; [done| |].
  - repeat split; try apply incl_refl. unfold with_foreign_keys. simpl. rewrite List.map_app. apply incl_appl, incl_refl.
  - unfold with_foreign_keys. simpl. rewrite List.map_app, !in_app_iff. left. right. by left.
Qed.

Lemma add_unique_grows n t cs s s' :
  op_create_unique_constraint (catalog srv) n t cs s = (Ok tt, s') →
  extends s s' ∧ holds (λ T, List.map fst (foreign_keys T) ++ List.map fst (uniques T)) t n s'.
Proof.
  intros Hr. run_op Hr. unfold add_unique, mbind, res_bind in Hr.
  destruct (need_table s t) as [T|e] eqn:HT; [apply need_table_ok in HT|done].
  destruct (negb _); [done|]. destruct (is_index s n); [done|]. destruct (key_ok srv _); [|done].
  injection Hr as <-. eapply set_table_grows; [done| |].
  - repeat split; try apply incl_refl; unfold index_names, with_uniques; simpl; rewrite List.map_app; [apply incl_appl, incl_refl|].
    rewrite app_assoc. apply incl_appl, incl_refl.
  - unfold with_uniques. simpl. rewrite List.map_app, !in_app_iff. right. right. by left.
Qed.

Lemma create_index_grows n t cs u s s' :
  op_create_index (catalog srv) n t cs u s = (Ok tt, s') → extends s s' ∧ holds index_names t n s'.
Proof.
  intros Hr. run_op Hr. unfold create_index, mbind, res_bind in Hr.
  destruct (need_table s t) as [T|e] eqn:HT; [apply need_table_ok in HT|done].
  destruct (is_index s n); [done|]. destruct (negb _); [done|]. destruct (u && _); [done|].
  injection Hr as <-. eapply set_table_grows; [done| |].
  - repeat split; try apply incl_refl. unfold index_names, with_indexes. simpl. rewrite List.map_app, <- app_assoc.
    apply incl_app; [apply incl_appl, incl_refl|apply incl_appr, incl_appr, incl_refl].
  - unfold index_names, with_indexes. simpl. rewrite List.map_app, !in_app_iff. left. right. by left.
Qed.

(** Storage options are not part of the schema. *)
Lemma alter_constant sql t opts s s' :
  parse (words sql) = Some (AlterOptions t opts) →
  String.eqb sql Persist.make_hypertable_sql = false → String.eqb sql Persist.compress_sql = false →
  op_execute (catalog srv) sql s = (Ok tt, s') → s' = s.
Proof.
  intros Hp H1 H2 Hr. run_op Hr. unfold exec_any in Hr. rewrite H1, H2 in Hr. unfold exec in Hr. rewrite Hp in Hr.
  simpl in Hr. unfold alter_options, mbind, res_bind in Hr. destruct (need_table s t); [|done].
  by destruct (options_ok srv _ _); [injection Hr|].
Qed.

Lemma monotone_columns : monotone column_names. Proof. by intros T T' (? & _). Qed.
Lemma monotone_constraints : monotone (λ T, List.map fst (foreign_keys T) ++ List.map fst (uniques T)).
Proof. intros T T' (_ & Hf & Hu & _). by apply incl_app_app. Qed.
Lemma monotone_indexes : monotone index_names. Proof. by intros T T' (_ & _ & _ & ?). Qed.

Lemma column_exists_run t c s :
  Align.column_exists (catalog srv) t c s =
  match find_table s t with
  | Some T => (Ok (mem_str c (column_names T)), s)
  | None => (Raise (ExternalError "NoSuchTableError" t), s)
  end.
Proof. unfold Align.column_exists, mbind, M_bind. simpl. unfold inspect. by destruct (find_table s t). Qed.

Lemma index_exists_run t n s :
  Align.index_exists (catalog srv) t n s =
  match find_table s t with
  | Some T => (Ok (mem_str n (index_names T)), s)
  | None => (Raise (ExternalError "NoSuchTableError" t), s)
  end.
Proof. unfold Align.index_exists, mbind, M_bind. simpl. unfold inspect. by destruct (find_table s t). Qed.

Lemma constraint_exists_run t n s :
  Align.constraint_exists (catalog srv) t n s =
  match find_table s t with
  | Some T => (Ok (mem_str n (List.map fst (foreign_keys T) ++ List.map fst (uniques T))), s)
  | None => (Raise (ExternalError "NoSuchTableError" t), s)
  end.
Proof.
  unfold Align.constraint_exists, mbind, M_bind. simpl. unfold inspect. destruct (find_table s t) as [T|] eqn:HT; [|done].
  cbn. by rewrite HT, mem_str_app.
Qed.

Lemma ensure_column t c :
  settles (Align.unless (Align.column_exists (catalog srv) t (sa_name c)) (op_add_column (catalog srv) t c))
    (holds column_names t (sa_name c)).
Proof. apply unless_settles; [apply monotone_columns|apply column_exists_run|apply add_column_grows]. Qed.

Lemma ensure_foreign_key n t tgt cs rem :
  settles (Align.unless (Align.constraint_exists (catalog srv) t n) (op_create_foreign_key (catalog srv) n t tgt cs rem))
    (holds (λ T, List.map fst (foreign_keys T) ++ List.map fst (uniques T)) t n).
Proof. apply unless_settles; [apply monotone_constraints|apply constraint_exists_run|apply add_foreign_key_grows]. Qed.

Lemma ensure_unique n t cs :
  settles (Align.unless (Align.constraint_exists (catalog srv) t n) (op_create_unique_constraint (catalog srv) n t cs))
    (holds (λ T, List.map fst (foreign_keys T) ++ List.map fst (uniques T)) t n).
Proof. apply unless_settles; [apply monotone_constraints|apply constraint_exists_run|apply add_unique_grows]. Qed.

Lemma ensure_index n t cs u :
  settles (Align.unless (Align.index_exists (catalog srv) t n) (op_create_index (catalog srv) n t cs u))
    (holds index_names t n).
Proof. apply unless_settles; [apply monotone_indexes|apply index_exists_run|apply create_index_grows]. Qed.
End Growth.

#[export] Hint Resolve ensure_column ensure_foreign_key ensure_unique ensure_index : py_run.

(** Revision 003 can be run again: whatever schema it was run on and whatever
    server it was run against, once it has succeeded nothing of what was there is
    gone and running it a second time succeeds and changes nothing. *)
Theorem align_upgrade_is_rerunnable srv : rerunnable (Align.upgrade (catalog srv)).
Proof.
  unfold Align.upgrade.
  repeat (eapply rerunnable_bind;
    [lazymatch goal with
     | |- settles (Align.unless _ (op_add_column _ _ ?c)) _ => exact (ensure_column srv _ c)
     | |- settles (Align.unless _ (op_create_foreign_key _ _ _ _ _ _)) _ => apply ensure_foreign_key
     | |- settles (Align.unless _ (op_create_unique_constraint _ _ _ _)) _ => apply ensure_unique
     | |- settles (Align.unless _ (op_create_index _ _ _ _ _)) _ => apply ensure_index
     end|]).
  apply rerunnable_constant, constant_bind; intros s s'; eapply alter_constant; vm_compute; reflexivity.
Qed.

(** ** The schema of a fresh deployment *)

(** [0001_init.sql] is not an Alembic revision: it is applied by hand. *)
Definition run_init (srv : Server) : M Schema unit := for_each (λ sql, change (λ s, exec srv s sql)) init_sql.
Definition init_schema : Schema := Eval vm_compute in (run_init lenient empty_schema).2.

(** [alembic upgrade head]. *)
Definition upgrade_all {W} (op : Alembic W) : M W unit := Core.upgrade op ;; Align.upgrade op ;; Persist.upgrade op.

Definition head_schema : Schema := Eval vm_compute in (upgrade_all (catalog lenient) init_schema).2.

Lemma upgrade_all_lenient srv : allowed (upgrade_all (catalog srv)) (upgrade_all (catalog lenient)).
Proof.
  unfold upgrade_all. apply allowed_bind; [apply core_lenient|]. intros _. apply allowed_bind; [apply align_lenient|].
  intros _. apply persist_lenient.
Qed.

Lemma upgrade_all_agrees {W} (op : Alembic W) srv schema `{!CatalogLaws op srv schema} :
  agrees schema (upgrade_all op) (upgrade_all (catalog srv)).
Proof.
  unfold upgrade_all. apply agrees_bind; [by apply core_upgrade_agrees|]. intros _.
  apply agrees_bind; [by apply align_upgrade_agrees|]. intros _. by apply persist_upgrade_agrees.
Qed.

Lemma agrees_ok {W A} (f : W → Schema) (m : M W A) m' w a w' :
  agrees f m m' → m w = (Ok a, w') → m' (f w) = (Ok a, f w').
Proof.
  intros Hm Hr. destruct (Hm w) as [Hs Hf]. rewrite Hr in Hs, Hf. cbn in Hs, Hf.
  destruct (m' (f w)) as [[b|e] s']; cbn in *; [|done]. by subst.
Qed.

(** The hypertables of a schema and the columns they are partitioned by. *)
Definition partitions (s : Schema) : list (string * string) :=
  omap (λ kT, option_map (pair kT.1) (partition kT.2)) (tables s).
(** The keys of a table, each with its columns; the tables it refers to. *)
Definition keys_of (s : Schema) (t : string) : list (list string) :=
  match find_table s t with Some T => primary_key T :: List.map snd (uniques T) | None => [] end.
Definition references_of (s : Schema) (t : string) : list (list string * string) :=
  match find_table s t with Some T => List.map snd (foreign_keys T) | None => [] end.


(** ** TimescaleDB's rule *)

(** Every key of a hypertable includes the column it is partitioned by. *)
Definition keys_cover (T : Table) (c : string) : bool :=
  (match primary_key T with [] => true | k => mem_str c k end) && forallb (λ u, mem_str c u.2) (uniques T).

(** A [create_hypertable] that succeeds was accepted by the server. *)
Lemma hypertable_accepted srv sql t c r s T s' :
  String.eqb sql Persist.make_hypertable_sql = false → String.eqb sql Persist.compress_sql = false →
  parse (words sql) = Some (CallFunction "create_hypertable" (t :: "," :: c :: r)) →
  find_table s (unquote t) = Some T → partition T = None →
  op_execute (catalog srv) sql s = (Ok tt, s') → hypertable_ok srv T (unquote c) = true.
Proof.
  intros H1 H2 Hp HT Hpart Hr. run_op Hr. unfold exec_any in Hr. rewrite H1, H2 in Hr. unfold exec in Hr.
  rewrite Hp in Hr. unfold exec_statement, call_function in Hr. destruct (negb _); [done|].
  change (create_hypertable srv s (unquote t) (unquote c) = Ok s') in Hr.
  unfold create_hypertable, need_table, mbind, res_bind in Hr. rewrite HT, Hpart in Hr.
  by destruct (hypertable_ok srv T (unquote c)).
Qed.

(** Revision 002 cannot be applied to a TimescaleDB server: it declares
    [trades], [backtest_results], [orders] and [positions] with the primary key
    [id] and then asks to partition them by a time column.  A server that, as
    TimescaleDB documents, accepts a hypertable only when every key includes the
    partitioning column refuses, so on a database where [0001_init.sql] was applied
    the upgrade raises. *)
Theorem timescale_refuses_the_core_revision {W} (op : Alembic W) srv schema `{!CatalogLaws op srv schema} w :
  (∀ T c, hypertable_ok srv T c = true → keys_cover T c = true) →
  schema w = init_schema → is_ok (Core.upgrade op w).1 = false.
Proof.
  intros Hrule Hw. destruct (Core.upgrade op w) as [[[]|e] w'] eqn:Hr; [|done].
  apply (agrees_ok schema _ _ _ _ _ (core_upgrade_agrees op srv schema)) in Hr. rewrite Hw in Hr.
  unfold Core.upgrade in Hr.
  peel Hr as [] s1 H1. apply execute_lenient in H1. vm_compute in H1. injection H1 as <-.
  peel Hr as [] s2 H2. apply execute_lenient in H2. vm_compute in H2. injection H2 as <-.
  peel Hr as [] s3 H3. apply execute_lenient in H3. vm_compute in H3. injection H3 as <-.
  peel Hr as [] s4 H4.
  apply (allowed_for_each _ (λ '(t, ddl), op_execute (catalog lenient) (Core.create_table_sql t ddl))) in H4;
    [|intros []; apply execute_lenient].
  vm_compute in H4. injection H4 as <-.
  peel Hr as [] s5 H5. clear Hr. unfold Core.hypertables, for_each in H5.
  peel H5 as [] s6 H6. apply execute_lenient in H6. vm_compute in H6. injection H6 as <-.
  peel H5 as [] s7 H7. apply execute_lenient in H7. vm_compute in H7. injection H7 as <-.
  peel H5 as [] s8 H8.
  eapply hypertable_accepted in H8; [|vm_compute; reflexivity..].
  apply Hrule in H8. vm_compute in H8. discriminate H8.
Qed.

Lemma align_downgrade_agrees {W} (op : Alembic W) srv schema `{!CatalogLaws op srv schema} :
  agrees schema (Align.downgrade op) (Align.downgrade (catalog srv)).
Proof. unfold Align.downgrade, Align.only_if, Align.column_exists, Align.constraint_exists, Align.index_exists. solve_agrees. Qed.

Lemma core_downgrade_agrees {W} (op : Alembic W) srv schema `{!CatalogLaws op srv schema} :
  agrees schema (Core.downgrade op) (Core.downgrade (catalog srv)).
Proof. unfold Core.downgrade. solve_agrees. Qed.

Lemma persist_downgrade_agrees {W} (op : Alembic W) srv schema `{!CatalogLaws op srv schema} :
  agrees schema (Persist.downgrade op) (Persist.downgrade (catalog srv)).
Proof. unfold Persist.downgrade, Persist.if_, Persist.and_also, Persist.table_exists, Persist.index_exists. solve_agrees. Qed.

Lemma align_downgrade_lenient srv : allowed (Align.downgrade (catalog srv)) (Align.downgrade (catalog lenient)).
Proof. unfold Align.downgrade, Align.only_if. solve_allowed. Qed.

(** ** scripts/migration_test.py *)

(** psycopg2 and the [alembic] command: its exit code; the rows of a query; a
    statement; [commit]. *)
Record Psycopg (W : Type) := {
  run_cmd : list string → M W Z;
  query_columns : string → string → M W (list (string * string));   (* statement, its parameter *)
  cur_execute : string → M W unit;
  conn_commit : M W unit
}.
Arguments run_cmd {W}. Arguments query_columns {W}. Arguments cur_execute {W}. Arguments conn_commit {W}.

Definition columns_sql : string :=
"
        SELECT column_name, data_type
        FROM information_schema.columns
        WHERE table_name = %s
        ".

(** [insert_and_verify]'s statements; a backslash stands for itself. *)
Definition insert_statements : list string :=
  ["INSERT INTO users (email,password_hash,role,is_active) VALUES ('t@e.com','x','USER',true) ON CONFLICT DO NOTHING";
   "INSERT INTO broker_accounts (user_id,broker_name,account_login,server,environment,encrypted_credentials,credentials_nonce,status) VALUES (1,'b','a','s','demo','\x00','\x00','ok') ON CONFLICT DO NOTHING";
   "INSERT INTO orders (opened_at, account_id, symbol, side, order_type, quantity, status, client_order_id, version) VALUES (NOW(), (SELECT id FROM broker_accounts LIMIT 1), 'EURUSD','BUY','MARKET',1,'PENDING','cid-1',1)";
   "INSERT INTO positions (opened_at, account_id, symbol, side, quantity, entry_price, version, unrealized_pnl, realized_pnl) VALUES (NOW(), (SELECT id FROM broker_accounts LIMIT 1), 'EURUSD','BUY',1,1.1,1,0,0)"].

Definition expected_orders : dict string string :=
  [("client_order_id", "text"); ("version", "integer"); ("idempotency_key", "text"); ("parent_order_id", "uuid")].
Definition expected_positions : dict string string :=
  [("version", "integer"); ("unrealized_pnl", "numeric"); ("realized_pnl", "numeric")].

Definition type_is (cols : dict string string) (k v : string) : bool :=
  match dget cols k with Some t => String.eqb t v | None => false end.

Section MigrationTest.
Context {W : Type} (P : Psycopg W).

Definition run (cmd : list string) : M W unit :=
  code ← run_cmd P cmd;
  when (negb (Z.eqb code 0)) (raise (RuntimeError ("command failed: " ++ String.concat " " cmd)%string)).

Definition fetch_columns (table : string) : M W (dict string string) :=
  rows ← query_columns P columns_sql table; mret (dupdate [] rows).

Definition assert_ (c : bool) (msg : string) : M W unit := when (negb c) (raise (AssertionError msg)).

Definition assert_columns : M W unit :=
  orders ← fetch_columns "orders";
  positions ← fetch_columns "positions";
  for_each (λ '(k, v),
    if String.eqb k "parent_order_id"
    then assert_ (type_is orders k "uuid" || type_is orders k "text")
           ("orders." ++ k ++ " expected uuid/text got " ++ default "None" (dget orders k))%string
    else assert_ (type_is orders k v) ("orders." ++ k ++ " missing/type mismatch")%string) expected_orders ;;
  for_each (λ '(k, v), assert_ (type_is positions k v) ("positions." ++ k ++ " missing/type mismatch")%string)
    expected_positions.

Definition insert_and_verify : M W unit := for_each (cur_execute P) insert_statements ;; conn_commit P.

Definition main (dsn : option string) : M W unit :=
  match dsn with
  | None | Some EmptyString => raise (RuntimeError "MIGRATION_TEST_DSN required")
  | Some _ =>
      run ["alembic"; "upgrade"; "002_timescale_trading_core"] ;;
      run ["alembic"; "upgrade"; "003_align_trading_schema"] ;;
      assert_columns ;;
      insert_and_verify ;;
      run ["alembic"; "downgrade"; "002_timescale_trading_core"] ;;
      cols ← fetch_columns "orders";
      assert_ (negb (dmem cols "client_order_id")) "" ;;
      run ["alembic"; "upgrade"; "head"] ;;
      assert_columns
  end.
End MigrationTest.

(** The script's view of a database of the reference catalog: [alembic] applies the
    revisions, the columns are the catalog's, an INSERT is checked against it. *)
Definition exit_code (m : M Schema unit) : M Schema Z :=
  try_except (m ;; mret 0%Z) (λ _, mret 1%Z).

Definition reference_db (srv : Server) : Psycopg Schema := {|
  run_cmd cmd :=
    match cmd with
    | [_; "upgrade"; "002_timescale_trading_core"] => exit_code (Core.upgrade (catalog srv))
    | [_; "upgrade"; "003_align_trading_schema"] => exit_code (Align.upgrade (catalog srv))
    | [_; "downgrade"; "002_timescale_trading_core"] => exit_code (Align.downgrade (catalog srv))
    | [_; "upgrade"; "head"] => exit_code (Align.upgrade (catalog srv) ;; Persist.upgrade (catalog srv))
    | _ => mret 1%Z
    end;
  query_columns _ t := gets (λ s, match find_table s t with Some T => column_types T | None => [] end);
  cur_execute sql := s ← get; lift_res (insert_check s sql);
  conn_commit := mret tt
|}.

(** *** scripts/verify_migration.py *)

Definition required_tables : list string := ["ticks"; "ohlcv"; "trades"; "orders"; "positions"; "economic_events"].
Definition required_hypertables : list string := ["ticks"; "ohlcv"; "trades"; "orders"; "positions"].

Definition tables_sql : string := "SELECT tablename FROM pg_tables WHERE schemaname='public'".
Definition hypertables_sql : string := "SELECT hypertable_name FROM timescaledb_information.hypertables".

(** [main]'s exit code; [names] answers a query's first column. *)
Definition verify_main {W} (names : string → M W (list string)) (dry_run : bool) (dsn : option string) : M W Z :=
  if dry_run then mret 0%Z
  else match dsn with
  | None | Some EmptyString => mret 1%Z
  | Some _ =>
      tables ← names tables_sql;
      match List.filter (λ t, negb (mem_str t tables)) required_tables with
      | _ :: _ => mret 1%Z
      | [] =>
          hypertables ← names hypertables_sql;
          if forallb (λ t, mem_str t hypertables) required_hypertables then mret 0%Z else mret 1%Z
      end
  end.

Definition reference_names (sql : string) : M Schema (list string) :=
  if String.eqb sql tables_sql then gets (λ s, dkeys (tables s))
  else gets (λ s, List.map fst (List.filter (λ kT, match partition kT.2 with Some _ => true | None => false end) (tables s))).

(** ** Downgrading *)

Definition core_schema : Schema := Eval vm_compute in (Core.upgrade (catalog lenient) init_schema).2.

Definition there_and_back {W} (op : Alembic W) : M W unit := Align.upgrade op ;; Align.downgrade op ;; Align.upgrade op.

(** The keys of [orders] that mention the client's order id. *)
Definition client_id_keys (s : Schema) : list string :=
  match find_table s "orders" with
  | Some T => List.map fst (List.filter (λ u, mem_str "client_order_id" u.2) (uniques T))
  | None => []
  end.

Lemma there_and_back_agrees {W} (op : Alembic W) srv schema `{!CatalogLaws op srv schema} :
  agrees schema (there_and_back op) (there_and_back (catalog srv)).
Proof.
  unfold there_and_back. apply agrees_bind; [by apply align_upgrade_agrees|]. intros _.
  apply agrees_bind; [by apply align_downgrade_agrees|]. intros _. by apply align_upgrade_agrees.
Qed.

Lemma there_and_back_lenient srv : allowed (there_and_back (catalog srv)) (there_and_back (catalog lenient)).
Proof.
  unfold there_and_back. apply allowed_bind; [apply align_lenient|]. intros _.
  apply allowed_bind; [apply align_downgrade_lenient|]. intros _. apply align_lenient.
Qed.

(** The downgrade of revision 003 does not undo its upgrade: it also drops the
    columns [client_order_id] and [version] that revision 002 had created.  On any
    database at revision 002, after upgrading, downgrading and upgrading again the
    column is back, but the unique key on it, which keeps two rows from having one
    client order id, is not. *)
Theorem downgrade_loses_the_client_id_key {W} (op : Alembic W) srv schema `{!CatalogLaws op srv schema} w w' :
  schema w = core_schema → there_and_back op w = (Ok tt, w') →
  client_id_keys (schema w) = ["orders_client_order_id_key"] ∧
  client_id_keys (schema w') = [] ∧ holds column_names "orders" "client_order_id" (schema w').
Proof.
  intros Hw Hr. apply (agrees_ok schema _ _ _ _ _ (there_and_back_agrees op srv schema)) in Hr.
  apply there_and_back_lenient in Hr. rewrite Hw in Hr |- *. clear Hw.
  assert (Hd : (there_and_back (catalog lenient) core_schema).2 = schema w') by by rewrite Hr.
  clear Hr. rewrite <- Hd. split; [vm_compute; reflexivity|]. split; [vm_compute; reflexivity|].
  eexists. split; [vm_compute; reflexivity|]. vm_compute. tauto.
Qed.

(** [migration_test.py] does not notice: on a server that accepts the
    migrations its [main] passes from a fresh deployment to its end, and leaves
    [orders] at the newest revision without that key; [verify_migration.py] then
    answers 0 too. *)
Theorem migration_test_passes_without_the_key dsn :
  dsn ≠ "" →
  ∃ s, main (reference_db lenient) (Some dsn) init_schema = (Ok tt, s) ∧ client_id_keys s = [] ∧
       (verify_main reference_names false (Some dsn) s).1 = Ok 0%Z.
Proof.
  intros Hdsn. destruct dsn as [|c dsn]; [done|].
  eexists. split; [vm_compute; reflexivity|]. split; vm_compute; reflexivity.
Qed.

(** ** Witnesses *)

#[export] Instance catalog_laws srv : CatalogLaws (catalog srv) srv (λ s, s).
Proof. split; intros; by split; [destruct (_ : res _)|]. Qed.

(** TimescaleDB's documented rule as a server. *)
Definition timescale : Server :=
  {| hypertable_ok := keys_cover; options_ok _ _ := true; has_function _ := true; has_extension _ := true |}.

Lemma timescale_witness : is_ok (Core.upgrade (catalog timescale) init_schema).1 = false.
Proof.
  exact (timescale_refuses_the_core_revision (catalog timescale) timescale (λ s, s) init_schema
    (λ T c (H : keys_cover T c = true), H) (eq_refl init_schema)).
Defined.

Lemma head_of_lenient : upgrade_all (catalog lenient) init_schema = (Ok tt, head_schema).
Proof. vm_compute. reflexivity. Qed.


Definition back_schema : Schema := Eval vm_compute in (there_and_back (catalog lenient) core_schema).2.

Lemma back_of_lenient : there_and_back (catalog lenient) core_schema = (Ok tt, back_schema).
Proof. vm_compute. reflexivity. Qed.

Lemma there_and_back_witness :
  client_id_keys core_schema = ["orders_client_order_id_key"] ∧ client_id_keys back_schema = [] ∧
  holds column_names "orders" "client_order_id" back_schema.
Proof.
  exact (downgrade_loses_the_client_id_key (catalog lenient) lenient (λ s, s) core_schema back_schema
    (eq_refl core_schema) back_of_lenient).
Defined.

Lemma migration_test_witness :
  ∃ s, main (reference_db lenient) (Some "postgresql://test") init_schema = (Ok tt, s) ∧ client_id_keys s = [] ∧
       (verify_main reference_names false (Some "postgresql://test") s).1 = Ok 0%Z.
Proof. apply (migration_test_passes_without_the_key "postgresql://test"). discriminate. Defined.
