(* ===== verification/Columns.v ===== *)
(** * Columns no migration creates

    A column that no statement of a revision declares or adds is in the table at no
    moment of an upgrade, whatever the server accepts and wherever the upgrade stops
    (migrations/versions/, Migrations.v). *)

From Stdlib Require Import ZArith Bool List Ascii String.
From stdpp Require Import base decidable list option strings.
From S2P Require Import Prelude PyStr PyMonad PyDict Sql Migrations.
Open Scope string_scope.
Open Scope list_scope.
Open Scope py_scope.

Lemma preserves_for_each_all {S X} (I : S → Prop) (p : X → bool) (f : X → M S unit) l :
  forallb p l = true → (∀ x, p x = true → preserves I (f x)) → preserves I (for_each f l).
Proof.
  intros Hl Hf. induction l as [|x l IH]; simpl in *; [apply preserves_ret|].
  apply andb_true_iff in Hl as [Hx Hl]. apply preserves_bind; [by apply Hf|by intros; apply IH].
Qed.

Lemma preserves_change (I : Schema → Prop) f : (∀ s s', I s → f s = Ok s' → I s') → preserves I (change f).
Proof. intros Hf s Hs. unfold change. destruct (f s) eqn:E; [by eapply Hf|done]. Qed.

Lemma preserves_inspect (I : Schema → Prop) f t : preserves I (inspect f t).
Proof. intros s Hs. unfold inspect. by destruct (find_table s t). Qed.

Section Lacks.
Variables (srv : Server) (t c : string).

(** The table, while there is one, does not have the column. *)
Definition lacks (s : Schema) : Prop := ∀ T, find_table s t = Some T → mem_str c (column_names T) = false.

(** [T'] in the place of [u]: the column is not among its. *)
Definition innocent (u : string) (T' : Table) : bool := negb (String.eqb t u && mem_str c (column_names T')).

Lemma lacks_set s u T' : lacks s → innocent u T' = true → lacks (set_table s u T').
Proof.
  intros Hs Hi T HT. unfold find_table, set_table in HT. simpl in HT. rewrite dget_dset in HT.
  case_decide as E; [|by apply Hs]. injection HT as <-. unfold innocent in Hi. subst. rewrite String.eqb_refl in Hi.
  by destruct (mem_str c (column_names T')).
Qed.

Lemma same_columns_innocent s u T T' :
  lacks s → need_table s u = Ok T → columns T' = columns T → innocent u T' = true.
Proof.
  intros Hs HT Hc. apply need_table_ok in HT. unfold innocent. destruct (String.eqb t u) eqn:E; [|done].
  apply String.eqb_eq in E. subst u. unfold column_names. rewrite Hc. fold (column_names T). by rewrite (Hs T HT).
Qed.

(** A statement that does not drop a table and declares none with the column. *)
Definition harmless (sql : string) : bool :=
  match parse (words sql) with
  | Some (CreateTable u body _) => innocent u (declared_table u body)
  | Some (DropTableCascade _) => false
  | _ => true
  end.

Lemma lacks_create_table s u T ine s' : lacks s → innocent u T = true → create_table s u T ine = Ok s' → lacks s'.
Proof.
  intros Hs Hi Hr. unfold create_table in Hr. destruct (find_table s u).
  - destruct ine; [by injection Hr as <-|done].
  - destruct (List.find _ _); [done|]. injection Hr as <-. by apply lacks_set.
Qed.

Lemma lacks_create_index s n u cs un ine s' : lacks s → create_index srv s n u cs un ine = Ok s' → lacks s'.
Proof.
  intros Hs Hr. unfold create_index, mbind, res_bind in Hr. destruct (need_table s u) as [T|] eqn:HT; [|done].
  destruct (is_index s n); [destruct ine; [by injection Hr as <-|done]|].
  destruct (negb _); [done|]. destruct (un && _); [done|]. injection Hr as <-.
  apply lacks_set; [done|]. by eapply same_columns_innocent.
Qed.

Lemma lacks_create_hypertable s u k s' : lacks s → create_hypertable srv s u k = Ok s' → lacks s'.
Proof.
  intros Hs Hr. unfold create_hypertable, mbind, res_bind in Hr. destruct (need_table s u) as [T|] eqn:HT; [|done].
  destruct (partition T); [by injection Hr as <-|]. destruct (hypertable_ok srv T k); [|done]. injection Hr as <-.
  apply lacks_set; [done|]. by eapply same_columns_innocent.
Qed.

Lemma lacks_exec sql s s' : harmless sql = true → lacks s → exec srv s sql = Ok s' → lacks s'.
Proof.
  intros Hh Hs Hr. unfold exec in Hr. unfold harmless in Hh. destruct (parse (words sql)) as [[e| |u body ine|n u cs ine|f args|u o|u]|];
    [| | | | | |done|done]; simpl in Hr.
  - unfold create_extension in Hr. destruct (mem_str _ _); [by injection Hr as <-|].
    destruct (has_extension srv e); [|done]. injection Hr as <-. exact Hs.
  - by injection Hr as <-.
  - by eapply lacks_create_table.
  - by eapply lacks_create_index.
  - unfold call_function in Hr. destruct args as [|u r]; [done|]. destruct (negb _); [done|].
    destruct (String.eqb f "create_hypertable").
    + destruct r as [|x [|k r]]; [done|by destruct x as [|[[] [] [] [] [] [] [] []] []]|].
      destruct x as [|[[] [] [] [] [] [] [] []] []]; try done. by eapply lacks_create_hypertable.
    + unfold mbind, res_bind in Hr. destruct (need_table s (unquote u)); [by injection Hr as <-|done].
  - unfold alter_options, mbind, res_bind in Hr. destruct (need_table s u); [|done].
    destruct (options_ok srv _ _); [by injection Hr as <-|done].
Qed.

Lemma lacks_exec_any sql s s' : harmless sql = true → lacks s → exec_any srv sql s = Ok s' → lacks s'.
Proof.
  intros Hh Hs Hr. unfold exec_any in Hr. destruct (String.eqb sql Persist.make_hypertable_sql).
  - destruct (find_table s "trade_audit_log") as [T|].
    + destruct (partition T); [by injection Hr as <-|].
      destruct (mem_str _ _); [by eapply lacks_create_hypertable|by injection Hr as <-].
    + destruct (mem_str _ _); [done|by injection Hr as <-].
  - destruct (String.eqb sql Persist.compress_sql); [|by eapply lacks_exec].
    destruct (find_table s "trade_audit_log") as [T|]; [|by injection Hr as <-].
    destruct (partition T); [|by injection Hr as <-]. destruct (options_ok srv _ _); [by injection Hr as <-|done].
Qed.

Lemma lacks_execute sql : harmless sql = true → preserves lacks (op_execute (catalog srv) sql).
Proof. intros Hh. apply preserves_change. intros s s' Hs. by apply lacks_exec_any. Qed.

Lemma lacks_op_create_table u cs : innocent u (sa_table cs) = true → preserves lacks (op_create_table (catalog srv) u cs).
Proof. intros Hi. apply preserves_change. intros s s' Hs. by apply lacks_create_table. Qed.

Lemma lacks_op_create_index n u cs un : preserves lacks (op_create_index (catalog srv) n u cs un).
Proof. apply preserves_change. intros s s' Hs. by apply lacks_create_index. Qed.

Lemma lacks_add_column u k : String.eqb c (sa_name k) = false → preserves lacks (op_add_column (catalog srv) u k).
Proof.
  intros Hk. apply preserves_change. intros s s' Hs Hr. unfold add_column, mbind, res_bind in Hr.
  destruct (need_table s u) as [T|] eqn:HT; [|done]. destruct (mem_str (col_name _) _); [done|]. injection Hr as <-.
  apply lacks_set; [done|]. apply need_table_ok in HT. unfold innocent. destruct (String.eqb t u) eqn:E; [|done].
  apply String.eqb_eq in E. subst u. unfold column_names, with_columns. cbn [columns]. rewrite List.map_app, mem_str_app.
  fold (column_names T). rewrite (Hs T HT). simpl. by rewrite Hk.
Qed.

Lemma lacks_foreign_key n u tgt cs rem : preserves lacks (op_create_foreign_key (catalog srv) n u tgt cs rem).
Proof.
  apply preserves_change. intros s s' Hs Hr. unfold add_foreign_key, mbind, res_bind in Hr.
  destruct (need_table s u) as [T|] eqn:HT; [|done]. destruct (need_table s tgt); [|done].
  destruct (negb _); [done|]. destruct (mem_str _ _); [done|]. injection Hr as <-.
  apply lacks_set; [done|]. by eapply same_columns_innocent.
Qed.

Lemma lacks_unique n u cs : preserves lacks (op_create_unique_constraint (catalog srv) n u cs).
Proof.
  apply preserves_change. intros s s' Hs Hr. unfold add_unique, mbind, res_bind in Hr.
  destruct (need_table s u) as [T|] eqn:HT; [|done]. destruct (negb _); [done|]. destruct (is_index s n); [done|].
  destruct (key_ok srv _); [|done]. injection Hr as <-. apply lacks_set; [done|]. by eapply same_columns_innocent.
Qed.
End Lacks.

(** The statements a revision sends one after the other. *)
Lemma lacks_statements {X} srv t c (sql : X → string) (f : X → M Schema unit) l :
  forallb (λ x, harmless t c (sql x)) l = true → (∀ x, f x = op_execute (catalog srv) (sql x)) →
  preserves (lacks t c) (for_each f l).
Proof.
  intros Hl Hf. apply (preserves_for_each_all _ (λ x, harmless t c (sql x))); [done|].
  intros x Hx. rewrite Hf. by apply lacks_execute.
Qed.

(** A loop over concrete statements. *)
Ltac lacks_loop :=
  lazymatch goal with
  | |- preserves _ (for_each _ Core.hypertables) =>
      eapply (lacks_statements _ _ _ (λ h : string * string * string, Core.hypertable_sql h.1.1 h.1.2 h.2)); [vm_compute; reflexivity|intros [[]]; reflexivity]
  | |- preserves _ (for_each _ Core.tables) =>
      eapply (lacks_statements _ _ _ (λ td : string * string, Core.create_table_sql td.1 td.2)); [vm_compute; reflexivity|intros []; reflexivity]
  | |- preserves _ (for_each _ _) => eapply (lacks_statements _ _ _ (λ sql : string, sql)); [vm_compute; reflexivity|reflexivity]
  end.

(** Walk an upgrade; each statement is checked by evaluation. *)
Ltac solve_lacks :=
  repeat first
    [ progress intros
    | lazymatch goal with
      | |- preserves _ (op_execute _ _) => apply lacks_execute; first [assumption | vm_compute; reflexivity]
      | |- preserves _ (op_create_table _ _ _) => apply lacks_op_create_table; vm_compute; reflexivity
      | |- preserves _ (op_add_column _ _ _) => apply lacks_add_column; vm_compute; reflexivity
      | |- preserves _ (op_create_index _ _ _ _ _) => apply lacks_op_create_index
      | |- preserves _ (op_create_foreign_key _ _ _ _ _ _) => apply lacks_foreign_key
      | |- preserves _ (op_create_unique_constraint _ _ _ _) => apply lacks_unique
      | |- preserves _ (for_each _ _) => lacks_loop
      | |- preserves _ (_ ≫= _) => apply preserves_bind
      | |- preserves _ (when _ _) => apply preserves_when
      | |- preserves _ (mret _) => apply preserves_ret
      | |- preserves _ (match ?x with _ => _ end) => destruct x
      | |- preserves _ (insp_table_names _) => apply preserves_gets
      | |- _ => apply preserves_inspect
      end ].

Ltac walk_upgrades :=
  unfold upgrade_all, Core.upgrade, Align.upgrade, Persist.upgrade, Align.unless, Persist.if_, Persist.and_not,
    Align.column_exists, Align.constraint_exists, Align.index_exists, Persist.table_exists, Persist.index_exists;
  solve_lacks.

(** The columns that the repository's statements name and no revision creates. *)
Lemma orders_lack_price srv : preserves (lacks "orders" "price") (upgrade_all (catalog srv)).
Proof. walk_upgrades. Qed.
Lemma trades_lack_order_id srv : preserves (lacks "trades" "order_id") (upgrade_all (catalog srv)).
Proof. walk_upgrades. Qed.

(** On a database that follows the catalog's rules the invariant is the database's. *)
Lemma lacks_on_database {W} (op : Alembic W) srv schema `{!CatalogLaws op srv schema} t c w :
  preserves (lacks t c) (upgrade_all (catalog srv)) → lacks t c (schema w) → lacks t c (schema (upgrade_all op w).2).
Proof. intros Hp Hw. destruct (upgrade_all_agrees op srv schema w) as [_ ->]. by apply Hp. Qed.

Lemma init_lacks t c : match find_table init_schema t with Some _ => false | None => true end = true → lacks t c init_schema.
Proof. intros Hn T HT. by rewrite HT in Hn. Qed.
