(* ===== verification/Schema.v ===== *)
(** * The program's tables against the migrated schema (app/models.py,
      trading_service/src/storage/postgres_repository.py)

    The declarative tables of the gateway against 0001_init.sql, and the
    repository's INSERT statements (Storage.v) against the schema the migrations
    lead to (Migrations.v). *)

From Stdlib Require Import ZArith Bool List Ascii String.
From stdpp Require Import base decidable list option strings.
From S2P Require Import Prelude PyFloat PyStr PyMonad PyDict PyVal Storage Sql Migrations Columns.
Open Scope string_scope.
Open Scope list_scope.
Open Scope py_scope.

(** ** app/models.py *)

(** [mapped_column(type, ...)]: not null unless the annotation is optional; the
    defaults of these models are Python's, none is the server's. *)
Record OrmColumn := { orm_name : string; orm_type : SaType; orm_optional : bool; orm_primary : bool; orm_unique : bool }.

Definition mapped (n : string) (t : SaType) : OrmColumn :=
  {| orm_name := n; orm_type := t; orm_optional := false; orm_primary := false; orm_unique := false |}.
Definition optional (c : OrmColumn) : OrmColumn :=
  {| orm_name := orm_name c; orm_type := orm_type c; orm_optional := true; orm_primary := orm_primary c; orm_unique := orm_unique c |}.
Definition primary (c : OrmColumn) : OrmColumn :=
  {| orm_name := orm_name c; orm_type := orm_type c; orm_optional := orm_optional c; orm_primary := true; orm_unique := orm_unique c |}.
Definition unique (c : OrmColumn) : OrmColumn :=
  {| orm_name := orm_name c; orm_type := orm_type c; orm_optional := orm_optional c; orm_primary := orm_primary c; orm_unique := true |}.

Definition User : list OrmColumn :=
  [primary (mapped "id" SaInteger); unique (mapped "email" (SaString 320)); mapped "password_hash" (SaString 512);
   mapped "role" (SaEnum "role_enum"); mapped "is_active" SaBoolean; mapped "created_at" SaTimestampTz].
Definition RefreshToken : list OrmColumn :=
  [primary (mapped "id" SaInteger); mapped "user_id" SaInteger; mapped "token_hash" (SaString 128);
   mapped "device_fingerprint" (SaString 256); mapped "expires_at" SaTimestampTz; mapped "revoked" SaBoolean;
   mapped "last_activity_at" SaTimestampTz; mapped "created_at" SaTimestampTz].
Definition AuditTrail : list OrmColumn :=
  [primary (mapped "id" SaInteger); optional (mapped "user_id" SaInteger); mapped "action" (SaEnum "audit_action_enum");
   mapped "resource_type" (SaString 64); optional (mapped "resource_id" (SaString 64)); mapped "details" SaJson;
   optional (mapped "ip_address" (SaString 128)); mapped "created_at" SaTimestampTz].
Definition ApiKeyVault : list OrmColumn :=
  [primary (mapped "id" SaInteger); mapped "user_id" SaInteger; mapped "provider" (SaString 100);
   mapped "key_last4" (SaString 4); mapped "encrypted_dek" SaBinary; mapped "dek_nonce" SaBinary;
   mapped "ciphertext" SaBinary; mapped "data_nonce" SaBinary; mapped "meta" SaJson;
   mapped "created_at" SaTimestampTz; mapped "updated_at" SaTimestampTz].

(** [Base.metadata], with each table's multi-column unique constraints. *)
Definition metadata : dict string (list OrmColumn * list (list string)) :=
  [("users", (User, [])); ("refresh_tokens", (RefreshToken, [])); ("audit_trail", (AuditTrail, []));
   ("api_key_vault", (ApiKeyVault, [["user_id"; "provider"]]))].

(** A column as both sides describe it: name, type, whether it may be null. *)
Definition orm_shape (c : OrmColumn) : string * string * bool :=
  (orm_name c, pg_type (orm_type c), orm_optional c).
Definition orm_uniques (cs : list OrmColumn) (multi : list (list string)) : list (list string) :=
  List.map (λ c, [orm_name c]) (List.filter orm_unique cs) ++ multi.

(** The binary JSON type holds what the textual one holds. *)
Definition json_type (t : string) : string := if String.eqb t "jsonb" then "json" else t.
Definition sql_shape (c : Column) : string * string * bool := (col_name c, json_type (data_type c), nullable c).

(** The gateway's models describe the tables of [0001_init.sql]: the same tables
    in the same order, each with the same columns in the same order, of the same
    types up to the two JSON types, with the same nullability, the same primary key
    and the same unique keys. *)
Theorem models_describe_the_init_schema :
  List.map (λ '(t, (cs, multi)),
    (t, List.map orm_shape cs, List.map orm_name (List.filter orm_primary cs), orm_uniques cs multi)) metadata =
  List.map (λ '(t, T), (t, List.map sql_shape (columns T), primary_key T, List.map snd (uniques T))) (tables init_schema).
Proof. vm_compute. reflexivity. Qed.

(** ** The repository's statements *)

(** An INSERT's columns checked against a schema: those its table lacks, and the
    ones it must give and does not. *)
Definition insert_faults (s : Schema) (sql : string) : option (list string * list string) :=
  match insert_target sql with
  | Some (t, cs) => match find_table s t with
                    | Some T => Some (unknown_columns T cs, omitted_columns T cs)
                    | None => None
                    end
  | None => None
  end.

(** A statement that names a column its table lacks is refused; so is one whose table
    is not there. *)
Lemma insert_unknown S sql t cs c :
  insert_target sql = Some (t, cs) → mem_str c cs = true → lacks t c S → is_ok (insert_check S sql) = false.
Proof.
  intros Ht Hc Hl. unfold insert_check. rewrite Ht. unfold need_table, mbind, res_bind.
  destruct (find_table S t) as [T|] eqn:HT; [|done].
  destruct (unknown_columns T cs) as [|x l] eqn:Hu; [|done]. apply mem_str_In in Hc.
  assert (Hin : In c (unknown_columns T cs)) by (apply filter_In; by rewrite (Hl T HT)).
  by rewrite Hu in Hin.
Qed.

Lemma order_unfit S : lacks "orders" "price" S → is_ok (insert_check S sql_insert_order) = false.
Proof. eapply insert_unknown; vm_compute; reflexivity. Qed.
Lemma trade_unfit S : lacks "trades" "order_id" S → is_ok (insert_check S sql_insert_trade) = false.
Proof. eapply insert_unknown; vm_compute; reflexivity. Qed.

(** What the upgrades leave, wherever they stopped. *)
Lemma upgraded_lacks {W} (op : Alembic W) srv schema `{!CatalogLaws op srv schema} w :
  schema w = init_schema →
  lacks "orders" "price" (schema (upgrade_all op w).2) ∧ lacks "trades" "order_id" (schema (upgrade_all op w).2).
Proof.
  intros Hw. split; (eapply lacks_on_database; [done|apply orders_lack_price || apply trades_lack_order_id|]);
    rewrite Hw; by apply init_lacks.
Qed.

(** The repository's INSERT statements against the schema of the migrations.
    Wherever the upgrades of a fresh database got, at their end or at the statement
    that was refused, the statements of [save_order] and [save_trade] are refused.
    Where they succeeded, those of [save_risk_incident] and [save_audit_log] fit their
    tables; the one of [save_order] names eight columns that [orders] does not have;
    the one of [save_trade] names five that [trades] does not have and leaves out
    [time], which must not be null. *)
Theorem repository_inserts_against_the_schema {W} (op : Alembic W) srv schema `{!CatalogLaws op srv schema} w r w' :
  schema w = init_schema → upgrade_all op w = (r, w') →
  is_ok (insert_check (schema w') sql_insert_order) = false ∧
  is_ok (insert_check (schema w') sql_insert_trade) = false ∧
  (r = Ok tt →
   insert_faults (schema w') sql_insert_incident = Some ([], []) ∧
   insert_faults (schema w') sql_audit = Some ([], []) ∧
   insert_faults (schema w') sql_insert_order =
     Some (["price"; "stop_price"; "limit_price"; "rejection_reason"; "commission"; "swap"; "profit"; "closed_at"], []) ∧
   insert_faults (schema w') sql_insert_trade =
     Some (["order_id"; "position_id"; "commission"; "swap"; "created_at"], ["time"])).
Proof.
  intros Hw Hr. destruct (upgraded_lacks op srv schema w Hw) as [Ho Ht]. rewrite Hr in Ho, Ht.
  split; [by apply order_unfit|]. split; [by apply trade_unfit|]. intros ->.
  apply (agrees_ok schema _ _ _ _ _ (upgrade_all_agrees op srv schema)) in Hr.
  apply upgrade_all_lenient in Hr. rewrite Hw, head_of_lenient in Hr. injection Hr as <-.
  repeat split; vm_compute; reflexivity.
Qed.

(** ** No order is saved *)

(** What the repository meets of a database with the schema [S]: nothing it does
    changes the schema, and an INSERT that does not fit it fails, with an error that
    is not one of the connection errors it retries. *)
Class SchemaLaws {W} (D : Db W) (sleep : float → M W unit) (schema : W → Schema) (S : Schema) := {
  keep_acquire : preserves (λ w, schema w = S) (acquire D);
  keep_release : preserves (λ w, schema w = S) (release D);
  keep_begin : preserves (λ w, schema w = S) (begin_tx D);
  keep_commit : preserves (λ w, schema w = S) (commit_tx D);
  keep_rollback : preserves (λ w, schema w = S) (rollback_tx D);
  keep_fetchrow sql ps : preserves (λ w, schema w = S) (fetchrow D sql ps);
  keep_sleep t : preserves (λ w, schema w = S) (sleep t);
  insert_checked sql ps w :
    schema w = S → insert_target sql ≠ None → is_ok (insert_check S sql) = false → is_ok (fetchrow D sql ps w).1 = false
}.

(** [fails I m]: from a state of [I], [m] raises and ends in one. *)
Definition fails {S A} (I : S → Prop) (m : M S A) : Prop := ∀ s, I s → is_ok (m s).1 = false ∧ I (m s).2.

Section Fails.
Context {S : Type} (I : S → Prop).

Lemma fails_bind {A B} (m : M S A) (f : A → M S B) : preserves I m → (∀ a, fails I (f a)) → fails I (m ≫= f).
Proof.
  intros Hm Hf s Hs. specialize (Hm s Hs). unfold mbind, M_bind. destruct (m s) as [[a|e] s']; [by apply Hf|done].
Qed.

Lemma fails_first {A B} (m : M S A) (f : A → M S B) : fails I m → fails I (m ≫= f).
Proof.
  intros Hm s Hs. destruct (Hm s Hs) as [Hr Hs']. unfold mbind, M_bind. by destruct (m s) as [[a|e] s'].
Qed.

Lemma fails_on_exit {A} (m : M S A) ok err : fails I m → preserves I err → fails I (on_exit m ok err).
Proof.
  intros Hm He s Hs. destruct (Hm s Hs) as [Hr Hs']. unfold on_exit. destruct (m s) as [[a|e] s']; [done|].
  specialize (He s' Hs'). unfold mbind, M_bind. by destruct (err s') as [[[]|x] s2].
Qed.
End Fails.

Lemma fails_zoom_r {S W A} (I : W → Prop) (m : M W A) : fails I m → fails (λ sw : S * W, I sw.2) (zoom_r m).
Proof. intros Hm [s w] Hw. specialize (Hm w Hw). simpl in *. by destruct (m w). Qed.

Section NoOrder.
Context `{PyRepr} {W : Type} (D : Db W) (sleep : float → M W unit) (schema : W → Schema)
  (S : Schema) `{!SchemaLaws D sleep schema S} (Hunfit : is_ok (insert_check S sql_insert_order) = false).

(** No row of [orders] is found: there is none. *)
Definition no_orders_found : Prop :=
  ∀ ps w row w', fetchrow D sql_find_order ps w = (Ok row, w') → row = None ∨ row = Some [].

Let I (w : W) : Prop := schema w = S.
Let J (pw : bool * W) : Prop := I pw.2.

Lemma preserves_world {A} (m : M W A) : preserves I m → preserves J (zoom_r m).
Proof. apply preserves_world_r. Qed.

Lemma with_conn_fails {A} (m : M W A) : fails I m → fails J (with_conn D m).
Proof.
  intros Hm. unfold with_conn, assert_pool.
  apply fails_bind; [intros [p w] Hs; by destruct p|]. intros _.
  apply fails_bind; [apply preserves_world, keep_acquire|]. intros _.
  apply fails_on_exit; [by apply fails_zoom_r|apply preserves_world, keep_release].
Qed.

Lemma with_tx_fails {A} (m : M W A) : fails I m → fails I (with_tx D m).
Proof.
  intros Hm. unfold with_tx. apply fails_bind; [apply keep_begin|]. intros _.
  apply fails_on_exit; [done|apply keep_rollback].
Qed.

Lemma retry_fails {A} (fn : M (bool * W) A) n attempt last_exc :
  fails J fn → fails J (retry_loop D sleep fn n attempt last_exc).
Proof.
  intros Hfn. revert attempt last_exc. induction n as [|n IH]; intros attempt last_exc pw Hpw; simpl; [done|].
  destruct (Hfn pw Hpw) as [Hr Hpw']. destruct (fn pw) as [[a|e] pw']; [done|].
  destruct (transient D e); [|done].
  eapply (fails_bind J); [apply preserves_world, keep_sleep|intros _; apply IH|done].
Qed.

Lemma save_order_run_fails order : no_orders_found → fails J (save_order_run D order).
Proof.
  intros Hnone. apply with_conn_fails, with_tx_fails. intros w Hw.
  assert (Hins : fails I (params ← lift_res (order_params order); row ← fetchrow D sql_insert_order params; lift_res (row_id row))).
  { apply fails_bind; [apply preserves_lift_res|]. intros params. apply fails_first.
    intros w1 Hw1. split; [|by apply keep_fetchrow].
    apply insert_checked; [done|vm_compute; discriminate|exact Hunfit]. }
  pose proof (keep_fetchrow sql_find_order [vget order "client_order_id"] w Hw) as Hw1.
  destruct (fetchrow D sql_find_order [vget order "client_order_id"] w) as [[row|e] w1] eqn:Hf.
  - rewrite (bind_ok _ _ _ _ _ Hf). destruct (Hnone _ _ _ _ Hf) as [->| ->]; by apply Hins.
  - by rewrite (bind_raise _ _ _ _ _ Hf).
Qed.
End NoOrder.


(** ** Witnesses *)

Lemma repository_inserts_witness :
  is_ok (insert_check head_schema sql_insert_order) = false ∧
  insert_faults head_schema sql_insert_incident = Some ([], []) ∧
  insert_faults head_schema sql_audit = Some ([], []) ∧
  insert_faults head_schema sql_insert_order =
    Some (["price"; "stop_price"; "limit_price"; "rejection_reason"; "commission"; "swap"; "profit"; "closed_at"], []) ∧
  insert_faults head_schema sql_insert_trade =
    Some (["order_id"; "position_id"; "commission"; "swap"; "created_at"], ["time"]).
Proof.
  destruct (repository_inserts_against_the_schema (catalog lenient) lenient (λ s, s) init_schema (Ok tt) head_schema
    (eq_refl init_schema) head_of_lenient) as (Ho & _ & Hf).
  split; [exact Ho|exact (Hf eq_refl)].
Defined.

(** A database of the migrated schema whose orders table stays empty. *)
Definition checked_fetchrow (sql : string) (ps : list pyval) : M Schema (option vdict) := λ s,
  match insert_target sql with
  | Some _ => match insert_check s sql with
              | Ok _ => (Ok (Some [("id", VStr "row")]), s)
              | Raise e => (Raise e, s)
              end
  | None => (Ok None, s)
  end.

Definition checked_db : Db Schema := {|
  create_pool := mret tt; close_pool := mret tt; acquire := mret tt; release := mret tt;
  begin_tx := mret tt; commit_tx := mret tt; rollback_tx := mret tt; fetchrow := checked_fetchrow;
  fetch _ _ := mret []; fetchval _ _ := mret (VInt 0); db_execute _ _ := mret "UPDATE 0"; json_dumps _ := Ok "{}";
  transient _ := false
|}.

#[export] Instance checked_laws S : SchemaLaws checked_db (λ _, mret tt) (λ s, s) S.
Proof.
  split; try (by intros; apply preserves_ret); intros sql ps; [intros s Hs|intros s Hs Ht Hc].
  - simpl in *. subst. unfold checked_fetchrow. destruct (insert_target sql); [|done].
    by destruct (insert_check S sql).
  - simpl in *. subst. simpl. unfold checked_fetchrow. destruct (insert_target sql); [|done].
    by destruct (insert_check S sql).
Qed.

(** On TimescaleDB, where the upgrade stops halfway. *)
Definition stopped_schema : Schema := Eval vm_compute in (upgrade_all (catalog timescale) init_schema).2.

