(* ===== verification/Statements.v ===== *)
(** * The repository's UPDATE statements (trading_service/src/storage/postgres_repository.py)

    [update_order_status] and [update_position] put their SQL together from the names
    they are given.  Here the text is read back with the words of Sql.v: which table
    it updates and which columns it assigns; and it is held against the schema that
    the migrations lead to. *)

From Stdlib Require Import ZArith Lia Bool List Ascii String.
From stdpp Require Import base decidable list option strings.
From S2P Require Import Prelude PyFloat PyStr PyMonad PyDict PyVal Storage Sql Migrations Columns Schema.
Open Scope string_scope.
Open Scope list_scope.
Open Scope py_scope.

(** ** Reading an UPDATE *)

(** The words before [WHERE]. *)
Fixpoint before_where (ws : list string) : list string :=
  match ws with
  | [] => []
  | w :: r => if String.eqb w "WHERE" then [] else w :: before_where r
  end.

Definition update_target (sql : string) : option (string * list string) :=
  match words sql with
  | "UPDATE" :: t :: "SET" :: r => Some (t, heads (elements (before_where r)))
  | _ => None
  end.

(** Whether PostgreSQL accepts the table and the columns assigned. *)
Definition update_check (s : Schema) (sql : string) : res unit :=
  match update_target sql with
  | None => sql_error "SyntaxError" sql
  | Some (t, cs) =>
      T ← need_table s t;
      match unknown_columns T cs with
      | c :: _ => sql_error "UndefinedColumn" c
      | [] => Ok tt
      end
  end.

(** ** Words of a text in parts *)

Definition name_char (c : ascii) : bool := negb (is_space c) && negb (is_punct c) && negb (Ascii.eqb c quote).
Definition name_chars (k : string) : bool := forallb name_char (list_ascii_of_string k).
(** A column's name: one word, and not a keyword of the statement. *)
Definition is_name (k : string) : bool := name_chars k && negb (String.eqb k "") && negb (String.eqb k "WHERE").

(** Where a word ends. *)
Definition ends_word (s : string) : bool :=
  match s with EmptyString => true | String c _ => is_space c || is_punct c end.

Lemma words_name k cur s :
  name_chars k = true →
  words_from false cur (k ++ s)%string = words_from false (rev (list_ascii_of_string k) ++ cur) s.
Proof.
  revert cur. induction k as [|c k IH]; intros cur Hk; [done|]. unfold name_chars in Hk. simpl in Hk.
  apply andb_true_iff in Hk as [Hc Hk]. unfold name_char in Hc. rewrite !andb_true_iff, !negb_true_iff in Hc.
  destruct Hc as [[Hs Hp] Hq]. change ((String c k ++ s)%string) with (String c (k ++ s)%string). simpl.
  rewrite Hq, Hs, Hp, IH by done. by rewrite <- app_assoc.
Qed.

Lemma quote_ends c : is_space c || is_punct c = true → Ascii.eqb c quote = false.
Proof. intros Hc. destruct (Ascii.eqb c quote) eqn:E; [|done]. apply Ascii.eqb_eq in E. subst c. discriminate Hc. Qed.

(** A word that has begun is closed at a blank or a punctuation mark. *)
Lemma words_flush cur s : ends_word s = true → words_from false cur s = flush cur (words s).
Proof.
  destruct s as [|c s]; intros Hs; [done|]. unfold words. simpl in Hs |- *. rewrite (quote_ends c Hs).
  destruct (is_space c); simpl in *; [done|]. by rewrite Hs.
Qed.

Lemma words_word k s :
  name_chars k = true → k ≠ "" → ends_word s = true → words (k ++ s)%string = k :: words s.
Proof.
  intros Hk Hne Hs. unfold words at 1. rewrite words_name by done. rewrite app_nil_r, words_flush by done.
  destruct k as [|c k]; [done|]. unfold flush. destruct (rev (list_ascii_of_string (String c k))) as [|x l] eqn:E.
  - apply (f_equal (@rev ascii)) in E. rewrite rev_involutive in E. discriminate E.
  - by rewrite <- E, rev_involutive, string_of_list_ascii_of_string.
Qed.

Lemma words_punct c s : is_space c = false → is_punct c = true → words (String c s) = String c "" :: words s.
Proof. intros Hs Hp. unfold words. simpl. rewrite (quote_ends c), Hs, Hp; [done|]. by rewrite Hp, orb_true_r. Qed.

Lemma words_space s : words (String " " s) = words s.
Proof. done. Qed.

(** The digits of an index are characters of a word. *)
Lemma str_Z_chars n : (0 <= n)%Z → name_chars (str_Z n) = true.
Proof.
  intros Hn. unfold str_Z, name_chars.
  assert (Hd : ∀ d, forallb name_char (list_ascii_of_string (DecimalString.NilEmpty.string_of_uint d)) = true)
    by (induction d; simpl; done).
  destruct n as [|p|p]; [done| |lia]. simpl.
  pose proof (DecimalPos.Unsigned.to_uint_nonnil p) as Hnil. destruct (Pos.to_uint p); [done|apply Hd..].
Qed.

(** ** The SET list read back *)

(** The words of one assignment. *)
Definition part_words (kv : string * pyval) (idx : Z) : list string :=
  if is_now kv.2 then [kv.1; "="; "NOW"; "("; ")"] else [kv.1; "="; ("$" ++ str_Z idx)%string].

Fixpoint set_words (updates : vdict) (idx : Z) : list string :=
  match updates with
  | [] => []
  | [kv] => part_words kv idx
  | kv :: r => part_words kv idx ++ "," :: set_words r (if is_now kv.2 then idx else idx + 1)%Z
  end.

Lemma name_word k : is_name k = true → name_chars k = true ∧ k ≠ "" ∧ k ≠ "WHERE".
Proof.
  unfold is_name. rewrite !andb_true_iff, !negb_true_iff. intros [[Hc Hne] Hw].
  apply String.eqb_neq in Hne. apply String.eqb_neq in Hw. by split.
Qed.

Lemma words_now k s : is_name k = true → ends_word s = true →
  words ((k ++ "=NOW()") ++ s)%string = [k; "="; "NOW"; "("; ")"] ++ words s.
Proof.
  intros (Hc & Hne & _)%name_word Hs. rewrite str_app_assoc, words_word by done. reflexivity.
Qed.

Lemma words_assign k idx s : is_name k = true → (0 <= idx)%Z → ends_word s = true →
  words (assign_param k idx ++ s)%string = [k; "="; ("$" ++ str_Z idx)%string] ++ words s.
Proof.
  intros (Hc & Hne & _)%name_word Hi Hs. unfold assign_param. rewrite !str_app_assoc, words_word by done. simpl app. f_equal.
  change (("=$" ++ str_Z idx ++ s)%string) with (String "=" (("$" ++ str_Z idx) ++ s)%string).
  rewrite words_punct by done. f_equal. apply words_word; [|done|done].
  unfold name_chars. simpl. by apply str_Z_chars.
Qed.

Lemma words_set updates idx s :
  forallb is_name (dkeys updates) = true → (0 <= idx)%Z → ends_word s = true →
  words (str_join ", " (set_clause updates idx).1.1 ++ s)%string = set_words updates idx ++ words s.
Proof.
  intros Hk Hi Hs. revert idx Hi. induction updates as [|[k v] rest IH]; intros idx Hi; [done|].
  simpl in Hk. apply andb_true_iff in Hk as [Hk Hr]. specialize (IH Hr). simpl set_clause.
  assert (Hnext : ∀ p idx', (0 <= idx')%Z →
    (∀ s, ends_word s = true → words (p ++ s)%string = part_words (k, v) idx ++ words s) →
    idx' = (if is_now v then idx else idx + 1)%Z →
    words (str_join ", " (p :: (set_clause rest idx').1.1) ++ s)%string = set_words ((k, v) :: rest) idx ++ words s).
  { intros p idx' Hi' Hp ->. destruct rest as [|kv rest]; [simpl; by apply Hp|].
    set (idx' := (if is_now v then idx else idx + 1)%Z) in *.
    assert (∃ q qs, (set_clause (kv :: rest) idx').1.1 = q :: qs) as (q & qs & E).
    { destruct kv as [k' v']. simpl. destruct (is_now v').
      - destruct (set_clause rest idx') as [[? ?] ?]. by eexists _, _.
      - destruct (set_clause rest (idx' + 1)) as [[? ?] ?]. by eexists _, _. }
    specialize (IH idx' Hi'). rewrite E in IH |- *. change (str_join ", " (p :: q :: qs)) with (p ++ ", " ++ str_join ", " (q :: qs))%string.
    rewrite !str_app_assoc, Hp by done. change (set_words ((k, v) :: kv :: rest) idx) with
      (part_words (k, v) idx ++ "," :: set_words (kv :: rest) idx'). rewrite <- !app_assoc. f_equal.
    change ((", " ++ str_join ", " (q :: qs) ++ s)%string) with (String "," (String " " (str_join ", " (q :: qs) ++ s)%string)).
    rewrite words_punct by done. simpl app. f_equal. by rewrite words_space. }
  destruct (is_now v) eqn:Env.
  - specialize (Hnext (k ++ "=NOW()")%string idx Hi). destruct (set_clause rest idx) as [[parts vals] last].
    apply Hnext; [|done]. intros s' Hs'. unfold part_words. cbn [fst snd]. rewrite Env. by apply words_now.
  - specialize (Hnext (assign_param k idx) (idx + 1)%Z ltac:(lia)). destruct (set_clause rest (idx + 1)) as [[parts vals] last].
    apply Hnext; [|done]. intros s' Hs'. unfold part_words. cbn [fst snd]. rewrite Env. by apply words_assign.
Qed.

Lemma before_where_app ws r :
  forallb (λ w, negb (String.eqb w "WHERE")) ws = true → before_where (ws ++ "WHERE" :: r) = ws.
Proof.
  induction ws as [|w ws IH]; simpl; [done|]. rewrite andb_true_iff, negb_true_iff. intros [-> Hr]. by rewrite IH.
Qed.

Lemma set_words_where updates idx :
  forallb is_name (dkeys updates) = true →
  forallb (λ w, negb (String.eqb w "WHERE")) (set_words updates idx) = true.
Proof.
  revert idx. induction updates as [|[k v] rest IH]; intros idx Hk; [done|]. simpl in Hk.
  apply andb_true_iff in Hk as [(_ & _ & Hw)%name_word Hr].
  assert (Hp : forallb (λ w, negb (String.eqb w "WHERE")) (part_words (k, v) idx) = true).
  { unfold part_words. cbn [fst snd]. apply String.eqb_neq in Hw. destruct (is_now v); simpl; by rewrite Hw. }
  destruct rest as [|kv rest]; [done|]. change (set_words ((k, v) :: kv :: rest) idx) with
    (part_words (k, v) idx ++ "," :: set_words (kv :: rest) (if is_now v then idx else idx + 1)%Z).
  rewrite forallb_app, Hp. simpl. by apply IH.
Qed.

(** One assignment is one element of the list, and its first word is its column. *)
Lemma elements_part kv idx r :
  is_name kv.1 = true →
  elements_from 0 [] (part_words kv idx) = [part_words kv idx] ∧
  elements_from 0 [] (part_words kv idx ++ "," :: r) = part_words kv idx :: elements_from 0 [] r.
Proof.
  intros (Hc & _ & _)%name_word.
  assert (Hk : ∀ p, name_chars p = false → String.eqb kv.1 p = false).
  { intros p Hp. apply String.eqb_neq. congruence. }
  unfold part_words. destruct (is_now kv.2); simpl; by rewrite !Hk.
Qed.

Lemma heads_set updates idx :
  forallb is_name (dkeys updates) = true → updates ≠ [] → heads (elements (set_words updates idx)) = dkeys updates.
Proof.
  revert idx. induction updates as [|[k v] rest IH]; intros idx Hk Hne; [done|]. simpl in Hk.
  apply andb_true_iff in Hk as [Hk Hr].
  assert (Hh : ∀ l, heads (part_words (k, v) idx :: l) = k :: heads l).
  { intros l. unfold part_words. cbn [fst snd]. by destruct (is_now v). }
  destruct rest as [|kv rest].
  - unfold elements. change (set_words [(k, v)] idx) with (part_words (k, v) idx).
    rewrite (proj1 (elements_part (k, v) idx [] Hk)), Hh. done.
  - change (set_words ((k, v) :: kv :: rest) idx) with
      (part_words (k, v) idx ++ "," :: set_words (kv :: rest) (if is_now v then idx else idx + 1)%Z).
    unfold elements. rewrite (proj2 (elements_part (k, v) idx _ Hk)), Hh. simpl dkeys. f_equal. by apply IH.
Qed.

Lemma words_update_orders x : words ("UPDATE orders SET " ++ x)%string = "UPDATE" :: "orders" :: "SET" :: words x.
Proof. vm_compute. reflexivity. Qed.

Lemma words_where x :
  words (" WHERE id=$1::uuid AND version=$" ++ x)%string = "WHERE" :: words ("id=$1::uuid AND version=$" ++ x)%string.
Proof. vm_compute. reflexivity. Qed.

(** The SET list that [update_order_status] writes reads back as its updates: the
    statement updates [orders] and assigns the columns [status], [updated_at] and
    [version] and then each keyword that is not one of them, in this order and no
    other, as long as every keyword is one word and not [WHERE]. *)
Theorem update_statement_reads_back order_id st kwargs version :
  forallb is_name (dkeys kwargs) = true →
  update_target (update_statement order_id st kwargs version).1 =
  Some ("orders", dkeys (dupdate [("status", VStr st); ("updated_at", VStr "NOW()"); ("version", VInt (version + 1))] kwargs)).
Proof.
  intros Hk. unfold update_statement.
  set (updates := dupdate [("status", VStr st); ("updated_at", VStr "NOW()"); ("version", VInt (version + 1))] kwargs).
  assert (Hu : forallb is_name (dkeys updates) = true ∧ updates ≠ []).
  { unfold updates, dupdate.
    apply fold_left_inv with (I := λ d : vdict, forallb is_name (dkeys d) = true ∧ d ≠ []); [|done].
    intros d [k v] Hin [Hd Hne]. simpl. split; [|destruct d as [|[k' v'] d]; [done|]; simpl; by case_decide].
    rewrite dkeys_dset. destruct (dmem d k); [done|]. rewrite forallb_app, Hd. simpl.
    apply (in_map fst) in Hin. eapply forallb_forall in Hk; [|exact Hin]. simpl in Hk. by rewrite Hk. }
  destruct Hu as [Hu Hne]. pose proof (set_clause_spec updates 2) as Hspec.
  pose proof (words_set updates 2 (" WHERE id=$1::uuid AND version=$" ++ str_Z (set_clause updates 2).2)%string Hu ltac:(lia) eq_refl) as Hw.
  destruct (set_clause updates 2) as [[parts vals] idx]. cbn [fst snd] in Hw |- *. unfold update_target.
  rewrite words_update_orders, Hw, words_where. rewrite before_where_app by (by apply set_words_where). by rewrite heads_set.
Qed.

(** ** Against the schema of the migrations *)

Lemma update_unknown S sql t cs c :
  update_target sql = Some (t, cs) → mem_str c cs = true → lacks t c S → is_ok (update_check S sql) = false.
Proof.
  intros Ht Hc Hl. unfold update_check. rewrite Ht. unfold need_table, mbind, res_bind.
  destruct (find_table S t) as [T|] eqn:HT; [|done].
  destruct (unknown_columns T cs) as [|x l] eqn:Hu; [|done]. apply mem_str_In in Hc.
  assert (Hin : In c (unknown_columns T cs)) by (apply filter_In; by rewrite (Hl T HT)).
  by rewrite Hu in Hin.
Qed.

Lemma positions_lack_current_price srv : preserves (lacks "positions" "current_price") (upgrade_all (catalog srv)).
Proof. walk_upgrades. Qed.

(** The statement of [close_position]. *)
Definition close_sql : string := "UPDATE positions SET current_price=$2, closed_at=$3, updated_at=NOW() WHERE id=$1::uuid".

(** What the repository meets when a statement does not fit the schema [S]. *)
Class UpdateLaws {W} (D : Db W) (schema : W → Schema) (S : Schema) := {
  update_acquire : preserves (λ w, schema w = S) (acquire D);
  update_release : preserves (λ w, schema w = S) (release D);
  update_execute sql ps : preserves (λ w, schema w = S) (db_execute D sql ps);
  update_checked sql ps w :
    schema w = S → update_target sql ≠ None → is_ok (update_check S sql) = false → is_ok (db_execute D sql ps w).1 = false
}.

(** No position is ever closed in the database.  [close_position] assigns
    [current_price], which no revision creates: wherever the upgrades of a fresh
    database got, every call ends with an exception, whatever the position and the
    price, and the schema is as it was; and the column that is there, [closed_at],
    would have been given the text "now". *)
Theorem closing_a_position_fails {W V} (op : Alembic W) srv mschema `{!CatalogLaws op srv mschema} (w : W)
    (D : Db V) (schema : V → Schema) `{!UpdateLaws D schema (mschema (upgrade_all op w).2)}
    (position_id : pyval) (exit_price : float) (s : bool * V) :
  mschema w = init_schema → schema s.2 = mschema (upgrade_all op w).2 →
  is_ok (pg_close_position D position_id exit_price s).1 = false ∧
  schema (pg_close_position D position_id exit_price s).2.2 = mschema (upgrade_all op w).2.
Proof.
  intros Hw Hs. set (S := mschema (upgrade_all op w).2) in *.
  assert (Hl : lacks "positions" "current_price" S).
  { eapply lacks_on_database; [done|apply positions_lack_current_price|]. rewrite Hw. by apply init_lacks. }
  assert (Hfail : fails (λ pw : bool * V, schema pw.2 = S) (pg_close_position D position_id exit_price)); [|by apply Hfail].
  unfold pg_close_position, pg_update_position, with_conn, assert_pool.
  apply fails_bind; [intros [p v] Hv; by destruct p|]. intros _.
  apply fails_bind; [apply (preserves_world_r (λ v, schema v = S)), update_acquire|]. intros _.
  apply fails_on_exit; [|apply (preserves_world_r (λ v, schema v = S)), update_release].
  apply (fails_zoom_r (λ v, schema v = S)). apply fails_first. intros v Hv. split; [|by apply update_execute].
  change (is_ok (db_execute D close_sql [position_id; VFloat exit_price; VStr "now"] v).1 = false).
  apply update_checked; [done|vm_compute; discriminate|].
  eapply update_unknown; [vm_compute; reflexivity| |exact Hl]. reflexivity.
Qed.

(** The columns of [orders] once the migrations are through. *)
Definition order_columns : list string :=
  match find_table head_schema "orders" with Some T => column_names T | None => [] end.

Lemma dkeys_update (d e : vdict) k : In k (dkeys (dupdate d e)) ↔ In k (dkeys d) ∨ In k (dkeys e).
Proof.
  unfold dupdate. revert d. induction e as [|[j v] e IH]; intros d; simpl; [tauto|]. rewrite IH. simpl.
  rewrite dkeys_dset. unfold dmem. destruct (dget d j) eqn:Hj.
  - apply dget_In, (in_map fst) in Hj. simpl in Hj. split; [tauto|]. intros [?|[<-|?]]; auto.
  - rewrite in_app_iff. simpl. tauto.
Qed.

(** C35. On the migrated schema an update of an order's status fits exactly when every
    keyword it is given is a column of [orders]; the fields that the execution engine
    sets on a rejected or a closed order, [rejection_reason] and [closed_at], are
    not. *)
Theorem status_updates_against_the_schema order_id st kwargs version :
  forallb is_name (dkeys kwargs) = true →
  (is_ok (update_check head_schema (update_statement order_id st kwargs version).1) = true ↔
   ∀ k, In k (dkeys kwargs) → In k order_columns) ∧
  ¬ In "rejection_reason" order_columns ∧ ¬ In "closed_at" order_columns.
Proof.
  intros Hk. split; [|split; rewrite <- mem_str_In; vm_compute; discriminate].
  unfold update_check. rewrite (update_statement_reads_back order_id st kwargs version Hk).
  set (updates := dupdate _ kwargs).
  assert (Hu : ∀ k, In k (dkeys updates) ↔ In k ["status"; "updated_at"; "version"] ∨ In k (dkeys kwargs))
    by (intros k; apply dkeys_update).
  assert (HT : ∃ T, find_table head_schema "orders" = Some T ∧ column_names T = order_columns).
  { eexists. split; [vm_compute; reflexivity|vm_compute; reflexivity]. }
  destruct HT as (T & HT & Hcs). unfold need_table. rewrite HT. cbn [mbind res_bind].
  assert (Hbase : ∀ k, In k ["status"; "updated_at"; "version"] → In k order_columns).
  { intros k Hin. apply mem_str_In. destruct Hin as [<-|[<-|[<-|[]]]]; vm_compute; reflexivity. }
  destruct (unknown_columns T (dkeys updates)) as [|c l] eqn:Hun; unfold sql_error; cbn [is_ok].
  - split; [|done]. intros _ k Hin. rewrite <- Hcs, <- mem_str_In. destruct (mem_str k (column_names T)) eqn:E; [done|].
    assert (Hf : In k (unknown_columns T (dkeys updates))) by (apply filter_In; rewrite E, Hu; tauto). by rewrite Hun in Hf.
  - split; [done|]. intros Hall. exfalso.
    assert (Hc : In c (unknown_columns T (dkeys updates))) by (rewrite Hun; by left).
    apply filter_In in Hc as [[Hin|Hin]%Hu Hn]; [apply Hbase in Hin|apply Hall in Hin];
      rewrite <- Hcs, <- mem_str_In in Hin; by rewrite Hin in Hn.
Qed.

(** ** Witnesses *)

Lemma update_reads_back_witness :
  update_target (update_statement (VStr "7") "FILLED" [("filled_quantity", VFloat f1)] 3).1 =
  Some ("orders", ["status"; "updated_at"; "version"; "filled_quantity"]).
Proof. exact (update_statement_reads_back (VStr "7") "FILLED" [("filled_quantity", VFloat f1)] 3 eq_refl). Defined.

(** A database of the migrated schema. *)
Definition checked_execute (sql : string) (ps : list pyval) : M Schema string := λ s,
  match update_target sql with
  | Some _ => match update_check s sql with Ok _ => (Ok "UPDATE 1", s) | Raise e => (Raise e, s) end
  | None => (Ok "UPDATE 0", s)
  end.

Definition updating_db : Db Schema := {|
  create_pool := mret tt; close_pool := mret tt; acquire := mret tt; release := mret tt;
  begin_tx := mret tt; commit_tx := mret tt; rollback_tx := mret tt; fetchrow _ _ := mret None;
  fetch _ _ := mret []; fetchval _ _ := mret (VInt 0); db_execute := checked_execute; json_dumps _ := Ok "{}";
  transient _ := false
|}.

#[export] Instance updating_laws S : UpdateLaws updating_db (λ s, s) S.
Proof.
  split; try (by intros; apply preserves_ret); intros sql ps; [intros s Hs|intros s Hs Ht Hc].
  - simpl in *. subst. unfold checked_execute. destruct (update_target sql); [|done]. by destruct (update_check S sql).
  - simpl in *. subst. simpl. unfold checked_execute. destruct (update_target sql); [|done].
    by destruct (update_check S sql).
Qed.

Lemma closing_fails_witness :
  is_ok (pg_close_position updating_db (VStr "7") f1 (true, stopped_schema)).1 = false ∧
  (pg_close_position updating_db (VStr "7") f1 (true, stopped_schema)).2.2 = stopped_schema.
Proof.
  assert (E : (upgrade_all (catalog timescale) init_schema).2 = stopped_schema) by (vm_compute; reflexivity).
  destruct (closing_a_position_fails (catalog timescale) timescale (λ s, s) init_schema updating_db
    (λ s, s) (VStr "7") f1 (true, stopped_schema) eq_refl (eq_sym E)) as [Hfail Hsame].
  split; [exact Hfail|]. etransitivity; [exact Hsame|exact E].
Defined.

Lemma status_updates_witness :
  is_ok (update_check head_schema (update_statement (VStr "7") "REJECTED" [("rejection_reason", VStr "x")] 1).1) = false.
Proof.
  destruct (status_updates_against_the_schema (VStr "7") "REJECTED" [("rejection_reason", VStr "x")] 1 eq_refl) as (Hiff & Hno & _).
  destruct (is_ok _); [|reflexivity]. exfalso. apply Hno. apply (proj1 Hiff eq_refl). by left.
Defined.
