(* ===== verification/Accounts.v ===== *)
(** * Accounts: registration, login, refresh, the authenticated user
      (app/services/auth_service.py, app/api/routes/auth.py, app/api/deps.py)

    The services over a SQLAlchemy session.  The module imports names that
    app/core/security.py does not define and reads settings that do not exist;
    those are the record [Missing], so what follows is what the code does once
    they are supplied. *)

From Stdlib Require Import ZArith Lia Bool List Ascii String.
From stdpp Require Import base decidable list option strings.
From S2P Require Import Prelude PyFloat PyStr PyDateTime PyMonad PyDict PyVal Vault.
Open Scope string_scope.
Open Scope Z_scope.
Open Scope py_scope.

(** ** Moments

    A column of type [DateTime(timezone=True)] is read back aware of its offset by a
    driver that keeps it (PostgreSQL's) and naive by one that does not;
    [datetime.utcnow()] is naive.  Python refuses to order or subtract the two. *)

Record moment := { aware : bool; clock : datetime }.

Definition naive (d : datetime) : moment := {| aware := false; clock := d |}.

(** [a < b] and [(a - b).total_seconds()]. *)
Definition moment_lt (a b : moment) : res bool :=
  if Bool.eqb (aware a) (aware b) then Ok (to_us (clock a) <? to_us (clock b))
  else Raise (TypeError "can't compare offset-naive and offset-aware datetimes").
Definition seconds_between (a b : moment) : res float :=
  if Bool.eqb (aware a) (aware b) then Ok (total_seconds_between (clock a) (clock b))
  else Raise (TypeError "can't subtract offset-naive and offset-aware datetimes").

(** [d + timedelta(days=n)]. *)
Definition add_days (d : datetime) (n : Z) : res datetime :=
  let '(y, m, day) := civil_from_days (toordinal d - 719163 + n) in
  let d' := DT y m day (dt_hour d) (dt_minute d) (dt_second d) (dt_micro d) in
  if dt_valid d' then Ok d' else Raise (OverflowError "date value out of range").

(** ** models.py: users and refresh tokens *)

Inductive Role := ADMIN | USER.
#[export] Instance role_eq_dec : EqDecision Role.
Proof. solve_decision. Defined.

Definition role_value (r : Role) : string := match r with ADMIN => "ADMIN" | USER => "USER" end.

Record UserRow := { user_id : Z; email : string; password_hash : string; role : Role; is_active : bool }.

Record TokenRow := {
  token_id : Z; token_user : Z; token_hash : string; device_fingerprint : string; expires_at : moment;
  revoked : bool; last_activity_at : moment
}.

(** What a session holds until it commits. *)
Inductive Pending :=
| AddUser (email password_hash : string) (r : Role)
| AddToken (user : Z) (hash device : string) (expires : datetime)
| RevokeToken (id : Z).

(** The session: the two SELECTs, [db.get(User, id)], and [commit], which writes what
    is pending and answers the ids of the rows it added. *)
Record Accounts (W : Type) := {
  user_by_email : string → M W (option UserRow);
  live_token : string → M W (option TokenRow);       (* token_hash == h and revoked is false *)
  get_user : Z → M W (option UserRow);
  commit : list Pending → M W (list Z)
}.
Arguments user_by_email {W}. Arguments live_token {W}. Arguments get_user {W}. Arguments commit {W}.

(** What the module expects of names that exist nowhere: [hash_refresh_token], a
    [create_refresh_token] without arguments, a [create_access_token] that takes a
    role, and the settings it reads. *)
Record Missing (W : Type) := {
  hash_refresh_token : string → string;
  create_refresh_token : M W string;
  create_access_token : string → string → M W string;
  refresh_token_ttl_days : Z;
  inactivity_timeout_minutes : Z;
  jwt_secret : res string;
  jwt_algo : res string
}.
Arguments hash_refresh_token {W}. Arguments create_refresh_token {W}. Arguments create_access_token {W}.
Arguments refresh_token_ttl_days {W}. Arguments inactivity_timeout_minutes {W}. Arguments jwt_secret {W}. Arguments jwt_algo {W}.

(** The tokens a client is given. *)
Record Tokens := { access : string; refresh : string; token_type : string }.

(** The id of the single row a commit added. *)
Definition new_id (ids : list Z) : res Z :=
  match ids with i :: _ => Ok i | [] => Raise (ExternalError "InvalidRequestError" "") end.

Section Service.
Context {W : Type} (db : Accounts W) (vdb : Session W) (N : Missing W) (utcnow : M W datetime).
Context (hash_password : string → M W string) (verify_password : string → string → bool).

Definition register_user (email_ password : string) : M W UserRow :=
  exists_ ← user_by_email db (str_lower email_);
  match exists_ with
  | Some _ => raise (HTTPException 409 "Email already registered")
  | None =>
      h ← hash_password password;
      ids ← commit db [AddUser (str_lower email_) h USER];
      id ← lift_res (new_id ids);
      found ← get_user db id;
      match found with
      | None => raise (ExternalError "InvalidRequestError" "Could not refresh instance")
      | Some user =>
          record_audit vdb (Some (user_id user)) SETTINGS_CHANGED "user" (Some (str_Z (user_id user)))
            (Some [("event", VStr "register")]) None ;;
          mret user
      end
  end.

Definition login (email_ password device : string) (ip : option string) : M W Tokens :=
  found ← user_by_email db (str_lower email_);
  match found with
  | None => raise (HTTPException 401 "Invalid credentials")
  | Some user =>
      if negb (verify_password password (password_hash user)) then raise (HTTPException 401 "Invalid credentials")
      else
        refresh_ ← create_refresh_token N;
        now ← utcnow;
        expires ← lift_res (add_days now (refresh_token_ttl_days N));
        ids ← commit db [AddToken (user_id user) (hash_refresh_token N refresh_) device expires];
        id ← lift_res (new_id ids);
        record_audit vdb (Some (user_id user)) LOGIN "session" (Some (str_Z id)) None ip ;;
        access_ ← create_access_token N (str_Z (user_id user)) (role_value (role user));
        mret {| access := access_; refresh := refresh_; token_type := "bearer" |}
  end.

(** [rt.revoked = True; db.commit(); raise HTTPException(401, detail)]. *)
Definition expire_session (rt : TokenRow) (detail : string) : M W Tokens :=
  _ ← commit db [RevokeToken (token_id rt)]; raise (HTTPException 401 detail).

(** From [user = db.get(User, rt.user_id)] on. *)
Definition refresh_issue (rt : TokenRow) (now : datetime) (device : string) (ip : option string) : M W Tokens :=
  found ← get_user db (token_user rt);
  new_refresh ← create_refresh_token N;
  match found with
  | None => raise (AttributeError "id")
  | Some user =>
      expires ← lift_res (add_days now (refresh_token_ttl_days N));
      _ ← commit db [RevokeToken (token_id rt);
                     AddToken (user_id user) (hash_refresh_token N new_refresh) device expires];
      record_audit vdb (Some (user_id user)) TOKEN_REFRESH "session" None None ip ;;
      access_ ← create_access_token N (str_Z (user_id user)) (role_value (role user));
      mret {| access := access_; refresh := new_refresh; token_type := "bearer" |}
  end.

Definition refresh_tokens (token device : string) (ip : option string) : M W Tokens :=
  found ← live_token db (hash_refresh_token N token);
  match found with
  | None => raise (HTTPException 401 "Invalid refresh token")
  | Some rt =>
      now ← utcnow;
      expired ← lift_res (moment_lt (expires_at rt) (naive now));
      if expired : bool then expire_session rt "Refresh token expired"
      else
        secs ← lift_res (seconds_between (naive now) (last_activity_at rt));
        if flt (f_of_Z (inactivity_timeout_minutes N)) (fdiv secs (f_of_Z 60))
        then expire_session rt "Session inactive"
        else if negb (String.eqb (device_fingerprint rt) device) then raise (HTTPException 401 "Device mismatch")
        else refresh_issue rt now device ip
  end.

(** *** deps.py *)

(** [jwt.decode(token, secret, algorithms=[algo])], which raises JWTError. *)
Context (jwt_decode : string → string → string → res vdict).

(** [except (JWTError, TypeError, ValueError)]. *)
Definition bad_token (e : exn) : bool :=
  match e with
  | ExternalError cls _ => String.eqb cls "JWTError"
  | TypeError _ | ValueError _ => true
  | _ => false
  end.

Definition token_user_id (token : string) : res Z :=
  secret ← jwt_secret N; algo ← jwt_algo N;
  payload ← jwt_decode token secret algo;
  py_int (vget payload "sub").

Definition get_current_user (token : string) : M W UserRow :=
  match token_user_id token with
  | Raise e => if bad_token e then raise (HTTPException 401 "Invalid token") else raise e
  | Ok uid =>
      found ← get_user db uid;
      match found with
      | None => raise (HTTPException 401 "User not found")
      | Some user => mret user
      end
  end.

Definition require_admin (user : UserRow) : M W UserRow :=
  if decide (role user = ADMIN) then mret user else raise (HTTPException 403 "Admin required").

(** *** routes/auth.py *)

Definition register_route (email_ password : string) : M W (Z * string * Role) :=
  user ← register_user email_ password; mret (user_id user, email user, role user).
Definition login_route (email_ password device : string) (client : option string) : M W Tokens :=
  login email_ password device client.
Definition refresh_route (token device : string) (client : option string) : M W Tokens :=
  refresh_tokens token device client.
End Service.

(** ** What is relied on of the database *)

(** The two tables.  [applied ps t t']: committing [ps] turns [t] into [t']; added rows
    get an id no row has. *)
Definition AccountTables : Type := list UserRow * list TokenRow.

Definition revoke (id : Z) (r : TokenRow) : TokenRow :=
  if token_id r =? id then
    {| token_id := token_id r; token_user := token_user r; token_hash := token_hash r;
       device_fingerprint := device_fingerprint r; expires_at := expires_at r; revoked := true;
       last_activity_at := last_activity_at r |}
  else r.

Fixpoint applied (ps : list Pending) (ids : list Z) (t t' : AccountTables) : Prop :=
  match ps with
  | [] => ids = [] ∧ t' = t
  | AddUser e h r :: ps =>
      ∃ u ids', ids = user_id u :: ids' ∧ email u = e ∧ password_hash u = h ∧ role u = r ∧ is_active u = true ∧
        ¬ In (user_id u) (List.map user_id t.1) ∧ applied ps ids' (t.1 ++ [u], t.2)%list t'
  | AddToken u h d e :: ps =>
      ∃ r ids', ids = token_id r :: ids' ∧ token_user r = u ∧ token_hash r = h ∧ device_fingerprint r = d ∧
        clock (expires_at r) = e ∧ revoked r = false ∧
        ¬ In (token_id r) (List.map token_id t.2) ∧ applied ps ids' (t.1, t.2 ++ [r])%list t'
  | RevokeToken i :: ps => applied ps ids (t.1, List.map (revoke i) t.2) t'
  end.

Definition is_live (h : string) (r : TokenRow) : bool := String.eqb (token_hash r) h && negb (revoked r).
Definition has_email (e : string) (u : UserRow) : bool := String.eqb (email u) e.

(** A query answers from the tables and leaves them; a call that raises, or one that
    is about something else, leaves them too. *)
Definition keeps {W A} (tables : W → AccountTables) (m : M W A) : Prop := ∀ w, tables (m w).2 = tables w.
Definition queries {W A} (tables : W → AccountTables) (m : M W A) (ans : AccountTables → A) : Prop :=
  keeps tables m ∧ ∀ w a w', m w = (Ok a, w') → a = ans (tables w).

Class AccountLaws {W} (db : Accounts W) (vdb : Session W) (N : Missing W) (utcnow : M W datetime)
    (hash_password : string → M W string) (tables : W → AccountTables) := {
  law_user e : queries tables (user_by_email db e) (λ t, List.find (has_email e) t.1);
  law_live h : queries tables (live_token db h) (λ t, List.find (is_live h) t.2);
  law_get i : queries tables (get_user db i) (λ t, List.find (λ u, user_id u =? i) t.1);
  law_commit ps w ids w' : commit db ps w = (Ok ids, w') → applied ps ids (tables w) (tables w');
  law_rollback ps w e w' : commit db ps w = (Raise e, w') → tables w' = tables w;
  law_insert_audit a : keeps tables (insert_audit vdb a);
  law_utcnow : keeps tables utcnow;
  law_hash p : keeps tables (hash_password p);
  law_new_refresh : keeps tables (create_refresh_token N);
  law_new_access s r : keeps tables (create_access_token N s r)
}.

Lemma keeps_at {W A} (tables : W → AccountTables) (m : M W A) w r w' :
  keeps tables m → m w = (r, w') → tables w' = tables w.
Proof. intros Hk Hr. specialize (Hk w). by rewrite Hr in Hk. Qed.

Lemma queries_at {W A} (tables : W → AccountTables) (m : M W A) ans w a w' :
  queries tables m ans → m w = (Ok a, w') → a = ans (tables w) ∧ tables w' = tables w.
Proof. intros [Hk Ha] Hr. split; [by eapply Ha|by eapply keeps_at]. Qed.

Lemma lift_inv {S A} (r : res A) (s : S) a s' : lift_res r s = (Ok a, s') → r = Ok a ∧ s' = s.
Proof. unfold lift_res. intros H. split; congruence. Qed.

Lemma find_none_map {A} (p : A → bool) l : List.find p l = None ↔ Forall (λ x, p x = false) l.
Proof.
  induction l as [|x l IH]; simpl; [by split|]. destruct (p x) eqn:E; split.
  - done.
  - intros Hf. apply Forall_cons in Hf as [Hx _]. congruence.
  - intros Hn. constructor; [done|by apply IH].
  - intros Hf. apply IH. by apply Forall_cons in Hf as [_ ?].
Qed.

Lemma find_app {A} (p : A → bool) l l' :
  List.find p l = None → List.find p (l ++ l')%list = List.find p l'.
Proof. induction l as [|x l IH]; simpl; [done|]. by destruct (p x). Qed.

(** Pending changes that concern only one table leave the other. *)
Lemma applied_tokens ps ids t t' :
  Forall (λ p, match p with AddUser _ _ _ => False | _ => True end) ps → applied ps ids t t' → t'.1 = t.1.
Proof.
  intros Hps. revert ids t. induction Hps as [|[e h r|u h d e|i] ps Hp _ IH]; intros ids t; simpl.
  - by intros [_ ->].
  - done.
  - intros (r & ids' & _ & _ & _ & _ & _ & _ & _ & Ha). by apply IH in Ha.
  - intros Ha. by apply IH in Ha.
Qed.

Section Theorems.
Context {W : Type} (db : Accounts W) (vdb : Session W) (N : Missing W) (utcnow : M W datetime).
Context (hash_password : string → M W string) (verify_password : string → string → bool).
Context (tables : W → AccountTables) `{L : !AccountLaws db vdb N utcnow hash_password tables}.

(** At most one live row has a given hash. *)
Definition live_unique (t : AccountTables) : Prop :=
  ∀ r1 r2, In r1 t.2 → In r2 t.2 → revoked r1 = false → revoked r2 = false →
    token_hash r1 = token_hash r2 → token_id r1 = token_id r2.

(** A refresh that returns: the row it found, and the tables after it. *)
Lemma refresh_ok token device ip w pair w' :
  refresh_tokens db vdb N utcnow token device ip w = (Ok pair, w') →
  ∃ rt new t1, List.find (is_live (hash_refresh_token N token)) (tables w).2 = Some rt ∧
    device_fingerprint rt = device ∧ refresh pair = new ∧ t1 = List.map (revoke (token_id rt)) (tables w).2 ∧
    ∃ r, token_hash r = hash_refresh_token N new ∧ device_fingerprint r = device ∧ revoked r = false ∧
         token_user r = token_user rt ∧ (tables w').2 = (t1 ++ [r])%list.
Proof using L.
  intros Hr. unfold refresh_tokens in Hr. peel Hr as found w1 H1.
  apply (queries_at tables _ _ _ _ _ (law_live _)) in H1 as [Hf H1]. destruct found as [rt|]; [|done].
  peel Hr as now w2 H2. apply (keeps_at tables _ _ _ _ law_utcnow) in H2.
  peel Hr as expired w3 H3. apply lift_inv in H3 as [_ ->]. destruct expired.
  { unfold expire_session in Hr. by peel Hr as ids w4 H4. }
  peel Hr as secs w4 H4. apply lift_inv in H4 as [_ ->]. destruct (flt _ _).
  { unfold expire_session in Hr. by peel Hr as ids w5 H5. }
  destruct (String.eqb_spec (device_fingerprint rt) device) as [Hd|]; [|done]. cbn in Hr.
  unfold refresh_issue in Hr. peel Hr as user w5 H5.
  apply (queries_at tables _ _ _ _ _ (law_get _)) in H5 as [Hu H5].
  peel Hr as new w6 H6. apply (keeps_at tables _ _ _ _ law_new_refresh) in H6.
  destruct user as [user|]; [|done]. peel Hr as expires w7 H7. apply lift_inv in H7 as [_ ->].
  peel Hr as ids w8 H8. apply law_commit in H8. cbn in H8.
  destruct H8 as (r & ids' & _ & Hru & Hrh & Hrd & _ & Hrv & _ & _ & H8).
  peel Hr as u9 w9 H9. apply (keeps_at tables _ _ _ _ (law_insert_audit _)) in H9.
  peel Hr as acc w10 H10. apply (keeps_at tables _ _ _ _ (law_new_access _ _)) in H10.
  injection Hr as <- <-.
  symmetry in Hf, Hu. apply List.find_some in Hu as [_ Hu]. apply Z.eqb_eq in Hu.
  exists rt, new, (List.map (revoke (token_id rt)) (tables w).2).
  repeat split; try done. exists r. repeat split; try done; [congruence|].
  rewrite H10, H9, H8. cbn. by rewrite H6, H5, H2, H1.
Qed.

Lemma revoke_hash i r : token_hash (revoke i r) = token_hash r.
Proof. unfold revoke. by destruct (token_id r =? i). Qed.

(** C38. One account per address, whatever its capitals.  A registration that returns
    has found no account with the lower-cased address, has added exactly one user,
    with that address, active and without administrator rights, and has touched no
    token; afterwards every registration of an address that differs at most in
    capitals is refused and changes nothing. *)
Theorem one_account_per_address e p w u w' :
  register_user db vdb hash_password e p w = (Ok u, w') →
  email u = str_lower e ∧ role u = USER ∧ is_active u = true ∧
  Forall (λ v, email v ≠ str_lower e) (tables w).1 ∧ tables w' = ((tables w).1 ++ [u], (tables w).2)%list ∧
  ∀ w2 e2 p2, tables w2 = tables w' → str_lower e2 = str_lower e →
    is_ok (register_user db vdb hash_password e2 p2 w2).1 = false ∧
    tables (register_user db vdb hash_password e2 p2 w2).2 = tables w2.
Proof using L.
  intros Hr. unfold register_user in Hr. peel Hr as found w1 H1.
  apply (queries_at tables _ _ _ _ _ (law_user _)) in H1 as [Hf H1]. destruct found; [done|].
  peel Hr as h w2 H2. apply (keeps_at tables _ _ _ _ (law_hash _)) in H2.
  peel Hr as ids w3 H3. apply law_commit in H3. cbn in H3.
  destruct H3 as (v & ids' & -> & Hve & Hvh & Hvr & Hva & Hni & _ & H3).
  peel Hr as id w4 H4. apply lift_inv in H4 as [Hid ->]. injection Hid as <-.
  peel Hr as found w5 H5. apply (queries_at tables _ _ _ _ _ (law_get _)) in H5 as [Hg H5].
  destruct found as [x|]; [|done]. peel Hr as z w6 H6.
  apply (keeps_at tables _ _ _ _ (law_insert_audit _)) in H6. injection Hr as <- <-.
  rewrite H3 in Hg. cbn in Hg. rewrite find_app in Hg.
  2:{ apply find_none_map, List.Forall_forall. intros y Hy. rewrite H2, H1 in Hy, Hni. apply Z.eqb_neq.
      intros Heq. apply Hni. rewrite <- Heq. by apply in_map. }
  cbn in Hg. rewrite Z.eqb_refl in Hg. injection Hg as ->.
  assert (Ht : tables w6 = ((tables w).1 ++ [v], (tables w).2)%list) by (by rewrite H6, H5, H3, H2, H1).
  repeat split; try done.
  - symmetry in Hf. apply find_none_map in Hf. eapply Forall_impl; [exact Hf|]. intros y Hy. by apply String.eqb_neq.
  - unfold register_user. destruct (user_by_email db (str_lower e2) w0) as [[f|x] w7] eqn:H7.
    + rewrite (bind_ok _ _ _ _ _ H7). apply (queries_at tables _ _ _ _ _ (law_user _)) in H7 as [-> H7].
      rewrite H, Ht. cbn. rewrite H0. rewrite find_app by done. cbn. unfold has_email. by rewrite Hve, String.eqb_refl.
    + by rewrite (bind_raise _ _ _ _ _ H7).
  - unfold register_user. destruct (user_by_email db (str_lower e2) w0) as [[f|x] w7] eqn:H7.
    + rewrite (bind_ok _ _ _ _ _ H7). apply (queries_at tables _ _ _ _ _ (law_user _)) in H7 as [-> H7].
      rewrite H, Ht. cbn. rewrite H0. rewrite find_app by done. cbn. unfold has_email. rewrite Hve, String.eqb_refl.
      cbn. congruence.
    + rewrite (bind_raise _ _ _ _ _ H7). by eapply keeps_at; [apply law_user|].
Qed.

(** On a database that keeps time zones, PostgreSQL with the columns these models
    declare, no session can be refreshed: [expires_at] comes back aware of its offset
    and is compared with the naive [utcnow()], so once the token's row is found the
    call raises TypeError, for every token, device and time, with the tables as they
    were. *)
Theorem aware_sessions_never_refresh token device ip w rt w1 now w2 :
  live_token db (hash_refresh_token N token) w = (Ok (Some rt), w1) → utcnow w1 = (Ok now, w2) →
  aware (expires_at rt) = true →
  refresh_tokens db vdb N utcnow token device ip w =
    (Raise (TypeError "can't compare offset-naive and offset-aware datetimes"), w2) ∧ tables w2 = tables w.
Proof using L.
  intros H1 H2 Ha. split.
  - unfold refresh_tokens. rewrite (bind_ok _ _ _ _ _ H1), (bind_ok _ _ _ _ _ H2). unfold moment_lt. by rewrite Ha.
  - apply (keeps_at tables _ _ _ _ law_utcnow) in H2. rewrite H2. by apply (queries_at tables _ _ _ _ _ (law_live _)) in H1 as [_ ?].
Qed.
End Theorems.

(** ** A database in memory

    [aware_] says whether it keeps time zones; ids are counted. *)

Section Memory.
Variable aware_ : bool.

Definition moment_of (d : datetime) : moment := {| aware := aware_; clock := d |}.

Definition next_id (t : AccountTables) : Z :=
  1 + fold_right Z.max 0 (List.map user_id t.1 ++ List.map token_id t.2)%list.

Fixpoint mem_commit (now : datetime) (ps : list Pending) (t : AccountTables) : list Z * AccountTables :=
  match ps with
  | [] => ([], t)
  | AddUser e h r :: ps =>
      let u := {| user_id := next_id t; email := e; password_hash := h; role := r; is_active := true |} in
      let '(ids, t') := mem_commit now ps (t.1 ++ [u], t.2)%list in (next_id t :: ids, t')
  | AddToken u h d e :: ps =>
      let r := {| token_id := next_id t; token_user := u; token_hash := h; device_fingerprint := d;
                  expires_at := moment_of e; revoked := false; last_activity_at := moment_of now |} in
      let '(ids, t') := mem_commit now ps (t.1, t.2 ++ [r])%list in (next_id t :: ids, t')
  | RevokeToken i :: ps => mem_commit now ps (t.1, List.map (revoke i) t.2)
  end.

Definition demo_time : datetime := DT 2026 2 12 9 0 0 0.

Definition mem_accounts : Accounts AccountTables := {|
  user_by_email e := gets (λ t, List.find (has_email e) t.1);
  live_token h := gets (λ t, List.find (is_live h) t.2);
  get_user i := gets (λ t, List.find (λ u, user_id u =? i) t.1);
  commit ps := λ t, let '(ids, t') := mem_commit demo_time ps t in (Ok ids, t')
|}.

Definition mem_vault : Session AccountTables := {|
  find_key _ _ := mret None; find_key_by_id _ _ := mret None; keys_by_provider _ := mret [];
  insert_key _ _ _ _ := raise (ExternalError "unused" ""); update_key r := mret r; delete_row _ := mret tt;
  insert_audit _ := mret tt
|}.

Definition mem_names : Missing AccountTables := {|
  hash_refresh_token s := String.append "h:" s;
  create_refresh_token := gets (λ t, String.append "rt-" (str_Z (next_id t)));
  create_access_token s r := mret (s ++ "|" ++ r)%string;
  refresh_token_ttl_days := 30; inactivity_timeout_minutes := 60; jwt_secret := Ok "s"; jwt_algo := Ok "HS256"
|}.

Definition mem_hash (p : string) : M AccountTables string := mret (String.append "argon:" p).

Lemma next_id_above t i : In i (List.map user_id t.1 ++ List.map token_id t.2)%list → i < next_id t.
Proof.
  unfold next_id. induction (List.map user_id t.1 ++ List.map token_id t.2)%list as [|x l IH]; [done|].
  intros [->|Hi]; cbn [fold_right]; [lia|]. specialize (IH Hi). lia.
Qed.

Lemma mem_commit_applied ps t : applied ps (mem_commit demo_time ps t).1 t (mem_commit demo_time ps t).2.
Proof.
  revert t. induction ps as [|[e h r|u h d e|i] ps IH]; intros t; cbn [mem_commit applied]; [done| | |apply IH].
  - set (u := {| user_id := next_id t |}). specialize (IH (t.1 ++ [u], t.2)%list).
    destruct (mem_commit demo_time ps (t.1 ++ [u], t.2)%list) as [ids t'] eqn:E. exists u, ids.
    repeat split; try done. intros Hin. enough (next_id t < next_id t) by lia. apply next_id_above, in_app_iff. by left.
  - set (r := {| token_id := next_id t |}). specialize (IH (t.1, t.2 ++ [r])%list).
    destruct (mem_commit demo_time ps (t.1, t.2 ++ [r])%list) as [ids t'] eqn:E. exists r, ids.
    repeat split; try done. intros Hin. enough (next_id t < next_id t) by lia. apply next_id_above, in_app_iff. by right.
Qed.

#[export] Instance mem_account_laws :
  AccountLaws mem_accounts mem_vault mem_names (mret demo_time) mem_hash (λ t, t).
Proof.
  split; try (by intros; split; [intros w|intros w a w' [= <- _]]); try (by intros ? w); try by intros w.
  - intros ps w ids w' Hr. cbn in Hr. pose proof (mem_commit_applied ps w) as Ha.
    destruct (mem_commit demo_time ps w) as [i t]. by injection Hr as <- <-.
  - intros ps w e w'. cbn. by destruct (mem_commit demo_time ps w).
Qed.
End Memory.

Definition demo_user : UserRow :=
  {| user_id := 1; email := "ann@example.com"; password_hash := "argon:secret"; role := USER; is_active := true |}.
Definition demo_token (aware_ : bool) : TokenRow :=
  {| token_id := 2; token_user := 1; token_hash := "h:rt-0"; device_fingerprint := "device-1";
     expires_at := {| aware := aware_; clock := DT 2026 3 1 0 0 0 0 |}; revoked := false;
     last_activity_at := {| aware := aware_; clock := DT 2026 2 12 8 30 0 0 |} |}.
Definition demo_tables (aware_ : bool) : AccountTables := ([demo_user], [demo_token aware_]).

Definition demo_refresh (token device : string) (t : AccountTables) :=
  refresh_tokens (mem_accounts false) mem_vault mem_names (mret demo_time) token device None t.


Lemma one_account_witness :
  let w := (register_user (mem_accounts true) mem_vault mem_hash "Bob@Example.com" "longpassword" (demo_tables true)) in
  ∃ u, w.1 = Ok u ∧ email u = "bob@example.com" ∧ is_ok (register_user (mem_accounts true) mem_vault
    mem_hash "BOB@example.com" "otherpassword" w.2).1 = false.
Proof.
  eexists. split; [vm_compute; reflexivity|].
  destruct (one_account_per_address (mem_accounts true) mem_vault mem_names (mret demo_time)
    mem_hash (λ t, t) "Bob@Example.com" "longpassword" (demo_tables true) _ _
    ltac:(vm_compute; reflexivity)) as (He & _ & _ & _ & _ & Hagain).
  split; [exact He|]. apply Hagain; reflexivity.
Defined.

Lemma aware_witness :
  refresh_tokens (mem_accounts true) mem_vault mem_names (mret demo_time) "rt-0" "device-1" None (demo_tables true) =
    (Raise (TypeError "can't compare offset-naive and offset-aware datetimes"), demo_tables true) ∧
  demo_tables true = demo_tables true.
Proof.
  exact (aware_sessions_never_refresh (mem_accounts true) mem_vault mem_names (mret demo_time)
    mem_hash (λ t, t) "rt-0" "device-1" None (demo_tables true) (demo_token true)
    (demo_tables true) demo_time (demo_tables true) eq_refl eq_refl eq_refl).
Defined.
