(* ===== verification/BacktestReport.v ===== *)
(** * The backtester's report, optimisation, resampling and scenarios
      (backtest_service/src/engine/backtester.py, backtest_service/src/app.py)

    What [run] answers after the bar loop of Backtest.v, the search of
    [run_walk_forward], [monte_carlo], [stress_test] and the two routes.  What
    pandas and numpy compute is the record [Frames]. *)

From Stdlib Require Import ZArith Lia Bool List Ascii String.
From stdpp Require Import base decidable list option strings.
From S2P Require Import Prelude PyFloat PyStr PyDateTime PyMonad PyDict PyVal Backtest.
Open Scope string_scope.
Open Scope Z_scope.
Open Scope py_scope.

(** ** pandas and numpy *)

Record Frames := {
  pct_change : list float → list float;        (* eq.pct_change().fillna(0) *)
  drawdowns : list float → list float;         (* (eq / eq.cummax()) - 1 *)
  series_min : list float → float;
  series_mean : list float → float;
  series_std : list float → float;
  power : float → Z → float;                   (* x ** n *)
  sqrt_252 : float;                            (* np.sqrt(252) *)
  np_mean : list float → float;
  np_sum : list float → float;
  np_std : list float → float;
  quantile : list float → float → float;
  monthly_returns : list datetime → list float → res (list float)   (* ret.resample("M").apply(...) *)
}.

Definition f_epsilon : float := flit 1 1000000000.

(** [max(l)] and [min(l)] of a list that is not empty. *)
Definition py_max (l : list float) : float :=
  match l with [] => f0 | x :: r => fold_left (λ m y, if flt m y then y else m) r x end.
Definition py_min (l : list float) : float :=
  match l with [] => f0 | x :: r => fold_left (λ m y, if flt y m then y else m) r x end.

(** ** BacktestResult *)

(** [execution_time_ms] is the wall clock's and left out. *)
Record BacktestResult := {
  strategy_id : pyval; strategy_name : pyval; symbols : list pyval; timeframe : pyval;
  start_date : datetime; end_date : datetime;
  initial_capital : float; final_capital_ : float; total_return : float; annualized_return : float;
  sharpe_ratio : float; sortino_ratio : float; calmar_ratio : float;
  max_drawdown : float; max_drawdown_percent : float; max_drawdown_duration : Z;
  win_rate_ : float; profit_factor : float; expectancy : float;
  total_trades : Z; winning_trades : Z; losing_trades : Z;
  avg_win : float; avg_loss : float; largest_win : float; largest_loss : float;
  result_equity : list float; drawdown_curve : list float; monthly : list float; result_trades : list Trade;
  parameters : vdict; optimization_iterations : Z
}.

Definition nonempty {A} (l : list A) : bool := match l with [] => false | _ => true end.
Definition len {A} (l : list A) : Z := Z.of_nat (length l).

Section Report.
(** [now] is what [datetime.utcnow()] reads when there are no rows. *)
Context (F : Frames) (now : datetime) (use_slippage : bool).

(** [sum(wins) / abs(sum(losses))]: with slippage the amounts are numpy floats, whose
    division by zero is an infinity or a NaN; without it they are Python's. *)
Definition divide (x y : float) : res float := if use_slippage then Ok (fdiv x y) else py_fdiv x y.

(** [times] are the sorted index of the rows. *)
Definition report (cap : float) (params : vdict) (times : list datetime) (s : RunState) : res BacktestResult :=
  let eq := equity_curve s in
  let ts := trades s in
  let ret := pct_change F eq in
  let dd_curve := drawdowns F eq in
  let max_dd := if nonempty dd_curve then series_min F dd_curve else f0 in
  let ann := if nonempty ret then fsub (power F (fadd f1 (series_mean F ret)) 252) f1 else f0 in
  let sharpe := fmul (fdiv (series_mean F ret) (fadd (series_std F ret) f_epsilon)) (sqrt_252 F) in
  let downside := List.filter (λ r, flt r f0) ret in
  let sortino := fmul (fdiv (series_mean F ret) (fadd (series_std F downside) f_epsilon)) (sqrt_252 F) in
  let calmar := fdiv ann (fadd (fabs max_dd) f_epsilon) in
  let ws := wins ts in
  let ls := losses ts in
  factor ← (if nonempty ls then divide (fsum ws) (fabs (fsum ls)) else Ok (S754_infinity false));
  let expect := if nonempty ts then np_mean F (List.map pnl ts) else f0 in
  months ← monthly_returns F times ret;
  rate ← win_rate ts;
  iterations ← py_int (vget_or params "optimization_iterations" (VInt 0));
  mret {| strategy_id := vget_or params "strategy_id" (VStr "unknown");
          strategy_name := vget_or params "strategy_name" (VStr "strategy");
          symbols := [vget_or params "symbol" (VStr "SYMBOL")]; timeframe := vget_or params "timeframe" (VStr "M1");
          start_date := default now (head times); end_date := default now (last times);
          initial_capital := cap; final_capital_ := final_capital cap s;
          total_return := (match last eq with Some e => fsub (fdiv e cap) f1 | None => f0 end);
          annualized_return := ann; sharpe_ratio := sharpe; sortino_ratio := sortino; calmar_ratio := calmar;
          max_drawdown := fabs max_dd; max_drawdown_percent := fmul (fabs max_dd) (f_of_Z 100);
          max_drawdown_duration := len (List.filter (λ d, flt d f0) dd_curve);
          win_rate_ := rate; profit_factor := factor; expectancy := expect;
          total_trades := len ts; winning_trades := len ws; losing_trades := len ls;
          avg_win := (if nonempty ws then np_mean F ws else f0); avg_loss := (if nonempty ls then np_mean F ls else f0);
          largest_win := (if nonempty ws then py_max ws else f0); largest_loss := (if nonempty ls then py_min ls else f0);
          result_equity := eq; drawdown_curve := dd_curve; monthly := months; result_trades := ts;
          parameters := params; optimization_iterations := iterations |}.
End Report.

(** ** The engine *)

Section Engine.
Context (F : Frames) (now : datetime) (cm : CommissionModel) (sm : SlippageModel) (mm : MarginModel) (log1p : float → float).
(** A strategy is called with the rows seen and the parameters. *)
Context (strategy : vdict → list Row → res pyval).

(** [self.run(strategy, data, **params)] with the other arguments left out. *)
Definition run (data : list Row) (params : vdict) : res BacktestResult :=
  s ← run_backtest cm sm mm log1p true true true params (strategy params) data (f_of_Z 10000);
  report F now true (f_of_Z 10000) params (List.map row_time (sort_by row_key data)) s.

(** *** The search of a window

    [choices] are the parameter sets that [np.random.choice] draws, one per turn of
    [range(optimization_iterations if param_space else 1)]. *)
Fixpoint search (in_sample : list Row) (choices : list vdict) (best_params : vdict) (best_sharpe : float) :
    res (vdict * float) :=
  match choices with
  | [] => Ok (best_params, best_sharpe)
  | params :: rest =>
      r ← run in_sample params;
      if flt best_sharpe (sharpe_ratio r) then search in_sample rest params (sharpe_ratio r)
      else search in_sample rest best_params best_sharpe
  end.

Definition worst_sharpe : float := f_of_Z (-1000000000).

(** [self.run(..., optimization_iterations=n, **best_params)]: a keyword given twice. *)
Definition with_iterations (n : Z) (best : vdict) : res vdict :=
  if dmem best "optimization_iterations" then Raise (TypeError "got multiple values for keyword argument")
  else Ok (("optimization_iterations", VInt n) :: best).

Definition run_window (n : Z) (choices : list vdict) (in_sample out_sample : list Row) : res BacktestResult :=
  '(best, _) ← search in_sample choices [] worst_sharpe;
  params ← with_iterations n best;
  run out_sample params.

(** *** Stress scenarios *)

Definition is_text (v : pyval) (s : string) : bool := match v with VStr t => String.eqb t s | _ => false end.

Definition shock (s : vdict) (data : list Row) : res (list Row) :=
  if is_text (vget s "type") "price_shock" then
    k ← py_float (vget_or s "shock" (VFloat (flit (-1) 10)));
    mret (List.map (λ r, {| row_time := row_time r; close := fmul (close r) (fadd f1 k); volatility := volatility r |}) data)
  else if is_text (vget s "type") "volatility_spike" then
    k ← py_float (vget_or s "multiplier" (VInt 2));
    mret (List.map (λ r, {| row_time := row_time r; close := close r;
                            volatility := Some (fmul (default (flit 1 100) (volatility r)) k) |}) data)
  else mret data.
(** What a scenario answers, under its name (a text). *)
Definition scenario_result (r : BacktestResult) : vdict :=
  [("total_return", VFloat (total_return r)); ("max_drawdown", VFloat (max_drawdown r)); ("sharpe", VFloat (sharpe_ratio r))].

Fixpoint stress_loop `{PyRepr} (data : list Row) (scenarios : list vdict) (out : vdict) : res vdict :=
  match scenarios with
  | [] => Ok out
  | s :: rest =>
      let name := py_str (vget_or s "name" (VStr "scenario")) in
      shocked ← shock s data;
      r ← run shocked [("strategy_name", VStr ("stress_" ++ name)%string)];
      stress_loop data rest (dset out name (VDict (scenario_result r)))
  end.

Definition stress_test `{PyRepr} (base_data : list Row) (scenarios : list vdict) : res vdict :=
  stress_loop base_data scenarios [].
End Engine.

(** ** Resampling *)

(** [np.array([t.get("pnl", 0) for t in trades], dtype=float)]. *)
Fixpoint pnl_array (ts : list vdict) : res (list float) :=
  match ts with
  | [] => Ok []
  | t :: rest => x ← py_float (vget_or t "pnl" (VInt 0)); xs ← pnl_array rest; mret (x :: xs)
  end.

(** [samples] are the draws of [np.random.choice(pnl, size=len(pnl))], one per iteration. *)
Definition monte_carlo `{PyRepr} (F : Frames) (ts : list vdict) (samples : list float → list (list float))
    (confidence_levels : list float) : res vdict :=
  pnl ← pnl_array ts;
  match pnl with
  | [] => mret [("distribution", VList []); ("VaR", VDict []); ("CVaR", VDict [])]
  | _ =>
      let dist := List.map (np_sum F) (samples pnl) in
      let cut c := quantile F dist (fsub f1 c) in
      let var := dupdate [] (List.map (λ c, (py_str (VFloat c), VFloat (cut c))) confidence_levels) in
      let cvar := dupdate [] (List.map (λ c, (py_str (VFloat c), VFloat (np_mean F (List.filter (λ x, fle x (cut c)) dist))))
                                confidence_levels) in
      mret [("distribution", VList (List.map VFloat dist)); ("mean", VFloat (np_mean F dist)); ("std", VFloat (np_std F dist));
            ("VaR", VDict var); ("CVaR", VDict cvar)]
  end.

(** ** app.py *)

(** [pd.date_range(end=now, periods=360, freq="D")], every close 1.0. *)
Definition flat_data (index : list datetime) : list Row :=
  List.map (λ t, {| row_time := t; close := f1; volatility := None |}) index.

Definition walk_forward_route (add_years add_months : Z → datetime → datetime)
    (run_window : list Row → list Row → res BacktestResult) (fuel : nat) (index : list datetime) : option (res vdict) :=
  match run_walk_forward add_years add_months run_window 3 6 fuel (flat_data index) with
  | Some (Ok results) => Some (Ok [("segments", VInt (Z.of_nat (length results)))])
  | Some (Raise e) => Some (Raise e)
  | None => None
  end.

Definition monte_carlo_route `{PyRepr} (F : Frames) (samples : list float → list (list float)) : res vdict :=
  result ← monte_carlo F [[("pnl", VFloat f1)]; [("pnl", VFloat (flit (-5) 10))]; [("pnl", VFloat (flit 8 10))]] samples
    [flit 95 100; flit 99 100];
  m ← vindex result "mean"; sd ← vindex result "std";
  mret [("mean", m); ("std", sd)].

(** ** The report counts *)

(** An amount that is not a number is neither a win nor a loss. *)
Lemma wins_losses_count ts :
  (length (wins ts) + length (losses ts) = length (List.filter (λ x, negb (is_nan x)) (List.map pnl ts)))%nat.
Proof.
  unfold wins, losses. induction (List.map pnl ts) as [|x l IH]; [done|]. simpl.
  rewrite fle_flt. destruct (is_nan x) eqn:Hn; simpl.
  - destruct (flt f0 x) eqn:E; [|done]. apply flt_nan_r in E. congruence.
  - destruct (flt f0 x); simpl; lia.
Qed.

(** The counts of a report add up.  Every trade is counted; the winning and the
    losing ones together are the trades whose profit is a number, so they are all of
    them unless a price was not a number; the equity curve and the trades reported
    are those of the run. *)
Theorem report_counts_add_up F now use_slippage cap params times s r :
  report F now use_slippage cap params times s = Ok r →
  total_trades r = len (trades s) ∧
  winning_trades r + losing_trades r = len (List.filter (λ x, negb (is_nan x)) (List.map pnl (trades s))) ∧
  (Forall (λ t, is_nan (pnl t) = false) (trades s) → winning_trades r + losing_trades r = total_trades r) ∧
  result_equity r = equity_curve s ∧ result_trades r = trades s.
Proof.
  unfold report. cbv zeta. intros Hr.
  destruct (if nonempty (losses (trades s)) then divide _ _ _ else _) as [factor|]; [|done].
  cbn [mbind res_bind] in Hr. destruct (monthly_returns F times _) as [months|]; [|done]. cbn [mbind res_bind] in Hr.
  destruct (win_rate (trades s)) as [rate|]; [|done]. cbn [mbind res_bind] in Hr.
  destruct (py_int _) as [iters|]; [|done]. injection Hr as <-. cbn.
  pose proof (wins_losses_count (trades s)) as Hc. unfold len. split; [done|].
  assert (Hsum : Z.of_nat (length (wins (trades s))) + Z.of_nat (length (losses (trades s))) =
    Z.of_nat (length (List.filter (λ x, negb (is_nan x)) (List.map pnl (trades s))))) by lia.
  split; [done|]. split; [|done]. intros Hall. rewrite Hsum, filter_all, List.length_map; [done|].
  apply List.Forall_map. eapply Forall_impl; [exact Hall|]. intros t Ht. cbn. by rewrite Ht.
Qed.

(** Without slippage Python's division is used: when the trades that did not win all
    came out at exactly zero, the report, and so the whole run, raises. *)
Theorem zero_losses_break_the_report F now cap params times s :
  nonempty (losses (trades s)) = true → is_zero (fabs (fsum (losses (trades s)))) = true →
  report F now false cap params times s = Raise ZeroDivisionError.
Proof. intros Hn Hz. unfold report. rewrite Hn. unfold divide, py_fdiv. by rewrite Hz. Qed.

(** ** The search finds the best *)

Section Search.
Context (F : Frames) (now : datetime) (cm : CommissionModel) (sm : SlippageModel) (mm : MarginModel) (log1p : float → float).
Context (strategy : vdict → list Row → res pyval) (in_sample : list Row).

Let sharpe_of (params : vdict) (x : float) : Prop :=
  ∃ r, run F now cm sm mm log1p strategy in_sample params = Ok r ∧ sharpe_ratio r = x.

Lemma not_flt_trans x y z :
  flt y x = false → is_nan x = false → flt y z = true → flt x z = true.
Proof.
  intros Hyx Hx Hyz. pose proof (flt_nan_l _ _ Hyz) as Hy.
  apply flt_rank in Hyz as (_ & Hz & Hyz). apply flt_rank. split; [done|]. split; [done|].
  assert (Hn : lex3 (rank y) (rank x) ≠ Lt) by (intros Hl; rewrite (proj2 (flt_rank y x)) in Hyx; done).
  rewrite lex3_lt in *. destruct (rank x) as [[? ?] ?], (rank y) as [[? ?] ?], (rank z) as [[? ?] ?]. lia.
Qed.

(** Strictly better than all before, and not beaten by any after. *)
Lemma search_spec choices best sharpe best' sharpe' :
  is_nan sharpe = false →
  search F now cm sm mm log1p strategy in_sample choices best sharpe = Ok (best', sharpe') →
  ((best' = best ∧ sharpe' = sharpe) ∨
   (∃ before after, choices = (before ++ best' :: after)%list ∧ sharpe_of best' sharpe' ∧ flt sharpe sharpe' = true ∧
      ∀ p x, In p before → sharpe_of p x → flt x sharpe' = true ∨ is_nan x = true)) ∧
  ∀ p x, In p choices → sharpe_of p x → flt sharpe' x = false.
Proof.
  revert best sharpe. induction choices as [|c rest IH]; intros best sharpe Hnan Hs; simpl in Hs.
  - injection Hs as <- <-. split; [by left|]. by intros p x [].
  - destruct (run F now cm sm mm log1p strategy in_sample c) as [r|] eqn:Hrun; [|done]. cbn [mbind res_bind] in Hs.
    assert (Hc : ∀ x, sharpe_of c x → x = sharpe_ratio r) by (intros x (r' & Hr' & <-); congruence).
    destruct (flt sharpe (sharpe_ratio r)) eqn:Ebetter.
    + apply IH in Hs as [[[-> ->]|(before & after & -> & Hb & Hlt & Hbefore)] Hmax]; [| |by apply flt_nan_r in Ebetter].
      * split.
        -- right. exists [], rest. split; [done|]. split; [by exists r|]. split; [done|]. by intros p x [].
        -- intros p x [->|Hin] Hp; [rewrite (Hc x Hp); apply flt_irrefl|by apply (Hmax p)].
      * split.
        -- right. exists (c :: before), after. split; [done|]. split; [done|]. split; [by eapply flt_trans|].
           intros p x [->|Hin] Hp; [left; by rewrite (Hc x Hp)|by apply (Hbefore p)].
        -- intros p x [->|Hin] Hp; [rewrite (Hc x Hp); by apply flt_asym|by apply (Hmax p)].
    + apply IH in Hs as [Hcase Hmax]; [|done].
      assert (Hnot : flt sharpe' (sharpe_ratio r) = false).
      { destruct Hcase as [[_ ->]|(_ & _ & _ & _ & Hlt & _)]; [done|].
        destruct (flt sharpe' (sharpe_ratio r)) eqn:E; [|done]. by rewrite (flt_trans _ _ _ Hlt E) in Ebetter. }
      split; [|intros p x [->|Hin] Hp; [by rewrite (Hc x Hp)|by apply (Hmax p)]].
      destruct Hcase as [[-> ->]|(before & after & -> & Hb & Hlt & Hbefore)]; [by left|]. right.
      exists (c :: before), after. split; [done|]. split; [done|]. split; [done|].
      intros p x [->|Hin] Hp; [|by apply (Hbefore p)]. rewrite (Hc x Hp).
      destruct (is_nan (sharpe_ratio r)) eqn:Hx; [by right|left]. exact (not_flt_trans _ _ _ Ebetter Hx Hlt).
Qed.

(** C39. The loop of [run_walk_forward] computes the best choice.  With the Sharpe
    ratios of the in-sample runs as reference, the parameters it returns are the
    first of the drawn choices whose ratio is the greatest: every choice before has a
    smaller ratio or none (not a number), no choice after has a greater one; and when
    no choice beats -1e9 it returns no parameters. *)
Theorem search_finds_the_first_best choices best sharpe :
  search F now cm sm mm log1p strategy in_sample choices [] worst_sharpe = Ok (best, sharpe) →
  ((best = [] ∧ sharpe = worst_sharpe) ∨
   (∃ before after, choices = (before ++ best :: after)%list ∧ sharpe_of best sharpe ∧ flt worst_sharpe sharpe = true ∧
      ∀ p x, In p before → sharpe_of p x → flt x sharpe = true ∨ is_nan x = true)) ∧
  ∀ p x, In p choices → sharpe_of p x → flt sharpe x = false.
Proof. apply search_spec. vm_compute. reflexivity. Qed.
End Search.

(** ** The route *)

Section Route.
Context (add_years add_months : Z → datetime → datetime) (run_window : list Row → list Row → res BacktestResult).

Definition day_us : Z := 86400 * 1000000.

(** What is relied on of [pd.DateOffset(years=n)]: a year has at least 365 days. *)
Context (years_forward : ∀ n d, 0 <= n → to_us d + n * 365 * day_us <= to_us (add_years n d)).

Lemma between_none a b df : Forall (λ r, row_key r < to_us a) df → between a b df = [].
Proof.
  intros Hdf. apply filter_none. eapply Forall_impl; [exact Hdf|]. intros r Hr. cbn in *.
  apply andb_false_iff. left. apply Z.leb_gt. lia.
Qed.

(** Data that end before the first in-sample window does give no segment. *)
Lemma short_data_no_segments years months fuel df end_ cursor :
  0 <= years → (0 < fuel)%nat →
  Forall (λ r, row_key r < to_us cursor + years * 365 * day_us) df →
  windows add_years add_months run_window years months fuel df end_ cursor = Some (Ok []).
Proof using years_forward.
  intros Hy Hfuel Hdf. destruct fuel as [|n]; [lia|]. simpl. destruct (to_us cursor <? to_us end_); [|done].
  rewrite (between_none (add_years years cursor)).
  - by rewrite orb_true_r.
  - eapply Forall_impl; [exact Hdf|]. intros r Hr. cbn in *. specialize (years_forward years cursor Hy). lia.
Qed.

(** POST /walk-forward of the backtest service answers [{"segments": 0}] whatever
    happens: its 360 days of data end long before the first window of three years
    does, so no strategy is run. *)
Theorem walk_forward_route_runs_nothing fuel index first :
  (0 < fuel)%nat →
  Forall (λ t, to_us first <= to_us t <= to_us first + 359 * day_us) index →
  walk_forward_route add_years add_months run_window fuel index = Some (Ok [("segments", VInt 0)]).
Proof using years_forward.
  intros Hfuel Hindex. unfold walk_forward_route, run_walk_forward.
  assert (Hin : ∀ r, In r (sort_by row_key (flat_data index)) → to_us first <= row_key r <= to_us first + 359 * day_us).
  { intros r Hr. rewrite In_sort_by in Hr. unfold flat_data in Hr. apply in_map_iff in Hr as (t & <- & Ht).
    rewrite List.Forall_forall in Hindex. by apply Hindex. }
  destruct (sort_by row_key (flat_data index)) as [|r0 df] eqn:E; [done|].
  destruct (last (r0 :: df)) as [r1|]; [|done].
  rewrite short_data_no_segments; [done|lia|done|].
  apply List.Forall_forall. intros r Hr. pose proof (Hin r Hr). pose proof (Hin r0 (or_introl eq_refl)).
  unfold row_key in *. unfold day_us in *. lia.
Qed.
End Route.

(** ** Witnesses *)

Definition demo_frames : Frames := {|
  pct_change l := l; drawdowns l := List.map (λ _, f0) l; series_min l := f0; series_mean l := default f0 (head l);
  series_std _ := f0; power x _ := x; sqrt_252 := f1; np_mean _ := f0; np_sum := fsum; np_std _ := f0;
  quantile _ _ := f0; monthly_returns _ _ := Ok []
|}.

Definition demo_now : datetime := DT 2026 3 1 0 0 0 0.

Definition demo_report : res BacktestResult := report demo_frames demo_now false (f_of_Z 10000) [] [] demo_state.

Lemma report_counts_witness : ∃ r, demo_report = Ok r ∧ total_trades r = 1 ∧ winning_trades r + losing_trades r = 1.
Proof.
  eexists. split; [vm_compute; reflexivity|].
  destruct (report_counts_add_up demo_frames demo_now false (f_of_Z 10000) [] [] demo_state _ ltac:(vm_compute; reflexivity))
    as (Ht & Hwl & _).
  split; [exact Ht|exact Hwl].
Defined.

(** A strategy that trades the demo rows; the choices differ in size. *)
Definition demo_choices : list vdict := [[("size", VFloat f1)]; [("size", VFloat (flit 2 1))]].
Definition demo_search : res (vdict * float) :=
  search demo_frames demo_now default_commission default_slippage default_margin (λ x, x) (λ _, demo_strategy) demo_data
    demo_choices [] worst_sharpe.

Lemma search_witness :
  ∃ best sharpe, demo_search = Ok (best, sharpe) ∧
    ∀ p x, In p demo_choices →
      (∃ r, run demo_frames demo_now default_commission default_slippage default_margin (λ x, x) (λ _, demo_strategy) demo_data p = Ok r ∧
            sharpe_ratio r = x) → flt sharpe x = false.
Proof.
  eexists _, _. split; [vm_compute; reflexivity|].
  refine (proj2 (search_finds_the_first_best demo_frames demo_now default_commission default_slippage default_margin (λ x, x)
    (λ _, demo_strategy) demo_data demo_choices _ _ _)).
  vm_compute. reflexivity.
Defined.

(** Years of 365 days, counted in the day field. *)
Definition demo_years (n : Z) (d : datetime) : datetime :=
  DT (dt_year d) (dt_month d) (dt_day d + 365 * n) (dt_hour d) (dt_minute d) (dt_second d) (dt_micro d).

Lemma walk_forward_route_witness :
  walk_forward_route demo_years demo_months (λ _ _, Raise (RuntimeError "")) 5 [DT 2026 2 1 0 0 0 0; DT 2026 2 2 0 0 0 0] =
    Some (Ok [("segments", VInt 0)]).
Proof.
  refine (walk_forward_route_runs_nothing demo_years demo_months (λ _ _, Raise (RuntimeError "")) _ 5
    [DT 2026 2 1 0 0 0 0; DT 2026 2 2 0 0 0 0] (DT 2026 2 1 0 0 0 0) _ _).
  - intros n d Hn. unfold demo_years, to_us, toordinal, day_us. cbn [dt_year dt_month dt_day dt_hour dt_minute dt_second dt_micro]. lia.
  - lia.
  - repeat constructor; vm_compute; discriminate.
Defined.

(** A run whose only trade came out at exactly zero. *)
Definition even_trade : Trade :=
  {| t_entry_time := DT 2026 2 1 0 0 0 0; t_exit_time := DT 2026 2 2 0 0 0 0; t_side := "buy"; t_entry := f1; t_exit := f1;
     t_qty := f1; pnl := f0; commission := f0 |}.

Lemma zero_losses_witness :
  report demo_frames demo_now false (f_of_Z 10000) [] []
    {| equity := f_of_Z 10000; equity_curve := [f_of_Z 10000]; trades := [even_trade]; position := None |} = Raise ZeroDivisionError.
Proof. apply zero_losses_break_the_report; vm_compute; reflexivity. Defined.
