(* ===== verification/Mt5Codes.v ===== *)
(** * The connector's answers against the protocol's result codes, and its price
      queries (trading_service/src/connectors/mt5.py)

    MetaTrader's documented result codes next to the sets of codes the connector
    takes for success, and [get_ticks] and [get_rates] over the arrays the module
    answers. *)

From Stdlib Require Import ZArith Lia Bool List Ascii String.
From stdpp Require Import base decidable list option strings.
From S2P Require Import Prelude PyFloat PyStr PyDateTime PyMonad PyDict PyVal Mt5.
Open Scope string_scope.
Open Scope Z_scope.
Open Scope py_scope.

(** ** Documented result codes

    The trade server's return codes: a request is carried out with 10008 (order
    placed), 10009 (done) and 10010 (done partially).  The others refuse it: among
    them 10011 (error), 10012 (timeout), 10013 (invalid request), 10014 (invalid
    volume), 10015 (invalid price), 10018 (market closed) and 10019 (no money). *)
Definition protocol_done : list Z := [10008; 10009; 10010].

(** Codes the connector calls a success that are none. *)
Definition mistaken_codes (ok_codes : list Z) : list Z := List.filter (λ n, negb (Zmem n protocol_done)) ok_codes.

Lemma mistaken_is_success ok_codes n : In n (mistaken_codes ok_codes) → Zmem n ok_codes = true.
Proof.
  unfold mistaken_codes. rewrite filter_In. intros [Hin _]. unfold Zmem. apply existsb_exists.
  exists n. split; [done|apply Z.eqb_refl].
Qed.

Section Answers.
Context {W : Type} (t : Terminal W).

Definition code_result (n : Z) (d : vdict) : SendResult := {| sr_retcode := Some (VInt n); sr_asdict := Some d |}.

(** The connector's notion of success is not the protocol's.  Of the codes with
    which [execute_order] answers [ok], five are refusals: when the server refuses an
    order with an error, a timeout, an invalid request, a closed market or a lack of
    money, the answer is [{"ok": True}].  Conversely a cancellation or a close that
    the server carries out (code 10009) is answered as failed. *)
Theorem answers_contradict_the_protocol :
  mistaken_codes success_codes = [10011; 10012; 10013; 10018; 10019] ∧
  (∀ n d k client_id req c w w1,
     In n (mistaken_codes success_codes) → vget d "order" = VInt k → k ≠ 0 →
     order_send t req w = (Ok (Some (code_result n d)), w1) →
     ∃ reply s, send_request client_id t req (c, w) = (Ok reply, s) ∧ vget reply "ok" = VBool true ∧
                vget reply "retcode" = VInt n) ∧
  (∀ d oid c w w1,
     order_send t [("action", VInt (TRADE_ACTION_REMOVE t)); ("order", VInt oid)] w = (Ok (Some (code_result 10009 d)), w1) →
     mt5_cancel_order (Some t) (VInt oid) (c, w) = (Ok false, (c, w1))) ∧
  (∀ d, ∃ reply, reply_of [10013; 10012] (code_result 10009 d) = Ok reply ∧ vget reply "ok" = VBool false).
Proof.
  split; [vm_compute; reflexivity|]. split; [|split].
  - intros n d k client_id req c w w1 Hn Hk Hk0 Hsend. unfold send_request.
    rewrite (bind_ok _ _ _ _ _ (zoom_r_run _ c _ _ _ Hsend)).
    change (result_retcode (code_result n d)) with (py_int (py_or (VInt n) (VInt 0))).
    assert (Hrc : py_int (py_or (VInt n) (VInt 0)) = Ok n).
    { unfold py_or, truthy. destruct (Z.eqb_spec n 0); subst; [reflexivity|done]. }
    rewrite Hrc. unfold lift_res, mbind, M_bind, code_result. cbn [sr_asdict from_option id]. rewrite Hk.
    unfold py_or at 1, truthy at 1. rewrite (proj2 (Z.eqb_neq k 0) Hk0). cbn [negb py_int].
    rewrite (mistaken_is_success _ _ Hn). destruct (negb (String.eqb client_id "") && negb (k =? 0)); eexists _, _; (split; [reflexivity|done]).
  - intros d oid c w w1 Hsend. unfold mt5_cancel_order, need_mt5.
    unfold mbind, M_bind, mret, M_ret, lift_res. cbn [py_int]. by rewrite (zoom_r_run _ c _ _ _ Hsend).
  - intros d. eexists. split; [reflexivity|]. reflexivity.
Qed.
End Answers.

(** ** Price queries

    The module answers [None] or a numpy array of rows.  [array_truth] is [bool(a)];
    a row has the method [item] ([numpy.void]), or is turned into a dictionary. *)

Record Arrays (A R : Type) := {
  array_truth : A → res bool;
  array_rows : A → list R;
  row_item : R → option pyval;      (* d.item(), where d has it *)
  row_dict : R → vdict              (* {k: v.item() or v ...} *)
}.
Arguments array_truth {A R}. Arguments array_rows {A R}. Arguments row_item {A R}. Arguments row_dict {A R}.

Section History.
Context {A R W : Type} (N : Arrays A R).
(** [copy_ticks_range], [copy_ticks_from], [copy_rates_range] and [copy_rates_from]. *)
Context (copy_ticks_range : pyval → datetime → datetime → M W (option A))
        (copy_ticks_from : pyval → datetime → Z → M W (option A))
        (copy_rates_range : pyval → Z → datetime → datetime → M W (option A))
        (copy_rates_from : pyval → Z → datetime → Z → M W (option A)).

Definition convert_row (d : R) : pyval := match row_item N d with Some v => v | None => VDict (row_dict N d) end.

(** [[... for d in (data or [])]]. *)
Definition convert_rows (data : option A) : res (list pyval) :=
  match data with
  | None => Ok []
  | Some a => b ← array_truth N a; mret (if b : bool then List.map convert_row (array_rows N a) else [])
  end.

Definition get_ticks (symbol : pyval) (from_date : datetime) (to_date : option datetime) (count : Z) : M W (list pyval) :=
  data ← match to_date with
         | Some d => copy_ticks_range symbol from_date d
         | None => copy_ticks_from symbol from_date count
         end;
  lift_res (convert_rows data).

Definition get_rates (symbol : pyval) (timeframe : Z) (from_date : datetime) (to_date : option datetime) (count : Z) :
    M W (list pyval) :=
  data ← match to_date with
         | Some d => copy_rates_range symbol timeframe from_date d
         | None => copy_rates_from symbol timeframe from_date count
         end;
  lift_res (convert_rows data).

(** numpy's rule: an array of more than one element has no truth value. *)
Definition numpy_truth : Prop := ∀ a, (1 < length (array_rows N a))%nat →
  array_truth N a = Raise (ValueError "The truth value of an array with more than one element is ambiguous").

(** A query that finds more than one tick raises: [data or []] asks the array for its
    truth value. *)
Theorem several_ticks_raise symbol from_date count w a w1 :
  numpy_truth → copy_ticks_from symbol from_date count w = (Ok (Some a), w1) → (1 < length (array_rows N a))%nat →
  get_ticks symbol from_date None count w =
    (Raise (ValueError "The truth value of an array with more than one element is ambiguous"), w1).
Proof.
  intros Hn Hq Ha. unfold get_ticks. rewrite (bind_ok _ _ _ _ _ Hq). unfold lift_res, convert_rows. by rewrite (Hn a Ha).
Qed.
End History.

(** ** Witnesses *)

Lemma answers_witness :
  ∃ reply s, send_request "abc" (demo_terminal true 10019) [] (initial_conn, []) = (Ok reply, s) ∧
    vget reply "ok" = VBool true ∧ vget reply "retcode" = VInt 10019.
Proof.
  exact (proj1 (proj2 (answers_contradict_the_protocol (demo_terminal true 10019)))
    10019 [("retcode", VInt 10019); ("order", VInt 1)] 1 "abc" [] initial_conn [] [[]]
    ltac:(vm_compute; tauto) eq_refl ltac:(discriminate) eq_refl).
Defined.

Definition demo_arrays : Arrays (list Z) Z := {|
  array_truth a := match a with
                   | [] => Ok false
                   | [x] => Ok true
                   | _ => Raise (ValueError "The truth value of an array with more than one element is ambiguous")
                   end;
  array_rows a := a; row_item n := Some (VInt n); row_dict _ := [] |}.

Lemma several_ticks_witness :
  get_ticks (W := unit) demo_arrays (λ _ _ _, mret None) (λ _ _ _, mret (Some [1; 2])) (VStr "EURUSD") (DT 2026 2 12 0 0 0 0) None 10 tt =
    (Raise (ValueError "The truth value of an array with more than one element is ambiguous"), tt).
Proof.
  apply (several_ticks_raise (W := unit) demo_arrays (λ _ _ _, mret None) (λ _ _ _, mret (Some [1; 2])) _ _ _ _ [1; 2]).
  - intros [|x [|y l]] Hl; simpl in Hl; try lia. reflexivity.
  - reflexivity.
  - simpl. lia.
Defined.
