(* ===== verification/Scripts.v ===== *)
(** * Start-up and operational scripts (app/main.py, scripts/validate_mt5_demo.py,
      scripts/paper_trading_burnin.py, scripts/analyze_load_results.py,
      scripts/build_load_report.py)

    The gateway's start-up checks; the script that tries the connector (Mt5.v)
    against a demo account; the burn-in; the two scripts over the load test's files. *)

From Stdlib Require Import ZArith Lia Bool List Ascii String.
From stdpp Require Import base decidable list option strings.
From S2P Require Import Prelude PyFloat PyStr PyDateTime PyMonad PyDict PyVal Mt5 Mt5Codes.
Open Scope string_scope.
Open Scope Z_scope.
Open Scope py_scope.

(** ** app/main.py *)

Definition REQUIRED_ENV_VARS : list string :=
  ["DATABASE_URL"; "REDIS_URL"; "JWT_PRIVATE_KEY"; "JWT_PUBLIC_KEY"; "ENCRYPTION_MASTER_KEY"].

Section Lifespan.
Context {W : Type} (getenv : string → option string) (ping : M W bool) (close_ : M W unit) (create_all : M W unit).

Definition require_var (k : string) : M W unit :=
  match getenv k with
  | None | Some EmptyString => raise (RuntimeError ("FATAL: required environment variable missing: " ++ k)%string)
  | Some _ => mret tt
  end.

(** [lifespan] up to its [yield]. *)
Definition lifespan : M W unit :=
  for_each require_var REQUIRED_ENV_VARS ;;
  on_exit (pong ← ping; when (negb pong) (raise (RuntimeError "FATAL: redis ping failed"))) close_ close_ ;;
  create_all.
End Lifespan.

(** ** scripts/validate_mt5_demo.py *)

Section Demo.
Context `{PyRepr} {W : Type} (mt5 : option (Terminal W)) (time : M W float) (utcnow : M W datetime).

Abbreviation step A := (M (ConnState * W) A).

(** [expect_ok(name, coro)]: the names of the failures; a dictionary without [ok]
    counts as fine. *)
Definition expect_ok {A} (bad : A → bool) (name : string) (coro : step A) (failures : list string) : step (list string) :=
  try_except (res ← coro; mret (if bad res then (failures ++ [name])%list else failures))
             (λ _, mret (failures ++ [name])%list).

Definition not_ok (res : vdict) : bool := negb (truthy (vget_or res "ok" (VBool true))).
Definition never {A} (_ : A) : bool := false.

Definition demo_order (type_ client_id side : string) (rest : vdict) : vdict :=
  ([("symbol", VStr "EURUSD"); ("volume", VFloat (flit 1 100)); ("side", VStr side); ("type", VStr type_)]
   ++ rest ++ [("client_order_id", VStr client_id)])%list.

(** [os.environ[...]] into [MT5Credentials]. *)
Definition demo_credentials (env : dict string string) : res MT5Credentials :=
  let need k := match dget env k with Some v => Ok v | None => Raise (KeyError k) end in
  a ← need "MT5_DEFAULT_ACCOUNT_ID"; n ← py_int (VStr a);
  p ← need "MT5_DEFAULT_PASSWORD"; s ← need "MT5_DEFAULT_SERVER";
  mret {| cred_account_id := n; password := p; server := s; path := dget env "MT5_TERMINAL_PATH" |}.

(** The orders, positions and refusals tried after a connection. *)
Definition try_orders (failures : list string) : step (list string) :=
  f ← expect_ok not_ok "market_buy" (mt5_execute_order mt5 (demo_order "MARKET" "demo-buy" "BUY" [])) failures;
  f ← expect_ok not_ok "market_sell" (mt5_execute_order mt5 (demo_order "MARKET" "demo-sell" "SELL" [])) f;
  f ← expect_ok not_ok "limit_order" (mt5_execute_order mt5 (demo_order "LIMIT" "demo-limit" "BUY"
        [("price", VFloat f1); ("stop_price", VFloat (flit 9 10)); ("limit_price", VFloat (flit 11 10))])) f;
  f ← expect_ok not_ok "stop_order" (mt5_execute_order mt5 (demo_order "STOP" "demo-stop" "BUY" [("price", VFloat (flit 11 10))])) f;
  expect_ok not_ok "stop_limit_order" (mt5_execute_order mt5 (demo_order "STOP_LIMIT" "demo-stop-limit" "BUY"
    [("price", VFloat (flit 11 10)); ("limit_price", VFloat (flit 12 10))])) f.

Definition try_changes (failures : list string) : step (list string) :=
  orders ← mt5_get_orders mt5 VNone;
  match orders with
  | [] => mret failures
  | o :: _ =>
      let oid := py_or (vget o "ticket") (vget o "order") in
      if truthy oid then
        f ← expect_ok not_ok "modify_order"
              (modify_order mt5 oid (vget_or o "price_open" (vget_or o "price_current" (VFloat f1))) VNone VNone VNone) failures;
        expect_ok never "cancel_order" (mt5_cancel_order mt5 oid) f
      else mret failures
  end.

Definition try_closing (failures : list string) : step (list string) :=
  positions ← mt5_get_positions mt5 VNone;
  f ← match positions with
      | [] => mret failures
      | p :: _ =>
          let pid := vget p "ticket" in
          if truthy pid then expect_ok not_ok "close_position" (close_position mt5 pid (VInt 10)) failures else mret failures
      end;
  expect_ok never "close_all_positions" (mt5_close_all_positions mt5 VNone) f.

Definition try_refusals (failures : list string) : step (list string) :=
  bad ← mt5_execute_order mt5 [("symbol", VStr "INVALIDSYM"); ("volume", VFloat (flit 1 100)); ("side", VStr "BUY");
                               ("type", VStr "MARKET"); ("client_order_id", VStr "bad-sym")];
  let f := if truthy (vget bad "ok") then (failures ++ ["invalid_symbol"])%list else failures in
  bad2 ← mt5_execute_order mt5 [("symbol", VStr "EURUSD"); ("volume", VInt 999999); ("side", VStr "BUY");
                                ("type", VStr "MARKET"); ("client_order_id", VStr "bad-vol")];
  mret (if truthy (vget bad2 "ok") then (f ++ ["invalid_volume"])%list else f).

(** [run(mode)]: the exit code. *)
Definition validate_demo (env : dict string string) (mode : string) : step Z :=
  creds ← lift_res (demo_credentials env);
  ok ← conn_connect mt5 creds default_config time utcnow;
  if negb ok then mret 1
  else
    f ← try_orders [];
    f ← try_changes f;
    f ← try_closing f;
    f ← try_refusals f;
    let f := if String.eqb mode "smoke" then f
             else (f ++ List.flat_map (λ kv, if String.eqb kv.2 "" then ["retcode_map"] else []) RETCODE_MAPPING)%list in
    disconnect mt5 ;;
    mret (match f with [] => 0 | _ => 1 end).
End Demo.

(** ** scripts/paper_trading_burnin.py *)

Record BurnIn := { signals : Z; simulated_orders : Z; connection_events : list (string * datetime); errors : Z }.

Definition count_signal (r : BurnIn) : BurnIn :=
  {| signals := signals r + 1; simulated_orders := simulated_orders r + 1; connection_events := connection_events r; errors := errors r |}.
Definition count_error (r : BurnIn) : BurnIn :=
  {| signals := signals r; simulated_orders := simulated_orders r; connection_events := connection_events r; errors := errors r + 1 |}.
Definition add_event (e : string) (t : datetime) (r : BurnIn) : BurnIn :=
  {| signals := signals r; simulated_orders := simulated_orders r;
     connection_events := (connection_events r ++ [(e, t)])%list; errors := errors r |}.

Section BurnInLoop.
(** The connector's calls, the random generator and the clock, over a world. *)
Context {W : Type} (conn_disconnect : M W unit) (conn_reconnect : M W bool) (recent_ticks : string → M W (list pyval)).
Context (random : M W float) (choice_symbol : M W string) (utcnow : M W datetime) (sleep_1 : M W unit).

(** The body of [while datetime.utcnow() < end]. *)
Definition burnin_turn : M (BurnIn * W) unit :=
  try_except
    (r ← zoom_r random;
     (if flt r (flit 1 100) then
        zoom_r conn_disconnect ;;
        t ← zoom_r utcnow; modify (λ bw, (add_event "forced_disconnect" t bw.1, bw.2)) ;;
        _ ← zoom_r conn_reconnect;
        t ← zoom_r utcnow; modify (λ bw, (add_event "reconnected" t bw.1, bw.2))
      else mret tt) ;;
     symbol ← zoom_r choice_symbol;
     ticks ← zoom_r (recent_ticks symbol);
     (if match ticks with [] => false | _ => true end then modify (λ bw, (count_signal bw.1, bw.2)) else mret tt) ;;
     zoom_r sleep_1)
    (λ _, modify (λ bw, (count_error bw.1, bw.2)) ;; zoom_r sleep_1).

(** [while datetime.utcnow() < end]; [false] when the fuel ran out. *)
Fixpoint burnin_loop (fuel : nat) (end_ : datetime) : M (BurnIn * W) bool :=
  match fuel with
  | O => mret false
  | S n =>
      now ← zoom_r utcnow;
      if to_us now <? to_us end_ then burnin_turn ;; burnin_loop n end_ else mret true
  end.

Definition SYMBOLS : list string :=
  ["EURUSD"; "GBPUSD"; "USDJPY"; "AUDUSD"; "USDCAD"; "USDCHF"; "NZDUSD"; "EURJPY"; "GBPJPY"; "EURGBP"].

(** [main], with [day_later] its [+ timedelta(hours=24)]; the report is what is
    written to the file. *)
Definition burnin_main (conn_connect : M W bool) (subscribe : list string → M W (list (string * bool)))
    (day_later : datetime → datetime) (fuel : nat) : M (BurnIn * W) bool :=
  _ ← zoom_r conn_connect;
  _ ← zoom_r (subscribe SYMBOLS);
  start ← zoom_r utcnow;
  done_ ← burnin_loop fuel (day_later start);
  zoom_r conn_disconnect ;;
  mret done_.
End BurnInLoop.

(** ** The load test's files *)

(** [analyze_load_results.main] on the files' contents. *)
Fixpoint analyze_load_results (files : list (string * string)) : res unit :=
  match files with
  | [] => Ok tt
  | (f, content) :: rest =>
      if String.eqb (str_strip content) "" then Raise (RuntimeError ("empty result file " ++ f)%string)
      else analyze_load_results rest
  end.

(** The two scripts as they are started: a script takes two files. *)
Definition started {A} (argv : list string) (main : string → string → res A) : res A :=
  match argv with
  | [_; a; b] => main a b
  | _ => Raise (ExternalError "SystemExit" "1")
  end.

(** [html.escape(s)]. *)
Definition escape_char (c : ascii) : string :=
  if Ascii.eqb c "&" then "&amp;" else if Ascii.eqb c "<" then "&lt;" else if Ascii.eqb c ">" then "&gt;"
  else if Ascii.eqb c (ascii_of_nat 34) then "&quot;" else if Ascii.eqb c "'" then "&#x27;" else String c EmptyString.
Fixpoint html_escape (s : string) : string :=
  match s with EmptyString => EmptyString | String c r => (escape_char c ++ html_escape r)%string end.

(** What [build_load_report.main] writes. *)
Definition build_load_report (ws orders : string) : string :=
  ("<html><body><h1>Load Test Report</h1>" ++
   "<h2>WebSocket</h2><pre>" ++ html_escape (str_take (Z.to_nat 20000) ws) ++ "</pre>" ++
   "<h2>Orders</h2><pre>" ++ html_escape (str_take (Z.to_nat 20000) orders) ++ "</pre>" ++
   "</body></html>")%string.

(** ** Start-up *)

Section LifespanTheorem.
Context {W : Type} (getenv : string → option string) (ping : M W bool) (close_ : M W unit) (create_all : M W unit).

Definition is_set (k : string) : Prop := ∃ v, getenv k = Some v ∧ v ≠ "".

Lemma require_var_run k w :
  (is_set k ∧ require_var (W := W) getenv k w = (Ok tt, w)) ∨
  (¬ is_set k ∧ require_var (W := W) getenv k w = (Raise (RuntimeError ("FATAL: required environment variable missing: " ++ k)%string), w)).
Proof.
  unfold require_var, is_set. destruct (getenv k) as [[|c v]|].
  - right. split; [by intros (v & [= <-] & ?)|done].
  - left. split; [by eexists|done].
  - right. split; [by intros (v & [=] & ?)|done].
Qed.

Lemma require_all_run ks w :
  (Forall is_set ks ∧ for_each (require_var (W := W) getenv) ks w = (Ok tt, w)) ∨
  (∃ k, In k ks ∧ ¬ is_set k ∧ for_each (require_var (W := W) getenv) ks w =
    (Raise (RuntimeError ("FATAL: required environment variable missing: " ++ k)%string), w)).
Proof.
  induction ks as [|k ks IH]; simpl; [by left|].
  destruct (require_var_run k w) as [[Hk Hr]|[Hk Hr]].
  - destruct IH as [[Hall Hrest]|(k' & Hin & Hk' & Hrest)].
    + left. split; [by constructor|]. by rewrite (bind_ok _ _ _ _ _ Hr).
    + right. exists k'. split; [by right|]. split; [done|]. by rewrite (bind_ok _ _ _ _ _ Hr).
  - right. exists k. split; [by left|]. split; [done|]. by rewrite (bind_raise _ _ _ _ _ Hr).
Qed.

(** The gateway starts only with its secrets and its Redis: when a required
    variable is missing or empty, start-up ends with an error that names one such
    variable, before anything else is touched; when start-up succeeds, all five were
    set, Redis answered the ping, its connection was closed and then the tables were
    created; and the connection is closed when the ping fails or raises too. *)
Theorem startup_is_guarded w :
  (Forall is_set REQUIRED_ENV_VARS ∨
   ∃ k, In k REQUIRED_ENV_VARS ∧ ¬ is_set k ∧ lifespan getenv ping close_ create_all w =
     (Raise (RuntimeError ("FATAL: required environment variable missing: " ++ k)%string), w)) ∧
  (∀ w', lifespan getenv ping close_ create_all w = (Ok tt, w') →
     Forall is_set REQUIRED_ENV_VARS ∧
     ∃ w1 w2, ping w = (Ok true, w1) ∧ close_ w1 = (Ok tt, w2) ∧ create_all w2 = (Ok tt, w')) ∧
  (∀ r w1 w2, Forall is_set REQUIRED_ENV_VARS → ping w = (r, w1) → r ≠ Ok true → close_ w1 = (Ok tt, w2) →
     (lifespan getenv ping close_ create_all w).2 = w2).
Proof.
  unfold lifespan. destruct (require_all_run REQUIRED_ENV_VARS w) as [[Hall Hr]|(k & Hin & Hk & Hr)].
  - split; [by left|]. rewrite (bind_ok _ _ _ _ _ Hr). split.
    + intros w' Hrun. split; [done|]. peel Hrun as u w2 H2. unfold on_exit, mbind at 1, M_bind at 1 in H2.
      destruct (ping w) as [[[|]|e] w1]; simpl in H2.
      * exists w1, w2. split; [done|]. unfold mbind, M_bind in H2. destruct (close_ w1) as [[[]|] w3]; [|done].
        injection H2 as _ ->. by destruct u.
      * unfold mbind, M_bind in H2. by destruct (close_ w1) as [[[]|] w3].
      * unfold mbind, M_bind in H2. by destruct (close_ w1) as [[[]|] w3].
    + intros r w1 w2 _ Hping Hne Hclose. unfold on_exit, mbind, M_bind. rewrite Hping.
      destruct r as [[|]|e]; [done| |]; simpl; by rewrite Hclose.
  - split; [right; exists k; split; [done|]; split; [done|]; by rewrite (bind_raise _ _ _ _ _ Hr)|].
    split; [intros w'; by rewrite (bind_raise _ _ _ _ _ Hr)|].
    intros r w1 w2 Hall. rewrite List.Forall_forall in Hall. by destruct (Hk (Hall k Hin)).
Qed.
End LifespanTheorem.

(** ** The demo script and the protocol *)

(** A server that knows EURUSD, has one open position and answers every request with
    one code. *)
Definition demo_position : Position := {| pos_symbol := VStr "EURUSD"; pos_type := 0; pos_volume := VFloat (flit 1 10);
  ticket := VInt 77; pos_asdict := [("ticket", VInt 77); ("symbol", VStr "EURUSD")] |}.

Definition is_text (v : pyval) (s : string) : bool := match v with VStr t => String.eqb t s | _ => false end.

Definition one_code_server (code : Z) : Terminal (list vdict) := {|
  initialize _ _ := mret true; login _ _ _ := mret true; shutdown := mret tt;
  last_error := mret "(1, 'Success')"; terminal_info := mret true; symbol_select _ _ := mret true;
  symbol_info s := mret (if is_text s "EURUSD" then Some demo_info else None);
  symbol_info_tick _ := mret (Some {| ask := flit 11 10; bid := flit 1099 1000 |});
  order_calc_margin _ _ _ _ := mret (Some (flit 50 1));
  terminal_account_info := mret (Some [("balance", VFloat (flit 10000 1)); ("margin_free", VFloat (flit 9000 1))]);
  order_send req := λ log, (Ok (Some {| sr_retcode := Some (VInt code);
      sr_asdict := Some [("retcode", VInt code); ("order", VInt (1 + Z.of_nat (length log)))] |}), (log ++ [req])%list);
  positions_get _ _ := mret (Some [demo_position]); orders_get _ := mret None;
  TRADE_ACTION_DEAL := 1; TRADE_ACTION_PENDING := 5; TRADE_ACTION_MODIFY := 7; TRADE_ACTION_REMOVE := 8;
  ORDER_TYPE_BUY := 0; ORDER_TYPE_SELL := 1; POSITION_TYPE_BUY := 0;
  ORDER_TIME_GTC := 0; ORDER_FILLING_RETURN := 2; ORDER_FILLING_IOC := 1;
  SYMBOL_TRADE_MODE_DISABLED := Some 0; SYMBOL_TRADE_MODE_CLOSEONLY := Some 3
|}.

Definition demo_env : dict string string :=
  [("MT5_DEFAULT_ACCOUNT_ID", "12345"); ("MT5_DEFAULT_PASSWORD", "x"); ("MT5_DEFAULT_SERVER", "demo")].

Definition demo_validation (code : Z) (mode : string) : res Z :=
  (validate_demo (H := mt5_repr) (Some (one_code_server code)) (mret f1) (mret (DT 2026 2 12 9 0 0 0)) demo_env mode
     (initial_conn, [])).1.

(** The demo script passes on a broken server and fails on a working one.  With a
    server that carries out every valid request (code 10009) and has a position open,
    [validate_mt5_demo.py] exits with 1, in both modes, because closing the position
    is taken for a failure; with the same server refusing every request as invalid
    (code 10013) it exits with 0. *)
Theorem demo_script_prefers_refusals :
  demo_validation 10009 "smoke" = Ok 1 ∧ demo_validation 10009 "full" = Ok 1 ∧
  demo_validation 10013 "smoke" = Ok 0 ∧ demo_validation 10013 "full" = Ok 0.
Proof. repeat split; vm_compute; reflexivity. Qed.

(** ** The burn-in's report *)

Section BurnInTheorem.
Context {W : Type} (conn_disconnect : M W unit) (conn_reconnect : M W bool) (recent_ticks : string → M W (list pyval)).
Context (random : M W float) (choice_symbol : M W string) (utcnow : M W datetime) (sleep_1 : M W unit).

Definition as_many_orders (bw : BurnIn * W) : Prop := signals bw.1 = simulated_orders bw.1.

(** The report counts as many simulated orders as signals, whatever fails. *)
Theorem burnin_orders_are_signals :
  preserves as_many_orders
    (burnin_turn conn_disconnect conn_reconnect recent_ticks random choice_symbol utcnow sleep_1).
Proof.
  assert (Hz : ∀ A (m : M W A), preserves as_many_orders (zoom_r m))
    by (intros A m [b w]; unfold as_many_orders; simpl; by destruct (m w)).
  assert (Hm : ∀ f, (∀ b, signals (f b) = simulated_orders (f b) ↔ signals b = simulated_orders b) →
                 preserves as_many_orders (modify (λ bw : BurnIn * W, (f bw.1, bw.2))))
    by (intros f Hf [b w] Hb; unfold as_many_orders in *; simpl in *; by apply Hf).
  unfold burnin_turn. apply preserves_try.
  - solve_pres; try apply Hz; apply Hm; intros b; simpl; lia.
  - intros e. solve_pres; try apply Hz; apply Hm; intros b; simpl; lia.
Qed.

(** *** The loop ends

    [clock] is the time of the world in microseconds.  Calls take time, a sleep takes
    its second and returns, nothing is cancelled. *)
Definition takes_time {A} (clock : W → Z) (m : M W A) : Prop :=
  ∀ w, clock w <= clock (m w).2 ∧ ∀ e w', m w = (Raise e, w') → is_Exception e = true.

Context (clock : W → Z).
Context (disconnect_time : takes_time clock conn_disconnect) (reconnect_time : takes_time clock conn_reconnect)
  (ticks_time : ∀ s, takes_time clock (recent_ticks s)) (random_time : takes_time clock random)
  (choice_time : takes_time clock choice_symbol).
Context (clock_reads : ∀ w, ∃ d w', utcnow w = (Ok d, w') ∧ clock w <= to_us d ∧ clock w <= clock w').
Context (sleeps : ∀ w, ∃ w', sleep_1 w = (Ok tt, w') ∧ clock w + 1000000 <= clock w').

(** A call of the turn that lets [n] microseconds pass when it returns, and none back. *)
Definition passes {A} (n : Z) (m : M (BurnIn * W) A) : Prop :=
  ∀ bw, (∀ a bw', m bw = (Ok a, bw') → clock bw.2 + n <= clock bw'.2) ∧
        (∀ e bw', m bw = (Raise e, bw') → clock bw.2 <= clock bw'.2 ∧ is_Exception e = true).

Lemma passes_bind {A B} n (m : M (BurnIn * W) A) (f : A → M (BurnIn * W) B) :
  0 <= n → passes 0 m → (∀ a, passes n (f a)) → passes n (m ≫= f).
Proof.
  intros Hn Hm Hf bw. split.
  - intros b bw' Hr. apply bind_inv in Hr as [(a & bw1 & Ha & Hr)|(? & _ & [=])].
    pose proof (proj1 (Hm bw) _ _ Ha). pose proof (proj1 (Hf a bw1) _ _ Hr). lia.
  - intros e bw' Hr. apply bind_inv in Hr as [(a & bw1 & Ha & Hr)|(e' & Hr & [= <-])]; [|by apply (Hm bw)].
    pose proof (proj1 (Hm bw) _ _ Ha). destruct (proj2 (Hf a bw1) _ _ Hr) as [Hc He]. split; [lia|done].
Qed.

Lemma passes_zoom {A} (m : M W A) : takes_time clock m → passes 0 (zoom_r m).
Proof.
  intros Hm [b w]. destruct (Hm w) as [Ht He]. simpl. destruct (m w) as [[a|e] w1]; simpl in *; split.
  - intros ? ? [= <- <-]. simpl. lia.
  - intros ? ? [=].
  - intros ? ? [=].
  - intros ? ? [= <- <-]. split; [done|by eapply He].
Qed.

Lemma passes_modify f : passes 0 (modify (λ bw : BurnIn * W, (f bw.1, bw.2))).
Proof. intros [b w]. split; [intros ? ? [= _ <-]; simpl; lia|intros ? ? [=]]. Qed.
Lemma passes_ret {A} (a : A) : passes 0 (mret a).
Proof. intros bw. split; [intros ? ? [= _ <-]; lia|intros ? ? [=]]. Qed.
Lemma passes_now : passes 0 (zoom_r utcnow).
Proof.
  apply passes_zoom. intros w. destruct (clock_reads w) as (d & w' & -> & _ & Hc). split; [done|]. intros ? ? [=].
Qed.
Lemma passes_sleep : passes 1000000 (zoom_r sleep_1).
Proof.
  intros [b w]. simpl. destruct (sleeps w) as (w' & -> & Hc). simpl. split; [intros ? ? [= _ <-]; done|intros ? ? [=]].
Qed.

Abbreviation turn := (burnin_turn conn_disconnect conn_reconnect recent_ticks random choice_symbol utcnow sleep_1).

Lemma turn_takes_a_second bw : ∃ bw', turn bw = (Ok tt, bw') ∧ clock bw.2 + 1000000 <= clock bw'.2.
Proof.
  unfold burnin_turn, try_except. match goal with |- context [match ?m bw with _ => _ end] => set (body := m) end.
  assert (Hbody : passes 1000000 body).
  { unfold body.
    repeat first
      [ apply passes_sleep | apply passes_now | apply passes_modify | apply passes_ret
      | by apply passes_zoom | apply passes_zoom, ticks_time
      | match goal with |- passes _ (if ?c then _ else _) => destruct c | |- passes _ (match ?l with [] => _ | _ => _ end) => destruct l end
      | apply passes_bind; [lia| |intros] ]. }
  destruct (Hbody bw) as [Hok Hraise]. destruct (body bw) as [[[]|e] bw1].
  - exists bw1. split; [done|]. by apply (Hok tt).
  - destruct (Hraise e bw1 eq_refl) as [Hc He]. rewrite He. destruct bw1 as [b1 w1]. simpl.
    destruct (sleeps w1) as (w2 & Hs & Hc2). exists (count_error b1, w2). split; [|simpl in *; lia].
    unfold mbind, M_bind. simpl. by rewrite Hs.
Qed.

(** The burn-in ends: with one turn of fuel for every second up to its end, and one
    more, the loop leaves, whatever the connector does. *)
Theorem burnin_ends fuel end_ bw :
  to_us end_ <= clock bw.2 + 1000000 * Z.of_nat fuel →
  ∃ bw', burnin_loop conn_disconnect conn_reconnect recent_ticks random choice_symbol utcnow sleep_1 (S fuel) end_ bw =
    (Ok true, bw').
Proof.
  revert bw. induction fuel as [|n IH]; intros [b w] Hf; cbn [burnin_loop]; cbn [snd] in Hf;
    destruct (clock_reads w) as (now & w1 & Hnow & Hd & Hc);
    rewrite (bind_ok _ _ _ _ _ (zoom_r_run _ b _ _ _ Hnow)); destruct (Z.ltb_spec (to_us now) (to_us end_)); try (by exists (b, w1)).
  - lia.
  - destruct (turn_takes_a_second (b, w1)) as (bw2 & Ht & Hc2). rewrite (bind_ok _ _ _ _ _ Ht). apply IH. cbn [snd] in *. lia.
Qed.
End BurnInTheorem.

(** ** The load report is plain text *)

Definition markup (c : ascii) : bool := Ascii.eqb c "<" || Ascii.eqb c ">" || Ascii.eqb c (ascii_of_nat 34) || Ascii.eqb c "'".

(** Nothing of a result file can end the [pre] element it is shown in, or open
    another: the escaped text has no bracket and no quote. *)
Theorem escaped_text_has_no_markup s : Forall (λ c, markup c = false) (list_ascii_of_string (html_escape s)).
Proof.
  induction s as [|c s IH]; [constructor|]. cbn [html_escape]. rewrite list_ascii_app. apply Forall_app. split; [|done].
  unfold escape_char. destruct (Ascii.eqb c "&"); [by repeat constructor|].
  destruct (Ascii.eqb c "<") eqn:E1; [by repeat constructor|].
  destruct (Ascii.eqb c ">") eqn:E2; [by repeat constructor|].
  destruct (Ascii.eqb c (ascii_of_nat 34)) eqn:E3; [by repeat constructor|].
  destruct (Ascii.eqb c "'") eqn:E4; [by repeat constructor|].
  constructor; [|constructor]. unfold markup. by rewrite E1, E2, E3, E4.
Qed.

(** ** Witnesses *)

Definition demo_getenv (k : string) : option string := if String.eqb k "REDIS_URL" then Some "redis://localhost" else Some "x".

Lemma startup_witness :
  lifespan (W := list string) demo_getenv (λ log, (Ok true, log ++ ["ping"])%list) (λ log, (Ok tt, log ++ ["close"])%list)
    (λ log, (Ok tt, log ++ ["create"])%list) [] = (Ok tt, ["ping"; "close"; "create"]) ∧
  Forall (is_set demo_getenv) REQUIRED_ENV_VARS.
Proof.
  split; [reflexivity|].
  exact (proj1 (proj1 (proj2 (startup_is_guarded demo_getenv (λ log, (Ok true, log ++ ["ping"])%list)
    (λ log, (Ok tt, log ++ ["close"])%list) (λ log, (Ok tt, log ++ ["create"])%list) []))
    ["ping"; "close"; "create"] eq_refl)).
Defined.
