(* ===== verification/Drift.v ===== *)
(** * The drift report (ml_service/src/registry/manager.py, [detect_drift])

    The population stability index of each feature and the expectancy test, over
    numpy's histogram and arithmetic as an interface. *)

From Stdlib Require Import ZArith Lia Bool List Ascii String.
From stdpp Require Import base decidable list option strings.
From S2P Require Import Prelude PyFloat PyStr PyDateTime PyMonad PyDict PyVal Registry.
Open Scope string_scope.
Open Scope Z_scope.
Open Scope py_scope.

(** [np.histogram_bin_edges(a, bins=10)], [np.histogram(a, bins)[0]], and
    [float(np.sum((c - r) * np.log(c / r)))] of two lists of shares. *)
Record Stats := {
  bin_edges : list float → list float;
  histogram : list float → list float → list Z;
  psi_sum : list float → list float → float;
  tail_mean : list float → float            (* .tail(100).mean() *)
}.

(** The recent data: its columns, a missing value as NaN. *)
Abbreviation Frame := (dict string (list float)).

(** [recent_data[f].dropna().values] where the column exists. *)
Definition column_values (data : Frame) (f : string) : list float :=
  match dget data f with Some c => List.filter (λ x, negb (is_nan x)) c | None => [] end.

Definition one_millionth : float := flit 1 1000000.

(** [np.clip(hist / max(hist.sum(), 1), 1e-6, None)]. *)
Definition shares (hist : list Z) : list float :=
  let total := f_of_Z (Z.max (fold_left Z.add hist 0) 1) in
  List.map (λ n, fmax (fdiv (f_of_Z n) total) one_millionth) hist.

(** [np.array(l, dtype=float)]. *)
Fixpoint float_array (l : list pyval) : res (list float) :=
  match l with [] => Ok [] | v :: r => x ← py_float v; xs ← float_array r; mret (x :: xs) end.

Definition take_Z {A} (n : Z) (l : list A) : list A := List.firstn (Z.to_nat n) l.

Section Drift.
Context (N : Stats).

Definition psi_of (ref curr : list float) : float :=
  let bins := bin_edges N (ref ++ curr)%list in
  psi_sum N (shares (histogram N ref bins)) (shares (histogram N curr bins)).

(** [baseline.get(f, curr[:min(500, len(curr))])]: what was recorded for the feature,
    or a part of the recent data itself. *)
Definition reference (baseline : pyval) (f : string) (curr : list float) : res (list float) :=
  match baseline with
  | VDict d =>
      match dget d f with
      | Some (VList l) => float_array l
      | Some _ => Raise (ValueError "zero-dimensional arrays cannot be concatenated")
      | None => Ok (take_Z (Z.min 500 (Z.of_nat (length curr))) curr)
      end
  | _ => Raise (AttributeError "get")
  end.

Record DriftReport := { psi : dict string float; feature_drift : dict string bool; concept_drift : bool }.

Fixpoint feature_loop (data : Frame) (baseline : pyval) (fs : list string) (r : dict string float * dict string bool) :
    res (dict string float * dict string bool) :=
  match fs with
  | [] => Ok r
  | f :: rest =>
      match column_values data f with
      | [] => feature_loop data baseline rest r
      | curr =>
          ref ← reference baseline f curr;
          let x := psi_of ref curr in
          feature_loop data baseline rest (dset r.1 f x, dset r.2 f (flt (flit 1 5) x))
      end
  end.

(** The model's feature names: a name that is not a text names no column. *)
Definition feature_names (m : Model) : res (list string) :=
  match features m with
  | VList l => Ok (omap (λ v, match v with VStr s => Some s | _ => None end) l)
  | _ => Raise (TypeError "features is not iterable")
  end.

Definition feature_baseline (m : Model) : pyval := vget_or (metrics m) "feature_baseline" (VDict []).

Definition drift_report (m : Model) (data : Frame) : res DriftReport :=
  let baseline := feature_baseline m in
  fs ← feature_names m;
  '(p, d) ← feature_loop data baseline fs ([], []);
  let rolling := match dget data "strategy_pnl" with Some l => tail_mean N l | None => f0 end in
  expect ← py_float (vget_or (metrics m) "expectancy" (VInt 0));
  mret {| psi := p; feature_drift := d; concept_drift := flt rolling (fmul expect (flit 1 2)) |}.

Definition detect_drift (r : ModelRegistry) (mid : string) (data : Frame) : res DriftReport :=
  match dget (models r) mid with
  | None => Raise (ValueError "model not found")
  | Some m => drift_report m data
  end.

(** ** What the report says *)

(** The features a report covers: those the recent data has values of. *)
Definition covered (data : Frame) (f : string) : bool :=
  match column_values data f with _ :: _ => true | [] => false end.

Lemma feature_loop_spec data baseline fs r p d :
  (∀ f, dget r.2 f = option_map (flt (flit 1 5)) (dget r.1 f)) →
  feature_loop data baseline fs r = Ok (p, d) →
  (∀ f, dget d f = option_map (flt (flit 1 5)) (dget p f)) ∧
  (∀ f, is_Some (dget p f) ↔ is_Some (dget r.1 f) ∨ (In f fs ∧ covered data f = true)) ∧
  (∀ f x, dget p f = Some x → dget r.1 f = Some x ∨
     ∃ ref, reference baseline f (column_values data f) = Ok ref ∧ x = psi_of ref (column_values data f)).
Proof.
  revert r. induction fs as [|g fs IH]; intros r Hinv Hr; simpl in Hr.
  - injection Hr as Hr. subst r. split; [done|]. split; [|by left].
    intros f. split; [by left|by intros [?|[[] _]]].
  - assert (Hskip : covered data g = false → feature_loop data baseline fs r = Ok (p, d) →
      (∀ f, dget d f = option_map (flt (flit 1 5)) (dget p f)) ∧
      (∀ f, is_Some (dget p f) ↔ is_Some (dget r.1 f) ∨ (In f (g :: fs) ∧ covered data f = true)) ∧
      (∀ f x, dget p f = Some x → dget r.1 f = Some x ∨
         ∃ ref, reference baseline f (column_values data f) = Ok ref ∧ x = psi_of ref (column_values data f))).
    { intros Hc Hrun. destruct (IH r Hinv Hrun) as (H1 & H2 & H3). split; [done|]. split; [|done].
      intros f. rewrite H2. split; [intros [?|[? ?]]; [by left|right; split; [by right|done]]|].
      intros [?|[[<-|Hin] Hf]]; [by left|congruence|by right]. }
    unfold covered in Hskip. destruct (column_values data g) as [|c0 curr] eqn:Eg; [by apply Hskip|].
    clear Hskip. destruct (reference baseline g (c0 :: curr)) as [ref|] eqn:Eref; [|done]. cbn [mbind res_bind] in Hr.
    apply IH in Hr as (H1 & H2 & H3).
    2:{ intros f. simpl. rewrite !dget_dset. case_decide; [done|apply Hinv]. }
    split; [done|]. split.
    + intros f. rewrite H2. simpl. rewrite dget_dset. unfold covered. case_decide as E.
      * subst. rewrite Eg. split; [intros _; right; split; [by left|done]|intros _; left; eauto].
      * split; (intros [?|[Hin ?]]; [by left|right; split; [|done]]); [by right|]. by destruct Hin as [->|].
    + intros f x Hx. destruct (H3 f x Hx) as [Hd|He]; [|by right]. simpl in Hd. rewrite dget_dset in Hd.
      case_decide as E; [|by left]. injection Hd as <-. right. subst f. rewrite Eg. by exists ref.
Qed.

(** What a drift report is about.  It covers exactly the model's features that the
    recent data has values of; the index of each compares the recent values with the
    recorded baseline, or, where none was recorded, with the first five hundred of the
    recent values themselves; a feature is said to drift exactly when its index is
    above 0.2; and an unknown model is refused. *)
Theorem drift_report_covers r mid data rep :
  detect_drift r mid data = Ok rep →
  ∃ m fs, dget (models r) mid = Some m ∧ feature_names m = Ok fs ∧
  (∀ f, is_Some (dget (psi rep) f) ↔ In f fs ∧ covered data f = true) ∧
  (∀ f, dget (feature_drift rep) f = option_map (flt (flit 1 5)) (dget (psi rep) f)) ∧
  (∀ f x, dget (psi rep) f = Some x →
     ∃ ref, reference (feature_baseline m) f (column_values data f) = Ok ref ∧ x = psi_of ref (column_values data f)).
Proof.
  unfold detect_drift. intros Hr. destruct (dget (models r) mid) as [m|]; [|done].
  unfold drift_report in Hr. cbv zeta in Hr. destruct (feature_names m) as [fs|] eqn:Hfs; [|done]. cbn [mbind res_bind] in Hr.
  exists m, fs. split; [done|]. split; [done|].
  destruct (feature_loop _ _ _ _) as [[p d]|] eqn:El; [|done]. cbn [mbind res_bind] in Hr.
  destruct (py_float _) as [e|]; [|done]. injection Hr as <-.
  apply feature_loop_spec in El as (H1 & H2 & H3); [|done]. cbn. split; [|split; [done|]].
  - intros f. rewrite H2. cbn. split; [intros [[? [=]]|?]; done|by right].
  - intros f x Hx. destruct (H3 f x Hx) as [[=]|(ref & ? & ->)]. by exists ref.
Qed.
End Drift.

(** ** Witness *)

Definition demo_stats : Stats :=
  {| bin_edges l := l; histogram l _ := [Z.of_nat (length l)]; psi_sum a b := fsub (fsum a) (fsum b); tail_mean _ := f0 |}.

Definition drift_model : Model := {|
  model_id := "m-1"; name := "trend"; version := 1; description := VNone; status := "approved"; stage := "production";
  model_type := VNone; framework := VNone; artifact_path := VNone;
  metrics := [("feature_baseline", VDict [("rsi", VList [VFloat f1; VFloat f1])]); ("expectancy", VFloat f1)];
  parameters := VNone; features := VList [VStr "rsi"; VStr "atr"; VStr "vix"]; targets := VNone; training_start := None;
  training_end := None; trained_at := None; approved_at := None; approved_by := None; rejected_at := None;
  rejected_reason := None; deployed_at := None; deployed_by := None; performance_metrics := [];
  created_at := DT 2026 2 12 0 0 0 0; created_by := VNone |}.

Definition drift_registry : ModelRegistry := {| models := [("m-1", drift_model)] |}.
Definition drift_data : Frame := [("rsi", [f1; f0]); ("atr", [])].

Lemma drift_witness :
  ∃ rep, detect_drift demo_stats drift_registry "m-1" drift_data = Ok rep ∧
    is_Some (dget (psi rep) "rsi") ∧ concept_drift rep = true.
Proof.
  eexists. split; [vm_compute; reflexivity|]. split; [|vm_compute; reflexivity].
  destruct (drift_report_covers demo_stats drift_registry "m-1" drift_data _
    ltac:(vm_compute; reflexivity)) as (m & fs & Hm & Hfs & Hcov & _).
  apply Hcov. injection Hm as <-. injection Hfs as <-. split; [by left|reflexivity].
Defined.
