(* ===== verification/ForexFactory.v ===== *)
(** * The calendar's providers (news_service/src/calendar/engine.py)

    The ForexFactory scraper over the rows of the parsed page, and the two providers
    that return nothing.  The page is fetched and parsed by httpx and BeautifulSoup;
    a row is what its selectors find. *)

From Stdlib Require Import ZArith Lia Bool List Ascii String.
From stdpp Require Import base decidable list option strings.
From S2P Require Import Prelude PyFloat PyStr PyDateTime PyMonad PyDict PyVal Storage Calendar.
Open Scope string_scope.
Open Scope Z_scope.
Open Scope py_scope.

(** [tr.calendar__row]: the stripped text of a cell, [None] where the row has no such
    cell; the classes of [td.calendar__impact span]; [data-eventid]. *)
Record HtmlRow := {
  time_cell : option string; currency_cell : option string; event_cell : option string;
  impact_span : option (list string); data_eventid : option string
}.

(** [(r.select_one(...) or {}).get_text(strip=True)]. *)
Definition cell_text (c : option string) : res string :=
  match c with Some s => Ok s | None => Raise (AttributeError "'dict' object has no attribute 'get_text'") end.

Definition impact_of (classes : option (list string)) : string :=
  let impact_class := match classes with Some l => str_join " " l | None => "" end in
  if str_contains "--high" impact_class then "high" else if str_contains "--medium" impact_class then "medium" else "low".

Definition importance_of (impact : string) : Z :=
  if String.eqb impact "high" then 5 else if String.eqb impact "medium" then 3 else 1.

Definition scraped_event (id country name impact : string) (now : datetime) : EconomicEvent := {|
  ev_id := id; provider := "forexfactory"; ev_time := now; country := country; region := country;
  event_name := name; category := "macro"; impact := impact; forecast := None; actual := None; previous := None;
  revised := None; unit_ := None; sentiment_score := f0; bias_prediction := None; confidence := f0;
  importance := importance_of impact
|}.

Section Provider.
Context {W : Type} (fetch_rows : M W (list HtmlRow)) (utcnow : M W datetime).

(** The [try] block of one row. *)
Definition parse_row (r : HtmlRow) : M W EconomicEvent :=
  time_text ← lift_res (cell_text (time_cell r));
  country ← lift_res (cell_text (currency_cell r));
  event_name ← lift_res (cell_text (event_cell r));
  let impact := impact_of (impact_span r) in
  let event_id := str_strip (match data_eventid r with
                             | None | Some EmptyString => ("ff-" ++ country ++ "-" ++ event_name ++ "-" ++ time_text)%string
                             | Some i => i
                             end) in
  now ← utcnow;
  mret (scraped_event event_id country event_name impact now).

(** [for r in rows: try: ... events.append(...) except Exception: log]. *)
Fixpoint parse_rows (rows : list HtmlRow) (events : list EconomicEvent) : M W (list EconomicEvent) :=
  match rows with
  | [] => mret events
  | r :: rest =>
      events' ← try_except (e ← parse_row r; mret (events ++ [e])%list) (λ _, mret events);
      parse_rows rest events'
  end.

(** [ForexFactoryProvider.fetch_events(start_date, end_date)]. *)
Definition forexfactory_fetch (start_date : datetime) (end_date : option datetime) : M W (list EconomicEvent) :=
  rows ← fetch_rows; parse_rows rows [].

(** The Bloomberg and Reuters providers. *)
Definition silent_fetch (start_date : datetime) (end_date : option datetime) : M W (list EconomicEvent) := mret [].

(** A row with its three cells. *)
Definition complete (r : HtmlRow) : bool :=
  match time_cell r, currency_cell r, event_cell r with Some _, Some _, Some _ => true | _, _, _ => false end.

(** What the page shows of a row, its time left out. *)
Definition shown (r : HtmlRow) : string * string * string :=
  (default "" (currency_cell r), default "" (event_cell r), impact_of (impact_span r)).
Definition event_shown (e : EconomicEvent) : string * string * string := (country e, event_name e, impact e).

(** The clock always answers, at or after [t0]. *)
Definition clock_from (t0 : Z) : Prop := ∀ w, ∃ now w', utcnow w = (Ok now, w') ∧ t0 <= to_us now.

Lemma parse_rows_spec t0 rows events w :
  clock_from t0 →
  ∃ found w', parse_rows rows events w = (Ok (events ++ found)%list, w') ∧
    List.map event_shown found = List.map shown (List.filter complete rows) ∧
    Forall (λ e, t0 <= to_us (ev_time e) ∧ provider e = "forexfactory") found.
Proof.
  intros Hclock. revert events w. induction rows as [|r rest IH]; intros events w; simpl.
  - exists [], w. by rewrite app_nil_r.
  - destruct (complete r) eqn:Ec; unfold complete in Ec.
    + destruct (time_cell r) as [t|] eqn:Et, (currency_cell r) as [c|] eqn:Ecu, (event_cell r) as [n|] eqn:En; try done.
      destruct (Hclock w) as (now & w1 & Hnow & Hge).
      set (e := scraped_event (str_strip (match data_eventid r with
                             | None | Some EmptyString => ("ff-" ++ c ++ "-" ++ n ++ "-" ++ t)%string
                             | Some i => i end)) c n (impact_of (impact_span r)) now).
      destruct (IH (events ++ [e])%list w1) as (found & w' & Hrun & Hshown & Hall).
      exists (e :: found), w'. split; [|split].
      * assert (Hrow : try_except (e ← parse_row r; mret (events ++ [e])%list) (λ _, mret events) w = (Ok (events ++ [e])%list, w1)).
        { unfold try_except, parse_row. rewrite Et, Ecu, En. unfold lift_res, cell_text, mbind, M_bind. cbv zeta.
          rewrite Hnow. reflexivity. }
        rewrite (bind_ok _ _ _ _ _ Hrow). by rewrite Hrun, <- app_assoc.
      * simpl. rewrite Hshown. unfold event_shown, shown at 2. simpl. by rewrite Ecu, En.
      * by constructor.
    + destruct (IH events w) as (found & w' & Hrun & Hshown & Hall). exists found, w'. split; [|done].
      assert (Hrow : try_except (e ← parse_row r; mret (events ++ [e])%list) (λ _, mret events) w = (Ok events, w)).
      { unfold try_except, parse_row, lift_res, mbind, M_bind.
        destruct (time_cell r); simpl; [|done]. destruct (currency_cell r); simpl; [|done]. by destruct (event_cell r). }
      by rewrite (bind_ok _ _ _ _ _ Hrow).
Qed.

(** A scraped event happens when it is scraped.  Whatever period is asked for and
    whatever the page says of its time, every complete row of the page becomes one
    event, in the page's order, with the row's country, name and impact and with the
    moment of scraping as its time; rows that lack a cell are left out, and none of
    them fails the fetch. *)
Theorem scraped_events_happen_now t0 start_date end_date rows w w1 :
  clock_from t0 → fetch_rows w = (Ok rows, w1) →
  ∃ events w', forexfactory_fetch start_date end_date w = (Ok events, w') ∧
    List.map event_shown events = List.map shown (List.filter complete rows) ∧
    Forall (λ e, t0 <= to_us (ev_time e) ∧ provider e = "forexfactory") events.
Proof.
  intros Hclock Hrows. destruct (parse_rows_spec t0 rows [] w1 Hclock) as (events & w' & Hrun & Hshown & Hall).
  exists events, w'. split; [|done]. unfold forexfactory_fetch. by rewrite (bind_ok _ _ _ _ _ Hrows).
Qed.
End Provider.

(** ** Witness *)

(** A page with an event of last year and a separator row. *)
Definition demo_page : list HtmlRow :=
  [{| time_cell := Some "Feb 12 2025 8:30am"; currency_cell := Some "USD"; event_cell := Some "CPI y/y";
      impact_span := Some ["icon"; "icon--ff-impact-red--high"]; data_eventid := Some "144" |};
   {| time_cell := None; currency_cell := None; event_cell := None; impact_span := None; data_eventid := None |}].

Lemma scraped_witness :
  ∃ events w', forexfactory_fetch (W := unit) (mret demo_page) (mret (DT 2026 2 12 9 0 0 0)) (DT 2025 2 12 0 0 0 0) None tt = (Ok events, w') ∧
    List.map event_shown events = [("USD", "CPI y/y", "high")] ∧
    Forall (λ e, to_us (DT 2026 2 12 9 0 0 0) <= to_us (ev_time e) ∧ provider e = "forexfactory") events.
Proof.
  exact (scraped_events_happen_now (W := unit) (mret demo_page) (mret (DT 2026 2 12 9 0 0 0)) (to_us (DT 2026 2 12 9 0 0 0))
    (DT 2025 2 12 0 0 0 0) None demo_page tt tt
    (λ w, ex_intro _ (DT 2026 2 12 9 0 0 0) (ex_intro _ w (conj eq_refl (Z.le_refl _)))) eq_refl).
Defined.
