(* ===== verification/Requests.v ===== *)
(** * Request bodies and guarded starts (app/schemas.py, app/api/routes/,
      app/db.py, trading_service/src/app.py, news_service/src/app.py)

    The constraints on the bodies of the gateway's routes and the routes behind
    them, the session a request is given, the start-up guards of the trading
    service, and the news service's routes over the engine methods it calls. *)

From Stdlib Require Import ZArith Lia Bool List Ascii String.
From stdpp Require Import base decidable list option strings.
From S2P Require Import Prelude PyFloat PyStr PyDateTime PyMonad PyDict PyVal Storage Calendar Config Vault Accounts.
Open Scope string_scope.
Open Scope Z_scope.
Open Scope py_scope.

(** ** schemas.py

    pydantic answers 422 when a field's constraint fails; [email_ok] is its
    EmailStr. *)

Record RegisterRequest := { register_email : string; register_password : string }.
Record LoginRequest := { login_email : string; login_password : string; login_fingerprint : string }.
Record VaultKeyUpsertRequest := { upsert_provider : string; upsert_api_key : string }.

Definition min_length (n : nat) (s : string) : bool := (n <=? py_len s)%nat.
Definition max_length (n : nat) (s : string) : bool := (py_len s <=? n)%nat.

Record RefreshRequest := { refresh_token : string; refresh_fingerprint : string }.
Record VaultTestRequest := { test_provider : string }.

(** A response model: the fields it has and what their values are. *)
Abbreviation response_model := (list (string * (pyval → bool))).
Definition fits (model : response_model) (d : vdict) : bool :=
  forallb (λ f, match dget d f.1 with Some v => f.2 v | None => false end) model.

Definition is_vint (v : pyval) : bool := match v with VInt _ => true | _ => false end.
Definition is_vstr (v : pyval) : bool := match v with VStr _ => true | _ => false end.
Definition is_vbool (v : pyval) : bool := match v with VBool _ => true | _ => false end.
Definition is_vdate (v : pyval) : bool := match v with VDate _ => true | _ => false end.

Definition UserOut (email_ok : string → bool) : response_model :=
  [("id", is_vint); ("email", λ v, match v with VStr s => email_ok s | _ => false end);
   ("role", λ v, match v with VStr s => String.eqb s "ADMIN" || String.eqb s "USER" | _ => false end)].
Definition VaultKeyView : response_model :=
  [("id", is_vint); ("provider", is_vstr); ("key_last4", is_vstr); ("updated_at", is_vdate)].
Definition VaultTestResponse : response_model := [("provider", is_vstr); ("ok", is_vbool); ("detail", is_vstr)].

(** What the vault's routes answer fits the models they declare. *)
Lemma key_answers_fit {W} (C : AesGcm) (urandom : nat → M W string) (key : string) (vdb : Session W) user provider api_key :
  yields (λ d, fits VaultKeyView d = true) (put_key C urandom key vdb user provider api_key) ∧
  yields (Forall (λ d, fits VaultKeyView d = true)) (get_keys vdb user) ∧
  yields (λ d, fits VaultTestResponse d = true) (test_key C key vdb user provider).
Proof.
  split; [|split].
  - apply yields_bind. intros row. by apply yields_ret.
  - apply yields_bind. intros rows. apply yields_ret. apply List.Forall_forall.
    intros d (row & <- & _)%in_map_iff. done.
  - apply yields_bind. intros secret. by apply yields_ret.
Qed.

Section Routes.
Context (email_ok : string → bool).

Definition valid_register (r : RegisterRequest) : bool := email_ok (register_email r) && min_length 10 (register_password r).
Definition valid_login (r : LoginRequest) : bool :=
  email_ok (login_email r) && min_length 8 (login_fingerprint r) && max_length 256 (login_fingerprint r).
Definition valid_upsert (r : VaultKeyUpsertRequest) : bool := min_length 8 (upsert_api_key r).

(** A handler behind the check of its body. *)
Definition validated {S A} (ok : bool) (handler : M S A) : M S A :=
  if ok then handler else raise (HTTPException 422 "Unprocessable Entity").

Context {W : Type} (db : Accounts W) (vdb : Session W) (N : Missing W) (utcnow : M W datetime).
Context (hash_password : string → M W string) (verify_password : string → string → bool).
Context (C : AesGcm) (urandom : nat → M W string) (key : string).

Definition post_register (r : RegisterRequest) : M W (Z * string * Role) :=
  validated (valid_register r) (register_route db vdb hash_password (register_email r) (register_password r)).

Definition post_login (r : LoginRequest) (client : option string) : M W Tokens :=
  validated (valid_login r)
    (login_route db vdb N utcnow verify_password (login_email r) (login_password r) (login_fingerprint r) client).

Definition post_key (user : Z) (r : VaultKeyUpsertRequest) : M W vdict :=
  validated (valid_upsert r) (put_key C urandom key vdb user (upsert_provider r) (upsert_api_key r)).
End Routes.

(** ** app/db.py: the session of a request *)

(** [get_db] around a handler: the session is closed however the handler ends. *)
Definition with_db {W A} (open_ : M W unit) (close_ : M W unit) (handler : M W A) : M W A :=
  open_ ;; on_exit handler close_ close_.

(** ** trading_service/src/app.py: importing the module *)

Section Trading.
Context {W : Type} (getenv : string → option string) (connect_ close_ : M W unit).

Definition env_given (k : string) : bool := match getenv k with Some s => negb (String.eqb s "") | None => false end.

(** The two guards at the top of the module. *)
Definition import_trading (main_module : bool) : res unit :=
  if negb main_module && negb (env_given "DATABASE_URL") then
    Raise (RuntimeError "Trading service initialized without DATABASE_URL. This service requires database configuration at startup.")
  else if negb (env_given "DATABASE_URL") then
    Raise (ValueError "CRITICAL: DATABASE_URL environment variable is required")
  else Ok tt.

(** The lifespan around the time the service runs: an exception at its [yield]
    skips the closing. *)
Definition trading_lifespan {A} (serve : M W A) : M W A := connect_ ;; r ← serve; close_ ;; mret r.
End Trading.

(** ** news_service/src/app.py

    The module imports [EconomicCalendarEngine], which does not exist; what it calls
    of it is an argument. *)

Section News.
Context {W : Type} (fetch : datetime → datetime → M W (list EconomicEvent))
  (get_event_by_id : pyval → M W (option EconomicEvent)) (utcnow : M W datetime).

(** [[e.__dict__ for e in events]]: the events have slots and no [__dict__]. *)
Definition dump_events (events : list EconomicEvent) : res (list vdict) :=
  match events with [] => Ok [] | _ => Raise (AttributeError "__dict__") end.

Definition events_route (days : Z) : M W (list vdict) :=
  start ← utcnow;
  end_ ← lift_res (add_days start days);
  events ← fetch start end_;
  lift_res (dump_events events).

Definition bias_dict (b : Bias) : vdict :=
  [("bias", VStr (bias b)); ("confidence", VFloat (bias_confidence b)); ("reasoning", VStr (reasoning b))].

Definition bias_route (payload : vdict) : M W vdict :=
  event ← get_event_by_id (vget_or payload "event_id" (VStr ""));
  match event with
  | None => mret [("bias", VStr "neutral"); ("confidence", VFloat f0)]
  | Some e => b ← lift_res (predict_bias e); mret (bias_dict b)
  end.

(** The calendar route answers only when there is nothing to answer. *)
Theorem events_route_is_empty days w r w1 :
  events_route days w = (r, w1) → r = Ok [] ∨ ∃ e, r = Raise e.
Proof.
  unfold events_route. intros Hr.
  apply bind_inv in Hr as [(start & w2 & _ & Hr)|(e & _ & ->)]; [|by right; exists e].
  apply bind_inv in Hr as [(end_ & w3 & _ & Hr)|(e & _ & ->)]; [|by right; exists e].
  apply bind_inv in Hr as [(events & w4 & _ & Hr)|(e & _ & ->)]; [|by right; exists e].
  unfold lift_res, dump_events in Hr. destruct events; injection Hr as <- _; [by left|right; eauto].
Qed.
End News.

(** ** Accepted keys *)

Section Keys.
Context {W : Type} (C : AesGcm) `{!AesLaws C} (urandom : nat → M W string) (key : string) (vdb : Session W).
Context (tables : W → Tables) `{!VaultLaws vdb tables}.
Context (urandom_length : ∀ n w s w', urandom n w = (Ok s, w') → String.length s = n).
Context (urandom_quiet : ∀ n w, tables (urandom n w).2 = tables w).
Context (find_answers : ∀ u p x, is_ok (find_key vdb u p x).1 = true).
Context (audit_answers : ∀ a x, is_ok (insert_audit vdb a x).1 = true).

Lemma upsert_hint u p k w row w' :
  upsert_key C urandom key vdb u p k w = (Ok row, w') → key_last4 row = last4 k.
Proof using VaultLaws0.
  unfold upsert_key. intros Hr. peel Hr as s w1 He. peel Hr as found w2 Hf. peel Hr as row' w3 Hw.
  peel Hr as [] w4 Ha. injection Hr as -> ->. destruct found as [old|].
  - by apply (sql_ok tables _ _ _ _ _ _ (law_update _)) in Hw as [(_ & _ & _ & Hl & _) _].
  - by apply (sql_ok tables _ _ _ _ _ _ (law_insert _ _ _ _)) in Hw as [(_ & _ & Hl & _ & _) _].
Qed.

(** A key that POST /vault/keys accepted passes POST /vault/test: its hint has exactly
    the four characters its column holds and, while the tables are as they were left,
    the test of the same user and provider decrypts it and answers [ok]; a shorter
    key is refused with 422 and changes nothing. *)
Theorem accepted_keys_pass_the_test user req w :
  (valid_upsert req = false →
   post_key vdb C urandom key user req w = (Raise (HTTPException 422 "Unprocessable Entity"), w)) ∧
  (∀ view w1 w2, post_key vdb C urandom key user req w = (Ok view, w1) → tables w2 = tables w1 →
   (∃ hint, vget view "key_last4" = VStr hint ∧ py_len hint = 4%nat) ∧
   ∃ answer w3, test_key C key vdb user (upsert_provider req) w2 = (Ok answer, w3) ∧ vget answer "ok" = VBool true).
Proof using All.
  unfold post_key, validated. split; [by intros ->|]. intros view w1 w2 Hr Ht.
  destruct (valid_upsert req) eqn:Hv; [|done]. unfold valid_upsert, min_length in Hv. apply Nat.leb_le in Hv.
  unfold put_key in Hr. peel Hr as row w0 Hu. injection Hr as <- <-. split.
  - exists (key_last4 row). split; [done|]. rewrite (upsert_hint _ _ _ _ _ _ Hu). unfold last4. apply py_len_last_chars. lia.
  - destruct (get_key_for_runtime C key vdb user (upsert_provider req) w2) as [r w3] eqn:Hg.
    destruct (use_after_store C urandom key vdb tables urandom_length urandom_quiet _ _ _ _ _ _ _ _ _ Hu Ht
      (find_answers _ _) audit_answers Hg) as [-> _].
    eexists _, w3. unfold test_key. rewrite (bind_ok _ _ _ _ _ Hg). split; [done|].
    cbn [vget vget_or dget]. by rewrite (proj2 (Nat.leb_le _ _) Hv).
Qed.
End Keys.
