(* ===== verification/Routes.v ===== *)
(** * Routes, notices and the gateway's processes (app/main.py, app/api/routes/,
      api_gateway/src/routes/ws.py, app/core/telemetry.py, the services' app.py)

    The tables of routes that the decorators and [include_router] build, the requests
    they answer, the notices of the deprecated endpoints, the settings of the server
    process and of tracing.  Of FastAPI it is relied on that the routes are tried in
    the order of the table, and that a path parameter stands for one non-empty
    segment of the path; its redirect of a path with one slash more or less is left out. *)

From Stdlib Require Import ZArith Lia Bool List Ascii String.
From stdpp Require Import base decidable list option strings.
From S2P Require Import Prelude PyFloat PyStr PyDateTime PyMonad PyDict PyVal.
Open Scope string_scope.
Open Scope list_scope.
Open Scope py_scope.

(** ** Routes *)

Inductive Verb := GET | POST | DELETE | WEBSOCKET.
#[export] Instance verb_eq_dec : EqDecision Verb.
Proof. solve_decision. Defined.

Record Route := { verb : Verb; template : string; endpoint : string }.

Definition route (v : Verb) (path name : string) : Route := {| verb := v; template := path; endpoint := name |}.

(** [APIRouter(prefix=...)] and [app.include_router(router, prefix=...)]. *)
Definition under (prefix : string) (rs : list Route) : list Route :=
  List.map (λ r, route (verb r) (prefix ++ template r)%string (endpoint r)) rs.

(** [path.split("/")]. *)
Fixpoint segments_from (cur : list ascii) (s : string) : list string :=
  match s with
  | EmptyString => [string_of_list_ascii (rev cur)]
  | String c r => if Ascii.eqb c "/" then string_of_list_ascii (rev cur) :: segments_from [] r else segments_from (c :: cur) r
  end.
Definition segments (s : string) : list string := segments_from [] s.

(** [{name}]. *)
Definition is_parameter (seg : string) : bool := String.prefix "{" seg.

Definition segment_matches (t p : string) : bool :=
  if is_parameter t then negb (String.eqb p "") else String.eqb t p.

Fixpoint all2 {A B} (f : A → B → bool) (l : list A) (k : list B) : bool :=
  match l, k with
  | [], [] => true
  | x :: l, y :: k => f x y && all2 f l k
  | _, _ => false
  end.

Definition matches (r : Route) (path : string) : bool := all2 segment_matches (segments (template r)) (segments path).

(** The route that answers a request. *)
Definition dispatch (app : list Route) (v : Verb) (path : string) : option Route :=
  List.find (λ r, bool_decide (verb r = v) && matches r path) app.

(** *** The gateway *)

Definition health_router : list Route := [route GET "/health" "health"].
Definition auth_router : list Route :=
  under "/auth" [route POST "/register" "register"; route POST "/login" "login"; route POST "/refresh" "refresh"].
Definition vault_router : list Route :=
  under "/vault" [route GET "/keys" "get_keys"; route POST "/keys" "put_key"; route DELETE "/keys/{key_id}" "remove_key";
                  route POST "/test" "test_key"].
Definition distributed_ws_router : list Route :=
  [route WEBSOCKET "/ws" "websocket_endpoint"; route GET "/heartbeat" "deprecated_heartbeat"].

Definition gateway_app : list Route :=
  health_router ++ under "/api/v1" auth_router ++ under "/api/v1" vault_router ++ distributed_ws_router ++
  [route GET "/metrics" "metrics"; route GET "/api/health/readiness" "readiness";
   route WEBSOCKET "/ws/heartbeat" "deprecated_heartbeat"; route GET "/ws/heartbeat" "deprecated_ws_endpoint"].

(** *** The services *)

Definition trading_app : list Route :=
  [route POST "/orders" "execute_order"; route GET "/orders/{order_id}" "get_order";
   route GET "/account/{account_id}" "get_account_info"; route GET "/health" "health"].
Definition market_data_app : list Route :=
  [route GET "/ticks/{symbol}" "ticks"; route GET "/ohlcv/{symbol}/{timeframe}" "ohlcv";
   route POST "/subscriptions" "subscribe"; route WEBSOCKET "/ws/ticks" "ws_ticks"; route GET "/health" "health"].
Definition notifier_app : list Route := [route POST "/notify" "notify"; route GET "/health" "health"].
Definition scheduler_app : list Route :=
  [route POST "/schedules" "create_schedule"; route DELETE "/schedules/{schedule_id}" "delete_schedule";
   route GET "/schedules" "list_schedules"].
Definition news_app : list Route :=
  [route GET "/events" "fetch_events"; route POST "/bias" "predict_bias"; route GET "/health" "health"].
Definition backtest_app : list Route :=
  [route POST "/walk-forward" "walk_forward"; route POST "/monte-carlo" "monte_carlo"; route GET "/health" "health"].
Definition ml_app : list Route :=
  [route POST "/train" "train_model"; route POST "/promote/{model_id}" "promote_to_production"; route GET "/health" "health"].

Definition all_apps : list (list Route) :=
  [gateway_app; trading_app; market_data_app; notifier_app; scheduler_app; news_app; backtest_app; ml_app].

(** *** Constant answers *)

(** Every [GET /health] of the program answers this. *)
Definition health : vdict := [("status", VStr "ok")].
Definition readiness : vdict := [("status", VStr "ready")].

(** ** The notices of the deprecated endpoints *)

Record Notice := { status_code : Z; content : vdict; headers : dict string string }.

(** [GET /heartbeat] (api_gateway/src/routes/ws.py). *)
Definition deprecated_heartbeat : Notice := {|
  status_code := 410;
  content := [("error", VStr "WebSocket endpoint moved");
              ("message", VStr "This endpoint is deprecated and no longer accepts connections");
              ("new_endpoint", VStr "/ws/v1/connect"); ("deprecation_date", VStr "2024-01-01");
              ("sunset_date", VStr "2024-04-01");
              ("documentation", VStr "https://docs.lifehq.io/websocket-migration")];
  headers := [("Deprecation", "True"); ("Sunset", "Sun, 01 Apr 2024 00:00:00 GMT");
              ("Link", "</ws/v1/connect>; rel=" ++ String (ascii_of_nat 34) ("alternate" ++ String (ascii_of_nat 34) ""))%string]
|}.

(** [GET /ws/heartbeat] (app/main.py): [RedirectResponse(url="/ws", status_code=410)]. *)
Definition deprecated_ws_endpoint : Notice :=
  {| status_code := 410; content := []; headers := [("location", "/ws")] |}.

(** ** The server process and tracing *)

(** [max(2, (os.cpu_count() or 2) // 2)]. *)
Definition workers (cpu_count : option Z) : Z :=
  Z.max 2 ((match cpu_count with Some n => if (n =? 0)%Z then 2 else n | None => 2 end) / 2).

(** The options of [uvicorn.run]. *)
Definition server_options (app_port : Z) (cpu_count : option Z) : vdict :=
  [("host", VStr "0.0.0.0"); ("port", VInt app_port); ("workers", VInt (workers cpu_count)); ("proxy_headers", VBool true);
   ("limit_concurrency", VInt 2000); ("backlog", VInt 2048); ("timeout_keep_alive", VInt 20)].

(** [configure_telemetry]: the calls to the tracing library. *)
Record Tracing (W : Type) := {
  tracer_provider : string → M W unit;               (* TracerProvider(resource) with the service's name *)
  add_exporter : string → M W unit;                  (* add_span_processor(BatchSpanProcessor(OTLPSpanExporter(...))) *)
  set_tracer_provider : M W unit;
  instrument_httpx : M W unit;
  instrument_asyncpg : M W unit;
  instrument_app : M W unit
}.
Arguments tracer_provider {W}. Arguments add_exporter {W}. Arguments set_tracer_provider {W}.
Arguments instrument_httpx {W}. Arguments instrument_asyncpg {W}. Arguments instrument_app {W}.

Definition configure_telemetry {W} (T : Tracing W) (app : bool) (otlp_endpoint : option string) (service_name : string)
    : M W unit :=
  tracer_provider T service_name ;;
  match otlp_endpoint with
  | Some e => when (negb (String.eqb e "")) (add_exporter T e)
  | None => mret tt
  end ;;
  set_tracer_provider T ;;
  instrument_httpx T ;;
  instrument_asyncpg T ;;
  when app (instrument_app T).

Definition get_tracer {W T} (trace_get_tracer : string → M W T) (name : option string) : M W T :=
  trace_get_tracer (default "mtrader" name).

(** ** WS /ws/heartbeat (app/api/routes/ws.py)

    No application includes this router. *)
Section Heartbeat.
Context {W : Type} (accept close : M W unit) (send_json : vdict → M W unit) (utcnow : M W datetime).

Definition ws_heartbeat : M W unit :=
  accept ;;
  now ← utcnow;
  send_json [("service", VStr "api_gateway"); ("connected", VBool true); ("ts", VStr (isoformat now ++ "+00:00")%string)] ;;
  close.
End Heartbeat.

(** ** Every route answers its own requests *)

(** Two templates that some path could match both. *)
Definition segments_meet (t u : string) : bool :=
  if is_parameter t then is_parameter u || negb (String.eqb u "")
  else if is_parameter u then negb (String.eqb t "") else String.eqb t u.
Definition overlap (r q : Route) : bool :=
  bool_decide (verb r = verb q) && all2 segments_meet (segments (template r)) (segments (template q)).

Lemma matches_overlap r q path : verb r = verb q → matches r path = true → matches q path = true → overlap r q = true.
Proof.
  intros Hv. unfold matches, overlap. rewrite bool_decide_eq_true_2 by done. simpl.
  generalize (segments (template r)) as ts, (segments (template q)) as us, (segments path) as ps.
  induction ts as [|t ts IH]; intros [|u us] [|p ps]; simpl; try done.
  rewrite !andb_true_iff. intros [Ht Hts] [Hu Hus]. split; [|by eapply IH].
  unfold segment_matches, segments_meet in *. destruct (is_parameter t) eqn:Et, (is_parameter u) eqn:Eu; simpl; try done.
  - apply String.eqb_eq in Hu. by subst u.
  - apply String.eqb_eq in Ht. by subst t.
  - apply String.eqb_eq in Ht, Hu. subst. by apply String.eqb_eq.
Qed.

(** Routes of which no two overlap. *)
Fixpoint unambiguous (app : list Route) : bool :=
  match app with
  | [] => true
  | r :: rest => forallb (λ q, negb (overlap r q)) rest && unambiguous rest
  end.

Lemma unambiguous_dispatch app r path :
  unambiguous app = true → In r app → matches r path = true → dispatch app (verb r) path = Some r.
Proof.
  induction app as [|q app IH]; simpl; [done|]. rewrite andb_true_iff, forallb_forall. intros [Hq Hu] [->|Hin] Hm.
  - unfold dispatch. simpl. by rewrite bool_decide_eq_true_2, Hm.
  - unfold dispatch. simpl. destruct (bool_decide (verb q = verb r) && matches q path) eqn:E; [|by apply IH].
    apply andb_true_iff in E as [Hv%bool_decide_eq_true Hmq]. specialize (Hq r Hin).
    by rewrite (matches_overlap q r path Hv Hmq Hm) in Hq.
Qed.

(** No route of the program is shadowed: in each of the eight applications, whatever
    the path parameters, a request whose path matches the template of a route is
    answered by that route's endpoint and by no other. *)
Theorem every_route_answers app r path :
  In app all_apps → In r app → matches r path = true → dispatch app (verb r) path = Some r.
Proof.
  intros Happ. apply unambiguous_dispatch.
  assert (Hall : forallb unambiguous all_apps = true) by (vm_compute; reflexivity).
  by eapply forallb_forall in Hall.
Qed.

(** The way out of the deprecated endpoint leads nowhere.  The notice of
    [GET /heartbeat], its [Link] header and the comment above it send clients to
    [/ws/v1/connect], but no route of the gateway matches that path, under any
    verb; the WebSocket endpoint that is there is [/ws], and the endpoint of
    app/api/routes/ws.py, which the gateway does not include, is never dispatched
    to. *)
Theorem migration_notice_leads_nowhere :
  dispatch gateway_app GET "/heartbeat" = Some (route GET "/heartbeat" "deprecated_heartbeat") ∧
  vget (content deprecated_heartbeat) "new_endpoint" = VStr "/ws/v1/connect" ∧
  (∀ v, dispatch gateway_app v "/ws/v1/connect" = None) ∧
  option_map endpoint (dispatch gateway_app WEBSOCKET "/ws") = Some "websocket_endpoint" ∧
  ∀ v path r, dispatch gateway_app v path = Some r → endpoint r ≠ "ws_heartbeat".
Proof.
  split; [reflexivity|]. split; [reflexivity|]. split; [by intros []|]. split; [reflexivity|].
  intros v path r Hr. apply find_some in Hr as [Hin _].
  assert (Hall : forallb (λ r, negb (String.eqb (endpoint r) "ws_heartbeat")) gateway_app = true) by reflexivity.
  eapply forallb_forall in Hall; [|exact Hin]. rewrite negb_true_iff in Hall. by apply String.eqb_neq.
Qed.

(** The gateway's server starts at least two processes, and no more than half the
    processors when there are four or more. *)
Theorem workers_bounds n : (2 <= workers n)%Z ∧ ∀ c, n = Some c → (4 <= c)%Z → (2 * workers n <= c)%Z.
Proof.
  unfold workers. split; [lia|]. intros c -> Hc. destruct (Z.eqb_spec c 0); [lia|].
  pose proof (Z.mul_div_le c 2). assert (2 <= c / 2)%Z by (apply Z.div_le_lower_bound; lia). lia.
Qed.

(** Tracing: spans are exported exactly when an address is given. *)
Lemma telemetry_without_exporter {W} (T : Tracing W) app otlp name :
  otlp = None ∨ otlp = Some "" →
  configure_telemetry T app otlp name ≡ₘ
  (tracer_provider T name ;; set_tracer_provider T ;; instrument_httpx T ;; instrument_asyncpg T ;; when app (instrument_app T)).
Proof. intros Ho s. unfold configure_telemetry, mbind, M_bind. by destruct Ho as [-> | ->]; destruct (tracer_provider T name s) as [[[]|e] s1]. Qed.

(** ** Witnesses *)

Lemma every_route_witness :
  dispatch trading_app GET "/orders/o-1" = Some (route GET "/orders/{order_id}" "get_order").
Proof.
  apply (every_route_answers trading_app (route GET "/orders/{order_id}" "get_order") "/orders/o-1");
    [right; left; reflexivity|right; left; reflexivity|reflexivity].
Defined.
