(* ===== verification/Assets.v ===== *)
(** * The check of the deployment's files (scripts/verify_assets.py)

    The script looks for the host paths that docker-compose.prod.yml mounts: the
    matches of a regular expression in the text of the file.  The file system and
    the environment are functions. *)

From Stdlib Require Import ZArith Lia Bool List Ascii String.
From stdpp Require Import base decidable list option strings.
From S2P Require Import Prelude PyFloat PyStr.
Open Scope string_scope.
Open Scope list_scope.

(** ** The regular expression *)

(** [[^:]+:], greedy: the text up to the next colon, which is not empty. *)
Fixpoint up_to_colon (acc : list ascii) (l : list ascii) : option (list ascii * list ascii) :=
  match l with
  | [] => None
  | c :: r => if Ascii.eqb c ":" then match acc with [] => None | _ => Some (rev acc, r) end else up_to_colon (c :: acc) r
  end.

(** [\s+\./([^:]+):] after the hyphen: one blank or more. *)
Fixpoint after_blanks (seen : bool) (l : list ascii) : option (list ascii * list ascii) :=
  match l with
  | c :: r =>
      if is_space c then after_blanks true r
      else if seen && Ascii.eqb c "." then
        match r with
        | d :: r' => if Ascii.eqb d "/" then up_to_colon [] r' else None
        | [] => None
        end
      else None
  | [] => None
  end.

(** [re.findall(r'-\s+\./([^:]+):', text)]: from left to right, without overlaps.
    Each turn leaves less text, so the length of the text is fuel enough. *)
Fixpoint findall (fuel : nat) (l : list ascii) : list string :=
  match fuel with
  | O => []
  | S fuel =>
      match l with
      | [] => []
      | c :: r =>
          if Ascii.eqb c "-" then
            match after_blanks false r with
            | Some (m, rest) => string_of_list_ascii m :: findall fuel rest
            | None => findall fuel r
            end
          else findall fuel r
      end
  end.
Definition mounts (text : string) : list string := findall (String.length text) (list_ascii_of_string text).

(** ** [str(Path(m))] *)

(** The parts between the slashes, without empty ones and single dots. *)
Fixpoint path_parts (cur : list ascii) (l : list ascii) : list string :=
  match l with
  | [] => [string_of_list_ascii (rev cur)]
  | c :: r => if Ascii.eqb c "/" then string_of_list_ascii (rev cur) :: path_parts [] r else path_parts (c :: cur) r
  end.
Definition real_part (p : string) : bool := negb (String.eqb p "" || String.eqb p ".").

Fixpoint join_slash (l : list string) : string :=
  match l with [] => "" | [x] => x | x :: r => (x ++ "/" ++ join_slash r)%string end.

(** The root of an absolute path: two slashes, and only two, are kept. *)
Definition root_of (l : list ascii) : string :=
  match l with
  | a :: b :: c :: _ => if Ascii.eqb a "/" then if Ascii.eqb b "/" && negb (Ascii.eqb c "/") then "//" else "/" else ""
  | a :: b :: [] => if Ascii.eqb a "/" then if Ascii.eqb b "/" then "//" else "/" else ""
  | a :: [] => if Ascii.eqb a "/" then "/" else ""
  | [] => ""
  end.

Definition path_str (m : string) : string :=
  let l := list_ascii_of_string m in
  let text := (root_of l ++ join_slash (List.filter real_part (path_parts [] l)))%string in
  if String.eqb text "" then "." else text.

(** ** The script *)

Record Outcome := { exit_code : Z; output : list string }.

Section Script.
Context (compose : string) (exists_ : string → bool) (environ : string → option string).

Definition missing : list string :=
  List.filter (λ p, negb (starts_with "deploy/certs" p) && negb (exists_ p)) (List.map path_str (mounts compose)).

Definition production_env : bool := match environ "ENVIRONMENT" with Some e => String.eqb e "production" | None => false end.
Definition certificate : bool := exists_ "deploy/certs/tls.crt".

Definition verify_assets : Outcome :=
  if negb certificate && production_env then
    {| exit_code := 1; output := ["❌ Production requires certificates: deploy/certs/tls.crt missing"] |}
  else
    let notice := if certificate then [] else ["⚠️ Certificates not found, will generate at runtime"] in
    match missing with
    | [] => {| exit_code := 0; output := notice ++ ["All deployment assets present."] |}
    | _ => {| exit_code := 1;
              output := notice ++ "Missing deployment assets:" :: List.map (λ m, ("- " ++ m)%string) missing |}
    end.
End Script.

(** ** What is found *)

Lemma up_to_colon_name acc m rest :
  forallb (λ c, negb (Ascii.eqb c ":")) m = true → rev acc ++ m ≠ [] →
  up_to_colon acc (m ++ ":"%char :: rest) = Some (rev acc ++ m, rest).
Proof.
  revert acc. induction m as [|c m IH]; intros acc Hm Hne; simpl.
  - rewrite app_nil_r in *. destruct acc; [done|]. done.
  - simpl in Hm. apply andb_true_iff in Hm as [Hc Hm]. rewrite negb_true_iff in Hc. rewrite Hc.
    rewrite IH; [|done|]; simpl; rewrite <- app_assoc; [done|]. simpl. by destruct (rev acc).
Qed.

Lemma findall_more (n : nat) (l : list ascii) : (List.length l ≤ n)%nat → findall n l = findall (List.length l) l.
Proof.
  assert (Hb : ∀ seen l m rest, after_blanks seen l = Some (m, rest) → (List.length rest < List.length l)%nat).
  { assert (Hc : ∀ l acc m rest, up_to_colon acc l = Some (m, rest) → (List.length rest < List.length l)%nat).
    { intros k. induction k as [|c k IH]; intros acc m rest; simpl; [done|]. destruct (Ascii.eqb c ":").
      - destruct acc; [done|]. intros [= _ <-]. lia.
      - intros Hk. apply IH in Hk. lia. }
    intros seen k. revert seen. induction k as [|c k IH]; intros seen m rest; simpl; [done|].
    destruct (is_space c); [intros Hk; apply IH in Hk; lia|]. destruct (seen && Ascii.eqb c "."); [|done].
    destruct k as [|d k]; [done|]. destruct (Ascii.eqb d "/"); [|done]. intros Hk. apply Hc in Hk. simpl. lia. }
  assert (Hall : ∀ n1 n2 l, (List.length l ≤ n1)%nat → (List.length l ≤ n2)%nat → findall n1 l = findall n2 l).
  { induction n1 as [|n1 IH]; intros [|n2] [|c r] H1 H2; simpl in *; try lia; try done.
    destruct (Ascii.eqb c "-"); [|apply IH; lia]. destruct (after_blanks false r) as [[m rest]|] eqn:E; [|apply IH; lia].
    apply Hb in E. f_equal. apply IH; lia. }
  intros Hn. by apply Hall.
Qed.

(** One entry of a list of mounts: a hyphen, blanks, [./], the path, a colon. *)
Definition mount_entry (blanks m : string) : string := ("-" ++ blanks ++ "./" ++ m ++ ":")%string.

Lemma mounts_entry blanks m rest :
  forallb is_space (list_ascii_of_string blanks) = true → blanks ≠ "" →
  forallb (λ c, negb (Ascii.eqb c ":")) (list_ascii_of_string m) = true → m ≠ "" →
  mounts (mount_entry blanks m ++ rest)%string = m :: mounts rest.
Proof.
  intros Hb Hbne Hm Hmne. unfold mounts, mount_entry.
  set (text := (("-" ++ blanks ++ "./" ++ m ++ ":") ++ rest)%string).
  assert (Hl : list_ascii_of_string text =
    "-"%char :: list_ascii_of_string blanks ++ "."%char :: "/"%char :: list_ascii_of_string m ++ ":"%char :: list_ascii_of_string rest).
  { unfold text. rewrite !list_ascii_app. simpl. rewrite <- !app_assoc. simpl. by rewrite <- app_assoc. }
  assert (Hmn : list_ascii_of_string m ≠ []) by (by destruct m).
  assert (Hblank : ∀ l seen, forallb is_space l = true → seen = true ∨ l ≠ [] →
    after_blanks seen (l ++ "."%char :: "/"%char :: list_ascii_of_string m ++ ":"%char :: list_ascii_of_string rest) =
    Some (list_ascii_of_string m, list_ascii_of_string rest)).
  { induction l as [|c l IH]; intros seen Hs Hseen; simpl.
    - destruct Hseen as [->|]; [|done]. simpl. by apply (up_to_colon_name []).
    - simpl in Hs. apply andb_true_iff in Hs as [-> Hs]. apply IH; [done|by left]. }
  rewrite <- (length_list_ascii text), Hl. simpl.
  rewrite Hblank by (done || right; by destruct blanks).
  rewrite string_of_list_ascii_of_string, findall_more, length_list_ascii; [done|].
  rewrite !length_app. simpl. rewrite length_app. simpl. lia.
Qed.

Lemma mounts_skip pre rest : forallb (λ c, negb (Ascii.eqb c "-")) (list_ascii_of_string pre) = true →
  mounts (pre ++ rest)%string = mounts rest.
Proof.
  induction pre as [|c pre IH]; intros Hp; [done|]. simpl in Hp. apply andb_true_iff in Hp as [Hc Hp].
  rewrite negb_true_iff in Hc. rewrite <- (IH Hp). unfold mounts. simpl. by rewrite Hc.
Qed.

(** A compose text: text without hyphens before each mount, and at the end. *)
Definition compose_text (entries : list (string * string * string)) (last : string) : string :=
  List.fold_right (λ '(pre, blanks, m) rest, (pre ++ mount_entry blanks m ++ rest)%string) last entries.
Definition entry_ok (e : string * string * string) : bool :=
  let '(pre, blanks, m) := e in
  forallb (λ c, negb (Ascii.eqb c "-")) (list_ascii_of_string pre) &&
  forallb is_space (list_ascii_of_string blanks) && negb (String.eqb blanks "") &&
  forallb (λ c, negb (Ascii.eqb c ":")) (list_ascii_of_string m) && negb (String.eqb m "").

(** The mounts of a compose text are found, all of them, in their order, and nothing
    else: for host paths without a colon, with any text without hyphens around the
    entries. *)
Theorem mounts_are_found entries last :
  forallb entry_ok entries = true → forallb (λ c, negb (Ascii.eqb c "-")) (list_ascii_of_string last) = true →
  mounts (compose_text entries last) = List.map snd entries.
Proof.
  intros He Hl. induction entries as [|[[pre blanks] m] entries IH]; simpl.
  - rewrite <- (str_app_nil last), mounts_skip by done. done.
  - simpl in He. rewrite !andb_true_iff, !negb_true_iff in He. destruct He as [[[[[Hp Hb] Hbn] Hm] Hmn] He].
    apply String.eqb_neq in Hbn, Hmn. rewrite mounts_skip, mounts_entry by done. by rewrite IH.
Qed.

(** The script succeeds exactly when every mounted path outside [deploy/certs]
    exists and, in production, the certificate does too; otherwise it exits with 1,
    and what it lists as missing is mounted and is not there. *)
Theorem verify_assets_decides compose exists_ environ :
  let out := verify_assets compose exists_ environ in
  (exit_code out = 0%Z ↔
   (∀ m, In m (mounts compose) → starts_with "deploy/certs" (path_str m) = true ∨ exists_ (path_str m) = true) ∧
   (production_env environ = true → exists_ "deploy/certs/tls.crt" = true)) ∧
  (exit_code out = 0%Z ∨ exit_code out = 1%Z) ∧
  (∀ p, In p (missing compose exists_) → exists_ p = false ∧ ∃ m, In m (mounts compose) ∧ p = path_str m).
Proof.
  intros out. unfold out, verify_assets, certificate.
  assert (Hmiss : missing compose exists_ = [] ↔
    ∀ m, In m (mounts compose) → starts_with "deploy/certs" (path_str m) = true ∨ exists_ (path_str m) = true).
  { unfold missing. split.
    - intros Hnil m Hm. apply (in_map path_str) in Hm.
      destruct (starts_with "deploy/certs" (path_str m)) eqn:E1; [by left|].
      destruct (exists_ (path_str m)) eqn:E2; [by right|]. exfalso.
      assert (Hin : In (path_str m) (List.filter (λ p, negb (starts_with "deploy/certs" p) && negb (exists_ p)) (List.map path_str (mounts compose))))
        by (apply filter_In; by rewrite E1, E2). by rewrite Hnil in Hin.
    - intros Hall. apply filter_none, List.Forall_forall. intros p (m & <- & Hm)%in_map_iff.
      by destruct (Hall m Hm) as [-> | ->]; rewrite ?andb_false_r. }
  split; [|split].
  - destruct (exists_ "deploy/certs/tls.crt") eqn:Ec; simpl.
    + destruct (missing compose exists_) eqn:Em; simpl; [|split; [done|intros [H%Hmiss _]; congruence]].
      split; [|done]. intros _. split; [by apply Hmiss|done].
    + destruct (production_env environ) eqn:Ep; simpl; [split; [done|intros [_ H]; by specialize (H eq_refl)]|].
      destruct (missing compose exists_) eqn:Em; simpl; [|split; [done|intros [H%Hmiss _]; congruence]].
      split; [|done]. intros _. split; [by apply Hmiss|done].
  - destruct (negb _ && _); [by right|]. destruct (missing compose exists_); [by left|by right].
  - intros p (Hin & Hp)%filter_In. apply andb_true_iff in Hp as [_ Hp%negb_true_iff].
    split; [done|]. apply in_map_iff in Hin as (m & <- & Hm). by exists m.
Qed.

(** ** Witnesses *)

Lemma mounts_witness :
  mounts (compose_text [("  api:
    volumes:
      ", " ", "deploy/nginx/nginx.conf"); ("/etc/nginx.conf
      ", " ", "migrations")] "/docker") = ["deploy/nginx/nginx.conf"; "migrations"].
Proof.
  apply (mounts_are_found [("  api:
    volumes:
      ", " ", "deploy/nginx/nginx.conf"); ("/etc/nginx.conf
      ", " ", "migrations")] "/docker"); reflexivity.
Defined.

Example path_of_mount : path_str "deploy//certs/./tls.crt" = "deploy/certs/tls.crt" ∧ path_str "/etc/x/" = "/etc/x".
Proof. split; reflexivity. Qed.
