(* ===== verification/Imports.v ===== *)
(** * Importing the program's modules

    What Python does with the [import] statements of a module: a module is executed
    once, from the top, when it is first imported, after its packages; names
    are taken from what the other module has bound by then, or are modules
    inside it; a module whose execution fails is forgotten.  Modules.v holds the
    modules of src/ by what they import and bind at top level; which other
    packages are installed is a parameter.  What a module computes while it is
    executed (the settings, the routes) is in the other files and succeeds here. *)

From Stdlib Require Import Bool List Ascii String.
From stdpp Require Import base decidable list option strings gmap.
From S2P Require Import Prelude PyMonad.
Open Scope string_scope.
Open Scope py_scope.

(** The dotted name of a module. *)
Abbreviation mpath := (list string).

(** A top-level statement: an import of a module of an installed package or of the standard
    library; one in
    a [try] that falls back to [None]; [from m import n as a, ...] of a module of the program;
    a definition or an assignment. *)
Inductive stmt :=
| External (module : string) (names : list string)
| Optional (module name : string)
| From (m : mpath) (names : list (string * string))
| Binds (name : string).

(** [sys.modules]: the names bound so far in each module executed or under way. *)
Abbreviation modules := (gmap mpath (list string)).

Definition binds (s : stmt) : list string :=
  match s with External _ ns => ns | Optional _ n => [n] | From _ ns => ns.*2 | Binds n => [n] end.
Definition declared (body : list stmt) : list string := body ≫= binds.

(** A module's packages, outermost first, and itself. *)
Definition prefixes (p : mpath) : list mpath := (λ k, take k p) <$> seq 1 (length p).

Definition bind_name (m : mpath) (n : string) : M modules unit := modify (alter (cons n) m).

Definition no_module (p : mpath) : exn := ExternalError "ModuleNotFoundError" (String.concat "." p).
Definition cannot_import (n : string) (u : mpath) : exn :=
  ExternalError "ImportError" ("cannot import name " ++ n ++ " from " ++ String.concat "." u).

Section Importing.
Context (program : gmap mpath (list stmt)) (installed : string → bool).

Section Exec.
Context (load : mpath → M modules unit).

(** [from u import n as a] in the module [m], once [u] is there. *)
Definition import_name (m u : mpath) (na : string * string) : M modules unit :=
  have ← gets (λ st : modules, bool_decide (na.1 ∈ default [] (st !! u)));
  (if have : bool then mret tt
   else match program !! (u ++ [na.1])%list with
        | Some _ => load (u ++ [na.1])%list
        | None => raise (cannot_import na.1 u)
        end) ;;
  bind_name m na.2.

Definition exec (m : mpath) (s : stmt) : M modules unit :=
  match s with
  | External r ns => if installed r then for_each (bind_name m) ns else raise (no_module [r])
  | Optional _ n => bind_name m n
  | From u ns => for_each load (prefixes u) ;; for_each (import_name m u) ns
  | Binds n => bind_name m n
  end.
End Exec.

(** [fuel] bounds the depth of imports within imports, as the interpreter's stack does. *)
Fixpoint load (fuel : nat) (p : mpath) : M modules unit :=
  match fuel with
  | O => raise (RuntimeError "maximum recursion depth exceeded")
  | S f =>
      known ← gets (λ st : modules, bool_decide (is_Some (st !! p)));
      if known : bool then mret tt
      else match program !! p with
           | None => raise (no_module p)
           | Some body =>
               modify (<[p := []]>) ;;
               on_exit (for_each (exec (load f) p) body) (mret tt) (modify (delete p))
           end
  end.

Definition import_module (fuel : nat) (p : mpath) : M modules unit := for_each (load fuel) (prefixes p).

(** ** What a successful import has found *)

Definition satisfied (st : modules) (s : stmt) : Prop :=
  match s with
  | External r _ => installed r = true
  | From u ns => (∀ v, v ∈ prefixes u → is_Some (st !! v)) ∧
      ∀ n a, (n, a) ∈ ns → n ∈ default [] (st !! u) ∨ is_Some (st !! (u ++ [n])%list)
  | _ => True
  end.

Definition grows (st st' : modules) : Prop := ∀ p ns, st !! p = Some ns → ∃ ns', st' !! p = Some ns' ∧ ns ⊆ ns'.

(** From [st] to [st'] every new module has found what it imports. *)
Definition completes (st st' : modules) : Prop :=
  grows st st' ∧ ∀ q, st !! q = None → is_Some (st' !! q) → ∃ body, program !! q = Some body ∧ Forall (satisfied st') body.

Lemma grows_some st st' p : grows st st' → is_Some (st !! p) → is_Some (st' !! p).
Proof. intros Hg [ns Hp]. destruct (Hg p ns Hp) as (ns' & -> & _). by eexists. Qed.

Lemma satisfied_grows st st' s : grows st st' → satisfied st s → satisfied st' s.
Proof.
  intros Hg. destruct s as [r ns|r n|u ns|n]; simpl; [done|done| |done]. intros [Hu Hn]. split.
  - intros v Hv. by apply (grows_some st), Hu.
  - intros n a Hna. destruct (Hn n a Hna) as [H|H]; [left|right; by apply (grows_some st)].
    destruct (st !! u) as [ms|] eqn:E; [|by apply elem_of_nil in H].
    destruct (Hg u ms E) as (ms' & -> & Hsub). by apply Hsub.
Qed.

#[export] Instance completes_preorder : PreOrder completes.
Proof.
  split.
  - intros st. split; [intros p ns Hp; by exists ns|]. intros q Hq [ns Hs]. by rewrite Hq in Hs.
  - intros s1 s2 s3 [Hg1 Hc1] [Hg2 Hc2]. split.
    + intros p ns Hp. destruct (Hg1 p ns Hp) as (ns2 & H2 & Hs2). destruct (Hg2 p ns2 H2) as (ns3 & H3 & Hs3).
      exists ns3. split; [done|]. set_solver.
    + intros q Hq Hs. destruct (s2 !! q) as [ns|] eqn:E; [|by apply Hc2].
      destruct (Hc1 q Hq) as (body & Hb & Hf); [by rewrite E|]. exists body. split; [done|].
      eapply Forall_impl; [exact Hf|]. intros s. by apply satisfied_grows.
Qed.

Lemma bind_completes m n st : completes st (alter (cons n) m st).
Proof.
  split.
  - intros p ns Hp. destruct (decide (m = p)) as [->|Hne].
    + exists (n :: ns). rewrite lookup_alter_eq, Hp. split; [done|set_solver].
    + exists ns. by rewrite lookup_alter_ne.
  - intros q Hq Hs. apply lookup_alter_is_Some in Hs. by destruct Hs as [? Hs]; rewrite Hq in Hs.
Qed.

(** A loop of steps that each complete what they start, and establish [P]. *)
Lemma for_each_completes {X} (P : X → modules → Prop) (f : X → M modules unit) l :
  (∀ x st st', completes st st' → P x st → P x st') →
  (∀ x st st', f x st = (Ok tt, st') → completes st st' ∧ P x st') →
  ∀ st st', for_each f l st = (Ok tt, st') → completes st st' ∧ Forall (λ x, P x st') l.
Proof.
  intros Hmono Hf. induction l as [|x l IH]; intros st st' H; simpl in H; [by injection H as <-|].
  apply bind_inv in H as [([] & s1 & H1 & H)|(? & _ & [=])]. destruct (Hf x st s1 H1) as [Hc1 HP].
  destruct (IH s1 st' H) as [Hc2 HPs]. split; [by etransitivity|]. constructor; [by apply (Hmono x s1)|done].
Qed.

Definition loads_well (ld : mpath → M modules unit) : Prop :=
  ∀ p st st', ld p st = (Ok tt, st') → completes st st' ∧ is_Some (st' !! p).

Lemma names_complete m ns st st' : for_each (bind_name m) ns st = (Ok tt, st') → completes st st'.
Proof.
  intros H. apply (for_each_completes (λ _ _, True) (bind_name m) ns) in H; [by destruct H|done|].
  intros n s1 s2 [= <-]. split; [apply bind_completes|done].
Qed.

Lemma loads_all ld l st st' :
  loads_well ld → for_each ld l st = (Ok tt, st') → completes st st' ∧ ∀ p, p ∈ l → is_Some (st' !! p).
Proof.
  intros Hld H. apply (for_each_completes (λ p st, is_Some (st !! p)) ld l) in H as [Hc H]; [| |done].
  - split; [done|]. intros p Hp. rewrite Forall_forall in H. by apply H.
  - intros p s1 s2 [Hg _]. by apply grows_some.
Qed.

Definition found (st : modules) (u : mpath) (n : string) : Prop :=
  n ∈ default [] (st !! u) ∨ is_Some (st !! (u ++ [n])%list).

Lemma found_grows st st' u n : grows st st' → found st u n → found st' u n.
Proof.
  intros Hg [H|H]; [left|right; by apply (grows_some st)].
  destruct (st !! u) as [ms|] eqn:E; [|by apply elem_of_nil in H].
  destruct (Hg u ms E) as (ms' & -> & Hsub). by apply Hsub.
Qed.

Lemma import_name_completes ld m u na st st' :
  loads_well ld → import_name ld m u na st = (Ok tt, st') → completes st st' ∧ found st' u na.1.
Proof.
  intros Hld H. unfold import_name in H. apply bind_inv in H as [(have & s1 & H1 & H)|(? & _ & [=])].
  injection H1 as <- <-. apply bind_inv in H as [([] & s2 & H2 & H)|(? & _ & [=])]. injection H as <-.
  assert (Hs2 : completes st s2 ∧ found s2 u na.1).
  { destruct (bool_decide_reflect (na.1 ∈ default [] (st !! u))) as [Hin|_].
    - injection H2 as <-. split; [done|by left].
    - destruct (program !! _); [|done]. apply Hld in H2 as [Hc Hs]. split; [done|by right]. }
  destruct Hs2 as [Hc Hf]. pose proof (bind_completes m na.2 s2) as Hb. split; [by etransitivity|].
  apply (found_grows s2); [apply Hb|done].
Qed.

Lemma exec_completes ld m s st st' :
  loads_well ld → exec ld m s st = (Ok tt, st') → completes st st' ∧ satisfied st' s.
Proof.
  intros Hld H. destruct s as [r ns|r n|u ns|n]; simpl in H.
  - destruct (installed r) eqn:Hi; [|done]. split; [by eapply names_complete|done].
  - injection H as <-. split; [apply bind_completes|done].
  - apply bind_inv in H as [([] & s1 & H1 & H)|(? & _ & [=])]. apply loads_all in H1 as [Hc1 Hp]; [|done].
    apply (for_each_completes (λ na st, found st u na.1) (import_name ld m u) ns) in H as [Hc2 Hns].
    + split; [by etransitivity|]. split.
      * intros v Hv. apply (grows_some s1); [apply Hc2|by apply Hp].
      * intros n a Hna. rewrite Forall_forall in Hns. by apply (Hns (n, a)).
    + intros na s2 s3 [Hg _]. by apply found_grows.
    + intros na s2 s3. by apply import_name_completes.
  - injection H as <-. split; [apply bind_completes|done].
Qed.

Lemma load_completes fuel : loads_well (load fuel).
Proof.
  induction fuel as [|f IH]; intros p st st' H; [done|]. simpl in H.
  apply bind_inv in H as [(known & s1 & H1 & H)|(? & _ & [=])]. injection H1 as <- <-.
  destruct (bool_decide_reflect (is_Some (st !! p))) as [Hs|Hn]; [by injection H as <-|].
  apply eq_None_not_Some in Hn. destruct (program !! p) as [body|] eqn:Hb; [|done].
  apply bind_inv in H as [([] & s1 & H1 & H)|(? & _ & [=])]. injection H1 as <-.
  unfold on_exit in H. destruct (for_each _ body _) as [[[]|e] s2] eqn:Hl; [|done]. injection H as <-.
  apply (for_each_completes (λ s st, satisfied st s)) in Hl as [[Hg Hc] Hsat].
  - split; [|apply (grows_some (<[p:=[]]> st)); [done|by rewrite lookup_insert_eq; eexists]]. split.
    + intros q ns Hq. apply (Hg q ns). rewrite lookup_insert_ne; [done|]. intros ->. by rewrite Hn in Hq.
    + intros q Hq Hs. destruct (decide (p = q)) as [<-|Hne]; [by exists body|].
      apply Hc; [by rewrite lookup_insert_ne|done].
  - intros s s1 s3 [Hg' _]. by apply satisfied_grows.
  - intros s s1 s3. apply exec_completes, IH.
Qed.

(** *** Only what a module declares is ever bound in it *)

Definition named (st : modules) : Prop :=
  ∀ q ns, st !! q = Some ns → ∃ body, program !! q = Some body ∧ ns ⊆ declared body.

Lemma preserves_each_in {X : Type} (I : modules → Prop) (f : X → M modules unit) l :
  (∀ x, x ∈ l → preserves I (f x)) → preserves I (for_each f l).
Proof.
  induction l as [|x l IH]; intros Hf; simpl; [apply preserves_ret|].
  apply preserves_bind; [apply Hf; set_solver|]. intros _. apply IH. intros y Hy. apply Hf. set_solver.
Qed.

Lemma bind_named m n body : program !! m = Some body → n ∈ declared body → preserves named (bind_name m n).
Proof.
  intros Hb Hn st Hst q ns. simpl. destruct (decide (m = q)) as [<-|Hne].
  - rewrite lookup_alter_eq. destruct (st !! m) as [ms|] eqn:E; [|done]. intros [= <-].
    destruct (Hst m ms E) as (b & Hb' & Hsub). rewrite Hb in Hb'. injection Hb' as <-. exists body. split; [done|].
    intros x [->|Hx]%elem_of_cons; [done|by apply Hsub].
  - rewrite lookup_alter_ne by done. apply Hst.
Qed.

Lemma declared_in s body n : s ∈ body → n ∈ binds s → n ∈ declared body.
Proof. intros Hs Hn. apply list_elem_of_bind. eauto. Qed.

Lemma exec_named ld m s body :
  (∀ p, preserves named (ld p)) → program !! m = Some body → s ∈ body → preserves named (exec ld m s).
Proof.
  intros Hld Hb Hs. pose proof (λ n Hn, bind_named m n body Hb (declared_in s body n Hs Hn)) as Hbind.
  destruct s as [r ns|r n|u ns|n]; simpl in *.
  - destruct (installed r); [|apply preserves_raise]. apply preserves_each_in. auto.
  - apply Hbind. set_solver.
  - apply preserves_bind; [by apply preserves_each_in|]. intros _. apply preserves_each_in. intros [n a] Hna.
    apply preserves_bind; [apply preserves_gets|]. intros have. apply preserves_bind.
    + destruct have; [apply preserves_ret|].
      destruct (program !! (u ++ [n])%list) eqn:Hsub; simpl; rewrite Hsub; [apply Hld|apply preserves_raise].
    + intros _. apply Hbind. simpl. apply list_elem_of_fmap. by exists (n, a).
  - apply Hbind. set_solver.
Qed.

Lemma load_named fuel p : preserves named (load fuel p).
Proof.
  revert p. induction fuel as [|f IH]; intros p; simpl; [apply preserves_raise|].
  apply preserves_bind; [apply preserves_gets|]. intros known. destruct known; [apply preserves_ret|].
  destruct (program !! p) as [body|] eqn:Hb; [|apply preserves_raise].
  apply preserves_bind.
  - intros st Hst q ns. simpl. destruct (decide (p = q)) as [<-|Hne].
    + rewrite lookup_insert_eq. intros [= <-]. exists body. set_solver.
    + rewrite lookup_insert_ne by done. apply Hst.
  - intros _. apply preserves_on_exit; [|apply preserves_ret|].
    + apply preserves_each_in. intros s Hs. by apply (exec_named _ _ _ body).
    + intros st Hst q ns. simpl. intros [_ H]%lookup_delete_Some. by apply Hst.
Qed.

(** *** What an import reaches *)

Definition declares (p : mpath) (n : string) : bool :=
  match program !! p with Some body => bool_decide (n ∈ declared body) | None => false end.

(** The modules a statement needs: the packages of the other module, and those of its
    submodules that are named. *)
Definition needed (s : stmt) : list mpath :=
  match s with
  | From u ns => prefixes u ++ ((λ n, u ++ [n])%list <$> filter (λ n, declares u n = false) ns.*1)
  | _ => []
  end.
Definition body_of (p : mpath) : list stmt := default [] (program !! p).

(** Everything needed from [ps], in [k] steps. *)
Fixpoint reach (k : nat) (ps : list mpath) : list mpath :=
  match k with
  | O => ps
  | S k' => let next := ps ≫= λ p, body_of p ≫= needed in reach k' (remove_dups (ps ++ next))
  end.

(** A state in which every module has been executed to its end. *)
Definition complete (st : modules) : Prop :=
  named st ∧ ∀ p, is_Some (st !! p) → ∃ body, program !! p = Some body ∧ Forall (satisfied st) body.

Lemma import_complete fuel p st : import_module fuel p ∅ = (Ok tt, st) → complete st ∧ ∀ v, v ∈ prefixes p → is_Some (st !! v).
Proof.
  intros H. pose proof H as Hn. apply loads_all in H as [[_ Hc] Hp]; [|apply load_completes]. split; [split|done].
  - assert (Hpres : preserves named (import_module fuel p)) by (apply preserves_each_in; intros v _; apply load_named).
    specialize (Hpres ∅). rewrite Hn in Hpres. apply Hpres. intros q ns Hq. by rewrite lookup_empty in Hq.
  - intros q. apply Hc. apply lookup_empty.
Qed.

Lemma found_declared st u n : complete st → found st u n → declares u n = true ∨ is_Some (st !! (u ++ [n])%list).
Proof.
  intros [Hn _] [H|H]; [left|by right]. destruct (st !! u) as [ms|] eqn:E; [|by apply elem_of_nil in H].
  destruct (Hn u ms E) as (body & Hb & Hsub). unfold declares. rewrite Hb. apply bool_decide_eq_true. by apply Hsub.
Qed.

Lemma needed_there st s v : complete st → satisfied st s → v ∈ needed s → is_Some (st !! v).
Proof.
  intros Hc Hs Hv. destruct s as [r ns|r n|u ns|n]; simpl in Hv; try (by apply elem_of_nil in Hv).
  destruct Hs as [Hu Hn]. apply elem_of_app in Hv as [Hv|Hv]; [by apply Hu|].
  apply list_elem_of_fmap in Hv as (n & -> & Hv). apply list_elem_of_filter in Hv as [Hd Hin].
  apply list_elem_of_fmap in Hin as ([n' a] & -> & Hin). simpl in *.
  destruct (found_declared st u n' Hc (Hn n' a Hin)) as [H|H]; [by rewrite Hd in H|done].
Qed.

Lemma reach_there st k ps :
  complete st → (∀ p, p ∈ ps → is_Some (st !! p)) → ∀ q, q ∈ reach k ps → is_Some (st !! q).
Proof.
  intros Hc. revert ps. induction k as [|k IH]; intros ps Hps q Hq; [by apply Hps|]. simpl in Hq.
  apply (IH _) in Hq; [done|]. intros v Hv. apply elem_of_remove_dups, elem_of_app in Hv as [Hv|Hv]; [by apply Hps|].
  apply list_elem_of_bind in Hv as (p & Hv & Hp). apply list_elem_of_bind in Hv as (s & Hv & Hs).
  destruct (proj2 Hc p (Hps p Hp)) as (body & Hb & Hf). unfold body_of in Hs. rewrite Hb in Hs. simpl in Hs.
  rewrite Forall_forall in Hf. apply (needed_there st s v Hc); [by apply Hf|done].
Qed.

(** The other packages a set of modules imports from, and whether the modules it names are there. *)
Definition roots (ps : list mpath) : list string :=
  remove_dups (ps ≫= λ p, body_of p ≫= λ s, match s with External r _ => [r] | _ => [] end).
Definition all_there (ps : list mpath) : bool := forallb (λ p, bool_decide (is_Some (program !! p))) ps.

(** A module that can be imported reaches only modules that exist, and every
    package they import from is installed. *)
Lemma import_needs fuel p st k :
  import_module fuel p ∅ = (Ok tt, st) →
  let ps := reach k (prefixes p) in all_there ps = true ∧ ∀ r, r ∈ roots ps → installed r = true.
Proof.
  intros H ps. apply import_complete in H as [Hc Hp].
  pose proof (reach_there st k (prefixes p) Hc Hp) as Hr. fold ps in Hr. split.
  - apply forallb_forall. intros q Hq%list_elem_of_In. apply bool_decide_eq_true.
    destruct (proj2 Hc q (Hr q Hq)) as (body & -> & _). by eexists.
  - intros r Hin. apply elem_of_remove_dups, list_elem_of_bind in Hin as (q & Hin & Hq).
    apply list_elem_of_bind in Hin as (s & Hin & Hs). destruct (proj2 Hc q (Hr q Hq)) as (body & Hb & Hf).
    unfold body_of in Hs. rewrite Hb in Hs. simpl in Hs. rewrite Forall_forall in Hf. specialize (Hf s Hs).
    destruct s as [r' ns|? ?|? ?|?]; simpl in Hin; try (by apply elem_of_nil in Hin).
    apply list_elem_of_singleton in Hin as ->. exact Hf.
Qed.
End Importing.

(** ** More packages do no harm *)

Section More.
Context (program : gmap mpath (list stmt)) (i1 i2 : string → bool).
Hypothesis more : ∀ r, i1 r = true → i2 r = true.

Definition follows {X : Type} (f g : X → M modules unit) : Prop := ∀ x st st', f x st = (Ok tt, st') → g x st = (Ok tt, st').

Lemma each_follows {X : Type} (f g : X → M modules unit) l : follows f g → follows (λ _ : unit, for_each f l) (λ _, for_each g l).
Proof.
  intros Hfg []. induction l as [|x l IH]; intros st st' H; [done|]. simpl in *.
  apply bind_inv in H as [([] & s1 & H1 & H)|(? & _ & [=])]. rewrite (bind_ok _ _ _ tt s1); [by apply IH|by apply Hfg].
Qed.

Lemma exec_follows l1 l2 m : follows l1 l2 → follows (exec program i1 l1 m) (exec program i2 l2 m).
Proof using more.
  intros Hl s st st' H. destruct s as [r ns|r n|u ns|n]; simpl in *; [|done| |done].
  - destruct (i1 r) eqn:Hi; [|done]. by rewrite (more r Hi).
  - apply bind_inv in H as [([] & s1 & H1 & H)|(? & _ & [=])].
    rewrite (bind_ok _ _ _ tt s1); [|by apply (each_follows _ _ _ Hl tt)].
    refine (each_follows (import_name program l1 m u) (import_name program l2 m u) ns _ tt s1 st' H). intros [n a] s2 s3 Hn. unfold import_name in *.
    apply bind_inv in Hn as [(have & s4 & H4 & Hn)|(? & _ & [=])]. injection H4 as <- <-.
    apply bind_inv in Hn as [([] & s5 & H5 & Hn)|(? & _ & [=])]. rewrite (bind_ok _ _ _ _ s2) by done.
    rewrite (bind_ok _ _ _ tt s5); [done|]. destruct (bool_decide _); [done|].
    destruct (program !! (u ++ [(n, a).1])%list); [by apply Hl|done].
Qed.

Lemma load_follows fuel : follows (load program i1 fuel) (load program i2 fuel).
Proof using more.
  induction fuel as [|f IH]; intros p st st' H; [done|]. simpl in *.
  apply bind_inv in H as [(known & s1 & H1 & H)|(? & _ & [=])]. injection H1 as <- <-.
  rewrite (bind_ok _ _ _ _ st) by done. destruct (bool_decide (is_Some (st !! p))); [done|].
  destruct (program !! p) as [body|]; [|done].
  apply bind_inv in H as [([] & s1 & H1 & H)|(? & _ & [=])]. injection H1 as <-.
  rewrite (bind_ok _ _ _ tt (<[p:=[]]> st)) by done. unfold on_exit in *.
  destruct (for_each (exec program i1 _ p) body _) as [[[]|e] s2] eqn:Hl; [|done].
  apply (each_follows _ _ _ (exec_follows _ _ p IH) tt) in Hl. by rewrite Hl.
Qed.

Lemma import_follows fuel p st : import_module program i1 fuel p ∅ = (Ok tt, st) → import_module program i2 fuel p ∅ = (Ok tt, st).
Proof using more. apply (each_follows _ _ _ (load_follows fuel) tt). Qed.
End More.
