(* ===== verification/Modules.v ===== *)
(** * The modules of the program

    Every module under src/ that is imported by name or run as a script, by what its
    top level imports and binds, in the order of the file (but for what a loop or a
    condition at top level binds); the packages without code;
    and which of the services can be imported where.  Alembic loads env.py and the revisions
    by their path: those are in Migrations.v and Revisions.v. *)

From Stdlib Require Import Bool List Ascii String.
From stdpp Require Import base decidable list option strings gmap.
From S2P Require Import Prelude PyMonad Imports.
Open Scope string_scope.
Open Scope py_scope.

(** ** api_gateway *)

Definition m_api_gateway_src_app : list stmt := [
  From ["app"; "main"] [("app", "app")]].

Definition m_api_gateway_src_middleware_rate_limit : list stmt := [
  External "__future__" ["annotations"]; External "time" ["time"]; External "dataclasses" ["dataclass"];
  External "redis.asyncio" ["Redis"]; Binds "WebSocketRateLimiter"].

Definition m_api_gateway_src_routes_ws : list stmt := [
  External "__future__" ["annotations"]; External "asyncio" ["asyncio"]; External "logging" ["logging"];
  External "datetime" ["datetime"; "timezone"]; External "uuid" ["uuid4"];
  External "fastapi" ["APIRouter"; "WebSocket"; "WebSocketDisconnect"];
  External "fastapi.responses" ["JSONResponse"]; External "redis.asyncio" ["Redis"];
  From ["api_gateway"; "src"; "middleware"; "rate_limit"] [("WebSocketRateLimiter", "WebSocketRateLimiter")];
  From ["api_gateway"; "src"; "ws"; "auth"] [("authenticate_websocket", "authenticate_websocket"); ("periodic_revalidate", "periodic_revalidate")];
  From ["api_gateway"; "src"; "ws"; "manager"] [("RedisConnectionManager", "RedisConnectionManager")];
  From ["app"; "core"; "config"] [("settings", "settings")]; Binds "logger"; Binds "router"; Binds "_redis";
  Binds "_topic_allowed"; Binds "websocket_endpoint"; Binds "deprecated_heartbeat"].

Definition m_api_gateway_src_ws_auth : list stmt := [
  External "__future__" ["annotations"]; External "asyncio" ["asyncio"];
  External "datetime" ["datetime"; "timezone"]; External "typing" ["Dict"]; External "fastapi" ["WebSocket"];
  External "redis.asyncio" ["Redis"]; From ["app"; "core"; "security"] [("verify_token", "verify_token")];
  Binds "authenticate_websocket"; Binds "periodic_revalidate"].

Definition m_api_gateway_src_ws_manager : list stmt := [
  External "__future__" ["annotations"]; External "asyncio" ["asyncio"]; External "json" ["json"];
  External "dataclasses" ["dataclass"]; External "datetime" ["datetime"; "timezone"];
  External "typing" ["Dict"; "List"]; External "fastapi" ["WebSocket"]; External "redis.asyncio" ["Redis"];
  Binds "ConnectionMeta"; Binds "RedisConnectionManager"].

(** ** app *)

Definition m_app_db : list stmt := [
  External "sqlalchemy" ["create_engine"]; External "sqlalchemy.orm" ["DeclarativeBase"; "sessionmaker"];
  From ["app"; "core"; "config"] [("settings", "settings")]; Binds "Base"; Binds "engine"; Binds "SessionLocal";
  Binds "get_db"].

Definition m_app_main : list stmt := [
  External "__future__" ["annotations"]; External "asyncio" ["asyncio"]; External "os" ["os"];
  External "contextlib" ["asynccontextmanager"]; External "fastapi" ["FastAPI"];
  External "fastapi.responses" ["JSONResponse"; "RedirectResponse"; "Response"];
  External "prometheus_client" ["CONTENT_TYPE_LATEST"; "generate_latest"]; External "redis.asyncio" ["Redis"];
  From ["app"; "api"; "routes"] [("auth", "auth"); ("health", "health"); ("vault", "vault")];
  From ["app"; "core"; "config"] [("settings", "settings")];
  From ["app"; "db"] [("Base", "Base"); ("engine", "engine")];
  From ["api_gateway"; "src"; "routes"; "ws"] [("router", "distributed_ws_router")]; Binds "REQUIRED_ENV_VARS";
  Binds "lifespan"; Binds "app"; Binds "metrics"; Binds "readiness"; Binds "deprecated_heartbeat";
  Binds "deprecated_ws_endpoint"].

Definition m_app_models : list stmt := [
  External "datetime" ["datetime"]; External "enum" ["Enum"];
  External "sqlalchemy" ["JSON"; "Boolean"; "DateTime"; "SAEnum"; "ForeignKey"; "Integer"; "LargeBinary"; "String"; "UniqueConstraint"];
  External "sqlalchemy.orm" ["Mapped"; "mapped_column"; "relationship"]; From ["app"; "db"] [("Base", "Base")];
  Binds "Role"; Binds "AuditAction"; Binds "User"; Binds "RefreshToken"; Binds "AuditTrail"; Binds "ApiKeyVault"].

Definition m_app_schemas : list stmt := [
  External "datetime" ["datetime"]; External "pydantic" ["BaseModel"; "EmailStr"; "Field"];
  From ["app"; "models"] [("Role", "Role")]; Binds "RegisterRequest"; Binds "LoginRequest"; Binds "TokenPair";
  Binds "RefreshRequest"; Binds "UserOut"; Binds "VaultKeyUpsertRequest"; Binds "VaultKeyView";
  Binds "VaultTestRequest"; Binds "VaultTestResponse"].

Definition m_app_api_deps : list stmt := [
  External "fastapi" ["Depends"; "HTTPException"];
  External "fastapi.security" ["HTTPAuthorizationCredentials"; "HTTPBearer"]; External "jose" ["JWTError"; "jwt"];
  External "sqlalchemy.orm" ["Session"]; From ["app"; "core"; "config"] [("settings", "settings")];
  From ["app"; "db"] [("get_db", "get_db")]; From ["app"; "models"] [("Role", "Role"); ("User", "User")];
  Binds "bearer"; Binds "get_current_user"; Binds "require_admin"].

Definition m_app_api_routes_auth : list stmt := [
  External "fastapi" ["APIRouter"; "Depends"; "Request"]; External "sqlalchemy.orm" ["Session"];
  From ["app"; "core"; "observability"] [("AUTH_REQUESTS", "AUTH_REQUESTS")];
  From ["app"; "db"] [("get_db", "get_db")];
  From ["app"; "schemas"] [("LoginRequest", "LoginRequest"); ("RefreshRequest", "RefreshRequest"); ("RegisterRequest", "RegisterRequest"); ("TokenPair", "TokenPair"); ("UserOut", "UserOut")];
  From ["app"; "services"] [("auth_service", "auth_service")]; Binds "router"; Binds "register"; Binds "login";
  Binds "refresh"].

Definition m_app_api_routes_health : list stmt := [
  External "fastapi" ["APIRouter"]; Binds "router"; Binds "health"].

Definition m_app_api_routes_vault : list stmt := [
  External "fastapi" ["APIRouter"; "Depends"]; External "sqlalchemy.orm" ["Session"];
  From ["app"; "api"; "deps"] [("get_current_user", "get_current_user")];
  From ["app"; "core"; "observability"] [("VAULT_OPS", "VAULT_OPS")]; From ["app"; "db"] [("get_db", "get_db")];
  From ["app"; "models"] [("User", "User")];
  From ["app"; "schemas"] [("VaultKeyUpsertRequest", "VaultKeyUpsertRequest"); ("VaultKeyView", "VaultKeyView"); ("VaultTestRequest", "VaultTestRequest"); ("VaultTestResponse", "VaultTestResponse")];
  From ["app"; "services"; "vault_service"] [("delete_key", "delete_key"); ("get_key_for_runtime", "get_key_for_runtime"); ("list_keys", "list_keys"); ("upsert_key", "upsert_key")];
  Binds "router"; Binds "get_keys"; Binds "put_key"; Binds "remove_key"; Binds "test_key"].

Definition m_app_api_routes_ws : list stmt := [
  External "datetime" ["datetime"; "timezone"]; External "fastapi" ["APIRouter"; "WebSocket"]; Binds "router";
  Binds "ws_heartbeat"].

Definition m_app_core_config : list stmt := [
  External "__future__" ["annotations"]; External "base64" ["base64"]; External "os" ["os"];
  External "enum" ["Enum"]; External "pathlib" ["Path"]; External "typing" ["Optional"];
  External "cryptography.hazmat.primitives" ["serialization"];
  External "cryptography.hazmat.primitives.asymmetric" ["rsa"];
  External "pydantic" ["Field"; "ValidationError"; "field_validator"; "model_validator"];
  External "pydantic_settings" ["BaseSettings"; "SettingsConfigDict"]; Binds "Environment"; Binds "SSLMode";
  Binds "_read_from_path"; Binds "Settings"; Binds "settings"].

Definition m_app_core_crypto : list stmt := [
  External "os" ["os"]; External "cryptography.hazmat.primitives.ciphers.aead" ["AESGCM"];
  From ["app"; "core"; "config"] [("settings", "settings")]; Binds "_master_key"; Binds "encrypt_secret";
  Binds "decrypt_secret"].

Definition m_app_core_observability : list stmt := [
  External "prometheus_client" ["Counter"; "Histogram"]; Binds "AUTH_REQUESTS"; Binds "VAULT_OPS";
  Binds "REQUEST_LATENCY"].

Definition m_app_core_security : list stmt := [
  External "__future__" ["annotations"]; External "base64" ["base64"]; External "hashlib" ["hashlib"];
  External "secrets" ["secrets"]; External "dataclasses" ["dataclass"];
  External "datetime" ["datetime"; "timedelta"; "timezone"]; External "typing" ["Any"; "Dict"; "Optional"];
  External "uuid" ["uuid4"]; External "argon2" ["PasswordHasher"]; External "jose" ["JWTError"; "jwt"];
  External "redis.asyncio" ["Redis"]; From ["app"; "core"; "config"] [("settings", "settings")]; Binds "ph";
  Binds "TokenPair"; Binds "_private_key_bytes"; Binds "_public_key_bytes"; Binds "hash_password";
  Binds "verify_password"; Binds "_build_claims"; Binds "create_access_token"; Binds "create_refresh_token";
  Binds "create_token_pair"; Binds "decode_payload"; Binds "is_token_revoked"; Binds "revoke_token";
  Binds "revoke_all_user_tokens"; Binds "verify_token"; Binds "rotate_refresh_token"].

Definition m_app_core_telemetry : list stmt := [
  External "__future__" ["annotations"]; External "prometheus_client" ["Counter"; "Gauge"; "Histogram"];
  External "opentelemetry" ["trace"];
  External "opentelemetry.exporter.otlp.proto.grpc.trace_exporter" ["OTLPSpanExporter"];
  External "opentelemetry.instrumentation.asyncpg" ["AsyncPGInstrumentor"];
  External "opentelemetry.instrumentation.fastapi" ["FastAPIInstrumentor"];
  External "opentelemetry.instrumentation.httpx" ["HTTPXClientInstrumentor"];
  External "opentelemetry.sdk.resources" ["Resource"]; External "opentelemetry.sdk.trace" ["TracerProvider"];
  External "opentelemetry.sdk.trace.export" ["BatchSpanProcessor"]; Binds "order_processing_duration_seconds";
  Binds "order_status_changes_total"; Binds "mt5_connection_status"; Binds "risk_incidents_total";
  Binds "backtest_jobs_running"; Binds "configure_telemetry"; Binds "get_tracer"].

Definition m_app_services_audit_service : list stmt := [
  External "sqlalchemy.orm" ["Session"];
  From ["app"; "models"] [("AuditAction", "AuditAction"); ("AuditTrail", "AuditTrail")]; Binds "record_audit"].

Definition m_app_services_auth_service : list stmt := [
  External "datetime" ["datetime"; "timedelta"]; External "fastapi" ["HTTPException"];
  External "sqlalchemy" ["select"]; External "sqlalchemy.orm" ["Session"];
  From ["app"; "core"; "config"] [("settings", "settings")];
  From ["app"; "core"; "security"] [("create_access_token", "create_access_token"); ("create_refresh_token", "create_refresh_token"); ("hash_password", "hash_password"); ("hash_refresh_token", "hash_refresh_token"); ("verify_password", "verify_password")];
  From ["app"; "models"] [("AuditAction", "AuditAction"); ("RefreshToken", "RefreshToken"); ("Role", "Role"); ("User", "User")];
  From ["app"; "schemas"] [("LoginRequest", "LoginRequest"); ("RegisterRequest", "RegisterRequest"); ("TokenPair", "TokenPair")];
  From ["app"; "services"; "audit_service"] [("record_audit", "record_audit")]; Binds "register_user"; Binds "login";
  Binds "refresh_tokens"].

Definition m_app_services_vault_service : list stmt := [
  External "fastapi" ["HTTPException"]; External "sqlalchemy" ["select"]; External "sqlalchemy.orm" ["Session"];
  From ["app"; "core"; "crypto"] [("decrypt_secret", "decrypt_secret"); ("encrypt_secret", "encrypt_secret")];
  From ["app"; "models"] [("ApiKeyVault", "ApiKeyVault"); ("AuditAction", "AuditAction")];
  From ["app"; "services"; "audit_service"] [("record_audit", "record_audit")]; Binds "upsert_key";
  Binds "list_keys"; Binds "delete_key"; Binds "get_key_for_runtime"].

(** ** backtest_service *)

Definition m_backtest_service_src_app : list stmt := [
  External "__future__" ["annotations"]; External "datetime" ["datetime"]; External "pandas" ["pd"];
  External "fastapi" ["FastAPI"];
  From ["backtest_service"; "src"; "engine"; "backtester"] [("BacktestEngine", "BacktestEngine")]; Binds "app";
  Binds "engine"; Binds "_strategy"; Binds "run_walk_forward"; Binds "monte_carlo"; Binds "health"].

Definition m_backtest_service_src_engine_backtester : list stmt := [
  External "__future__" ["annotations"]; External "time" ["time"]; External "dataclasses" ["dataclass"; "field"];
  External "datetime" ["datetime"]; External "typing" ["Callable"; "Dict"; "List"; "Optional"];
  External "numpy" ["np"]; External "pandas" ["pd"]; Binds "CommissionModel"; Binds "SlippageModel";
  Binds "MarginModel"; Binds "BacktestResult"; Binds "BacktestEngine"].

(** ** market_data_service *)

Definition m_market_data_service_src_app : list stmt := [
  External "__future__" ["annotations"]; External "datetime" ["datetime"]; External "typing" ["Dict"; "List"];
  External "fastapi" ["FastAPI"; "HTTPException"; "WebSocket"; "WebSocketDisconnect"];
  External "pydantic" ["BaseModel"];
  From ["market_data_service"; "src"; "providers"; "base"] [("MT5Provider", "MT5Provider"); ("Timeframe", "Timeframe")];
  Binds "app"; Binds "provider"; Binds "SubscriptionIn"; Binds "startup"; Binds "ticks"; Binds "ohlcv";
  Binds "subscribe"; Binds "ws_ticks"; Binds "health"].

Definition m_market_data_service_src_providers_base : list stmt := [
  External "__future__" ["annotations"]; External "asyncio" ["asyncio"]; External "abc" ["ABC"; "abstractmethod"];
  External "dataclasses" ["dataclass"]; External "datetime" ["datetime"]; External "enum" ["Enum"];
  External "typing" ["Callable"; "Dict"; "List"; "Optional"]; Optional "MetaTrader5" "mt5"; Binds "Timeframe";
  Binds "Tick"; Binds "OHLCV"; Binds "MarketDataProvider"; Binds "MT5Provider"].

(** ** ml_service *)

Definition m_ml_service_src_app : list stmt := [
  External "__future__" ["annotations"]; External "fastapi" ["FastAPI"; "HTTPException"];
  From ["ml_service"; "src"; "registry"; "manager"] [("ModelRegistry", "ModelRegistry")]; Binds "app";
  Binds "registry"; Binds "train_model"; Binds "promote_to_production"; Binds "health"].

Definition m_ml_service_src_registry_manager : list stmt := [
  External "__future__" ["annotations"]; External "dataclasses" ["dataclass"; "field"];
  External "datetime" ["datetime"]; External "typing" ["Dict"; "List"; "Optional"]; External "uuid" ["uuid4"];
  External "numpy" ["np"]; External "pandas" ["pd"]; Binds "Model"; Binds "ModelRegistry"].

(** ** news_service *)

Definition m_news_service_src_app : list stmt := [
  External "__future__" ["annotations"]; External "datetime" ["datetime"; "timedelta"];
  External "fastapi" ["FastAPI"];
  From ["news_service"; "src"; "calendar"; "engine"] [("EconomicCalendarEngine", "EconomicCalendarEngine")];
  Binds "app"; Binds "engine"; Binds "fetch_events"; Binds "predict_bias"; Binds "health"].

Definition m_news_service_src_calendar_engine : list stmt := [
  External "__future__" ["annotations"]; External "asyncio" ["asyncio"]; External "logging" ["logging"];
  External "dataclasses" ["dataclass"]; External "datetime" ["datetime"; "timedelta"];
  External "typing" ["Dict"; "List"; "Optional"]; External "httpx" ["httpx"]; External "bs4" ["BeautifulSoup"];
  Binds "logger"; Binds "EconomicEvent"; Binds "EconomicCalendar"; Binds "ForexFactoryProvider";
  Binds "BloombergProvider"; Binds "ReutersProvider"].

(** ** notifier_service *)

Definition m_notifier_service_src_app : list stmt := [
  External "__future__" ["annotations"]; External "asyncio" ["asyncio"]; External "smtplib" ["smtplib"];
  External "dataclasses" ["dataclass"]; External "email.mime.text" ["MIMEText"]; External "typing" ["Dict"];
  External "httpx" ["httpx"]; External "fastapi" ["FastAPI"; "HTTPException"]; External "jinja2" ["Template"];
  External "pydantic" ["BaseModel"]; Binds "app"; Binds "NotifyIn"; Binds "RATE"; Binds "_limited"; Binds "notify";
  Binds "health"].

(** ** scheduler_service *)

Definition m_scheduler_service_src_app : list stmt := [
  External "__future__" ["annotations"]; External "asyncio" ["asyncio"]; External "datetime" ["datetime"];
  External "typing" ["Dict"; "List"]; External "uuid" ["uuid4"];
  External "apscheduler.schedulers.asyncio" ["AsyncIOScheduler"];
  External "apscheduler.triggers.cron" ["CronTrigger"]; External "apscheduler.triggers.interval" ["IntervalTrigger"];
  External "fastapi" ["FastAPI"; "HTTPException"]; External "pydantic" ["BaseModel"]; Binds "app"; Binds "scheduler";
  Binds "_jobs"; Binds "ScheduleIn"; Binds "startup"; Binds "shutdown"; Binds "_execute_job";
  Binds "create_schedule"; Binds "delete_schedule"; Binds "list_schedules"].

(** ** scripts *)

Definition m_scripts_analyze_load_results : list stmt := [
  External "__future__" ["annotations"]; External "json" ["json"]; External "sys" ["sys"]; Binds "main"].

Definition m_scripts_build_load_report : list stmt := [
  External "__future__" ["annotations"]; External "html" ["html"]; External "sys" ["sys"]; Binds "main"].

Definition m_scripts_migration_test : list stmt := [
  External "__future__" ["annotations"]; External "os" ["os"]; External "subprocess" ["subprocess"];
  External "sys" ["sys"]; External "psycopg2" ["psycopg2"]; Binds "run"; Binds "fetch_columns";
  Binds "assert_columns"; Binds "insert_and_verify"; Binds "main"].

Definition m_scripts_paper_trading_burnin : list stmt := [
  External "__future__" ["annotations"]; External "asyncio" ["asyncio"]; External "json" ["json"];
  External "random" ["random"]; External "datetime" ["datetime"; "timedelta"];
  From ["trading_service"; "src"; "connectors"; "mt5"] [("MT5Connector", "MT5Connector"); ("MT5Credentials", "MT5Credentials")];
  Binds "SYMBOLS"; Binds "main"].

Definition m_scripts_validate_mt5_demo : list stmt := [
  External "__future__" ["annotations"]; External "argparse" ["argparse"]; External "asyncio" ["asyncio"];
  External "os" ["os"]; External "sys" ["sys"]; External "datetime" ["datetime"; "timedelta"];
  From ["trading_service"; "src"; "connectors"; "mt5"] [("MT5Connector", "MT5Connector"); ("MT5Credentials", "MT5Credentials"); ("RETCODE_MAPPING", "RETCODE_MAPPING")];
  Binds "run"; Binds "main"].

Definition m_scripts_verify_assets : list stmt := [
  External "pathlib" ["Path"]; External "os" ["os"]; External "re" ["re"]; External "sys" ["sys"]; Binds "compose";
  Binds "mounts"; Binds "missing"; Binds "crt"].

Definition m_scripts_verify_migration : list stmt := [
  External "argparse" ["argparse"]; External "os" ["os"]; External "sys" ["sys"]; Binds "main"].

(** ** trading_service *)

Definition m_trading_service_src_app : list stmt := [
  External "__future__" ["annotations"]; External "os" ["os"]; External "contextlib" ["asynccontextmanager"];
  External "uuid" ["uuid4"]; External "fastapi" ["FastAPI"; "HTTPException"]; External "pydantic" ["BaseModel"];
  From ["trading_service"; "src"; "connectors"; "mt5"] [("MT5ConnectionConfig", "MT5ConnectionConfig"); ("MT5Connector", "MT5Connector"); ("MT5Credentials", "MT5Credentials")];
  From ["trading_service"; "src"; "execution"; "engine"] [("ExecutionEngine", "ExecutionEngine"); ("Order", "Order"); ("OrderSide", "OrderSide"); ("OrderType", "OrderType")];
  From ["trading_service"; "src"; "repositories"; "postgres_repository"] [("PostgresOrderRepository", "PostgresOrderRepository")];
  From ["trading_service"; "src"; "risk"; "engine"] [("RiskEngine", "RiskEngine")]; Binds "DATABASE_URL";
  Binds "OrderIn"; Binds "repository"; Binds "connector"; Binds "risk_engine"; Binds "execution_engine";
  Binds "lifespan"; Binds "app"; Binds "execute_order"; Binds "get_order"; Binds "get_account_info"; Binds "health"].

Definition m_trading_service_src_connectors_mt5 : list stmt := [
  External "__future__" ["annotations"]; External "asyncio" ["asyncio"]; External "logging" ["logging"];
  External "math" ["math"]; External "time" ["time"]; External "dataclasses" ["dataclass"];
  External "datetime" ["datetime"]; External "typing" ["Any"; "Dict"; "List"; "Optional"];
  Optional "MetaTrader5" "mt5"; Binds "logger"; Binds "RETCODE_MAPPING"; Binds "MT5Credentials";
  Binds "MT5ConnectionConfig"; Binds "MT5Connector"].

Definition m_trading_service_src_execution_engine : list stmt := [
  External "__future__" ["annotations"]; External "asyncio" ["asyncio"]; External "logging" ["logging"];
  External "dataclasses" ["asdict"; "dataclass"; "field"]; External "datetime" ["datetime"];
  External "enum" ["Enum"]; External "typing" ["Callable"; "Dict"; "List"; "Optional"]; External "uuid" ["uuid4"];
  Binds "logger"; Binds "OrderStatus"; Binds "OrderSide"; Binds "OrderType"; Binds "Order"; Binds "ExecutionEngine"].

Definition m_trading_service_src_repositories : list stmt := [

  From ["trading_service"; "src"; "repositories"; "postgres_repository"] [("PostgresOrderRepository", "PostgresOrderRepository"); ("PostgresPositionRepository", "PostgresPositionRepository")];
  Binds "__all__"].

Definition m_trading_service_src_repositories_postgres_repository : list stmt := [
  External "__future__" ["annotations"]; External "typing" ["Dict"; "List"];
  From ["trading_service"; "src"; "storage"; "postgres_repository"] [("PostgresRepository", "PostgresRepository")];
  Binds "PostgresOrderRepository"; Binds "PostgresPositionRepository"].

Definition m_trading_service_src_risk_engine : list stmt := [
  External "__future__" ["annotations"]; External "asyncio" ["asyncio"]; External "logging" ["logging"];
  External "dataclasses" ["dataclass"; "field"]; External "datetime" ["datetime"]; External "enum" ["Enum"];
  External "typing" ["Awaitable"; "Callable"; "Dict"; "List"; "Optional"]; Binds "logger"; Binds "RiskRuleType";
  Binds "RiskRule"; Binds "TradeApproval"; Binds "RiskEngine"].

Definition m_trading_service_src_storage_postgres_repository : list stmt := [
  External "__future__" ["annotations"]; External "asyncio" ["asyncio"]; External "json" ["json"];
  External "logging" ["logging"]; External "typing" ["Dict"; "List"; "Optional"]; External "asyncpg" ["asyncpg"];
  External "sqlalchemy.engine" ["URL"]; Binds "logger"; Binds "PostgresRepository"].

(** ** The program *)

(** Packages whose __init__.py is empty. *)
Definition packages : list mpath := [
  ["api_gateway"]; ["api_gateway"; "src"]; ["api_gateway"; "src"; "middleware"]; ["api_gateway"; "src"; "routes"];
  ["api_gateway"; "src"; "ws"]; ["app"]; ["app"; "api"]; ["app"; "api"; "routes"]; ["app"; "core"];
  ["app"; "services"]; ["backtest_service"]; ["backtest_service"; "src"]; ["backtest_service"; "src"; "engine"];
  ["market_data_service"]; ["market_data_service"; "src"]; ["ml_service"]; ["ml_service"; "src"]; ["news_service"];
  ["news_service"; "src"]; ["notifier_service"]; ["notifier_service"; "src"]; ["scheduler_service"];
  ["scheduler_service"; "src"]; ["trading_service"]; ["trading_service"; "src"];
  ["trading_service"; "src"; "connectors"]; ["trading_service"; "src"; "execution"];
  ["trading_service"; "src"; "risk"]; ["trading_service"; "src"; "storage"]].

(** Directories without __init__.py, which are packages all the same. *)
Definition directories : list mpath := [
  ["market_data_service"; "src"; "providers"]; ["ml_service"; "src"; "registry"];
  ["news_service"; "src"; "calendar"]; ["scripts"]].

Definition sources : list (mpath * list stmt) := [
  (["api_gateway"; "src"; "app"], m_api_gateway_src_app);
  (["api_gateway"; "src"; "middleware"; "rate_limit"], m_api_gateway_src_middleware_rate_limit);
  (["api_gateway"; "src"; "routes"; "ws"], m_api_gateway_src_routes_ws);
  (["api_gateway"; "src"; "ws"; "auth"], m_api_gateway_src_ws_auth);
  (["api_gateway"; "src"; "ws"; "manager"], m_api_gateway_src_ws_manager); (["app"; "db"], m_app_db);
  (["app"; "main"], m_app_main); (["app"; "models"], m_app_models); (["app"; "schemas"], m_app_schemas);
  (["app"; "api"; "deps"], m_app_api_deps); (["app"; "api"; "routes"; "auth"], m_app_api_routes_auth);
  (["app"; "api"; "routes"; "health"], m_app_api_routes_health);
  (["app"; "api"; "routes"; "vault"], m_app_api_routes_vault); (["app"; "api"; "routes"; "ws"], m_app_api_routes_ws);
  (["app"; "core"; "config"], m_app_core_config); (["app"; "core"; "crypto"], m_app_core_crypto);
  (["app"; "core"; "observability"], m_app_core_observability); (["app"; "core"; "security"], m_app_core_security);
  (["app"; "core"; "telemetry"], m_app_core_telemetry);
  (["app"; "services"; "audit_service"], m_app_services_audit_service);
  (["app"; "services"; "auth_service"], m_app_services_auth_service);
  (["app"; "services"; "vault_service"], m_app_services_vault_service);
  (["backtest_service"; "src"; "app"], m_backtest_service_src_app);
  (["backtest_service"; "src"; "engine"; "backtester"], m_backtest_service_src_engine_backtester);
  (["market_data_service"; "src"; "app"], m_market_data_service_src_app);
  (["market_data_service"; "src"; "providers"; "base"], m_market_data_service_src_providers_base);
  (["ml_service"; "src"; "app"], m_ml_service_src_app);
  (["ml_service"; "src"; "registry"; "manager"], m_ml_service_src_registry_manager);
  (["news_service"; "src"; "app"], m_news_service_src_app);
  (["news_service"; "src"; "calendar"; "engine"], m_news_service_src_calendar_engine);
  (["notifier_service"; "src"; "app"], m_notifier_service_src_app);
  (["scheduler_service"; "src"; "app"], m_scheduler_service_src_app);
  (["scripts"; "analyze_load_results"], m_scripts_analyze_load_results);
  (["scripts"; "build_load_report"], m_scripts_build_load_report);
  (["scripts"; "migration_test"], m_scripts_migration_test);
  (["scripts"; "paper_trading_burnin"], m_scripts_paper_trading_burnin);
  (["scripts"; "validate_mt5_demo"], m_scripts_validate_mt5_demo);
  (["scripts"; "verify_assets"], m_scripts_verify_assets);
  (["scripts"; "verify_migration"], m_scripts_verify_migration);
  (["trading_service"; "src"; "app"], m_trading_service_src_app);
  (["trading_service"; "src"; "connectors"; "mt5"], m_trading_service_src_connectors_mt5);
  (["trading_service"; "src"; "execution"; "engine"], m_trading_service_src_execution_engine);
  (["trading_service"; "src"; "repositories"], m_trading_service_src_repositories);
  (["trading_service"; "src"; "repositories"; "postgres_repository"], m_trading_service_src_repositories_postgres_repository);
  (["trading_service"; "src"; "risk"; "engine"], m_trading_service_src_risk_engine);
  (["trading_service"; "src"; "storage"; "postgres_repository"], m_trading_service_src_storage_postgres_repository)].

Definition program : gmap mpath (list stmt) :=
  list_to_map (((λ p, (p, [])) <$> packages ++ directories) ++ sources)%list.

(** ** What starts where *)

Definition services : list mpath := [
  ["backtest_service"; "src"; "app"]; ["market_data_service"; "src"; "app"]; ["ml_service"; "src"; "app"];
  ["notifier_service"; "src"; "app"]; ["scheduler_service"; "src"; "app"]; ["trading_service"; "src"; "app"]].

Definition stillborn : list mpath := [["app"; "main"]; ["api_gateway"; "src"; "app"]; ["news_service"; "src"; "app"]].

(** No import goes further than twelve modules deep; following the imports of the imported
    modules five times reaches all there is. *)
Definition depth : nat := 12.
Definition hops : nat := 5.

(** The other modules that [p], and what it imports, import from. *)
Definition needs (p : mpath) : list string := roots program (reach program hops (prefixes p)).

Lemma services_need_only_packages :
  forallb (λ p, let ns := needs p in
    match import_module program (λ r, bool_decide (r ∈ ns)) depth p ∅ with (Ok _, _) => true | _ => false end) services = true.
Proof. vm_compute. reflexivity. Qed.

Lemma stillborn_reach : forallb (λ p, negb (all_there program (reach program hops (prefixes p)))) stillborn = true.
Proof. vm_compute. reflexivity. Qed.

