(* ===== verification/Revisions.v ===== *)
(** * The chain of revisions and Alembic's environment (migrations/versions/, alembic/env.py)

    Each revision names itself and the one before it.  Alembic, which is not part of the sources, is
    the record [AlembicContext] of the calls env.py makes; of its revision map it is said
    here only what a chain is: from a revision to the one before it, down to one
    that has none. *)

From Stdlib Require Import Bool List Ascii String.
From stdpp Require Import base decidable list option strings.
From S2P Require Import Prelude PyMonad.
Open Scope string_scope.
Open Scope py_scope.

(** ** The revisions *)

Record Revision := { revision : string; down_revision : option string }.

Definition timescale_trading_core : Revision :=
  {| revision := "002_timescale_trading_core"; down_revision := Some "0001_init" |}.
Definition align_trading_schema : Revision :=
  {| revision := "003_align_trading_schema"; down_revision := Some "002_timescale_trading_core" |}.
Definition persistence_tables : Revision :=
  {| revision := "004_trading_service_persistence_tables"; down_revision := Some "003_align_trading_schema" |}.

Definition versions : list Revision := [timescale_trading_core; align_trading_schema; persistence_tables].

Definition find_revision (vs : list Revision) (r : string) : option Revision :=
  List.find (λ v, String.eqb (revision v) r) vs.

(** [chain vs r l]: [l] are the revisions from [r] down to the base. *)
Inductive chain (vs : list Revision) : string → list Revision → Prop :=
| chain_base r v : find_revision vs r = Some v → down_revision v = None → chain vs r [v]
| chain_step r v d l : find_revision vs r = Some v → down_revision v = Some d → chain vs d l → chain vs r (v :: l).

(** Where following the revisions from [r] stops: at the base ([inl]) or at a name that no
    revision has ([inr]); the way is not longer than there are revisions, unless it
    goes round. *)
Fixpoint follow (vs : list Revision) (fuel : nat) (r : string) : option (list Revision * option string) :=
  match fuel with
  | O => None
  | S f =>
      match find_revision vs r with
      | None => Some ([], Some r)
      | Some v =>
          match down_revision v with
          | None => Some ([v], None)
          | Some d => option_map (λ p, (v :: p.1, p.2)) (follow vs f d)
          end
      end
  end.

Lemma chain_follow vs r l : chain vs r l → ∀ fuel p, follow vs fuel r = Some p → p = (l, None).
Proof.
  induction 1 as [r v Hv Hd|r v d l Hv Hd _ IH]; intros [|f] p Hf; try done; simpl in Hf; rewrite Hv, Hd in Hf.
  - by injection Hf as <-.
  - destruct (follow vs f d) as [q|] eqn:E; [|done]. injection Hf as <-. by rewrite (IH f q E).
Qed.

(** No revision leads to a base: from each of the three the chain ends at 0001_init, which is
    the SQL file that comes before them and no revision. *)
Theorem no_revision_has_a_base :
  (∀ v l, In v versions → ¬ chain versions (revision v) l) ∧
  follow versions 4 "004_trading_service_persistence_tables" =
    Some ([persistence_tables; align_trading_schema; timescale_trading_core], Some "0001_init").
Proof.
  split; [|reflexivity]. intros v l Hv Hc.
  assert (Hf : ∃ k, follow versions 4 (revision v) = Some (k, Some "0001_init"))
    by (destruct Hv as [<-|[<-|[<-|[]]]]; eexists; reflexivity).
  destruct Hf as [k Hk]. apply (chain_follow _ _ _ Hc) in Hk. discriminate.
Qed.

(** ** env.py *)

(** What [context.configure] is given: a url and literal binds, or a connection and a
    transaction per migration; there is no target metadata. *)
Inductive Configuration :=
| ByUrl (url : option string) (literal_binds : bool) (paramstyle : string)
| ByConnection (transaction_per_migration : bool).

Record AlembicContext (W : Type) := {
  config_file_name : option string;
  file_config : string → M W unit;                  (* logging.config.fileConfig *)
  is_offline_mode : bool;
  get_main_option : string → option string;
  engine_connect : M W unit;                        (* engine_from_config(...).connect(), entered *)
  engine_release : M W unit;                        (* left *)
  configure : Configuration → M W unit;
  begin_transaction : M W unit;
  end_transaction : bool → M W unit;                (* after a result, or after an exception *)
  run_migrations : M W unit
}.
Arguments config_file_name {W}. Arguments file_config {W}. Arguments is_offline_mode {W}.
Arguments get_main_option {W}. Arguments engine_connect {W}. Arguments engine_release {W}.
Arguments configure {W}. Arguments begin_transaction {W}. Arguments end_transaction {W}. Arguments run_migrations {W}.

Section Env.
Context {W : Type} (context : AlembicContext W).

Definition in_transaction : M W unit :=
  begin_transaction context ;;
  on_exit (run_migrations context) (end_transaction context true) (end_transaction context false).

Definition run_migrations_offline : M W unit :=
  configure context (ByUrl (get_main_option context "sqlalchemy.url") true "named") ;;
  in_transaction.

Definition run_migrations_online : M W unit :=
  engine_connect context ;;
  on_exit (configure context (ByConnection true) ;; in_transaction) (engine_release context) (engine_release context).

Definition env_py : M W unit :=
  match config_file_name context with Some f => file_config context f | None => mret tt end ;;
  if is_offline_mode context then run_migrations_offline else run_migrations_online.
End Env.

(** A context that writes down what it is asked, and whose migrations may fail. *)
Inductive Asked := FileConfig (f : string) | Connects | Configures (c : Configuration) | Begins | Migrates | Ends (ok : bool) | Releases.

Definition recorder (offline : bool) (fails : bool) : AlembicContext (list Asked) :=
  let note a := λ l : list Asked, (Ok tt, (l ++ [a])%list) in {|
  config_file_name := None; file_config f := note (FileConfig f); is_offline_mode := offline;
  get_main_option _ := None; engine_connect := note Connects; engine_release := note Releases;
  configure c := note (Configures c); begin_transaction := note Begins; end_transaction ok := note (Ends ok);
  run_migrations := if fails then λ l, (Raise (RuntimeError "migration"), (l ++ [Migrates])%list) else note Migrates |}.

(** Whatever happens to the migrations, they run once, in one transaction, after the
    configuration, and a connection that was opened is released. *)
Lemma migrations_run_in_a_transaction offline fails :
  (env_py (recorder offline fails) []).2 =
    if offline then [Configures (ByUrl None true "named"); Begins; Migrates; Ends (negb fails)]
    else [Connects; Configures (ByConnection true); Begins; Migrates; Ends (negb fails); Releases].
Proof. destruct offline, fails; reflexivity. Qed.
